(* ===== verification/_CoqProject ===== *)
-Q . S2P
Prelude.v
Strs.v
Trim.v
Schema.v
External.v
Fixtures.v
Users.v
Util.v
Oauth.v
AuditLog.v
Invites.v
Sessions.v
Tokens.v
Access.v
Groups.v
GitCreds.v
Config.v
Instances.v
InstanceText.v
OauthStore.v
OauthServer.v
Families.v
McpAuth.v
Webauthn.v
Status.v
Json.v
Sandbox.v
Backend.v
Gitsrc.v
Pool.v
Startup.v
Html.v
Markup.v
Discovery.v
Flow.v
Tenancy.v
Hub.v
Custody.v
Launch.v
ToolTable.v
Server.v
Management.v
Isolation.v
Warm.v
Web.v
Pages.v
AccountPages.v
Router.v
Wire.v
Views.v
Secrecy.v
System.v
Trail.v
Http.v
