(* ===== verification/Prelude.v ===== *)
(** * MCP Hub: verification development

    MCP Hub (src/src) is a multi-user server: people sign in with passkeys, configure MCP
    servers of their own — commands the hub runs, or remote URLs — and give MCP clients
    OAuth or personal access tokens with which the clients call the servers' tools through
    the hub.  This library models the program function by function and proves what makes
    it safe to share: that credentials are checked and spent as they should be, that one
    account cannot reach another's data or processes, and that the parts that run by
    themselves keep the hub in order.

    ** How the code is modelled

    - A handler or a query is a computation [M S E A]: from a state [S] to a result — a
      value or an error — and a state ([bind] and its notations below, scope [hub_scope]).
      The database is the record [Schema.Db] of finite maps, one per table, with the
      UNIQUE, FOREIGN KEY, CASCADE and trigger behaviour of migrations/*.sql; [wf] is its
      integrity.  The process's state is [Hub.hub.Hub]; [System.system.Sys] adds the OAuth
      codes, the ceremonies, the MCP sessions and the counters.
    - Strings are UTF-8 byte strings.  Integers are Z, with [i64_wrap], [u64_wrap] and
      [u32_wrap] where the release build wraps.  Unix times and random values are
      arguments: a handler reads the clock once, and each fresh id, token or nonce it draws
      is a parameter.
    - What is not under src/ is a type class of External.v, or of the file that uses it:
      SHA-256 and base64 ([Digest]), the AEAD ([Aead]), the url crate, shlex, JWT, P-256,
      webauthn-rs, uuid, DNS and child processes ([launch.Children]), the machine
      ([hub.Machine]), rmcp peers and definitions, serde ([system.World]).  The laws a
      theorem relies on are separate classes ([AeadLaws], [JwtLaws], ...) with instances
      in Fixtures.v, where every witness takes its values.

    ** The parts, bottom up

    - Prelude (the monad, [preserves], [quiet], [atomic], tables as finite maps, sorting
      orders, the hint databases [hub] and [hub_rw], [m_inv]), Strs and Trim (Rust's str
      methods), Json, Schema, External, Fixtures.
    - Data: Users (users.rs), Invites, Sessions (auth/session.rs), Tokens, Access, Groups,
      GitCreds (crypto.rs, gitcreds.rs), Config, Util (util.rs), Instances and InstanceText
      (instances.rs), Status (status.rs, metrics.rs, stats.rs), AuditLog (audit.rs).
    - Authorization: Oauth, OauthStore, OauthServer (oauth/*.rs), Families (what rotation
      promises, as an abstract machine the token endpoint refines), Discovery (the metadata
      documents and the consent page), McpAuth (proxy/mod.rs), Flow (the endpoints one
      after another, as a client drives them), Webauthn (auth/webauthn.rs).
    - Processes: Sandbox (sandbox.rs and the file store), Gitsrc (gitsrc.rs), Backend
      (proxy/backend.rs), Pool (one user's pool in proxy/pool.rs), Launch (the start of one
      server, by the pool and by "Test connection"), Warm (a bind over the whole hub, the
      keep-warm and heartbeat passes, the periodic tasks of main.rs), Startup
      ([connect] of db.rs, [AppState::new], the relying party, the signing key, the
      migration of catalogue servers, and [main] up to the listener).
    - Interfaces: Server (proxy/server.rs), ToolTable and Management
      (proxy/management.rs), Html and Web (web.rs: the forms), Pages, AccountPages and
      Views (web.rs: the pages), Router (lib.rs: the form routes), Wire (cookies, the
      signed jar, the response each outcome is sent as, the headers lib.rs adds).
    - The whole: Hub (the state and how a component's operation runs on its part), Custody
      (who holds which credential, and what leaves that alone),
      Tenancy (whose row is whose: [foreign], [confined]), Isolation (the management tools
      and tenancy), Secrecy (what a page depends on), Markup (a scanner of HTML),
      System (a request from its raw credentials, and the transition system of the running
      process), Trail (every credential's entry in the audit log), Http (the response to every
      request of System).

    A component calls another as the code does: [System.system.serve] authenticates a
    request with Sessions or McpAuth and hands it to Router, Management, Server, Webauthn
    or OauthServer, which run the operations of the data files on the hub, and
    [Http.http.respond] says, in Wire's terms, what the caller is sent; Pool decides what
    Launch starts, and Warm puts the two together.  A handler that records what it does
    appends to the audit log it runs beside ([AuditLog.audit.Logged]).

    ** What the theorems show

    - The whole program: after any requests, genuine or forged, and any background work, in
      any order, the database keeps its integrity and the stores their bounds
      ([system_invariant]); a request changes rows and pools of its own account only, unless
      an administrator made it ([tenancy_end_to_end], with [management_isolation],
      [web_isolation], [forged_form_changes_nothing]); and the pages of a user's servers
      are a function of that user's own data ([pages_confidential]).
    - Credentials: codes and refresh tokens are accepted once ([code_single_use],
      [refresh_accepted_once]), the token endpoint accepts the refresh tokens an abstract
      machine of token families accepts ([token_refines_families]), PKCE, client and redirect
      are checked ([authorization_code_sound], [refresh_sound],
      [decision_sound]), tokens open one endpoint ([audience_binding],
      [require_bearer_sound]), discovery leads back to the endpoint it began at
      ([discovery_closes]), and a client that follows the protocol gets tokens that open
      the endpoint it asked for ([oauth_flow_completes]); accounts are created with their passkey and invite or not at all
      ([register_finish_sound], [resolve_account_atomic]); a sign-in's
      cookie comes back as the session it was issued for ([sign_in_round_trip]); sessions
      expire ([load_and_touch_spec]).
    - Backends: the pool's invariant, what a bind does, restarts, what a keep-warm pass
      leaves with and without a sandbox, and that the reaper leaves the warmed pools alone
      ([pool_invariant], [reconcile_spec], [restart_respawns], [warm_all_spec],
      [warmed_pools_survive]); a listed tool can be called ([listed_tool_callable]); the
      probe tells the truth about the launch ([probe_agrees_with_spawn]); a configured
      sandbox is never skipped, a child's environment is fixed name by name, and build
      commands are confined ([sandbox_fails_closed], [child_env_isolated],
      [build_commands_confined]).
    - What people see and what is recorded: every page is well-formed HTML whatever the
      data ([pages_well_formed]), every response carries the security headers, leads
      nowhere but to the hub or a client's registered address and sets only cookies scripts
      cannot read ([responses_hardened]), every accepted form and every tool call is
      audited ([accepted_form_audited], [dispatch_audited]), and no credential appears
      without an entry that says who got it ([credentials_leave_a_trace]).
    - Text and data: variable expansion, environment blocks, configuration bounds, sealing
      round trips, the migration; a retried write ends ([retry_busy_terminates]).

    Theorems without a claim number are facts of the same kind, of less weight, or record
    behaviour one would not expect: the half-filled first bind, the server lost when it is
    disabled and enabled while it connects, a disabled server that keeps running while the
    sandbox is unavailable, an idle timeout too short for the warmer, a resource with a
    trailing slash, and others, each next to the component it is about.

    ** Bounds and fuel

    Recursion that follows the text rather than its structure ([split], [trim], [lines],
    [expand_vars], the argv scan) has the length of the text as fuel; each turn consumes at
    least one byte, and [expand_vars_loop_fuel], [trim_start_fuel_done] and
    [lines_concat] show it is enough.  Nothing else runs on fuel.  The release profile's
    wrap-around is written out where a value can reach it (sandbox uids, session
    deadlines, the response limit).

    ** Not modelled, and why

    - Failures of SQLite other than constraint violations and the locked database of
      oauth/store.rs, and of reads in particular: handlers that map them to "nothing" or
      to an internal error do so uniformly.
    - The text of error details that come from outside (serde, rmcp, the operating system).
    - Concurrency inside a handler: a request is one step, except where the code's own
      locking leaves a window that matters (tool calls and their session binding, spawn
      tasks and their pool, ceremonies), which is modelled as separate steps.
    - Logging, static files and the browser's scripts; the listener and its shutdown; the
      history of the migrations other than their final schema and the catalogue
      migration. *)

From stdpp Require Export base tactics strings gmap fin_maps list option sorting.
From Stdlib Require Export ZArith Lia.

Declare Scope hub_scope.
Delimit Scope hub_scope with hub.

(** [hub] collects the preservation lemmas, [hub_rw] equations. *)
Create HintDb hub.
Create Rewrite HintDb hub_rw.

(** ** Results and the state/error monad

    A Rust [Result<A, E>], and a computation that threads a mutable state [S]
    and may fail: effects performed before an error persist, as they do in the
    program. *)
Inductive result (E A : Type) : Type :=
| Ok (a : A)
| Err (e : E).
Arguments Ok {E A} a.
Arguments Err {E A} e.

Definition bind_result {E A B} (r : result E A) (k : A → result E B) : result E B :=
  match r with Ok a => k a | Err e => Err e end.
Notation "'let?' x := r 'in' k" := (bind_result r (λ x, k))
  (at level 10, x pattern, r at level 99, k at level 200) : hub_scope.
(** [r.ok()]. *)
Definition ok {E A} (r : result E A) : option A :=
  match r with Ok a => Some a | Err _ => None end.

(** [r.is_ok()]. *)
Definition is_ok {E A} (r : result E A) : bool :=
  match r with Ok _ => true | Err _ => false end.

Definition M (S E A : Type) : Type := S → result E A * S.

Definition ret {S E A} (a : A) : M S E A := λ s, (Ok a, s).
Definition fail {S E A} (e : E) : M S E A := λ s, (Err e, s).
Definition bind {S E A B} (m : M S E A) (k : A → M S E B) : M S E B :=
  λ s, match m s with
       | (Ok a, s') => k a s'
       | (Err e, s') => (Err e, s')
       end.
(** [get] reads a projection of the state, [modify] updates it. *)
Definition gets {S E A} (f : S → A) : M S E A := λ s, (Ok (f s), s).
Definition modify {S E} (f : S → S) : M S E unit := λ s, (Ok tt, f s).
(** [let _ = op;]: run [m], keep its effects, ignore its result. *)
Definition ignore {S E F A} (m : M S E A) : M S F unit :=
  λ s, (Ok tt, (m s).2).
(** [.map_err(f)]. *)
Definition map_err {S E F A} (f : E → F) (m : M S E A) : M S F A :=
  λ s, match m s with
       | (Ok a, s') => (Ok a, s')
       | (Err e, s') => (Err (f e), s')
       end.
(** [match op.await { ... }]: run [m] and hand its result to the continuation. *)
Definition catch {S E F A B} (m : M S E A) (k : result E A → M S F B) : M S F B :=
  λ s, k (m s).1 (m s).2.
(** [opt.ok_or_else(|| e)?]. *)
Definition ok_or {S E A} (o : option A) (e : E) : M S E A :=
  match o with Some a => ret a | None => fail e end.
(** A pure [Result] in the monad: [r?]. *)
Definition lift {S E A} (r : result E A) : M S E A := λ s, (r, s).
(** [if b { return Err(e) }]. *)
Definition refuse_if {S E} (b : bool) (e : E) : M S E unit :=
  if b then fail e else ret tt.

Notation "'let*' x := m 'in' k" := (bind m (λ x, k))
  (at level 10, x pattern, m at level 99, k at level 200) : hub_scope.
Notation "m ;;; k" := (bind m (λ _, k))
  (at level 100, right associativity) : hub_scope.

(** [for x in l { body(x)?; }]. *)
Fixpoint for_each {S E A} (body : A → M S E unit) (l : list A) : M S E unit :=
  match l with
  | [] => ret tt
  | x :: l => (body x ;;; for_each body l)%hub
  end.

(** A database transaction: an error rolls every effect back. *)
Definition transaction {S E A} (m : M S E A) : M S E A :=
  λ s, match m s with
       | (Ok a, s') => (Ok a, s')
       | (Err e, _) => (Err e, s)
       end.

(** A computation on one component of a larger state. *)
Definition on_fst {S T E A} (m : M S E A) : M (S * T) E A :=
  λ st, ((m st.1).1, ((m st.1).2, st.2)).
Definition on_snd {S T E A} (m : M T E A) : M (S * T) E A :=
  λ st, ((m st.2).1, (st.1, (m st.2).2)).

(** *** Successful runs, step by step *)
Section runs.
Context {S E : Type}.
Implicit Types s : S.
Lemma bind_Ok {A B} (m : M S E A) (k : A → M S E B) s b s' :
  bind m k s = (Ok b, s') → ∃ a s1, m s = (Ok a, s1) ∧ k a s1 = (Ok b, s').
Proof. unfold bind. destruct (m s) as [[a|e] s1]; [eauto|done]. Qed.
(** Any run: [m] failed, or [k] went on. *)
Lemma bind_inv {A B} (m : M S E A) (k : A → M S E B) s r s' :
  bind m k s = (r, s') →
  (∃ e, m s = (Err e, s') ∧ r = Err e) ∨ ∃ a s1, m s = (Ok a, s1) ∧ k a s1 = (r, s').
Proof.
  unfold bind. destruct (m s) as [[a|e] s1]; [eauto|]. intros [= <- <-]. left. eauto.
Qed.
Lemma bind_run {A B} (m : M S E A) (k : A → M S E B) s a s1 :
  m s = (Ok a, s1) → bind m k s = k a s1.
Proof. unfold bind. by intros ->. Qed.
Lemma ok_or_Ok {A} (o : option A) (e : E) s a s' :
  ok_or o e s = (Ok a, s') → o = Some a ∧ s' = s.
Proof. destruct o; cbn; [by intros [= -> ->]|done]. Qed.
Lemma refuse_if_Ok b (e : E) s u s' : refuse_if b e s = (Ok u, s') → b = false ∧ s' = s.
Proof. destruct b; cbn; [done|by intros [= _ ->]]. Qed.
Lemma ret_Ok {A} (a : A) s b s' : ret (E:=E) a s = (Ok b, s') → a = b ∧ s' = s.
Proof. by intros [= -> ->]. Qed.
Lemma gets_Ok {A} (f : S → A) s b s' : gets (E:=E) f s = (Ok b, s') → b = f s ∧ s' = s.
Proof. by intros [= <- <-]. Qed.
Lemma modify_Ok (f : S → S) s u s' : modify (E:=E) f s = (Ok u, s') → s' = f s.
Proof. by intros [= _ <-]. Qed.
Lemma lift_Ok {A} (r : result E A) s a s' : lift r s = (Ok a, s') → r = Ok a ∧ s' = s.
Proof. by intros [= -> ->]. Qed.
Lemma map_err_Ok {F A} (f : E → F) (m : M S E A) s a s' :
  map_err f m s = (Ok a, s') → m s = (Ok a, s').
Proof. unfold map_err. destruct (m s) as [[]]; [by intros [= -> ->]|done]. Qed.
Lemma on_fst_Ok {T A} (m : M S E A) (st : S * T) a st' :
  on_fst m st = (Ok a, st') → m st.1 = (Ok a, st'.1) ∧ st'.2 = st.2.
Proof. unfold on_fst. intros [= <- <-]. by destruct (m st.1). Qed.
Lemma on_snd_Ok {T A} (m : M T E A) (st : S * T) a st' :
  on_snd m st = (Ok a, st') → m st.2 = (Ok a, st'.2) ∧ st'.1 = st.1.
Proof. unfold on_snd. intros [= <- <-]. by destruct (m st.2). Qed.
End runs.

(** *** Invariants of computations

    [preserves I m]: whatever [m] returns, an error included, [I] still holds
    of the state it leaves. *)
Definition preserves {S E A} (I : S → Prop) (m : M S E A) : Prop :=
  ∀ s, I s → I (m s).2.

Section preserves.
Context {S E : Type} (I : S → Prop).
Lemma preserves_ret {A} (a : A) : preserves (E:=E) I (ret a).
Proof. by intros s. Qed.
Lemma preserves_fail {A} e : preserves (E:=E) (A:=A) I (fail e).
Proof. by intros s. Qed.
Lemma preserves_gets {A} (f : S → A) : preserves (E:=E) I (gets f).
Proof. by intros s. Qed.
Lemma preserves_modify f : (∀ s, I s → I (f s)) → preserves (E:=E) I (modify f).
Proof. by intros Hf s Hs; apply Hf. Qed.
Lemma preserves_bind {A B} (m : M S E A) (k : A → M S E B) :
  preserves I m → (∀ a, preserves I (k a)) → preserves I (bind m k).
Proof.
  intros Hm Hk s Hs. specialize (Hm s Hs). unfold bind.
  destruct (m s) as [[a|e] s'] eqn:Em; cbn in *; [by apply Hk|done].
Qed.
(** The same, with what the first step's result is known to satisfy. *)
Lemma preserves_bind_res {A B} (Q : A → Prop) (m : M S E A) (k : A → M S E B) :
  preserves I m → (∀ s a s', I s → m s = (Ok a, s') → Q a) → (∀ a, Q a → preserves I (k a)) →
  preserves I (bind m k).
Proof.
  intros Hm HQ Hk s Hs. specialize (Hm s Hs). unfold bind.
  destruct (m s) as [[a|e] s'] eqn:Em; cbn in *; [|done]. eapply Hk; [|done]. by eapply HQ.
Qed.
Lemma preserves_ignore {F A} (m : M S E A) : preserves I m → preserves (E:=F) I (ignore m).
Proof. intros Hm s Hs. exact (Hm s Hs). Qed.
Lemma preserves_map_err {F A} (f : E → F) (m : M S E A) :
  preserves I m → preserves I (map_err f m).
Proof.
  intros Hm s Hs. specialize (Hm s Hs). unfold map_err.
  by destruct (m s) as [[a|e] s'].
Qed.
Lemma preserves_catch {F A B} (m : M S E A) (k : result E A → M S F B) :
  preserves I m → (∀ r, preserves I (k r)) → preserves I (catch m k).
Proof. intros Hm Hk s Hs. unfold catch. apply Hk, Hm, Hs. Qed.
Lemma preserves_ok_or {A} (o : option A) e : preserves (E:=E) I (ok_or o e).
Proof. destruct o; by intros s. Qed.
Lemma preserves_lift {A} (r : result E A) : preserves (E:=E) I (lift r).
Proof. by intros s. Qed.
Lemma preserves_refuse_if b e : preserves (E:=E) I (refuse_if b e).
Proof. destruct b; by intros s. Qed.
Lemma preserves_transaction {A} (m : M S E A) : preserves I m → preserves I (transaction m).
Proof.
  intros Hm s Hs. specialize (Hm s Hs). unfold transaction.
  by destruct (m s) as [[a|e] s'].
Qed.
Lemma preserves_for_each {A} (body : A → M S E unit) l :
  (∀ x, preserves I (body x)) → preserves I (for_each body l).
Proof.
  intros Hb. induction l as [|x l IH]; [by intros s|].
  apply (preserves_bind (body x) (λ _, for_each body l)); [apply Hb|intros _; exact IH].
Qed.
End preserves.

(** *** Computations whose errors leave no trace

    [quiet m] only reads the state; [atomic m] changes it on success only. *)
Definition quiet {S E A} (m : M S E A) : Prop := ∀ s, (m s).2 = s.
Definition atomic {S E A} (m : M S E A) : Prop := ∀ s e s', m s = (Err e, s') → s' = s.

Section atomic.
Context {S E : Type}.
Lemma quiet_ret {A} (a : A) : quiet (S:=S) (E:=E) (ret a).
Proof. done. Qed.
Lemma quiet_fail {A} (e : E) : quiet (S:=S) (A:=A) (fail e).
Proof. done. Qed.
Lemma quiet_gets {A} (f : S → A) : quiet (E:=E) (gets f).
Proof. done. Qed.
Lemma quiet_lift {A} (r : result E A) : quiet (S:=S) (lift r).
Proof. done. Qed.
Lemma quiet_ok_or {A} (o : option A) (e : E) : quiet (S:=S) (ok_or o e).
Proof. by destruct o. Qed.
Lemma quiet_refuse_if b (e : E) : quiet (S:=S) (refuse_if b e).
Proof. by destruct b. Qed.
Lemma quiet_bind {A B} (m : M S E A) (k : A → M S E B) :
  quiet m → (∀ a, quiet (k a)) → quiet (bind m k).
Proof.
  intros Hm Hk s. specialize (Hm s). unfold bind. destruct (m s) as [[a|e] s1]; cbn in *; subst.
  - apply Hk.
  - done.
Qed.
(** One quiet step of a run that may fail: nothing happened, or the rest ran on the
    same state. *)
Lemma bind_quiet {A B} (m : M S E A) (k : A → M S E B) s r s' :
  quiet m → bind m k s = (r, s') →
  (s' = s ∧ ∃ e, m s = (Err e, s) ∧ r = Err e) ∨ ∃ a, m s = (Ok a, s) ∧ k a s = (r, s').
Proof.
  intros Hm. specialize (Hm s). unfold bind. destruct (m s) as [[a|e] s1]; cbn in Hm; subst.
  - right. eauto.
  - intros [= <- <-]. left. eauto.
Qed.
Lemma quiet_map_err {F A} (f : E → F) (m : M S E A) : quiet m → quiet (map_err f m).
Proof. intros Hm s. specialize (Hm s). unfold map_err. by destruct (m s) as [[] ?]. Qed.
Lemma atomic_quiet {A} (m : M S E A) : quiet m → atomic m.
Proof. intros Hm s e s' Hr. specialize (Hm s). by rewrite Hr in Hm. Qed.
Lemma atomic_modify (f : S → S) : atomic (E:=E) (modify f).
Proof. done. Qed.
Lemma atomic_bind {A B} (m : M S E A) (k : A → M S E B) :
  quiet m → (∀ a, atomic (k a)) → atomic (bind m k).
Proof.
  intros Hm Hk s e s'. specialize (Hm s). unfold bind.
  destruct (m s) as [[a|e'] s1]; cbn in *; subst; [apply Hk|by intros [= _ <-]].
Qed.
(** The last fallible step may be the one that writes. *)
Lemma atomic_bind_ret {A B} (m : M S E A) (f : A → B) :
  atomic m → atomic (let* a := m in ret (f a))%hub.
Proof.
  intros Hm s e s'. unfold bind. destruct (m s) as [[a|e'] s1] eqn:Er; [done|].
  intros [= _ <-]. by eapply Hm.
Qed.
(** Or it is followed by steps that cannot fail. *)
Lemma atomic_bind_total {A B} (m : M S E A) (k : A → M S E B) :
  atomic m → (∀ a s, is_ok (k a s).1 = true) → atomic (bind m k).
Proof.
  intros Hm Hk s e s'. unfold bind. destruct (m s) as [[a|e'] s1] eqn:Er.
  - intros Hr. specialize (Hk a s1). by rewrite Hr in Hk.
  - intros [= _ <-]. by eapply Hm.
Qed.
Lemma atomic_map_err {F A} (f : E → F) (m : M S E A) : atomic m → atomic (map_err f m).
Proof.
  intros Hm s e s'. unfold map_err. destruct (m s) as [[] s1] eqn:Er; [done|].
  intros [= _ <-]. by eapply Hm.
Qed.
Lemma atomic_transaction {A} (m : M S E A) : atomic (transaction m).
Proof. intros s e s'. unfold transaction. destruct (m s) as [[] ?]; [done|]. by intros [= _ <-]. Qed.
Lemma quiet_on_fst {T A} (m : M S E A) : quiet m → quiet (on_fst (T:=T) m).
Proof. intros Hm [s t]. unfold on_fst. cbn. by rewrite (Hm s). Qed.
Lemma atomic_on_fst {T A} (m : M S E A) : atomic m → atomic (on_fst (T:=T) m).
Proof.
  intros Hm [s t] e [s' t']. unfold on_fst. cbn. intros [= Hr <- <-]. f_equal.
  eapply Hm. rewrite <- Hr. by destruct (m s).
Qed.
End atomic.
#[global] Hint Resolve quiet_ret quiet_fail quiet_gets quiet_lift quiet_ok_or quiet_refuse_if
  quiet_bind quiet_map_err quiet_on_fst atomic_quiet atomic_modify atomic_bind atomic_bind_ret
  atomic_map_err atomic_transaction atomic_on_fst : hub.

(** ** Machine integers *)
Definition i64_max : Z := 2^63 - 1.
Definition i64_min : Z := - 2^63.
Definition i64_wrap (z : Z) : Z := (z + 2^63) mod 2^64 - 2^63.
Definition u64_wrap (z : Z) : Z := z mod 2^64.
Definition u32_wrap (z : Z) : Z := z mod 2^32.

Definition in_i64 (z : Z) : Prop := (i64_min ≤ z ≤ i64_max)%Z.

Lemma i64_wrap_id z : in_i64 z → i64_wrap z = z.
Proof.
  unfold in_i64, i64_min, i64_max, i64_wrap. intros [H1 H2].
  rewrite Z.mod_small; lia.
Qed.

Lemma i64_wrap_range z : in_i64 (i64_wrap z).
Proof.
  unfold in_i64, i64_min, i64_max, i64_wrap.
  pose proof (Z.mod_pos_bound (z + 2^63) (2^64) ltac:(lia)). lia.
Qed.

Lemma u32_wrap_range z : (0 ≤ u32_wrap z < 2^32)%Z.
Proof. unfold u32_wrap. apply Z.mod_pos_bound. lia. Qed.

(** ** Automation

    [m_inv] and [inv_m] take monadic runs apart, [bool_prop] turns the model's
    tests into propositions. *)

Ltac unfold_m := unfold ret, fail, bind, gets, modify, ignore, map_err, catch,
  ok_or, refuse_if in *.

(** Case analysis on the innermost match of a hypothesis or of the goal. *)
Ltac break_match_in H :=
  match type of H with
  | context [match ?x with _ => _ end] =>
      lazymatch x with
      | context [match _ with _ => _ end] => fail
      | _ => let E := fresh "E" in destruct x eqn:E
      end
  end.
Ltac break_match :=
  match goal with
  | |- context [match ?x with _ => _ end] =>
      lazymatch x with
      | context [match _ with _ => _ end] => fail
      | _ => let E := fresh "E" in destruct x eqn:E
      end
  end.
(** Run through every path of the computation in [H], closing the absurd ones. *)
Ltac inv_m H :=
  unfold_m; cbn in H;
  repeat (break_match_in H; simplify_eq/=);
  try discriminate.

(** Take every successful run of the context apart. *)
Ltac m_inv :=
  repeat match goal with
  | H : bind _ _ _ = (Ok _, _) |- _ => apply bind_Ok in H as (? & ? & ? & H)
  | H : ok_or _ _ _ = (Ok _, _) |- _ => apply ok_or_Ok in H as [? ?]
  | H : refuse_if _ _ _ = (Ok _, _) |- _ => apply refuse_if_Ok in H as [? ?]
  | H : ret _ _ = (Ok _, _) |- _ => apply ret_Ok in H as [? ?]
  | H : gets _ _ = (Ok _, _) |- _ => apply gets_Ok in H as [? ?]
  | H : modify _ _ = (Ok _, _) |- _ => apply modify_Ok in H
  | H : lift _ _ = (Ok _, _) |- _ => apply lift_Ok in H as [? ?]
  | H : map_err _ _ _ = (Ok _, _) |- _ => apply map_err_Ok in H
  | H : on_fst _ _ = (Ok _, _) |- _ => apply on_fst_Ok in H as [? ?]
  | H : on_snd _ _ = (Ok _, _) |- _ => apply on_snd_Ok in H as [? ?]
  | H : fail _ _ = (Ok _, _) |- _ => discriminate H
  end; simplify_eq/=.

(** Booleans of the model to propositions. *)
Ltac bool_prop :=
  repeat match goal with
  | H : _ && _ = true |- _ => apply andb_true_iff in H; destruct H
  | H : _ || _ = false |- _ => apply orb_false_iff in H; destruct H
  | H : negb _ = true |- _ => apply negb_true_iff in H
  | H : negb _ = false |- _ => apply negb_false_iff in H
  | H : bool_decide _ = true |- _ => apply bool_decide_eq_true in H
  | H : bool_decide _ = false |- _ => apply bool_decide_eq_false in H
  | H : (_ <? _)%Z = true |- _ => apply Z.ltb_lt in H
  | H : (_ <? _)%Z = false |- _ => apply Z.ltb_ge in H
  | H : (_ <=? _)%Z = true |- _ => apply Z.leb_le in H
  | H : (_ <=? _)%Z = false |- _ => apply Z.leb_gt in H
  | H : (_ =? _)%Z = true |- _ => apply Z.eqb_eq in H
  | H : (_ =? _)%Z = false |- _ => apply Z.eqb_neq in H
  | H : (_ <? _)%nat = true |- _ => apply Nat.ltb_lt in H
  | H : (_ <? _)%nat = false |- _ => apply Nat.ltb_ge in H
  | H : (_ <=? _)%nat = true |- _ => apply Nat.leb_le in H
  | H : (_ <=? _)%nat = false |- _ => apply Nat.leb_gt in H
  | H : String.eqb _ _ = true |- _ => apply String.eqb_eq in H
  | H : String.eqb _ _ = false |- _ => apply String.eqb_neq in H
  end.

(** ** [ORDER BY] on one column *)
Definition by_num {A} (f : A → Z) (a b : A) : Prop := (f a ≤ f b)%Z.
Definition by_num_desc {A} (f : A → Z) (a b : A) : Prop := (f b ≤ f a)%Z.
Definition by_text {A} (f : A → string) (a b : A) : Prop := String.leb (f a) (f b) = true.
#[global] Instance by_num_dec {A} (f : A → Z) a b : Decision (by_num f a b).
Proof. unfold by_num. apply _. Defined.
#[global] Instance by_num_desc_dec {A} (f : A → Z) a b : Decision (by_num_desc f a b).
Proof. unfold by_num_desc. apply _. Defined.
#[global] Instance by_text_dec {A} (f : A → string) a b : Decision (by_text f a b).
Proof. unfold by_text. apply _. Defined.

(** ** Generic facts on finite maps used by every table *)
Section maps.
Context {K : Type} `{Countable K} {A B : Type}.

(** [f] is injective on the rows of [t]: a UNIQUE column (or tuple). *)
Definition uniq {C} (f : A → C) (t : gmap K A) : Prop :=
  ∀ i j r s, t !! i = Some r → t !! j = Some s → f r = f s → i = j.

(** Rows whose (nullable) column is set have distinct values. *)
Definition uniq_opt {C} (f : A → option C) (t : gmap K A) : Prop :=
  ∀ i j r s c, t !! i = Some r → t !! j = Some s →
    f r = Some c → f s = Some c → i = j.

(** Every row of [t] satisfies [P]. *)
Definition rows (P : K → A → Prop) (t : gmap K A) : Prop :=
  ∀ i r, t !! i = Some r → P i r.

Lemma rows_empty P : rows P ∅.
Proof. intros i r Hr. by rewrite lookup_empty in Hr. Qed.
Lemma rows_insert P t i r : rows P t → P i r → rows P (<[i:=r]> t).
Proof. intros Ht Hr j s [[<- <-]|[_ ?]]%lookup_insert_Some; eauto. Qed.
Lemma rows_delete P t i : rows P t → rows P (delete i t).
Proof. intros Ht j s [_ ?]%lookup_delete_Some. eauto. Qed.
Lemma rows_filter P (Q : K * A → Prop) `{∀ x, Decision (Q x)} t :
  rows P t → rows P (filter Q t).
Proof. intros Ht j s [? _]%map_lookup_filter_Some. eauto. Qed.
Lemma rows_alter P t i f :
  rows P t → (∀ r, t !! i = Some r → P i r → P i (f r)) → rows P (alter f i t).
Proof.
  intros Ht Hf j s Hs. destruct (decide (i = j)) as [<-|Hne].
  - rewrite lookup_alter_eq in Hs. apply fmap_Some in Hs as (r & Hr & ->). eauto.
  - rewrite lookup_alter_ne in Hs by done. eauto.
Qed.
Lemma rows_fmap P t f :
  (∀ i r, t !! i = Some r → P i r → P i (f r)) → rows P t → rows P (f <$> t).
Proof.
  intros Hf Ht j s Hs. rewrite lookup_fmap in Hs.
  apply fmap_Some in Hs as (r & Hr & ->). eauto.
Qed.
Lemma rows_impl (P Q : K → A → Prop) t :
  rows P t → (∀ i r, t !! i = Some r → P i r → Q i r) → rows Q t.
Proof. intros Ht HPQ i r Hr. eauto. Qed.

Lemma uniq_empty {C} (f : A → C) : uniq f ∅.
Proof. intros i j r s Hr. by rewrite lookup_empty in Hr. Qed.
Lemma uniq_insert {C} (f : A → C) t i r :
  uniq f t → (∀ j s, t !! j = Some s → f s = f r → j = i) → uniq f (<[i:=r]> t).
Proof.
  intros Ht Hr j k s u [[? ?]|[? Hj]]%lookup_insert_Some
    [[? ?]|[? Hk]]%lookup_insert_Some Hf; simplify_eq; try done.
  - symmetry. eapply Hr; [exact Hk|]. congruence.
  - eapply Hr; eauto.
  - eapply Ht; eauto.
Qed.
Lemma uniq_subseteq {C} (f : A → C) (t t' : gmap K A) :
  uniq f t → (∀ i r, t' !! i = Some r → t !! i = Some r) → uniq f t'.
Proof. intros Ht Hsub i j r s Hi Hj. apply Ht; eauto. Qed.
Lemma uniq_delete {C} (f : A → C) t i : uniq f t → uniq f (delete i t).
Proof. intros Ht. eapply uniq_subseteq; [exact Ht|]. by intros ?? []%lookup_delete_Some. Qed.
Lemma uniq_filter {C} (f : A → C) (Q : K * A → Prop) `{∀ x, Decision (Q x)} t :
  uniq f t → uniq f (filter Q t).
Proof. intros Ht. eapply uniq_subseteq; [exact Ht|]. by intros ?? []%map_lookup_filter_Some. Qed.
(** An update that leaves the unique column alone. *)
Lemma uniq_alter {C} (f : A → C) t i g :
  uniq f t → (∀ r, f (g r) = f r) → uniq f (alter g i t).
Proof.
  intros Ht Hg j k r s Hj Hk Hf.
  assert (∀ l u, alter g i t !! l = Some u → ∃ v, t !! l = Some v ∧ f u = f v) as Hold.
  { intros l u Hl. destruct (decide (i = l)) as [<-|Hne].
    - rewrite lookup_alter_eq in Hl. apply fmap_Some in Hl as (v & ? & ->). eauto.
    - rewrite lookup_alter_ne in Hl by done. eauto. }
  apply Hold in Hj as (r' & Hj & Er). apply Hold in Hk as (s' & Hk & Es).
  eapply Ht; [exact Hj|exact Hk|congruence].
Qed.
Lemma uniq_opt_delete {C} (f : A → option C) t i : uniq_opt f t → uniq_opt f (delete i t).
Proof.
  intros Ht j k r s c [_ Hj]%lookup_delete_Some [_ Hk]%lookup_delete_Some.
  by apply Ht.
Qed.
Lemma uniq_opt_empty {C} (f : A → option C) : uniq_opt f ∅.
Proof. intros i j r s c Hr. by rewrite lookup_empty in Hr. Qed.

Lemma uniq_opt_insert {C} (f : A → option C) t i r :
  uniq_opt f t → (∀ j s c, t !! j = Some s → f s = Some c → f r = Some c → j = i) →
  uniq_opt f (<[i:=r]> t).
Proof.
  intros Ht Hr j k s u c [[? ?]|[? Hj]]%lookup_insert_Some
    [[? ?]|[? Hk]]%lookup_insert_Some Hs Hu; simplify_eq; try done.
  - symmetry. eapply Hr; eauto.
  - eapply Hr; eauto.
  - eapply Ht; eauto.
Qed.
(** The rows of a table in which one row was rewritten. *)
Lemma alter_insert (t : gmap K A) i g r :
  t !! i = Some r → alter g i t = <[i:=g r]> t.
Proof.
  intros Hr. apply map_eq. intros j. destruct (decide (i = j)) as [<-|].
  - by rewrite lookup_alter_eq, lookup_insert_eq, Hr.
  - by rewrite lookup_alter_ne, lookup_insert_ne.
Qed.
Lemma alter_none (t : gmap K A) i g : t !! i = None → alter g i t = t.
Proof.
  intros Hr. apply map_eq. intros j. destruct (decide (i = j)) as [<-|].
  - by rewrite lookup_alter_eq, Hr.
  - by rewrite lookup_alter_ne.
Qed.
Lemma uniq_fmap {C} (f : A → C) t g :
  uniq f t → (∀ r, f (g r) = f r) → uniq f (g <$> t).
Proof.
  intros Ht Hg j k r s Hj Hk Hf. rewrite lookup_fmap in Hj, Hk.
  apply fmap_Some in Hj as (r' & Hj & ->). apply fmap_Some in Hk as (s' & Hk & ->).
  rewrite !Hg in Hf. eauto.
Qed.

(** The first row (in key order) satisfying [P]: a query on a unique column. *)
Definition find_row (P : A → bool) (t : gmap K A) : option A :=
  snd <$> head (filter (λ kv, P kv.2 = true) (map_to_list t)).

Lemma find_row_Some P t r : find_row P t = Some r → ∃ i, t !! i = Some r ∧ P r = true.
Proof.
  unfold find_row. intros (kv & Hkv & ->)%fmap_Some.
  apply head_Some_elem_of in Hkv. apply list_elem_of_filter in Hkv as [HP Hin].
  exists kv.1. split; [|done]. apply elem_of_map_to_list. by destruct kv.
Qed.
Lemma find_row_None P t : find_row P t = None → ∀ i r, t !! i = Some r → P r = false.
Proof.
  unfold find_row. intros Hn i r Hr. apply fmap_None, head_None in Hn.
  destruct (P r) eqn:E; [|done]. exfalso.
  assert ((i, r) ∈ filter (λ kv : K * A, P kv.2 = true) (map_to_list t)) as Hin.
  { apply list_elem_of_filter. split; [done|]. by apply elem_of_map_to_list. }
  rewrite Hn in Hin. by apply not_elem_of_nil in Hin.
Qed.
Lemma find_row_unique P t i r :
  t !! i = Some r → P r = true →
  (∀ j s, t !! j = Some s → P s = true → j = i) → find_row P t = Some r.
Proof.
  intros Hr HP Hu. destruct (find_row P t) as [s|] eqn:E.
  - apply find_row_Some in E as (j & Hj & HPs). rewrite (Hu _ _ Hj HPs) in Hj. congruence.
  - pose proof (find_row_None _ _ E _ _ Hr). congruence.
Qed.

(** The same query when the key is selected too. *)
Definition find_kv (P : K → A → bool) (t : gmap K A) : option (K * A) :=
  head (filter (λ kv, P kv.1 kv.2 = true) (map_to_list t)).
Lemma find_kv_Some P t k r : find_kv P t = Some (k, r) → t !! k = Some r ∧ P k r = true.
Proof.
  unfold find_kv. intros Hkv. apply head_Some_elem_of in Hkv.
  apply list_elem_of_filter in Hkv as [HP Hin]. split; [|done].
  by apply elem_of_map_to_list.
Qed.
Lemma find_kv_None P t : find_kv P t = None → ∀ k r, t !! k = Some r → P k r = false.
Proof.
  unfold find_kv. intros Hn k r Hr. apply head_None in Hn.
  destruct (P k r) eqn:E; [|done]. exfalso.
  assert ((k, r) ∈ filter (λ kv : K * A, P kv.1 kv.2 = true) (map_to_list t)) as Hin.
  { apply list_elem_of_filter. split; [done|]. by apply elem_of_map_to_list. }
  rewrite Hn in Hin. by apply not_elem_of_nil in Hin.
Qed.
Lemma find_kv_unique P t k r :
  t !! k = Some r → P k r = true →
  (∀ j s, t !! j = Some s → P j s = true → j = k) → find_kv P t = Some (k, r).
Proof.
  intros Hr HP Hu. destruct (find_kv P t) as [[j s]|] eqn:E.
  - apply find_kv_Some in E as [Hj HPs]. pose proof (Hu _ _ Hj HPs). subst j. congruence.
  - pose proof (find_kv_None _ _ E _ _ Hr). congruence.
Qed.
Lemma find_kv_absent P t : (∀ k r, t !! k = Some r → P k r = false) → find_kv P t = None.
Proof.
  intros Hn. destruct (find_kv P t) as [[k r]|] eqn:E; [|done].
  apply find_kv_Some in E as [Hk HP]. rewrite (Hn _ _ Hk) in HP. done.
Qed.

(** A row that does not match, written over one that did not match either,
    leaves a query on a unique column alone. *)
Lemma find_kv_insert_other P t k r :
  (∀ i j a b, t !! i = Some a → t !! j = Some b → P i a = true → P j b = true → i = j) →
  P k r = false → (∀ r0, t !! k = Some r0 → P k r0 = false) →
  find_kv P (<[k:=r]> t) = find_kv P t.
Proof.
  intros Hu Hr Hold. destruct (find_kv P t) as [[j s]|] eqn:E.
  - apply find_kv_Some in E as [Hj Hs]. assert (j ≠ k) as Hne.
    { intros ->. by rewrite (Hold _ Hj) in Hs. }
    apply find_kv_unique; [by rewrite lookup_insert_ne|done|].
    intros i a [[<- <-]|[_ Ha]]%lookup_insert_Some Hp; [congruence|eauto].
  - apply find_kv_absent. intros i a [[<- <-]|[_ Ha]]%lookup_insert_Some; [done|].
    by apply (find_kv_None _ _ E).
Qed.

(** [SELECT COUNT( * ) ... WHERE P]. *)
Definition count_rows (P : A → bool) (t : gmap K A) : nat :=
  length (filter (λ kv, P kv.2 = true) (map_to_list t)).

Lemma count_rows_pos P t i r : t !! i = Some r → P r = true → 0 < count_rows P t.
Proof.
  intros Hr HP. unfold count_rows.
  assert ((i, r) ∈ filter (λ kv : K * A, P kv.2 = true) (map_to_list t)) as Hin.
  { apply list_elem_of_filter. split; [done|]. by apply elem_of_map_to_list. }
  destruct (filter _ _); [by apply not_elem_of_nil in Hin|cbn; lia].
Qed.
Lemma count_rows_witness P t : 0 < count_rows P t → ∃ i r, t !! i = Some r ∧ P r = true.
Proof.
  unfold count_rows. intros Hc.
  destruct (filter (λ kv : K * A, P kv.2 = true) (map_to_list t)) as [|[i r] l] eqn:E;
    [cbn in Hc; lia|].
  assert ((i, r) ∈ filter (λ kv : K * A, P kv.2 = true) (map_to_list t)) as Hin
    by (rewrite E; constructor).
  apply list_elem_of_filter in Hin as [HP Hin].
  exists i, r. split; [by apply elem_of_map_to_list|done].
Qed.
Lemma count_rows_insert_new P t i r :
  t !! i = None → count_rows P (<[i:=r]> t) = (if P r then 1 else 0) + count_rows P t.
Proof.
  intros Hi. unfold count_rows. rewrite (map_to_list_insert _ _ _ Hi), filter_cons. cbn.
  destruct (P r); cbn; [by rewrite decide_True|by rewrite decide_False].
Qed.
End maps.

Lemma preserves_on_fst {S T E A} (I : S → Prop) (m : M S E A) :
  preserves I m → preserves (λ st : S * T, I st.1) (on_fst m).
Proof. intros Hm [s t] Hs. exact (Hm s Hs). Qed.
Lemma preserves_on_snd {S T E A} (I : S → Prop) (m : M T E A) :
  preserves (λ st : S * T, I st.1) (on_snd m).
Proof. by intros [s t] Hs. Qed.
Lemma preserves_quiet {S E A} (I : S → Prop) (m : M S E A) : quiet m → preserves I m.
Proof. intros Hm s Hs. by rewrite Hm. Qed.
(** Both halves of a pair of states. *)
Definition both {S T} (P : S → Prop) (Q : T → Prop) (st : S * T) : Prop := P st.1 ∧ Q st.2.
Lemma both_on_fst {S T E A} (P : S → Prop) (Q : T → Prop) (m : M S E A) :
  preserves P m → preserves (both P Q) (on_fst m).
Proof. intros Hm [s t] [Hs Ht]. split; [by apply Hm|done]. Qed.
Lemma both_on_snd {S T E A} (P : S → Prop) (Q : T → Prop) (m : M T E A) :
  preserves Q m → preserves (both P Q) (on_snd m).
Proof. intros Hm [s t] [Hs Ht]. split; [done|by apply Hm]. Qed.
#[global] Hint Resolve preserves_on_fst preserves_on_snd both_on_fst both_on_snd : hub.

(** Deleting a key or adding rows with an unrelated column. *)
#[global] Hint Resolve preserves_ret preserves_fail preserves_gets preserves_bind
  preserves_ignore preserves_map_err preserves_catch preserves_ok_or preserves_refuse_if
  preserves_for_each preserves_transaction preserves_lift : hub.
#[global] Hint Resolve rows_empty uniq_empty uniq_opt_empty rows_delete rows_filter
  uniq_delete uniq_filter uniq_opt_delete : hub.
