(* ===== verification/Strs.v ===== *)
(** * Rust strings

    The [str] operations the program uses, on strings of UTF-8 bytes: prefix
    stripping, searching, splitting, trimming by the Unicode [White_Space]
    property, and the byte classes of [u8].  These are operations of the
    language's standard library, so they carry no entry of their own in the
    map; the components below are built on them. *)

From S2P Require Import Prelude.
Open Scope string_scope.

(** ** Bytes *)
Definition byte (c : Ascii.ascii) : N := Ascii.N_of_ascii c.
Definition is_ascii_lowercase (c : Ascii.ascii) : bool :=
  ((97 <=? byte c) && (byte c <=? 122))%N.
Definition is_ascii_uppercase (c : Ascii.ascii) : bool :=
  ((65 <=? byte c) && (byte c <=? 90))%N.
Definition is_ascii_digit (c : Ascii.ascii) : bool :=
  ((48 <=? byte c) && (byte c <=? 57))%N.
Definition is_ascii_alphabetic (c : Ascii.ascii) : bool :=
  is_ascii_lowercase c || is_ascii_uppercase c.
Definition is_ascii_alphanumeric (c : Ascii.ascii) : bool :=
  is_ascii_alphabetic c || is_ascii_digit c.
Definition is_ascii_hexdigit (c : Ascii.ascii) : bool :=
  is_ascii_digit c || ((97 <=? byte c) && (byte c <=? 102))%N ||
  ((65 <=? byte c) && (byte c <=? 70))%N.
Definition to_ascii_lowercase (c : Ascii.ascii) : Ascii.ascii :=
  if is_ascii_uppercase c then Ascii.ascii_of_N (byte c + 32) else c.

Fixpoint str_all (P : Ascii.ascii → bool) (s : string) : bool :=
  match s with EmptyString => true | String c s => P c && str_all P s end.
Fixpoint str_map (f : Ascii.ascii → Ascii.ascii) (s : string) : string :=
  match s with EmptyString => EmptyString | String c s => String (f c) (str_map f s) end.
Fixpoint str_last (c : Ascii.ascii) (s : string) : Ascii.ascii :=
  match s with EmptyString => c | String d s => str_last d s end.
Fixpoint str_rev (s : string) : string :=
  match s with EmptyString => EmptyString | String c s => str_rev s +:+ String c EmptyString end.
Definition is_empty (s : string) : bool :=
  match s with EmptyString => true | _ => false end.
Definition bytes (l : list N) : string :=
  fold_right (λ n s, String (Ascii.ascii_of_N n) s) EmptyString l.

(** The double quote, which a literal of this development does not spell. *)
Definition dquote : string := bytes [34%N].

(** ** Searching *)
(** [s.strip_prefix(p)]. *)
Fixpoint strip_prefix (p s : string) : option string :=
  match p, s with
  | EmptyString, _ => Some s
  | String a p', String b s' => if Ascii.eqb a b then strip_prefix p' s' else None
  | String _ _, EmptyString => None
  end.
Definition starts_with (p s : string) : bool :=
  match strip_prefix p s with Some _ => true | None => false end.

(** [s.split_once(d)]: the text before and after the leftmost [d]; this is also
    [s.find(d)] with the two slices it is used for. *)
Fixpoint split_once (d s : string) : option (string * string) :=
  match strip_prefix d s with
  | Some r => Some (EmptyString, r)
  | None =>
      match s with
      | EmptyString => None
      | String c s' =>
          match split_once d s' with
          | Some (a, b) => Some (String c a, b)
          | None => None
          end
      end
  end.
Definition contains (d s : string) : bool :=
  match split_once d s with Some _ => true | None => false end.

(** [s.split(d)], for a non-empty [d]; [fuel] bounds the number of pieces. *)
Fixpoint split_fuel (fuel : nat) (d s : string) : list string :=
  match fuel with
  | O => [s]
  | S fuel =>
      match split_once d s with
      | Some (a, b) => a :: split_fuel fuel d b
      | None => [s]
      end
  end.
Definition split (d s : string) : list string := split_fuel (String.length s) d s.

(** [s.trim_start_matches(c)] for a character. *)
Fixpoint trim_start_char (c : Ascii.ascii) (s : string) : string :=
  match s with
  | String d s' => if Ascii.eqb c d then trim_start_char c s' else s
  | EmptyString => EmptyString
  end.
Definition trim_end_char (c : Ascii.ascii) (s : string) : string :=
  str_rev (trim_start_char c (str_rev s)).

(** ** Characters of the encoded text *)
(** The UTF-8 encodings of the characters with the [White_Space] property. *)
Definition white_space : list string :=
  map bytes
    ([[9]; [10]; [11]; [12]; [13]; [32]; [194; 133]; [194; 160]; [225; 154; 128]] ++
     map (λ n, [226; 128; n]) [128;129;130;131;132;133;134;135;136;137;138;168;169;175] ++
     [[226; 129; 159]; [227; 128; 128]])%N%list.

Definition strip_any (ps : list string) (s : string) : option string :=
  head (omap (λ p, strip_prefix p s) ps).
Fixpoint trim_start_fuel (fuel : nat) (ps : list string) (s : string) : string :=
  match fuel with
  | O => s
  | S fuel =>
      match strip_any ps s with
      | Some r => trim_start_fuel fuel ps r
      | None => s
      end
  end.
Definition trim_start (s : string) : string :=
  trim_start_fuel (String.length s) white_space s.
Definition trim_end (s : string) : string :=
  let r := str_rev s in
  str_rev (trim_start_fuel (String.length s) (map str_rev white_space) r).
Definition trim (s : string) : string := trim_end (trim_start s).

(** Some character is in the [Cc] category: U+0000..U+001F, U+007F..U+009F. *)
Fixpoint contains_control (s : string) : bool :=
  match s with
  | EmptyString => false
  | String c s' =>
      ((byte c <? 32) || (byte c =? 127))%N ||
      match s' with
      | String d _ => ((byte c =? 194) && (128 <=? byte d) && (byte d <=? 159))%N
      | EmptyString => false
      end || contains_control s'
  end.

(** [String::from_utf8]: the well-formed byte sequences of the standard. *)
Definition in_range (lo hi : N) (c : Ascii.ascii) : bool := ((lo <=? byte c) && (byte c <=? hi))%N.
Definition cont : Ascii.ascii → bool := in_range 128 191.
Fixpoint utf8_valid (s : string) : bool :=
  match s with
  | EmptyString => true
  | String a s1 =>
      if in_range 0 127 a then utf8_valid s1
      else match s1 with
      | EmptyString => false
      | String b s2 =>
          if in_range 194 223 a then cont b && utf8_valid s2
          else match s2 with
          | EmptyString => false
          | String c s3 =>
              if in_range 224 239 a then
                (if (byte a =? 224)%N then in_range 160 191 b
                 else if (byte a =? 237)%N then in_range 128 159 b else cont b) &&
                cont c && utf8_valid s3
              else match s3 with
              | EmptyString => false
              | String d s4 =>
                  in_range 240 244 a &&
                  (if (byte a =? 240)%N then in_range 144 191 b
                   else if (byte a =? 244)%N then in_range 128 143 b else cont b) &&
                  cont c && cont d && utf8_valid s4
              end
          end
      end
  end.

(** [String::from_utf8_lossy]: every maximal ill-formed part becomes U+FFFD. *)
Definition second_ok (a b : Ascii.ascii) : bool :=
  if in_range 194 223 a then cont b
  else if in_range 224 239 a then
    if (byte a =? 224)%N then in_range 160 191 b
    else if (byte a =? 237)%N then in_range 128 159 b else cont b
  else if in_range 240 244 a then
    if (byte a =? 240)%N then in_range 144 191 b
    else if (byte a =? 244)%N then in_range 128 143 b else cont b
  else false.
Definition REPLACEMENT : string := bytes [239; 191; 189]%N.
Fixpoint from_utf8_lossy (s : string) : string :=
  match s with
  | EmptyString => EmptyString
  | String a s1 =>
      if in_range 0 127 a then String a (from_utf8_lossy s1)
      else match s1 with
      | EmptyString => REPLACEMENT
      | String b s2 =>
          if negb (second_ok a b) then REPLACEMENT +:+ from_utf8_lossy s1
          else if in_range 194 223 a then String a (String b (from_utf8_lossy s2))
          else match s2 with
          | EmptyString => REPLACEMENT
          | String c s3 =>
              if negb (cont c) then REPLACEMENT +:+ from_utf8_lossy s2
              else if in_range 224 239 a then
                String a (String b (String c (from_utf8_lossy s3)))
              else match s3 with
              | EmptyString => REPLACEMENT
              | String d s4 =>
                  if negb (cont d) then REPLACEMENT +:+ from_utf8_lossy s3
                  else String a (String b (String c (String d (from_utf8_lossy s4))))
              end
          end
      end
  end.

(** [str::to_lowercase] as far as ASCII text shows it: the ASCII letters, and the
    two other characters whose lower case holds one (U+0130, U+212A). *)
Fixpoint to_lowercase (s : string) : string :=
  match s with
  | EmptyString => EmptyString
  | String a s1 =>
      match s1 with
      | String b s2 =>
          if ((byte a =? 196) && (byte b =? 176))%N
          then String (Ascii.ascii_of_N 105) (bytes [204; 135]%N +:+ to_lowercase s2)
          else match s2 with
          | String c s3 =>
              if ((byte a =? 226) && (byte b =? 132) && (byte c =? 170))%N
              then String (Ascii.ascii_of_N 107) (to_lowercase s3)
              else String (to_ascii_lowercase a) (to_lowercase s1)
          | EmptyString => String (to_ascii_lowercase a) (to_lowercase s1)
          end
      | EmptyString => String (to_ascii_lowercase a) EmptyString
      end
  end.

(** [chars().take(n)]. *)
Fixpoint take_chars (n : nat) (s : string) : string :=
  match s with
  | EmptyString => EmptyString
  | String c r =>
      if cont c then String c (take_chars n r)
      else match n with O => EmptyString | S n => String c (take_chars n r) end
  end.

(** The last [n] characters. *)
Fixpoint count_chars (s : string) : nat :=
  match s with
  | EmptyString => O
  | String c r => if cont c then count_chars r else S (count_chars r)
  end.
Fixpoint skip_conts (s : string) : string :=
  match s with
  | String c r => if cont c then skip_conts r else s
  | EmptyString => EmptyString
  end.
Fixpoint drop_chars (n : nat) (s : string) : string :=
  match n, s with
  | S n, String _ r => drop_chars n (skip_conts r)
  | _, _ => s
  end.
Definition last_chars (n : nat) (s : string) : string := drop_chars (count_chars s - n) s.

(** [split_whitespace().next()]. *)
Fixpoint word (s : string) : string :=
  match s with
  | EmptyString => EmptyString
  | String c s' =>
      match strip_any white_space s with Some _ => EmptyString | None => String c (word s') end
  end.
Definition first_word (s : string) : option string :=
  let w := word (trim_start s) in if is_empty w then None else Some w.

(** ** Facts *)
Lemma append_nil_l s : EmptyString +:+ s = s.
Proof. done. Qed.
Lemma append_cons c s t : String c s +:+ t = String c (s +:+ t).
Proof. done. Qed.
Lemma cons_append_inv c d s t : String c s = String d EmptyString +:+ t → c = d ∧ s = t.
Proof. rewrite append_cons, append_nil_l. by intros [= -> ->]. Qed.
Lemma append_nil_r s : s +:+ EmptyString = s.
Proof. induction s as [|c s IH]; [done|]. by rewrite append_cons, IH. Qed.
Lemma append_assoc (a b c : string) : (a +:+ b) +:+ c = a +:+ (b +:+ c).
Proof. induction a as [|x a IH]; [done|]. by rewrite !append_cons, IH. Qed.
Lemma length_append a b :
  String.length (a +:+ b) = String.length a + String.length b.
Proof. induction a as [|x a IH]; [done|]. rewrite append_cons. cbn. by rewrite IH. Qed.
Lemma append_inj_l a b c : a +:+ b = a +:+ c → b = c.
Proof.
  induction a as [|x a IH]; [done|].
  rewrite !append_cons. intros Heq. injection Heq. apply IH.
Qed.
Lemma append_eq_nil a b : a +:+ b = EmptyString → a = EmptyString ∧ b = EmptyString.
Proof. by destruct a. Qed.
Hint Rewrite append_nil_l append_nil_r append_assoc length_append : hub_rw.

Lemma strip_prefix_app p s : strip_prefix p (p +:+ s) = Some s.
Proof.
  induction p as [|c p IH]; [done|].
  rewrite append_cons. cbn. by rewrite Ascii.eqb_refl.
Qed.
Lemma strip_prefix_Some p s r : strip_prefix p s = Some r ↔ s = p +:+ r.
Proof.
  split; [|intros ->; apply strip_prefix_app].
  revert s. induction p as [|c p IH]; intros s; [by intros [= ->]|].
  destruct s as [|d s]; [done|]. cbn.
  destruct (Ascii.eqb_spec c d) as [->|]; [|done].
  intros ->%IH. done.
Qed.

Lemma starts_with_spec p s : starts_with p s = true ↔ ∃ r, s = p +:+ r.
Proof.
  unfold starts_with. destruct (strip_prefix p s) as [r|] eqn:E.
  - apply strip_prefix_Some in E. split; [by exists r|done].
  - split; [done|]. intros [r ->]. by rewrite strip_prefix_app in E.
Qed.

Lemma split_once_Some d s a b : split_once d s = Some (a, b) → s = a +:+ d +:+ b.
Proof.
  revert a. induction s as [|c s IH]; intros a; cbn.
  - destruct (strip_prefix d "") eqn:E; [|done].
    intros [= <- <-]. by apply strip_prefix_Some in E.
  - destruct (strip_prefix d (String c s)) eqn:E.
    + intros [= <- <-]. by apply strip_prefix_Some in E.
    + destruct (split_once d s) as [[a' b']|] eqn:E'; [|done].
      intros [= <- <-]. by rewrite append_cons, <- (IH a').
Qed.

(** The text before the split does not contain the separator, even when the
    separator's first byte is read after it. *)
Lemma split_once_first d s a b :
  split_once d s = Some (a, b) →
  ∀ x y, a +:+ d = x +:+ d +:+ y → y = EmptyString.
Proof.
  revert a. induction s as [|c s IH]; intros a; cbn.
  - destruct (strip_prefix d "") eqn:E; [|done]. intros [= <- <-] x y Heq.
    apply (f_equal String.length) in Heq. rewrite !length_append in Heq. cbn in Heq.
    destruct y; [done|cbn in Heq; lia].
  - destruct (strip_prefix d (String c s)) eqn:E.
    + intros [= <- <-] x y Heq.
      apply (f_equal String.length) in Heq. rewrite !length_append in Heq. cbn in Heq.
      destruct y; [done|cbn in Heq; lia].
    + destruct (split_once d s) as [[a' b']|] eqn:E'; [|done].
      intros [= <- <-] x y Heq. destruct x as [|z x].
      * exfalso. apply split_once_Some in E'. subst s.
        rewrite <- append_assoc, <- append_cons, <- append_cons, Heq in E.
        rewrite append_nil_l, append_assoc, strip_prefix_app in E. done.
      * rewrite !append_cons in Heq. injection Heq as _ Heq.
        by eapply IH.
Qed.

(** Of two prefixes of one string, the shorter one is a prefix of the other. *)
Lemma append_prefix (p q u v : string) :
  p +:+ q = u +:+ v → (String.length u <= String.length p)%nat → ∃ w, p = u +:+ w.
Proof.
  revert u. induction p as [|x p IH]; intros u Heq Hlen.
  - destruct u; [by exists EmptyString|cbn in Hlen; lia].
  - destruct u as [|z u]; [by exists (String x p)|].
    rewrite !append_cons in Heq. injection Heq as <- Heq.
    destruct (IH _ Heq) as [w ->]; [cbn in Hlen; lia|]. by exists w.
Qed.

(** The converse: a decomposition whose first part holds no occurrence. *)
Lemma split_once_spec d a b :
  (∀ x y, a +:+ d = x +:+ d +:+ y → y = EmptyString) →
  split_once d (a +:+ d +:+ b) = Some (a, b).
Proof.
  induction a as [|c a IH]; intros Hno.
  - rewrite append_nil_l. pose proof (strip_prefix_app d b) as Hp.
    destruct (d +:+ b) as [|e t] eqn:E; cbn; by rewrite Hp.
  - rewrite append_cons. cbn.
    destruct (strip_prefix d (String c (a +:+ d +:+ b))) as [r|] eqn:E.
    + exfalso. apply strip_prefix_Some in E.
      (* [d] occurs at the start: so it is a prefix of [c a d]. *)
      destruct (append_prefix (String c a +:+ d) b d r) as [y Hy].
      { by rewrite append_assoc. }
      { rewrite length_append. cbn. lia. }
      specialize (Hno "" y Hy). subst y.
      rewrite append_nil_r in Hy. apply (f_equal String.length) in Hy.
      rewrite length_append in Hy. cbn in Hy. lia.
    + rewrite IH; [done|]. intros x y Heq. apply (Hno (String c x)).
      by rewrite !append_cons, Heq.
Qed.

Lemma split_once_None d s : split_once d s = None → ∀ a b, s ≠ a +:+ d +:+ b.
Proof.
  induction s as [|c s IH]; cbn.
  - destruct (strip_prefix d "") eqn:E; [done|]. intros _ a b Heq.
    symmetry in Heq. apply append_eq_nil in Heq as [-> Heq].
    apply append_eq_nil in Heq as [-> ->]. done.
  - destruct (strip_prefix d (String c s)) eqn:E; [done|].
    destruct (split_once d s) as [[]|]; [done|]. intros _ a b Heq.
    destruct a as [|x a].
    + rewrite append_nil_l in Heq. rewrite Heq, strip_prefix_app in E. done.
    + rewrite append_cons in Heq. injection Heq as _ Heq. by apply (IH eq_refl a b).
Qed.

Lemma split_once_length d s a b :
  split_once d s = Some (a, b) → d ≠ EmptyString → String.length b < String.length s.
Proof.
  intros ->%split_once_Some Hd. rewrite !length_append.
  destruct d; [done|]. cbn. lia.
Qed.

Lemma str_all_app P a b : str_all P (a +:+ b) = str_all P a && str_all P b.
Proof.
  induction a as [|c a IH]; [done|].
  rewrite append_cons. cbn. by rewrite IH, andb_assoc.
Qed.

(** ** Reversal and trimming of one character *)
Fixpoint str_repeat (c : Ascii.ascii) (n : nat) : string :=
  match n with O => EmptyString | S n => String c (str_repeat c n) end.

Lemma str_rev_app a b : str_rev (a +:+ b) = str_rev b +:+ str_rev a.
Proof.
  induction a as [|c a IH]; [by rewrite append_nil_l; cbn; rewrite append_nil_r|].
  rewrite append_cons. cbn. by rewrite IH, append_assoc.
Qed.
Lemma str_rev_involutive s : str_rev (str_rev s) = s.
Proof. induction s as [|c s IH]; [done|]. cbn. by rewrite str_rev_app, IH. Qed.
Lemma str_repeat_snoc c n : str_repeat c n +:+ String c EmptyString = String c (str_repeat c n).
Proof. induction n as [|n IH]; [done|]. cbn. by rewrite append_cons, IH. Qed.
Lemma str_rev_repeat c n : str_rev (str_repeat c n) = str_repeat c n.
Proof. induction n as [|n IH]; [done|]. cbn. by rewrite IH, str_repeat_snoc. Qed.

Lemma trim_start_char_split c s : ∃ n, s = str_repeat c n +:+ trim_start_char c s.
Proof.
  induction s as [|d s [n IH]]; [by exists 0|]. cbn.
  destruct (Ascii.eqb_spec c d) as [<-|]; [|by exists 0].
  exists (S n). cbn. by rewrite append_cons, <- IH.
Qed.
Lemma trim_start_char_repeat c n s : trim_start_char c (str_repeat c n +:+ s) = trim_start_char c s.
Proof.
  induction n as [|n IH]; [done|]. cbn. rewrite append_cons. cbn.
  by rewrite Ascii.eqb_refl.
Qed.
Lemma trim_start_char_id c d s : c ≠ d → trim_start_char c (String d s) = String d s.
Proof. intros Hne. cbn. by destruct (Ascii.eqb_spec c d). Qed.

Lemma trim_end_char_split c s : ∃ n, s = trim_end_char c s +:+ str_repeat c n.
Proof.
  unfold trim_end_char. destruct (trim_start_char_split c (str_rev s)) as [n Hn].
  exists n. apply (f_equal str_rev) in Hn.
  by rewrite str_rev_involutive, str_rev_app, str_rev_repeat in Hn.
Qed.
(** A text that ends in another character loses exactly the trailing run. *)
Lemma trim_end_char_repeat c d a n :
  c ≠ d → trim_end_char c ((a +:+ String d EmptyString) +:+ str_repeat c n) =
          a +:+ String d EmptyString.
Proof.
  intros Hne. unfold trim_end_char.
  rewrite str_rev_app, str_rev_repeat, trim_start_char_repeat, str_rev_app.
  change (str_rev (String d EmptyString)) with (String d EmptyString).
  rewrite append_cons, append_nil_l, trim_start_char_id by done. cbn [str_rev].
  by rewrite str_rev_involutive.
Qed.
(** The last character. *)
Lemma str_last_snoc c s : ∃ a, String c s = a +:+ String (str_last c s) EmptyString.
Proof.
  revert c. induction s as [|d s IH]; intros c; cbn; [by exists EmptyString|].
  destruct (IH d) as [a Ha]. exists (String c a). by rewrite append_cons, <- Ha.
Qed.

(** ** Appending to a text that already matches *)
Lemma strip_prefix_app_Some p s t r : strip_prefix p s = Some r → strip_prefix p (s +:+ t) = Some (r +:+ t).
Proof. intros ->%strip_prefix_Some. rewrite append_assoc. apply strip_prefix_app. Qed.
Lemma strip_prefix_app_None p s t :
  String.length p <= String.length s → strip_prefix p s = None → strip_prefix p (s +:+ t) = None.
Proof.
  revert s. induction p as [|c p IH]; intros [|d s] Hl; cbn in Hl; [done..|lia|].
  rewrite append_cons. cbn. destruct (Ascii.eqb c d); [|done]. apply IH. lia.
Qed.
Lemma split_once_app_Some d s t a b :
  split_once d s = Some (a, b) → split_once d (s +:+ t) = Some (a, b +:+ t).
Proof.
  revert a. induction s as [|c s IH]; intros a Hs.
  - cbn in Hs. destruct (strip_prefix d "") as [r|] eqn:E; [|done]. simplify_eq.
    apply strip_prefix_Some, eq_sym, append_eq_nil in E as [-> ->].
    rewrite !append_nil_l. by destruct t.
  - pose proof (split_once_Some _ _ _ _ Hs) as Heq. rewrite append_cons. cbn in Hs |- *.
    destruct (strip_prefix d (String c s)) as [r|] eqn:E.
    + simplify_eq. pose proof (strip_prefix_app_Some _ _ t _ E) as E'.
      rewrite append_cons in E'. by rewrite E'.
    + assert (String.length d <= String.length (String c s)) as Hl
        by (rewrite Heq, !length_append; lia).
      pose proof (strip_prefix_app_None _ _ t Hl E) as E'. rewrite append_cons in E'. rewrite E'.
      destruct (split_once d s) as [[a' b']|]; [|done]. simplify_eq.
      by rewrite (IH a' eq_refl).
Qed.
Lemma contains_app d a b : contains d (a +:+ d +:+ b) = true.
Proof.
  unfold contains. destruct (split_once d _) as [[]|] eqn:E; [done|].
  by destruct (split_once_None _ _ E a b).
Qed.
Lemma append_snoc_inj a b c d :
  a +:+ String c EmptyString = b +:+ String d EmptyString → a = b ∧ c = d.
Proof.
  intros Heq%(f_equal str_rev). rewrite !str_rev_app in Heq. cbn in Heq.
  injection Heq as -> Heq. rewrite !append_nil_l in Heq. apply (f_equal str_rev) in Heq.
  by rewrite !str_rev_involutive in Heq.
Qed.
