(* ===== verification/Trim.v ===== *)
(** * Facts on [str::trim]

    A text is [clean] when no white space starts or ends it: [trim] returns clean
    texts, and leaves them alone. *)

From S2P Require Import Prelude Strs.

(** ** Stripping any of a list of patterns *)
Lemma strip_any_None ps s :
  strip_any ps s = None ↔ ∀ p, p ∈ ps → strip_prefix p s = None.
Proof.
  unfold strip_any. induction ps as [|p ps IH]; [set_solver|]. cbn.
  destruct (strip_prefix p s) as [r|] eqn:E; cbn.
  - split; [done|]. intros Hp. rewrite (Hp p) in E by constructor. done.
  - rewrite IH. split; [|set_solver]. by intros Hp q [->|?]%elem_of_cons; auto.
Qed.
Lemma strip_any_Some ps s r : strip_any ps s = Some r → ∃ p, p ∈ ps ∧ s = p +:+ r.
Proof.
  unfold strip_any. induction ps as [|p ps IH]; [done|]. cbn.
  destruct (strip_prefix p s) as [r'|] eqn:E; cbn.
  - intros [= ->]. apply strip_prefix_Some in E. exists p. by split; [constructor|].
  - intros (q & ? & ?)%IH. exists q. by split; [constructor|].
Qed.
Lemma strip_any_app_None ps a b : strip_any ps (a +:+ b) = None → strip_any ps a = None.
Proof.
  rewrite !strip_any_None. intros Hp p Hin. specialize (Hp p Hin).
  destruct (strip_prefix p a) eqn:E; [|done].
  by rewrite (strip_prefix_app_Some _ _ b _ E) in Hp.
Qed.
(** A first character that starts no pattern. *)
Definition first_is (P : Ascii.ascii → bool) (p : string) : bool :=
  match p with String d _ => P d | EmptyString => false end.
Lemma strip_any_head P ps c s :
  forallb (first_is P) ps = true → P c = false → strip_any ps (String c s) = None.
Proof.
  rewrite forallb_forall, strip_any_None. intros Hf Hc p Hin%list_elem_of_In.
  specialize (Hf p Hin). destruct p as [|d p]; [done|]. cbn in *.
  destruct (Ascii.eqb d c) eqn:E; [|done]. apply Ascii.eqb_eq in E as ->. congruence.
Qed.

Lemma trim_start_fuel_suffix fuel ps s : ∃ a, s = a +:+ trim_start_fuel fuel ps s.
Proof.
  revert s. induction fuel as [|fuel IH]; intros s; cbn; [by exists EmptyString|].
  destruct (strip_any ps s) as [r|] eqn:E; [|by exists EmptyString].
  apply strip_any_Some in E as (p & _ & ->). destruct (IH r) as [a Ha].
  exists (p +:+ a). by rewrite append_assoc, <- Ha.
Qed.
Lemma trim_start_fuel_None fuel ps s : strip_any ps s = None → trim_start_fuel fuel ps s = s.
Proof. intros Hs. destruct fuel; cbn; [done|]. by rewrite Hs. Qed.
Lemma trim_start_fuel_done fuel ps s :
  (∀ p, p ∈ ps → p ≠ EmptyString) → (String.length s <= fuel)%nat →
  strip_any ps (trim_start_fuel fuel ps s) = None.
Proof.
  intros Hne. revert s. induction fuel as [|fuel IH]; intros s Hl; cbn.
  - destruct s; [|cbn in Hl; lia]. apply strip_any_None. intros p Hp%Hne. by destruct p.
  - destruct (strip_any ps s) as [r|] eqn:E; [|done].
    apply strip_any_Some in E as (p & Hp%Hne & ->). apply IH.
    rewrite length_append in Hl. destruct p; [done|cbn in Hl; lia].
Qed.

(** ** Clean texts *)
Definition reversed_space : list string := map str_rev white_space.
Definition clean (s : string) : Prop :=
  strip_any white_space s = None ∧ strip_any reversed_space (str_rev s) = None.

Lemma spaces_nonempty ps p :
  forallb (λ p, negb (is_empty p)) ps = true → p ∈ ps → p ≠ EmptyString.
Proof. rewrite forallb_forall. intros Hf Hin%list_elem_of_In%Hf. by destruct p. Qed.
Lemma length_rev s : String.length (str_rev s) = String.length s.
Proof.
  induction s as [|c s IH]; [done|]. cbn. rewrite length_append, IH. cbn. lia.
Qed.
Lemma trim_clean_id s : clean s → trim s = s.
Proof.
  intros [Hs He]. unfold trim, trim_start, trim_end.
  rewrite (trim_start_fuel_None _ _ _ Hs). change (map str_rev white_space) with reversed_space.
  by rewrite (trim_start_fuel_None _ _ _ He), str_rev_involutive.
Qed.
Lemma clean_trim s : clean (trim s).
Proof.
  unfold trim. set (t := trim_start s).
  assert (strip_any white_space t = None) as Ht
    by (apply trim_start_fuel_done; [intros p; by apply spaces_nonempty|done]).
  unfold trim_end. change (map str_rev white_space) with reversed_space.
  destruct (trim_start_fuel_suffix (String.length t) reversed_space (str_rev t)) as [a Ha].
  set (r := trim_start_fuel _ _ _) in *. split.
  - apply (strip_any_app_None _ _ (str_rev a)). rewrite <- str_rev_app, <- Ha.
    by rewrite str_rev_involutive.
  - rewrite str_rev_involutive. apply trim_start_fuel_done.
    + intros p. by apply spaces_nonempty.
    + by rewrite length_rev.
Qed.
Lemma trim_id_clean s : trim s = s → clean s.
Proof. intros <-. apply clean_trim. Qed.
Lemma trim_idemp s : trim (trim s) = trim s.
Proof. apply trim_clean_id, clean_trim. Qed.
Lemma clean_empty : clean EmptyString.
Proof. split; reflexivity. Qed.

(** Printable ASCII: no white space starts, continues or ends with it. *)
Definition plain (c : Ascii.ascii) : bool := ((32 <? byte c) && (byte c <? 127))%N.
Lemma plain_head c s : plain c = true → strip_any white_space (String c s) = None.
Proof.
  intros Hc. apply (strip_any_head (λ d, negb (plain d))); [reflexivity|by rewrite Hc].
Qed.
Lemma plain_head_rev c s : plain c = true → strip_any reversed_space (String c s) = None.
Proof.
  intros Hc. apply (strip_any_head (λ d, negb (plain d))); [reflexivity|by rewrite Hc].
Qed.
Lemma reversed_space_plain p : p ∈ reversed_space → str_all (λ c, negb (plain c)) p = true.
Proof.
  intros Hp%list_elem_of_In.
  assert (forallb (str_all (λ c, negb (plain c))) reversed_space = true) as Hf by reflexivity.
  rewrite forallb_forall in Hf. by apply Hf.
Qed.
Lemma strip_reversed_plain a c b :
  plain c = true → strip_any reversed_space a = None →
  strip_any reversed_space (a +:+ String c b) = None.
Proof.
  intros Hc Ha. apply strip_any_None. intros p Hp.
  destruct (strip_prefix p _) as [r|] eqn:E; [|done]. exfalso.
  apply strip_prefix_Some in E. pose proof (reversed_space_plain p Hp) as Hall.
  destruct (decide (String.length p <= String.length a)%nat) as [Hl|Hl].
  - destruct (append_prefix a (String c b) p r E Hl) as [w ->].
    rewrite strip_any_None in Ha. specialize (Ha p Hp). by rewrite strip_prefix_app in Ha.
  - destruct (append_prefix p r (a +:+ String c EmptyString) b) as [w ->].
    + rewrite append_assoc. by rewrite <- E.
    + rewrite length_append. cbn. lia.
    + rewrite !str_all_app in Hall. cbn in Hall. rewrite Hc in Hall. cbn in Hall.
      by rewrite andb_false_r in Hall.
Qed.
(** Printable text around a clean one. *)
Lemma clean_plain_app c a d v :
  plain c = true → plain d = true → clean v → clean (String c (a +:+ String d v)).
Proof.
  intros Hc Hd [_ Hv]. split; [by apply plain_head|]. cbn. rewrite str_rev_app. cbn.
  rewrite !append_assoc. rewrite append_cons, append_nil_l. by apply strip_reversed_plain.
Qed.
Lemma clean_plain s : str_all plain s = true → clean s.
Proof.
  destruct s as [|c s]; [intros _; apply clean_empty|]. cbn.
  intros [Hc Hs]%andb_true_iff. split; [by apply plain_head|]. cbn.
  destruct (str_rev s) as [|d r] eqn:E; [by apply plain_head_rev|].
  rewrite append_cons. apply plain_head_rev. apply (f_equal str_rev) in E.
  rewrite str_rev_involutive in E. cbn in E. rewrite E, str_all_app in Hs. cbn in Hs.
  apply andb_true_iff in Hs as [_ Hs]. by rewrite andb_true_r in Hs.
Qed.

(** ** Splitting at one character *)
Definition one (c : Ascii.ascii) : string := String c EmptyString.
Definition lacks (c : Ascii.ascii) : string → bool := str_all (λ d, negb (Ascii.eqb c d)).
Lemma split_char_lacks c a b : lacks c a = true → split_once (one c) (a +:+ String c b) = Some (a, b).
Proof.
  induction a as [|d a IH]; cbn; intros Ha.
  - rewrite append_nil_l. cbn. rewrite Ascii.eqb_refl. by destruct b.
  - apply andb_true_iff in Ha as [Hd%negb_true_iff Ha]. rewrite append_cons. cbn.
    rewrite Hd. by rewrite IH.
Qed.
Lemma split_char_None c a : lacks c a = true → split_once (one c) a = None.
Proof.
  induction a as [|d a IH]; cbn; [done|]. intros [Hd%negb_true_iff Ha]%andb_true_iff.
  rewrite Hd. by rewrite IH.
Qed.
Lemma split_char_None_inv c a : split_once (one c) a = None → lacks c a = true.
Proof.
  induction a as [|d a IH]; cbn; [done|]. destruct (Ascii.eqb c d); [done|].
  destruct (split_once _ a) as [[]|]; [done|]. intros _. by apply IH.
Qed.
Lemma split_char_Some c s a b :
  split_once (one c) s = Some (a, b) → lacks c a = true ∧ s = a +:+ String c b.
Proof.
  intros Hs. pose proof (split_once_Some _ _ _ _ Hs) as ->. split; [|done].
  revert Hs. revert b. induction a as [|d a IH]; intros b; [done|].
  change (String d a +:+ one c +:+ b) with (String d (a +:+ one c +:+ b)). cbn.
  destruct (Ascii.eqb c d) eqn:E; [by intros [=]|].
  destruct (split_once _ _) as [[a' b']|] eqn:E2; [|done]. intros [= -> ->]. cbn.
  by apply IH in E2.
Qed.
Lemma str_all_impl (P Q : Ascii.ascii → bool) s :
  (∀ c, P c = true → Q c = true) → str_all P s = true → str_all Q s = true.
Proof.
  intros Himp. induction s as [|c s IH]; [done|]. cbn.
  intros [Hc Hs]%andb_true_iff. by rewrite (Himp _ Hc), IH.
Qed.
(** Trimming keeps what every character satisfies. *)
Lemma str_all_rev P s : str_all P (str_rev s) = str_all P s.
Proof.
  induction s as [|c s IH]; [done|]. cbn. rewrite str_all_app, IH. cbn.
  by rewrite andb_true_r, andb_comm.
Qed.
Lemma str_all_trim P s : str_all P s = true → str_all P (trim s) = true.
Proof.
  intros Hs. unfold trim, trim_end.
  assert (str_all P (trim_start s) = true) as Ht.
  { unfold trim_start. destruct (trim_start_fuel_suffix (String.length s) white_space s) as [a Ha].
    rewrite Ha, str_all_app in Hs. by apply andb_true_iff in Hs as [_ ?]. }
  set (t := trim_start s) in *. rewrite str_all_rev.
  destruct (trim_start_fuel_suffix (String.length t) (map str_rev white_space) (str_rev t)) as [a Ha].
  rewrite <- str_all_rev, Ha, str_all_app in Ht. by apply andb_true_iff in Ht as [_ ?].
Qed.
