(* ===== verification/Schema.v ===== *)
(** * The database

    The tables of the SQLite schema (migrations/), each a finite map from its
    primary key to the remaining columns, with the foreign-key actions of the
    schema ([ON DELETE CASCADE] and [ON DELETE SET NULL]) and the integrity
    invariant [wf].  A statement of the program is a function on [Db]; an
    [INSERT] that violates a constraint fails and leaves the database alone.
    JSON columns hold the value they encode; catalog_servers is retired and not
    modelled. *)

From S2P Require Import Prelude Strs.
Open Scope string_scope.

(** A sealed secret: nonce and ciphertext, as bytes (crypto.rs). *)
Record Sealed := { nonce : string; ciphertext : string }.

(** A resolved server definition (instances.rs); JSON in [custom_def_json]. *)
Record ServerDef := {
  name : string;
  description : string;
  transport : string;
  command : option string;
  args : list string;
  url : option string;
  runtime : string;
  repo : option string;
  git_ref : option string;
  entry : option string;
  module : option string;
  connect_timeout_secs : option Z;
}.

(** ** Rows *)
Module user.
Record t := {
  handle : string; display_name : string; is_admin : bool;
  created_at : Z; disabled : bool; sandbox_uid : option Z }.
End user.
Module credential.
Record t := {
  user_id : string; credential_id : string; passkey_json : string;
  name : string; created_at : Z;
  last_used_at : option Z; last_ip : option string; last_user_agent : option string }.
End credential.
Module web_session.
Record t := {
  user_id : string; created_at : Z; expires_at : Z;
  last_ip : option string; last_user_agent : option string }.
End web_session.
Module instance.
Record t := {
  user_id : string; custom_def : option ServerDef; namespace : string;
  display_name : string; enabled : bool; config : gmap string string;
  built_commit : option string; build_status : string;
  capabilities_json : option string; created_at : Z }.
End instance.
Module client.
Record t := {
  client_secret_hash : option string; redirect_uris : list string;
  client_name : option string; created_at : Z }.
End client.
Module refresh_token.
Record t := {
  client_id : string; user_id : string; scope : string; resource : option string;
  family_id : string; consumed : bool; created_at : Z; expires_at : Z;
  last_ip : option string; last_user_agent : option string }.
End refresh_token.
Module client_label.
Record t := { name : string; note : string; updated_at : Z }.
End client_label.
Module invite.
Record t := {
  note : string; created_by : option string; created_at : Z;
  used_at : option Z; used_by : option string; recovery_user_id : option string }.
End invite.
Module pat.
Record t := {
  user_id : string; token_hash : string; name : string; created_at : Z;
  last_used_at : option Z; expires_at : Z }.
End pat.
Module denial.
Record t := { user_id : string; created_at : Z }.
End denial.
Module group.
Record t := { user_id : string; slug : string; name : string; created_at : Z }.
End group.
Module git_credential.
Record t := {
  user_id : string; host : string; username : string; sealed : Sealed;
  label : string; created_at : Z; updated_at : Z; last_used_at : option Z }.
End git_credential.

(** ** The database *)
Record Db := {
  users : gmap string user.t;
  webauthn_credentials : gmap string credential.t;
  web_sessions : gmap string web_session.t;
  user_server_instances : gmap string instance.t;
  instance_secrets : gmap (string * string) Sealed;
  instance_config_files : gmap string Sealed;
  oauth_clients : gmap string client.t;
  oauth_refresh_tokens : gmap string refresh_token.t;
  oauth_client_labels : gmap (string * string) client_label.t;
  invites : gmap string invite.t;
  personal_access_tokens : gmap string pat.t;
  credential_backend_denials : gmap (string * string * string) denial.t;
  connector_groups : gmap string group.t;
  connector_group_members : gmap (string * string) Z;
  git_credentials : gmap string git_credential.t;
  settings : gmap string Sealed;
}.

Definition empty_db : Db := {|
  users := ∅;
  webauthn_credentials := ∅;
  web_sessions := ∅;
  user_server_instances := ∅;
  instance_secrets := ∅;
  instance_config_files := ∅;
  oauth_clients := ∅;
  oauth_refresh_tokens := ∅;
  oauth_client_labels := ∅;
  invites := ∅;
  personal_access_tokens := ∅;
  credential_backend_denials := ∅;
  connector_groups := ∅;
  connector_group_members := ∅;
  git_credentials := ∅;
  settings := ∅ |}.

(** One updater per table. *)
Definition set_users (f : gmap string user.t → gmap string user.t) (d : Db) : Db := {|
  users := f (d.(users));
  webauthn_credentials := d.(webauthn_credentials);
  web_sessions := d.(web_sessions);
  user_server_instances := d.(user_server_instances);
  instance_secrets := d.(instance_secrets);
  instance_config_files := d.(instance_config_files);
  oauth_clients := d.(oauth_clients);
  oauth_refresh_tokens := d.(oauth_refresh_tokens);
  oauth_client_labels := d.(oauth_client_labels);
  invites := d.(invites);
  personal_access_tokens := d.(personal_access_tokens);
  credential_backend_denials := d.(credential_backend_denials);
  connector_groups := d.(connector_groups);
  connector_group_members := d.(connector_group_members);
  git_credentials := d.(git_credentials);
  settings := d.(settings) |}.
Definition set_webauthn_credentials (f : gmap string credential.t → gmap string credential.t) (d : Db) : Db := {|
  users := d.(users);
  webauthn_credentials := f (d.(webauthn_credentials));
  web_sessions := d.(web_sessions);
  user_server_instances := d.(user_server_instances);
  instance_secrets := d.(instance_secrets);
  instance_config_files := d.(instance_config_files);
  oauth_clients := d.(oauth_clients);
  oauth_refresh_tokens := d.(oauth_refresh_tokens);
  oauth_client_labels := d.(oauth_client_labels);
  invites := d.(invites);
  personal_access_tokens := d.(personal_access_tokens);
  credential_backend_denials := d.(credential_backend_denials);
  connector_groups := d.(connector_groups);
  connector_group_members := d.(connector_group_members);
  git_credentials := d.(git_credentials);
  settings := d.(settings) |}.
Definition set_web_sessions (f : gmap string web_session.t → gmap string web_session.t) (d : Db) : Db := {|
  users := d.(users);
  webauthn_credentials := d.(webauthn_credentials);
  web_sessions := f (d.(web_sessions));
  user_server_instances := d.(user_server_instances);
  instance_secrets := d.(instance_secrets);
  instance_config_files := d.(instance_config_files);
  oauth_clients := d.(oauth_clients);
  oauth_refresh_tokens := d.(oauth_refresh_tokens);
  oauth_client_labels := d.(oauth_client_labels);
  invites := d.(invites);
  personal_access_tokens := d.(personal_access_tokens);
  credential_backend_denials := d.(credential_backend_denials);
  connector_groups := d.(connector_groups);
  connector_group_members := d.(connector_group_members);
  git_credentials := d.(git_credentials);
  settings := d.(settings) |}.
Definition set_user_server_instances (f : gmap string instance.t → gmap string instance.t) (d : Db) : Db := {|
  users := d.(users);
  webauthn_credentials := d.(webauthn_credentials);
  web_sessions := d.(web_sessions);
  user_server_instances := f (d.(user_server_instances));
  instance_secrets := d.(instance_secrets);
  instance_config_files := d.(instance_config_files);
  oauth_clients := d.(oauth_clients);
  oauth_refresh_tokens := d.(oauth_refresh_tokens);
  oauth_client_labels := d.(oauth_client_labels);
  invites := d.(invites);
  personal_access_tokens := d.(personal_access_tokens);
  credential_backend_denials := d.(credential_backend_denials);
  connector_groups := d.(connector_groups);
  connector_group_members := d.(connector_group_members);
  git_credentials := d.(git_credentials);
  settings := d.(settings) |}.
Definition set_instance_secrets (f : gmap (string * string) Sealed → gmap (string * string) Sealed) (d : Db) : Db := {|
  users := d.(users);
  webauthn_credentials := d.(webauthn_credentials);
  web_sessions := d.(web_sessions);
  user_server_instances := d.(user_server_instances);
  instance_secrets := f (d.(instance_secrets));
  instance_config_files := d.(instance_config_files);
  oauth_clients := d.(oauth_clients);
  oauth_refresh_tokens := d.(oauth_refresh_tokens);
  oauth_client_labels := d.(oauth_client_labels);
  invites := d.(invites);
  personal_access_tokens := d.(personal_access_tokens);
  credential_backend_denials := d.(credential_backend_denials);
  connector_groups := d.(connector_groups);
  connector_group_members := d.(connector_group_members);
  git_credentials := d.(git_credentials);
  settings := d.(settings) |}.
Definition set_instance_config_files (f : gmap string Sealed → gmap string Sealed) (d : Db) : Db := {|
  users := d.(users);
  webauthn_credentials := d.(webauthn_credentials);
  web_sessions := d.(web_sessions);
  user_server_instances := d.(user_server_instances);
  instance_secrets := d.(instance_secrets);
  instance_config_files := f (d.(instance_config_files));
  oauth_clients := d.(oauth_clients);
  oauth_refresh_tokens := d.(oauth_refresh_tokens);
  oauth_client_labels := d.(oauth_client_labels);
  invites := d.(invites);
  personal_access_tokens := d.(personal_access_tokens);
  credential_backend_denials := d.(credential_backend_denials);
  connector_groups := d.(connector_groups);
  connector_group_members := d.(connector_group_members);
  git_credentials := d.(git_credentials);
  settings := d.(settings) |}.
Definition set_oauth_clients (f : gmap string client.t → gmap string client.t) (d : Db) : Db := {|
  users := d.(users);
  webauthn_credentials := d.(webauthn_credentials);
  web_sessions := d.(web_sessions);
  user_server_instances := d.(user_server_instances);
  instance_secrets := d.(instance_secrets);
  instance_config_files := d.(instance_config_files);
  oauth_clients := f (d.(oauth_clients));
  oauth_refresh_tokens := d.(oauth_refresh_tokens);
  oauth_client_labels := d.(oauth_client_labels);
  invites := d.(invites);
  personal_access_tokens := d.(personal_access_tokens);
  credential_backend_denials := d.(credential_backend_denials);
  connector_groups := d.(connector_groups);
  connector_group_members := d.(connector_group_members);
  git_credentials := d.(git_credentials);
  settings := d.(settings) |}.
Definition set_oauth_refresh_tokens (f : gmap string refresh_token.t → gmap string refresh_token.t) (d : Db) : Db := {|
  users := d.(users);
  webauthn_credentials := d.(webauthn_credentials);
  web_sessions := d.(web_sessions);
  user_server_instances := d.(user_server_instances);
  instance_secrets := d.(instance_secrets);
  instance_config_files := d.(instance_config_files);
  oauth_clients := d.(oauth_clients);
  oauth_refresh_tokens := f (d.(oauth_refresh_tokens));
  oauth_client_labels := d.(oauth_client_labels);
  invites := d.(invites);
  personal_access_tokens := d.(personal_access_tokens);
  credential_backend_denials := d.(credential_backend_denials);
  connector_groups := d.(connector_groups);
  connector_group_members := d.(connector_group_members);
  git_credentials := d.(git_credentials);
  settings := d.(settings) |}.
Definition set_oauth_client_labels (f : gmap (string * string) client_label.t → gmap (string * string) client_label.t) (d : Db) : Db := {|
  users := d.(users);
  webauthn_credentials := d.(webauthn_credentials);
  web_sessions := d.(web_sessions);
  user_server_instances := d.(user_server_instances);
  instance_secrets := d.(instance_secrets);
  instance_config_files := d.(instance_config_files);
  oauth_clients := d.(oauth_clients);
  oauth_refresh_tokens := d.(oauth_refresh_tokens);
  oauth_client_labels := f (d.(oauth_client_labels));
  invites := d.(invites);
  personal_access_tokens := d.(personal_access_tokens);
  credential_backend_denials := d.(credential_backend_denials);
  connector_groups := d.(connector_groups);
  connector_group_members := d.(connector_group_members);
  git_credentials := d.(git_credentials);
  settings := d.(settings) |}.
Definition set_invites (f : gmap string invite.t → gmap string invite.t) (d : Db) : Db := {|
  users := d.(users);
  webauthn_credentials := d.(webauthn_credentials);
  web_sessions := d.(web_sessions);
  user_server_instances := d.(user_server_instances);
  instance_secrets := d.(instance_secrets);
  instance_config_files := d.(instance_config_files);
  oauth_clients := d.(oauth_clients);
  oauth_refresh_tokens := d.(oauth_refresh_tokens);
  oauth_client_labels := d.(oauth_client_labels);
  invites := f (d.(invites));
  personal_access_tokens := d.(personal_access_tokens);
  credential_backend_denials := d.(credential_backend_denials);
  connector_groups := d.(connector_groups);
  connector_group_members := d.(connector_group_members);
  git_credentials := d.(git_credentials);
  settings := d.(settings) |}.
Definition set_personal_access_tokens (f : gmap string pat.t → gmap string pat.t) (d : Db) : Db := {|
  users := d.(users);
  webauthn_credentials := d.(webauthn_credentials);
  web_sessions := d.(web_sessions);
  user_server_instances := d.(user_server_instances);
  instance_secrets := d.(instance_secrets);
  instance_config_files := d.(instance_config_files);
  oauth_clients := d.(oauth_clients);
  oauth_refresh_tokens := d.(oauth_refresh_tokens);
  oauth_client_labels := d.(oauth_client_labels);
  invites := d.(invites);
  personal_access_tokens := f (d.(personal_access_tokens));
  credential_backend_denials := d.(credential_backend_denials);
  connector_groups := d.(connector_groups);
  connector_group_members := d.(connector_group_members);
  git_credentials := d.(git_credentials);
  settings := d.(settings) |}.
Definition set_credential_backend_denials (f : gmap (string * string * string) denial.t → gmap (string * string * string) denial.t) (d : Db) : Db := {|
  users := d.(users);
  webauthn_credentials := d.(webauthn_credentials);
  web_sessions := d.(web_sessions);
  user_server_instances := d.(user_server_instances);
  instance_secrets := d.(instance_secrets);
  instance_config_files := d.(instance_config_files);
  oauth_clients := d.(oauth_clients);
  oauth_refresh_tokens := d.(oauth_refresh_tokens);
  oauth_client_labels := d.(oauth_client_labels);
  invites := d.(invites);
  personal_access_tokens := d.(personal_access_tokens);
  credential_backend_denials := f (d.(credential_backend_denials));
  connector_groups := d.(connector_groups);
  connector_group_members := d.(connector_group_members);
  git_credentials := d.(git_credentials);
  settings := d.(settings) |}.
Definition set_connector_groups (f : gmap string group.t → gmap string group.t) (d : Db) : Db := {|
  users := d.(users);
  webauthn_credentials := d.(webauthn_credentials);
  web_sessions := d.(web_sessions);
  user_server_instances := d.(user_server_instances);
  instance_secrets := d.(instance_secrets);
  instance_config_files := d.(instance_config_files);
  oauth_clients := d.(oauth_clients);
  oauth_refresh_tokens := d.(oauth_refresh_tokens);
  oauth_client_labels := d.(oauth_client_labels);
  invites := d.(invites);
  personal_access_tokens := d.(personal_access_tokens);
  credential_backend_denials := d.(credential_backend_denials);
  connector_groups := f (d.(connector_groups));
  connector_group_members := d.(connector_group_members);
  git_credentials := d.(git_credentials);
  settings := d.(settings) |}.
Definition set_connector_group_members (f : gmap (string * string) Z → gmap (string * string) Z) (d : Db) : Db := {|
  users := d.(users);
  webauthn_credentials := d.(webauthn_credentials);
  web_sessions := d.(web_sessions);
  user_server_instances := d.(user_server_instances);
  instance_secrets := d.(instance_secrets);
  instance_config_files := d.(instance_config_files);
  oauth_clients := d.(oauth_clients);
  oauth_refresh_tokens := d.(oauth_refresh_tokens);
  oauth_client_labels := d.(oauth_client_labels);
  invites := d.(invites);
  personal_access_tokens := d.(personal_access_tokens);
  credential_backend_denials := d.(credential_backend_denials);
  connector_groups := d.(connector_groups);
  connector_group_members := f (d.(connector_group_members));
  git_credentials := d.(git_credentials);
  settings := d.(settings) |}.
Definition set_git_credentials (f : gmap string git_credential.t → gmap string git_credential.t) (d : Db) : Db := {|
  users := d.(users);
  webauthn_credentials := d.(webauthn_credentials);
  web_sessions := d.(web_sessions);
  user_server_instances := d.(user_server_instances);
  instance_secrets := d.(instance_secrets);
  instance_config_files := d.(instance_config_files);
  oauth_clients := d.(oauth_clients);
  oauth_refresh_tokens := d.(oauth_refresh_tokens);
  oauth_client_labels := d.(oauth_client_labels);
  invites := d.(invites);
  personal_access_tokens := d.(personal_access_tokens);
  credential_backend_denials := d.(credential_backend_denials);
  connector_groups := d.(connector_groups);
  connector_group_members := d.(connector_group_members);
  git_credentials := f (d.(git_credentials));
  settings := d.(settings) |}.
Definition set_settings (f : gmap string Sealed → gmap string Sealed) (d : Db) : Db := {|
  users := d.(users);
  webauthn_credentials := d.(webauthn_credentials);
  web_sessions := d.(web_sessions);
  user_server_instances := d.(user_server_instances);
  instance_secrets := d.(instance_secrets);
  instance_config_files := d.(instance_config_files);
  oauth_clients := d.(oauth_clients);
  oauth_refresh_tokens := d.(oauth_refresh_tokens);
  oauth_client_labels := d.(oauth_client_labels);
  invites := d.(invites);
  personal_access_tokens := d.(personal_access_tokens);
  credential_backend_denials := d.(credential_backend_denials);
  connector_groups := d.(connector_groups);
  connector_group_members := d.(connector_group_members);
  git_credentials := d.(git_credentials);
  settings := f (d.(settings)) |}.

(** Errors: a constraint the store refused, a message of the program, or an error
    with a context added to it. *)
Inductive anyhow : Type :=
| Unique (column : string)
| ForeignKey (column : string)
| Msg (message : string)
| Context (context : string) (e : anyhow).
(** [{e}] and [e.to_string()]: the outermost message. *)
Definition to_string (e : anyhow) : string :=
  match e with Unique s | ForeignKey s | Msg s | Context s _ => s end.
(** [{e:#}]: the whole chain. *)
Fixpoint error_text (e : anyhow) : string :=
  match e with
  | Unique s | ForeignKey s | Msg s => s
  | Context c e => c +:+ ": " +:+ error_text e
  end.

(** ** Foreign keys *)

(** The referenced row exists. *)
Definition known {A} (t : gmap string A) (k : string) : Prop := is_Some (t !! k).
Definition known_opt {A} (t : gmap string A) (k : option string) : Prop :=
  match k with Some k => known t k | None => True end.
#[global] Instance known_dec {A} (t : gmap string A) k : Decision (known t k).
Proof. unfold known. apply _. Defined.

(** [ON DELETE SET NULL]. *)
Definition set_null {A} (t : gmap string A) (k : option string) : option string :=
  match k with Some k => if decide (known t k) then Some k else None | None => None end.

(** [ON DELETE CASCADE]: a row goes when a row it references has gone. *)
Definition keep_rows {K A} `{Countable K} (P : K → A → Prop) `{∀ k r, Decision (P k r)}
    (t : gmap K A) : gmap K A :=
  filter (λ kv, P kv.1 kv.2) t.

Definition null_invite (us : gmap string user.t) (i : invite.t) : invite.t := {|
  invite.note := i.(invite.note);
  invite.created_by := set_null us i.(invite.created_by);
  invite.created_at := i.(invite.created_at);
  invite.used_at := i.(invite.used_at);
  invite.used_by := set_null us i.(invite.used_by);
  invite.recovery_user_id := i.(invite.recovery_user_id) |}.

#[global] Instance known_opt_dec {A} (t : gmap string A) k : Decision (known_opt t k).
Proof. destruct k; cbn; apply _. Defined.

(** The foreign-key actions after rows of a parent table were deleted. *)
Definition cascade (d : Db) : Db :=
  let us := d.(users) in
  let cs := d.(oauth_clients) in
  let insts := keep_rows (λ _ r, known us r.(instance.user_id)) d.(user_server_instances) in
  let gs := keep_rows (λ _ r, known us r.(group.user_id)) d.(connector_groups) in
  {| users := us;
     webauthn_credentials :=
       keep_rows (λ _ r, known us r.(credential.user_id)) d.(webauthn_credentials);
     web_sessions := keep_rows (λ _ r, known us r.(web_session.user_id)) d.(web_sessions);
     user_server_instances := insts;
     instance_secrets := keep_rows (λ k _, known insts k.1) d.(instance_secrets);
     instance_config_files := keep_rows (λ k _, known insts k) d.(instance_config_files);
     oauth_clients := cs;
     oauth_refresh_tokens :=
       keep_rows (λ _ r, known us r.(refresh_token.user_id) ∧ known cs r.(refresh_token.client_id))
         d.(oauth_refresh_tokens);
     oauth_client_labels :=
       keep_rows (λ k _, known us k.1 ∧ known cs k.2) d.(oauth_client_labels);
     invites :=
       null_invite us <$>
         keep_rows (λ _ r, known_opt us r.(invite.recovery_user_id)) d.(invites);
     personal_access_tokens :=
       keep_rows (λ _ r, known us r.(pat.user_id)) d.(personal_access_tokens);
     credential_backend_denials :=
       keep_rows (λ k r, known us r.(denial.user_id) ∧ known insts k.2)
         d.(credential_backend_denials);
     connector_groups := gs;
     connector_group_members :=
       keep_rows (λ k _, known gs k.1 ∧ known insts k.2) d.(connector_group_members);
     git_credentials :=
       keep_rows (λ _ r, known us r.(git_credential.user_id)) d.(git_credentials);
     settings := d.(settings) |}.

(** ** Integrity *)

(** A backend instance that belongs to [uid]. *)
Definition owns_instance (d : Db) (uid iid : string) : Prop :=
  ∃ r, d.(user_server_instances) !! iid = Some r ∧ r.(instance.user_id) = uid.

(** The constraints of the schema, the sandbox slots' separation, and tenancy:
    a group's members and a denial's backend belong to the row's own user. *)
Record wf (d : Db) : Prop := {
  wf_handle : uniq user.handle d.(users);
  wf_slot : uniq_opt user.sandbox_uid d.(users);
  wf_slot_nonneg : rows (λ _ r, ∀ z, r.(user.sandbox_uid) = Some z → (0 ≤ z)%Z) d.(users);
  wf_cred_user : rows (λ _ r, known d.(users) r.(credential.user_id)) d.(webauthn_credentials);
  wf_cred_id : uniq credential.credential_id d.(webauthn_credentials);
  wf_session_user : rows (λ _ r, known d.(users) r.(web_session.user_id)) d.(web_sessions);
  wf_inst_user : rows (λ _ r, known d.(users) r.(instance.user_id)) d.(user_server_instances);
  wf_inst_ns : uniq (λ r, (r.(instance.user_id), r.(instance.namespace)))
    d.(user_server_instances);
  wf_secret : rows (λ k _, known d.(user_server_instances) k.1) d.(instance_secrets);
  wf_config_file : rows (λ k _, known d.(user_server_instances) k) d.(instance_config_files);
  wf_refresh : rows (λ _ r, known d.(users) r.(refresh_token.user_id) ∧
    known d.(oauth_clients) r.(refresh_token.client_id)) d.(oauth_refresh_tokens);
  wf_label : rows (λ k _, known d.(users) k.1 ∧ known d.(oauth_clients) k.2)
    d.(oauth_client_labels);
  wf_invite : rows (λ _ r, known_opt d.(users) r.(invite.created_by) ∧
    known_opt d.(users) r.(invite.used_by) ∧
    known_opt d.(users) r.(invite.recovery_user_id)) d.(invites);
  wf_pat_user : rows (λ _ r, known d.(users) r.(pat.user_id)) d.(personal_access_tokens);
  wf_pat_hash : uniq pat.token_hash d.(personal_access_tokens);
  wf_denial : rows (λ k r, known d.(users) r.(denial.user_id) ∧
    owns_instance d r.(denial.user_id) k.2) d.(credential_backend_denials);
  wf_group_user : rows (λ _ r, known d.(users) r.(group.user_id)) d.(connector_groups);
  wf_group_slug : uniq (λ r, (r.(group.user_id), r.(group.slug))) d.(connector_groups);
  wf_member : rows (λ k _, ∃ g, d.(connector_groups) !! k.1 = Some g ∧
    owns_instance d g.(group.user_id) k.2) d.(connector_group_members);
  wf_git_user : rows (λ _ r, known d.(users) r.(git_credential.user_id)) d.(git_credentials);
  wf_git_host : uniq (λ r, (r.(git_credential.user_id), r.(git_credential.host)))
    d.(git_credentials);
}.

(** ** Lemmas on references *)
Lemma known_insert {A} (t : gmap string A) i r k : known t k → known (<[i:=r]> t) k.
Proof. unfold known. intros. rewrite lookup_insert. by case_decide. Qed.
Lemma known_insert_eq {A} (t : gmap string A) i r : known (<[i:=r]> t) i.
Proof. unfold known. by rewrite lookup_insert_eq. Qed.
Lemma known_opt_insert {A} (t : gmap string A) i r k :
  known_opt t k → known_opt (<[i:=r]> t) k.
Proof. destruct k; cbn; auto using known_insert. Qed.
Lemma unknown {A} (t : gmap string A) k : t !! k = None → ¬ known t k.
Proof. intros Hn [r Hr]. congruence. Qed.
Lemma known_alter {A} (t : gmap string A) i f k : known (alter f i t) k ↔ known t k.
Proof.
  unfold known. destruct (decide (i = k)) as [->|].
  - rewrite lookup_alter_eq. by rewrite fmap_is_Some.
  - by rewrite lookup_alter_ne.
Qed.
Lemma known_opt_alter {A} (t : gmap string A) i f k :
  known_opt (alter f i t) k ↔ known_opt t k.
Proof. destruct k; cbn; [apply known_alter|done]. Qed.
Lemma known_opt_set_null {A} (t : gmap string A) k : known_opt t (set_null t k).
Proof. destruct k; cbn; [|done]. by case_decide. Qed.
#[global] Hint Resolve known_insert known_insert_eq known_opt_insert known_opt_set_null : hub.

Lemma keep_rows_rows {K A} `{Countable K} (P : K → A → Prop)
    `{∀ k r, Decision (P k r)} (t : gmap K A) : rows P (keep_rows P t).
Proof. by intros k r [_ ?]%map_lookup_filter_Some. Qed.
Lemma keep_rows_Some {K A} `{Countable K} (P : K → A → Prop)
    `{∀ k r, Decision (P k r)} (t : gmap K A) k r :
  keep_rows P t !! k = Some r ↔ t !! k = Some r ∧ P k r.
Proof. apply map_lookup_filter_Some. Qed.
Lemma keep_rows_sub {K A} `{Countable K} (P Q : K → A → Prop)
    `{∀ k r, Decision (P k r)} (t : gmap K A) : rows Q t → rows Q (keep_rows P t).
Proof. apply rows_filter. Qed.
Lemma keep_rows_uniq {K A C} `{Countable K} (P : K → A → Prop) (f : A → C)
    `{∀ k r, Decision (P k r)} (t : gmap K A) : uniq f t → uniq f (keep_rows P t).
Proof. apply uniq_filter. Qed.
Lemma keep_rows_id {K A} `{Countable K} (P : K → A → Prop)
    `{∀ k r, Decision (P k r)} (t : gmap K A) : rows P t → keep_rows P t = t.
Proof. intros Ht. apply map_filter_id. intros k r. apply Ht. Qed.
#[global] Hint Resolve keep_rows_rows keep_rows_sub keep_rows_uniq : hub.

Lemma owns_instance_known d uid iid :
  owns_instance d uid iid → known d.(user_server_instances) iid.
Proof. intros (r & Hr & _). by exists r. Qed.

(** Deleting parents and letting the actions run restores every constraint:
    nothing but the constraints the actions cannot repair is needed. *)
Lemma cascade_wf d :
  uniq user.handle d.(users) →
  uniq_opt user.sandbox_uid d.(users) →
  rows (λ _ r, ∀ z, r.(user.sandbox_uid) = Some z → (0 ≤ z)%Z) d.(users) →
  uniq credential.credential_id d.(webauthn_credentials) →
  uniq (λ r, (r.(instance.user_id), r.(instance.namespace))) d.(user_server_instances) →
  uniq pat.token_hash d.(personal_access_tokens) →
  uniq (λ r, (r.(group.user_id), r.(group.slug))) d.(connector_groups) →
  uniq (λ r, (r.(git_credential.user_id), r.(git_credential.host))) d.(git_credentials) →
  (∀ k r inst, d.(credential_backend_denials) !! k = Some r →
     d.(user_server_instances) !! k.2 = Some inst →
     inst.(instance.user_id) = r.(denial.user_id)) →
  (∀ k z g inst, d.(connector_group_members) !! k = Some z →
     d.(connector_groups) !! k.1 = Some g →
     d.(user_server_instances) !! k.2 = Some inst →
     inst.(instance.user_id) = g.(group.user_id)) →
  wf (cascade d).
Proof.
  intros Hh Hs Hp Hc Hi Ht Hg Hgit Hden Hmem.
  split; cbn [users webauthn_credentials web_sessions user_server_instances instance_secrets
    instance_config_files oauth_clients oauth_refresh_tokens oauth_client_labels invites
    personal_access_tokens credential_backend_denials connector_groups
    connector_group_members git_credentials settings cascade]; auto with hub.
  - intros k r Hr. rewrite lookup_fmap in Hr.
    apply fmap_Some in Hr as (i & [_ ?]%keep_rows_Some & ->). cbn. auto with hub.
  - intros k r [Hr [Hu [inst Hk]]]%keep_rows_Some. split; [done|].
    exists inst. split; [done|]. apply keep_rows_Some in Hk as [Hk _]. eauto.
  - intros k z [Hz [[g Hk] [inst Hi']]]%keep_rows_Some. exists g. split; [done|].
    exists inst. split; [done|].
    apply keep_rows_Some in Hk as [Hk _]. apply keep_rows_Some in Hi' as [Hi' _]. eauto.
Qed.

(** On a consistent database the actions have nothing to do. *)
Lemma null_invite_id us (i : invite.t) :
  known_opt us i.(invite.created_by) → known_opt us i.(invite.used_by) →
  null_invite us i = i.
Proof.
  destruct i as [? cb ? ? ub ?]. unfold null_invite. cbn. intros Hc Hu. f_equal.
  - destruct cb; cbn in *; [|done]. by rewrite decide_True.
  - destruct ub; cbn in *; [|done]. by rewrite decide_True.
Qed.

Lemma cascade_id d : wf d → cascade d = d.
Proof.
  intros []. unfold cascade.
  rewrite (keep_rows_id _ (user_server_instances d)) by done.
  rewrite (keep_rows_id _ (connector_groups d)) by done.
  rewrite !keep_rows_id; try done.
  - rewrite (map_fmap_ext _ id), map_fmap_id; [by destruct d|].
    intros k i Hi. destruct (wf_invite0 _ _ Hi) as (? & ? & _). by apply null_invite_id.
  - intros k z Hz. destruct (wf_member0 _ _ Hz) as (g & Hg & Ho).
    split; [by exists g|by eapply owns_instance_known].
  - intros k r Hr. destruct (wf_denial0 _ _ Hr) as [? Ho].
    split; [done|by eapply owns_instance_known].
  - intros k r Hr. by destruct (wf_invite0 _ _ Hr) as (_ & _ & ?).
Qed.

(** ** Row deletions, with their cascade *)
Definition delete_user_row (id : string) (d : Db) : Db := cascade (set_users (delete id) d).
Definition delete_instance_row (id : string) (d : Db) : Db :=
  cascade (set_user_server_instances (delete id) d).
Definition delete_group_row (id : string) (d : Db) : Db :=
  cascade (set_connector_groups (delete id) d).

Section deletion.
Context (d : Db) (Hwf : wf d).

Lemma denial_owner k r inst :
  d.(credential_backend_denials) !! k = Some r →
  d.(user_server_instances) !! k.2 = Some inst →
  inst.(instance.user_id) = r.(denial.user_id).
Proof using Hwf.
  intros Hr Hi. destruct (wf_denial _ Hwf _ _ Hr) as [_ (i & Hi' & <-)]. congruence.
Qed.
Lemma member_owner k z g inst :
  d.(connector_group_members) !! k = Some z →
  d.(connector_groups) !! k.1 = Some g →
  d.(user_server_instances) !! k.2 = Some inst →
  inst.(instance.user_id) = g.(group.user_id).
Proof using Hwf.
  intros Hz Hg Hi. destruct (wf_member _ Hwf _ _ Hz) as (g' & Hg' & i & Hi' & E). congruence.
Qed.

Lemma wf_delete_user_row id : wf (delete_user_row id d).
Proof using Hwf.
  apply cascade_wf; cbn; try apply Hwf; auto using denial_owner, member_owner.
  - apply uniq_delete, Hwf.
  - apply uniq_opt_delete, Hwf.
  - apply rows_delete, Hwf.
  - intros. by eapply denial_owner.
  - intros. by eapply member_owner.
Qed.
Lemma wf_delete_instance_row id : wf (delete_instance_row id d).
Proof using Hwf.
  apply cascade_wf; cbn; try apply Hwf.
  - apply uniq_delete, Hwf.
  - intros k r inst Hr [_ Hi]%lookup_delete_Some. by eapply denial_owner.
  - intros k z g inst Hz Hg [_ Hi]%lookup_delete_Some. by eapply member_owner.
Qed.
Lemma wf_delete_group_row id : wf (delete_group_row id d).
Proof using Hwf.
  apply cascade_wf; cbn; try apply Hwf.
  - apply uniq_delete, Hwf.
  - intros. by eapply denial_owner.
  - intros k z g inst Hz [_ Hg]%lookup_delete_Some Hi. by eapply member_owner.
Qed.
End deletion.
#[global] Hint Resolve wf_delete_user_row wf_delete_instance_row wf_delete_group_row : hub.

Lemma wf_empty : wf empty_db.
Proof. split; cbn; auto with hub. Qed.

(** [DELETE FROM t WHERE P]: the rows removed, and what is left. *)
Definition matching {K A} `{Countable K} (P : K → A → bool) (t : gmap K A) : gmap K A :=
  filter (λ kv, P kv.1 kv.2 = true) t.
Definition without {K A} `{Countable K} (P : K → A → bool) (t : gmap K A) : gmap K A :=
  filter (λ kv, P kv.1 kv.2 = false) t.
Lemma without_Some {K A} `{Countable K} (P : K → A → bool) (t : gmap K A) k r :
  without P t !! k = Some r ↔ t !! k = Some r ∧ P k r = false.
Proof. apply map_lookup_filter_Some. Qed.
Lemma without_sub {K A} `{Countable K} (P : K → A → bool) (Q : K → A → Prop) t :
  rows Q t → rows Q (without P t).
Proof. apply rows_filter. Qed.
Lemma without_uniq {K A C} `{Countable K} (P : K → A → bool) (f : A → C) t :
  uniq f t → uniq f (without P t).
Proof. apply uniq_filter. Qed.
#[global] Hint Resolve without_sub without_uniq : hub.

(** The strings of a table's column, equal or not. *)
Definition eqs (a b : string) : bool := bool_decide (a = b).
Definition eqo (a : option string) (b : string) : bool := bool_decide (a = Some b).
Lemma eqs_true a b : eqs a b = true ↔ a = b.
Proof. apply bool_decide_eq_true. Qed.
Lemma eqs_false a b : eqs a b = false ↔ a ≠ b.
Proof. apply bool_decide_eq_false. Qed.
Lemma eqs_refl a : eqs a a = true.
Proof. by apply eqs_true. Qed.

(** Preservation for statements on one table: every untouched constraint is an
    assumption; the caller proves the rest. *)
Ltac wf_table Hwf :=
  destruct Hwf; split;
  unfold owns_instance in *; cbn in *; auto with hub.

(** A statement on a table that others reference: the references must survive. *)
Lemma wf_set_users f d :
  wf d →
  (∀ k, known d.(users) k → known (f d.(users)) k) →
  uniq user.handle (f d.(users)) →
  uniq_opt user.sandbox_uid (f d.(users)) →
  rows (λ _ r, ∀ z, r.(user.sandbox_uid) = Some z → (0 ≤ z)%Z) (f d.(users)) →
  wf (set_users f d).
Proof.
  intros Hwf Hk Hh Hs Hp.
  assert (∀ o, known_opt d.(users) o → known_opt (f d.(users)) o) as Hko.
  { intros [k|]; cbn; auto. }
  destruct Hwf; split; unfold owns_instance in *; cbn in *; auto;
    eapply rows_impl; eauto; cbn; naive_solver.
Qed.

Lemma wf_set_instances f d :
  wf d →
  (∀ uid iid, owns_instance d uid iid → owns_instance (set_user_server_instances f d) uid iid) →
  rows (λ _ r, known d.(users) r.(instance.user_id)) (f d.(user_server_instances)) →
  uniq (λ r, (r.(instance.user_id), r.(instance.namespace))) (f d.(user_server_instances)) →
  wf (set_user_server_instances f d).
Proof.
  intros Hwf Ho Hu Hn.
  assert (∀ k, known d.(user_server_instances) k → known (f d.(user_server_instances)) k) as Hk.
  { intros k [r Hr]. destruct (Ho r.(instance.user_id) k) as (r' & Hr' & _).
    - by exists r.
    - by exists r'. }
  destruct Hwf; split; cbn in *; auto;
    eapply rows_impl; eauto; cbn; naive_solver.
Qed.

Lemma wf_set_clients f d :
  wf d → (∀ k, known d.(oauth_clients) k → known (f d.(oauth_clients)) k) →
  wf (set_oauth_clients f d).
Proof.
  intros Hwf Hk. destruct Hwf; split; unfold owns_instance in *; cbn in *; auto;
    eapply rows_impl; eauto; cbn; naive_solver.
Qed.

Lemma wf_set_groups f d :
  wf d →
  (∀ k g, d.(connector_groups) !! k = Some g →
     ∃ g', f d.(connector_groups) !! k = Some g' ∧ g'.(group.user_id) = g.(group.user_id)) →
  rows (λ _ r, known d.(users) r.(group.user_id)) (f d.(connector_groups)) →
  uniq (λ r, (r.(group.user_id), r.(group.slug))) (f d.(connector_groups)) →
  wf (set_connector_groups f d).
Proof.
  intros Hwf Hg Hu Hs. destruct Hwf; split; unfold owns_instance in *; cbn in *; auto.
  eapply rows_impl; eauto. cbn. intros k z _ (g & Hk & Ho).
  destruct (Hg _ _ Hk) as (g' & Hk' & E). exists g'. split; [done|]. by rewrite E.
Qed.

