(* ===== verification/External.v ===== *)
(** * Code outside the repository

    The operations of third-party crates the hub relies on, as type classes:
    a component takes the class it needs as an argument, and its theorems hold
    for every implementation.  Laws are separate classes, assumed only where a
    theorem says so. *)

From S2P Require Import Prelude Strs Trim Schema.
Open Scope string_scope.

(** sha2 and base64. *)
Class Digest := {
  (** [Sha256::digest]: 32 bytes. *)
  sha256 : string → string;
  (** [URL_SAFE_NO_PAD.encode]. *)
  b64url_encode : string → string;
}.
(** The alphabet of URL-safe base64. *)
Definition is_b64url (c : Ascii.ascii) : bool :=
  is_ascii_alphanumeric c || (byte c =? 45)%N || (byte c =? 95)%N.
Class DigestLaws `{Digest} : Prop :=
  b64url_alphabet : ∀ s, str_all is_b64url (b64url_encode s) = true.

(** chacha20poly1305 under one key: [encrypt] of a nonce and a plaintext, which
    refuses oversized inputs, and [decrypt], which fails when the tag does not
    verify. *)
Class Aead := {
  aead_encrypt : string → string → option string;
  aead_decrypt : string → string → option string;
}.
Class AeadLaws `{Aead} : Prop := {
  (** Decryption inverts encryption under the same key and nonce. *)
  aead_decrypt_encrypt n p c : aead_encrypt n p = Some c → aead_decrypt n c = Some p;
}.

(** webauthn-rs: a passkey with its credential id, its JSON form, and the
    verification of a registration or authentication response. *)
Class WebauthnRs := {
  Passkey : Type;
  cred_id : Passkey → string;
  passkey_to_json : Passkey → string;
  passkey_from_json : string → option Passkey;
  RegState : Type;
  start_passkey_registration :
    string → string → string → option (list string) → option RegState;
  RegResponse : Type;
  finish_passkey_registration : RegResponse → RegState → option Passkey;
  AuthState : Type;
  start_passkey_authentication : list Passkey → option AuthState;
  AuthResponse : Type;
  AuthResult : Type;
  finish_passkey_authentication : AuthResponse → AuthState → option AuthResult;
  needs_update : AuthResult → bool;
  result_cred_id : AuthResult → string;
  passkey_update : Passkey → AuthResult → Passkey;
}.

(** uuid: [parse_str], giving the canonical text of the identifier. *)
Class UuidCrate := { uuid_parse : string → option string }.

(** jsonwebtoken under the hub's ES256 key: [encode] with a header's [kid],
    [decode_header], and [decode] with the issuer, audience and expiry
    validation, at a time, of a token whose signature is genuine. *)
Class Jwt (Claims : Type) := {
  jwt_encode : string → Claims → option string;
  jwt_header_kid : string → option (option string);
  jwt_decode : string → string → Z → string → option Claims;
}.

(** p256: whether a text is the PKCS#8 PEM of a key. *)
Class P256 := { pem_ok : string → bool }.
(** base64, the standard alphabet with padding. *)
Class Base64 := { b64_encode : string → string; b64_decode : string → result anyhow string }.
Class Base64Laws `{Base64} : Prop := {
  b64_decode_encode s : b64_decode (b64_encode s) = Ok s;
  (** The alphabet has no white space and no dash. *)
  b64_trim s : trim (b64_encode s) = b64_encode s;
  b64_no_dash s : starts_with "-" (b64_encode s) = false;
}.

(** [std::net]: an IPv4 address as its octets, an IPv6 address as its segments. *)
Inductive IpAddr := V4 (a b c d : Z) | V6 (segments : list Z).
(** url: the parts of a parsed URL the program reads. *)
Inductive Host := Domain (d : string) | Ip (ip : IpAddr).
Record Url := {
  scheme : string; username : string; password : option string;
  host : option Host; host_str : option string; port : option Z;
  port_or_known_default : option Z; fragment : option string }.
Class UrlCrate := { url_parse : string → option Url }.

(** shlex: splitting and joining a POSIX command line. *)
Class Shlex := {
  shlex_split : string → option (list string);
  (** [None] when a word holds a NUL. *)
  shlex_try_join : list string → option string;
}.

(** http: [HeaderValue::from_str], which accepts no line break. *)
Class HttpCrate := { header_value_ok : string → bool }.
Definition no_line_break (s : string) : bool :=
  str_all (λ c, negb ((byte c =? 10) || (byte c =? 13))%N) s.
Class HttpLaws `{HttpCrate} : Prop := {
  header_value_no_break s : header_value_ok s = true → no_line_break s = true;
}.
