(* ===== verification/Fixtures.v ===== *)
(** * Concrete values for the witnesses

    A digest that is the identity, and small consistent databases. *)

From S2P Require Import Prelude Strs Schema External.
Open Scope string_scope.

Definition digest0 : Digest := {| sha256 := λ s, s; b64url_encode := λ s, s |}.
(** A digest spelled in letters, two a byte, as base64 would be. *)
Definition letter (n : N) : Ascii.ascii := Ascii.ascii_of_N (97 + n).
Fixpoint spell (s : string) : string :=
  match s with
  | EmptyString => EmptyString
  | String c s => String (letter (byte c / 16)) (String (letter (byte c mod 16)) (spell s))
  end.
Definition digest1 : Digest := {| sha256 := λ s, s; b64url_encode := spell |}.
Lemma digest1_laws : @DigestLaws digest1.
Proof.
  intros s. cbn. induction s as [|c s IH]; [done|]. cbn [spell str_all]. rewrite IH.
  by destruct c as [[] [] [] [] [] [] [] []].
Qed.
Definition user0 : user.t := {|
  user.handle := "u"; user.display_name := "u"; user.is_admin := false;
  user.created_at := 1; user.disabled := false; user.sandbox_uid := Some 0%Z |}.
Definition admin0 : user.t := {|
  user.handle := "root"; user.display_name := "root"; user.is_admin := true;
  user.created_at := 0; user.disabled := false; user.sandbox_uid := Some 1%Z |}.

(** One ordinary account. *)
Definition db0 : Db := set_users (insert "u" user0) empty_db.
Lemma wf_db0 : wf db0.
Proof.
  apply wf_set_users; [apply wf_empty|..]; cbn; auto with hub.
  - apply uniq_insert; auto with hub. by intros ?? ?%lookup_empty_Some.
  - apply uniq_opt_insert; auto with hub. by intros ??? ?%lookup_empty_Some.
  - apply rows_insert; auto with hub. by intros z [= <-].
Qed.

(** An account and an administrator. *)
Definition db1 : Db := set_users (insert "root" admin0) db0.
Lemma wf_db1 : wf db1.
Proof.
  apply wf_set_users; [apply wf_db0|..]; cbn; auto with hub.
  - apply uniq_insert; [apply wf_db0|].
    intros j s [[<- <-]|[_ ?%lookup_empty_Some]]%lookup_insert_Some; done.
  - apply uniq_opt_insert; [apply wf_db0|].
    by intros j s c [[<- <-]|[_ ?%lookup_empty_Some]]%lookup_insert_Some [= <-].
  - apply rows_insert; [apply wf_db0|]. by intros z [= <-].
Qed.

(** An account from before the slots, beside the other two. *)
Definition legacy0 : user.t := {|
  user.handle := "old"; user.display_name := "old"; user.is_admin := false;
  user.created_at := 0; user.disabled := false; user.sandbox_uid := None |}.
Definition db_unassigned : Db := set_users (insert "old" legacy0) db1.
Lemma wf_db_unassigned : wf db_unassigned.
Proof.
  apply wf_set_users; [apply wf_db1|..]; cbn; auto with hub.
  - apply uniq_insert; [apply wf_db1|].
    intros j s [[<- <-]|[_ [[<- <-]|[_ ?%lookup_empty_Some]]%lookup_insert_Some]]%lookup_insert_Some;
      done.
  - apply uniq_opt_insert; [apply wf_db1|]. by intros j s c _ _ [= <-].
  - apply rows_insert; [apply wf_db1|]. by intros z [= <-].
Qed.

(** A backend of the ordinary account. *)
Definition inst0 : instance.t := {|
  instance.user_id := "u"; instance.custom_def := None; instance.namespace := "fs";
  instance.display_name := "fs"; instance.enabled := true; instance.config := ∅;
  instance.built_commit := None; instance.build_status := "ready";
  instance.capabilities_json := None; instance.created_at := 5 |}.
Definition db2 : Db := set_user_server_instances (insert "i" inst0) db1.
Lemma wf_db2 : wf db2.
Proof.
  apply wf_set_instances; [apply wf_db1|..]; cbn; auto with hub.
  - intros uid iid (r & Hr & _). exfalso. vm_compute in Hr. done.
  - apply rows_insert; [intros i r Hr; vm_compute in Hr; done|]. exists user0. done.
  - apply uniq_insert; [intros i j r ? Hr; vm_compute in Hr; done|].
    intros j r Hr. vm_compute in Hr. done.
Qed.

(** A cipher that is the identity, and a URL parser that knows [https] hosts. *)
Definition aead0 : Aead := {|
  aead_encrypt := λ _ p, Some p; aead_decrypt := λ _ c, Some c |}.
Lemma aead0_laws : @AeadLaws aead0.
Proof. split. by intros n p c [= ->]. Qed.
Definition nonce0 : string := "012345678901234567890123".
Definition url0 : UrlCrate := {|
  url_parse := λ s, h ← strip_prefix "https://" s;
    let host := match split_once "/" h with Some (a, _) => a | None => h end in
    if is_empty host then None else
    Some {| scheme := "https"; username := ""; password := None;
            host := Some (Domain host); host_str := Some host; port := None;
            port_or_known_default := Some 443%Z; fragment := None |} |}.
Definition shlex0 : Shlex := {| shlex_split := λ s, Some [s]; shlex_try_join := λ l, Some (String.concat " " l) |}.
