(* ===== verification/Users.v ===== *)
(** * Users and their passkeys (users.rs)

    Accounts, the atomic bootstrap of the first administrator, the sandbox
    slots, and the stored credentials. *)

From S2P Require Import Prelude Strs Schema External Fixtures.
Open Scope string_scope.
Open Scope hub_scope.

Module users.

Record User := {
  id : string; handle : string; display_name : string; is_admin : bool;
  created_at : Z; disabled : bool }.

(** The columns [USER_COLS] of a row. *)
Definition of_row (uid : string) (r : user.t) : User := {|
  id := uid; handle := r.(user.handle); display_name := r.(user.display_name);
  is_admin := r.(user.is_admin); created_at := r.(user.created_at);
  disabled := r.(user.disabled) |}.

Definition count (d : Db) : nat := size d.(users).

Definition find_by_handle {E} (h : string) : M Db E (option User) :=
  gets (λ d, kv ← head (filter (λ kv, kv.2.(user.handle) = h) (map_to_list d.(users)));
             Some (of_row kv.1 kv.2)).

Definition find_by_id {E} (uid : string) : M Db E (option User) :=
  gets (λ d, of_row uid <$> d.(users) !! uid).

(** [ORDER BY created_at]; the order of equal timestamps is SQLite's choice. *)
Definition list (d : Db) : Datatypes.list User :=
  merge_sort (by_num created_at)
    (map (λ kv, of_row kv.1 kv.2) (map_to_list d.(users))).

Definition count_admins (d : Db) : nat := count_rows user.is_admin d.(users).

Definition sandbox_slot (uid : string) (d : Db) : option Z :=
  r ← d.(users) !! uid; r.(user.sandbox_uid).

(** [(SELECT COALESCE(MAX(sandbox_uid), -1) + 1 FROM users)]. *)
Definition sql_max (l : Datatypes.list Z) : option Z :=
  match l with [] => None | x :: l => Some (fold_left Z.max l x) end.
Definition slots (us : gmap string user.t) : Datatypes.list Z :=
  omap (λ kv, kv.2.(user.sandbox_uid)) (map_to_list us).
Definition next_slot (us : gmap string user.t) : Z :=
  (default (-1) (sql_max (slots us)) + 1)%Z.

Definition with_slot (z : Z) (r : user.t) : user.t := {|
  user.handle := r.(user.handle); user.display_name := r.(user.display_name);
  user.is_admin := r.(user.is_admin); user.created_at := r.(user.created_at);
  user.disabled := r.(user.disabled); user.sandbox_uid := Some z |}.
Definition with_disabled (b : bool) (r : user.t) : user.t := {|
  user.handle := r.(user.handle); user.display_name := r.(user.display_name);
  user.is_admin := r.(user.is_admin); user.created_at := r.(user.created_at);
  user.disabled := b; user.sandbox_uid := r.(user.sandbox_uid) |}.

(** [(created_at, id)], the order of the startup backfill. *)
Definition slot_order (a b : string * user.t) : Prop :=
  (a.2.(user.created_at) < b.2.(user.created_at))%Z ∨
  a.2.(user.created_at) = b.2.(user.created_at) ∧ String.leb a.1 b.1 = true.
#[global] Instance slot_order_dec a b : Decision (slot_order a b).
Proof. unfold slot_order. apply _. Defined.

Definition assign_slot (uid : string) : M Db anyhow unit :=
  modify (λ d, set_users (alter (with_slot (next_slot d.(users))) uid) d).
Definition assign_sandbox_slots : M Db anyhow unit :=
  let* ids := gets (λ d, (merge_sort slot_order
    (filter (λ kv, kv.2.(user.sandbox_uid) = None) (map_to_list d.(users)))).*1) in
  for_each assign_slot ids.

Definition set_disabled (uid : string) (b : bool) : M Db anyhow unit :=
  modify (set_users (alter (with_disabled b) uid)).

(** The [INSERT INTO users] both constructors share. *)
Definition insert_user (uid h name : string) (admin : bool) (now : Z) : M Db anyhow User :=
  λ d,
    if decide (known d.(users) uid) then (Err (Unique "users.id"), d)
    else match find_row (λ r, eqs r.(user.handle) h) d.(users) with
    | Some _ => (Err (Unique "users.handle"), d)
    | None =>
        let r := {| user.handle := h; user.display_name := name; user.is_admin := admin;
                    user.created_at := now; user.disabled := false;
                    user.sandbox_uid := Some (next_slot d.(users)) |} in
        (Ok (of_row uid r), set_users (insert uid r) d)
    end.

(** One [BEGIN IMMEDIATE] transaction: nothing runs between the count and the
    insert, and a failed insert is rolled back. *)
Definition create_admin_if_first (uid h name : string) (now : Z) : M Db anyhow User :=
  let* n := gets count in
  let is_admin := bool_decide (n = 0) in
  insert_user uid h name is_admin now.

Definition create (uid h name : string) (admin : bool) (now : Z) : M Db anyhow User :=
  insert_user uid h name admin now.

Definition delete (uid : string) : M Db anyhow unit := modify (delete_user_row uid).

(** ** Passkeys *)
Section passkeys.
Context `{WebauthnRs}.

Fixpoint parse_passkeys (rows : Datatypes.list string) : M Db anyhow (Datatypes.list Passkey) :=
  match rows with
  | [] => ret []
  | json :: rows =>
      let* pk := ok_or (passkey_from_json json) (Msg "deserializing stored passkey") in
      let* out := parse_passkeys rows in
      ret (pk :: out)
  end.
Definition passkeys_for_user (uid : string) : M Db anyhow (Datatypes.list Passkey) :=
  let* rows := gets (λ d,
    map (λ kv, kv.2.(credential.passkey_json))
      (filter (λ kv, kv.2.(credential.user_id) = uid)
        (map_to_list d.(webauthn_credentials)))) in
  parse_passkeys rows.

Definition insert_credential (row_id uid : string) (passkey : Passkey) (nm : string) (now : Z)
    : M Db anyhow unit := λ d,
  if decide (known d.(webauthn_credentials) row_id)
  then (Err (Unique "webauthn_credentials.id"), d)
  else match find_row (λ r, eqs r.(credential.credential_id) (cred_id passkey))
               d.(webauthn_credentials) with
  | Some _ => (Err (Unique "webauthn_credentials.credential_id"), d)
  | None =>
      if decide (known d.(users) uid) then
        let r := {| credential.user_id := uid; credential.credential_id := cred_id passkey;
                    credential.passkey_json := passkey_to_json passkey;
                    credential.name := nm; credential.created_at := now;
                    credential.last_used_at := None; credential.last_ip := None;
                    credential.last_user_agent := None |} in
        (Ok tt, set_webauthn_credentials (insert row_id r) d)
      else (Err (ForeignKey "webauthn_credentials.user_id"), d)
  end.

Definition with_passkey (json : string) (r : credential.t) : credential.t := {|
  credential.user_id := r.(credential.user_id);
  credential.credential_id := r.(credential.credential_id);
  credential.passkey_json := json; credential.name := r.(credential.name);
  credential.created_at := r.(credential.created_at);
  credential.last_used_at := r.(credential.last_used_at);
  credential.last_ip := r.(credential.last_ip);
  credential.last_user_agent := r.(credential.last_user_agent) |}.
(** [UPDATE ... WHERE credential_id = ?]. *)
Definition update_credential (passkey : Passkey) : M Db anyhow unit :=
  modify (set_webauthn_credentials (fmap (λ r,
    if eqs r.(credential.credential_id) (cred_id passkey)
    then with_passkey (passkey_to_json passkey) r else r))).
End passkeys.

(** What the request says about its origin (auth/mod.rs). *)
Record RequestInfo := { ip : option string; user_agent : option string }.

Definition touched (now : Z) (info : RequestInfo) (r : credential.t) : credential.t := {|
  credential.user_id := r.(credential.user_id);
  credential.credential_id := r.(credential.credential_id);
  credential.passkey_json := r.(credential.passkey_json); credential.name := r.(credential.name);
  credential.created_at := r.(credential.created_at);
  credential.last_used_at := Some now; credential.last_ip := info.(ip);
  credential.last_user_agent := info.(user_agent) |}.
Definition touch_credential (cid : string) (info : RequestInfo) (now : Z) : M Db anyhow unit :=
  modify (set_webauthn_credentials (fmap (λ r,
    if eqs r.(credential.credential_id) cid then touched now info r else r))).

(** A registered passkey, without its key. *)
Record CredentialInfo := {
  cred_id : string; cred_name : string; cred_created_at : Z; cred_last_used_at : option Z;
  cred_last_ip : option string; cred_last_user_agent : option string }.
Definition list_credentials (uid : string) (d : Db) : Datatypes.list CredentialInfo :=
  merge_sort (by_num cred_created_at)
    (map (λ kv, {| cred_id := kv.1; cred_name := kv.2.(credential.name);
                   cred_created_at := kv.2.(credential.created_at);
                   cred_last_used_at := kv.2.(credential.last_used_at);
                   cred_last_ip := kv.2.(credential.last_ip);
                   cred_last_user_agent := kv.2.(credential.last_user_agent) |})
      (filter (λ kv, kv.2.(credential.user_id) = uid) (map_to_list d.(webauthn_credentials)))).

Definition count_credentials (uid : string) (d : Db) : nat :=
  count_rows (λ r, eqs r.(credential.user_id) uid) d.(webauthn_credentials).

(** Returns whether a row was deleted. *)
Definition delete_credential (uid cred_row_id : string) : M Db anyhow bool := λ d,
  let mine k (r : credential.t) := eqs k cred_row_id && eqs r.(credential.user_id) uid in
  (Ok (bool_decide (matching mine d.(webauthn_credentials) ≠ ∅)),
   set_webauthn_credentials (without mine) d).

Definition user_for_credential (cid : string) (d : Db) : option string :=
  credential.user_id <$>
    find_row (λ r, eqs r.(credential.credential_id) cid) d.(webauthn_credentials).

(** ** Facts *)
Lemma quiet_find_by_id {E} uid : quiet (find_by_id (E:=E) uid).
Proof. done. Qed.
#[global] Hint Resolve quiet_find_by_id : hub.
Lemma find_by_id_Ok {E} uid d o d' :
  find_by_id (E:=E) uid d = (Ok o, d') → o = of_row uid <$> d.(users) !! uid ∧ d' = d.
Proof. by intros [= <- <-]. Qed.
Lemma elem_of_slots us z :
  z ∈ slots us ↔ ∃ k r, us !! k = Some r ∧ r.(user.sandbox_uid) = Some z.
Proof.
  unfold slots. rewrite list_elem_of_omap. split.
  - intros ([k r] & Hin & Hz). exists k, r. split; [by apply elem_of_map_to_list|done].
  - intros (k & r & Hr & Hz). exists (k, r). split; [by apply elem_of_map_to_list|done].
Qed.

Lemma fold_max_ge l x : (x ≤ fold_left Z.max l x)%Z ∧ ∀ z, z ∈ l → (z ≤ fold_left Z.max l x)%Z.
Proof.
  revert x. induction l as [|y l IH]; intros x; cbn.
  - split; [lia|]. by intros z ?%not_elem_of_nil.
  - destruct (IH (Z.max x y)) as [H1 H2]. split; [lia|].
    intros z [->|Hz]%elem_of_cons; [lia|by apply H2].
Qed.

Lemma next_slot_fresh us k r z :
  us !! k = Some r → r.(user.sandbox_uid) = Some z → (z < next_slot us)%Z.
Proof.
  intros Hr Hz. assert (z ∈ slots us) as Hin by (apply elem_of_slots; eauto).
  unfold next_slot. destruct (slots us) as [|x l]; [by apply not_elem_of_nil in Hin|].
  cbn. destruct (fold_max_ge l x) as [H1 H2].
  apply elem_of_cons in Hin as [->|Hin]; [lia|]. specialize (H2 _ Hin). lia.
Qed.

Lemma next_slot_nonneg us :
  rows (λ _ r, ∀ z, r.(user.sandbox_uid) = Some z → (0 ≤ z)%Z) us → (0 ≤ next_slot us)%Z.
Proof.
  intros Hpos. unfold next_slot. destruct (slots us) as [|x l] eqn:E; [cbn; lia|].
  assert (x ∈ slots us) as Hin by (rewrite E; constructor).
  apply elem_of_slots in Hin as (k & r & Hr & Hx). specialize (Hpos _ _ Hr _ Hx).
  cbn. destruct (fold_max_ge l x) as [H1 _]. lia.
Qed.

(** The row of a successful insert, and nothing else, is new. *)
Lemma insert_user_Ok uid h nm admin now d u d' :
  insert_user uid h nm admin now d = (Ok u, d') →
  d.(users) !! uid = None ∧
  (∀ k r, d.(users) !! k = Some r → r.(user.handle) ≠ h) ∧
  ∃ r, d' = set_users (insert uid r) d ∧ u = of_row uid r ∧
    r.(user.handle) = h ∧ r.(user.is_admin) = admin ∧ r.(user.disabled) = false ∧
    r.(user.sandbox_uid) = Some (next_slot d.(users)).
Proof.
  unfold insert_user. destruct (decide (known d.(users) uid)) as [|Hk]; [done|].
  destruct (find_row _ _) eqn:E; [done|]. intros [= <- <-]. split_and!.
  - by apply eq_None_not_Some.
  - intros k r Hr Hh. pose proof (find_row_None _ _ E _ _ Hr) as Hn.
    cbn in Hn. by apply eqs_false in Hn.
  - eexists. by split_and!.
Qed.

Lemma insert_user_Err uid h nm admin now d e d' :
  insert_user uid h nm admin now d = (Err e, d') → d' = d.
Proof.
  unfold insert_user. destruct (decide _); [by intros [= _ <-]|].
  destruct (find_row _ _); by intros [= _ <-].
Qed.

Lemma wf_insert_user uid h nm admin now : preserves wf (insert_user uid h nm admin now).
Proof.
  intros d Hwf. destruct (insert_user uid h nm admin now d) as [[u|e] d'] eqn:E; cbn.
  - apply insert_user_Ok in E as (Hn & Hh & r & -> & _ & Er & _ & _ & Es).
    apply wf_set_users; auto with hub.
    + apply uniq_insert; [apply Hwf|]. intros j s Hs Heq. rewrite Er in Heq. by apply Hh in Hs.
    + apply uniq_opt_insert; [apply Hwf|]. intros j s c Hs Hc Hr.
      pose proof (next_slot_fresh _ _ _ _ Hs Hc). rewrite Es in Hr. simplify_eq. lia.
    + apply rows_insert; [apply Hwf|]. intros z Hz. rewrite Es in Hz. simplify_eq.
      apply next_slot_nonneg, Hwf.
  - by apply insert_user_Err in E as ->.
Qed.

Lemma wf_assign_slot uid : preserves wf (assign_slot uid).
Proof.
  intros d Hwf. cbn. apply wf_set_users; [done|..].
  - intros k. apply known_alter.
  - apply uniq_alter; [apply Hwf|done].
  - destruct (d.(users) !! uid) as [r|] eqn:Hr;
      [|rewrite alter_none by done; apply Hwf].
    rewrite (alter_insert _ _ _ _ Hr).
    apply uniq_opt_insert; [apply Hwf|]. intros j s c Hs Hc Heq. cbn in Heq. simplify_eq.
    pose proof (next_slot_fresh _ _ _ _ Hs Hc). lia.
  - apply rows_alter; [apply Hwf|]. intros r _ _ z [= <-]. apply next_slot_nonneg, Hwf.
Qed.

Lemma wf_set_disabled uid b : preserves wf (set_disabled uid b).
Proof.
  intros d Hwf. cbn. apply wf_set_users; [done|..].
  - intros k. apply known_alter.
  - apply uniq_alter; [apply Hwf|done].
  - destruct (d.(users) !! uid) as [r|] eqn:Hr;
      [|rewrite alter_none by done; apply Hwf].
    rewrite (alter_insert _ _ _ _ Hr).
    apply uniq_opt_insert; [apply Hwf|]. intros j s c Hs Hc Heq. cbn in Heq.
    by eapply (wf_slot _ Hwf).
  - apply rows_alter; [apply Hwf|]. intros r Hr Hp z Hz. by apply Hp.
Qed.

Lemma wf_delete uid : preserves wf (delete uid).
Proof. intros d Hwf. cbn. auto with hub. Qed.

Section passkey_facts.
Context `{WebauthnRs}.
Lemma preserves_passkeys_for_user I uid : preserves I (passkeys_for_user uid).
Proof.
  intros d Hd. unfold passkeys_for_user. apply preserves_bind; auto with hub.
  intros l. induction l as [|j l IH]; [apply preserves_ret|]. cbn -[preserves].
  auto 10 with hub.
Qed.
Lemma wf_insert_credential row_id uid pk nm now :
  preserves wf (insert_credential row_id uid pk nm now).
Proof.
  intros d Hwf. unfold insert_credential. destruct (decide _); [done|].
  destruct (find_row _ _) eqn:E; [done|]. destruct (decide _); [|done].
  wf_table Hwf.
  - apply rows_insert; auto.
  - apply uniq_insert; [done|]. cbn. intros j s Hs Heq.
    pose proof (find_row_None _ _ E _ _ Hs) as Hn. cbn in Hn.
    apply eqs_false in Hn. congruence.
Qed.
Lemma wf_update_credential pk : preserves wf (update_credential pk).
Proof.
  intros d Hwf. cbn. wf_table Hwf.
  - apply rows_fmap; [|done]. intros i r _ Hr. by destruct (eqs _ _).
  - apply uniq_fmap; [done|]. intros r. by destruct (eqs _ _).
Qed.
End passkey_facts.

Lemma wf_touch_credential cid info now : preserves wf (touch_credential cid info now).
Proof.
  intros d Hwf. cbn. wf_table Hwf.
  - apply rows_fmap; [|done]. intros i r _ Hr. by destruct (eqs _ _).
  - apply uniq_fmap; [done|]. intros r. by destruct (eqs _ _).
Qed.
Lemma wf_delete_credential uid cid : preserves wf (delete_credential uid cid).
Proof. intros d Hwf. cbn. wf_table Hwf. Qed.
#[global] Hint Resolve wf_insert_user wf_assign_slot wf_set_disabled wf_delete
  preserves_passkeys_for_user wf_insert_credential wf_update_credential
  wf_touch_credential wf_delete_credential : hub.

Lemma wf_create uid h nm admin now : preserves wf (create uid h nm admin now).
Proof. apply wf_insert_user. Qed.
Lemma wf_create_admin_if_first uid h nm now : preserves wf (create_admin_if_first uid h nm now).
Proof. unfold create_admin_if_first. auto with hub. Qed.
Lemma wf_assign_sandbox_slots : preserves wf assign_sandbox_slots.
Proof. unfold assign_sandbox_slots. auto 10 with hub. Qed.
#[global] Hint Resolve wf_create wf_create_admin_if_first wf_assign_sandbox_slots : hub.

(** ** The bootstrap administrator and the sandbox slots *)

(** Racing first registrations: each transaction runs whole, in some order. *)
Definition bootstraps (calls : Datatypes.list (string * string * string * Z)) : M Db anyhow unit :=
  for_each (λ '(uid, h, nm, now), ignore (create_admin_if_first uid h nm now)) calls.

Lemma insert_user_first uid h nm admin now d :
  d.(users) = ∅ → ∃ u, (insert_user uid h nm admin now d).1 = Ok u.
Proof.
  intros Hd. unfold insert_user, known, find_row. rewrite Hd.
  rewrite decide_False by (by intros [? ?%lookup_empty_Some]).
  rewrite map_to_list_empty. cbn. eauto.
Qed.
Lemma create_admin_if_first_count uid h nm now d :
  count_admins (create_admin_if_first uid h nm now d).2 =
    (if decide (d.(users) = ∅) then 1 else count_admins d) ∧
  (create_admin_if_first uid h nm now d).2.(users) ≠ ∅.
Proof.
  unfold create_admin_if_first, bind, gets, count.
  destruct (insert_user _ _ _ _ _ _) as [[u|e] d'] eqn:E; cbn.
  - apply insert_user_Ok in E as (Hn & _ & r & -> & _ & _ & Ha & _). cbn.
    split; [|apply insert_non_empty]. unfold count_admins. cbn.
    rewrite (count_rows_insert_new _ _ _ _ Hn), Ha. unfold count_rows.
    destruct (decide (d.(users) = ∅)) as [->|Hne].
    + by rewrite map_size_empty, map_to_list_empty.
    + by rewrite bool_decide_false by (by rewrite map_size_empty_iff).
  - pose proof (insert_user_Err _ _ _ _ _ _ _ _ E) as ->.
    destruct (decide (d.(users) = ∅)) as [He|Hne]; [|done].
    destruct (insert_user_first uid h nm (bool_decide (size d.(users) = 0)) now d He) as [u Hu].
    by rewrite E in Hu.
Qed.

(** However many first registrations race, from an empty account table they
    leave exactly one administrator, and on a table with accounts they never
    add one. *)
Theorem bootstrap_single_admin calls d :
  count_admins (bootstraps calls d).2 =
  (if decide (d.(users) = ∅ ∧ calls ≠ []) then 1 else count_admins d).
Proof.
  revert d. induction calls as [|[[[uid h] nm] now] calls IH]; intros d.
  - cbn. by rewrite decide_False by (by intros []).
  - unfold bootstraps in *. cbn. unfold bind, ignore at 1. cbn.
    destruct (create_admin_if_first_count uid h nm now d) as [Hc Hne].
    change (count_admins (bootstraps calls (create_admin_if_first uid h nm now d).2).2 =
      if decide (d.(users) = ∅ ∧ (uid, h, nm, now) :: calls ≠ [] ) then 1 else count_admins d).
    unfold bootstraps. rewrite IH, decide_False by (by intros []). rewrite Hc.
    destruct (decide (d.(users) = ∅)) as [He|He].
    + by rewrite decide_True.
    + by rewrite decide_False by (by intros []).
Qed.

Lemma assign_slots_lookup ids d k :
  (for_each assign_slot ids d).1 = Ok tt ∧
  ∃ f, (for_each assign_slot ids d).2 = set_users f d ∧
    match d.(users) !! k with
    | None => f d.(users) !! k = None
    | Some r => if decide (k ∈ ids) then ∃ z, f d.(users) !! k = Some (with_slot z r)
                else f d.(users) !! k = Some r
    end.
Proof.
  revert d. induction ids as [|i ids IH]; intros d.
  - split; [done|]. exists (λ us, us). split; [by destruct d|]. cbn.
    destruct (d.(users) !! k) as [r|] eqn:E; [|done].
    by rewrite decide_False by (by apply not_elem_of_nil).
  - pose (g := λ us : gmap string user.t, alter (with_slot (next_slot d.(users))) i us).
    change (for_each assign_slot (i :: ids) d) with (for_each assign_slot ids (set_users g d)).
    destruct (IH (set_users g d)) as [Hok (f & Hf & Hk)]. split; [exact Hok|].
    exists (λ us, f (g us)). split; [rewrite Hf; by destruct d|].
    revert Hk. cbn. subst g. destruct (decide (k = i)) as [->|Hne].
    + rewrite lookup_alter_eq. destruct (d.(users) !! i) as [r|]; cbn; [|done].
      rewrite (decide_True (P := i ∈ i :: ids)) by constructor.
      destruct (decide (i ∈ ids)); [|eauto]. intros [z ->]. exists z. by destruct r.
    + rewrite lookup_alter_ne by done. destruct (d.(users) !! k) as [r|]; [|done].
      destruct (decide (k ∈ ids)) as [Hi|Hi].
      * by rewrite decide_True by (by constructor).
      * by rewrite decide_False by (by intros [?|?]%elem_of_cons).
Qed.

(** The startup backfill gives every account a sandbox slot, keeps the slots
    already assigned, changes nothing else of any account, and never gives two
    accounts the same slot. *)
Theorem assign_sandbox_slots_spec d :
  wf d →
  ∃ d', assign_sandbox_slots d = (Ok tt, d') ∧
    (∀ k, match d.(users) !! k with
          | None => d'.(users) !! k = None
          | Some r => ∃ z, d'.(users) !! k = Some (with_slot z r) ∧
                           (∀ z0, r.(user.sandbox_uid) = Some z0 → z = z0)
          end) ∧
    ∀ k1 k2 z, sandbox_slot k1 d' = Some z → sandbox_slot k2 d' = Some z → k1 = k2.
Proof.
  intros Hwf. pose proof (wf_assign_sandbox_slots d Hwf) as Hwf'.
  unfold assign_sandbox_slots, bind, gets in *.
  set (ids := (merge_sort _ _).*1) in *.
  exists (for_each assign_slot ids d).2. split; [|split].
  - destruct (assign_slots_lookup ids d "") as [Hok _].
    destruct (for_each _ _ _) as [o d']. cbn in *. by subst.
  - intros k. destruct (assign_slots_lookup ids d k) as [_ (f & -> & Hk)]. cbn.
    destruct (d.(users) !! k) as [r|] eqn:Er; [|done].
    assert (k ∈ ids ↔ r.(user.sandbox_uid) = None) as Hin.
    { subst ids. rewrite merge_sort_Permutation, list_elem_of_fmap. split.
      - intros ([k' r'] & -> & [Hn Hm]%list_elem_of_filter). cbn in *.
        apply elem_of_map_to_list in Hm. by simplify_eq.
      - intros Hn. exists (k, r). split; [done|]. apply list_elem_of_filter.
        split; [done|by apply elem_of_map_to_list]. }
    destruct (decide (k ∈ ids)) as [Hi|Hi].
    + destruct Hk as [z Hz]. exists z. split; [done|]. apply Hin in Hi. by rewrite Hi.
    + rewrite Hin in Hi. destruct (r.(user.sandbox_uid)) as [z|] eqn:Ez; [|done].
      exists z. split; [|by intros ? [= ->]]. rewrite Hk. f_equal.
      destruct r; cbn in *; by subst.
  - intros k1 k2 z. unfold sandbox_slot.
    destruct (_ !! k1) as [r1|] eqn:E1; [|done]. destruct (_ !! k2) as [r2|] eqn:E2; [|done].
    cbn. intros H1 H2. exact (wf_slot _ Hwf' _ _ _ _ _ E1 E2 H1 H2).
Qed.
Lemma assign_sandbox_slots_spec_witness :
  ∃ d', assign_sandbox_slots db_unassigned = (Ok tt, d') ∧
    (∀ k, match db_unassigned.(Schema.users) !! k with
          | None => d'.(Schema.users) !! k = None
          | Some r => ∃ z, d'.(Schema.users) !! k = Some (with_slot z r) ∧
                           (∀ z0, r.(user.sandbox_uid) = Some z0 → z = z0)
          end) ∧
    ∀ k1 k2 z, sandbox_slot k1 d' = Some z → sandbox_slot k2 d' = Some z → k1 = k2.
Proof. apply (assign_sandbox_slots_spec db_unassigned). apply wf_db_unassigned. Defined.

End users.
