(* ===== verification/Util.v ===== *)
(** * Variable substitution (util.rs) and the argv scan that mirrors it (instances.rs)

    [expand_vars] substitutes [${VAR}] references in a command line;
    [secret_refs_in_argv] reports the stored secrets a command line refers to.
    The loop of the source runs on the unread rest of the input, which shrinks
    at every turn; the fuel is the length of the input. *)

From S2P Require Import Prelude Strs.
Open Scope string_scope.

Fixpoint expand_vars_loop (fuel : nat) (vars : gmap string string) (rest : string) : string :=
  match fuel with
  | O => rest
  | S fuel =>
      match split_once "${" rest with
      | Some (before, after) =>
          before +:+
          match split_once "}" after with
          | Some (name, tail) =>
              match vars !! name with
              | Some val => val
              | None => "${" +:+ name +:+ "}"
              end +:+ expand_vars_loop fuel vars tail
          | None => "${" +:+ expand_vars_loop fuel vars after
          end
      | None => rest
      end
  end.
Definition expand_vars (input : string) (vars : gmap string string) : string :=
  expand_vars_loop (String.length input) vars input.

(** The closure [scan] of [secret_refs_in_argv]. *)
Fixpoint scan (fuel : nat) (secrets : list string) (rest : string) (found : list string)
    : list string :=
  match fuel with
  | O => found
  | S fuel =>
      match split_once "${" rest with
      | Some (_, after) =>
          match split_once "}" after with
          | Some (name, tail) =>
              scan fuel secrets tail
                (if decide (name ∈ secrets) then
                   if decide (name ∈ found) then found else found ++ [name]
                 else found)%list
          | None => found
          end
      | None => found
      end
  end.
Definition scan_text (secrets : list string) (found : list string) (text : string) : list string :=
  scan (String.length text) secrets text found.
Definition secret_refs_in_argv (command : option string) (args secret_names : list string)
    : list string :=
  let found := match command with
               | Some c => scan_text secret_names [] c
               | None => []
               end in
  fold_left (scan_text secret_names) args found.

(** ** The loop has enough fuel *)
Lemma expand_vars_loop_fuel n m vars rest :
  (String.length rest <= n)%nat → (String.length rest <= m)%nat →
  expand_vars_loop n vars rest = expand_vars_loop m vars rest.
Proof.
  revert m rest. induction n as [|n IH]; intros m rest Hn Hm.
  - destruct rest; [|cbn in Hn; lia]. by destruct m.
  - destruct m as [|m]; [by destruct rest; [|cbn in Hm; lia]|]. cbn.
    destruct (split_once "${" rest) as [[b a]|] eqn:E; [|done].
    apply split_once_length in E; [|done].
    destruct (split_once "}" a) as [[nm t]|] eqn:E'.
    + apply split_once_length in E'; [|done].
      rewrite (IH m t); [done|lia|lia].
    + rewrite (IH m a); [done|lia|lia].
Qed.

(** The unfolding equation, without fuel. *)
Lemma expand_vars_unfold vars s :
  expand_vars s vars =
  match split_once "${" s with
  | Some (before, after) =>
      before +:+
      match split_once "}" after with
      | Some (name, tail) =>
          match vars !! name with
          | Some val => val
          | None => "${" +:+ name +:+ "}"
          end +:+ expand_vars tail vars
      | None => "${" +:+ expand_vars after vars
      end
  | None => s
  end.
Proof.
  unfold expand_vars at 1. destruct s as [|c s]; [done|].
  change (String.length (String c s)) with (S (String.length s)).
  cbn [expand_vars_loop].
  destruct (split_once "${" (String c s)) as [[b a]|] eqn:E; [|done].
  apply split_once_length in E; [|done]. cbn in E.
  destruct (split_once "}" a) as [[nm t]|] eqn:E'.
  - apply split_once_length in E'; [|done]. unfold expand_vars.
    rewrite (expand_vars_loop_fuel _ (String.length t)); [done|lia|lia].
  - unfold expand_vars.
    rewrite (expand_vars_loop_fuel _ (String.length a)); [done|lia|lia].
Qed.

(** Induction on the unread rest of the input. *)
Lemma rest_ind (P : string → Prop) :
  (∀ s, (∀ r, (String.length r < String.length s)%nat → P r) → P s) → ∀ s, P s.
Proof.
  intros H s. remember (String.length s) as n eqn:Hn. revert s Hn.
  induction n as [n IH] using lt_wf_ind. intros s ->. apply H.
  intros r Hr. by apply (IH (String.length r)).
Qed.

(** Without a closing brace nothing is a reference. *)
Lemma expand_vars_unclosed vars s : split_once "}" s = None → expand_vars s vars = s.
Proof.
  induction s as [s IH] using rest_ind. intros Hs. rewrite expand_vars_unfold.
  destruct (split_once "${" s) as [[b a]|] eqn:E; [|done].
  assert (split_once "}" a = None) as Ha.
  { apply split_once_Some in E. subst s.
    destruct (split_once "}" a) as [[x y]|] eqn:E'; [|done]. exfalso.
    apply split_once_Some in E'. subst a.
    apply (split_once_None _ _ Hs (b +:+ "${" +:+ x) y). by rewrite !append_assoc. }
  rewrite Ha, IH; [|by eapply split_once_length|done].
  symmetry. by apply split_once_Some.
Qed.

(** [scan] only adds names; nothing is found only if nothing was. *)
Lemma scan_nil n secrets s found : scan n secrets s found = [] → found = [].
Proof.
  revert s found. induction n as [|n IH]; intros s found; cbn; [done|].
  destruct (split_once "${" s) as [[b a]|]; [|done].
  destruct (split_once "}" a) as [[nm t]|]; [|done].
  intros H%IH. repeat case_decide; try done.
  by destruct found.
Qed.

(** A text without a reference to a secret expands alike whatever the secrets. *)
Lemma scan_expand n secrets s vars vars' :
  (∀ k, k ∉ secrets → vars !! k = vars' !! k) →
  scan n secrets s [] = [] → (String.length s <= n)%nat →
  expand_vars s vars = expand_vars s vars'.
Proof.
  intros Hagree. revert n.
  induction s as [s IH] using rest_ind. intros n Hscan Hlen.
  rewrite (expand_vars_unfold vars), (expand_vars_unfold vars').
  destruct (split_once "${" s) as [[b a]|] eqn:E; [|done].
  pose proof (split_once_length _ _ _ _ E ltac:(done)) as Hla.
  destruct n as [|n]; [cbn in *; lia|]. cbn in Hscan. rewrite E in Hscan.
  destruct (split_once "}" a) as [[nm t]|] eqn:E'.
  - pose proof (split_once_length _ _ _ _ E' ltac:(done)) as Hlt.
    destruct (decide (nm ∈ secrets)) as [Hin|Hout].
    + apply scan_nil in Hscan. case_decide; [by apply not_elem_of_nil in H|done].
    + rewrite <- (Hagree _ Hout), (IH t ltac:(lia) n); [done|exact Hscan|lia].
  - by rewrite !expand_vars_unclosed.
Qed.

Lemma fold_scan_nil secrets args found :
  fold_left (scan_text secrets) args found = [] →
  found = [] ∧ Forall (λ a, scan_text secrets [] a = []) args.
Proof.
  revert found. induction args as [|a args IH]; intros found; cbn; [done|].
  intros [Ha Hargs]%IH. pose proof (scan_nil _ _ _ _ Ha) as ->. by repeat constructor.
Qed.

(** ** Properties *)

(** Substituting with no variables defined leaves every input exactly as
    written, unknown and unterminated references included. *)
Theorem expand_vars_empty_env s : expand_vars s ∅ = s.
Proof.
  induction s as [s IH] using rest_ind. rewrite expand_vars_unfold.
  destruct (split_once "${" s) as [[b a]|] eqn:E; [|done].
  pose proof (split_once_length _ _ _ _ E ltac:(done)) as Hla.
  apply split_once_Some in E. subst s.
  destruct (split_once "}" a) as [[nm t]|] eqn:E'.
  - pose proof (split_once_length _ _ _ _ E' ltac:(done)) as Hlt.
    apply split_once_Some in E'. subst a.
    rewrite lookup_empty, (IH t) by lia. by rewrite !append_assoc.
  - by rewrite (IH a).
Qed.

(** A reference to a known variable is replaced by its value, the text
    before it is kept, and the value itself is not scanned again. *)
Theorem expand_vars_reference before name val tail vars :
  split_once "${" (before +:+ "${" +:+ name +:+ "}" +:+ tail)
    = Some (before, name +:+ "}" +:+ tail) →
  split_once "}" (name +:+ "}" +:+ tail) = Some (name, tail) →
  vars !! name = Some val →
  expand_vars (before +:+ "${" +:+ name +:+ "}" +:+ tail) vars
    = before +:+ val +:+ expand_vars tail vars.
Proof. intros E E' Hv. by rewrite expand_vars_unfold, E, E', Hv. Qed.

Lemma expand_vars_reference_witness :
  expand_vars "a ${KNOWN} ${OOPS" {["KNOWN" := "${x}"]}
    = "a " +:+ "${x}" +:+ expand_vars " ${OOPS" {["KNOWN" := "${x}"]}.
Proof.
  apply (expand_vars_reference "a " "KNOWN" "${x}" " ${OOPS"); reflexivity.
Defined.

(** When [secret_refs_in_argv] reports nothing, the launched command line
    does not depend on the value of any stored secret. *)
Theorem secret_refs_sound command args secrets vars vars' :
  (∀ k, k ∉ secrets → vars !! k = vars' !! k) →
  secret_refs_in_argv command args secrets = [] →
  (λ c, expand_vars c vars) <$> command = (λ c, expand_vars c vars') <$> command ∧
  map (λ a, expand_vars a vars) args = map (λ a, expand_vars a vars') args.
Proof.
  intros Hagree H. unfold secret_refs_in_argv in H.
  apply fold_scan_nil in H as [Hc Hargs]. split.
  - destruct command as [c|]; [|done]. cbn. f_equal.
    by apply (scan_expand (String.length c) secrets).
  - clear Hc. induction Hargs as [|a args Ha _ IH]; [done|]. cbn. f_equal; [|done].
    by apply (scan_expand (String.length a) secrets).
Qed.

Lemma secret_refs_sound_witness :
  map (λ a, expand_vars a {["TOKEN" := "s3cret"]}) ["--home=${HOME}"; "-v"]
  = map (λ a, expand_vars a {["TOKEN" := "other"]}) ["--home=${HOME}"; "-v"].
Proof.
  apply (secret_refs_sound (Some "srv") ["--home=${HOME}"; "-v"] ["TOKEN"]
    {["TOKEN" := "s3cret"]} {["TOKEN" := "other"]}); [|reflexivity].
  intros k Hk. rewrite !lookup_singleton_ne; [done|..]; intros <-; apply Hk; set_solver.
Defined.
