(* ===== verification/Oauth.v ===== *)
(** * Shared OAuth helpers (oauth/mod.rs, oauth/keys.rs claims) *)

From S2P Require Import Prelude Strs Schema External.
Open Scope string_scope.

Module oauth.

(** The byte loop [diff |= x ^ y] of the constant-time comparison. *)
Fixpoint ct_diff (a b : string) (diff : N) : N :=
  match a, b with
  | String x a, String y b => ct_diff a b (N.lor diff (N.lxor (byte x) (byte y)))
  | _, _ => diff
  end.
Definition ct_eq (a b : string) : bool :=
  if negb (String.length a =? String.length b)%nat then false
  else (ct_diff a b 0 =? 0)%N.

Section digest.
Context `{Digest}.
Definition b64url (bs : string) : string := b64url_encode bs.
(** Stable hash under which bearer secrets are stored. *)
Definition token_hash (token : string) : string := b64url (sha256 token).
Definition verify_pkce_s256 (verifier challenge : string) : bool :=
  ct_eq (b64url (sha256 verifier)) challenge.
End digest.

(** A standards-shaped error; [status] is the HTTP status code. *)
Record OAuthError := { status : Z; error : string; error_description : string }.
Definition invalid_request (d : string) : OAuthError :=
  {| status := 400; error := "invalid_request"; error_description := d |}.
Definition invalid_grant (d : string) : OAuthError :=
  {| status := 400; error := "invalid_grant"; error_description := d |}.
(** [From<anyhow::Error>]: an internal error never tells its cause. *)
Definition server_error (e : anyhow) : OAuthError :=
  {| status := 500; error := "server_error"; error_description := "internal error" |}.

(** ** Facts *)
Lemma byte_inj x y : byte x = byte y → x = y.
Proof.
  unfold byte. intros Heq.
  by rewrite <- (Ascii.ascii_N_embedding x), Heq, Ascii.ascii_N_embedding.
Qed.

Lemma ct_diff_zero a b d :
  String.length a = String.length b → ct_diff a b d = 0%N ↔ d = 0%N ∧ a = b.
Proof.
  revert b d. induction a as [|x a IH]; intros [|y b] d Hlen; try done.
  - cbn. naive_solver.
  - cbn in *. rewrite IH by lia. rewrite N.lor_eq_0_iff, N.lxor_eq_0_iff. split.
    + intros [[-> Hb] ->]. by rewrite (byte_inj _ _ Hb).
    + intros [-> [= -> ->]]. done.
Qed.

(** The constant-time comparison decides equality. *)
Theorem ct_eq_spec a b : ct_eq a b = true ↔ a = b.
Proof.
  unfold ct_eq. destruct (Nat.eqb_spec (String.length a) (String.length b)) as [Hl|Hl]; cbn.
  - rewrite N.eqb_eq, ct_diff_zero by done. naive_solver.
  - split; [done|]. by intros ->.
Qed.

(** The same fact for the development's own use. *)
Lemma ct_eq_eq a b : ct_eq a b = true → a = b.
Proof.
  unfold ct_eq. destruct (Nat.eqb_spec (String.length a) (String.length b)) as [Hl|Hl]; cbn; [|done].
  rewrite N.eqb_eq, ct_diff_zero by done. naive_solver.
Qed.
Lemma ct_eq_refl a : ct_eq a a = true.
Proof.
  unfold ct_eq. rewrite Nat.eqb_refl. cbn. apply N.eqb_eq. by apply ct_diff_zero.
Qed.

End oauth.
