(* ===== verification/AuditLog.v ===== *)
(** * The audit log (audit.rs)

    An event carries every field; [ok], [denied] and [failed] emit it.  An endpoint that
    logs runs on the database and the entries written so far. *)

From S2P Require Import Prelude Strs Schema Users.
Open Scope string_scope.

Module audit.

Inductive Level := Info | Warn.
Record Event := {
  action : string; actor : string; actor_id : string; client_id : string; ip : string;
  user_agent : string; object : string }.
(** What is logged. *)
Record Entry := { level : Level; what : Event; outcome : string; detail : string }.

Definition event (a : string) : Event := {|
  action := a; actor := ""; actor_id := ""; client_id := ""; ip := ""; user_agent := "";
  object := "" |}.
Definition as_actor (handle id : string) (e : Event) : Event := {|
  action := e.(action); actor := handle; actor_id := id; client_id := e.(client_id);
  ip := e.(ip); user_agent := e.(user_agent); object := e.(object) |}.
Definition with_client_id (c : option string) (e : Event) : Event := {|
  action := e.(action); actor := e.(actor); actor_id := e.(actor_id); client_id := default "" c;
  ip := e.(ip); user_agent := e.(user_agent); object := e.(object) |}.
Definition with_object (o : string) (e : Event) : Event := {|
  action := e.(action); actor := e.(actor); actor_id := e.(actor_id);
  client_id := e.(client_id); ip := e.(ip); user_agent := e.(user_agent); object := o |}.
Definition request (i : users.RequestInfo) (e : Event) : Event := {|
  action := e.(action); actor := e.(actor); actor_id := e.(actor_id);
  client_id := e.(client_id); ip := default "" i.(users.ip);
  user_agent := default "" i.(users.user_agent); object := e.(object) |}.

Definition ok (e : Event) : Entry := {| level := Info; what := e; outcome := "ok"; detail := "" |}.
Definition denied (reason : string) (e : Event) : Entry :=
  {| level := Warn; what := e; outcome := "denied"; detail := reason |}.
Definition failed (d : string) (e : Event) : Entry :=
  {| level := Warn; what := e; outcome := "error"; detail := d |}.

End audit.

(** ** The database and the log *)
Abbreviation Logged := (Db * list audit.Entry)%type.
Definition emit {E} (e : audit.Entry) : M Logged E unit :=
  modify (λ l, (l.1, (l.2 ++ [e])%list)).

Lemma emit_Ok {E} e (l : Logged) u l' :
  emit (E:=E) e l = (Ok u, l') → l' = (l.1, (l.2 ++ [e])%list).
Proof. by intros [= _ <-]. Qed.
(** What holds of the database whatever is logged. *)
Definition of_db (P : Db → Prop) (l : Logged) : Prop := P l.1.
Lemma preserves_of_db {E A} P (m : M Db E A) : preserves P m → preserves (of_db P) (on_fst m).
Proof. apply preserves_on_fst. Qed.
Lemma preserves_emit {E} P e : preserves (E:=E) (of_db P) (emit e).
Proof. by intros l. Qed.
#[export] Hint Resolve preserves_of_db preserves_emit : hub.
