(* ===== verification/Invites.v ===== *)
(** * Single-use invite and recovery codes (invites.rs)

    Only the hash of a code is stored.  [redeem] is the authoritative
    single-use step: one conditional [UPDATE]. *)

From S2P Require Import Prelude Strs Schema External Fixtures Oauth.
Open Scope string_scope.
Open Scope hub_scope.

Module invites.

Record Invite := {
  code_hash : string; note : string; created_by : option string; created_at : Z;
  used_at : option Z; used_by : option string; recovery_user_id : option string }.

Definition of_row (h : string) (r : invite.t) : Invite := {|
  code_hash := h; note := r.(invite.note); created_by := r.(invite.created_by);
  created_at := r.(invite.created_at); used_at := r.(invite.used_at);
  used_by := r.(invite.used_by); recovery_user_id := r.(invite.recovery_user_id) |}.

Definition short_id (i : Invite) : string :=
  String.substring 0 (Nat.min (String.length i.(code_hash)) 12) i.(code_hash).
Definition used (i : Invite) : bool := bool_decide (is_Some i.(used_at)).
Definition is_recovery (i : Invite) : bool := bool_decide (is_Some i.(recovery_user_id)).

(** [INSERT INTO invites]: the primary key, then the references. *)
Definition insert_invite (h : string) (r : invite.t) : M Db anyhow unit := λ d,
  if decide (known d.(invites) h) then (Err (Unique "invites.code_hash"), d)
  else if decide (known_opt d.(users) r.(invite.created_by) ∧
                  known_opt d.(users) r.(invite.recovery_user_id))
  then (Ok tt, set_invites (insert h r) d)
  else (Err (ForeignKey "invites"), d).

Definition mark_used (now : Z) (uid : string) (r : invite.t) : invite.t := {|
  invite.note := r.(invite.note); invite.created_by := r.(invite.created_by);
  invite.created_at := r.(invite.created_at); invite.used_at := Some now;
  invite.used_by := Some uid; invite.recovery_user_id := r.(invite.recovery_user_id) |}.

Section hashed.
Context `{Digest}.

(** [code] is the output of [generate_code]. *)
Definition create (created_by note code : string) (now : Z) : M Db anyhow (string * Invite) :=
  let code_hash := oauth.token_hash code in
  let r := {| invite.note := note; invite.created_by := Some created_by;
              invite.created_at := now; invite.used_at := None; invite.used_by := None;
              invite.recovery_user_id := None |} in
  insert_invite code_hash r ;;;
  ret (code, of_row code_hash r).

Definition create_recovery (created_by recovery_user_id code : string) (now : Z)
    : M Db anyhow (string * Invite) :=
  let code_hash := oauth.token_hash code in
  let r := {| invite.note := "account recovery"; invite.created_by := Some created_by;
              invite.created_at := now; invite.used_at := None; invite.used_by := None;
              invite.recovery_user_id := Some recovery_user_id |} in
  insert_invite code_hash r ;;;
  ret (code, of_row code_hash r).

(** [code_hash] is the primary key: the count is 0 or 1. *)
Definition is_redeemable (code : string) (d : Db) : bool :=
  match d.(invites) !! oauth.token_hash (trim code) with
  | Some r => bool_decide (r.(invite.used_at) = None) &&
              bool_decide (r.(invite.recovery_user_id) = None)
  | None => false
  end.
Definition is_recovery_redeemable (code uid : string) (d : Db) : bool :=
  match d.(invites) !! oauth.token_hash (trim code) with
  | Some r => bool_decide (r.(invite.used_at) = None) &&
              eqo r.(invite.recovery_user_id) uid
  | None => false
  end.

Definition already_used : anyhow := Msg "invite code is invalid or has already been used".

Definition redeem (code uid : string) (now : Z) : M Db anyhow unit := λ d,
  let hash := oauth.token_hash (trim code) in
  match d.(invites) !! hash with
  | Some r =>
      match r.(invite.used_at) with
      | None =>
          if decide (known d.(users) uid)
          then (Ok tt, set_invites (insert hash (mark_used now uid r)) d)
          else (Err (ForeignKey "invites.used_by"), d)
      | Some _ => (Err already_used, d)
      end
  | None => (Err already_used, d)
  end.
End hashed.

(** [ORDER BY created_at DESC]. *)
Definition list (d : Db) : Datatypes.list Invite :=
  merge_sort (by_num_desc created_at)
    (map (λ kv, of_row kv.1 kv.2) (map_to_list d.(invites))).

(** The rows [revoke] deletes: unused, with the given hash prefix. *)
Definition revocable (short_id h : string) (r : invite.t) : bool :=
  bool_decide (r.(invite.used_at) = None) &&
  eqs (String.substring 0 (String.length short_id) h) short_id.
Definition revoke (short_id : string) : M Db anyhow bool := λ d,
  (Ok (bool_decide (matching (revocable short_id) d.(invites) ≠ ∅)),
   set_invites (without (revocable short_id)) d).

(** ** Facts *)
Lemma wf_insert_invite h r :
  r.(invite.used_by) = None → preserves wf (insert_invite h r).
Proof.
  intros Hu d Hwf. unfold insert_invite. destruct (decide _); [done|].
  destruct (decide _) as [[Hc Hr]|]; [|done]. wf_table Hwf.
  apply rows_insert; [done|]. by rewrite Hu.
Qed.
Lemma wf_revoke s : preserves wf (revoke s).
Proof. intros d Hwf. cbn. wf_table Hwf. Qed.

Section facts.
Context `{Digest}.
Lemma wf_invite_create c n code now : preserves wf (create c n code now).
Proof. unfold create. auto using wf_insert_invite with hub. Qed.
Lemma wf_create_recovery c n code now : preserves wf (create_recovery c n code now).
Proof. unfold create_recovery. auto using wf_insert_invite with hub. Qed.
Lemma wf_redeem code uid now : preserves wf (redeem code uid now).
Proof.
  intros d Hwf. unfold redeem. destruct (d.(invites) !! _) as [r|] eqn:E; [|done].
  destruct (r.(invite.used_at)); [done|]. destruct (decide _) as [Hk|]; [|done].
  destruct (wf_invite _ Hwf _ _ E) as (? & ? & ?).
  wf_table Hwf. by apply rows_insert.
Qed.

(** The one branch on which [redeem] succeeds. *)
Lemma redeem_Ok code uid now d d' :
  redeem code uid now d = (Ok tt, d') ↔
  ∃ r, d.(invites) !! oauth.token_hash (trim code) = Some r ∧ r.(invite.used_at) = None ∧
    known d.(users) uid ∧
    d' = set_invites (insert (oauth.token_hash (trim code)) (mark_used now uid r)) d.
Proof.
  unfold redeem. split.
  - destruct (d.(invites) !! _) as [r|] eqn:E; [|done].
    destruct (r.(invite.used_at)) eqn:Eu; [done|]. destruct (decide _); [|done].
    intros [= <-]. by exists r.
  - intros (r & -> & -> & Hk & ->). by rewrite decide_True.
Qed.
Lemma redeem_Err code uid now d e d' : redeem code uid now d = (Err e, d') → d' = d.
Proof.
  unfold redeem. destruct (d.(invites) !! _) as [r|]; [|by intros [= _ <-]].
  destruct (r.(invite.used_at)); [by intros [= _ <-]|].
  destruct (decide _); by intros [= _ <-].
Qed.

(** Marked rows stay marked: a statement that keeps them keeps codes spent. *)
Lemma redeem_used code uid now d r z :
  d.(invites) !! oauth.token_hash (trim code) = Some r → r.(invite.used_at) = Some z →
  redeem code uid now d = (Err already_used, d).
Proof. intros Hr Hu. unfold redeem. by rewrite Hr, Hu. Qed.

(** An invite code can be redeemed once: after a redemption, presenting the
    code again (for any account, at any later time) is refused and changes
    nothing. *)
Theorem redeem_single_use code uid now d d' :
  redeem code uid now d = (Ok tt, d') →
  ∀ uid' now', redeem code uid' now' d' = (Err already_used, d').
Proof.
  intros (r & Hr & Hu & Hk & ->)%redeem_Ok uid' now'.
  eapply (redeem_used _ _ _ _ (mark_used now uid r) now); [cbn; apply lookup_insert_eq|done].
Qed.

(** A redemption happens exactly for a stored, unused code and an existing
    account, and it changes that one row only. *)
Theorem redeem_spec code uid now d :
  (∃ d', redeem code uid now d = (Ok tt, d')) ↔
  known d.(users) uid ∧
  ∃ r, d.(invites) !! oauth.token_hash (trim code) = Some r ∧ r.(invite.used_at) = None.
Proof.
  split.
  - intros [d' (r & ? & ? & ? & _)%redeem_Ok]. eauto.
  - intros (Hk & r & Hr & Hu). eexists. apply redeem_Ok. eauto.
Qed.
End facts.
#[global] Hint Resolve wf_invite_create wf_create_recovery wf_redeem wf_revoke : hub.

Definition db_invite : Db := (create (H:=digest0) "u" "note" "code" 5 db2).2.
Lemma redeem_single_use_witness :
  redeem (H:=digest0) " code " "v" 8 (redeem (H:=digest0) "code" "u" 7 db_invite).2 =
  (Err already_used, (redeem (H:=digest0) "code" "u" 7 db_invite).2).
Proof. apply (redeem_single_use (H:=digest0) "code" "u" 7 db_invite). vm_compute; reflexivity. Defined.

(** The empty identifier is a prefix of every hash: revoking it removes
    every unused invite. *)
Theorem revoke_empty_id d :
  ∀ h r, (revoke "" d).2.(invites) !! h = Some r ↔
         d.(invites) !! h = Some r ∧ is_Some r.(invite.used_at).
Proof.
  intros h r. cbn. rewrite without_Some. unfold revocable.
  replace (String.substring 0 (String.length "") h) with "" by (by destruct h).
  rewrite eqs_refl, andb_true_r, bool_decide_eq_false.
  by rewrite <- not_eq_None_Some.
Qed.

End invites.
