(* ===== verification/Sessions.v ===== *)
(** * Browser sessions, redirect targets and CSRF tokens (auth/session.rs)

    A session row carries its idle deadline [expires_at]; the absolute deadline
    is [created_at + absolute_ttl].  Timestamps and lifetimes are [i64] and the
    release build wraps on overflow, so the sums are written [i64_wrap].  A
    signed cookie jar is the map of the cookies whose signature verified. *)

From S2P Require Import Prelude Strs Schema External Users Oauth.
Open Scope string_scope.
Open Scope hub_scope.

Module session.

Definition SESSION_COOKIE : string := "hub_session".
Definition NEXT_COOKIE : string := "hub_next".
Definition SESSION_TOUCH_THROTTLE_SECS : Z := 60.

Definition backslash : string := bytes [92%N].

(** A redirect target must be a same-origin path. *)
Definition safe_next (path : string) : option string :=
  if starts_with "/" path && negb (starts_with "//" path) &&
     negb (contains backslash path) && negb (contains_control path)
  then Some path else None.

(** The attributes of a cookie the server sets; [max_age] in seconds. *)
Record Cookie := {
  cookie_name : string; value : string; http_only : bool; same_site_lax : bool;
  secure : bool; path : string; max_age : option Z }.
Definition next_cookie (p : string) (sec : bool) : Cookie := {|
  cookie_name := NEXT_COOKIE; value := p; http_only := true; same_site_lax := true;
  secure := sec; path := "/"; max_age := Some 600%Z |}.
Definition clear_next_cookie (sec : bool) : Cookie := {|
  cookie_name := NEXT_COOKIE; value := ""; http_only := true; same_site_lax := false;
  secure := sec; path := "/"; max_age := Some 0%Z |}.
Definition session_cookie (sid : string) (sec : bool) : Cookie := {|
  cookie_name := SESSION_COOKIE; value := sid; http_only := true; same_site_lax := true;
  secure := sec; path := "/"; max_age := None |}.
Definition clear_session_cookie (sec : bool) : Cookie := {|
  cookie_name := SESSION_COOKIE; value := ""; http_only := true; same_site_lax := true;
  secure := sec; path := "/"; max_age := Some 0%Z |}.

Definition take_next (jar : gmap string string) : string :=
  match jar !! NEXT_COOKIE with
  | Some v => default "/" (safe_next v)
  | None => "/"
  end.

Section csrf.
Context `{Digest}.
Definition csrf_token (master_key session_id : string) : string :=
  b64url_encode (sha256 ("hub-csrf-v1" +:+ master_key +:+ session_id)).
Definition current_session_id (jar : gmap string string) : option string :=
  jar !! SESSION_COOKIE.
Definition csrf_for (jar : gmap string string) (master_key : string) : option string :=
  csrf_token master_key <$> current_session_id jar.
(** [constant_time_eq] is the comparison of oauth/mod.rs again. *)
Definition check_csrf (jar : gmap string string) (master_key submitted : string) : bool :=
  match csrf_for jar master_key with
  | Some expected => oauth.ct_eq expected submitted
  | None => false
  end.
End csrf.

(** [id] is a fresh UUID. *)
Definition create (id uid : string) (info : users.RequestInfo) (idle_ttl_secs now : Z)
    : M Db anyhow string := λ d,
  if decide (known d.(web_sessions) id) then (Err (Unique "web_sessions.id"), d)
  else if decide (known d.(users) uid) then
    (Ok id, set_web_sessions (insert id {|
      web_session.user_id := uid; web_session.created_at := now;
      web_session.expires_at := i64_wrap (now + idle_ttl_secs);
      web_session.last_ip := info.(users.ip);
      web_session.last_user_agent := info.(users.user_agent) |}) d)
  else (Err (ForeignKey "web_sessions.user_id"), d).

Definition delete (id : string) : M Db anyhow unit :=
  modify (set_web_sessions (base.delete id)).

Definition list_for_user (uid : string) (now : Z) (d : Db) : list (string * web_session.t) :=
  merge_sort (by_num_desc (λ kv, kv.2.(web_session.created_at)))
    (filter (λ kv, kv.2.(web_session.user_id) = uid ∧ (now < kv.2.(web_session.expires_at))%Z)
      (map_to_list d.(web_sessions))).

Definition others (uid keep k : string) (r : web_session.t) : bool :=
  eqs r.(web_session.user_id) uid && negb (eqs k keep).
Definition delete_others (uid keep : string) : M Db anyhow nat := λ d,
  (Ok (size (matching (others uid keep) d.(web_sessions))),
   set_web_sessions (without (others uid keep)) d).

Definition delete_all_for_user (uid : string) : M Db anyhow unit :=
  modify (set_web_sessions (without (λ _ r, eqs r.(web_session.user_id) uid))).

(** Validation without sliding the deadline (logout). *)
Definition user_for_session (sid : string) (now : Z) : M Db anyhow (option users.User) :=
  let* row := gets (λ d, d.(web_sessions) !! sid) in
  match row with
  | None => ret None
  | Some r =>
      if (r.(web_session.expires_at) <? now)%Z then delete sid ;;; ret None
      else users.find_by_id r.(web_session.user_id)
  end.

Definition with_expires (t : Z) (r : web_session.t) : web_session.t := {|
  web_session.user_id := r.(web_session.user_id);
  web_session.created_at := r.(web_session.created_at); web_session.expires_at := t;
  web_session.last_ip := r.(web_session.last_ip);
  web_session.last_user_agent := r.(web_session.last_user_agent) |}.

Definition absolute_deadline (r : web_session.t) (absolute_ttl_secs : Z) : Z :=
  i64_wrap (r.(web_session.created_at) + absolute_ttl_secs).

(** The request-path variant: both deadlines are enforced, and the idle one
    slides to [min (now + idle_ttl) absolute_deadline]. *)
Definition load_and_touch (sid : string) (idle_ttl_secs absolute_ttl_secs now : Z)
    : M Db anyhow (option users.User) :=
  let* row := gets (λ d, d.(web_sessions) !! sid) in
  match row with
  | None => ret None
  | Some r =>
      let expires_at := r.(web_session.expires_at) in
      let absolute_deadline := absolute_deadline r absolute_ttl_secs in
      if (expires_at <=? now)%Z || (absolute_deadline <=? now)%Z
      then ignore (delete sid) ;;; ret None
      else
        let target := Z.min (i64_wrap (now + idle_ttl_secs)) absolute_deadline in
        (if (target <? expires_at)%Z ||
            (SESSION_TOUCH_THROTTLE_SECS <? i64_wrap (target - expires_at))%Z
         then ignore (modify (E:=anyhow) (set_web_sessions (alter (with_expires target) sid)))
         else ret tt) ;;;
        users.find_by_id r.(web_session.user_id)
  end.

Definition delete_expired (now : Z) : M Db anyhow nat := λ d,
  let dead (_ : string) (r : web_session.t) := (r.(web_session.expires_at) <? now)%Z in
  (Ok (size (matching dead d.(web_sessions))), set_web_sessions (without dead) d).

(** The extractor [AuthUser]: the session's user, or a redirect to the login page. *)
Definition AuthUser (jar : gmap string string) (idle_ttl_secs absolute_ttl_secs now : Z)
    : M Db unit users.User :=
  match jar !! SESSION_COOKIE with
  | None => fail tt
  | Some sid =>
      catch (load_and_touch sid idle_ttl_secs absolute_ttl_secs now) (λ r,
        match r with Ok (Some user) => ret user | _ => fail tt end)
  end.
(** The extractor [MaybeUser]. *)
Definition MaybeUser (jar : gmap string string) (idle_ttl_secs absolute_ttl_secs now : Z)
    : M Db anyhow (option users.User) :=
  match jar !! SESSION_COOKIE with
  | None => ret None
  | Some sid =>
      catch (load_and_touch sid idle_ttl_secs absolute_ttl_secs now) (λ r,
        match r with Ok u => ret u | Err _ => ret None end)
  end.

(** ** Facts *)
Lemma wf_session_create id uid info ttl now : preserves wf (create id uid info ttl now).
Proof.
  intros d Hwf. unfold create. destruct (decide _); [done|]. destruct (decide _); [|done].
  wf_table Hwf. by apply rows_insert.
Qed.
Lemma wf_session_delete id : preserves wf (delete id).
Proof. intros d Hwf. cbn. wf_table Hwf. Qed.
Lemma wf_delete_others uid keep : preserves wf (delete_others uid keep).
Proof. intros d Hwf. cbn. wf_table Hwf. Qed.
Lemma wf_delete_all_for_user uid : preserves wf (delete_all_for_user uid).
Proof. intros d Hwf. cbn. wf_table Hwf. Qed.
Lemma wf_delete_expired now : preserves wf (delete_expired now).
Proof. intros d Hwf. cbn. wf_table Hwf. Qed.
Lemma wf_slide t sid : preserves (E:=anyhow) wf (modify (set_web_sessions (alter (with_expires t) sid))).
Proof. intros d Hwf. cbn. wf_table Hwf. by apply rows_alter. Qed.
#[global] Hint Resolve wf_session_create wf_session_delete wf_delete_others
  wf_delete_all_for_user wf_delete_expired wf_slide : hub.

Lemma wf_user_for_session sid now : preserves wf (user_for_session sid now).
Proof.
  unfold user_for_session. apply preserves_bind; auto with hub. intros [r|]; auto with hub.
  destruct (_ <? _)%Z; unfold users.find_by_id; auto with hub.
Qed.
Lemma wf_load_and_touch sid i a now : preserves wf (load_and_touch sid i a now).
Proof.
  unfold load_and_touch. apply preserves_bind; auto with hub. intros [r|]; auto with hub.
  destruct (_ || _); [auto with hub|].
  apply preserves_bind; [destruct (_ || _)|intros _; unfold users.find_by_id]; auto with hub.
Qed.
#[global] Hint Resolve wf_user_for_session wf_load_and_touch : hub.
Lemma wf_AuthUser jar i a now : preserves wf (AuthUser jar i a now).
Proof.
  unfold AuthUser. destruct (jar !! _); auto with hub.
  apply preserves_catch; auto with hub. intros [[u|]|e]; auto with hub.
Qed.
Lemma wf_MaybeUser jar i a now : preserves wf (MaybeUser jar i a now).
Proof.
  unfold MaybeUser. destruct (jar !! _); auto with hub.
  apply preserves_catch; auto with hub. intros [u|e]; auto with hub.
Qed.
#[global] Hint Resolve wf_AuthUser wf_MaybeUser : hub.

(** [load_and_touch] by cases. *)
Definition live (r : web_session.t) (abs now : Z) : Prop :=
  (now < r.(web_session.expires_at))%Z ∧ (now < absolute_deadline r abs)%Z.
#[global] Instance live_dec r abs now : Decision (live r abs now).
Proof. unfold live. apply _. Defined.
(** The deadline a served request leaves behind. *)
Definition slide_target (r : web_session.t) (idle abs now : Z) : Z :=
  Z.min (i64_wrap (now + idle)) (absolute_deadline r abs).
Definition slid (r : web_session.t) (idle abs now : Z) : web_session.t :=
  if (slide_target r idle abs now <? r.(web_session.expires_at))%Z ||
     (SESSION_TOUCH_THROTTLE_SECS <?
        i64_wrap (slide_target r idle abs now - r.(web_session.expires_at)))%Z
  then with_expires (slide_target r idle abs now) r else r.

Lemma load_and_touch_missing sid idle abs now d :
  d.(web_sessions) !! sid = None → load_and_touch sid idle abs now d = (Ok None, d).
Proof. intros Hr. unfold load_and_touch, bind, gets. by rewrite Hr. Qed.
Lemma load_and_touch_dead sid idle abs now d r :
  d.(web_sessions) !! sid = Some r → ¬ live r abs now →
  load_and_touch sid idle abs now d = (Ok None, set_web_sessions (base.delete sid) d).
Proof.
  intros Hr Hl. unfold load_and_touch, bind, gets. rewrite Hr.
  destruct (_ || _) eqn:E; [done|]. bool_prop. destruct Hl. split; lia.
Qed.
Lemma load_and_touch_live sid idle abs now d r :
  d.(web_sessions) !! sid = Some r → live r abs now →
  load_and_touch sid idle abs now d =
    (Ok (users.of_row r.(web_session.user_id) <$> d.(users) !! r.(web_session.user_id)),
     set_web_sessions (insert sid (slid r idle abs now)) d).
Proof.
  intros Hr [H1 H2]. unfold load_and_touch, bind, gets. rewrite Hr.
  replace (_ || _) with false by (symmetry; apply orb_false_iff; split; apply Z.leb_gt; lia).
  unfold slid, slide_target. destruct (_ || _) eqn:E; cbn.
  - unfold users.find_by_id, gets, set_web_sessions. cbn. by rewrite (alter_insert _ _ _ _ Hr).
  - unfold users.find_by_id, gets, set_web_sessions. cbn. rewrite insert_id by done.
    by destruct d.
Qed.

(** ** Properties *)

(** C21: a request is served as [user] exactly when the session exists, its owner
    exists, and both the idle and the absolute deadline lie in the future. *)
Theorem load_and_touch_spec sid idle abs now d u :
  (load_and_touch sid idle abs now d).1 = Ok (Some u) ↔
  ∃ r row, d.(web_sessions) !! sid = Some r ∧
    d.(users) !! r.(web_session.user_id) = Some row ∧
    u = users.of_row r.(web_session.user_id) row ∧
    (now < r.(web_session.expires_at))%Z ∧ (now < absolute_deadline r abs)%Z.
Proof.
  destruct (d.(web_sessions) !! sid) as [r|] eqn:Hr.
  2: { rewrite load_and_touch_missing by done. naive_solver. }
  destruct (decide (live r abs now)) as [Hl|Hl].
  - rewrite (load_and_touch_live _ _ _ _ _ _ Hr Hl). destruct Hl as [H1 H2].
    destruct (users d !! r.(web_session.user_id)) as [row|] eqn:Hu; cbn; naive_solver.
  - rewrite (load_and_touch_dead _ _ _ _ _ _ Hr Hl). cbn. split; [done|].
    intros (r' & row & Hr' & _ & _ & H1 & H2). destruct Hl. simplify_eq. by split.
Qed.

(** Serving a request moves the idle deadline to within a minute of
    [min (now + idle) (created + absolute)] and never beyond it, so a session
    is dead [idle] seconds after its last request and [absolute] seconds after
    its creation; nothing else of the row, and no other row, changes. *)
Theorem load_and_touch_slides sid idle abs now d u r :
  d.(web_sessions) !! sid = Some r →
  in_i64 (now + idle) → in_i64 (r.(web_session.created_at) + abs) →
  in_i64 (Z.min (now + idle) (r.(web_session.created_at) + abs) -
          r.(web_session.expires_at)) →
  (load_and_touch sid idle abs now d).1 = Ok (Some u) →
  let target := Z.min (now + idle) (r.(web_session.created_at) + abs) in
  ∃ t, (load_and_touch sid idle abs now d).2 =
         set_web_sessions (insert sid (with_expires t r)) d ∧
       (target - SESSION_TOUCH_THROTTLE_SECS ≤ t ≤ target)%Z.
Proof.
  intros Hr Hi Ha Hd Hok. cbv zeta.
  destruct (decide (live r abs now)) as [Hl|Hl];
    [|by rewrite (load_and_touch_dead _ _ _ _ _ _ Hr Hl) in Hok].
  rewrite (load_and_touch_live _ _ _ _ _ _ Hr Hl). cbn.
  unfold slid, slide_target, absolute_deadline. rewrite !i64_wrap_id by done.
  unfold SESSION_TOUCH_THROTTLE_SECS. destruct (_ || _) eqn:E.
  - eexists. split; [done|lia].
  - bool_prop. exists r.(web_session.expires_at). split; [by destruct r|lia].
Qed.

(** With a configured absolute lifetime beyond the 64-bit range the
    deadline wraps to the past: every session is dropped on its first request. *)
Theorem absolute_ttl_overflow sid idle abs now d r :
  d.(web_sessions) !! sid = Some r →
  (0 ≤ r.(web_session.created_at) ≤ now)%Z → (abs ≤ i64_max)%Z → (now < 2^62)%Z →
  (i64_max < r.(web_session.created_at) + abs)%Z →
  load_and_touch sid idle abs now d = (Ok None, set_web_sessions (base.delete sid) d).
Proof.
  intros Hr Hc Ha Hn Hov. apply (load_and_touch_dead _ _ _ _ _ _ Hr).
  intros [_ H2]. unfold absolute_deadline, i64_wrap in H2. unfold i64_max in *.
  replace (web_session.created_at r + abs + 2^63)%Z
    with (web_session.created_at r + abs - 2^63 + 1 * 2^64)%Z in H2 by lia.
  rewrite Z.mod_add, Z.mod_small in H2 by lia. lia.
Qed.

Lemma contains_one c s : contains (String c "") s = negb (str_all (λ d, negb (Ascii.eqb c d)) s).
Proof.
  unfold contains. induction s as [|d s IH]; [done|]. cbn.
  destruct (Ascii.eqb c d); cbn; [done|].
  rewrite <- IH. by destruct (split_once (String c "") s) as [[]|].
Qed.

(** A redirect target is accepted exactly when it is a path of one leading
    slash (not two, so not a network-path reference), without a backslash or a
    control character, and it is passed on unchanged. *)
Theorem safe_next_spec p q :
  safe_next p = Some q ↔
  q = p ∧ (∃ rest, p = "/" +:+ rest ∧ ∀ x, rest ≠ "/" +:+ x) ∧
  str_all (λ c, negb (Ascii.eqb (Ascii.ascii_of_N 92) c)) p = true ∧
  contains_control p = false.
Proof.
  unfold safe_next, backslash, bytes. cbn [fold_right]. rewrite contains_one, negb_involutive.
  assert (starts_with "/" p && negb (starts_with "//" p) = true ↔
          ∃ rest, p = "/" +:+ rest ∧ ∀ x, rest ≠ "/" +:+ x) as Hs.
  { rewrite andb_true_iff, starts_with_spec, negb_true_iff, <- not_true_iff_false,
      starts_with_spec. split.
    - intros [[rest ->] Hn]. exists rest. split; [done|]. intros x ->. apply Hn. by exists x.
    - intros (rest & -> & Hn). split; [by exists rest|]. intros [x Hx].
      apply (Hn x). by apply (append_inj_l "/"). }
  destruct (_ && _ && _ && _) eqn:E.
  - rewrite !andb_true_iff in E. destruct E as [[[E1 E2] E3] E4].
    apply negb_true_iff in E4. destruct Hs as [Hs _]. split; [|by intros [-> _]].
    intros [= <-]. split_and!; [done| |done|done]. apply Hs. by rewrite E1, E2.
  - split; [done|]. intros (-> & Hr & Hb & Hc). apply Hs in Hr. by rewrite Hr, Hb, Hc in E.
Qed.

Section csrf_facts.
Context `{Digest}.

(** A form is accepted exactly when the request carries a session cookie and
    submits that session's own token. *)
Theorem check_csrf_spec jar key submitted :
  check_csrf jar key submitted = true ↔
  ∃ sid, jar !! SESSION_COOKIE = Some sid ∧ submitted = csrf_token key sid.
Proof.
  unfold check_csrf, csrf_for, current_session_id. destruct (jar !! _) as [sid|];
    cbn [fmap option_fmap option_map].
  - split.
    + intros <-%oauth.ct_eq_eq. eauto.
    + intros (? & [= <-] & ->). apply oauth.ct_eq_refl.
  - split; [done|]. by intros (? & ? & _).
Qed.
End csrf_facts.

(** *** Witnesses *)
Definition row0 : web_session.t := {|
  web_session.user_id := "u"; web_session.created_at := 100;
  web_session.expires_at := 150; web_session.last_ip := None;
  web_session.last_user_agent := None |}.
Definition user0 : user.t := {|
  user.handle := "u"; user.display_name := "u"; user.is_admin := false;
  user.created_at := 1; user.disabled := false; user.sandbox_uid := Some 0%Z |}.
Definition db0 : Db :=
  set_web_sessions (insert "s" row0) (set_users (insert "u" user0) empty_db).

Lemma load_and_touch_slides_witness :
  ∃ t, (load_and_touch "s" 300 1000 120 db0).2 =
         set_web_sessions (insert "s" (with_expires t row0)) db0 ∧
       (Z.min (120 + 300) (100 + 1000) - SESSION_TOUCH_THROTTLE_SECS ≤ t
          ≤ Z.min (120 + 300) (100 + 1000))%Z.
Proof.
  apply (load_and_touch_slides "s" 300 1000 120 db0 (users.of_row "u" user0) row0);
    vm_compute; try split; congruence.
Defined.
Lemma absolute_ttl_overflow_witness :
  load_and_touch "s" 300 i64_max 120 db0 = (Ok None, set_web_sessions (base.delete "s") db0).
Proof.
  apply (absolute_ttl_overflow "s" 300 i64_max 120 db0 row0);
    vm_compute; try split; congruence.
Defined.

End session.
