(* ===== verification/Tokens.v ===== *)
(** * Personal access tokens (tokens.rs) *)

From S2P Require Import Prelude Strs Schema External Fixtures Oauth.
Open Scope string_scope.
Open Scope hub_scope.

Module tokens.

Definition PREFIX : string := "mcphub_pat_".
Definition MAX_TTL_SECS : Z := 365 * 86400.
Definition TOUCH_THROTTLE_SECS : Z := 60.

Definition looks_like_pat (token : string) : bool := starts_with PREFIX token.

(** A stored token, never its secret. *)
Record Pat := {
  id : string; name : string; created_at : Z; last_used_at : option Z; expires_at : Z }.
Definition of_row (tid : string) (r : pat.t) : Pat := {|
  id := tid; name := r.(pat.name); created_at := r.(pat.created_at);
  last_used_at := r.(pat.last_used_at); expires_at := r.(pat.expires_at) |}.

(** [INSERT]: primary key, the unique hash, then the owner's reference. *)
Definition insert_pat (tid : string) (r : pat.t) : M Db anyhow unit := λ d,
  if decide (known d.(personal_access_tokens) tid)
  then (Err (Unique "personal_access_tokens.id"), d)
  else match find_kv (λ _ s, eqs s.(pat.token_hash) r.(pat.token_hash))
               d.(personal_access_tokens) with
  | Some _ => (Err (Unique "personal_access_tokens.token_hash"), d)
  | None =>
      if decide (known d.(users) r.(pat.user_id))
      then (Ok tt, set_personal_access_tokens (insert tid r) d)
      else (Err (ForeignKey "personal_access_tokens.user_id"), d)
  end.

Section hashed.
Context `{Digest}.
(** [random] is [random_token()], [tid] is [new_id()]. *)
Definition create (uid nm : string) (ttl_secs : Z) (tid random : string) (now : Z)
    : M Db anyhow (Pat * string) :=
  let plaintext := PREFIX +:+ random in
  let r := {| pat.user_id := uid; pat.token_hash := oauth.token_hash plaintext;
              pat.name := nm; pat.created_at := now; pat.last_used_at := None;
              pat.expires_at := i64_wrap (now + ttl_secs) |} in
  insert_pat tid r ;;;
  ret (of_row tid r, plaintext).
End hashed.

Definition list_for_user (uid : string) (d : Db) : list Pat :=
  merge_sort (by_num_desc created_at)
    (map (λ kv, of_row kv.1 kv.2)
      (filter (λ kv, kv.2.(pat.user_id) = uid) (map_to_list d.(personal_access_tokens)))).

Definition resolve_valid (hash : string) (now : Z) (d : Db) : option (string * string) :=
  match find_kv (λ _ r, eqs r.(pat.token_hash) hash && (now <? r.(pat.expires_at))%Z)
          d.(personal_access_tokens) with
  | Some (tid, r) => Some (r.(pat.user_id), tid)
  | None => None
  end.

Definition with_used (now : Z) (r : pat.t) : pat.t := {|
  pat.user_id := r.(pat.user_id); pat.token_hash := r.(pat.token_hash);
  pat.name := r.(pat.name); pat.created_at := r.(pat.created_at);
  pat.last_used_at := Some now; pat.expires_at := r.(pat.expires_at) |}.
Definition stale (now : Z) (r : pat.t) : bool :=
  match r.(pat.last_used_at) with
  | None => true
  | Some t => (t <? i64_wrap (now - TOUCH_THROTTLE_SECS))%Z
  end.
Definition touch (tid : string) (now : Z) : M Db anyhow unit :=
  modify (set_personal_access_tokens
    (alter (λ r, if stale now r then with_used now r else r) tid)).

Definition mine (uid tid k : string) (r : pat.t) : bool :=
  eqs k tid && eqs r.(pat.user_id) uid.
Definition revoke (uid tid : string) : M Db anyhow bool := λ d,
  (Ok (bool_decide (matching (mine uid tid) d.(personal_access_tokens) ≠ ∅)),
   set_personal_access_tokens (without (mine uid tid)) d).

Definition of_user (uid : string) (_ : string) (r : pat.t) : bool := eqs r.(pat.user_id) uid.
Definition revoke_all_for_user (uid : string) : M Db anyhow nat := λ d,
  (Ok (size (matching (of_user uid) d.(personal_access_tokens))),
   set_personal_access_tokens (without (of_user uid)) d).

(** ** Facts *)
Lemma insert_pat_Ok tid r d d' :
  insert_pat tid r d = (Ok tt, d') →
  d' = set_personal_access_tokens (insert tid r) d ∧ known d.(users) r.(pat.user_id) ∧
  ∀ k s, d.(personal_access_tokens) !! k = Some s → s.(pat.token_hash) ≠ r.(pat.token_hash).
Proof.
  unfold insert_pat. destruct (decide _); [done|].
  destruct (find_kv _ _) eqn:E; [done|]. destruct (decide _) as [Hk|]; [|done].
  intros [= <-]. split_and!; [done..|]. intros k s Hs.
  by apply eqs_false, (find_kv_None _ _ E k s Hs).
Qed.
Lemma insert_pat_Err tid r d e d' : insert_pat tid r d = (Err e, d') → d' = d.
Proof.
  unfold insert_pat. destruct (decide _); [by intros [= _ <-]|].
  destruct (find_kv _ _); [by intros [= _ <-]|]. destruct (decide _); by intros [= _ <-].
Qed.
Lemma wf_insert_pat tid r : preserves wf (insert_pat tid r).
Proof.
  intros d Hwf. destruct (insert_pat tid r d) as [[[]|e] d'] eqn:E; cbn.
  - apply insert_pat_Ok in E as (-> & Hk & Hu). wf_table Hwf.
    + by apply rows_insert.
    + apply uniq_insert; [done|]. intros j s Hs Heq. by destruct (Hu _ _ Hs).
  - by apply insert_pat_Err in E as ->.
Qed.
Lemma wf_pat_touch tid now : preserves wf (touch tid now).
Proof.
  intros d Hwf. cbn. wf_table Hwf.
  - apply rows_alter; [done|]. intros r _ ?. by destruct (stale now r).
  - apply uniq_alter; [done|]. intros r. by destruct (stale now r).
Qed.
Lemma wf_pat_revoke uid tid : preserves wf (revoke uid tid).
Proof. intros d Hwf. cbn. wf_table Hwf. Qed.
Lemma wf_revoke_all_for_user uid : preserves wf (revoke_all_for_user uid).
Proof. intros d Hwf. cbn. wf_table Hwf. Qed.
#[global] Hint Resolve wf_insert_pat wf_pat_touch wf_pat_revoke wf_revoke_all_for_user : hub.
Lemma wf_pat_create `{Digest} uid nm ttl tid random now :
  preserves wf (create uid nm ttl tid random now).
Proof. unfold create. auto with hub. Qed.
#[global] Hint Resolve wf_pat_create : hub.

Lemma resolve_valid_Some hash now d uid tid :
  wf d →
  resolve_valid hash now d = Some (uid, tid) ↔
  ∃ r, d.(personal_access_tokens) !! tid = Some r ∧ r.(pat.user_id) = uid ∧
    r.(pat.token_hash) = hash ∧ (now < r.(pat.expires_at))%Z.
Proof.
  intros Hwf. unfold resolve_valid. split.
  - destruct (find_kv _ _) as [[k r]|] eqn:E; [|done]. intros [= <- <-].
    apply find_kv_Some in E as [Hr [Hh Hn]%andb_true_iff].
    apply eqs_true in Hh. apply Z.ltb_lt in Hn. eauto.
  - intros (r & Hr & <- & <- & Hn).
    rewrite (find_kv_unique _ _ tid r); [done|done| |].
    + rewrite eqs_refl. cbn. by apply Z.ltb_lt.
    + intros j s Hs [Hh _]%andb_true_iff. apply eqs_true in Hh.
      by eapply (wf_pat_hash _ Hwf).
Qed.

Section lifecycle.
Context `{Digest}.

(** A freshly minted token authenticates its owner until it expires,
    whatever other tokens exist, and once revoked (alone or with all of its
    owner's tokens) it authenticates nobody at any later time. *)
Theorem pat_lifecycle uid nm ttl tid random now d p plain d' :
  wf d →
  create uid nm ttl tid random now d = (Ok (p, plain), d') →
  (∀ t, resolve_valid (oauth.token_hash plain) t d' =
        if (t <? i64_wrap (now + ttl))%Z then Some (uid, tid) else None) ∧
  (∀ t, resolve_valid (oauth.token_hash plain) t (revoke uid tid d').2 = None) ∧
  (∀ t, resolve_valid (oauth.token_hash plain) t (revoke_all_for_user uid d').2 = None).
Proof.
  intros Hwf Hc. unfold create, bind in Hc.
  destruct (insert_pat _ _ d) as [[[]|e] d1] eqn:E; [|done]. unfold ret in Hc. simplify_eq.
  apply insert_pat_Ok in E as (-> & Hk & Hu). cbn in Hu, Hk.
  set (h := oauth.token_hash _) in *.
  assert (∀ (d2 : Db), (∀ k s, d2.(personal_access_tokens) !! k = Some s →
            d.(personal_access_tokens) !! k = Some s) →
          ∀ t, resolve_valid h t d2 = None) as Hnone.
  { intros d2 Hsub t. unfold resolve_valid. rewrite find_kv_absent; [done|].
    intros k r Hr. rewrite (proj2 (eqs_false _ _)); [done|]. eauto. }
  split_and!.
  - intros t. unfold resolve_valid. cbn [personal_access_tokens set_personal_access_tokens].
    destruct (t <? _)%Z eqn:Et.
    + erewrite find_kv_unique; [|apply lookup_insert_eq| |]; cbn; [done| |].
      * by rewrite eqs_refl.
      * intros j s [[<- _]|[_ Hs]]%lookup_insert_Some [Hh _]%andb_true_iff; [done|].
        apply eqs_true in Hh. by destruct (Hu _ _ Hs).
    + rewrite find_kv_absent; [done|]. cbn.
      intros k s [[<- <-]|[_ Hs]]%lookup_insert_Some; cbn; [by rewrite Et, andb_false_r|].
      by rewrite (proj2 (eqs_false _ _) (Hu _ _ Hs)).
  - apply Hnone. cbn. intros k s [[[<- <-]|[_ Hs]]%lookup_insert_Some Hm]%without_Some; [|done].
    unfold mine in Hm. cbn in Hm. by rewrite !eqs_refl in Hm.
  - apply Hnone. cbn. intros k s [[[<- <-]|[_ Hs]]%lookup_insert_Some Hm]%without_Some; [|done].
    unfold of_user in Hm. cbn in Hm. by rewrite !eqs_refl in Hm.
Qed.
End lifecycle.

(** *** Witnesses *)
Lemma pat_lifecycle_witness :
  let d := (create (H:=digest0) "u" "cli" 100 "t" "r" 1000 db0).2 in
  resolve_valid "mcphub_pat_r" 1099 d = Some ("u", "t") ∧
  resolve_valid "mcphub_pat_r" 1100 d = None.
Proof.
  pose proof (proj1 (pat_lifecycle (H:=digest0) "u" "cli" 100 "t" "r" 1000 db0 _ _ _ wf_db0 eq_refl))
    as Hr.
  split; [exact (Hr 1099%Z)|exact (Hr 1100%Z)].
Defined.

End tokens.
