(* ===== verification/Access.v ===== *)
(** * Per-credential backend denials (access.rs)

    A row [(credential_type, credential_id, instance_id)] denies one backend to
    one credential; the row's [user_id] is not part of the key. *)

From S2P Require Import Prelude Strs Schema External Fixtures.
Open Scope string_scope.
Open Scope hub_scope.

Module access.

Definition OAUTH : string := "oauth".
Definition PAT : string := "pat".

(** The rows of one credential. *)
Definition for_credential (ctype cid : string) (k : string * string * string) (_ : denial.t)
    : bool := eqs k.1.1 ctype && eqs k.1.2 cid.

Definition denied_instances (ctype cid : string) (d : Db) : gset string :=
  set_map (λ k, k.2) (dom (matching (for_credential ctype cid) d.(credential_backend_denials))).

Definition clear_for_credential (ctype cid : string) : M Db anyhow unit :=
  modify (set_credential_backend_denials (without (for_credential ctype cid))).

(** [INSERT OR IGNORE ... SELECT ... WHERE id = ? AND user_id = ?]. *)
Definition insert_denial (uid ctype cid : string) (now : Z) (iid : string)
    : M Db anyhow unit := λ d,
  match d.(user_server_instances) !! iid with
  | Some r =>
      if eqs r.(instance.user_id) uid then
        match d.(credential_backend_denials) !! (ctype, cid, iid) with
        | Some _ => (Ok tt, d)
        | None =>
            if decide (known d.(users) uid) then
              (Ok tt, set_credential_backend_denials
                (insert (ctype, cid, iid)
                  {| denial.user_id := uid; denial.created_at := now |}) d)
            else (Err (ForeignKey "credential_backend_denials.user_id"), d)
        end
      else (Ok tt, d)
  | None => (Ok tt, d)
  end.

Definition set_denials (uid ctype cid : string) (denied : list string) (now : Z)
    : M Db anyhow unit :=
  transaction
    (clear_for_credential ctype cid ;;;
     for_each (insert_denial uid ctype cid now) denied).

(** ** Facts *)
Lemma elem_of_denied_instances ctype cid d i :
  i ∈ denied_instances ctype cid d ↔ is_Some (d.(credential_backend_denials) !! (ctype, cid, i)).
Proof.
  unfold denied_instances. rewrite elem_of_map. split.
  - intros ([[a b] c] & -> & [r Hr]%elem_of_dom). cbn.
    apply map_lookup_filter_Some in Hr as [Hr Hm]. unfold for_credential in Hm. cbn in Hm.
    apply andb_true_iff in Hm as [->%eqs_true ->%eqs_true]. by exists r.
  - intros [r Hr]. exists (ctype, cid, i). split; [done|].
    apply elem_of_dom. exists r. apply map_lookup_filter_Some. split; [done|].
    unfold for_credential. cbn. by rewrite !eqs_refl.
Qed.

Lemma wf_clear_for_credential ctype cid : preserves wf (clear_for_credential ctype cid).
Proof. intros d Hwf. cbn. wf_table Hwf. Qed.
Lemma wf_insert_denial uid ctype cid now iid : preserves wf (insert_denial uid ctype cid now iid).
Proof.
  intros d Hwf. unfold insert_denial. destruct (_ !! iid) as [r|] eqn:Hr; [|done].
  destruct (eqs _ _) eqn:Ho; [|done]. apply eqs_true in Ho.
  destruct (_ !! (ctype, cid, iid)); [done|]. destruct (decide _) as [Hk|]; [|done].
  wf_table Hwf. apply rows_insert; [done|]. cbn. split; [done|]. by exists r.
Qed.
#[global] Hint Resolve wf_clear_for_credential wf_insert_denial : hub.
Lemma wf_set_denials uid ctype cid l now : preserves wf (set_denials uid ctype cid l now).
Proof. unfold set_denials. auto with hub. Qed.
#[global] Hint Resolve wf_set_denials : hub.

(** One insertion, on a consistent database: it succeeds, and the credential's
    set grows by the instance exactly when the user owns it. *)
Lemma insert_denial_run uid ctype cid now iid d :
  wf d →
  ∃ d', insert_denial uid ctype cid now iid d = (Ok tt, d') ∧
    d'.(users) = d.(users) ∧ d'.(user_server_instances) = d.(user_server_instances) ∧
    (∀ i, is_Some (d'.(credential_backend_denials) !! (ctype, cid, i)) ↔
       is_Some (d.(credential_backend_denials) !! (ctype, cid, i)) ∨
       i = iid ∧ owns_instance d uid i) ∧
    (∀ k, k.1 ≠ (ctype, cid) →
       d'.(credential_backend_denials) !! k = d.(credential_backend_denials) !! k).
Proof.
  intros Hwf. unfold insert_denial, owns_instance.
  destruct (d.(user_server_instances) !! iid) as [r|] eqn:Hr.
  2: { exists d. split_and!; try done. naive_solver. }
  destruct (eqs _ _) eqn:Ho.
  2: { apply eqs_false in Ho. exists d. split_and!; try done. naive_solver. }
  apply eqs_true in Ho.
  destruct (_ !! (ctype, cid, iid)) as [w|] eqn:Hd.
  { exists d. split_and!; try done. intros i. split; [by left|].
    intros [?|[-> _]]; [done|]. by exists w. }
  rewrite decide_True by (rewrite <- Ho; by apply (wf_inst_user _ Hwf iid)).
  eexists. split_and!; [done..| |]; cbn.
  - intros i. destruct (decide (i = iid)) as [->|Hne].
    + rewrite lookup_insert_eq. split; [|by eexists]. intros _. right. eauto.
    + rewrite lookup_insert_ne by congruence. naive_solver.
  - intros k Hk. rewrite lookup_insert_ne; [done|]. by intros <-.
Qed.

Lemma insert_denials_run uid ctype cid now l d :
  wf d →
  ∃ d', for_each (insert_denial uid ctype cid now) l d = (Ok tt, d') ∧
    (∀ i, is_Some (d'.(credential_backend_denials) !! (ctype, cid, i)) ↔
       is_Some (d.(credential_backend_denials) !! (ctype, cid, i)) ∨
       i ∈ l ∧ owns_instance d uid i) ∧
    (∀ k, k.1 ≠ (ctype, cid) →
       d'.(credential_backend_denials) !! k = d.(credential_backend_denials) !! k).
Proof.
  revert d. induction l as [|j l IH]; intros d Hwf.
  { exists d. split_and!; try done. intros i. rewrite elem_of_nil. naive_solver. }
  destruct (insert_denial_run uid ctype cid now j d Hwf) as (d1 & E & Hu & Hi & Hs & Ho).
  assert (wf d1) as Hwf1.
  { pose proof (wf_insert_denial uid ctype cid now j d Hwf). by rewrite E in H. }
  destruct (IH d1 Hwf1) as (d2 & E2 & Hs2 & Ho2).
  exists d2. split_and!.
  - cbn. unfold bind. by rewrite E.
  - intros i. rewrite Hs2, Hs, elem_of_cons. unfold owns_instance. rewrite Hi. naive_solver.
  - intros k Hk. by rewrite Ho2, Ho.
Qed.

(** Replacing a credential's denials always succeeds, stores exactly the
    requested backends that the acting user owns, and leaves the denials of
    every other credential alone. *)
Theorem set_denials_spec uid ctype cid denied now d :
  wf d →
  ∃ d', set_denials uid ctype cid denied now d = (Ok tt, d') ∧
    (∀ i, i ∈ denied_instances ctype cid d' ↔ i ∈ denied ∧ owns_instance d uid i) ∧
    (∀ k, k.1 ≠ (ctype, cid) →
       d'.(credential_backend_denials) !! k = d.(credential_backend_denials) !! k).
Proof.
  intros Hwf.
  pose proof (wf_clear_for_credential ctype cid d Hwf) as Hwf1.
  destruct (insert_denials_run uid ctype cid now denied _ Hwf1) as (d' & E & Hs & Ho).
  exists d'. unfold set_denials, transaction, bind, clear_for_credential, modify in *.
  cbn in *. rewrite E. split_and!; [done|..].
  - intros i. rewrite elem_of_denied_instances, Hs. unfold owns_instance. cbn.
    split; [|by right]. intros [[r Hr]|?]; [|done]. exfalso.
    apply without_Some in Hr as [_ Hr]. unfold for_credential in Hr. cbn in Hr.
    by rewrite !eqs_refl in Hr.
  - intros [[a b] c] Hk. rewrite Ho by done. cbn in Hk.
    apply option_eq. intros r. rewrite without_Some. split; [by intros []|].
    intros Hr. split; [done|]. unfold for_credential, eqs. cbn.
    apply andb_false_iff. destruct (decide (a = ctype)) as [->|]; [right|left];
      apply bool_decide_eq_false; [by intros ->|done].
Qed.

(** The denials of a credential id are one set for all accounts: when one
    user saves denials for an OAuth client, the denials another user had set
    for the same client are gone, so that client reaches those backends again. *)
Theorem set_denials_erases_other_user alice bob ctype cid denied now d i :
  wf d → alice ≠ bob → owns_instance d bob i →
  i ∈ denied_instances ctype cid d →
  i ∉ denied_instances ctype cid (set_denials alice ctype cid denied now d).2.
Proof.
  intros Hwf Hne (r & Hr & Hb) _.
  pose proof (wf_clear_for_credential ctype cid d Hwf) as Hwf1.
  destruct (insert_denials_run alice ctype cid now denied _ Hwf1) as (d' & E & Hs & _).
  unfold set_denials, transaction, bind, clear_for_credential, modify in *.
  cbn in *. rewrite E. cbn. rewrite elem_of_denied_instances, Hs. unfold owns_instance. cbn.
  intros [[w Hw]|[_ (r' & Hr' & Ha)]]; [|congruence].
  apply without_Some in Hw as [_ Hw]. unfold for_credential in Hw. cbn in Hw.
  by rewrite !eqs_refl in Hw.
Qed.

(** *** Witnesses *)
Lemma set_denials_spec_witness :
  ∃ d', set_denials "u" OAUTH "client" ["i"; "zz"] 7 db2 = (Ok tt, d') ∧
    (∀ i, i ∈ denied_instances OAUTH "client" d' ↔ i ∈ ["i"; "zz"] ∧ owns_instance db2 "u" i) ∧
    (∀ k, k.1 ≠ (OAUTH, "client") →
       d'.(credential_backend_denials) !! k = db2.(credential_backend_denials) !! k).
Proof. exact (set_denials_spec "u" OAUTH "client" ["i"; "zz"] 7 db2 wf_db2). Defined.

Definition db3 : Db := (set_denials "u" OAUTH "client" ["i"] 7 db2).2.
Lemma wf_db3 : wf db3.
Proof. apply wf_set_denials, wf_db2. Qed.
Lemma set_denials_erases_other_user_witness :
  "i" ∉ denied_instances OAUTH "client" (set_denials "root" OAUTH "client" [] 8 db3).2.
Proof.
  apply (set_denials_erases_other_user "root" "u" OAUTH "client" [] 8 db3 "i" wf_db3).
  - discriminate.
  - exists inst0. split; reflexivity.
  - apply elem_of_denied_instances. vm_compute. eexists. reflexivity.
Defined.

End access.
