(* ===== verification/Groups.v ===== *)
(** * Connector groups (groups.rs)

    A user-defined subset of a user's backends, with its own MCP endpoint
    [/mcp/<slug>]. *)

From S2P Require Import Prelude Strs Schema External Fixtures.
Open Scope string_scope.
Open Scope hub_scope.

Module groups.

Record Group := {
  id : string; user_id : string; slug : string; name : string; created_at : Z }.
Definition of_row (gid : string) (r : group.t) : Group := {|
  id := gid; user_id := r.(group.user_id); slug := r.(group.slug);
  name := r.(group.name); created_at := r.(group.created_at) |}.

Definition alnum (b : Ascii.ascii) : bool := is_ascii_lowercase b || is_ascii_digit b.
Definition is_hyphen (b : Ascii.ascii) : bool := (byte b =? 45)%N.
Definition valid_slug (s : string) : bool :=
  match s with
  | EmptyString => false
  | String first rest =>
      if (64 <? String.length s)%nat then false
      else alnum first && alnum (str_last first rest) &&
           str_all (λ b, alnum b || is_hyphen b) s
  end.

(** [ORDER BY slug]. *)
Definition list_for_user (uid : string) (d : Db) : list Group :=
  merge_sort (by_text slug)
    (map (λ kv, of_row kv.1 kv.2)
      (filter (λ kv, kv.2.(group.user_id) = uid) (map_to_list d.(connector_groups)))).

Definition find_by_slug (uid s : string) (d : Db) : option Group :=
  kv ← find_kv (λ _ r, eqs r.(group.user_id) uid && eqs r.(group.slug) s) d.(connector_groups);
  Some (of_row kv.1 kv.2).
Definition find_by_id (uid gid : string) (d : Db) : option Group :=
  r ← d.(connector_groups) !! gid;
  if eqs r.(group.user_id) uid then Some (of_row gid r) else None.

(** The [INSERT]: primary key, [UNIQUE(user_id, slug)], the owner's reference. *)
Definition insert_group (gid : string) (r : group.t) : M Db anyhow unit := λ d,
  if decide (known d.(connector_groups) gid) then (Err (Unique "connector_groups.id"), d)
  else match find_kv (λ _ s, eqs s.(group.user_id) r.(group.user_id) &&
                             eqs s.(group.slug) r.(group.slug)) d.(connector_groups) with
  | Some _ => (Err (Unique "connector_groups.user_id, connector_groups.slug"), d)
  | None =>
      if decide (known d.(users) r.(group.user_id))
      then (Ok tt, set_connector_groups (insert gid r) d)
      else (Err (ForeignKey "connector_groups.user_id"), d)
  end.
Definition invalid_slug : anyhow :=
  Msg "invalid slug: use 1-64 lowercase letters, digits, and interior hyphens".
Definition slug_taken (s : string) : anyhow :=
  Msg ("a group with slug '" +:+ s +:+ "' already exists").
Definition create (uid s nm gid : string) (now : Z) : M Db anyhow Group :=
  refuse_if (negb (valid_slug s)) invalid_slug ;;;
  let r := {| group.user_id := uid; group.slug := s; group.name := nm;
              group.created_at := now |} in
  map_err (λ e, match e with Unique _ => slug_taken s | e => e end) (insert_group gid r) ;;;
  ret (of_row gid r).

Definition with_name (nm : string) (r : group.t) : group.t := {|
  group.user_id := r.(group.user_id); group.slug := r.(group.slug); group.name := nm;
  group.created_at := r.(group.created_at) |}.
Definition mine (uid gid k : string) (r : group.t) : bool :=
  eqs k gid && eqs r.(group.user_id) uid.
Definition rename (uid gid nm : string) : M Db anyhow bool := λ d,
  (Ok (bool_decide (matching (mine uid gid) d.(connector_groups) ≠ ∅)),
   set_connector_groups (alter (λ r, if eqs r.(group.user_id) uid then with_name nm r else r) gid) d).

(** [INSERT OR IGNORE ... SELECT ... WHERE id = ? AND user_id = ?]. *)
Definition insert_member (uid gid : string) (now : Z) (iid : string) : M Db anyhow unit := λ d,
  match d.(user_server_instances) !! iid with
  | Some r =>
      if eqs r.(instance.user_id) uid then
        match d.(connector_group_members) !! (gid, iid) with
        | Some _ => (Ok tt, d)
        | None =>
            if decide (known d.(connector_groups) gid)
            then (Ok tt, set_connector_group_members (insert (gid, iid) now) d)
            else (Err (ForeignKey "connector_group_members.group_id"), d)
        end
      else (Ok tt, d)
  | None => (Ok tt, d)
  end.
Definition of_group (gid : string) (k : string * string) (_ : Z) : bool := eqs k.1 gid.
Definition set_members (uid gid : string) (iids : list string) (now : Z) : M Db anyhow unit :=
  transaction
    (let* owned := gets (find_by_id uid gid) in
     refuse_if (bool_decide (owned = None)) (Msg "no such group") ;;;
     modify (set_connector_group_members (without (of_group gid))) ;;;
     for_each (insert_member uid gid now) iids).

Definition delete (uid gid : string) : M Db anyhow bool := λ d,
  match d.(connector_groups) !! gid with
  | Some r =>
      if eqs r.(group.user_id) uid then (Ok true, delete_group_row gid d) else (Ok false, d)
  | None => (Ok false, d)
  end.

Definition member_instance_ids (gid : string) (d : Db) : gset string :=
  set_map (λ k, k.2) (dom (matching (of_group gid) d.(connector_group_members))).

(** ** Facts *)
(** A valid slug ends in a letter or digit, so not in a slash. *)
Lemma valid_slug_last s :
  valid_slug s = true → ∃ a c, s = a +:+ String c EmptyString ∧ alnum c = true.
Proof.
  destruct s as [|c s]; [done|]. unfold valid_slug. destruct (_ <? _)%nat; [done|].
  intros [[_ Hl]%andb_true_iff _]%andb_true_iff.
  destruct (str_last_snoc c s) as [a Ha]. eauto.
Qed.
Lemma valid_slug_not_slash a : valid_slug (a +:+ "/") = false.
Proof.
  apply not_true_iff_false. intros (b & c & Heq & Hc)%valid_slug_last.
  apply (f_equal str_rev) in Heq. rewrite !str_rev_app in Heq. cbn in Heq.
  injection Heq as <- _. done.
Qed.
Lemma valid_slug_nonempty s : valid_slug s = true → s ≠ "".
Proof. by intros Hs ->. Qed.
#[global] Instance Group_eq_dec : EqDecision Group.
Proof. solve_decision. Defined.

Lemma elem_of_member_instance_ids gid d i :
  i ∈ member_instance_ids gid d ↔ is_Some (d.(connector_group_members) !! (gid, i)).
Proof.
  unfold member_instance_ids. rewrite elem_of_map. split.
  - intros ([a b] & -> & [r Hr]%elem_of_dom). cbn.
    apply map_lookup_filter_Some in Hr as [Hr Hm]. unfold of_group in Hm. cbn in Hm.
    apply eqs_true in Hm as ->. by exists r.
  - intros [r Hr]. exists (gid, i). split; [done|].
    apply elem_of_dom. exists r. apply map_lookup_filter_Some. split; [done|].
    apply eqs_refl.
Qed.

Lemma insert_group_Ok gid r d d' :
  insert_group gid r d = (Ok tt, d') →
  d' = set_connector_groups (insert gid r) d ∧ known d.(users) r.(group.user_id) ∧
  d.(connector_groups) !! gid = None ∧
  ∀ k s, d.(connector_groups) !! k = Some s →
    (s.(group.user_id), s.(group.slug)) ≠ (r.(group.user_id), r.(group.slug)).
Proof.
  unfold insert_group. destruct (decide _) as [|Hn]; [done|].
  destruct (find_kv _ _) eqn:E; [done|]. destruct (decide _) as [Hk|]; [|done].
  intros [= <-]. split_and!; [done|done|by apply eq_None_not_Some|].
  intros k s Hs [= Hu Hl]. pose proof (find_kv_None _ _ E _ _ Hs) as Hf.
  cbn in Hf. by rewrite Hu, Hl, !eqs_refl in Hf.
Qed.
Lemma insert_group_Err gid r d e d' : insert_group gid r d = (Err e, d') → d' = d.
Proof.
  unfold insert_group. destruct (decide _); [by intros [= _ <-]|].
  destruct (find_kv _ _); [by intros [= _ <-]|]. destruct (decide _); by intros [= _ <-].
Qed.
Lemma wf_insert_group gid r : preserves wf (insert_group gid r).
Proof.
  intros d Hwf. destruct (insert_group gid r d) as [[[]|e] d'] eqn:E; cbn.
  - apply insert_group_Ok in E as (-> & Hk & Hn & Hu). apply wf_set_groups; [done|..].
    + intros k g Hg. exists g. split; [|done]. rewrite lookup_insert_ne; [done|congruence].
    + apply rows_insert; [apply Hwf|done].
    + apply uniq_insert; [apply Hwf|]. intros j s Hs Heq. by destruct (Hu _ _ Hs).
  - by apply insert_group_Err in E as ->.
Qed.
Lemma wf_group_rename uid gid nm : preserves wf (rename uid gid nm).
Proof.
  intros d Hwf. cbn. apply wf_set_groups; [done|..].
  - intros k g Hg. destruct (decide (gid = k)) as [->|].
    + rewrite lookup_alter_eq, Hg. cbn. eexists. split; [done|]. by destruct (eqs _ _).
    + rewrite lookup_alter_ne by done. by exists g.
  - apply rows_alter; [apply Hwf|]. intros r _ ?. by destruct (eqs _ _).
  - apply uniq_alter; [apply Hwf|]. intros r. by destruct (eqs _ _).
Qed.
Lemma wf_group_delete uid gid : preserves wf (delete uid gid).
Proof.
  intros d Hwf. unfold delete. destruct (_ !! gid); [|done]. destruct (eqs _ _); [|done].
  by apply wf_delete_group_row.
Qed.
#[global] Hint Resolve wf_insert_group wf_group_rename wf_group_delete : hub.
Lemma wf_group_create uid s nm gid now : preserves wf (create uid s nm gid now).
Proof. unfold create. auto 10 with hub. Qed.
#[global] Hint Resolve wf_group_create : hub.

(** One membership row, in a group of the acting user: the insertion succeeds
    and adds the backend exactly when the user owns it. *)
Definition owned_group (uid gid : string) (d : Db) : Prop :=
  ∃ g, d.(connector_groups) !! gid = Some g ∧ g.(group.user_id) = uid.

Lemma insert_member_run uid gid now iid d :
  owned_group uid gid d →
  ∃ d', insert_member uid gid now iid d = (Ok tt, d') ∧
    (wf d → wf d') ∧ owned_group uid gid d' ∧
    d'.(user_server_instances) = d.(user_server_instances) ∧
    (∀ i, is_Some (d'.(connector_group_members) !! (gid, i)) ↔
       is_Some (d.(connector_group_members) !! (gid, i)) ∨ i = iid ∧ owns_instance d uid i) ∧
    (∀ k, k.1 ≠ gid → d'.(connector_group_members) !! k = d.(connector_group_members) !! k).
Proof.
  intros Hg. unfold insert_member, owns_instance.
  destruct (d.(user_server_instances) !! iid) as [r|] eqn:Hr.
  2: { exists d. split_and!; try done. naive_solver. }
  destruct (eqs _ _) eqn:Ho.
  2: { apply eqs_false in Ho. exists d. split_and!; try done. naive_solver. }
  apply eqs_true in Ho.
  destruct (_ !! (gid, iid)) as [w|] eqn:Hd.
  { exists d. split_and!; try done. intros i. split; [by left|].
    intros [?|[-> _]]; [done|]. by exists w. }
  destruct Hg as (g & Hg & Hgu).
  rewrite decide_True by (by exists g).
  eexists. split_and!; [done| |by exists g|done| |]; cbn.
  - intros Hwf. wf_table Hwf. apply rows_insert; [done|]. exists g. split; [done|].
    exists r. split; [done|congruence].
  - intros i. destruct (decide (i = iid)) as [->|Hne].
    + rewrite lookup_insert_eq. split; [|by eexists]. intros _. right. eauto.
    + rewrite lookup_insert_ne by congruence. naive_solver.
  - intros k Hk. rewrite lookup_insert_ne; [done|]. by intros <-.
Qed.

Lemma insert_members_run uid gid now l d :
  owned_group uid gid d →
  ∃ d', for_each (insert_member uid gid now) l d = (Ok tt, d') ∧ (wf d → wf d') ∧
    (∀ i, is_Some (d'.(connector_group_members) !! (gid, i)) ↔
       is_Some (d.(connector_group_members) !! (gid, i)) ∨ i ∈ l ∧ owns_instance d uid i) ∧
    (∀ k, k.1 ≠ gid → d'.(connector_group_members) !! k = d.(connector_group_members) !! k).
Proof.
  revert d. induction l as [|j l IH]; intros d Hg.
  { exists d. split_and!; try done. intros i. rewrite elem_of_nil. naive_solver. }
  destruct (insert_member_run uid gid now j d Hg) as (d1 & E & Hw & Hg1 & Hi & Hs & Ho).
  destruct (IH d1 Hg1) as (d2 & E2 & Hw2 & Hs2 & Ho2).
  exists d2. split_and!.
  - cbn. unfold bind. by rewrite E.
  - auto.
  - intros i. rewrite Hs2, Hs, elem_of_cons. unfold owns_instance. rewrite Hi. naive_solver.
  - intros k Hk. by rewrite Ho2, Ho.
Qed.

Lemma find_by_id_owned uid gid d :
  is_Some (find_by_id uid gid d) ↔ owned_group uid gid d.
Proof.
  unfold find_by_id, owned_group. destruct (_ !! gid) as [g|] eqn:Hg; cbn.
  - destruct (eqs _ _) eqn:E; [apply eqs_true in E|apply eqs_false in E].
    + split; [|by eexists]. intros _. eauto.
    + split; [by intros []|]. intros (? & [= <-] & ?). done.
  - split; [by intros []|]. by intros (? & ? & _).
Qed.

(** [set_members] by cases: a foreign or missing group is refused untouched. *)
Lemma set_members_run uid gid iids now d :
  (¬ owned_group uid gid d ∧ set_members uid gid iids now d = (Err (Msg "no such group"), d)) ∨
  (owned_group uid gid d ∧
   set_members uid gid iids now d =
     for_each (insert_member uid gid now) iids
       (set_connector_group_members (without (of_group gid)) d)).
Proof.
  unfold set_members, transaction, bind, gets, modify, refuse_if.
  destruct (find_by_id uid gid d) as [g|] eqn:E.
  - right. assert (owned_group uid gid d) as Hg by (apply find_by_id_owned; by exists g).
    split; [done|]. rewrite bool_decide_false by done. unfold ret.
    destruct (insert_members_run uid gid now iids
      (set_connector_group_members (without (of_group gid)) d)) as (d' & E' & _); [done|].
    by rewrite E'.
  - left. rewrite <- find_by_id_owned, E. split; [by intros []|done].
Qed.
Lemma wf_set_members uid gid iids now : preserves wf (set_members uid gid iids now).
Proof.
  intros d Hwf. destruct (set_members_run uid gid iids now d) as [[_ ->]|[Hg ->]]; [done|].
  destruct (insert_members_run uid gid now iids
    (set_connector_group_members (without (of_group gid)) d)) as (d' & E' & Hw & _); [done|].
  rewrite E'. apply Hw. wf_table Hwf.
Qed.
#[global] Hint Resolve wf_set_members : hub.

(** ** Properties *)

(** On the user's own group, replacing the members stores exactly the
    requested backends that the user owns and touches no other group; on any
    other group id it is refused and nothing changes. *)
Theorem set_members_spec uid gid iids now d :
  let d' := (set_members uid gid iids now d).2 in
  (owned_group uid gid d →
    (set_members uid gid iids now d).1 = Ok tt ∧
    (∀ i, i ∈ member_instance_ids gid d' ↔ i ∈ iids ∧ owns_instance d uid i) ∧
    (∀ k, k.1 ≠ gid → d'.(connector_group_members) !! k = d.(connector_group_members) !! k)) ∧
  (¬ owned_group uid gid d →
    set_members uid gid iids now d = (Err (Msg "no such group"), d)).
Proof.
  cbv zeta. destruct (set_members_run uid gid iids now d) as [[Hg ->]|[Hg ->]];
    (split; [intros Hg'|intros Hg']); try done.
  destruct (insert_members_run uid gid now iids
    (set_connector_group_members (without (of_group gid)) d)) as (d' & E' & _ & Hs & Ho); [done|].
  rewrite E'. cbn. split_and!; [done|..].
  - intros i. rewrite elem_of_member_instance_ids, Hs. unfold owns_instance. cbn.
    split; [|by right]. intros [[r Hr]|?]; [|done]. exfalso.
    apply without_Some in Hr as [_ Hr]. unfold of_group in Hr. cbn in Hr.
    by rewrite eqs_refl in Hr.
  - intros k Hk. rewrite Ho by done. cbn. apply option_eq. intros r.
    rewrite without_Some. split; [by intros []|]. intros Hr. split; [done|].
    unfold of_group. by apply eqs_false.
Qed.

(** A created group is found by its slug, by its owner only; a slug the owner
    already uses, or one outside the grammar, is refused and changes nothing. *)
Theorem create_find_by_slug uid s nm gid now d :
  wf d →
  match create uid s nm gid now d with
  | (Ok g, d') =>
      valid_slug s = true ∧ find_by_slug uid s d' = Some g ∧
      ∀ uid', uid' ≠ uid → find_by_slug uid' s d' = find_by_slug uid' s d
  | (Err _, d') => d' = d
  end.
Proof.
  intros Hwf. unfold create, bind, refuse_if, map_err.
  destruct (valid_slug s); cbn [negb fail ret]; [|done].
  destruct (insert_group gid _ d) as [[[]|e] d'] eqn:E; [|by apply insert_group_Err in E].
  apply insert_group_Ok in E as (-> & Hk & Hn & Hu). cbn in Hu. cbn [ret].
  split_and!; [done|..]; unfold find_by_slug; cbn [connector_groups set_connector_groups].
  - erewrite find_kv_unique; [|apply lookup_insert_eq| |]; cbn; [done| |].
    + by rewrite !eqs_refl.
    + intros j r [[<- _]|[_ Hs]]%lookup_insert_Some [Ha Hb]%andb_true_iff; [done|].
      apply eqs_true in Ha, Hb. destruct (Hu _ _ Hs). by f_equal.
  - intros uid' Hne.
    destruct (find_kv _ d.(connector_groups)) as [[k r]|] eqn:E'.
    + apply find_kv_Some in E' as [Hr Hm]. pose proof Hm as [Ha Hb]%andb_true_iff.
      apply eqs_true in Ha, Hb.
      erewrite find_kv_unique; [done| |done|].
      * rewrite lookup_insert_ne; [done|congruence].
      * intros j r' [[_ <-]|[_ Hj]]%lookup_insert_Some [Ha' Hb']%andb_true_iff;
          apply eqs_true in Ha', Hb'; cbn in *; [congruence|].
        eapply (wf_group_slug _ Hwf); [done..|]. cbn. congruence.
    + rewrite find_kv_absent; [done|].
      intros j r' [[_ <-]|[_ Hj]]%lookup_insert_Some; cbn.
      * by rewrite (proj2 (eqs_false _ _) (not_eq_sym Hne)).
      * by apply (find_kv_None _ _ E' _ _ Hj).
Qed.

Lemma create_find_by_slug_witness :
  match create "u" "dev" "Dev" "g" 9 db2 with
  | (Ok g, d') =>
      valid_slug "dev" = true ∧ find_by_slug "u" "dev" d' = Some g ∧
      ∀ uid', uid' ≠ "u" → find_by_slug uid' "dev" d' = find_by_slug uid' "dev" db2
  | (Err _, d') => d' = db2
  end.
Proof. exact (create_find_by_slug "u" "dev" "Dev" "g" 9 db2 wf_db2). Defined.

End groups.
