(* ===== verification/GitCreds.v ===== *)
(** * Sealed secrets and git credentials (crypto.rs, gitcreds.rs) *)

From stdpp Require Import pretty.
From S2P Require Import Prelude Strs Schema External Fixtures.
Open Scope string_scope.
Open Scope hub_scope.

Module crypto.

Definition NONCE_LEN : nat := 24.

Section crypto.
Context `{Aead}.
(** [nonce] is the output of [generate_nonce]. *)
Definition seal (nonce plaintext : string) : result anyhow Sealed :=
  match aead_encrypt nonce plaintext with
  | Some c => Ok {| Schema.nonce := nonce; ciphertext := c |}
  | None => Err (Msg "failed to seal secret")
  end.
Definition open (s : Sealed) : result anyhow string :=
  if negb (String.length s.(nonce) =? NONCE_LEN)%nat then Err (Msg "invalid nonce length")
  else match aead_decrypt s.(nonce) s.(ciphertext) with
  | Some p => Ok p
  | None => Err (Msg "failed to open secret (wrong key or tampered data)")
  end.

Lemma open_seal `{!AeadLaws} n p s :
  String.length n = NONCE_LEN → seal n p = Ok s → open s = Ok p.
Proof.
  intros Hn. unfold seal, open. destruct (aead_encrypt n p) as [c|] eqn:E; [|done].
  intros [= <-]. cbn [nonce ciphertext]. rewrite Hn. cbn.
  by rewrite (aead_decrypt_encrypt _ _ _ E).
Qed.
End crypto.
End crypto.

Module gitcreds.

Definition DEFAULT_USERNAME : string := "x-access-token".
Definition MAX_TOKEN_LEN : nat := 512.

(** Metadata; never the token. *)
Record GitCredential := {
  id : string; host : string; username : string; label : string;
  created_at : Z; updated_at : Z; last_used_at : option Z }.
Definition of_row (k : string) (r : git_credential.t) : GitCredential := {|
  id := k; host := r.(git_credential.host); username := r.(git_credential.username);
  label := r.(git_credential.label); created_at := r.(git_credential.created_at);
  updated_at := r.(git_credential.updated_at);
  last_used_at := r.(git_credential.last_used_at) |}.

Record ResolvedCredential := {
  rc_id : string; rc_host : string; rc_username : string; token : string }.

(** [{:?}] of a credential, over [{:?}] of a string. *)
Definition debug (debug_str : string → string) (c : ResolvedCredential) : string :=
  "ResolvedCredential { host: " +:+ debug_str c.(rc_host) +:+ ", username: " +:+
  debug_str c.(rc_username) +:+ ", token: " +:+ debug_str "<redacted>" +:+ " }".

Definition validate_token (t : string) : result anyhow unit :=
  if is_empty t then Err (Msg "a token is required")
  else if (MAX_TOKEN_LEN <? String.length t)%nat then Err (Msg "token is too long")
  else if contains_control t then Err (Msg "token contains a control character")
  else Ok tt.
Definition validate_username (u : string) : result anyhow unit :=
  if (MAX_TOKEN_LEN <? String.length u)%nat then Err (Msg "username is too long")
  else if contains_control u then Err (Msg "username contains a control character")
  else Ok tt.

Section hosts.
Context `{UrlCrate}.

Definition normalize_host (input : string) : result anyhow string :=
  let raw := trim input in
  let raw := default raw (strip_prefix "git+" raw) in
  if is_empty raw then Err (Msg "a git host is required") else
  match url_parse (if contains "://" raw then raw else "https://" +:+ raw) with
  | None => Err (Msg ("'" +:+ input +:+ "' is not a valid git host or URL"))
  | Some parsed =>
      if negb (eqs parsed.(scheme) "https")
      then Err (Msg "only https git hosts are supported")
      else if negb (is_empty parsed.(External.username)) || bool_decide (is_Some parsed.(password))
      then Err (Msg "remove the credentials from the URL")
      else match parsed.(host_str) with
      | Some h =>
          if is_empty h then Err (Msg ("'" +:+ input +:+ "' has no host"))
          else Ok match parsed.(port) with
                  | Some p => h +:+ ":" +:+ pretty p
                  | None => h
                  end
      | None => Err (Msg ("'" +:+ input +:+ "' has no host"))
      end
  end.
Definition host_of_repo (repo : string) : option string := ok (normalize_host repo).

(** [ORDER BY host]. *)
Definition list_for_user (uid : string) (d : Db) : list GitCredential :=
  merge_sort (by_text host)
    (map (λ kv, of_row kv.1 kv.2)
      (filter (λ kv, kv.2.(git_credential.user_id) = uid) (map_to_list d.(git_credentials)))).

(** [WHERE user_id = ? AND host = ?]. *)
Definition at_host (uid h : string) (_ : string) (r : git_credential.t) : bool :=
  eqs r.(git_credential.user_id) uid && eqs r.(git_credential.host) h.

Definition find (uid h : string) : M Db anyhow (option GitCredential) :=
  let* h := lift (normalize_host h) in
  gets (λ d, kv ← find_kv (at_host uid h) d.(git_credentials); Some (of_row kv.1 kv.2)).

Definition replace (username : string) (s : Sealed) (label : string) (now : Z)
    (r : git_credential.t) : git_credential.t := {|
  git_credential.user_id := r.(git_credential.user_id);
  git_credential.host := r.(git_credential.host);
  git_credential.username := username; git_credential.sealed := s;
  git_credential.label := label; git_credential.created_at := r.(git_credential.created_at);
  git_credential.updated_at := now;
  git_credential.last_used_at := r.(git_credential.last_used_at) |}.
(** [INSERT ... ON CONFLICT(user_id, host) DO UPDATE]. *)
Definition store (new_id uid h username : string) (s : Sealed) (label : string) (now : Z)
    : M Db anyhow unit := λ d,
  match find_kv (at_host uid h) d.(git_credentials) with
  | Some (k, r) => (Ok tt, set_git_credentials (insert k (replace username s label now r)) d)
  | None =>
      if decide (known d.(git_credentials) new_id) then (Err (Unique "git_credentials.id"), d)
      else if decide (known d.(users) uid) then
        (Ok tt, set_git_credentials (insert new_id {|
          git_credential.user_id := uid; git_credential.host := h;
          git_credential.username := username; git_credential.sealed := s;
          git_credential.label := label; git_credential.created_at := now;
          git_credential.updated_at := now; git_credential.last_used_at := None |}) d)
      else (Err (ForeignKey "git_credentials.user_id"), d)
  end.

Definition upsert `{Aead} (uid host_input username label token new_id nonce : string) (now : Z)
    : M Db anyhow GitCredential :=
  let* host := lift (normalize_host host_input) in
  let username := trim username in
  let token := trim token in
  lift (validate_username username) ;;;
  lift (validate_token token) ;;;
  let* sealed := lift (crypto.seal nonce token) in
  store new_id uid host username sealed (trim label) now ;;;
  let* found := find uid host in
  ok_or found (Msg "git credential vanished right after it was stored").

Definition delete (uid h : string) : M Db anyhow bool :=
  let* h := lift (normalize_host h) in
  λ d, (Ok (bool_decide (matching (at_host uid h) d.(git_credentials) ≠ ∅)),
        set_git_credentials (without (at_host uid h)) d).

Definition for_repo `{Aead} (uid repo : string) : M Db anyhow (option ResolvedCredential) :=
  match host_of_repo repo with
  | None => ret None
  | Some host =>
      let* row := gets (λ d, find_kv (at_host uid host) d.(git_credentials)) in
      match row with
      | None => ret None
      | Some (k, r) =>
          let* plain := map_err (λ _, Msg ("the git credential for " +:+ host +:+
              " could not be decrypted")) (lift (crypto.open r.(git_credential.sealed))) in
          refuse_if (negb (utf8_valid plain)) (Msg "git credential was not UTF-8") ;;;
          let username := if is_empty (trim r.(git_credential.username))
                          then DEFAULT_USERNAME else r.(git_credential.username) in
          ret (Some {| rc_id := k; rc_host := host; rc_username := username; token := plain |})
      end
  end.
End hosts.

Definition with_used (now : Z) (r : git_credential.t) : git_credential.t := {|
  git_credential.user_id := r.(git_credential.user_id);
  git_credential.host := r.(git_credential.host);
  git_credential.username := r.(git_credential.username);
  git_credential.sealed := r.(git_credential.sealed);
  git_credential.label := r.(git_credential.label);
  git_credential.created_at := r.(git_credential.created_at);
  git_credential.updated_at := r.(git_credential.updated_at);
  git_credential.last_used_at := Some now |}.
Definition touch (k : string) (now : Z) : M Db anyhow unit :=
  modify (set_git_credentials (alter (with_used now) k)).

(** ** Facts *)
Lemma at_host_true uid h k r :
  at_host uid h k r = true ↔
  r.(git_credential.user_id) = uid ∧ r.(git_credential.host) = h.
Proof. unfold at_host. by rewrite andb_true_iff, !eqs_true. Qed.

(** [store] writes one row at that host: the one already there, or a new one. *)
Lemma store_Ok new_id uid h u s l now d d' :
  store new_id uid h u s l now d = (Ok tt, d') →
  ∃ k r, d' = set_git_credentials (insert k r) d ∧
    r.(git_credential.user_id) = uid ∧ r.(git_credential.host) = h ∧
    r.(git_credential.username) = u ∧ r.(git_credential.sealed) = s ∧
    ∀ r0, d.(git_credentials) !! k = Some r0 → at_host uid h k r0 = true.
Proof.
  unfold store. destruct (find_kv _ _) as [[k r]|] eqn:E.
  - apply find_kv_Some in E as [Hr Hm]. intros [= <-]. eexists k, _.
    pose proof Hm as [??]%at_host_true. split_and!; [done..|]. by intros r0 ?; simplify_eq.
  - destruct (decide _) as [|Hn]; [done|]. destruct (decide _); [|done].
    intros [= <-]. eexists _, _. split_and!; [done..|]. intros r0 Hr0.
    destruct Hn. by exists r0.
Qed.
Lemma store_Err new_id uid h u s l now d e d' :
  store new_id uid h u s l now d = (Err e, d') → d' = d.
Proof.
  unfold store. destruct (find_kv _ _) as [[]|]; [done|].
  destruct (decide _); [by intros [= _ <-]|]. destruct (decide _); by intros [= _ <-].
Qed.

Lemma wf_store new_id uid h u s l now : preserves wf (store new_id uid h u s l now).
Proof.
  intros d Hwf. unfold store.
  destruct (find_kv _ _) as [[k r]|] eqn:E.
  - apply find_kv_Some in E as [Hr Hm].
    pose proof (wf_git_user _ Hwf _ _ Hr) as Hu. pose proof (wf_git_host _ Hwf) as Hh.
    wf_table Hwf; [by apply rows_insert|].
    apply uniq_insert; [done|]. intros j s' Hs Heq. by eapply Hh.
  - destruct (decide _); [done|]. destruct (decide _); [|done].
    pose proof (find_kv_None _ _ E) as Hn. wf_table Hwf; [by apply rows_insert|].
    apply uniq_insert; [done|]. intros j s' Hs [= Hu Hh]. exfalso.
    pose proof (Hn _ _ Hs) as Hf. by rewrite (proj2 (at_host_true _ _ _ _)) in Hf.
Qed.
Lemma wf_git_touch k now : preserves wf (touch k now).
Proof.
  intros d Hwf. cbn. wf_table Hwf.
  - by apply rows_alter.
  - by apply uniq_alter.
Qed.
#[global] Hint Resolve wf_store wf_git_touch : hub.

Section facts.
Context `{UrlCrate} `{Aead}.
Lemma wf_git_find uid h : preserves wf (find uid h).
Proof. unfold find. auto with hub. Qed.
Hint Resolve wf_git_find : hub.
Lemma wf_upsert uid h u l t i n now : preserves wf (upsert uid h u l t i n now).
Proof.
  unfold upsert. repeat (apply preserves_bind; [auto with hub|intros ?]); auto with hub.
Qed.
Lemma wf_git_delete uid h : preserves wf (delete uid h).
Proof.
  unfold delete. apply preserves_bind; [auto with hub|]. intros h' d Hwf. cbn. wf_table Hwf.
Qed.
Lemma wf_for_repo uid repo : preserves wf (for_repo uid repo).
Proof.
  unfold for_repo. destruct (host_of_repo repo); auto with hub.
  apply preserves_bind; auto with hub. intros [[k r]|]; auto with hub.
Qed.

Lemma quiet_for_repo uid repo : quiet (for_repo uid repo).
Proof.
  unfold for_repo. destruct (host_of_repo repo); auto with hub.
  apply quiet_bind; auto with hub. intros [[k r]|]; auto with hub.
Qed.
Lemma for_repo_host uid repo c d d' :
  for_repo uid repo d = (Ok (Some c), d') → host_of_repo repo = Some c.(rc_host).
Proof.
  unfold for_repo. destruct (host_of_repo repo) as [h|]; [|done]. intros Hr.
  apply bind_Ok in Hr as (row & s1 & _ & Hr). destruct row as [[k r]|]; [|done].
  m_inv. done.
Qed.

(** The token stored for a host is, trimmed, what a build of any repository
    on that host gets, with the stored user name (or the default one when it was
    blank); it is never a token of another account. *)
Theorem upsert_for_repo `{!AeadLaws} uid host_input u l t new_id n now d cred d' repo h :
  wf d → String.length n = crypto.NONCE_LEN → utf8_valid (trim t) = true →
  normalize_host host_input = Ok h → host_of_repo repo = Some h →
  upsert uid host_input u l t new_id n now d = (Ok cred, d') →
  (∃ k, for_repo uid repo d' =
    (Ok (Some {| rc_id := k; rc_host := h;
       rc_username := if is_empty (trim (trim u)) then DEFAULT_USERNAME else trim u;
       token := trim t |}), d')) ∧
  ∀ uid', uid' ≠ uid → (for_repo uid' repo d').1 = (for_repo uid' repo d).1.
Proof.
  intros Hwf Hn Hutf Hh Hrepo Hup. unfold upsert, bind, lift in Hup. rewrite Hh in Hup.
  destruct (validate_username _) as [[]|]; [|done].
  destruct (validate_token _) as [[]|]; [|done].
  destruct (crypto.seal n (trim t)) as [s|] eqn:Es; [|done].
  pose proof (crypto.open_seal _ _ _ Hn Es) as Ho.
  destruct (store _ _ _ _ _ _ _ d) as [[[]|] d1] eqn:E; [|done].
  pose proof (wf_store new_id uid h (trim u) s (trim l) now d Hwf) as Hwf1. rewrite E in Hwf1.
  assert (d' = d1) as ->.
  { revert Hup. unfold find, bind, lift, gets, ok_or, ret, fail.
    destruct (normalize_host h); [|done]. by destruct (find_kv _ _) as [[]|]; intros [=]. }
  clear Hup. cbn in Hwf1. apply store_Ok in E as (k & r & -> & Hru & Hrh & Hrn & Hrs & Hold).
  unfold for_repo. rewrite Hrepo. unfold bind, gets.
  cbn [git_credentials set_git_credentials]. split.
  - exists k. rewrite (find_kv_unique _ _ k r); [|by apply lookup_insert_eq| |].
    + unfold map_err, lift, refuse_if. rewrite Hrs, Ho, Hutf, Hrn. done.
    + by apply at_host_true.
    + intros j s' Hs [Ha Hb]%at_host_true.
      eapply (wf_git_host _ Hwf1); [exact Hs|by apply lookup_insert_eq|]. cbn. congruence.
  - intros uid' Hne. rewrite find_kv_insert_other.
    + destruct (find_kv _ _) as [[k' r']|]; [|done].
      unfold map_err, lift, refuse_if, ret, fail.
      destruct (crypto.open (git_credential.sealed r')) as [p|]; [|done].
      by destruct (utf8_valid p).
    + intros i j a b Ha Hb [? ?]%at_host_true [? ?]%at_host_true.
      eapply (wf_git_host _ Hwf); [done..|]. cbn. congruence.
    + apply not_true_iff_false. intros [? _]%at_host_true. congruence.
    + intros r0 [? _]%Hold%at_host_true. apply not_true_iff_false.
      intros [? _]%at_host_true. congruence.
Qed.
End facts.
#[global] Hint Resolve wf_git_find wf_upsert wf_git_delete wf_for_repo quiet_for_repo : hub.

(** *** Witnesses *)
Lemma upsert_for_repo_witness :
  ∃ k, for_repo (H:=url0) (H0:=aead0) "u" "github.com"
    (upsert (H:=url0) (H0:=aead0) "u" "github.com" "" "" " tok " "g" nonce0 9 db2).2 =
    (Ok (Some {| rc_id := k; rc_host := "github.com"; rc_username := DEFAULT_USERNAME;
                 token := "tok" |}),
     (upsert (H:=url0) (H0:=aead0) "u" "github.com" "" "" " tok " "g" nonce0 9 db2).2).
Proof.
  refine (proj1 (upsert_for_repo (H:=url0) (H0:=aead0) (H1:=aead0_laws)
    "u" "github.com" "" "" " tok " "g" nonce0 9 db2
    {| id := "g"; host := "github.com"; username := ""; label := ""; created_at := 9;
       updated_at := 9; last_used_at := None |}
    _ "github.com" "github.com" wf_db2 _ _ _ _ _)); vm_compute; reflexivity.
Defined.

End gitcreds.
