(* ===== verification/Config.v ===== *)
(** * Configuration (config.rs)

    The process environment is a function from variable names to values. *)

From S2P Require Import Prelude Strs Schema External.
Open Scope string_scope.
Open Scope hub_scope.

Module config.

(** ** [str::parse] for integers *)
Definition digit (c : Ascii.ascii) : option Z :=
  if is_ascii_digit c then Some (Z.of_N (byte c) - 48)%Z else None.
Fixpoint parse_digits (s : string) (acc : Z) : option Z :=
  match s with
  | EmptyString => Some acc
  | String c s => d ← digit c; parse_digits s (10 * acc + d)%Z
  end.
Definition in_bounds (lo hi : Z) (o : option Z) : option Z :=
  z ← o; if (lo <=? z)%Z && (z <=? hi)%Z then Some z else None.
(** An optional sign, then at least one digit; out of range is an error. *)
Definition parse_num (signed : bool) (lo hi : Z) (s : string) : option Z :=
  in_bounds lo hi
    match s with
    | EmptyString => None
    | String c rest =>
        if (byte c =? 43)%N && negb (is_empty rest) then parse_digits rest 0
        else if (byte c =? 45)%N && signed && negb (is_empty rest)
        then Z.opp <$> parse_digits rest 0
        else parse_digits s 0
    end.
Definition parse_u64 : string → option Z := parse_num false 0 (2^64 - 1).
Definition parse_u32 : string → option Z := parse_num false 0 (2^32 - 1).
(** [usize] on a 64-bit target. *)
Definition parse_usize : string → option Z := parse_u64.
Definition parse_i64 : string → option Z := parse_num true i64_min i64_max.

(** ** Limits *)
Record ChildLimits := {
  max_procs : option Z; max_mem_mb : option Z; max_cpu_secs : option Z;
  max_file_mb : option Z }.
Definition any (l : ChildLimits) : bool :=
  bool_decide (is_Some l.(max_procs)) || bool_decide (is_Some l.(max_mem_mb)) ||
  bool_decide (is_Some l.(max_cpu_secs)) || bool_decide (is_Some l.(max_file_mb)).

Record Limits := {
  max_backends_per_user : Z; max_backends_global : Z; backend_idle_secs : Z;
  backend_call_timeout_secs : Z; backend_connect_timeout_secs : Z;
  backend_list_timeout_secs : Z; bind_budget_secs : Z; max_response_mb : Z }.
Definition default_limits : Limits := {|
  max_backends_per_user := 16; max_backends_global := 128; backend_idle_secs := 900;
  backend_call_timeout_secs := 90; backend_connect_timeout_secs := 20;
  backend_list_timeout_secs := 10; bind_budget_secs := 5; max_response_mb := 0 |}.

(** [listen] is the parsed socket address, kept as text. *)
Record Config := {
  base_url : string; rp_id : string; listen : string; db_path : string; env_dir : string;
  master_key : string; bootstrap_admin : option string; allow_open_registration : bool;
  sandbox_uid_base : option Z; keep_warm : bool; keep_warm_interval_secs : Z;
  limits : Limits; child_limits : ChildLimits; block_private_backend_ips : bool;
  allowed_hosts : list string; session_idle_ttl_secs : Z; session_absolute_ttl_secs : Z }.

Definition mcp_url (c : Config) : string := c.(base_url) +:+ "/mcp".
Definition group_mcp_url (c : Config) (slug : string) : string :=
  c.(base_url) +:+ "/mcp/" +:+ slug.
Definition cookie_secure (c : Config) : bool := starts_with "https://" c.(base_url).

(** ** Loading *)
Definition slash : Ascii.ascii := Ascii.ascii_of_N 47.

(** [url.split("://").nth(1).unwrap_or(url)], up to the first [/]. *)
Definition authority (url : string) : string :=
  let after_scheme := default url (split "://" url !! 1) in
  default after_scheme (head (split "/" after_scheme)).
Definition host_of (url : string) : option string :=
  let host_port := authority url in
  let host := default host_port (head (split ":" host_port)) in
  if is_empty host then None else Some host.
Definition authority_of (url : string) : option string :=
  let a := authority url in if is_empty a then None else Some a.

(** [Vec::dedup]: consecutive duplicates only. *)
Fixpoint dedup (l : list string) : list string :=
  match l with
  | x :: ((y :: _) as l') => if eqs x y then dedup l' else x :: dedup l'
  | _ => l
  end.

Section loading.
(** [base64::STANDARD.decode] and [SocketAddr::from_str]. *)
Context (base64_decode : string → option string) (addr_ok : string → bool).
Context (env : string → option string).

Definition opt (key : string) : option string :=
  v ← env key; if is_empty v then None else Some v.
Definition req (key : string) : result anyhow string :=
  match opt key with
  | Some v => Ok v
  | None => Err (Msg ("required environment variable " +:+ key +:+ " is not set"))
  end.
Definition opt_parse (parse : string → option Z) (key : string) : result anyhow (option Z) :=
  match opt key with
  | Some v =>
      match parse v with
      | Some z => Ok (Some z)
      | None => Err (Msg (key +:+ " is invalid"))
      end
  | None => Ok None
  end.
Definition parse_master_key (s : string) : result anyhow string :=
  match base64_decode (trim s) with
  | None => Err (Msg "HUB_MASTER_KEY must be valid base64")
  | Some b =>
      if (String.length b =? 32)%nat then Ok b
      else Err (Msg "HUB_MASTER_KEY must decode to exactly 32 bytes")
  end.
Definition one_of (l : list string) (v : string) : bool :=
  existsb (String.eqb (str_map to_ascii_lowercase v)) l.
Definition positive (o : option Z) : option Z :=
  z ← o; if (0 <? z)%Z then Some z else None.
Definition nonzero (key : string) : result anyhow (option Z) :=
  let? o := opt_parse parse_u64 key in Ok (positive o).

Definition load_limits : result anyhow Limits :=
  let d := default_limits in
  let? a := opt_parse parse_usize "HUB_MAX_BACKENDS_PER_USER" in
  let? b := opt_parse parse_usize "HUB_MAX_BACKENDS_GLOBAL" in
  let? c := opt_parse parse_u64 "HUB_BACKEND_IDLE_SECS" in
  let? e := opt_parse parse_u64 "HUB_BACKEND_CALL_TIMEOUT_SECS" in
  let? f := opt_parse parse_u64 "HUB_BACKEND_CONNECT_TIMEOUT_SECS" in
  let? g := opt_parse parse_u64 "HUB_BACKEND_LIST_TIMEOUT_SECS" in
  let? h := opt_parse parse_u64 "HUB_BIND_BUDGET_SECS" in
  let? i := opt_parse parse_u64 "HUB_MAX_RESPONSE_MB" in
  Ok {| max_backends_per_user := default d.(max_backends_per_user) a;
        max_backends_global := default d.(max_backends_global) b;
        backend_idle_secs := default d.(backend_idle_secs) c;
        backend_call_timeout_secs := default d.(backend_call_timeout_secs) e;
        backend_connect_timeout_secs := default d.(backend_connect_timeout_secs) f;
        backend_list_timeout_secs := default d.(backend_list_timeout_secs) g;
        bind_budget_secs := default d.(bind_budget_secs) h;
        max_response_mb := default d.(max_response_mb) i |}.

Definition from_env : result anyhow Config :=
  let? url := req "HUB_BASE_URL" in
  let base_url := trim_end_char slash url in
  let? rp_id :=
    match opt "HUB_RP_ID" with
    | Some v => Ok v
    | None =>
        match host_of base_url with
        | Some h => Ok h
        | None => Err (Msg "could not derive HUB_RP_ID from HUB_BASE_URL; set HUB_RP_ID")
        end
    end in
  let listen := default "0.0.0.0:8080" (opt "HUB_LISTEN") in
  let? _ := if addr_ok listen then Ok tt
            else Err (Msg "HUB_LISTEN must be a valid socket address, e.g. 0.0.0.0:8080") in
  let db_path := default "./data/hub.db" (opt "HUB_DB_PATH") in
  let env_dir := default "./data/envs" (opt "HUB_ENV_DIR") in
  let? key := req "HUB_MASTER_KEY" in
  let? master_key := parse_master_key key in
  let bootstrap_admin := opt "HUB_BOOTSTRAP_ADMIN" in
  let allow_open_registration :=
    from_option (one_of ["1"; "true"; "yes"]) false (opt "HUB_ALLOW_OPEN_REGISTRATION") in
  let? base := opt_parse parse_u32 "HUB_SANDBOX_UID_BASE" in
  let sandbox_uid_base := positive base in
  let keep_warm :=
    from_option (λ v, negb (one_of ["0"; "false"; "no"] v)) true (opt "HUB_KEEP_WARM") in
  let? interval := opt_parse parse_u64 "HUB_KEEP_WARM_SECS" in
  let? limits := load_limits in
  let? procs := nonzero "HUB_CHILD_MAX_PROCS" in
  let? mem := nonzero "HUB_CHILD_MAX_MEM_MB" in
  let? cpu := nonzero "HUB_CHILD_MAX_CPU_SECS" in
  let? file := nonzero "HUB_CHILD_MAX_FILE_MB" in
  let block_private_backend_ips :=
    from_option (one_of ["1"; "true"; "yes"]) false (opt "HUB_BLOCK_PRIVATE_BACKEND_IPS") in
  let allowed_hosts := dedup (option_list (authority_of base_url) ++
    match opt "HUB_ALLOWED_HOSTS" with
    | Some extra => filter (λ s, is_empty s = false) (map trim (split "," extra))
    | None => []
    end)%list in
  let? idle := opt_parse parse_i64 "HUB_SESSION_IDLE_SECS" in
  let session_idle_ttl_secs := default 1800%Z (positive idle) in
  let? abs := opt_parse parse_i64 "HUB_SESSION_ABSOLUTE_SECS" in
  let session_absolute_ttl_secs :=
    Z.max (default 43200%Z (positive abs)) session_idle_ttl_secs in
  Ok {| base_url := base_url; rp_id := rp_id; listen := listen; db_path := db_path;
        env_dir := env_dir; master_key := master_key; bootstrap_admin := bootstrap_admin;
        allow_open_registration := allow_open_registration;
        sandbox_uid_base := sandbox_uid_base; keep_warm := keep_warm;
        keep_warm_interval_secs := default 300%Z interval; limits := limits;
        child_limits := {| max_procs := procs; max_mem_mb := mem; max_cpu_secs := cpu;
                           max_file_mb := file |};
        block_private_backend_ips := block_private_backend_ips;
        allowed_hosts := allowed_hosts; session_idle_ttl_secs := session_idle_ttl_secs;
        session_absolute_ttl_secs := session_absolute_ttl_secs |}.
End loading.

(** ** Facts *)
Lemma parse_num_bounds signed lo hi s z :
  parse_num signed lo hi s = Some z → (lo ≤ z ≤ hi)%Z.
Proof.
  unfold parse_num, in_bounds. intros (w & _ & Hw)%bind_Some.
  destruct (_ && _) eqn:E; [|done]. simplify_eq. bool_prop. lia.
Qed.
Lemma positive_pos o z : positive o = Some z → (0 < z)%Z ∧ o = Some z.
Proof.
  unfold positive. intros (w & -> & Hw)%bind_Some. destruct (_ <? _)%Z eqn:E; [|done].
  simplify_eq. bool_prop. done.
Qed.
Lemma opt_parse_Some env parse key z :
  opt_parse env parse key = Ok (Some z) → ∃ s, parse s = Some z.
Proof.
  unfold opt_parse. destruct (opt env key) as [v|]; [|done].
  destruct (parse v) eqn:E; [|done]. intros [= ->]. by exists v.
Qed.
Lemma bind_result_Ok {E A B} (r : result E A) (k : A → result E B) b :
  bind_result r k = Ok b → ∃ a, r = Ok a ∧ k a = Ok b.
Proof. destruct r; [by exists a|done]. Qed.

Lemma opt_parse_i64_range env key o z :
  opt_parse env parse_i64 key = Ok o → positive o = Some z → (0 < z ≤ i64_max)%Z.
Proof.
  intros Hp [Hz ->]%positive_pos. apply opt_parse_Some in Hp as [s Hs].
  apply parse_num_bounds in Hs. lia.
Qed.

Lemma ttl_bounds env key o dflt :
  opt_parse env parse_i64 key = Ok o → (0 <? dflt)%Z = true → (dflt <=? i64_max)%Z = true →
  (0 < default dflt (positive o) ≤ i64_max)%Z.
Proof.
  intros Ho H1%Z.ltb_lt H2%Z.leb_le. destruct (positive o) as [z|] eqn:E; cbn; [|lia].
  by eapply opt_parse_i64_range.
Qed.

(** C40: whatever the environment, a configuration that loads has session
    lifetimes with [0 < idle <= absolute], within 64 bits, a sandbox base that is
    never root, and a 32-byte master key. *)
Theorem from_env_bounds b64 addr_ok env c :
  from_env b64 addr_ok env = Ok c →
  (0 < c.(session_idle_ttl_secs) ≤ c.(session_absolute_ttl_secs))%Z ∧
  (c.(session_absolute_ttl_secs) ≤ i64_max)%Z ∧
  (∀ z, c.(sandbox_uid_base) = Some z → 0 < z < 2^32)%Z ∧
  String.length c.(master_key) = 32.
Proof.
  unfold from_env. intros H.
  repeat (apply bind_result_Ok in H as (? & ? & H)). injection H as <-. cbn.
  match goal with Hi : opt_parse _ _ "HUB_SESSION_IDLE_SECS" = Ok _ |- _ =>
    pose proof (ttl_bounds _ _ _ 1800 Hi eq_refl eq_refl) end.
  match goal with Hi : opt_parse _ _ "HUB_SESSION_ABSOLUTE_SECS" = Ok _ |- _ =>
    pose proof (ttl_bounds _ _ _ 43200 Hi eq_refl eq_refl) end.
  split_and!; [lia..| |].
  - intros z [Hz Hp]%positive_pos. subst.
    match goal with Hi : opt_parse _ _ "HUB_SANDBOX_UID_BASE" = Ok _ |- _ =>
      apply opt_parse_Some in Hi as [s Hs%parse_num_bounds] end. lia.
  - match goal with Hi : parse_master_key _ _ = Ok _ |- _ => revert Hi end.
    unfold parse_master_key. destruct (b64 _) as [b|]; [|done].
    destruct (Nat.eqb_spec (String.length b) 32); [|done]. by intros [= <-].
Qed.

Definition env0 (k : string) : option string :=
  if eqs k "HUB_BASE_URL" then Some "https://hub.example.com/"
  else if eqs k "HUB_MASTER_KEY" then Some "0123456789abcdef0123456789abcdef"
  else if eqs k "HUB_SESSION_IDLE_SECS" then Some "99999" else None.
Lemma from_env_bounds_witness :
  ∃ c, from_env Some (λ _, true) env0 = Ok c ∧ c.(session_absolute_ttl_secs) = 99999%Z ∧
    (0 < c.(session_idle_ttl_secs) ≤ c.(session_absolute_ttl_secs))%Z.
Proof.
  eexists. split; [vm_compute; reflexivity|]. split; [reflexivity|].
  eapply (proj1 (from_env_bounds Some (λ _, true) env0 _ _)).
  Unshelve. vm_compute. reflexivity.
Defined.

End config.
