(* ===== verification/Instances.v ===== *)
(** * Server instances (instances.rs)

    A user's configured backends: their definitions, non-secret configuration,
    encrypted environment and configuration file. *)

From S2P Require Import Prelude Strs Schema External Fixtures GitCreds.
Open Scope string_scope.
Open Scope hub_scope.

Module instances.

Definition RESERVED_NAMESPACE : string := "hub".

(** ** Definitions *)
Definition connect_timeout_or (def : ServerDef) (hub_default_secs : Z) : Z :=
  default hub_default_secs def.(connect_timeout_secs).

Definition normalized (def : ServerDef) : ServerDef :=
  let transport := if eqs def.(transport) "git" then "stdio" else def.(transport) in
  let '(command, args) :=
    match def.(command) with
    | Some c => (Some c, def.(args))
    | None =>
        match def.(entry), def.(module) with
        | Some e, _ => (Some e, def.(args))
        | None, Some m => (Some "python", (["-m"; m] ++ def.(args))%list)
        | None, None => (None, def.(args))
        end
    end in
  {| name := def.(name); description := def.(description); Schema.transport := transport;
     Schema.command := command; Schema.args := args; url := def.(url);
     runtime := def.(runtime); repo := def.(repo); git_ref := def.(git_ref);
     entry := def.(entry); module := def.(module);
     connect_timeout_secs := def.(connect_timeout_secs) |}.

Definition is_git (def : ServerDef) : bool :=
  negb (eqs def.(transport) "http") &&
  match def.(repo) with Some r => negb (is_empty (trim r)) | None => false end.

(** ** Instances *)
Record Instance := {
  id : string; user_id : string; custom_def : option ServerDef; namespace : string;
  display_name : string; enabled : bool; config : gmap string string;
  built_commit : option string; build_status : string }.
Definition into_instance (iid : string) (r : instance.t) : Instance := {|
  id := iid; user_id := r.(instance.user_id); custom_def := r.(instance.custom_def);
  namespace := r.(instance.namespace); display_name := r.(instance.display_name);
  enabled := r.(instance.enabled); config := r.(instance.config);
  built_commit := r.(instance.built_commit); build_status := r.(instance.build_status) |}.

(** [ORDER BY namespace]; namespaces of one user are distinct. *)
Definition list_for_user (uid : string) (d : Db) : list Instance :=
  merge_sort (by_text namespace)
    (map (λ kv, into_instance kv.1 kv.2)
      (filter (λ kv, kv.2.(instance.user_id) = uid) (map_to_list d.(user_server_instances)))).

(** [ORDER BY user_id, namespace]: a total order on the instances of one table. *)
Definition owner_order (a b : Instance) : Prop :=
  a.(user_id) ≠ b.(user_id) ∧ String.leb a.(user_id) b.(user_id) = true ∨
  a.(user_id) = b.(user_id) ∧ String.leb a.(namespace) b.(namespace) = true.
#[global] Instance owner_order_dec a b : Decision (owner_order a b).
Proof. unfold owner_order. apply _. Defined.
Definition list_all (d : Db) : list Instance :=
  merge_sort owner_order
    (map (λ kv, into_instance kv.1 kv.2) (map_to_list d.(user_server_instances))).

Definition get (iid : string) (d : Db) : option Instance :=
  into_instance iid <$> d.(user_server_instances) !! iid.
Definition get_owned (iid uid : string) (d : Db) : option Instance :=
  i ← get iid d; if eqs i.(user_id) uid then Some i else None.

Definition is_ns_char (c : Ascii.ascii) : bool :=
  is_ascii_lowercase c || is_ascii_digit c || (byte c =? 95)%N.
Definition validate_namespace (ns : string) : result anyhow unit :=
  if is_empty ns || (32 <? String.length ns)%nat
  then Err (Msg "namespace must be 1-32 characters")
  else if eqs ns RESERVED_NAMESPACE
  then Err (Msg "'hub' is reserved for the management interface")
  else if negb (str_all is_ns_char ns)
  then Err (Msg "namespace may only contain lowercase letters, digits and underscores")
  else Ok tt.

(** The [INSERT]: primary key, [UNIQUE(user_id, namespace)], the owner. *)
Definition insert_instance (iid : string) (r : instance.t) : M Db anyhow unit := λ d,
  if decide (known d.(user_server_instances) iid)
  then (Err (Unique "user_server_instances.id"), d)
  else match find_kv (λ _ s, eqs s.(instance.user_id) r.(instance.user_id) &&
                             eqs s.(instance.namespace) r.(instance.namespace))
               d.(user_server_instances) with
  | Some _ => (Err (Unique "user_server_instances.namespace"), d)
  | None =>
      if decide (known d.(users) r.(instance.user_id))
      then (Ok tt, set_user_server_instances (insert iid r) d)
      else (Err (ForeignKey "user_server_instances.user_id"), d)
  end.
Definition namespace_taken (ns : string) : anyhow :=
  Msg ("you already have a server using the namespace '" +:+ ns +:+ "'").
Definition create (uid : string) (def : option ServerDef) (ns nm iid : string) (now : Z)
    : M Db anyhow Instance :=
  lift (validate_namespace ns) ;;;
  refuse_if (bool_decide (def = None))
    (Msg "an instance needs either a catalog server or a custom definition") ;;;
  map_err (λ e, match e with Unique _ => namespace_taken ns | e => e end)
    (insert_instance iid {|
      instance.user_id := uid; instance.custom_def := def; instance.namespace := ns;
      instance.display_name := nm; instance.enabled := true; instance.config := ∅;
      instance.built_commit := None; instance.build_status := "unbuilt";
      instance.capabilities_json := None; instance.created_at := now |}) ;;;
  let* found := gets (get iid) in
  ok_or found (Msg "instance vanished after creation").

(** [UPDATE user_server_instances SET ... WHERE id = ?]. *)
Definition update (f : instance.t → instance.t) (iid : string) : M Db anyhow unit :=
  modify (set_user_server_instances (alter f iid)).

Definition with_enabled (b : bool) (r : instance.t) : instance.t := {|
  instance.user_id := r.(instance.user_id); instance.custom_def := r.(instance.custom_def);
  instance.namespace := r.(instance.namespace);
  instance.display_name := r.(instance.display_name); instance.enabled := b;
  instance.config := r.(instance.config); instance.built_commit := r.(instance.built_commit);
  instance.build_status := r.(instance.build_status);
  instance.capabilities_json := r.(instance.capabilities_json);
  instance.created_at := r.(instance.created_at) |}.
Definition set_enabled (iid : string) (b : bool) : M Db anyhow unit :=
  update (with_enabled b) iid.

Definition with_build (status : string) (commit : option string) (r : instance.t)
    : instance.t := {|
  instance.user_id := r.(instance.user_id); instance.custom_def := r.(instance.custom_def);
  instance.namespace := r.(instance.namespace);
  instance.display_name := r.(instance.display_name); instance.enabled := r.(instance.enabled);
  instance.config := r.(instance.config); instance.built_commit := commit;
  instance.build_status := status;
  instance.capabilities_json := r.(instance.capabilities_json);
  instance.created_at := r.(instance.created_at) |}.
Definition set_build_state (iid status : string) (commit : option string) : M Db anyhow unit :=
  update (with_build status commit) iid.

Definition with_capabilities (json : string) (r : instance.t) : instance.t := {|
  instance.user_id := r.(instance.user_id); instance.custom_def := r.(instance.custom_def);
  instance.namespace := r.(instance.namespace);
  instance.display_name := r.(instance.display_name); instance.enabled := r.(instance.enabled);
  instance.config := r.(instance.config); instance.built_commit := r.(instance.built_commit);
  instance.build_status := r.(instance.build_status);
  instance.capabilities_json := Some json; instance.created_at := r.(instance.created_at) |}.
(** The snapshot is its serialised form. *)
Definition set_capabilities_snapshot (iid json : string) : M Db anyhow unit :=
  update (with_capabilities json) iid.

Definition with_config (c : gmap string string) (r : instance.t) : instance.t := {|
  instance.user_id := r.(instance.user_id); instance.custom_def := r.(instance.custom_def);
  instance.namespace := r.(instance.namespace);
  instance.display_name := r.(instance.display_name); instance.enabled := r.(instance.enabled);
  instance.config := c; instance.built_commit := r.(instance.built_commit);
  instance.build_status := r.(instance.build_status);
  instance.capabilities_json := r.(instance.capabilities_json);
  instance.created_at := r.(instance.created_at) |}.
Definition set_config_value (iid key value : string) : M Db anyhow unit :=
  let* found := gets (get iid) in
  let* inst := ok_or found (Msg "no such instance") in
  update (with_config (<[key:=value]> inst.(config))) iid.

Definition with_def (def : ServerDef) (r : instance.t) : instance.t := {|
  instance.user_id := r.(instance.user_id); instance.custom_def := Some def;
  instance.namespace := r.(instance.namespace);
  instance.display_name := r.(instance.display_name); instance.enabled := r.(instance.enabled);
  instance.config := r.(instance.config); instance.built_commit := r.(instance.built_commit);
  instance.build_status := r.(instance.build_status);
  instance.capabilities_json := r.(instance.capabilities_json);
  instance.created_at := r.(instance.created_at) |}.
Definition update_def (iid : string) (def : ServerDef) : M Db anyhow unit :=
  update (with_def def) iid.

Definition delete (iid : string) : M Db anyhow unit := modify (delete_instance_row iid).

Definition resolve_def {S} (inst : Instance) : M S anyhow ServerDef :=
  ok_or (normalized <$> inst.(custom_def))
    (Msg ("server '" +:+ inst.(namespace) +:+ "' has no definition")).

(** ** Encrypted environment *)
(** The [instance_secrets] rows of one instance. *)
Definition of_instance (iid : string) (k : string * string) (_ : Sealed) : bool := eqs k.1 iid.
Definition secret_rows (iid : string) (d : Db) : list (string * Sealed) :=
  map (λ kv, (kv.1.2, kv.2))
    (filter (λ kv, kv.1.1 = iid) (map_to_list d.(instance_secrets))).
Definition secret_names (iid : string) (d : Db) : list string := (secret_rows iid d).*1.

Definition write_secret (iid key : string) (s : Sealed) : M Db anyhow unit := λ d,
  if decide (known d.(user_server_instances) iid)
  then (Ok tt, set_instance_secrets (insert (iid, key) s) d)
  else (Err (ForeignKey "instance_secrets.instance_id"), d).

Section secrets.
Context `{Aead}.

Definition set_secret (iid key value nonce : string) : M Db anyhow unit :=
  let* sealed := lift (crypto.seal nonce value) in
  write_secret iid key sealed.

(** [nonces] gives the nonce drawn for each key. *)
Definition replace_env (nonces : string → string) (iid : string) (env : gmap string string)
    : M Db anyhow unit :=
  transaction
    (modify (set_instance_secrets (without (of_instance iid))) ;;;
     for_each (λ kv,
       let* sealed := lift (crypto.seal (nonces kv.1) kv.2) in
       write_secret iid kv.1 sealed) (map_to_list env)).

Definition from_utf8 (bad : anyhow) (plain : string) : result anyhow string :=
  if utf8_valid plain then Ok plain else Err bad.

(** Rows that cannot be opened are skipped, in the edit form only. *)
Fixpoint env_rows (rows : list (string * Sealed)) (out : gmap string string)
    : result anyhow (gmap string string) :=
  match rows with
  | [] => Ok out
  | (key, s) :: rows =>
      match crypto.open s with
      | Ok plain =>
          let? v := from_utf8 (Msg "env value was not UTF-8") plain in
          env_rows rows (<[key:=v]> out)
      | Err _ => env_rows rows out
      end
  end.
Definition env_for_edit (iid : string) (d : Db) : result anyhow (gmap string string) :=
  env_rows (secret_rows iid d) ∅.

Fixpoint resolve_rows (rows : list (string * Sealed)) (env : gmap string string)
    (undecryptable : list string) : result anyhow (gmap string string * list string) :=
  match rows with
  | [] => Ok (env, undecryptable)
  | (key, s) :: rows =>
      match crypto.open s with
      | Ok plain =>
          let? v := from_utf8 (Msg "secret was not valid UTF-8") plain in
          resolve_rows rows (<[key:=v]> env) undecryptable
      | Err _ => resolve_rows rows env (undecryptable ++ [key])
      end
  end.
Definition resolved_env (inst : Instance) (d : Db) : result anyhow (gmap string string) :=
  let? (env, undecryptable) :=
    resolve_rows (secret_rows inst.(id) d) inst.(config) [] in
  match undecryptable with
  | [] => Ok env
  | _ => Err (Msg ("secret(s) could not be decrypted: " +:+
           String.concat ", " (merge_sort (by_text (λ k, k)) undecryptable)))
  end.

(** ** Configuration file *)
Definition write_config_file (iid : string) (s : Sealed) : M Db anyhow unit := λ d,
  if decide (known d.(user_server_instances) iid)
  then (Ok tt, set_instance_config_files (insert iid s) d)
  else (Err (ForeignKey "instance_config_files.instance_id"), d).
Definition set_config_file (iid content nonce : string) : M Db anyhow unit :=
  let* sealed := lift (crypto.seal nonce content) in
  write_config_file iid sealed.

Definition decrypt_config_file (iid : string) (tolerate_undecryptable : bool) (d : Db)
    : result anyhow (option string) :=
  match d.(instance_config_files) !! iid with
  | None => Ok None
  | Some s =>
      match crypto.open s with
      | Ok plain =>
          let? v := from_utf8 (Msg "config file was not valid UTF-8") plain in Ok (Some v)
      | Err _ =>
          if tolerate_undecryptable then Ok None
          else Err (Msg "the attached config file could not be decrypted")
      end
  end.
Definition config_file_for_edit (iid : string) (d : Db) := decrypt_config_file iid true d.
Definition resolved_config_file (iid : string) (d : Db) := decrypt_config_file iid false d.
End secrets.

Definition clear_config_file (iid : string) : M Db anyhow unit :=
  modify (set_instance_config_files (base.delete iid)).

(** ** Facts *)
Lemma insert_instance_Ok iid r d d' :
  insert_instance iid r d = (Ok tt, d') →
  d' = set_user_server_instances (insert iid r) d ∧ known d.(users) r.(instance.user_id) ∧
  d.(user_server_instances) !! iid = None ∧
  ∀ k s, d.(user_server_instances) !! k = Some s →
    (s.(instance.user_id), s.(instance.namespace)) ≠ (r.(instance.user_id), r.(instance.namespace)).
Proof.
  unfold insert_instance. destruct (decide _) as [|Hn]; [done|].
  destruct (find_kv _ _) eqn:E; [done|]. destruct (decide _) as [Hk|]; [|done].
  intros [= <-]. split_and!; [done|done|by apply eq_None_not_Some|].
  intros k s Hs [= Hu Hl]. pose proof (find_kv_None _ _ E _ _ Hs) as Hf.
  cbn in Hf. by rewrite Hu, Hl, !eqs_refl in Hf.
Qed.
Lemma insert_instance_Err iid r d e d' : insert_instance iid r d = (Err e, d') → d' = d.
Proof.
  unfold insert_instance. destruct (decide _); [by intros [= _ <-]|].
  destruct (find_kv _ _); [by intros [= _ <-]|]. destruct (decide _); by intros [= _ <-].
Qed.
Lemma wf_insert_instance iid r : preserves wf (insert_instance iid r).
Proof.
  intros d Hwf. destruct (insert_instance iid r d) as [[[]|e] d'] eqn:E; cbn.
  - apply insert_instance_Ok in E as (-> & Hk & Hn & Hu). apply wf_set_instances; [done|..].
    + intros uid k (s & Hs & Ho). exists s. split; [|done].
      cbn. rewrite lookup_insert_ne; [done|congruence].
    + apply rows_insert; [apply Hwf|done].
    + apply uniq_insert; [apply Hwf|]. intros j s Hs Heq. by destruct (Hu _ _ Hs).
  - by apply insert_instance_Err in E as ->.
Qed.
(** An update that keeps the owner and the namespace keeps every constraint. *)
Lemma wf_update f iid :
  (∀ r, (f r).(instance.user_id) = r.(instance.user_id) ∧
        (f r).(instance.namespace) = r.(instance.namespace)) →
  preserves wf (update f iid).
Proof.
  intros Hf d Hwf. cbn. apply wf_set_instances; [done|..].
  - intros uid k (s & Hs & Ho). destruct (decide (iid = k)) as [->|].
    + exists (f s). cbn. rewrite lookup_alter_eq, Hs. split; [done|].
      by rewrite (proj1 (Hf s)).
    + exists s. cbn. by rewrite lookup_alter_ne.
  - apply rows_alter; [apply Hwf|]. intros r _ ?. by rewrite (proj1 (Hf r)).
  - apply uniq_alter; [apply Hwf|]. intros r. by destruct (Hf r) as [-> ->].
Qed.
Lemma wf_instance_delete iid : preserves wf (delete iid).
Proof. intros d Hwf. cbn. by apply wf_delete_instance_row. Qed.
Lemma wf_write_secret iid key s : preserves wf (write_secret iid key s).
Proof.
  intros d Hwf. unfold write_secret. destruct (decide _); [|done]. wf_table Hwf.
  by apply rows_insert.
Qed.
Lemma wf_write_config_file iid s : preserves wf (write_config_file iid s).
Proof.
  intros d Hwf. unfold write_config_file. destruct (decide _); [|done]. wf_table Hwf.
  by apply rows_insert.
Qed.
Lemma wf_clear_env iid :
  preserves (E:=anyhow) wf (modify (set_instance_secrets (without (of_instance iid)))).
Proof. intros d Hwf. cbn. wf_table Hwf. Qed.
Lemma wf_clear_config_file iid : preserves wf (clear_config_file iid).
Proof. intros d Hwf. cbn. wf_table Hwf. Qed.
#[global] Hint Resolve wf_insert_instance wf_instance_delete wf_write_secret
  wf_write_config_file wf_clear_env wf_clear_config_file : hub.
Lemma wf_instance_create uid def ns nm iid now : preserves wf (create uid def ns nm iid now).
Proof. unfold create. auto 10 with hub. Qed.
Lemma wf_set_enabled iid b : preserves wf (set_enabled iid b).
Proof. by apply wf_update. Qed.
Lemma wf_set_build_state iid s c : preserves wf (set_build_state iid s c).
Proof. by apply wf_update. Qed.
Lemma wf_set_capabilities_snapshot iid j : preserves wf (set_capabilities_snapshot iid j).
Proof. by apply wf_update. Qed.
Lemma wf_update_def iid def : preserves wf (update_def iid def).
Proof. by apply wf_update. Qed.
Lemma wf_set_config_value iid k v : preserves wf (set_config_value iid k v).
Proof.
  unfold set_config_value. apply preserves_bind; [auto with hub|]. intros o.
  apply preserves_bind; [auto with hub|]. intros i. by apply wf_update.
Qed.
#[global] Hint Resolve wf_instance_create wf_set_enabled wf_set_build_state
  wf_set_capabilities_snapshot wf_update_def wf_set_config_value : hub.

Section secret_facts.
Context `{Aead}.
Lemma wf_set_secret iid k v n : preserves wf (set_secret iid k v n).
Proof. unfold set_secret. auto with hub. Qed.
Lemma wf_replace_env ns iid env : preserves wf (replace_env ns iid env).
Proof. unfold replace_env. auto 10 with hub. Qed.
Lemma wf_set_config_file iid c n : preserves wf (set_config_file iid c n).
Proof. unfold set_config_file. auto with hub. Qed.

Lemma elem_of_secret_rows iid d k s :
  (k, s) ∈ secret_rows iid d ↔ d.(instance_secrets) !! (iid, k) = Some s.
Proof.
  unfold secret_rows. rewrite list_elem_of_fmap. split.
  - intros ([[a b] c] & [= -> ->] & Hin). apply list_elem_of_filter in Hin as [Ha Hin].
    cbn in Ha. subst a. by apply elem_of_map_to_list in Hin.
  - intros Hs. exists (iid, k, s). split; [done|]. apply list_elem_of_filter. split; [done|].
    by apply elem_of_map_to_list.
Qed.
Lemma NoDup_secret_rows iid d : NoDup (secret_rows iid d).*1.
Proof.
  unfold secret_rows. rewrite <- list_fmap_compose. apply NoDup_fmap_2_strong.
  - intros [[a b] c] [[a' b'] c'] [Ha Hx]%list_elem_of_filter [Ha' Hy]%list_elem_of_filter.
    cbn in *. intros ->. subst. apply elem_of_map_to_list in Hx, Hy. by simplify_eq.
  - apply NoDup_filter, NoDup_map_to_list.
Qed.

(** Every row opens: the environment is the configuration overridden by them. *)
Lemma resolve_rows_all rows (env out : gmap string string) bad :
  NoDup rows.*1 →
  (∀ k s, (k, s) ∈ rows → ∃ v, crypto.open s = Ok v ∧ utf8_valid v = true ∧ out !! k = Some v) →
  ∃ env', resolve_rows rows env bad = Ok (env', bad) ∧
    ∀ k, env' !! k = if decide (k ∈ rows.*1) then out !! k else env !! k.
Proof.
  revert env. induction rows as [|[k s] rows IH]; intros env Hnd Hall; cbn.
  { exists env. split; [done|]. intros k. by rewrite decide_False by apply not_elem_of_nil. }
  apply NoDup_cons in Hnd as [Hk Hnd].
  destruct (Hall k s) as (v & Ho & Hv & Hout); [constructor|].
  rewrite Ho. unfold from_utf8. rewrite Hv. cbn.
  destruct (IH (<[k:=v]> env)) as (env' & E & He); [done|intros; apply Hall; by constructor|].
  exists env'. split; [done|]. intros j. rewrite He.
  destruct (decide (j ∈ rows.*1)) as [Hin|Hin].
  - rewrite decide_True by (by constructor). done.
  - destruct (decide (j = k)) as [->|Hne].
    + rewrite lookup_insert_eq, decide_True by constructor. done.
    + rewrite lookup_insert_ne by done. rewrite decide_False; [done|].
      by intros [->|]%elem_of_cons.
Qed.
Lemma env_rows_all rows (env out : gmap string string) :
  NoDup rows.*1 →
  (∀ k s, (k, s) ∈ rows → ∃ v, crypto.open s = Ok v ∧ utf8_valid v = true ∧ out !! k = Some v) →
  ∃ env', env_rows rows env = Ok env' ∧
    ∀ k, env' !! k = if decide (k ∈ rows.*1) then out !! k else env !! k.
Proof.
  intros Hnd Hall. destruct (resolve_rows_all rows env out [] Hnd Hall) as (env' & E & He).
  exists env'. split; [|done]. clear Hnd He. revert env E.
  induction rows as [|[k s] rows IH]; intros env; cbn; [by intros [= ->]|].
  destruct (Hall k s) as (v & Ho & Hv & _); [constructor|].
  rewrite Ho. unfold from_utf8. rewrite Hv. cbn. apply IH.
  intros; apply Hall; by constructor.
Qed.

(** The rows a run of sealed insertions leaves behind. *)
Definition put_env (nonces : string → string) (iid : string) : string * string → M Db anyhow unit :=
  λ kv, (let* sealed := lift (crypto.seal (nonces kv.1) kv.2) in write_secret iid kv.1 sealed)%hub.
Lemma put_env_run nonces iid l d d' :
  for_each (put_env nonces iid) l d = (Ok tt, d') →
  (∀ j k, j ≠ iid → d'.(instance_secrets) !! (j, k) = d.(instance_secrets) !! (j, k)) ∧
  (∀ k s, d'.(instance_secrets) !! (iid, k) = Some s →
     (∃ v, (k, v) ∈ l ∧ crypto.seal (nonces k) v = Ok s) ∨
     d.(instance_secrets) !! (iid, k) = Some s) ∧
  (∀ k, k ∈ l.*1 ∨ is_Some (d.(instance_secrets) !! (iid, k)) →
     is_Some (d'.(instance_secrets) !! (iid, k))).
Proof.
  revert d. induction l as [|[k v] l IH]; intros d; cbn.
  { intros [= <-]. split_and!; [done|by right|]. by intros k [?%not_elem_of_nil|]. }
  unfold put_env at 1, write_secret, bind, lift. cbn.
  destruct (crypto.seal (nonces k) v) as [s|] eqn:Es; [|done].
  destruct (decide _); [|done]. intros (Ho & Hs & Hk)%IH. cbn in *. split_and!.
  - intros j k' Hj. rewrite Ho by done. rewrite lookup_insert_ne; [done|congruence].
  - intros k' s' [(v' & Hin & E)|[[[= <-] <-]|[_ Hold]]%lookup_insert_Some]%Hs.
    + left. exists v'. split; [by constructor|done].
    + left. exists v. split; [by constructor|done].
    + by right.
  - intros k' Hor. apply Hk. destruct (decide (k' = k)) as [->|Hne].
    + right. rewrite lookup_insert_eq. by eexists.
    + rewrite lookup_insert_ne by congruence. destruct Hor as [[->|]%elem_of_cons|]; [done|auto|auto].
Qed.

(** Saving an environment and resolving it for a launch gives back the saved
    variables over the instance's configuration, the edit form shows exactly the
    saved variables, and no other instance's secrets change; a save that fails
    leaves the database as it was. *)
Theorem replace_env_resolved `{!AeadLaws} nonces inst env d :
  (∀ k, String.length (nonces k) = crypto.NONCE_LEN) →
  map_Forall (λ _ v, utf8_valid v = true) env →
  match replace_env nonces inst.(id) env d with
  | (Ok _, d') =>
      resolved_env inst d' = Ok (env ∪ inst.(config)) ∧
      env_for_edit inst.(id) d' = Ok env ∧
      ∀ j k, j ≠ inst.(id) → d'.(instance_secrets) !! (j, k) = d.(instance_secrets) !! (j, k)
  | (Err _, d') => d' = d
  end.
Proof.
  intros Hn Hutf. unfold replace_env, transaction, bind, modify.
  change (λ kv : string * string, _) with (put_env nonces inst.(id)).
  destruct (for_each _ _ _) as [[[]|] d'] eqn:E; [|done].
  apply put_env_run in E as (Ho & Hs & Hk). cbn in *.
  assert (∀ k s, (k, s) ∈ secret_rows inst.(id) d' →
    ∃ v, crypto.open s = Ok v ∧ utf8_valid v = true ∧ env !! k = Some v) as Hrows.
  { intros k s [(v & Hin%elem_of_map_to_list & Hseal)|Hold]%elem_of_secret_rows%Hs.
    - exists v. split_and!; [by eapply crypto.open_seal|by eapply Hutf|done].
    - apply without_Some in Hold as [_ Hold]. unfold of_instance in Hold. cbn in Hold.
      by rewrite eqs_refl in Hold. }
  assert (∀ k, k ∈ (secret_rows inst.(id) d').*1 ↔ is_Some (env !! k)) as Hkeys.
  { intros k. split.
    - intros ([k' s] & -> & Hin)%list_elem_of_fmap.
      destruct (Hrows _ _ Hin) as (v & _ & _ & Hv). by exists v.
    - intros [v Hv]. destruct (Hk k) as [s Hsome].
      { left. apply list_elem_of_fmap. exists (k, v). split; [done|].
        by apply elem_of_map_to_list. }
      apply list_elem_of_fmap. exists (k, s). split; [done|]. by apply elem_of_secret_rows. }
  split_and!.
  - unfold resolved_env.
    destruct (resolve_rows_all _ inst.(config) env [] (NoDup_secret_rows _ _) Hrows)
      as (env' & -> & He). cbn. f_equal. apply map_eq. intros k. rewrite He.
    destruct (decide _) as [[v Hv]%Hkeys|Hno].
    + rewrite Hv. symmetry. by apply lookup_union_Some_l.
    + symmetry. apply lookup_union_r. apply eq_None_not_Some. by rewrite <- Hkeys.
  - unfold env_for_edit.
    destruct (env_rows_all _ ∅ env (NoDup_secret_rows _ _) Hrows) as (env' & -> & He).
    f_equal. apply map_eq. intros k. rewrite He.
    destruct (decide _) as [[v Hv]%Hkeys|Hno]; [done|].
    rewrite lookup_empty. symmetry. apply eq_None_not_Some. by rewrite <- Hkeys.
  - intros j k Hj. rewrite Ho by done. apply option_eq. intros s.
    rewrite without_Some. split; [by intros []|]. intros Hr. split; [done|].
    unfold of_instance. by apply eqs_false.
Qed.
End secret_facts.
#[global] Hint Resolve wf_set_secret wf_replace_env wf_set_config_file : hub.

(** An instance is created exactly under a namespace of the grammar (1 to 32
    of [a-z0-9_], not the reserved one) that the user does not use yet; it then
    is the user's, enabled and unbuilt, and a refusal changes nothing. *)
Theorem create_instance_spec uid def ns nm iid now d :
  match create uid def ns nm iid now d with
  | (Ok i, d') =>
      validate_namespace ns = Ok tt ∧ i.(user_id) = uid ∧ i.(namespace) = ns ∧
      i.(enabled) = true ∧ i.(custom_def) = def ∧ is_Some def ∧ get iid d = None ∧
      get_owned iid uid d' = Some i ∧
      (∀ j, j ≠ iid → get j d' = get j d) ∧
      (∀ j r, get j d = Some r → r.(user_id) = uid → r.(namespace) ≠ ns)
  | (Err _, d') => d' = d
  end.
Proof.
  unfold create, bind, lift, refuse_if, map_err.
  destruct (validate_namespace ns) as [[]|]; [|done].
  destruct def as [def|]; [|done]. cbn [bool_decide].
  rewrite bool_decide_false by done. cbn [ret].
  destruct (insert_instance iid _ d) as [[[]|e] d'] eqn:E; [|by apply insert_instance_Err in E].
  apply insert_instance_Ok in E as (-> & _ & Hn & Hu).
  unfold gets, get. cbn [user_server_instances set_user_server_instances].
  rewrite lookup_insert_eq. cbn. split_and!; try done.
  - by rewrite Hn.
  - unfold get_owned, get. cbn. rewrite lookup_insert_eq. cbn. by rewrite eqs_refl.
  - intros j Hj. by rewrite lookup_insert_ne.
  - intros j r (s & Hs & ->)%fmap_Some. cbn. intros Hus Hns. destruct (Hu _ _ Hs).
    cbn. congruence.
Qed.

(** *** Witnesses *)
Definition i0 : Instance := into_instance "i" inst0.
Lemma replace_env_resolved_witness :
  match replace_env (H:=aead0) (λ _, nonce0) "i" {["A":="1"]} db2 with
  | (Ok _, d') =>
      resolved_env (H:=aead0) i0 d' = Ok ({["A":="1"]} ∪ i0.(config)) ∧
      env_for_edit (H:=aead0) "i" d' = Ok {["A":="1"]} ∧
      ∀ j k, j ≠ "i" → d'.(instance_secrets) !! (j, k) = db2.(instance_secrets) !! (j, k)
  | (Err _, d') => d' = db2
  end.
Proof.
  apply (replace_env_resolved (H:=aead0) (H0:=aead0_laws) (λ _, nonce0) i0 {["A":="1"]} db2).
  - reflexivity.
  - apply map_Forall_singleton. reflexivity.
Defined.

End instances.
