(* ===== verification/InstanceText.v ===== *)
(** * Text forms of an instance's settings (instances.rs)

    The env block of the forms, the connect timeout, command lines, and the
    checks of a remote URL. *)

From stdpp Require Import pretty.
From S2P Require Import Prelude Strs Trim Schema External Fixtures Config.
Open Scope string_scope.
Open Scope hub_scope.

Module text.

(** ** The connect timeout *)
Definition parse_connect_timeout (raw : string) : result anyhow (option Z) :=
  let raw := trim raw in
  if is_empty raw then Ok None
  else match config.parse_u64 raw with
  | Some n => Ok (Some n)
  | None => Err (Msg "connect timeout must be a whole number of seconds (0 = no limit)")
  end.

(** ** Env blocks *)
Definition newline : string := bytes [10%N].
(** [str::lines]: the text after the last newline is a line unless it is empty. *)
Definition without_cr (s : string) : string :=
  match str_rev s with
  | String c r => if (byte c =? 13)%N then str_rev r else s
  | EmptyString => s
  end.
Fixpoint lines_fuel (fuel : nat) (s : string) : list string :=
  match fuel with
  | O => []
  | S fuel =>
      if is_empty s then [] else
      match split_once newline s with
      | Some (l, r) => without_cr l :: lines_fuel fuel r
      | None => [s]
      end
  end.
Definition lines (s : string) : list string := lines_fuel (S (String.length s)) s.

Definition name_start (c : Ascii.ascii) : bool := is_ascii_alphabetic c || (byte c =? 95)%N.
Definition name_char (c : Ascii.ascii) : bool := is_ascii_alphanumeric c || (byte c =? 95)%N.
Definition valid_key (key : string) : bool :=
  match key with
  | EmptyString => false
  | String c r => name_start c && str_all name_char r
  end.
(** One line; [i] counts from 1. *)
Definition parse_env_line (i : nat) (raw : string) (map : gmap string string)
    : result anyhow (gmap string string) :=
  let line := trim raw in
  if is_empty line || starts_with "#" line then Ok map
  else match split_once "=" line with
  | None => Err (Msg ("line " +:+ pretty i +:+ ": expected KEY=VALUE"))
  | Some (key, value) =>
      let key := trim key in
      if valid_key key then Ok (<[key := trim value]> map)
      else Err (Msg ("line " +:+ pretty i +:+ ": '" +:+ key +:+
                     "' is not a valid environment variable name"))
  end.
Fixpoint parse_env_lines (i : nat) (ls : list string) (map : gmap string string)
    : result anyhow (gmap string string) :=
  match ls with
  | [] => Ok map
  | l :: ls => let? map := parse_env_line i l map in parse_env_lines (S i) ls map
  end.
Definition parse_env (text : string) : result anyhow (gmap string string) :=
  parse_env_lines 1 (lines text) ∅.

(** A [BTreeMap] is read in the order of its keys. *)
Definition sorted_entries (env : gmap string string) : list (string * string) :=
  merge_sort (by_text fst) (map_to_list env).
Definition render_env (env : gmap string string) : string :=
  String.concat newline (map (λ kv, kv.1 +:+ "=" +:+ kv.2) (sorted_entries env)).

(** ** Command lines *)
Definition parse_command `{Shlex} (line : string) : result anyhow (option string * list string) :=
  match shlex_split (trim line) with
  | None => Err (Msg "could not parse the command line (check your quoting)")
  | Some parts => Ok (head parts, tail parts)
  end.
Definition render_command `{Shlex} (command : option string) (args : list string) : string :=
  let parts := (option_list command ++ args)%list in
  default (String.concat " " parts) (shlex_try_join parts).

(** ** Remote URLs *)
Definition is_private_v4 (a b c d : Z) : bool :=
  (a =? 10)%Z || ((a =? 172) && (16 <=? b) && (b <=? 31))%Z || ((a =? 192) && (b =? 168))%Z.
Definition is_loopback (ip : IpAddr) : bool :=
  match ip with
  | V4 a _ _ _ => (a =? 127)%Z
  | V6 s => bool_decide (s = [0; 0; 0; 0; 0; 0; 0; 1]%Z)
  end.
Definition ip_is_private (ip : IpAddr) : bool :=
  match ip with
  | V4 a b c d =>
      is_loopback ip || is_private_v4 a b c d ||
      ((a =? 169) && (b =? 254))%Z ||
      bool_decide ([a; b; c; d] = [0; 0; 0; 0]%Z) ||
      bool_decide ([a; b; c; d] = [255; 255; 255; 255]%Z)
  | V6 s =>
      let first := default 0%Z (head s) in
      is_loopback ip || bool_decide (s = [0; 0; 0; 0; 0; 0; 0; 0]%Z) ||
      (Z.land first 0xfe00 =? 0xfc00)%Z || (Z.land first 0xffc0 =? 0xfe80)%Z
  end.

Section urls.
Context `{UrlCrate}.
Definition host_is_loopback (url : Url) : bool :=
  match url.(host) with
  | Some (Domain d) => eqs (str_map to_ascii_lowercase d) "localhost"
  | Some (Ip ip) => is_loopback ip
  | None => false
  end.
Definition not_a_url (url : string) : anyhow := Msg ("'" +:+ url +:+ "' is not a valid URL").
Definition validate_remote_url (url : string) : result anyhow unit :=
  match url_parse (trim url) with
  | None => Err (not_a_url url)
  | Some parsed =>
      if negb (eqs parsed.(scheme) "http" || eqs parsed.(scheme) "https")
      then Err (Msg "remote URL must be an http(s) URL")
      else if bool_decide (is_Some parsed.(fragment))
      then Err (Msg "remote URL must not contain a '#' fragment")
      else if eqs parsed.(scheme) "http" && negb (host_is_loopback parsed)
      then Err (Msg "http is only allowed for loopback addresses; use https")
      else Ok tt
  end.
(** [resolve]: [to_socket_addrs] of a host and port, [None] when it fails;
    [show_ip] prints an address. *)
Context (resolve : string → Z → option (list IpAddr)) (show_ip : IpAddr → string).
Definition check_backend_host (url : string) (block_private : bool) : result anyhow unit :=
  let? _ := validate_remote_url url in
  if negb block_private then Ok tt else
  match url_parse (trim url) with
  | None => Err (not_a_url url)
  | Some parsed =>
      if host_is_loopback parsed then Ok tt else
      match parsed.(host_str) with
      | None => Err (Msg "remote URL has no host")
      | Some host =>
          let port := default 443%Z parsed.(port_or_known_default) in
          match List.find ip_is_private (default [] (resolve host port)) with
          | Some ip => Err (Msg ("remote URL host resolves to a non-public address (" +:+
                                 show_ip ip +:+ ")"))
          | None => Ok tt
          end
      end
  end.

(** With the guard on, a backend URL that is accepted is https, or http to a
    loopback literal, without a fragment; and unless its host is a loopback
    literal, every address the host resolves to at that moment is public. *)
Theorem check_backend_host_guard url u :
  url_parse (trim url) = Some u → check_backend_host url true = Ok tt →
  (u.(scheme) = "https" ∨ u.(scheme) = "http" ∧ host_is_loopback u = true) ∧
  u.(fragment) = None ∧
  (host_is_loopback u = false → ∃ h, u.(host_str) = Some h ∧
     ∀ l ip, resolve h (default 443%Z u.(port_or_known_default)) = Some l → ip ∈ l →
       ip_is_private ip = false).
Proof.
  intros Hu. unfold check_backend_host, validate_remote_url. rewrite Hu.
  destruct (eqs _ "http") eqn:E1, (eqs _ "https") eqn:E2; cbn [orb negb]; [| | |done];
    (destruct u.(fragment) eqn:Ef; [done|]); rewrite ?bool_decide_false by (by intros []);
    cbn [andb]; apply eqs_true in E1 || idtac; apply eqs_true in E2 || idtac.
  - congruence.
  - destruct (host_is_loopback u); [|done]. cbn. intros _. split_and!; [by right|done..].
  - cbn. destruct (host_is_loopback u); [intros _; split_and!; [by left|done..]|].
    destruct u.(host_str) as [h|]; [|done]. destruct (List.find _ _) eqn:Efd; [done|].
    intros _. split_and!; [by left|done|]. intros _. exists h. split; [done|].
    intros l ip Hl Hip. rewrite Hl in Efd. eapply List.find_none; [exact Efd|].
    by apply list_elem_of_In.
Qed.
End urls.

(** ** Facts: env blocks *)
Definition LF : Ascii.ascii := Ascii.ascii_of_N 10.
Definition EQ : Ascii.ascii := Ascii.ascii_of_N 61.
(** What an env block can carry: names of the right form, trimmed one-line values. *)
Definition env_ok (env : gmap string string) : Prop :=
  ∀ k v, env !! k = Some v → valid_key k = true ∧ clean v ∧ lacks LF v = true.

Lemma clean_no_cr s : clean s → without_cr s = s.
Proof.
  intros [_ Hs]. unfold without_cr. destruct (str_rev s) as [|c r] eqn:E; [done|].
  destruct (byte c =? 13)%N eqn:Ec; [|done]. exfalso. apply N.eqb_eq in Ec.
  assert (c = Ascii.ascii_of_N 13) as ->
    by (rewrite <- Ec; symmetry; apply Ascii.ascii_N_embedding).
  rewrite strip_any_None in Hs. specialize (Hs (bytes [13%N])).
  assert (bytes [13%N] ∈ reversed_space) as Hin by (apply list_elem_of_In; vm_compute; tauto).
  specialize (Hs Hin). cbn in Hs. by destruct r.
Qed.
Lemma name_char_plain c : name_char c = true →
  plain c = true ∧ Ascii.eqb EQ c = false ∧ Ascii.eqb LF c = false ∧ (byte c =? 35)%N = false.
Proof.
  unfold name_char, is_ascii_alphanumeric, is_ascii_alphabetic, is_ascii_lowercase,
    is_ascii_uppercase, is_ascii_digit, plain. intros Hc.
  assert (∀ n, (n < 48)%N ∨ n = 61%N → byte c ≠ n) as Hne.
  { intros n Hn Heq. rewrite Heq in Hc. clear Heq. apply not_false_iff_true in Hc. apply Hc.
    destruct Hn; [|subst; done]. rewrite !orb_false_iff, !andb_false_iff. 
    rewrite !N.leb_gt. rewrite N.eqb_neq. lia. }
  split_and!.
  - rewrite !orb_true_iff, !andb_true_iff, !N.leb_le, N.eqb_eq in Hc.
    rewrite andb_true_iff, !N.ltb_lt. lia.
  - apply Ascii.eqb_neq. intros <-. by apply (Hne 61%N); [right|].
  - apply Ascii.eqb_neq. intros <-. by apply (Hne 10%N); [left|].
  - apply N.eqb_neq, Hne. by left.
Qed.
Lemma valid_key_chars k : valid_key k = true → k ≠ "" ∧ str_all name_char k = true.
Proof.
  destruct k as [|c k]; [done|]. cbn. intros [Hc Hk]%andb_true_iff. split; [done|].
  rewrite Hk, andb_true_r. unfold name_start, name_char, is_ascii_alphanumeric in *.
  destruct (is_ascii_alphabetic c); [done|]. cbn in *. by rewrite Hc, orb_true_r.
Qed.
Lemma entry_clean k v : valid_key k = true → clean v → clean (k +:+ "=" +:+ v).
Proof.
  intros [Hne Hk]%valid_key_chars Hv. destruct k as [|c k]; [done|].
  cbn in Hk. apply andb_true_iff in Hk as [(Hc & _)%name_char_plain _].
  by apply clean_plain_app.
Qed.
Lemma entry_lacks_LF k v :
  valid_key k = true → lacks LF v = true → lacks LF (k +:+ "=" +:+ v) = true.
Proof.
  intros [_ Hk]%valid_key_chars Hv. unfold lacks in *. rewrite str_all_app. apply andb_true_iff.
  split; [|exact Hv]. eapply str_all_impl; [|exact Hk]. intros c (_ & _ & Hl & _)%name_char_plain.
  by rewrite Hl.
Qed.
Lemma parse_entry i k v m :
  valid_key k = true → clean v → parse_env_line i (k +:+ "=" +:+ v) m = Ok (<[k:=v]> m).
Proof.
  intros Hk Hv. pose proof (valid_key_chars k Hk) as [Hne Hall]. unfold parse_env_line.
  rewrite (trim_clean_id (k +:+ "=" +:+ v)) by by apply entry_clean.
  destruct k as [|c k]; [done|]. set (key := String c k) in *.
  assert (starts_with "#" (key +:+ "=" +:+ v) = false) as Hs.
  { subst key. cbn in Hall. apply andb_true_iff in Hall as [(_ & _ & _ & Hc)%name_char_plain _].
    rewrite append_cons. unfold starts_with. cbn [strip_prefix].
    destruct (Ascii.eqb _ c) eqn:E; [|done]. apply Ascii.eqb_eq in E as <-. done. }
  assert (is_empty (key +:+ "=" +:+ v) = false) as He by done. rewrite He, Hs. cbn [orb].
  change (key +:+ "=" +:+ v) with (key +:+ String EQ v). change "=" with (one EQ).
  rewrite split_char_lacks.
  - rewrite (trim_clean_id key), (trim_clean_id v), Hk; [done|done|].
    apply clean_plain. eapply str_all_impl; [|exact Hall]. by intros ? [??]%name_char_plain.
  - eapply str_all_impl; [|exact Hall]. intros d (_ & Hd & _)%name_char_plain. by rewrite Hd.
Qed.

Lemma lines_concat ls fuel :
  Forall (λ l, l ≠ "" ∧ clean l ∧ lacks LF l = true) ls →
  (String.length (String.concat newline ls) < fuel)%nat →
  lines_fuel fuel (String.concat newline ls) = ls.
Proof.
  revert fuel. induction ls as [|l ls IH]; intros fuel Hall Hf; (destruct fuel; [lia|]).
  - done.
  - apply Forall_cons in Hall as [(Hne & Hcl & Hl) Hall]. destruct ls as [|l' ls].
    + cbn in *. destruct l; [done|]. cbn [is_empty]. by rewrite (split_char_None LF).
    + set (rest := String.concat newline (l' :: ls)) in *.
      assert (String.concat newline (l :: l' :: ls) = l +:+ String LF rest) as Heq by done.
      rewrite Heq in Hf |- *. rewrite length_append in Hf.
      change (String.length (String LF rest)) with (S (String.length rest)) in Hf.
      cbn [lines_fuel].
      assert (is_empty (l +:+ String LF rest) = false) as -> by (by destruct l).
      change newline with (one LF) at 1. rewrite split_char_lacks by done.
      rewrite clean_no_cr by done. f_equal. apply IH; [done|lia].
Qed.

Lemma parse_entries i l m :
  Forall (λ kv, valid_key kv.1 = true ∧ clean kv.2) l → NoDup l.*1 →
  parse_env_lines i (map (λ kv, kv.1 +:+ "=" +:+ kv.2) l) m = Ok (list_to_map l ∪ m).
Proof.
  revert i m. induction l as [|[k v] l IH]; intros i m Hall Hnd; cbn.
  - by rewrite (left_id_L ∅ (∪)).
  - apply Forall_cons in Hall as [[Hk Hv] Hall]. apply NoDup_cons in Hnd as [Hn Hnd]. cbn in *.
    rewrite parse_entry by done. cbn. rewrite IH by done.
    f_equal. rewrite <- insert_union_l. symmetry. apply insert_union_r.
    by apply not_elem_of_list_to_map_1.
Qed.

Lemma render_parse env : env_ok env → parse_env (render_env env) = Ok env.
Proof.
  intros Hok. unfold parse_env, render_env, lines, sorted_entries.
  set (l := merge_sort _ _).
  assert (l ≡ₚ map_to_list env) as Hp by apply merge_sort_Permutation.
  assert (Forall (λ kv, valid_key kv.1 = true ∧ clean kv.2 ∧ lacks LF kv.2 = true) l) as Hall.
  { rewrite Hp. apply Forall_forall. intros [k v] Hkv%elem_of_map_to_list. by apply Hok. }
  rewrite lines_concat; [|..|lia].
  - rewrite parse_entries.
    + f_equal. rewrite (right_id_L ∅ (∪)). symmetry. apply list_to_map_flip. by rewrite Hp.
    + eapply Forall_impl; [exact Hall|]. naive_solver.
    + rewrite Hp. apply NoDup_fst_map_to_list.
  - apply Forall_map. eapply Forall_impl; [exact Hall|]. intros [k v] (Hk & Hv & Hl). cbn in *.
    split_and!; [by destruct k| |]; [by apply entry_clean|by apply entry_lacks_LF].
Qed.

Lemma lacks_without_cr c s : lacks c s = true → lacks c (without_cr s) = true.
Proof.
  intros Hs. unfold without_cr. destruct (str_rev s) as [|d r] eqn:E; [done|].
  destruct (byte d =? 13)%N; [|done]. unfold lacks in *. rewrite <- str_all_rev, E in Hs.
  rewrite str_all_rev. cbn in Hs. by apply andb_true_iff in Hs as [_ ?].
Qed.
Lemma lines_lack fuel s : Forall (λ l, lacks LF l = true) (lines_fuel fuel s).
Proof.
  revert s. induction fuel as [|fuel IH]; intros s; cbn [lines_fuel]; [constructor|].
  destruct (is_empty s); [constructor|].
  destruct (split_once newline s) as [[l r]|] eqn:E.
  - apply (split_char_Some LF) in E as [Hl _]. constructor; [by apply lacks_without_cr|done].
  - constructor; [by apply (split_char_None_inv LF)|constructor].
Qed.
Lemma env_ok_line i raw m m' :
  lacks LF raw = true → env_ok m → parse_env_line i raw m = Ok m' → env_ok m'.
Proof.
  intros Hl Hm. unfold parse_env_line. destruct (_ || _); [by intros [= <-]|].
  destruct (split_once "=" (trim raw)) as [[k v]|] eqn:E; [|done].
  destruct (valid_key (trim k)) eqn:Hk; [|done]. intros [= <-] k' v'.
  intros [[<- <-]|[_ ?]]%lookup_insert_Some; [|by apply Hm].
  split_and!; [done|apply clean_trim|]. apply str_all_trim.
  apply (split_char_Some EQ) in E as [_ E]. apply (str_all_trim _ _) in Hl. unfold lacks in *.
  rewrite E, str_all_app in Hl. apply andb_true_iff in Hl as [_ Hl].
  cbn [str_all] in Hl. by apply andb_true_iff in Hl as [_ ?].
Qed.
Lemma parse_env_ok s env : parse_env s = Ok env → env_ok env.
Proof.
  unfold parse_env, lines. generalize (S (String.length s)); intros fuel.
  assert (env_ok ∅) as H0 by (intros k v Hv; by rewrite lookup_empty in Hv).
  revert H0. generalize (∅ : gmap string string), 1.
  pose proof (lines_lack fuel s) as Hl. induction Hl as [|l ls Hl _ IH]; intros m i Hm; cbn.
  - by intros [= <-].
  - destruct (parse_env_line i l m) as [m'|] eqn:E; [|done]. cbn. apply IH.
    by eapply env_ok_line.
Qed.

(** The edit form does not change the environment it shows: whatever env block
    was accepted, the block rendered from it is accepted again and means the same
    variables. *)
Theorem env_block_stable s env : parse_env s = Ok env → parse_env (render_env env) = Ok env.
Proof. intros Hs. by eapply render_parse, parse_env_ok. Qed.

(** The guard knows an IPv4 address only in its own form: the same loopback
    address mapped into IPv6 passes. *)
Theorem mapped_loopback_is_public :
  ip_is_private (V4 127 0 0 1) = true ∧
  ip_is_private (V6 [0; 0; 0; 0; 0; 0xffff; 0x7f00; 1]%Z) = false.
Proof. done. Qed.

(** *** Witnesses *)
Lemma env_block_stable_witness :
  parse_env (render_env {["A" := "x=1"; "B_2" := ""]}) = Ok {["A" := "x=1"; "B_2" := ""]}.
Proof.
  apply (env_block_stable (" # note" +:+ newline +:+ newline +:+ "B_2=" +:+ newline +:+ " A = x=1 ")).
  vm_compute; reflexivity.
Defined.
Lemma check_backend_host_guard_witness :
  ∃ h, Some "x.org" = Some h ∧ ∀ l ip,
    (λ _ _, Some [V4 93 184 216 34]) h 443%Z = Some l → ip ∈ l → ip_is_private ip = false.
Proof.
  apply (check_backend_host_guard (H:=url0) (λ _ _, Some [V4 93 184 216 34]) (λ _, "")
    "https://x.org/mcp" {| scheme := "https"; username := ""; password := None;
      host := Some (Domain "x.org"); host_str := Some "x.org"; port := None;
      port_or_known_default := Some 443%Z; fragment := None |}); vm_compute; reflexivity.
Defined.

End text.
