(* ===== verification/OauthStore.v ===== *)
(** * OAuth clients, authorization codes, refresh tokens (oauth/store.rs)

    Clients and refresh tokens are database rows; the authorization codes live
    in a map in process memory, behind a mutex ([AuthCodeStore]). *)

From S2P Require Import Prelude Strs Schema External Fixtures Users.
Open Scope string_scope.
Open Scope hub_scope.

Module store.

(** ** Retrying on a locked database *)
Fixpoint is_busy (e : anyhow) : bool :=
  match e with
  | Msg m => contains "database is locked" m
  | Context c e => contains "database is locked" c || is_busy e
  | _ => false
  end.

Definition BACKOFF_MS : list Z := [50; 150; 300]%Z.
Fixpoint retry_loop {S A} (op : M S anyhow A) (delays : list Z) : M S anyhow A :=
  match delays with
  | [] => op
  | _ :: delays => λ s,
      match op s with
      | (Err e, s') => if is_busy e then retry_loop op delays s' else (Err e, s')
      | other => other
      end
  end.
Definition retry_busy {S A} (op : M S anyhow A) : M S anyhow A := retry_loop op BACKOFF_MS.

(** ** Clients *)
Record Client := {
  client_id : string; client_secret_hash : option string; redirect_uris : list string;
  client_name : option string }.

(** Of the metadata document, the client's name is what the hub reads back. *)
Definition create_client (cid : string) (secret_hash : option string)
    (uris : list string) (name : option string) (now : Z) : M Db anyhow unit := λ d,
  if decide (known d.(oauth_clients) cid) then (Err (Unique "oauth_clients.client_id"), d)
  else (Ok tt, set_oauth_clients (insert cid {|
    client.client_secret_hash := secret_hash; client.redirect_uris := uris;
    client.client_name := name; client.created_at := now |}) d).

Definition get_client (cid : string) (d : Db) : option Client :=
  r ← d.(oauth_clients) !! cid;
  Some {| client_id := cid; client_secret_hash := r.(client.client_secret_hash);
          redirect_uris := r.(client.redirect_uris); client_name := r.(client.client_name) |}.

(** ** Authorization codes *)
Record AuthCode := {
  ac_client_id : string; ac_user_id : string; redirect_uri : string;
  code_challenge : string; ac_scope : string; ac_resource : option string }.
Record PendingCode := { auth : AuthCode; expires_at : Z }.
Abbreviation AuthCodeStore := (gmap string PendingCode).
Definition AUTH_CODE_CAP : nat := 512.

Definition retain_live (now : Z) (m : AuthCodeStore) : AuthCodeStore :=
  filter (λ kv, (now < kv.2.(expires_at))%Z) m.
Definition insert_code (code : string) (a : AuthCode) (ttl_secs now : Z)
    : M AuthCodeStore anyhow unit := λ m,
  let m := retain_live now m in
  if (AUTH_CODE_CAP <=? size m)%nat then (Err (Msg "too many authorizations in progress"), m)
  else (Ok tt, <[code := {| auth := a; expires_at := i64_wrap (now + ttl_secs) |}]> m).

Definition take_code (code : string) (now : Z) : M AuthCodeStore anyhow (option AuthCode) := λ m,
  (Ok match m !! code with
      | Some c => if (now <=? c.(expires_at))%Z then Some c.(auth) else None
      | None => None
      end, delete code m).

(** ** Refresh tokens *)
Record RefreshToken := {
  rt_client_id : string; rt_user_id : string; scope : string;
  resource : option string; family_id : string }.

Definition insert_refresh_once (hash cid uid sc : string) (res : option string)
    (family : string) (ttl_secs : Z) (info : users.RequestInfo) (now : Z)
    : M Db anyhow unit := λ d,
  if decide (known d.(oauth_refresh_tokens) hash)
  then (Err (Unique "oauth_refresh_tokens.token_hash"), d)
  else if decide (known d.(users) uid ∧ known d.(oauth_clients) cid) then
    (Ok tt, set_oauth_refresh_tokens (insert hash {|
      refresh_token.client_id := cid; refresh_token.user_id := uid;
      refresh_token.scope := sc; refresh_token.resource := res;
      refresh_token.family_id := family; refresh_token.consumed := false;
      refresh_token.created_at := now; refresh_token.expires_at := i64_wrap (now + ttl_secs);
      refresh_token.last_ip := info.(users.ip);
      refresh_token.last_user_agent := info.(users.user_agent) |}) d)
  else (Err (ForeignKey "oauth_refresh_tokens"), d).
Definition insert_refresh (hash cid uid sc : string) (res : option string) (family : string)
    (ttl_secs : Z) (info : users.RequestInfo) (now : Z) : M Db anyhow unit :=
  retry_busy (insert_refresh_once hash cid uid sc res family ttl_secs info now).

Inductive RefreshOutcome :=
| Valid (t : RefreshToken)
| Replayed (family_id : string)
| Missing.

Definition with_consumed (r : refresh_token.t) : refresh_token.t := {|
  refresh_token.client_id := r.(refresh_token.client_id);
  refresh_token.user_id := r.(refresh_token.user_id);
  refresh_token.scope := r.(refresh_token.scope);
  refresh_token.resource := r.(refresh_token.resource);
  refresh_token.family_id := r.(refresh_token.family_id);
  refresh_token.consumed := true;
  refresh_token.created_at := r.(refresh_token.created_at);
  refresh_token.expires_at := r.(refresh_token.expires_at);
  refresh_token.last_ip := r.(refresh_token.last_ip);
  refresh_token.last_user_agent := r.(refresh_token.last_user_agent) |}.
Definition token_of (r : refresh_token.t) : RefreshToken := {|
  rt_client_id := r.(refresh_token.client_id); rt_user_id := r.(refresh_token.user_id);
  scope := r.(refresh_token.scope); resource := r.(refresh_token.resource);
  family_id := r.(refresh_token.family_id) |}.

(** One [BEGIN IMMEDIATE] transaction. *)
Definition consume_refresh_once (hash : string) (now : Z) : M Db anyhow RefreshOutcome := λ d,
  match d.(oauth_refresh_tokens) !! hash with
  | None => (Ok Missing, d)
  | Some r =>
      if (r.(refresh_token.expires_at) <? now)%Z
      then (Ok Missing, set_oauth_refresh_tokens (delete hash) d)
      else if r.(refresh_token.consumed)
      then (Ok (Replayed r.(refresh_token.family_id)), d)
      else (Ok (Valid (token_of r)),
            set_oauth_refresh_tokens (alter with_consumed hash) d)
  end.
Definition consume_refresh (hash : string) (now : Z) : M Db anyhow RefreshOutcome :=
  retry_busy (consume_refresh_once hash now).

Definition in_family (f : string) (_ : string) (r : refresh_token.t) : bool :=
  eqs r.(refresh_token.family_id) f.
Definition revoke_family (f : string) : M Db anyhow unit :=
  retry_busy (modify (set_oauth_refresh_tokens (without (in_family f)))).

Definition of_user_client (uid cid : string) (_ : string) (r : refresh_token.t) : bool :=
  eqs r.(refresh_token.user_id) uid && eqs r.(refresh_token.client_id) cid.
Definition revoke_user_client (uid cid : string) : M Db anyhow nat := λ d,
  (Ok (size (matching (of_user_client uid cid) d.(oauth_refresh_tokens))),
   set_oauth_refresh_tokens (without (of_user_client uid cid)) d).
Definition of_user (uid : string) (_ : string) (r : refresh_token.t) : bool :=
  eqs r.(refresh_token.user_id) uid.
Definition revoke_all_user_tokens (uid : string) : M Db anyhow unit :=
  modify (set_oauth_refresh_tokens (without (of_user uid))).

(** ** Connections and their labels *)
Definition live_of (uid : string) (now : Z) (_ : string) (r : refresh_token.t) : bool :=
  eqs r.(refresh_token.user_id) uid && (now <? r.(refresh_token.expires_at))%Z.
Definition user_has_connection (uid cid : string) (now : Z) (d : Db) : bool :=
  bool_decide (matching (λ k r, live_of uid now k r && eqs r.(refresh_token.client_id) cid)
    d.(oauth_refresh_tokens) ≠ ∅).

Definition get_client_label (uid cid : string) (d : Db) : string * string :=
  match d.(oauth_client_labels) !! (uid, cid) with
  | Some l => (l.(client_label.name), l.(client_label.note))
  | None => ("", "")
  end.
Definition set_client_label (uid cid name note : string) (now : Z) : M Db anyhow unit := λ d,
  if decide (known d.(users) uid ∧ known d.(oauth_clients) cid) then
    (Ok tt, set_oauth_client_labels (insert (uid, cid) {|
      client_label.name := name; client_label.note := note;
      client_label.updated_at := now |}) d)
  else (Err (ForeignKey "oauth_client_labels"), d).

Record Connection := {
  conn_client_id : string; conn_client_name : option string;
  conn_redirect_uris : list string; custom_name : string; note : string;
  first_seen : Z; last_seen : Z; last_ip : option string; last_user_agent : option string }.

(** The user's live tokens of one client, newest first. *)
Definition live_tokens (uid cid : string) (now : Z) (d : Db) : list refresh_token.t :=
  merge_sort (by_num_desc refresh_token.created_at)
    (snd <$> map_to_list (matching (λ k r, live_of uid now k r &&
      eqs r.(refresh_token.client_id) cid) d.(oauth_refresh_tokens))).
Definition list_user_connections (uid : string) (now : Z) (d : Db) : list Connection :=
  let clients : gset string :=
    list_to_set ((refresh_token.client_id ∘ snd) <$>
      map_to_list (matching (live_of uid now) d.(oauth_refresh_tokens))) in
  merge_sort (by_num_desc last_seen)
    (omap (λ cid,
       match live_tokens uid cid now d with
       | [] => None
       | newest :: _ as toks =>
           let c := get_client cid d in
           let l := get_client_label uid cid d in
           Some {| conn_client_id := cid;
                   conn_client_name := c ← c; c.(client_name);
                   conn_redirect_uris := from_option redirect_uris [] c;
                   custom_name := l.1; note := l.2;
                   first_seen := from_option refresh_token.created_at 0%Z (last toks);
                   last_seen := newest.(refresh_token.created_at);
                   last_ip := newest.(refresh_token.last_ip);
                   last_user_agent := newest.(refresh_token.last_user_agent) |}
       end) (elements clients)).

(** ** Facts *)
Lemma retry_busy_plain {S A} (op : M S anyhow A) s :
  (∀ e s', op s = (Err e, s') → is_busy e = false) → retry_busy op s = op s.
Proof.
  intros Hop. unfold retry_busy, BACKOFF_MS. cbn.
  destruct (op s) as [[a|e] s'] eqn:E; [done|]. by rewrite (Hop _ _ eq_refl).
Qed.
Definition busy {A} (r : result anyhow A) : bool :=
  match r with Err e => is_busy e | Ok _ => false end.
(** The state in which attempt [n] starts, when every earlier one was made. *)
Fixpoint attempted {S A} (op : M S anyhow A) (n : nat) (s : S) : S :=
  match n with O => s | Datatypes.S n => attempted op n (op s).2 end.
Lemma retry_loop_attempts {S A} (op : M S anyhow A) delays s :
  ∃ k, (k ≤ length delays)%nat ∧ retry_loop op delays s = op (attempted op k s) ∧
    (∀ j, (j < k)%nat → busy (op (attempted op j s)).1 = true) ∧
    ((k < length delays)%nat → busy (op (attempted op k s)).1 = false).
Proof.
  revert s. induction delays as [|d l IH]; intros s.
  { exists 0%nat. cbn. split_and!; [lia|done|lia|lia]. }
  cbn [retry_loop length]. destruct (op s) as [[a|e] s'] eqn:E; [|destruct (is_busy e) eqn:Hb].
  - exists 0%nat. cbn. rewrite E. split_and!; [lia|done|lia|done].
  - destruct (IH s') as (k & Hk & Hr & Hj & Hl). exists (Datatypes.S k).
    cbn [attempted]. rewrite E. split_and!; [lia|done| |intros ?; apply Hl; lia].
    intros [|j] Hlt; cbn [attempted]; rewrite E; [done|]. apply Hj. lia.
  - exists 0%nat. cbn. rewrite E. split_and!; [lia|done|lia|done].
Qed.
(** C32: a retried write ends.  Whatever the database answers, the operation is attempted
    at most four times and the retries sleep at most half a second in all; every attempt
    but the last met a locked database, and the last one's outcome and effects are the
    result — so an error that is not a lock is returned at once, a success is never
    repeated, and "locked" is reported only after four attempts. *)
Theorem retry_busy_terminates {S A} (op : M S anyhow A) s :
  ∃ k, (k ≤ 3)%nat ∧ retry_busy op s = op (attempted op k s) ∧
    (∀ j, (j < k)%nat → busy (op (attempted op j s)).1 = true) ∧
    (busy (retry_busy op s).1 = true → k = 3%nat) ∧
    (fold_right Z.add 0 (take k BACKOFF_MS) ≤ 500)%Z.
Proof.
  destruct (retry_loop_attempts op BACKOFF_MS s) as (k & Hk & Hr & Hj & Hl). exists k.
  change (length BACKOFF_MS) with 3%nat in *. unfold retry_busy. rewrite Hr. split_and!; [done..| |].
  - intros Hb. destruct (decide (k = 3%nat)); [done|]. rewrite Hl in Hb; [done|lia].
  - destruct k as [|[|[|[|k]]]]; cbn; lia.
Qed.
Lemma preserves_retry_busy {S A} (I : S → Prop) (op : M S anyhow A) :
  preserves I op → preserves I (retry_busy op).
Proof.
  intros Hop. unfold retry_busy. induction BACKOFF_MS as [|z l IH]; cbn; [done|].
  intros s Hs. specialize (Hop s Hs). destruct (op s) as [[a|e] s']; [done|].
  cbn in Hop. destruct (is_busy e); [by apply IH|done].
Qed.
#[global] Hint Resolve preserves_retry_busy : hub.

Lemma insert_refresh_Ok hash cid uid sc res family ttl info now d d' :
  insert_refresh hash cid uid sc res family ttl info now d = (Ok tt, d') →
  ∃ r, d' = set_oauth_refresh_tokens (insert hash r) d ∧
    d.(oauth_refresh_tokens) !! hash = None ∧
    known d.(users) uid ∧ known d.(oauth_clients) cid ∧
    r.(refresh_token.user_id) = uid ∧ r.(refresh_token.client_id) = cid ∧
    r.(refresh_token.scope) = sc ∧ r.(refresh_token.resource) = res ∧
    r.(refresh_token.family_id) = family ∧ r.(refresh_token.consumed) = false ∧
    r.(refresh_token.expires_at) = i64_wrap (now + ttl).
Proof.
  unfold insert_refresh. rewrite retry_busy_plain.
  - unfold insert_refresh_once. destruct (decide _) as [|Hn]; [done|].
    destruct (decide _) as [[Hu Hc]|]; [|done]. intros [= <-]. eexists.
    split_and!; try done. by apply eq_None_not_Some.
  - unfold insert_refresh_once. intros e s'. destruct (decide _); [by intros [= <- _]|].
    destruct (decide _); [done|by intros [= <- _]].
Qed.
Lemma insert_refresh_Err hash cid uid sc res family ttl info now d e d' :
  insert_refresh hash cid uid sc res family ttl info now d = (Err e, d') → d' = d.
Proof.
  unfold insert_refresh. rewrite retry_busy_plain; unfold insert_refresh_once.
  - destruct (decide _); [by intros [= _ <-]|]. destruct (decide _); [done|by intros [= _ <-]].
  - intros e' s'. destruct (decide _); [by intros [= <- _]|].
    destruct (decide _); [done|by intros [= <- _]].
Qed.
Lemma atomic_insert_refresh hash cid uid sc res family ttl info now :
  atomic (insert_refresh hash cid uid sc res family ttl info now).
Proof. intros d e d'. apply insert_refresh_Err. Qed.
#[global] Hint Resolve atomic_insert_refresh : hub.
Lemma consume_refresh_run hash now d :
  consume_refresh hash now d = consume_refresh_once hash now d.
Proof.
  apply retry_busy_plain. intros e s'. unfold consume_refresh_once.
  destruct (_ !! hash) as [r|]; [|done]. destruct (_ <? _)%Z; [done|].
  by destruct (refresh_token.consumed r).
Qed.
Lemma revoke_family_run f d :
  revoke_family f d = (Ok tt, set_oauth_refresh_tokens (without (in_family f)) d).
Proof. unfold revoke_family. rewrite retry_busy_plain; [done|]. by intros e s'. Qed.

Lemma wf_create_client cid h uris nm now : preserves wf (create_client cid h uris nm now).
Proof.
  intros d Hwf. unfold create_client. destruct (decide _); [done|]. cbn.
  apply wf_set_clients; auto with hub.
Qed.
Lemma wf_refresh_sub f :
  (∀ t : gmap string refresh_token.t, ∀ k r, f t !! k = Some r →
     ∃ r0, t !! k = Some r0 ∧ r.(refresh_token.user_id) = r0.(refresh_token.user_id) ∧
       r.(refresh_token.client_id) = r0.(refresh_token.client_id)) →
  ∀ d, wf d → wf (set_oauth_refresh_tokens f d).
Proof.
  intros Hf d Hwf. pose proof (wf_refresh _ Hwf) as Hr. wf_table Hwf.
  intros k r Hk. destruct (Hf _ _ _ Hk) as (r0 & Hk0 & -> & ->). by apply (Hr k).
Qed.
Lemma wf_insert_refresh hash cid uid sc res family ttl info now :
  preserves wf (insert_refresh hash cid uid sc res family ttl info now).
Proof.
  apply preserves_retry_busy. intros d Hwf. unfold insert_refresh_once.
  destruct (decide _); [done|]. destruct (decide _) as [[Hu Hc]|]; [|done].
  wf_table Hwf. by apply rows_insert.
Qed.
Lemma wf_consume_refresh hash now : preserves wf (consume_refresh hash now).
Proof.
  apply preserves_retry_busy. intros d Hwf. unfold consume_refresh_once.
  destruct (_ !! hash) as [r|] eqn:Hr; [|done]. destruct (_ <? _)%Z.
  - cbn. apply wf_refresh_sub; [|done]. intros t k s [_ ?]%lookup_delete_Some. eauto.
  - destruct (refresh_token.consumed r); [done|]. cbn. apply wf_refresh_sub; [|done].
    intros t k s. destruct (decide (hash = k)) as [->|].
    + rewrite lookup_alter_eq. intros (s0 & Hs & ->)%fmap_Some. eauto.
    + rewrite lookup_alter_ne by done. eauto.
Qed.
Lemma wf_without_refresh P : preserves (E:=anyhow) wf (modify (set_oauth_refresh_tokens (without P))).
Proof.
  intros d Hwf. cbn. apply wf_refresh_sub; [|done].
  intros t k s [? _]%without_Some. eauto.
Qed.
Lemma wf_revoke_family f : preserves wf (revoke_family f).
Proof. apply preserves_retry_busy, wf_without_refresh. Qed.
Lemma wf_revoke_user_client uid cid : preserves wf (revoke_user_client uid cid).
Proof. intros d Hwf. apply (wf_without_refresh (of_user_client uid cid) d Hwf). Qed.
Lemma wf_revoke_all_user_tokens uid : preserves wf (revoke_all_user_tokens uid).
Proof. apply wf_without_refresh. Qed.
Lemma wf_set_client_label uid cid nm n now : preserves wf (set_client_label uid cid nm n now).
Proof.
  intros d Hwf. unfold set_client_label. destruct (decide _) as [[Hu Hc]|]; [|done].
  wf_table Hwf. by apply rows_insert.
Qed.
#[global] Hint Resolve wf_create_client wf_insert_refresh wf_consume_refresh wf_revoke_family
  wf_revoke_user_client wf_revoke_all_user_tokens wf_set_client_label : hub.

(** *** Traces of refresh tokens

    What happens to the token table between two presentations: tokens are
    issued, presented, and rows disappear (revocation, expiry, cascades). *)
Inductive rt_event :=
| Issued (h : string)
| Presented (h : string) (o : RefreshOutcome)
| Silent.
Inductive rt_step : Db → rt_event → Db → Prop :=
| rt_issue h cid uid sc res family ttl info now d d' :
    insert_refresh h cid uid sc res family ttl info now d = (Ok tt, d') →
    rt_step d (Issued h) d'
| rt_present h now o d d' :
    consume_refresh h now d = (Ok o, d') → rt_step d (Presented h o) d'
| rt_other d d' :
    (∀ h r, d'.(oauth_refresh_tokens) !! h = Some r → d.(oauth_refresh_tokens) !! h = Some r) →
    rt_step d Silent d'.
Inductive rt_trace : Db → list rt_event → Db → Prop :=
| rt_nil d : rt_trace d [] d
| rt_cons d e d1 tr d2 : rt_step d e d1 → rt_trace d1 tr d2 → rt_trace d (e :: tr) d2.

Definition issued (tr : list rt_event) : list string :=
  omap (λ e, match e with Issued h => Some h | _ => None end) tr.
Definition accepted (tr : list rt_event) : list string :=
  omap (λ e, match e with Presented h (Valid _) => Some h | _ => None end) tr.
Definition fresh_in (h : string) (d : Db) : Prop :=
  ∃ r, d.(oauth_refresh_tokens) !! h = Some r ∧ r.(refresh_token.consumed) = false.

(** Presenting a token accepts an unconsumed row and consumes it, or only
    removes rows. *)
Lemma consume_refresh_cases h now d o d' :
  consume_refresh h now d = (Ok o, d') →
  (∃ r, o = Valid (token_of r) ∧ d.(oauth_refresh_tokens) !! h = Some r ∧
     r.(refresh_token.consumed) = false ∧ (now ≤ r.(refresh_token.expires_at))%Z ∧
     d' = set_oauth_refresh_tokens (insert h (with_consumed r)) d) ∨
  ((∀ t, o ≠ Valid t) ∧
   ∀ k r, d'.(oauth_refresh_tokens) !! k = Some r → d.(oauth_refresh_tokens) !! k = Some r).
Proof.
  rewrite consume_refresh_run. unfold consume_refresh_once.
  destruct (_ !! h) as [r|] eqn:Hr; [|intros [= <- <-]; by right].
  destruct (_ <? _)%Z eqn:El.
  { intros [= <- <-]. right. split; [done|]. cbn. by intros k s [_ ?]%lookup_delete_Some. }
  destruct (refresh_token.consumed r) eqn:Ec; [intros [= <- <-]; by right|].
  intros [= <- <-]. left. exists r. apply Z.ltb_ge in El. split_and!; [done..|].
  unfold set_oauth_refresh_tokens. by rewrite (alter_insert _ _ _ _ Hr).
Qed.

Lemma rt_trace_accepted d tr d' :
  rt_trace d tr d' → NoDup (issued tr) →
  (∀ h, is_Some (d.(oauth_refresh_tokens) !! h) → h ∉ issued tr) →
  NoDup (accepted tr) ∧ ∀ h, h ∈ accepted tr → h ∈ issued tr ∨ fresh_in h d.
Proof.
  induction 1 as [d|d e d1 tr d2 Hstep _ IH].
  { intros _ _. split; [constructor|]. by intros h ?%not_elem_of_nil. }
  destruct Hstep as [h cid uid sc res fam ttl info now d d1 E|h now o d d1 E|d d1 Hsub]; cbn.
  - intros [Hh Hnd]%NoDup_cons Hinv.
    apply insert_refresh_Ok in E as (r & -> & Hnone & _ & _ & _ & _ & _ & _ & _ & Hc & _).
    destruct IH as [IH1 IH2]; [done| |].
    { intros k. cbn. rewrite lookup_insert. case_decide; [intros _; by subst|].
      intros Hk%Hinv. apply not_elem_of_cons in Hk. by destruct Hk. }
    split; [done|]. intros k [Hk|(s & Hs & Hf)]%IH2; [left; by constructor|].
    cbn in Hs. apply lookup_insert_Some in Hs as [[<- _]|[_ Hs]];
      [left; constructor|right; by exists s].
  - intros Hnd Hinv.
    apply consume_refresh_cases in E as [(r & -> & Hr & Hc & _ & ->)|[Hno Hsub]].
    + destruct IH as [IH1 IH2]; [done| |].
      { intros k. cbn. rewrite lookup_insert. case_decide; subst; [|apply Hinv].
        intros _. apply Hinv. by exists r. }
      cbn. split.
      * apply NoDup_cons. split; [|done]. intros [Hi|(s & Hs & Hf)]%IH2.
        -- by apply (Hinv h) in Hi; [|by exists r].
        -- cbn in Hs. rewrite lookup_insert_eq in Hs. by simplify_eq.
      * intros k [->|[Hi|(s & Hs & Hf)]%IH2]%elem_of_cons; [right; by exists r|by left|].
        cbn in Hs. apply lookup_insert_Some in Hs as [[<- <-]|[_ Hs]]; [done|].
        right. by exists s.
    + assert (NoDup (accepted tr) ∧
        ∀ k, k ∈ accepted tr → k ∈ issued tr ∨ fresh_in k d) as Hgoal.
      { destruct IH as [IH1 IH2]; [done| |].
        { intros k [s Hs]. apply Hinv. exists s. by apply Hsub. }
        split; [done|]. intros k [?|(s & Hs & ?)]%IH2; [by left|].
        right. exists s. split; [by apply Hsub|done]. }
      destruct o as [t|f|]; [by destruct (Hno t)|done..].
  - intros Hnd Hinv. destruct IH as [IH1 IH2]; [done| |].
    { intros k [s Hs]. apply Hinv. exists s. by apply Hsub. }
    split; [done|]. intros k [?|(s & Hs & ?)]%IH2; [by left|].
    right. exists s. split; [by apply Hsub|done].
Qed.

(** *** Traces of authorization codes *)
Inductive code_event :=
| CodeIssued (c : string)
| CodeTaken (c : string) (a : option AuthCode).
Inductive code_step : AuthCodeStore → code_event → AuthCodeStore → Prop :=
| code_insert c a ttl now m m' :
    insert_code c a ttl now m = (Ok tt, m') → code_step m (CodeIssued c) m'
| code_take c now o m m' :
    take_code c now m = (Ok o, m') → code_step m (CodeTaken c o) m'.
Inductive code_trace : AuthCodeStore → list code_event → AuthCodeStore → Prop :=
| code_nil m : code_trace m [] m
| code_cons m e m1 tr m2 : code_step m e m1 → code_trace m1 tr m2 → code_trace m (e :: tr) m2.
Definition codes_issued (tr : list code_event) : list string :=
  omap (λ e, match e with CodeIssued c => Some c | _ => None end) tr.
Definition codes_redeemed (tr : list code_event) : list string :=
  omap (λ e, match e with CodeTaken c (Some _) => Some c | _ => None end) tr.

Lemma insert_code_Ok c a ttl now m m' :
  insert_code c a ttl now m = (Ok tt, m') →
  (size (retain_live now m) < AUTH_CODE_CAP)%nat ∧
  m' = <[c := {| auth := a; expires_at := i64_wrap (now + ttl) |}]> (retain_live now m).
Proof.
  unfold insert_code. destruct (_ <=? _)%nat eqn:E; [done|].
  apply Nat.leb_gt in E. by intros [= <-].
Qed.

Lemma code_trace_redeemed m tr m' :
  code_trace m tr m' → NoDup (codes_issued tr) →
  (∀ c, is_Some (m !! c) → c ∉ codes_issued tr) →
  NoDup (codes_redeemed tr) ∧
  ∀ c, c ∈ codes_redeemed tr → c ∈ codes_issued tr ∨ is_Some (m !! c).
Proof.
  induction 1 as [m|m e m1 tr m2 Hstep _ IH].
  { intros _ _. split; [constructor|]. by intros h ?%not_elem_of_nil. }
  destruct Hstep as [c a ttl now m m1 E|c now o m m1 E]; cbn.
  - intros [Hc Hnd]%NoDup_cons Hinv. apply insert_code_Ok in E as [_ ->].
    destruct IH as [IH1 IH2]; [done| |].
    { intros k. rewrite lookup_insert. case_decide; [intros _; by subst|].
      intros [x [Hx _]%map_lookup_filter_Some]. apply (mk_is_Some _ _) in Hx.
      apply Hinv, not_elem_of_cons in Hx. by destruct Hx. }
    split; [done|]. intros k [Hk|Hk]%IH2; [left; by constructor|].
    rewrite lookup_insert in Hk. case_decide; [subst; left; constructor|].
    destruct Hk as [x [Hx _]%map_lookup_filter_Some]. right. by exists x.
  - intros Hnd Hinv. injection E as <- <-.
    destruct IH as [IH1 IH2]; [done| |].
    { intros k [x [_ Hx]%lookup_delete_Some]. apply Hinv. by exists x. }
    destruct (m !! c) as [pc|] eqn:Hc; [destruct (now <=? _)%Z|]; cbn.
    + split.
      * apply NoDup_cons. split; [|done]. intros [Hi|[x Hx]]%IH2.
        -- by apply (Hinv c) in Hi; [|by exists pc].
        -- by rewrite lookup_delete_eq in Hx.
      * intros k [->|[Hi|[x [_ Hx]%lookup_delete_Some]]%IH2]%elem_of_cons;
          [right; by exists pc|by left|right; by exists x].
    + split; [done|]. intros k [Hi|[x [_ Hx]%lookup_delete_Some]]%IH2;
        [by left|right; by exists x].
    + split; [done|]. intros k [Hi|[x [_ Hx]%lookup_delete_Some]]%IH2;
        [by left|right; by exists x].
Qed.

(** ** Properties *)

(** C5: single use of authorization codes: over any history of insertions of
    fresh codes and of exchanges, started on the empty store, no code is
    redeemed twice, and only issued codes are redeemed. *)
Theorem code_single_use tr m :
  code_trace ∅ tr m → NoDup (codes_issued tr) →
  NoDup (codes_redeemed tr) ∧ ∀ c, c ∈ codes_redeemed tr → c ∈ codes_issued tr.
Proof.
  intros Htr Hnd. destruct (code_trace_redeemed _ _ _ Htr Hnd) as [H1 H2].
  { intros c [x Hx]. by rewrite lookup_empty in Hx. }
  split; [done|]. intros c [?|[x Hx]]%H2; [done|]. by rewrite lookup_empty in Hx.
Qed.

(** The code store never holds more than 512 codes, and the code of a
    successful authorization is redeemable, with its own data, until it expires
    and not after. *)
Theorem insert_code_take c a ttl now m m' :
  insert_code c a ttl now m = (Ok tt, m') →
  (size m' ≤ AUTH_CODE_CAP)%nat ∧
  ∀ t, (take_code c t m').1 =
       Ok (if (t <=? i64_wrap (now + ttl))%Z then Some a else None).
Proof.
  intros [Hsz ->]%insert_code_Ok. split.
  - rewrite map_size_insert. destruct (_ !! c); unfold id, AUTH_CODE_CAP in *; lia.
  - intros t. unfold take_code. rewrite lookup_insert_eq. done.
Qed.

(** C4: rotation: over any history of the token table, started without tokens
    and with distinct issued tokens, a refresh token is accepted at most once;
    in between, rows may disappear but not reappear. *)
Theorem refresh_accepted_once d tr d' :
  d.(oauth_refresh_tokens) = ∅ → rt_trace d tr d' → NoDup (issued tr) →
  NoDup (accepted tr) ∧ ∀ h, h ∈ accepted tr → h ∈ issued tr.
Proof.
  intros He Htr Hnd. destruct (rt_trace_accepted _ _ _ Htr Hnd) as [H1 H2].
  { intros h [r Hr]. by rewrite He, lookup_empty in Hr. }
  split; [done|]. intros h [?|(r & Hr & _)]%H2; [done|]. by rewrite He, lookup_empty in Hr.
Qed.

(** The state after [n] busy attempts. *)
Fixpoint after_busy {S A} (n : nat) (op : M S anyhow A) (s : S) : option S :=
  match n with
  | O => Some s
  | Datatypes.S n =>
      match op s with
      | (Err e, s') => if is_busy e then after_busy n op s' else None
      | _ => None
      end
  end.
Lemma retry_loop_spec {S A} (op : M S anyhow A) l s :
  ∃ n s', (n ≤ length l)%nat ∧ after_busy n op s = Some s' ∧ retry_loop op l s = op s' ∧
    ((n < length l)%nat → ∀ e s'', op s' = (Err e, s'') → is_busy e = false).
Proof.
  revert s. induction l as [|z l IH]; intros s.
  { exists 0, s. split_and!; [done..|]. cbn. lia. }
  cbn [retry_loop]. destruct (op s) as [[a|e] s1] eqn:E.
  - exists 0, s. split_and!; [lia|done|by rewrite E|]. intros _ e s2 E'. congruence.
  - destruct (is_busy e) eqn:Eb.
    + destruct (IH s1) as (n & s' & Hn & Ha & Hr & Hl). exists (Datatypes.S n), s'. cbn.
      rewrite E, Eb. split_and!; [lia|done|done|]. intros Hlt. apply Hl. lia.
    + exists 0, s. split_and!; [lia|done|by rewrite E|]. intros _ e' s2 E'. congruence.
Qed.

(** An operation on a locked database is attempted at most four times, each
    retry only after a busy error; the caller gets the first outcome that is not
    a busy error, or the fourth one. *)
Theorem retry_busy_spec {S A} (op : M S anyhow A) s :
  ∃ n s', (n ≤ 3)%nat ∧ after_busy n op s = Some s' ∧ retry_busy op s = op s' ∧
    ((n < 3)%nat → ∀ e s'', op s' = (Err e, s'') → is_busy e = false).
Proof. apply (retry_loop_spec op BACKOFF_MS s). Qed.

(** *** Witnesses *)
Definition code0 : AuthCode := {|
  ac_client_id := "c"; ac_user_id := "u"; redirect_uri := "https://x/cb";
  code_challenge := "v"; ac_scope := "mcp"; ac_resource := None |}.
Lemma code_single_use_witness :
  NoDup (codes_redeemed [CodeIssued "k"; CodeTaken "k" (Some code0); CodeTaken "k" None]) ∧
  ∀ c, c ∈ codes_redeemed [CodeIssued "k"; CodeTaken "k" (Some code0); CodeTaken "k" None] →
       c ∈ codes_issued [CodeIssued "k"; CodeTaken "k" (Some code0); CodeTaken "k" None].
Proof.
  apply (code_single_use _ ∅).
  - eapply code_cons; [apply (code_insert "k" code0 600 10); reflexivity|].
    eapply code_cons; [apply (code_take "k" 20); vm_compute; reflexivity|].
    eapply code_cons; [apply (code_take "k" 21); vm_compute; reflexivity|].
    apply code_nil.
  - apply NoDup_singleton.
Defined.
Lemma insert_code_take_witness :
  (size (insert_code "k" code0 600 10 ∅).2 ≤ AUTH_CODE_CAP)%nat ∧
  ∀ t, (take_code "k" t (insert_code "k" code0 600 10 ∅).2).1 =
       Ok (if (t <=? 610)%Z then Some code0 else None).
Proof. exact (insert_code_take "k" code0 600 10 ∅ _ eq_refl). Defined.

Definition client0 : client.t := {|
  client.client_secret_hash := None; client.redirect_uris := ["https://x/cb"];
  client.client_name := None; client.created_at := 0 |}.
Definition db_client : Db := set_oauth_clients (insert "c" client0) db2.
Definition info0 : users.RequestInfo := {| users.ip := None; users.user_agent := None |}.
Lemma refresh_accepted_once_witness :
  let t0 := {| rt_client_id := "c"; rt_user_id := "u"; scope := "mcp";
               resource := None; family_id := "f" |} in
  NoDup (accepted [Issued "h"; Presented "h" (Valid t0); Presented "h" (Replayed "f")]) ∧
  ∀ h, h ∈ accepted [Issued "h"; Presented "h" (Valid t0); Presented "h" (Replayed "f")] →
       h ∈ issued [Issued "h"; Presented "h" (Valid t0); Presented "h" (Replayed "f")].
Proof.
  intros t0.
  set (d1 := (insert_refresh "h" "c" "u" "mcp" None "f" 100 info0 10 db_client).2).
  set (d2 := (consume_refresh "h" 20 d1).2).
  apply (refresh_accepted_once db_client _ d2).
  - reflexivity.
  - eapply rt_cons; [apply (rt_issue "h" "c" "u" "mcp" None "f" 100 info0 10 db_client d1)|].
    { vm_compute; reflexivity. }
    eapply rt_cons; [apply (rt_present "h" 20 _ d1 d2); vm_compute; reflexivity|].
    eapply rt_cons; [apply (rt_present "h" 21 _ d2 d2); vm_compute; reflexivity|].
    apply rt_nil.
  - apply NoDup_singleton.
Defined.

End store.
