(* ===== verification/OauthServer.v ===== *)
(** * The authorization server (oauth/keys.rs, register.rs, authorize.rs, token.rs)

    The endpoints run on the database, the audit log and the in-memory code store.
    Fresh values a handler draws (codes, tokens, identifiers) are its arguments.  A
    signed cookie holds what the server put in it. *)

From S2P Require Import Prelude Strs Schema External Fixtures Users Oauth OauthStore Groups.
From S2P Require Import Sessions Config AuditLog.
Open Scope string_scope.
Open Scope hub_scope.

(** The part of the application state the OAuth endpoints touch. *)
Abbreviation OState := (Logged * gmap string store.PendingCode)%type.

(** ** Access tokens (keys.rs) *)
Module keys.

Record AccessClaims := {
  iss : string; sub : string; aud : string; exp : Z; iat : Z; jti : string;
  scope : string; client_id : string; admin : bool }.

(** The active key's id and the issuer. *)
Record Signer := { kid : string; issuer : string }.

Section signer.
Context `{Jwt AccessClaims}.

Definition issue_access_token (s : Signer) (subject client_id audience scope : string)
    (admin : bool) (ttl_secs : Z) (jti : string) (now : Z) : result anyhow (string * Z) :=
  let claims := {| iss := s.(issuer); sub := subject; aud := audience;
                   exp := i64_wrap (now + ttl_secs); iat := now; jti := jti;
                   scope := scope; client_id := client_id; admin := admin |} in
  match jwt_encode s.(kid) claims with
  | Some t => Ok (t, ttl_secs)
  | None => Err (Msg "signing access token")
  end.

Definition verify_access_token (s : Signer) (token expected_audience : string) (now : Z)
    : result anyhow AccessClaims :=
  match jwt_header_kid token with
  | None => Err (Msg "invalid token")
  | Some k =>
      if negb (eqo k s.(kid)) then Err (Msg "invalid token: unknown signing key")
      else match jwt_decode s.(issuer) expected_audience now token with
      | Some c => Ok c
      | None => Err (Msg "invalid token")
      end
  end.

(** What the crate documents: a token it signed decodes to its claims exactly
    under the issuer and audience of those claims and until their expiry, with
    the default leeway of a minute; and whatever decodes satisfies the checks. *)
Class JwtLaws : Prop := {
  jwt_kid_encode k c t : jwt_encode k c = Some t → jwt_header_kid t = Some (Some k);
  jwt_decode_encode k c t i a now : jwt_encode k c = Some t →
    jwt_decode i a now t =
      if eqs c.(iss) i && eqs c.(aud) a && (now - 60 <=? c.(exp))%Z then Some c else None;
  jwt_decode_checked i a now t c : jwt_decode i a now t = Some c →
    c.(iss) = i ∧ c.(aud) = a ∧ (now - 60 ≤ c.(exp))%Z;
}.

(** A token the hub issued is accepted for the audience it was issued for, and
    for no other one. *)
Lemma verify_issued `{!JwtLaws} s sub cid aud' sc adm ttl jti now tok t e now' :
  issue_access_token s sub cid aud' sc adm ttl jti now = Ok (tok, t) →
  (∃ c, verify_access_token s tok e now' = Ok c) ↔
  e = aud' ∧ (now' - 60 ≤ i64_wrap (now + ttl))%Z.
Proof.
  unfold issue_access_token. destruct (jwt_encode _ _) as [t'|] eqn:E; [|done].
  intros [= <- _]. unfold verify_access_token. rewrite (jwt_kid_encode _ _ _ E).
  unfold eqo. rewrite bool_decide_true by done. cbn.
  rewrite (jwt_decode_encode _ _ _ _ _ _ E). cbn. rewrite eqs_refl. cbn.
  destruct (eqs aud' e) eqn:Ea; cbn.
  - apply eqs_true in Ea as ->. destruct (_ <=? _)%Z eqn:El; bool_prop; split.
    + intros _. by split.
    + by eexists.
    + by intros [].
    + intros [_ ?]. lia.
  - apply eqs_false in Ea. split; [by intros []|]. by intros [-> _].
Qed.
End signer.
End keys.

(** ** Dynamic client registration (register.rs) *)
Module register.

Definition MAX_CLIENTS : Z := 10000.

Record RegistrationRequest := {
  redirect_uris : list string; token_endpoint_auth_method : option string;
  grant_types : option (list string); response_types : option (list string);
  client_name : option string; scope : option string }.
(** The body of the 201; a confidential client's secret never expires. *)
Record RegistrationResponse := {
  r_client_id : string; r_issued_at : Z; r_redirect_uris : list string; r_auth_method : string;
  r_grant_types : list string; r_response_types : list string;
  r_client_name : option string; r_scope : option string;
  r_client_secret : option string; r_secret_expires_at : option Z }.

Definition invalid_redirect_uri (msg : string) : oauth.OAuthError :=
  {| oauth.status := 400; oauth.error := "invalid_redirect_uri";
     oauth.error_description := msg |}.

(** [random_id] and [random_secret] are two [random_token()]s.  Of the metadata stored
    with the client the program reads the name back, and nothing else. *)
Definition register `{UrlCrate} `{Digest} (req : RegistrationRequest) (info : users.RequestInfo)
    (random_id random_secret : string) (now : Z)
    : M Logged oauth.OAuthError RegistrationResponse :=
  let* count := gets (λ l, size l.1.(oauth_clients)) in
  refuse_if (MAX_CLIENTS <=? Z.of_nat count)%Z
    {| oauth.status := 503; oauth.error := "temporarily_unavailable";
       oauth.error_description := "client registration is temporarily unavailable" |} ;;;
  refuse_if (bool_decide (req.(redirect_uris) = []))
    (invalid_redirect_uri "at least one redirect_uri is required") ;;;
  for_each (λ uri, refuse_if (bool_decide (url_parse uri = None))
      (invalid_redirect_uri ("invalid redirect_uri: " +:+ uri))) req.(redirect_uris) ;;;
  let auth_method := default "none" req.(token_endpoint_auth_method) in
  let grant_types := default ["authorization_code"; "refresh_token"] req.(grant_types) in
  let response_types := default ["code"] req.(response_types) in
  let client_id := "hub_" +:+ random_id in
  let client_secret := if eqs auth_method "none" then None else Some random_secret in
  on_fst (map_err oauth.server_error
    (store.create_client client_id (oauth.token_hash <$> client_secret)
       req.(redirect_uris) req.(client_name) now)) ;;;
  emit (audit.ok (audit.with_object client_id
    (audit.request info (audit.event "oauth.register")))) ;;;
  ret {| r_client_id := client_id; r_issued_at := now; r_redirect_uris := req.(redirect_uris);
         r_auth_method := auth_method; r_grant_types := grant_types;
         r_response_types := response_types; r_client_name := req.(client_name);
         r_scope := req.(scope); r_client_secret := client_secret;
         r_secret_expires_at := (λ _, 0%Z) <$> client_secret |}.

End register.

(** ** The authorization endpoint (authorize.rs) *)
Module authorize.

Definition AUTHREQ_COOKIE : string := "hub_authreq".
Definition AUTH_CODE_TTL_SECS : Z := 600.

Record AuthorizeQuery := {
  response_type : string; client_id : string; redirect_uri : string;
  scope : option string; state : option string; code_challenge : string;
  code_challenge_method : option string; resource : option string }.

(** The validated request, stashed in the signed cookie between the steps. *)
Record PendingAuth := {
  p_client_id : string; p_redirect_uri : string; p_scope : string;
  p_state : option string; p_code_challenge : string; p_resource : option string;
  p_user_id : string }.

(** What the endpoint answers; [Consent] also sets the cookie. *)
Inductive Response :=
| error_page (msg : string)
| oauth_error (e : oauth.OAuthError)
| redirect (uri : string) (params : list (string * string))
| login (next : string)
| Consent (client_name handle : string) (pending : PendingAuth).

Definition redirect_with `{UrlCrate} (uri : string) (params : list (string * string))
    : Response :=
  match url_parse uri with
  | Some _ => redirect uri params
  | None => error_page "invalid redirect_uri"
  end.

(** [Err(())] is [None]; [Some None] is the base endpoint. *)
Definition resource_group_slug (c : config.Config) (res : string) : option (option string) :=
  let res := trim_end_char config.slash res in
  if eqs res (config.mcp_url c) then Some None
  else match strip_prefix (config.mcp_url c +:+ "/") res with
  | Some slug => if groups.valid_slug slug then Some (Some slug) else None
  | None => None
  end.

Definition hex_digit (n : N) : Ascii.ascii :=
  Ascii.ascii_of_N (if (n <? 10)%N then 48 + n else 55 + n).
Definition unreserved (b : Ascii.ascii) : bool :=
  is_ascii_alphanumeric b ||
  existsb (N.eqb (byte b)) [45; 95; 46; 126]%N.
Fixpoint urlencode (s : string) : string :=
  match s with
  | EmptyString => EmptyString
  | String b s =>
      if unreserved b then String b (urlencode s)
      else "%" +:+ String (hex_digit (N.div (byte b) 16))
                     (String (hex_digit (N.modulo (byte b) 16)) (urlencode s))
  end.

(** [GET /authorize]; [raw] is the raw query string. *)
Definition authorize `{UrlCrate} (c : config.Config) (user : option users.User)
    (q : AuthorizeQuery) (raw : option string) (d : Db) : Response :=
  match store.get_client q.(client_id) d with
  | None => error_page "unknown client_id"
  | Some client =>
      if negb (existsb (String.eqb q.(redirect_uri)) client.(store.redirect_uris))
      then error_page "redirect_uri is not registered for this client" else
      let st := default "" q.(state) in
      if negb (eqs q.(response_type) "code") then
        redirect_with q.(redirect_uri) [("error", "unsupported_response_type"); ("state", st)]
      else if negb (eqs (default "S256" q.(code_challenge_method)) "S256") then
        redirect_with q.(redirect_uri)
          [("error", "invalid_request");
           ("error_description", "only S256 PKCE is supported"); ("state", st)]
      else if is_empty q.(code_challenge) then
        redirect_with q.(redirect_uri)
          [("error", "invalid_request");
           ("error_description", "code_challenge is required"); ("state", st)]
      else
      let invalid_target :=
        redirect_with q.(redirect_uri) [("error", "invalid_target"); ("state", st)] in
      match match q.(resource) with
            | None => Some None
            | Some res => resource_group_slug c res
            end with
      | None => invalid_target
      | Some group_slug =>
          match user with
          | None =>
              login match raw with Some r => "/authorize?" +:+ r | None => "/authorize" end
          | Some user =>
              if match group_slug with
                 | None => true
                 | Some slug =>
                     bool_decide (is_Some (groups.find_by_slug user.(users.id) slug d))
                 end
              then
                Consent
                  match client.(store.client_name) with
                  | Some n => if is_empty n then q.(client_id) else n
                  | None => q.(client_id)
                  end
                  user.(users.handle)
                  {| p_client_id := q.(client_id); p_redirect_uri := q.(redirect_uri);
                     p_scope := default "mcp" q.(scope); p_state := q.(state);
                     p_code_challenge := q.(code_challenge); p_resource := q.(resource);
                     p_user_id := user.(users.id) |}
              else invalid_target
          end
      end
  end.

(** The authorization-request cookie: absent, or its decoded content. *)
Inductive AuthReq := no_authreq | bad_authreq | authreq (p : PendingAuth).

(** The entry of a decision on a client's request. *)
Definition consent (user : users.User) (info : users.RequestInfo) : audit.Event :=
  audit.request info
    (audit.as_actor user.(users.handle) user.(users.id) (audit.event "oauth.consent")).
Definition consent_to (user : users.User) (info : users.RequestInfo) (cid : string) : audit.Event :=
  audit.with_object cid (audit.with_client_id (Some cid) (consent user info)).

(** [POST /authorize/decision], for the session's [user]; [code] is a fresh
    [random_token()].  The result tells whether the cookie was cleared. *)
Definition decision `{UrlCrate} `{Digest} (c : config.Config) (user : users.User)
    (jar : gmap string string) (info : users.RequestInfo) (req : AuthReq)
    (choice csrf code : string) (now : Z) : M OState unit (bool * Response) :=
  if negb (session.check_csrf jar c.(config.master_key) csrf)
  then
    on_fst (emit (audit.denied "csrf" (consent user info))) ;;;
    ret (false, error_page "invalid security token; please restart authorization")
  else match req with
  | no_authreq => ret (false, error_page "no authorization in progress")
  | bad_authreq => ret (false, error_page "invalid authorization request")
  | authreq pending =>
      if negb (eqs pending.(p_user_id) user.(users.id))
      then ret (false, error_page "session mismatch; please restart authorization")
      else
        let st := default "" pending.(p_state) in
        let entry := consent_to user info pending.(p_client_id) in
        if negb (eqs choice "approve") then
          on_fst (emit (audit.denied "declined" entry)) ;;;
          ret (true, redirect_with pending.(p_redirect_uri)
                       [("error", "access_denied"); ("state", st)])
        else
          catch
            (on_snd (store.insert_code code
               {| store.ac_client_id := pending.(p_client_id);
                  store.ac_user_id := user.(users.id);
                  store.redirect_uri := pending.(p_redirect_uri);
                  store.code_challenge := pending.(p_code_challenge);
                  store.ac_scope := pending.(p_scope);
                  store.ac_resource := pending.(p_resource) |}
               AUTH_CODE_TTL_SECS now))
            (λ r, match r with
               | Err e => ret (true, oauth_error (oauth.server_error e))
               | Ok _ =>
                   on_fst (emit (audit.ok entry)) ;;;
                   ret (true, redirect_with pending.(p_redirect_uri)
                     (("code", code) :: (if is_empty st then [] else [("state", st)])))
               end)
  end.

(** *** Facts *)
Definition resource_url (c : config.Config) (o : option string) : string :=
  match o with None => config.mcp_url c | Some slug => config.group_mcp_url c slug end.

Lemma resource_url_snoc c o :
  (∀ s, o = Some s → groups.valid_slug s = true) →
  ∃ a d, resource_url c o = a +:+ String d EmptyString ∧ config.slash ≠ d.
Proof.
  intros Ho. destruct o as [s|]; cbn.
  - destruct (groups.valid_slug_last s) as (a & d & -> & Hd); [by apply Ho|].
    exists (c.(config.base_url) +:+ "/mcp/" +:+ a), d. split; [by rewrite !append_assoc|].
    by intros <-.
  - exists (c.(config.base_url) +:+ "/mc"), (Ascii.Ascii false false false false true true true false). split; [by rewrite append_assoc|done].
Qed.
Lemma group_url_not_base c s : s ≠ "" → config.group_mcp_url c s ≠ config.mcp_url c.
Proof.
  unfold config.group_mcp_url, config.mcp_url. intros Hs Heq%append_inj_l.
  apply (append_inj_l "/mcp") in Heq. done.
Qed.

(** The resource indicators accepted at the authorization endpoint are
    exactly the URL of the base endpoint and the URL of a group endpoint with a
    valid slug, each with any number of trailing slashes. *)
Theorem resource_group_slug_spec c res o :
  resource_group_slug c res = Some o ↔
  (∀ s, o = Some s → groups.valid_slug s = true) ∧
  ∃ n, res = resource_url c o +:+ str_repeat config.slash n.
Proof.
  unfold resource_group_slug. split.
  - destruct (trim_end_char_split config.slash res) as [n Hn].
    destruct (eqs _ _) eqn:E.
    + apply eqs_true in E. intros [= <-]. split; [done|]. exists n. unfold resource_url. by rewrite <- E.
    + destruct (strip_prefix _ _) as [slug|] eqn:Es; [|done].
      apply strip_prefix_Some in Es. destruct (groups.valid_slug slug) eqn:Ev; [|done].
      intros [= <-]. split; [by intros s [= <-]|]. exists n.
      rewrite Hn at 1. rewrite Es. unfold resource_url, config.group_mcp_url, config.mcp_url.
      by rewrite !append_assoc.
  - intros [Ho [n ->]]. destruct (resource_url_snoc c o Ho) as (a & d & Ha & Hd).
    rewrite Ha, trim_end_char_repeat, <- Ha by done. destruct o as [s|]; cbn [resource_url].
    + rewrite (proj2 (eqs_false _ _)).
      2: { apply group_url_not_base, groups.valid_slug_nonempty, Ho. done. }
      replace (config.group_mcp_url c s) with ((config.mcp_url c +:+ "/") +:+ s)
        by (unfold config.group_mcp_url, config.mcp_url; by rewrite !append_assoc).
      rewrite strip_prefix_app. by rewrite (Ho s eq_refl).
    + by rewrite eqs_refl.
Qed.

(** The consent page is shown only to a logged-in user, for a registered
    client and one of its registered redirect URIs, a code request with an S256
    challenge, and a resource that is absent, the base endpoint, or an existing
    group of that very user; the stashed request names that user. *)
Theorem authorize_consent_sound `{UrlCrate} c user q raw d nm h p :
  authorize c user q raw d = Consent nm h p →
  ∃ u cl, user = Some u ∧ store.get_client q.(client_id) d = Some cl ∧
    q.(redirect_uri) ∈ cl.(store.redirect_uris) ∧ q.(response_type) = "code" ∧
    default "S256" q.(code_challenge_method) = "S256" ∧ q.(code_challenge) ≠ "" ∧
    (∀ res, q.(resource) = Some res → ∃ o, resource_group_slug c res = Some o ∧
       ∀ s, o = Some s → ∃ g, groups.find_by_slug u.(users.id) s d = Some g) ∧
    p.(p_user_id) = u.(users.id) ∧ p.(p_client_id) = q.(client_id) ∧
    p.(p_redirect_uri) = q.(redirect_uri) ∧ p.(p_code_challenge) = q.(code_challenge) ∧
    p.(p_resource) = q.(resource).
Proof.
  unfold authorize, redirect_with.
  destruct (store.get_client q.(client_id) d) as [cl|]; [|done].
  destruct (existsb _ _) eqn:Eu; [|done]. cbn [negb].
  destruct (eqs q.(response_type) "code") eqn:Er; cbn [negb]; [|by destruct (url_parse _)].
  destruct (eqs _ "S256") eqn:Em; cbn [negb]; [|by destruct (url_parse _)].
  destruct (is_empty _) eqn:Ec; [by destruct (url_parse _)|].
  destruct (match q.(resource) with Some _ => _ | None => _ end) as [o|] eqn:Eres;
    [|by destruct (url_parse _)].
  destruct user as [u|]; [|done].
  destruct (match o with Some _ => _ | None => _ end) eqn:Eg; [|by destruct (url_parse _)].
  intros [= _ _ <-]. exists u, cl. cbn. apply eqs_true in Er, Em.
  split_and!; try done.
  - apply existsb_exists in Eu as (x & Hx & ->%String.eqb_eq). by apply list_elem_of_In.
  - by intros Hc; rewrite Hc in Ec.
  - intros res Hres. rewrite Hres in Eres. exists o. split; [done|]. intros s ->.
    by apply bool_decide_eq_true in Eg.
Qed.

(** C17: a decision adds at most the one fresh code, and only when the form carries
    the session's CSRF token, the stashed request belongs to the deciding user
    and the answer is "approve"; the code carries the stashed request's data, and the
    user's consent to that client is on record. *)
Theorem decision_sound `{UrlCrate} `{Digest} c user jar info req choice csrf code now l m k pc :
  (decision c user jar info req choice csrf code now (l, m)).2.2 !! k = Some pc →
  m !! k = Some pc ∨
  k = code ∧ choice = "approve" ∧
  session.check_csrf jar c.(config.master_key) csrf = true ∧
  ∃ p, req = authreq p ∧ p.(p_user_id) = user.(users.id) ∧
    pc = {| store.auth := {|
              store.ac_client_id := p.(p_client_id); store.ac_user_id := user.(users.id);
              store.redirect_uri := p.(p_redirect_uri);
              store.code_challenge := p.(p_code_challenge);
              store.ac_scope := p.(p_scope); store.ac_resource := p.(p_resource) |};
            store.expires_at := i64_wrap (now + AUTH_CODE_TTL_SECS) |} ∧
    (decision c user jar info req choice csrf code now (l, m)).2.1 =
      (l.1, (l.2 ++ [audit.ok (consent_to user info p.(p_client_id))])%list).
Proof.
  unfold decision. destruct (session.check_csrf _ _ _) eqn:Ec; cbn [negb]; [|by left].
  destruct req as [| |p]; [by left..|].
  destruct (eqs (p_user_id p) _) eqn:Eu; cbn [negb]; [|by left].
  destruct (eqs choice "approve") eqn:Ea; cbn [negb]; [|by left].
  unfold catch, on_snd. cbn [fst snd]. unfold store.insert_code.
  destruct (_ <=? _)%nat; cbn [fst snd ret bind on_fst emit modify].
  - intros [? _]%map_lookup_filter_Some. by left.
  - intros [[<- <-]|[_ [? _]%map_lookup_filter_Some]]%lookup_insert_Some; [right|by left].
    apply eqs_true in Eu, Ea. split_and!; [done..|]. by exists p.
Qed.

End authorize.

(** ** The token endpoint (token.rs) *)
Module token.

Definition ACCESS_TTL_SECS : Z := 60 * 15.
Definition REFRESH_TTL_SECS : Z := 60 * 60 * 24 * 30.

Record TokenForm := {
  grant_type : string; code : option string; redirect_uri : option string;
  client_id : option string; client_secret : option string;
  code_verifier : option string; refresh_token : option string }.
Record TokenResponse := {
  access_token : string; token_type : string; expires_in : Z;
  new_refresh_token : string; scope : string }.

(** The values drawn for one request. *)
Record Fresh := { new_family : string; new_jti : string; new_refresh : string }.

Definition invalid_client (msg : string) : oauth.OAuthError :=
  {| oauth.status := 401; oauth.error := "invalid_client"; oauth.error_description := msg |}.

Section endpoint.
Context `{Digest} `{Jwt keys.AccessClaims}.
Context (cfg : config.Config) (signer : keys.Signer) (info : users.RequestInfo).

Definition authenticate_client (cid : string) (secret : option string)
    : M Db oauth.OAuthError store.Client :=
  let* found := gets (store.get_client cid) in
  let* client := ok_or found (invalid_client "unknown client") in
  match client.(store.client_secret_hash) with
  | Some expected =>
      refuse_if (negb match secret with
                      | Some s => oauth.ct_eq (oauth.token_hash s) expected
                      | None => false
                      end) (invalid_client "invalid client credentials")
  | None => ret tt
  end ;;;
  ret client.

Definition token_entry (user : users.User) (cid : string) : audit.Entry :=
  audit.ok (audit.with_object cid (audit.request info (audit.with_client_id (Some cid)
    (audit.as_actor user.(users.handle) user.(users.id) (audit.event "oauth.token"))))).
Definition issue_tokens (user : users.User) (cid audience sc : string) (res : option string)
    (family : string) (fresh : Fresh) (now : Z) : M Logged oauth.OAuthError TokenResponse :=
  let* (access, ttl) := lift
    match keys.issue_access_token signer user.(users.id) cid audience sc
            user.(users.is_admin) ACCESS_TTL_SECS fresh.(new_jti) now with
    | Ok r => Ok r
    | Err e => Err (oauth.server_error e)
    end in
  on_fst (map_err oauth.server_error
    (store.insert_refresh (oauth.token_hash fresh.(new_refresh)) cid user.(users.id) sc res
       family REFRESH_TTL_SECS info now)) ;;;
  emit (token_entry user cid) ;;;
  ret {| access_token := access; token_type := "Bearer"; expires_in := ttl;
         new_refresh_token := fresh.(new_refresh); scope := sc |}.

Definition no_user : oauth.OAuthError := oauth.invalid_grant "user no longer exists".

(** What follows the taking of the code. *)
Definition exchange_code (form : TokenForm) (cid verifier : string)
    (taken : option store.AuthCode) (fresh : Fresh) (now : Z)
    : M OState oauth.OAuthError TokenResponse :=
  let* row := ok_or taken
    (oauth.invalid_grant "authorization code is invalid or expired") in
  refuse_if (negb (eqs row.(store.ac_client_id) cid))
    (oauth.invalid_grant "code was issued to another client") ;;;
  let* redirect_uri := ok_or form.(redirect_uri)
    (oauth.invalid_request "redirect_uri is required") in
  refuse_if (negb (eqs redirect_uri row.(store.redirect_uri)))
    (oauth.invalid_grant "redirect_uri mismatch") ;;;
  refuse_if (negb (oauth.verify_pkce_s256 verifier row.(store.code_challenge)))
    (oauth.invalid_grant "PKCE verification failed") ;;;
  let* found := on_fst (on_fst (users.find_by_id row.(store.ac_user_id))) in
  let* user := ok_or found no_user in
  let audience := default (config.mcp_url cfg) row.(store.ac_resource) in
  on_fst (issue_tokens user cid audience row.(store.ac_scope) row.(store.ac_resource)
            fresh.(new_family) fresh now).
Definition authorization_code (form : TokenForm) (fresh : Fresh) (now : Z)
    : M OState oauth.OAuthError TokenResponse :=
  let* code := ok_or form.(code) (oauth.invalid_request "code is required") in
  let* cid := ok_or form.(client_id) (oauth.invalid_request "client_id is required") in
  let* verifier := ok_or form.(code_verifier)
    (oauth.invalid_request "code_verifier is required (PKCE)") in
  on_fst (on_fst (authenticate_client cid form.(client_secret))) ;;;
  let* taken := on_snd (map_err oauth.server_error (store.take_code code now)) in
  exchange_code form cid verifier taken fresh now.

Definition reuse_detected : oauth.OAuthError :=
  oauth.invalid_grant "refresh token reuse detected; the session has been revoked".
(** What follows the presentation of a valid token. *)
Definition rotate (cid : string) (row : store.RefreshToken) (fresh : Fresh) (now : Z)
    : M Logged oauth.OAuthError TokenResponse :=
  refuse_if (negb (eqs row.(store.rt_client_id) cid))
    (oauth.invalid_grant "refresh token was issued to another client") ;;;
  let* found := on_fst (users.find_by_id row.(store.rt_user_id)) in
  let* user := ok_or found no_user in
  let audience := default (config.mcp_url cfg) row.(store.resource) in
  issue_tokens user cid audience row.(store.scope) row.(store.resource)
    row.(store.family_id) fresh now.
Definition reuse_entry (cid : string) : audit.Entry :=
  audit.denied "reuse" (audit.with_object cid (audit.request info
    (audit.with_client_id (Some cid) (audit.event "oauth.refresh_reuse")))).
Definition accept_outcome (cid : string) (outcome : store.RefreshOutcome)
    : M Logged oauth.OAuthError store.RefreshToken :=
  match outcome with
  | store.Valid row => ret row
  | store.Replayed family =>
      on_fst (map_err oauth.server_error (store.revoke_family family)) ;;;
      emit (reuse_entry cid) ;;;
      fail reuse_detected
  | store.Missing => fail (oauth.invalid_grant "refresh token is invalid or expired")
  end.
Definition refresh (form : TokenForm) (fresh : Fresh) (now : Z)
    : M Logged oauth.OAuthError TokenResponse :=
  let* tok := ok_or form.(refresh_token)
    (oauth.invalid_request "refresh_token is required") in
  let* cid := ok_or form.(client_id) (oauth.invalid_request "client_id is required") in
  on_fst (authenticate_client cid form.(client_secret)) ;;;
  let hash := oauth.token_hash tok in
  let* outcome := on_fst (map_err oauth.server_error (store.consume_refresh hash now)) in
  let* row := accept_outcome cid outcome in
  rotate cid row fresh now.

(** [POST /token]. *)
Definition token (form : TokenForm) (fresh : Fresh) (now : Z)
    : M OState oauth.OAuthError TokenResponse :=
  if eqs form.(grant_type) "authorization_code" then authorization_code form fresh now
  else if eqs form.(grant_type) "refresh_token" then on_fst (refresh form fresh now)
  else fail {| oauth.status := 400; oauth.error := "unsupported_grant_type";
               oauth.error_description :=
                 "unsupported grant_type: " +:+ form.(grant_type) |}.

(** *** Facts *)
Definition authenticated (d : Db) (cid : string) (secret : option string) : Prop :=
  ∃ c, store.get_client cid d = Some c ∧
    ∀ h, c.(store.client_secret_hash) = Some h →
      ∃ s, secret = Some s ∧ oauth.token_hash s = h.

Lemma authenticate_client_state cid secret d : (authenticate_client cid secret d).2 = d.
Proof.
  unfold authenticate_client, bind, gets, ok_or, refuse_if, ret, fail.
  destruct (store.get_client cid d) as [c|]; [|done].
  destruct (store.client_secret_hash c) as [h|]; [|done].
  destruct secret as [s|]; [|done]. cbn. by destruct (oauth.ct_eq _ _).
Qed.
Lemma authenticate_client_Ok cid secret d :
  (∃ c d', authenticate_client cid secret d = (Ok c, d')) ↔ authenticated d cid secret.
Proof.
  unfold authenticate_client, authenticated, bind, gets, ok_or, refuse_if, ret, fail.
  destruct (store.get_client cid d) as [c|]; [|naive_solver].
  destruct (store.client_secret_hash c) as [h|] eqn:Eh.
  2: { split; [|eauto]. intros _. exists c. split; [done|]. intros h Hh. congruence. }
  destruct secret as [s|]; cbn.
  - destruct (oauth.ct_eq _ _) eqn:Ec; cbn.
    + apply oauth.ct_eq_eq in Ec. split; [|eauto]. intros _. exists c. split; [done|].
      intros h' Hh. exists s. split; [done|congruence].
    + split; [by intros (? & ? & ?)|]. intros (c' & [= <-] & Hc).
      destruct (Hc h Eh) as (s' & [= <-] & Hs). rewrite Hs, oauth.ct_eq_refl in Ec. done.
  - split; [by intros (? & ? & ?)|]. intros (c' & [= <-] & Hc).
    by destruct (Hc h Eh) as (? & ? & _).
Qed.
Lemma authenticate_client_inv cid secret d c d' :
  authenticate_client cid secret d = (Ok c, d') → authenticated d cid secret ∧ d' = d.
Proof.
  intros E. split.
  - apply authenticate_client_Ok. eauto.
  - rewrite <- (authenticate_client_state cid secret d), E. done.
Qed.

(** The row and the token of a successful issue, and its entry in the log. *)
Definition issued_for (user : users.User) (cid audience sc : string) (res : option string)
    (family : string) (fresh : Fresh) (now : Z) (l : Logged) (resp : TokenResponse) (l' : Logged)
    : Prop :=
  (∃ ttl, keys.issue_access_token signer user.(users.id) cid audience sc
     user.(users.is_admin) ACCESS_TTL_SECS fresh.(new_jti) now = Ok (resp.(access_token), ttl)) ∧
  resp.(new_refresh_token) = fresh.(new_refresh) ∧
  ∃ r, l' = (set_oauth_refresh_tokens (insert (oauth.token_hash fresh.(new_refresh)) r) l.1,
             (l.2 ++ [token_entry user cid])%list) ∧
    l.1.(oauth_refresh_tokens) !! oauth.token_hash fresh.(new_refresh) = None ∧
    r.(refresh_token.user_id) = user.(users.id) ∧ r.(refresh_token.client_id) = cid ∧
    r.(refresh_token.scope) = sc ∧ r.(refresh_token.resource) = res ∧
    r.(refresh_token.family_id) = family ∧ r.(refresh_token.consumed) = false.
Lemma issue_tokens_Ok user cid audience sc res family fresh now l resp l' :
  issue_tokens user cid audience sc res family fresh now l = (Ok resp, l') →
  issued_for user cid audience sc res family fresh now l resp l'.
Proof.
  unfold issue_tokens. intros Hrun. m_inv. destruct x as [access ttl].
  destruct (keys.issue_access_token _ _ _ _ _ _ _ _ _) as [[a t]|] eqn:Ei; simplify_eq/=.
  m_inv.
  match goal with Hi : store.insert_refresh _ _ _ _ _ _ _ _ _ _ = (Ok ?u, _) |- _ =>
    destruct u; apply store.insert_refresh_Ok in Hi
      as (r & Hd & Hn & _ & _ & ? & ? & ? & ? & ? & ? & _) end.
  match goal with He : emit _ _ = _ |- _ => apply emit_Ok in He end.
  repeat match goal with x : Logged |- _ => destruct x end. simplify_eq/=.
  split_and!; [by eexists|done|]. exists r. by split_and!.
Qed.

Lemma store_take_code_run c now m :
  store.take_code c now m =
    (Ok (pc ← m !! c; if (now <=? pc.(store.expires_at))%Z then Some pc.(store.auth) else None),
     delete c m).
Proof. unfold store.take_code. by destruct (m !! c). Qed.

(** C7: the authorization-code grant answers with tokens only for a client that
    authenticated, a stored unexpired code of that very client, the redirect URI
    the code was issued for, and a verifier whose hash is the code's challenge;
    the tokens are for the code's user, who still exists, its scope and resource,
    in a fresh family, and the code is gone. *)
Theorem authorization_code_sound form fresh now l m resp l' m' :
  authorization_code form fresh now (l, m) = (Ok resp, (l', m')) →
  ∃ c cid verifier pc row, let a := pc.(store.auth) in
    form.(code) = Some c ∧ form.(client_id) = Some cid ∧
    form.(code_verifier) = Some verifier ∧
    authenticated l.1 cid form.(client_secret) ∧
    m !! c = Some pc ∧ (now ≤ pc.(store.expires_at))%Z ∧
    a.(store.ac_client_id) = cid ∧ form.(redirect_uri) = Some a.(store.redirect_uri) ∧
    b64url_encode (sha256 verifier) = a.(store.code_challenge) ∧
    l.1.(users) !! a.(store.ac_user_id) = Some row ∧ m' = delete c m ∧
    issued_for (users.of_row a.(store.ac_user_id) row) cid
      (default (config.mcp_url cfg) a.(store.ac_resource)) a.(store.ac_scope)
      a.(store.ac_resource) fresh.(new_family) fresh now l resp l'.
Proof.
  unfold authorization_code, exchange_code. intros Hrun. m_inv.
  match goal with Ha : authenticate_client _ _ _ = _ |- _ =>
    apply authenticate_client_inv in Ha as [Ha Es] end.
  match goal with Hi : issue_tokens _ _ _ _ _ _ _ _ _ = _ |- _ =>
    apply issue_tokens_Ok in Hi; rename Hi into Hiss end.
  match goal with Ht : store.take_code ?c _ _ = _ |- _ =>
    rewrite store_take_code_run in Ht; injection Ht as Ht Hm' end.
  repeat match goal with x : (_ * _)%type |- _ => destruct x end. simplify_eq/=.
  bool_prop. rewrite ?eqs_true in *.
  match goal with Ht : _ ≫= _ = Some _ |- _ =>
    apply bind_Some in Ht as (pc & Hpc & Ht); destruct (_ <=? _)%Z eqn:Ele; [|done] end.
  simplify_eq/=. bool_prop.
  repeat match goal with He : eqs _ _ = true |- _ => apply eqs_true in He end.
  match goal with Hp : oauth.verify_pkce_s256 _ _ = true |- _ =>
    apply oauth.ct_eq_eq in Hp end.
  match goal with Hu : users.find_by_id _ _ = _ |- _ =>
    apply users.find_by_id_Ok in Hu as [Hu ->] end.
  match goal with Hu : Some _ = _ <$> _ |- _ =>
    symmetry in Hu; apply fmap_Some in Hu as (row & Hrow & ->) end.
  eexists _, _, _, pc, row. cbv zeta. by split_and!.
Qed.

Lemma atomic_issue_tokens user cid audience sc res family fresh now :
  atomic (issue_tokens user cid audience sc res family fresh now).
Proof.
  unfold issue_tokens. apply atomic_bind; [auto with hub|]. intros [access ttl].
  apply atomic_bind_total; [auto with hub|done].
Qed.
Hint Resolve atomic_issue_tokens : hub.
Lemma atomic_exchange_code form cid verifier taken fresh now :
  atomic (exchange_code form cid verifier taken fresh now).
Proof.
  unfold exchange_code. repeat (apply atomic_bind; [auto with hub|intros ?]). auto with hub.
Qed.
Lemma exchange_code_codes form cid verifier taken fresh now x :
  preserves (λ st, st.2 = x) (exchange_code form cid verifier taken fresh now).
Proof.
  unfold exchange_code. repeat (apply preserves_bind; [auto with hub|intros ?]);
    by intros [d m] Hx.
Qed.

Lemma authorization_code_run form fresh now d g m c cid verifier cl :
  form.(code) = Some c → form.(client_id) = Some cid →
  form.(code_verifier) = Some verifier →
  authenticate_client cid form.(client_secret) d = (Ok cl, d) →
  ∃ taken, authorization_code form fresh now (d, g, m) =
    exchange_code form cid verifier taken fresh now (d, g, delete c m).
Proof.
  intros Hc Hcid Hv Ha.
  exists (pc ← m !! c; if (now <=? pc.(store.expires_at))%Z then Some pc.(store.auth) else None).
  unfold authorization_code. rewrite Hc, Hcid, Hv.
  rewrite (bind_run _ _ _ c (d, g, m)) by done. rewrite (bind_run _ _ _ cid (d, g, m)) by done.
  rewrite (bind_run _ _ _ verifier (d, g, m)) by done.
  rewrite (bind_run _ _ _ cl (d, g, m)) by (unfold on_fst; cbn [fst snd]; by rewrite Ha).
  apply (bind_run _ (λ taken, exchange_code form cid verifier taken fresh now)). unfold on_snd, map_err. cbn [fst snd]. by rewrite store_take_code_run.
Qed.

(** A code is spent by the first exchange of an authenticated client that
    names it, even when that exchange then fails; a failed exchange changes
    nothing else. *)
Theorem authorization_code_spends form fresh now d g m c cid verifier :
  form.(code) = Some c → form.(client_id) = Some cid →
  form.(code_verifier) = Some verifier → authenticated d cid form.(client_secret) →
  let st := (authorization_code form fresh now (d, g, m)).2 in
  st.2 = delete c m ∧
  ∀ e, (authorization_code form fresh now (d, g, m)).1 = Err e → st.1 = (d, g).
Proof.
  intros Hc Hcid Hv Hauth. cbv zeta.
  apply authenticate_client_Ok in Hauth as (cl & d1 & Ha).
  pose proof (authenticate_client_inv _ _ _ _ _ Ha) as [_ ->].
  destruct (authorization_code_run form fresh now d g m c cid verifier cl Hc Hcid Hv Ha) as (taken & ->).
  split.
  - by apply exchange_code_codes.
  - intros e He. pose proof (atomic_exchange_code form cid verifier taken fresh now
      (d, g, delete c m)) as Hat.
    destruct (exchange_code _ _ _ _ _ _ _) as [r st'] eqn:Er. cbn in He. subst r.
    by rewrite (Hat e st' eq_refl).
Qed.

Lemma atomic_rotate cid row fresh now : atomic (rotate cid row fresh now).
Proof.
  unfold rotate. do 3 (apply atomic_bind; [auto with hub|intros ?]).
  apply atomic_issue_tokens.
Qed.
Lemma rotate_issues cid row fresh now d resp d' :
  rotate cid row fresh now d = (Ok resp, d') →
  ∃ user aud, issue_tokens user cid aud row.(store.scope) row.(store.resource)
    row.(store.family_id) fresh now d = (Ok resp, d').
Proof.
  unfold rotate. intros Hrun. m_inv. repeat match goal with x : Logged |- _ => destruct x end.
  match goal with Hu : users.find_by_id _ _ = _ |- _ =>
    apply users.find_by_id_Ok in Hu as [_ Hu] end.
  simplify_eq/=. eauto.
Qed.

(** C16: the refresh grant answers with tokens only for an authenticated client
    presenting its own unexpired, never used token, whose user still exists; the
    old token is consumed and the new one continues its family with the same
    client, user, scope and resource. *)
Theorem refresh_sound form fresh now l resp l' :
  refresh form fresh now l = (Ok resp, l') →
  ∃ tok cid r row,
    form.(refresh_token) = Some tok ∧ form.(client_id) = Some cid ∧
    authenticated l.1 cid form.(client_secret) ∧
    l.1.(oauth_refresh_tokens) !! oauth.token_hash tok = Some r ∧
    r.(refresh_token.consumed) = false ∧ (now ≤ r.(refresh_token.expires_at))%Z ∧
    r.(refresh_token.client_id) = cid ∧
    l.1.(users) !! r.(refresh_token.user_id) = Some row ∧
    issued_for (users.of_row r.(refresh_token.user_id) row) cid
      (default (config.mcp_url cfg) r.(refresh_token.resource)) r.(refresh_token.scope)
      r.(refresh_token.resource) r.(refresh_token.family_id) fresh now
      (set_oauth_refresh_tokens
         (insert (oauth.token_hash tok) (store.with_consumed r)) l.1, l.2) resp l'.
Proof.
  unfold refresh, accept_outcome, rotate. intros Hrun. m_inv.
  match goal with Ha : authenticate_client _ _ _ = _ |- _ =>
    apply authenticate_client_inv in Ha as [Ha Hda] end.
  match goal with Hi : issue_tokens _ _ _ _ _ _ _ _ _ = _ |- _ =>
    apply issue_tokens_Ok in Hi; rename Hi into Hiss end.
  match goal with Hu : users.find_by_id _ _ = _ |- _ =>
    apply users.find_by_id_Ok in Hu as [Hu Hdu] end.
  match goal with Hu : Some _ = _ <$> _ |- _ =>
    symmetry in Hu; apply fmap_Some in Hu as (row & Hrow & ->) end.
  match goal with Hc : store.consume_refresh _ _ _ = _ |- _ =>
    apply store.consume_refresh_cases in Hc
      as [(r & -> & Hr & Hcons & Hexp & Hdc)|[Hno _]] end.
  - m_inv. repeat match goal with x : Logged |- _ => destruct x end. simplify_eq/=. bool_prop.
    match goal with He : eqs _ _ = true |- _ => apply eqs_true in He end.
    eexists _, _, r, row. by split_and!.
  - match goal with Ho : ∀ t, ?o ≠ store.Valid t |- _ => destruct o as [t| |] end;
      [by destruct (Hno t)|m_inv..].
Qed.

(** Replay: when an authenticated client presents a token that was already
    used (and has not expired), it gets an error, and no token of that token's
    family is left; tokens of other families are untouched, and the reuse is on record. *)
Theorem refresh_replay form fresh now d g tok cid r :
  form.(refresh_token) = Some tok → form.(client_id) = Some cid →
  authenticated d cid form.(client_secret) →
  d.(oauth_refresh_tokens) !! oauth.token_hash tok = Some r →
  r.(refresh_token.consumed) = true → (now ≤ r.(refresh_token.expires_at))%Z →
  ∃ d', refresh form fresh now (d, g) = (Err reuse_detected, (d', (g ++ [reuse_entry cid])%list)) ∧
    ∀ h s, d'.(oauth_refresh_tokens) !! h = Some s ↔
      d.(oauth_refresh_tokens) !! h = Some s ∧
      s.(refresh_token.family_id) ≠ r.(refresh_token.family_id).
Proof.
  intros Ht Hcid Hauth Hr Hcons Hexp.
  apply authenticate_client_Ok in Hauth as (cl & d1 & Ha).
  pose proof (authenticate_client_inv _ _ _ _ _ Ha) as [_ ->].
  exists (set_oauth_refresh_tokens (without (store.in_family r.(refresh_token.family_id))) d).
  split.
  - unfold refresh. rewrite Ht, Hcid.
    rewrite (bind_run _ _ _ tok (d, g)) by done. rewrite (bind_run _ _ _ cid (d, g)) by done.
    rewrite (bind_run _ _ _ cl (d, g)) by (unfold on_fst; cbn [fst snd]; by rewrite Ha).
    rewrite (bind_run _ _ _ (store.Replayed r.(refresh_token.family_id)) (d, g)).
    2: { unfold on_fst, map_err. cbn [fst snd]. rewrite store.consume_refresh_run.
      unfold store.consume_refresh_once. rewrite Hr.
      by rewrite (proj2 (Z.ltb_ge _ _) Hexp), Hcons. }
    unfold accept_outcome, bind, on_fst, map_err. cbn [fst snd].
    rewrite store.revoke_family_run. reflexivity.
  - intros h s. cbn. rewrite without_Some. unfold store.in_family. by rewrite eqs_false.
Qed.

End endpoint.

End token.

(** ** Witnesses *)
Module oauth_witness.
#[global] Instance claims_eq_dec : EqDecision keys.AccessClaims.
Proof. solve_decision. Defined.

Definition cfg0 : config.Config := {|
  config.base_url := "https://hub"; config.rp_id := "hub"; config.listen := "0.0.0.0:8080";
  config.db_path := "hub.db"; config.env_dir := "envs"; config.master_key := "key";
  config.bootstrap_admin := None; config.allow_open_registration := false;
  config.sandbox_uid_base := None; config.keep_warm := true;
  config.keep_warm_interval_secs := 300; config.limits := config.default_limits;
  config.child_limits := {| config.max_procs := None; config.max_mem_mb := None;
    config.max_cpu_secs := None; config.max_file_mb := None |};
  config.block_private_backend_ips := false; config.allowed_hosts := [];
  config.session_idle_ttl_secs := 1800; config.session_absolute_ttl_secs := 43200 |}.
Definition signer0 : keys.Signer := {| keys.kid := "k"; keys.issuer := "https://hub" |}.
Definition fresh0 : token.Fresh := {|
  token.new_family := "fam"; token.new_jti := "j"; token.new_refresh := "r1" |}.
Definition claims0 (aud : string) : keys.AccessClaims := {|
  keys.iss := "https://hub"; keys.sub := "u"; keys.aud := aud; keys.exp := 910;
  keys.iat := 10; keys.jti := "j"; keys.scope := "mcp"; keys.client_id := "c";
  keys.admin := false |}.

(** A signer that signs one set of claims. *)
Definition jwt0 (c0 : keys.AccessClaims) : Jwt keys.AccessClaims := {|
  jwt_encode := λ k c, if decide (k = "k" ∧ c = c0) then Some "tok" else None;
  jwt_header_kid := λ t, if eqs t "tok" then Some (Some "k") else None;
  jwt_decode := λ i a now t,
    if eqs t "tok" && (eqs c0.(keys.iss) i && eqs c0.(keys.aud) a &&
                       (now - 60 <=? c0.(keys.exp))%Z) then Some c0 else None |}.
Lemma jwt0_laws c0 : @keys.JwtLaws (jwt0 c0).
Proof.
  split; cbn.
  - intros k c t. destruct (decide _) as [[-> ->]|]; [|done]. by intros [= <-].
  - intros k c t i a now. destruct (decide _) as [[-> ->]|]; [|done]. by intros [= <-].
  - intros i a now t c. destruct (eqs t "tok"); [|done]. cbn.
    destruct (eqs _ i) eqn:Ei; [|done]. destruct (eqs _ a) eqn:Ea; [|done]. cbn.
    destruct (_ <=? _)%Z eqn:El; [|done]. intros [= <-].
    apply eqs_true in Ei, Ea. apply Z.leb_le in El. done.
Qed.

Definition codes0 : gmap string store.PendingCode :=
  (store.insert_code "k" store.code0 600 5 ∅).2.
Definition form0 : token.TokenForm := {|
  token.grant_type := "authorization_code"; token.code := Some "k";
  token.redirect_uri := Some "https://x/cb"; token.client_id := Some "c";
  token.client_secret := None; token.code_verifier := Some "v";
  token.refresh_token := None |}.
Abbreviation exchange0 := (token.authorization_code (H:=digest0)
  (H0:=jwt0 (claims0 "https://hub/mcp")) cfg0 signer0 store.info0 form0 fresh0 10
  (store.db_client, [], codes0)).
Definition resp0 : token.TokenResponse := {|
  token.access_token := "tok"; token.token_type := "Bearer"; token.expires_in := 900;
  token.new_refresh_token := "r1"; token.scope := "mcp" |}.

Lemma authorization_code_sound_witness :
  exchange0.1 = Ok resp0 ∧ ∃ pc, codes0 !! "k" = Some pc.
Proof.
  assert (exchange0.1 = Ok resp0) as Hok by (vm_compute; reflexivity).
  split; [exact Hok|].
  destruct (token.authorization_code_sound (H:=digest0)
    (H0:=jwt0 (claims0 "https://hub/mcp")) cfg0 signer0 store.info0 form0 fresh0 10
    (store.db_client, []) codes0 resp0 exchange0.2.1 exchange0.2.2)
    as (c & cid & v & pc & row & Hc & _ & _ & _ & Hpc & _).
  - rewrite <- Hok. destruct exchange0 as [r [a b]]. reflexivity.
  - exists pc. injection Hc as <-. exact Hpc.
Defined.

Lemma client_authenticated : token.authenticated (H:=digest0) store.db_client "c" None.
Proof. eexists. split; [vm_compute; reflexivity|]. intros h Hh. vm_compute in Hh. done. Qed.
Lemma authorization_code_spends_witness : exchange0.2.2 = delete "k" codes0.
Proof.
  apply (token.authorization_code_spends (H:=digest0)
    (H0:=jwt0 (claims0 "https://hub/mcp")) cfg0 signer0 store.info0 form0 fresh0 10
    store.db_client [] codes0 "k" "c" "v"); try reflexivity.
  apply client_authenticated.
Defined.

Definition db_rt : Db :=
  (store.insert_refresh "old" "c" "u" "mcp" None "f" 1000 store.info0 5 store.db_client).2.
Definition form1 : token.TokenForm := {|
  token.grant_type := "refresh_token"; token.code := None; token.redirect_uri := None;
  token.client_id := Some "c"; token.client_secret := None; token.code_verifier := None;
  token.refresh_token := Some "old" |}.
Abbreviation refresh0 d := (token.refresh (H:=digest0)
  (H0:=jwt0 (claims0 "https://hub/mcp")) cfg0 signer0 store.info0 form1 fresh0 10 (d, [])).

Lemma refresh_sound_witness :
  (refresh0 db_rt).1 = Ok resp0 ∧
  ∃ r, db_rt.(oauth_refresh_tokens) !! "old" = Some r ∧ r.(refresh_token.consumed) = false.
Proof.
  assert ((refresh0 db_rt).1 = Ok resp0) as Hok by (vm_compute; reflexivity).
  split; [exact Hok|].
  destruct (token.refresh_sound (H:=digest0)
    (H0:=jwt0 (claims0 "https://hub/mcp")) cfg0 signer0 store.info0 form1 fresh0 10
    (db_rt, []) resp0 (refresh0 db_rt).2) as (tok & cid & r & row & Ht & _ & _ & Hr & Hc & _).
  - rewrite <- Hok. destruct (refresh0 db_rt) as [r b]. reflexivity.
  - injection Ht as <-. exists r. split; [exact Hr|exact Hc].
Defined.

Definition db_replay : Db := (refresh0 db_rt).2.1.
Lemma refresh_replay_witness :
  ∃ d', refresh0 db_replay =
      (Err token.reuse_detected, (d', [token.reuse_entry store.info0 "c"])) ∧
    d'.(oauth_refresh_tokens) !! "r1" = None.
Proof.
  destruct (db_replay.(oauth_refresh_tokens) !! "old") as [r|] eqn:Hr;
    [|vm_compute in Hr; discriminate].
  destruct (token.refresh_replay (H:=digest0)
    (H0:=jwt0 (claims0 "https://hub/mcp")) cfg0 signer0 store.info0 form1 fresh0 10
    db_replay [] "old" "c" r) as (d' & E & Hd').
  - reflexivity.
  - reflexivity.
  - eexists. split; [vm_compute; reflexivity|]. intros h Hh. vm_compute in Hh. done.
  - exact Hr.
  - vm_compute in Hr. injection Hr as <-. reflexivity.
  - vm_compute in Hr. injection Hr as <-. vm_compute. discriminate.
  - exists d'. split; [exact E|].
    destruct (oauth_refresh_tokens d' !! "r1") as [s|] eqn:Hs; [|reflexivity].
    apply Hd' in Hs as [Hs Hne]. destruct Hne.
    vm_compute in Hs, Hr. injection Hs as <-. injection Hr as <-. reflexivity.
Defined.

Definition query0 : authorize.AuthorizeQuery := {|
  authorize.response_type := "code"; authorize.client_id := "c";
  authorize.redirect_uri := "https://x/cb"; authorize.scope := None;
  authorize.state := Some "s"; authorize.code_challenge := "v";
  authorize.code_challenge_method := None;
  authorize.resource := Some "https://hub/mcp/" |}.
Definition pending0 : authorize.PendingAuth := {|
  authorize.p_client_id := "c"; authorize.p_redirect_uri := "https://x/cb";
  authorize.p_scope := "mcp"; authorize.p_state := Some "s";
  authorize.p_code_challenge := "v"; authorize.p_resource := Some "https://hub/mcp/";
  authorize.p_user_id := "u" |}.
Definition u0 : users.User := users.of_row "u" user0.
Lemma authorize_consent_sound_witness :
  ∃ cl, store.get_client "c" store.db_client = Some cl ∧
    "https://x/cb" ∈ cl.(store.redirect_uris).
Proof.
  destruct (authorize.authorize_consent_sound (H:=url0) cfg0 (Some u0) query0 None
    store.db_client "c" "u" pending0) as (u & cl & _ & Hc & Hin & _).
  - vm_compute. reflexivity.
  - exists cl. split; [exact Hc|exact Hin].
Defined.

Definition jar0 : gmap string string := {[session.SESSION_COOKIE := "sid"]}.
Abbreviation decide0 := (authorize.decision (H:=url0) (H0:=digest0) cfg0 u0 jar0 store.info0
  (authorize.authreq pending0) "approve" "hub-csrf-v1keysid" "new" 10 (db0, [], ∅)).
Lemma decision_sound_witness :
  ∃ pc, decide0.2.2 !! "new" = Some pc ∧ pc.(store.auth).(store.ac_user_id) = "u".
Proof.
  eexists. split; [vm_compute; reflexivity|].
  edestruct (authorize.decision_sound (H:=url0) (H0:=digest0) cfg0 u0 jar0 store.info0
     (authorize.authreq pending0) "approve" "hub-csrf-v1keysid" "new" 10 (db0, []) ∅ "new")
    as [Hno|(_ & _ & _ & p & [= <-] & Hu & Hpc & _)].
  - vm_compute. reflexivity.
  - vm_compute in Hno. discriminate.
  - rewrite Hpc. reflexivity.
Defined.

End oauth_witness.
