(* ===== verification/Families.v ===== *)
(** * Token families: what refresh-token rotation promises

    The specification keeps, for each family of refresh tokens, its one live token:
    a grant opens a family, a refresh replaces the live token, and everything else
    can only close families.  The token endpoint over the database implements it. *)

From S2P Require Import Prelude Strs Schema External Fixtures Users Oauth AuditLog Config OauthStore.
From S2P Require Import OauthServer.
Open Scope string_scope.
Open Scope hub_scope.

Module families.
Section families.
Context `{Digest}.

(** ** The specification *)
(** The hash of each open family's live token. *)
Abbreviation Spec := (gmap string string).
(** What the endpoint is asked: tokens in a family of the name drawn, for an
    authorization code; new tokens for the refresh token of a hash; or something it
    does not serve. *)
Inductive request := Grant (f : string) | Refresh (h : string) | Unserved.
(** One answer: accepted or not, and the families after it.  Only the live token
    is rotated, and only a refresh, accepted or not, can close a family. *)
Inductive answers (a : Spec) : request → bool → Spec → Prop :=
| opened f h : a !! f = None → answers a (Grant f) true (<[f:=h]> a)
| rotated f h h' : a !! f = Some h → answers a (Refresh h) true (<[f:=h']> a)
| closed f h : answers a (Refresh h) false (delete f a)
| refused q : answers a q false a.

(** A run answers a list of requests in turn. *)
Inductive answers_all : Spec → list request → list bool → Spec → Prop :=
| all_done a : answers_all a [] [] a
| all_next a q b a1 qs bs a2 :
    answers a q b a1 → answers_all a1 qs bs a2 → answers_all a (q :: qs) (b :: bs) a2.

Definition asked (tok : option string) : request :=
  match tok with Some tok => Refresh (oauth.token_hash tok) | None => Unserved end.
Definition request_of (form : token.TokenForm) (fresh : token.Fresh) : request :=
  if eqs form.(token.grant_type) "authorization_code" then Grant fresh.(token.new_family)
  else if eqs form.(token.grant_type) "refresh_token" then asked form.(token.refresh_token)
  else Unserved.

(** ** The abstraction *)
(** The live token of a family is its one row that was never used. *)
Definition abs (d : Db) (a : Spec) : Prop := ∀ f h,
  a !! f = Some h ↔ ∃ r, d.(oauth_refresh_tokens) !! h = Some r ∧
    r.(refresh_token.family_id) = f ∧ r.(refresh_token.consumed) = false.

Lemma abs_insert d a h r :
  abs d a → a !! r.(refresh_token.family_id) = None →
  r.(refresh_token.consumed) = false → d.(oauth_refresh_tokens) !! h = None →
  abs (set_oauth_refresh_tokens (insert h r) d) (<[r.(refresh_token.family_id) := h]> a).
Proof.
  intros Ha Hf Hc Hh f k. cbn. rewrite (lookup_insert_Some a). split.
  - intros [[<- <-]|[Hne (s & Hs & Hfs & Hcs)%Ha]].
    + exists r. by rewrite lookup_insert_eq.
    + exists s. split; [|done]. rewrite lookup_insert_ne; [done|congruence].
  - intros (s & Hs & <- & Hcs). apply lookup_insert_Some in Hs as [[<- <-]|[Hne Hs]]; [by left|].
    right. assert (a !! s.(refresh_token.family_id) = Some k) as Hk by (apply Ha; by exists s).
    split; [congruence|done].
Qed.
(** Dropping or using up the row of a live token closes its family. *)
Lemma abs_closed d d' a h r :
  abs d a → d.(oauth_refresh_tokens) !! h = Some r → r.(refresh_token.consumed) = false →
  (∀ k, k ≠ h → d'.(oauth_refresh_tokens) !! k = d.(oauth_refresh_tokens) !! k) →
  (∀ s, d'.(oauth_refresh_tokens) !! h = Some s → s.(refresh_token.consumed) = true) →
  abs d' (delete r.(refresh_token.family_id) a).
Proof.
  intros Ha Hr Hc Ho Hh f k. rewrite lookup_delete_Some, (Ha f k).
  assert (a !! r.(refresh_token.family_id) = Some h) as Hf by (apply Ha; by exists r). split.
  - intros [Hne (s & Hs & Hfs & Hcs)]. exists s. split; [|done]. rewrite Ho; [done|].
    intros ->. congruence.
  - intros (s & Hs & <- & Hcs). destruct (decide (k = h)) as [->|Hne];
      [by rewrite (Hh s Hs) in Hcs|]. rewrite Ho in Hs by done. split; [|by exists s].
    intros Heq. assert (a !! s.(refresh_token.family_id) = Some k) by (apply Ha; by exists s).
    congruence.
Qed.
(** Dropping used rows changes nothing. *)
Lemma abs_used d a h r :
  abs d a → d.(oauth_refresh_tokens) !! h = Some r → r.(refresh_token.consumed) = true →
  abs (set_oauth_refresh_tokens (delete h) d) a.
Proof.
  intros Ha Hr Hc f k. rewrite (Ha f k). cbn. setoid_rewrite lookup_delete_Some.
  split; [|by intros (s & [_ ?] & ?); exists s].
  intros (s & Hs & ? & ?). exists s. split_and!; [congruence|done..].
Qed.
Lemma abs_revoke d a f :
  abs d a → abs (set_oauth_refresh_tokens (without (store.in_family f)) d) (delete f a).
Proof.
  intros Ha g k. cbn. setoid_rewrite without_Some. unfold store.in_family.
  rewrite lookup_delete_Some, (Ha g k). setoid_rewrite eqs_false. naive_solver.
Qed.

Section endpoint.
Context `{Jwt keys.AccessClaims}.
Context (cfg : config.Config) (signer : keys.Signer) (info : users.RequestInfo).
Abbreviation token := (token.token cfg signer info).

Lemma abs_issue user cid aud sc res f fresh now l r l' a :
  abs l.1 a → a !! f = None →
  token.issue_tokens signer info user cid aud sc res f fresh now l = (r, l') →
  match r with
  | Ok _ => abs l'.1 (<[f := oauth.token_hash fresh.(token.new_refresh)]> a)
  | Err _ => l' = l
  end.
Proof.
  intros Ha Hf Hr. destruct r as [resp|e]; [|by eapply token.atomic_issue_tokens].
  apply token.issue_tokens_Ok in Hr as (_ & _ & r & -> & Hn & _ & _ & _ & _ & <- & Hc).
  by apply abs_insert.
Qed.

(** What follows an accepted presentation of the row [r] stored under [h]. *)
Lemma abs_rotate d g a h r cid fresh now res l' :
  abs d a → d.(oauth_refresh_tokens) !! h = Some r → r.(refresh_token.consumed) = false →
  token.rotate cfg signer info cid (store.token_of r) fresh now
    (set_oauth_refresh_tokens (insert h (store.with_consumed r)) d, g) = (res, l') →
  ∃ a', abs l'.1 a' ∧ answers a (Refresh h) (is_ok res) a'.
Proof.
  intros Ha Hr Hc Hrun. set (f := r.(refresh_token.family_id)).
  assert (abs (set_oauth_refresh_tokens (insert h (store.with_consumed r)) d) (delete f a)) as Hu.
  { eapply abs_closed; [done..| |]; cbn.
    - intros k Hk. by rewrite lookup_insert_ne.
    - intros s. rewrite lookup_insert_eq. by intros [= <-]. }
  destruct res as [resp|e].
  - apply token.rotate_issues in Hrun as (user & aud & Hi).
    exists (<[f := oauth.token_hash fresh.(token.new_refresh)]> (delete f a)). split.
    + eapply (abs_issue _ _ _ _ _ f) in Hi; [exact Hi|exact Hu|]. by rewrite lookup_delete_eq.
    + rewrite insert_delete_eq. apply (rotated a f h). apply Ha. by exists r.
  - rewrite (token.atomic_rotate cfg signer info cid _ fresh now _ _ _ Hrun).
    exists (delete f a). split; [done|constructor].
Qed.
(** What follows the authentication of the client. *)
Lemma abs_presented d g a h cid fresh now res l' :
  abs d a →
  (let* outcome := on_fst (map_err oauth.server_error (store.consume_refresh h now)) in
   let* row := token.accept_outcome info cid outcome in
   token.rotate cfg signer info cid row fresh now) (d, g) = (res, l') →
  ∃ a', abs l'.1 a' ∧ answers a (Refresh h) (is_ok res) a'.
Proof.
  intros Ha. unfold bind at 1, on_fst at 1, map_err. cbn [fst snd].
  rewrite store.consume_refresh_run. unfold store.consume_refresh_once.
  assert (∀ e d1 g1, abs d1 a → (Err e, (d1, g1)) = (res, l') →
    ∃ a', abs l'.1 a' ∧ answers a (Refresh h) (is_ok res) a') as Hsame.
  { intros e d1 g1 H1 [= <- <-]. exists a. split; [done|constructor]. }
  assert (∀ r, d.(oauth_refresh_tokens) !! h = Some r → ∃ a',
    abs (set_oauth_refresh_tokens (delete h) d) a' ∧ answers a (Refresh h) false a') as Hdrop.
  { intros r Hr. destruct (refresh_token.consumed r) eqn:Ec.
    - exists a. split; [by eapply abs_used|constructor].
    - exists (delete r.(refresh_token.family_id) a). split; [|constructor].
      eapply abs_closed; [done..| |]; cbn.
      + intros k Hk. by rewrite lookup_delete_ne.
      + intros s. by rewrite lookup_delete_eq. }
  destruct (d.(oauth_refresh_tokens) !! h) as [r|] eqn:Hr; [|intros Hrun; exact (Hsame _ _ _ Ha Hrun)].
  destruct (_ <? _)%Z; [intros [= <- <-]; by eapply Hdrop|].
  destruct (refresh_token.consumed r) eqn:Ec; cbn [fst snd].
  - cbn [token.accept_outcome]. unfold bind, on_fst, map_err. cbn [fst snd].
    rewrite store.revoke_family_run. intros [= <- <-].
    exists (delete r.(refresh_token.family_id) a). split; [by apply abs_revoke|constructor].
  - unfold set_oauth_refresh_tokens at 1. rewrite (alter_insert _ _ _ _ Hr). intros Hrun.
    exact (abs_rotate _ _ _ _ _ _ _ _ _ _ Ha Hr Ec Hrun).
Qed.
Lemma abs_refresh form fresh now d g res l' a :
  abs d a → token.refresh cfg signer info form fresh now (d, g) = (res, l') →
  ∃ a', abs l'.1 a' ∧ answers a (asked (token.refresh_token form)) (is_ok res) a'.
Proof.
  intros Ha Hr. unfold token.refresh in Hr.
  assert (∀ q, ∃ a', abs d a' ∧ answers a q false a') as Hsame
    by (intros q; exists a; split; [done|constructor]).
  destruct (token.refresh_token form) as [tok|]; [|injection Hr as <- <-; apply Hsame].
  destruct (token.client_id form) as [cid|]; [|injection Hr as <- <-; apply Hsame].
  do 2 unfold bind at 1, ok_or at 1, ret at 1 in Hr.
  pose proof (token.authenticate_client_state cid form.(token.client_secret) d) as Hq.
  unfold on_fst at 1 in Hr. unfold bind at 1 in Hr. cbn [fst snd] in Hr.
  destruct (token.authenticate_client _ _ d) as [[cl|e] d1]; cbn in Hq; subst d1;
    [exact (abs_presented _ _ _ _ _ _ _ _ _ Ha Hr)|injection Hr as <- <-; apply Hsame].
Qed.
Lemma abs_exchange_code form cid verifier taken fresh now d g m res l' m' a :
  abs d a → a !! fresh.(token.new_family) = None →
  token.exchange_code cfg signer info form cid verifier taken fresh now (d, g, m) =
    (res, (l', m')) →
  ∃ a', abs l'.1 a' ∧ answers a (Grant fresh.(token.new_family)) (is_ok res) a'.
Proof.
  intros Ha Hf Hr. destruct res as [resp|e].
  - unfold token.exchange_code in Hr. m_inv.
    match goal with Hu : users.find_by_id _ _ = (_, ?st.1.1) |- _ =>
      destruct st as [[d1 g1] m1]; apply users.find_by_id_Ok in Hu as [_ Hd]; cbn in Hd; subst d1 end.
    match goal with Hi : token.issue_tokens _ _ _ _ _ _ _ _ _ _ _ = _ |- _ =>
      eapply abs_issue in Hi; [|exact Ha|exact Hf] end.
    eexists. split; [eassumption|by constructor].
  - apply token.atomic_exchange_code in Hr as [= -> _]. exists a. split; [done|constructor].
Qed.
Lemma abs_authorization_code form fresh now d g m res l' m' a :
  abs d a → a !! fresh.(token.new_family) = None →
  token.authorization_code cfg signer info form fresh now (d, g, m) = (res, (l', m')) →
  ∃ a', abs l'.1 a' ∧ answers a (Grant fresh.(token.new_family)) (is_ok res) a'.
Proof.
  intros Ha Hf Hr. unfold token.authorization_code in Hr.
  assert (∀ q, ∃ a', abs d a' ∧ answers a q false a') as Hsame
    by (intros q; exists a; split; [done|constructor]).
  destruct (token.code form) as [k|]; [|injection Hr as <- <- _; apply Hsame].
  destruct (token.client_id form) as [cid|]; [|injection Hr as <- <- _; apply Hsame].
  destruct (token.code_verifier form) as [v|]; [|injection Hr as <- <- _; apply Hsame].
  do 3 unfold bind at 1, ok_or at 1, ret at 1 in Hr.
  pose proof (token.authenticate_client_state cid form.(token.client_secret) d) as Hq.
  unfold on_fst in Hr. unfold bind at 1 in Hr. cbn [fst snd] in Hr.
  destruct (token.authenticate_client _ _ d) as [[cl|e] d1]; cbn in Hq; subst d1;
    [|injection Hr as <- <- _; apply Hsame].
  unfold bind at 1, on_snd, map_err in Hr. cbn [fst snd] in Hr.
  rewrite token.store_take_code_run in Hr.
  exact (abs_exchange_code _ _ _ _ _ _ _ _ _ _ _ _ _ Ha Hf Hr).
Qed.
Lemma abs_token form fresh now d g m res l' m' a :
  abs d a → a !! fresh.(token.new_family) = None →
  token form fresh now (d, g, m) = (res, (l', m')) →
  ∃ a', abs l'.1 a' ∧ answers a (request_of form fresh) (is_ok res) a'.
Proof.
  intros Ha Hf. unfold token.token, request_of.
  destruct (eqs _ "authorization_code"); [by apply abs_authorization_code|].
  destruct (eqs _ "refresh_token").
  - unfold on_fst. cbn [fst snd].
    destruct (token.refresh _ _ _ _ _ _ (d, g)) as [r l1] eqn:Er. intros [= <- <- _].
    by eapply abs_refresh.
  - intros [= <- <- _]. exists a. split; [done|constructor].
Qed.

(** Requests served one after the other; the answers, accepted or not. *)
Fixpoint serve_all (l : list (token.TokenForm * token.Fresh * Z)) (st : OState)
    : list bool * OState :=
  match l with
  | [] => ([], st)
  | (form, fresh, now) :: l =>
      let '(res, st1) := token form fresh now st in
      let '(bs, st2) := serve_all l st1 in
      (is_ok res :: bs, st2)
  end.
Definition requests (l : list (token.TokenForm * token.Fresh * Z)) : list request :=
  map (λ x, request_of x.1.1 x.1.2) l.
Definition drawn (l : list (token.TokenForm * token.Fresh * Z)) : list string :=
  map (λ x, x.1.2.(token.new_family)) l.

(** A step opens no family but the one drawn for it. *)
Lemma answers_opens a form fresh b a' f :
  answers a (request_of form fresh) b a' → a !! f = None →
  f ≠ fresh.(token.new_family) → a' !! f = None.
Proof.
  intros Hstep Hf Hne. inversion Hstep as [g h Hg Hq|g h h' Hg Hq|g h Hq|q Hq]; subst; [| | |done].
  - unfold request_of, asked in Hq. repeat case_match; simplify_eq. by rewrite lookup_insert_ne.
  - rewrite lookup_insert_ne; [done|]. by intros ->; rewrite Hf in Hg.
  - rewrite lookup_delete_None. by right.
Qed.

(** C6: the token endpoint implements token families: over any sequence of requests,
    whatever the forms, times and clients, the answers and the rows never used are
    those of a run of the specification, in which a refresh is accepted only for the
    one live token of a family, which it replaces, a code grant opens one new
    family, and a request that is refused opens and rotates none. *)
Theorem token_refines_families reqs : ∀ d g m a bs l' m',
  abs d a → NoDup (drawn reqs) → (∀ f, f ∈ drawn reqs → a !! f = None) →
  serve_all reqs (d, g, m) = (bs, (l', m')) →
  ∃ a', abs l'.1 a' ∧ answers_all a (requests reqs) bs a'.
Proof.
  induction reqs as [|[[form fresh] now] reqs IH]; intros d g m a bs l' m' Ha Hnd Hf Hs.
  { injection Hs as <- <- _. exists a. split; [done|constructor]. }
  cbn in Hs. destruct (token form fresh now (d, g, m)) as [res [[d1 g1] m1]] eqn:Et.
  destruct (serve_all reqs (d1, g1, m1)) as [bs2 [l2 m2]] eqn:Es. injection Hs as <- <- <-.
  apply NoDup_cons in Hnd as [Hnew Hnd].
  destruct (abs_token _ _ _ _ _ _ _ _ _ a Ha (Hf _ (list_elem_of_here _ _)) Et)
    as (a1 & Ha1 & Hstep).
  destruct (IH d1 g1 m1 a1 bs2 l2 m2 Ha1 Hnd) as (a2 & Ha2 & Hrun); [|done|].
  - intros f Hfl. eapply answers_opens; [done|apply Hf; by constructor|].
    by intros ->.
  - exists a2. split; [done|]. by econstructor.
Qed.
End endpoint.
End families.
End families.

(** *** A code, its refresh token, and that token once more *)
Module families_witness.
Import oauth_witness.
#[local] Existing Instance digest0.
#[local] Instance jwt1 : Jwt keys.AccessClaims := jwt0 (claims0 "https://hub/mcp").
Definition again (tok fam next : string) : token.TokenForm * token.Fresh * Z :=
  ({| token.grant_type := "refresh_token"; token.code := None; token.redirect_uri := None;
      token.client_id := Some "c"; token.client_secret := None; token.code_verifier := None;
      token.refresh_token := Some tok |},
   {| token.new_family := fam; token.new_jti := "j"; token.new_refresh := next |}, 10%Z).
Definition story := [(form0, fresh0, 10%Z); again "r1" "g" "r2"; again "r1" "h" "r3"; again "r2" "i" "r4"].
Definition served := families.serve_all cfg0 signer0 store.info0 story (store.db_client, [], codes0).
Lemma token_refines_families_witness :
  served.1 = [true; true; false; false] ∧
  ∃ a', families.abs served.2.1.1 a' ∧
    families.answers_all ∅ (families.requests story) served.1 a'.
Proof.
  split; [vm_compute; reflexivity|].
  apply (families.token_refines_families cfg0 signer0 store.info0 story
    store.db_client [] codes0 ∅ served.1 served.2.1 served.2.2).
  - intros f k. split; [done|]. intros (r & Hr & _). vm_compute in Hr. discriminate.
  - vm_compute. repeat constructor; set_solver.
  - done.
  - fold served. destruct served as [? [? ?]]. reflexivity.
Defined.
End families_witness.
