(* ===== verification/McpAuth.v ===== *)
(** * Authentication of MCP requests (proxy/mod.rs)

    The bearer check in front of the MCP endpoints: the path names an endpoint,
    the Authorization header carries a personal access token or an OAuth access
    token, and the account is looked up again on every request. *)

From S2P Require Import Prelude Strs Schema External Fixtures Users Oauth OauthStore Groups.
From S2P Require Import Access Tokens Config AuditLog OauthServer.
Open Scope string_scope.
Open Scope hub_scope.

Module proxy.

Record AuthedUser := {
  user_id : string; admin : bool; client_id : option string; pat_id : option string;
  request : users.RequestInfo }.

(** [("oauth", client)] or [("pat", token id)]. *)
Definition credential (u : AuthedUser) : option (string * string) :=
  match u.(client_id) with
  | Some c => Some (access.OAUTH, c)
  | None => (λ p, (access.PAT, p)) <$> u.(pat_id)
  end.

Inductive McpEndpoint :=
| Management
| Group (group_id slug : string).
Inductive EndpointCandidate :=
| ManagementPath
| GroupSlug (slug : string).

Definition endpoint_candidate (path : string) : option EndpointCandidate :=
  let p := trim_start_char config.slash path in
  if is_empty p then Some ManagementPath
  else if groups.valid_slug p then Some (GroupSlug p)
  else None.

(** What the middleware answers, or hands to the MCP service. *)
Inductive Outcome :=
| Forward (endpoint : McpEndpoint) (user : AuthedUser)
| NotFound
| Unauthorized (reason challenge : string).

Definition unauthorized (c : config.Config) (reason : string) (cand : EndpointCandidate)
    : Outcome :=
  let suffix := match cand with
                | ManagementPath => "/mcp"
                | GroupSlug slug => "/mcp/" +:+ slug
                end in
  Unauthorized reason ("Bearer resource_metadata=" +:+ dquote +:+ c.(config.base_url) +:+
    "/.well-known/oauth-protected-resource" +:+ suffix +:+ dquote).

(** The refusal is logged. *)
Definition rejection (info : users.RequestInfo) (reason : string) : audit.Entry :=
  audit.denied reason (audit.request info (audit.event "auth.unauthorized")).
Definition reject (c : config.Config) (info : users.RequestInfo) (reason : string)
    (cand : EndpointCandidate) : M Logged unit Outcome :=
  emit (rejection info reason) ;;;
  ret (unauthorized c reason cand).

(** The account is live and, for a group path, owns the group. *)
Definition authorize (c : config.Config) (uid : string) (admin_claim : option bool)
    (cid pid : option string) (info : users.RequestInfo) (cand : EndpointCandidate)
    : M Logged unit Outcome :=
  let* found := on_fst (users.find_by_id uid) in
  match found with
  | Some user =>
      if user.(users.disabled) then reject c info "user_unavailable" cand
      else
        let authed := {| user_id := user.(users.id);
                         admin := default user.(users.is_admin) admin_claim;
                         client_id := cid; pat_id := pid; request := info |} in
        match cand with
        | ManagementPath => ret (Forward Management authed)
        | GroupSlug slug =>
            let* g := on_fst (gets (groups.find_by_slug user.(users.id) slug)) in
            ret match g with
                | Some g => Forward (Group g.(groups.id) slug) authed
                | None => NotFound
                end
        end
  | None => reject c info "user_unavailable" cand
  end.

(** The value of the Authorization header, without its scheme. *)
Definition bearer (header : option string) : option string :=
  h ← header;
  match strip_prefix "Bearer " h with
  | Some t => Some t
  | None => strip_prefix "bearer " h
  end.

(** The endpoint's own resource URL. *)
Definition expected_audience (c : config.Config) (cand : EndpointCandidate) : string :=
  match cand with
  | ManagementPath => config.mcp_url c
  | GroupSlug slug => config.group_mcp_url c slug
  end.

Section bearer.
Context `{Digest} `{Jwt keys.AccessClaims}.
Context (c : config.Config) (signer : keys.Signer).

Definition require_bearer (path : string) (header : option string) (info : users.RequestInfo)
    (now : Z) : M Logged unit Outcome :=
  match endpoint_candidate path with
  | None => ret NotFound
  | Some cand =>
      match bearer header with
      | None => reject c info "no_bearer" cand
      | Some tok =>
          if tokens.looks_like_pat tok then
            let* resolved := on_fst (gets (tokens.resolve_valid (oauth.token_hash tok) now)) in
            match resolved with
            | Some (uid, tid) =>
                on_fst (ignore (tokens.touch tid now)) ;;;
                authorize c uid None None (Some tid) info cand
            | None => reject c info "bad_token" cand
            end
          else
            match keys.verify_access_token signer tok (expected_audience c cand) now with
            | Err _ => reject c info "bad_token" cand
            | Ok claims =>
                authorize c claims.(keys.sub) (Some claims.(keys.admin))
                  (Some claims.(keys.client_id)) None info cand
            end
      end
  end.

(** The layers around rmcp's service, whose answer's status is [service]'s: the status
    and the challenge of the response. *)
Definition session_expiry_to_404 (status : Z) : Z := if (status =? 401)%Z then 404%Z else status.
Definition mcp_router (service : McpEndpoint → AuthedUser → Z) (path : string)
    (header : option string) (info : users.RequestInfo) (now : Z) : M Logged unit (Z * option string) :=
  let* o := require_bearer path header info now in
  ret match o with
      | Forward e u => (session_expiry_to_404 (service e u), None)
      | NotFound => (404%Z, None)
      | Unauthorized _ challenge => (401%Z, Some challenge)
      end.

(** *** Facts *)
(** A client is told to authorize only by the bearer check, and then always how: a 401
    of the service itself — an expired session — reaches it as a 404. *)
Lemma unauthorized_is_the_check service path header info now d ch :
  (mcp_router service path header info now d).1 = Ok (401%Z, ch) ↔
  ∃ reason challenge, ch = Some challenge ∧
    (require_bearer path header info now d).1 = Ok (Unauthorized reason challenge).
Proof.
  unfold mcp_router, bind. destruct (require_bearer path header info now d) as [[[e u| |r s]|x] d'];
    cbn; split; try (by intros (? & ? & ? & [=])); try done.
  - unfold session_expiry_to_404. destruct (Z.eqb_spec (service e u) 401) as [_|Hn]; [done|].
    by intros [= ? <-].
  - intros [= <-]. by eexists _, _.
  - intros (reason & challenge & -> & [= _ <-]). done.
Qed.
Lemma wf_require_bearer path header info now :
  preserves (of_db wf) (require_bearer path header info now).
Proof.
  assert (∀ reason cand, preserves (of_db wf) (reject c info reason cand)) as Hr
    by (intros reason cand; unfold reject; auto with hub).
  assert (∀ uid a cid pid cand, preserves (of_db wf) (authorize c uid a cid pid info cand)) as Ha.
  { intros uid a cid pid cand. unfold authorize. apply preserves_bind; [by intros l|].
    intros [u|]; [|apply Hr]. destruct (users.disabled u); [apply Hr|].
    destruct cand; auto with hub. }
  unfold require_bearer. destruct (endpoint_candidate path) as [cand|]; [|auto with hub].
  destruct (bearer header) as [tok|]; [|apply Hr].
  destruct (tokens.looks_like_pat tok).
  - apply preserves_bind; [auto with hub|]. intros [[uid tid]|]; auto with hub.
  - destruct (keys.verify_access_token _ _ _ _); auto with hub.
Qed.

(** The credential behind an accepted request. *)
Definition presented (tok : string) (cand : EndpointCandidate) (now : Z) (d : Db)
    (u : AuthedUser) : Prop :=
  (tokens.looks_like_pat tok = true ∧ u.(client_id) = None ∧
   ∃ tid r, u.(pat_id) = Some tid ∧ d.(personal_access_tokens) !! tid = Some r ∧
     r.(pat.user_id) = u.(user_id) ∧ r.(pat.token_hash) = oauth.token_hash tok ∧
     (now < r.(pat.expires_at))%Z) ∨
  (tokens.looks_like_pat tok = false ∧ u.(pat_id) = None ∧
   ∃ claims, keys.verify_access_token signer tok (expected_audience c cand) now = Ok claims ∧
     u.(user_id) = claims.(keys.sub) ∧ u.(client_id) = Some claims.(keys.client_id) ∧
     u.(admin) = claims.(keys.admin)).

Definition names (e : McpEndpoint) (cand : EndpointCandidate) (uid : string) (d : Db) : Prop :=
  match e, cand with
  | Management, ManagementPath => True
  | Group gid slug, GroupSlug s =>
      s = slug ∧ ∃ g, groups.find_by_slug uid slug d = Some g ∧ g.(groups.id) = gid
  | _, _ => False
  end.

Lemma authorize_forward uid a cid pid info cand l e u l' :
  authorize c uid a cid pid info cand l = (Ok (Forward e u), l') →
  l' = l ∧ names e cand uid l.1 ∧
  ∃ row, l.1.(users) !! uid = Some row ∧ row.(user.disabled) = false ∧
    u.(user_id) = uid ∧ u.(client_id) = cid ∧ u.(pat_id) = pid ∧
    u.(admin) = default row.(user.is_admin) a.
Proof.
  destruct l as [d g]. unfold authorize, reject, emit, bind, on_fst, modify, users.find_by_id, gets, ret. cbn.
  destruct (d.(users) !! uid) as [row|] eqn:Hr; cbn; [|done].
  destruct (user.disabled row) eqn:Hd; [done|]. destruct cand as [|slug].
  - intros [= <- <- <-]. split_and!; [done..|]. exists row. by split_and!.
  - cbn [fst snd]. destruct (groups.find_by_slug uid slug d) as [g'|] eqn:Hg; [|done].
    intros [= <- <- <-]. split; [done|]. split; [by split; [|eexists]|]. exists row. by split_and!.
Qed.

(** Nothing a request does before it is forwarded changes the account or its
    groups: only the token's last-use time may. *)
Lemma require_bearer_forward path header info now l e u l' :
  wf l.1 →
  require_bearer path header info now l = (Ok (Forward e u), l') →
  ∃ cand tok, endpoint_candidate path = Some cand ∧ bearer header = Some tok ∧
    presented tok cand now l.1 u ∧ names e cand u.(user_id) l.1 ∧
    ∃ row, l.1.(users) !! u.(user_id) = Some row ∧ row.(user.disabled) = false ∧
      (u.(pat_id) ≠ None → u.(admin) = row.(user.is_admin)).
Proof.
  intros Hwf. destruct l as [d g]. unfold require_bearer.
  destruct (endpoint_candidate path) as [cand|] eqn:Hc; [|done].
  destruct (bearer header) as [tok|] eqn:Ht; [|done]. intros Hrun. exists cand, tok.
  destruct (tokens.looks_like_pat tok) eqn:Hp.
  - unfold bind at 1, on_fst at 1, gets at 1 in Hrun. cbn [fst snd] in *.
    destruct (tokens.resolve_valid _ now d) as [[uid tid]|] eqn:Hv; [|done].
    apply (tokens.resolve_valid_Some _ _ _ _ _ Hwf) in Hv as (r & Hr & Hu & Hh & Hn).
    change (authorize c uid None None (Some tid) info cand ((tokens.touch tid now d).2, g) =
      (Ok (Forward e u), l')) in Hrun.
    apply authorize_forward in Hrun as (_ & Hnm & row & Hrow & Hdis & Hui & Hci & Hpi & Ha).
    split_and!; [done..| | |].
    + left. split_and!; [done..|]. exists tid, r. rewrite Hui. by split_and!.
    + by rewrite Hui.
    + exists row. rewrite Hui. split_and!; [done..|]. intros _. by rewrite Ha.
  - destruct (keys.verify_access_token _ _ _ _) as [claims|] eqn:Hv; [|done].
    apply authorize_forward in Hrun as (_ & Hnm & row & Hrow & Hdis & Hu & Hci & Hpi & Ha).
    split_and!; [done..| | |].
    + right. split_and!; [done..|]. by exists claims.
    + by rewrite Hu.
    + exists row. rewrite Hu. split_and!; [done..|]. by rewrite Hpi.
Qed.

(** ** Properties *)

(** C9: an MCP request is let through only with a live credential of an existing,
    enabled account: an unexpired personal access token of that account, or an
    access token the signer verifies for this very endpoint's audience; a group
    endpoint is one of that account's own groups; and for a personal access token
    the administrator flag is the live one. *)
Theorem require_bearer_sound path header info now l e u l' :
  wf l.1 →
  require_bearer path header info now l = (Ok (Forward e u), l') →
  ∃ cand tok, endpoint_candidate path = Some cand ∧ bearer header = Some tok ∧
    presented tok cand now l.1 u ∧ names e cand u.(user_id) l.1 ∧
    ∃ row, l.1.(users) !! u.(user_id) = Some row ∧ row.(user.disabled) = false ∧
      (u.(pat_id) ≠ None → u.(admin) = row.(user.is_admin)).
Proof. apply require_bearer_forward. Qed.

(** C14: audience binding: an access token the hub issued for one endpoint's
    resource is refused at every other endpoint, whoever holds it and whenever
    it is presented; the refusal is logged and nothing else changes. *)
Theorem audience_binding `{!keys.JwtLaws} path header info now d g cand target
    sub cid sc adm ttl jti iat tok t :
  bearer header = Some tok → tokens.looks_like_pat tok = false →
  endpoint_candidate path = Some cand →
  keys.issue_access_token signer sub cid (expected_audience c target) sc adm ttl jti iat =
    Ok (tok, t) →
  expected_audience c cand ≠ expected_audience c target →
  require_bearer path header info now (d, g) =
    (Ok (unauthorized c "bad_token" cand), (d, (g ++ [rejection info "bad_token"])%list)).
Proof.
  intros Hb Hp Hc Hi Hne. unfold require_bearer. rewrite Hc, Hb, Hp.
  destruct (keys.verify_access_token _ _ _ _) as [cl|e] eqn:E; [|done].
  exfalso. apply Hne. apply (keys.verify_issued _ _ _ _ _ _ _ _ _ _ _ (expected_audience c cand) now Hi).
  by exists cl.
Qed.

Lemma expected_audience_resource cand :
  expected_audience c cand =
  authorize.resource_url c match cand with ManagementPath => None | GroupSlug s => Some s end.
Proof. by destruct cand. Qed.

(** The authorization endpoint accepts a resource with a trailing slash, but
    the token it leads to is bound to the text as it was sent, and no endpoint
    accepts it. *)
Theorem trailing_slash_token_refused `{!keys.JwtLaws} o sub cid sc adm ttl jti iat tok t
    path header info now d :
  (∀ s, o = Some s → groups.valid_slug s = true) →
  let res := authorize.resource_url c o +:+ "/" in
  keys.issue_access_token signer sub cid (default (config.mcp_url c) (Some res)) sc adm ttl jti
    iat = Ok (tok, t) →
  bearer header = Some tok → tokens.looks_like_pat tok = false →
  authorize.resource_group_slug c res = Some o ∧
  ∀ e u, (require_bearer path header info now d).1 ≠ Ok (Forward e u).
Proof.
  intros Ho res Hi Hb Hp. split.
  - unfold res. change "/" with (str_repeat config.slash 1).
    unfold authorize.resource_group_slug.
    destruct (authorize.resource_url_snoc c o Ho) as (a & x & Ha & Hx).
    rewrite Ha, trim_end_char_repeat, <- Ha by done.
    destruct o as [s|]; cbn [authorize.resource_url]; [|by rewrite eqs_refl].
    rewrite (proj2 (eqs_false _ _)).
    2: { apply authorize.group_url_not_base, groups.valid_slug_nonempty, Ho. done. }
    replace (config.group_mcp_url c s) with ((config.mcp_url c +:+ "/") +:+ s)
      by (unfold config.group_mcp_url, config.mcp_url; by rewrite !append_assoc).
    rewrite strip_prefix_app. by rewrite (Ho s eq_refl).
  - intros e u. unfold require_bearer. rewrite Hb, Hp.
    destruct (endpoint_candidate path) as [cand|] eqn:Hc; [|done].
    destruct (keys.verify_access_token _ _ _ _) as [cl|] eqn:E; [|done]. exfalso.
    assert (expected_audience c cand = res) as Heq.
    { apply (keys.verify_issued _ _ _ _ _ _ _ _ _ _ _ (expected_audience c cand) now Hi).
      by exists cl. }
    rewrite expected_audience_resource in Heq. unfold res in Heq.
    destruct (authorize.resource_url_snoc c
      match cand with ManagementPath => None | GroupSlug s => Some s end) as (b & y & Hy & Hs).
    { destruct cand as [|s]; [done|]. intros s' [= <-]. unfold endpoint_candidate in Hc.
      destruct (is_empty _); [done|]. destruct (groups.valid_slug _) eqn:Hv; [|done].
      by injection Hc as <-. }
    rewrite Hy in Heq. apply (f_equal str_rev) in Heq. rewrite !str_rev_app in Heq.
    cbn in Heq. injection Heq as Heq _. by destruct Hs.
Qed.

(** A disabled or deleted account is let through with no credential at all. *)
Theorem disabled_account_refused path header info now l e u l' :
  wf l.1 →
  (∀ row, l.1.(users) !! u.(user_id) = Some row → row.(user.disabled) = true) →
  require_bearer path header info now l ≠ (Ok (Forward e u), l').
Proof.
  intros Hwf Hdis Hrun.
  destruct (require_bearer_forward _ _ _ _ _ _ _ _ Hwf Hrun)
    as (_ & _ & _ & _ & _ & _ & row & Hrow & Hd & _).
  specialize (Hdis _ Hrow). congruence.
Qed.
End bearer.

(** *** Witnesses *)
Definition db_pat : Db :=
  (tokens.create (H:=digest0) "u" "cli" 100 "t" "r" 1000 db2).2.
Lemma wf_db_pat : wf db_pat.
Proof. apply tokens.wf_pat_create, wf_db2. Qed.
Abbreviation request0 d :=
  (require_bearer (H:=digest0) (H0:=oauth_witness.jwt0 (oauth_witness.claims0 "a"))
     oauth_witness.cfg0 oauth_witness.signer0 "/" (Some "Bearer mcphub_pat_r")
     store.info0 1050 (d, [])).
Definition authed0 : AuthedUser := {|
  user_id := "u"; admin := false; client_id := None; pat_id := Some "t";
  request := store.info0 |}.

Lemma require_bearer_sound_witness :
  ∃ row, db_pat.(users) !! "u" = Some row ∧ row.(user.disabled) = false.
Proof.
  destruct (require_bearer_sound (H:=digest0)
    (H0:=oauth_witness.jwt0 (oauth_witness.claims0 "a"))
    oauth_witness.cfg0 oauth_witness.signer0 "/" (Some "Bearer mcphub_pat_r")
    store.info0 1050 (db_pat, []) Management authed0 (request0 db_pat).2 wf_db_pat)
    as (cand & tok & _ & _ & _ & _ & row & Hr & Hd & _).
  - vm_compute. reflexivity.
  - exists row. split; [exact Hr|exact Hd].
Defined.

Lemma disabled_account_refused_witness :
  request0 (users.set_disabled "u" true db_pat).2 ≠
    (Ok (Forward Management authed0), (request0 (users.set_disabled "u" true db_pat).2).2).
Proof.
  apply (disabled_account_refused (H:=digest0)
    (H0:=oauth_witness.jwt0 (oauth_witness.claims0 "a"))
    oauth_witness.cfg0 oauth_witness.signer0).
  - apply users.wf_set_disabled, wf_db_pat.
  - intros row Hr. vm_compute in Hr. injection Hr as <-. reflexivity.
Defined.

Lemma audience_binding_witness :
  (require_bearer (H:=digest0) (H0:=oauth_witness.jwt0 (oauth_witness.claims0 "https://hub/mcp"))
     oauth_witness.cfg0 oauth_witness.signer0 "/dev" (Some "Bearer tok") store.info0 20 (db2, [])).1 =
  Ok (unauthorized oauth_witness.cfg0 "bad_token" (GroupSlug "dev")).
Proof.
  rewrite (audience_binding (H:=digest0)
    (H0:=oauth_witness.jwt0 (oauth_witness.claims0 "https://hub/mcp"))
    (H1:=oauth_witness.jwt0_laws _)
    oauth_witness.cfg0 oauth_witness.signer0 "/dev" (Some "Bearer tok") store.info0 20 db2 []
    (GroupSlug "dev") ManagementPath "u" "c" "mcp" false 900 "j" 10 "tok" 900);
    try (vm_compute; reflexivity).
  vm_compute. discriminate.
Defined.

Lemma trailing_slash_token_refused_witness :
  ∀ e u, (require_bearer (H:=digest0)
     (H0:=oauth_witness.jwt0 (oauth_witness.claims0 "https://hub/mcp/dev/"))
     oauth_witness.cfg0 oauth_witness.signer0 "/dev" (Some "Bearer tok") store.info0 20 (db2, [])).1
     ≠ Ok (Forward e u).
Proof.
  apply (trailing_slash_token_refused (H:=digest0)
    (H0:=oauth_witness.jwt0 (oauth_witness.claims0 "https://hub/mcp/dev/"))
    (H1:=oauth_witness.jwt0_laws _)
    oauth_witness.cfg0 oauth_witness.signer0 (Some "dev") "u" "c" "mcp" false 900 "j" 10 "tok" 900);
    try (vm_compute; reflexivity).
  intros s Hs. injection Hs as <-. vm_compute. reflexivity.
Defined.

End proxy.
