(* ===== verification/Webauthn.v ===== *)
(** * Passkey ceremonies (auth/webauthn.rs)

    Registration and login are two requests each: [start] stashes the
    ceremony's state under a fresh id, [finish] takes it out and verifies the
    authenticator's answer.  The stores are maps behind a mutex. *)

From S2P Require Import Prelude Strs Schema External Fixtures Users Oauth Invites Sessions.
From S2P Require Import OauthStore Config AuditLog OauthServer.
Open Scope string_scope.
Open Scope hub_scope.

Module webauthn.

Definition CEREMONY_COOKIE : string := "hub_ceremony".
Definition CEREMONY_TTL_SECS : Z := 300.
Definition CEREMONY_CAP : Z := 4096.

Inductive RegPurpose :=
| NewUser (is_admin : bool) (invite_code : option string)
| AddCredential (recovery_code : option string).

(** [status] and message of the JSON error. *)
Record ApiError := { status : Z; message : string }.
Definition bad (msg : string) : ApiError := {| status := 400; message := msg |}.
Definition internal (e : anyhow) : ApiError := {| status := 500; message := "internal error" |}.
Definition forbidden (msg : string) : ApiError := {| status := 403; message := msg |}.
Definition conflict (msg : string) : ApiError := {| status := 409; message := msg |}.

Section ceremonies.
Context `{WebauthnRs} `{UuidCrate} `{Digest}.

Record RegCeremony := {
  reg_state : RegState; reg_user_id : string; reg_handle : string;
  reg_display_name : string; purpose : RegPurpose; reg_created_at : Z }.
Record AuthCeremony := {
  auth_state : AuthState; auth_user_id : string; auth_created_at : Z }.

(** [insert_ceremony], for either store. *)
Definition insert_ceremony {T} (created_at : T → Z) (key : string) (value : T) (now : Z)
    : M (gmap string T) ApiError unit := λ m,
  let m := filter (λ kv, (i64_wrap (now - created_at kv.2) < CEREMONY_TTL_SECS)%Z) m in
  if (CEREMONY_CAP <=? Z.of_nat (size m))%Z
  then (Err {| status := 503;
               message := "too many sign-in attempts in progress; please try again shortly" |}, m)
  else (Ok tt, <[key:=value]> m).
Definition insert_reg := insert_ceremony reg_created_at.
Definition insert_auth := insert_ceremony auth_created_at.

(** [map.remove(&id)]. *)
Definition take {T} (key : string) : M (gmap string T) ApiError (option T) :=
  λ m, (Ok (m !! key), delete key m).

(** The database and the log with one of the two stores. *)
Abbreviation RState := (Logged * gmap string RegCeremony)%type.
Abbreviation AState := (Logged * gmap string AuthCeremony)%type.
Abbreviation on_db m := (on_fst (on_fst m)).

(** ** Registration *)
Record RegisterStart := {
  handle : string; display_name : string; invite_code : option string }.

(** The policy: who may register, and as what. *)
Definition registration_policy (c : config.Config) (hd : string) (invite : option string)
    : M Db ApiError (bool * option string) :=
  let* count := gets users.count in
  if bool_decide (count = 0) then
    match c.(config.bootstrap_admin) with
    | Some want =>
        refuse_if (negb (eqs hd want)) (forbidden
          "the first account must use the configured HUB_BOOTSTRAP_ADMIN handle")
    | None => ret tt
    end ;;;
    ret (true, None)
  else if c.(config.allow_open_registration) then ret (false, None)
  else
    let code := from_option trim "" invite in
    refuse_if (is_empty code) (forbidden
      "an invite code is required to register; ask an administrator for one") ;;;
    let* ok := gets (invites.is_redeemable code) in
    refuse_if (negb ok) (forbidden
      "that invite code is invalid or has already been used") ;;;
    ret (false, Some code).

(** [new_uid] and [cid] are fresh identifiers; the result is the ceremony id. *)
Definition register_start (c : config.Config) (req : RegisterStart) (new_uid cid : string)
    (now : Z) : M RState ApiError string :=
  let hd := trim req.(handle) in
  let dn := trim req.(display_name) in
  refuse_if (is_empty hd || is_empty dn) (bad "handle and display name are required") ;;;
  let* (is_admin, invite) := on_db (registration_policy c hd req.(invite_code)) in
  let* taken := on_db (users.find_by_handle hd) in
  refuse_if (bool_decide (is_Some taken)) (conflict "that handle is taken") ;;;
  let* st := ok_or (start_passkey_registration new_uid hd dn None)
    (bad "could not start registration") in
  on_snd (insert_reg cid {| reg_state := st; reg_user_id := new_uid; reg_handle := hd;
    reg_display_name := dn; purpose := NewUser is_admin invite; reg_created_at := now |} now) ;;;
  ret cid.

Definition start_add_credential (user : users.User) (recovery_code : option string)
    (cid : string) (now : Z) : M RState ApiError string :=
  let* uid := ok_or (uuid_parse user.(users.id)) {| status := 500; message := "internal error" |} in
  let* existing := on_db (map_err internal (users.passkeys_for_user user.(users.id))) in
  let* st := ok_or (start_passkey_registration uid user.(users.handle)
      user.(users.display_name) (Some (map cred_id existing)))
    (bad "could not start enrollment") in
  on_snd (insert_reg cid {| reg_state := st; reg_user_id := uid;
    reg_handle := user.(users.handle); reg_display_name := user.(users.display_name);
    purpose := AddCredential recovery_code; reg_created_at := now |} now) ;;;
  ret cid.
Definition add_passkey_start (user : users.User) (cid : string) (now : Z)
    : M RState ApiError string := start_add_credential user None cid now.

Definition recover_start (hd cd cid : string) (now : Z) : M RState ApiError string :=
  let hd := trim hd in
  let cd := trim cd in
  let invalid := forbidden "invalid handle or recovery code" in
  let* found := on_db (users.find_by_handle hd) in
  let* user := ok_or found invalid in
  refuse_if user.(users.disabled) invalid ;;;
  let* ok := on_db (gets (invites.is_recovery_redeemable cd user.(users.id))) in
  refuse_if (is_empty cd || negb ok) invalid ;;;
  start_add_credential user (Some cd) cid now.

(** The session id of the signed-in browser and where it goes next. *)
Record Finish := { sid : string; redirect : string }.

(** The administrator grant is decided at insertion. *)
Definition new_account (is_admin : bool) (ceremony : RegCeremony) (now : Z)
    : M Db anyhow users.User :=
  if is_admin
  then users.create_admin_if_first ceremony.(reg_user_id) ceremony.(reg_handle)
         ceremony.(reg_display_name) now
  else users.create ceremony.(reg_user_id) ceremony.(reg_handle)
         ceremony.(reg_display_name) false now.

(** The entry of a sign-in, as the account [handle] with the id [uid]. *)
Definition signed (action handle uid : string) (info : users.RequestInfo) : audit.Event :=
  audit.request info (audit.as_actor handle uid (audit.event action)).

(** The account a verified passkey is for. *)
Definition resolve_account (ceremony : RegCeremony) (info : users.RequestInfo) (now : Z)
    : M Logged ApiError string :=
  match ceremony.(purpose) with
  | NewUser is_admin invite =>
      let* taken := on_fst (users.find_by_handle ceremony.(reg_handle)) in
      refuse_if (bool_decide (is_Some taken)) (conflict "that handle is taken") ;;;
      let* user := on_fst (map_err internal (new_account is_admin ceremony now)) in
      match invite with
      | Some code =>
          catch (on_fst (invites.redeem code user.(users.id) now)) (λ r,
            match r with
            | Ok _ => ret tt
            | Err e =>
                on_fst (ignore (users.delete user.(users.id))) ;;;
                fail (conflict (to_string e))
            end)
      | None => ret tt
      end ;;;
      emit (audit.ok (audit.with_object (if user.(users.is_admin) then "admin" else "user")
        (signed "auth.register" user.(users.handle) user.(users.id) info))) ;;;
      ret user.(users.id)
  | AddCredential recovery_code =>
      let uid := ceremony.(reg_user_id) in
      match recovery_code with
      | Some code =>
          on_fst (map_err (λ e, conflict (to_string e)) (invites.redeem code uid now)) ;;;
          emit (audit.ok (signed "recovery.use" ceremony.(reg_handle) uid info))
      | None => emit (audit.ok (signed "passkey.add" ceremony.(reg_handle) uid info))
      end ;;;
      ret uid
  end.

(** [cookie] is the ceremony cookie, [row_id] and [new_sid] are fresh ids. *)
Definition register_finish (c : config.Config) (cookie : option string)
    (jar : gmap string string) (cred : RegResponse) (info : users.RequestInfo)
    (row_id new_sid : string) (now : Z) : M RState ApiError Finish :=
  let* cid := ok_or cookie (bad "no registration in progress") in
  let* taken := on_snd (take cid) in
  let* ceremony := ok_or taken (bad "registration expired; please try again") in
  let* passkey := ok_or (finish_passkey_registration cred ceremony.(reg_state))
    (bad "registration failed") in
  let* uid := on_fst (resolve_account ceremony info now) in
  on_db (map_err internal (users.insert_credential row_id uid passkey "passkey" now)) ;;;
  let* sid := on_db (map_err internal
    (session.create new_sid uid info c.(config.session_idle_ttl_secs) now)) in
  ret {| sid := sid; redirect := session.take_next jar |}.

(** ** Login *)
Definition could_not_sign_in : ApiError := {| status := 401; message := "could not start sign-in" |}.
Definition login_start (hd cid : string) (now : Z) : M AState ApiError string :=
  let hd := trim hd in
  let* found := on_db (users.find_by_handle hd) in
  let* user := ok_or found could_not_sign_in in
  refuse_if user.(users.disabled) could_not_sign_in ;;;
  let* passkeys := on_db (map_err internal (users.passkeys_for_user user.(users.id))) in
  refuse_if match passkeys with [] => true | _ => false end could_not_sign_in ;;;
  let* st := ok_or (start_passkey_authentication passkeys)
    (bad "could not start authentication") in
  on_snd (insert_auth cid {| auth_state := st; auth_user_id := user.(users.id);
    auth_created_at := now |} now) ;;;
  ret cid.

(** The counter of the passkey that signed is advanced, best-effort. *)
Definition advance_counter (uid : string) (result : AuthResult) : M Db ApiError unit :=
  if needs_update result then
    catch (users.passkeys_for_user uid) (λ r,
      match r with
      | Ok passkeys =>
          match head (filter (λ pk, cred_id pk = result_cred_id result) passkeys) with
          | Some pk => ignore (users.update_credential (passkey_update pk result))
          | None => ret tt
          end
      | Err _ => ret tt
      end)
  else ret tt.

Definition login_finish (c : config.Config) (cookie : option string)
    (jar : gmap string string) (cred : AuthResponse) (info : users.RequestInfo)
    (new_sid : string) (now : Z) : M AState ApiError Finish :=
  let* cid := ok_or cookie (bad "no login in progress") in
  let* taken := on_snd (take cid) in
  let* ceremony := ok_or taken (bad "login expired; please try again") in
  let uid := ceremony.(auth_user_id) in
  match finish_passkey_authentication cred ceremony.(auth_state) with
  | None =>
      on_fst (emit (audit.denied "bad_assertion" (signed "auth.login_failed" "" uid info))) ;;;
      fail {| status := 401; message := "login failed" |}
  | Some result =>
      on_db (advance_counter uid result) ;;;
      on_db (ignore (users.touch_credential (result_cred_id result) info now)) ;;;
      let* sid := on_db (map_err internal
        (session.create new_sid uid info c.(config.session_idle_ttl_secs) now)) in
      let* found := on_db (users.find_by_id uid) in
      let handle := from_option users.handle "" found in
      on_fst (emit (audit.ok (signed "auth.login" handle uid info))) ;;;
      ret {| sid := sid; redirect := session.take_next jar |}
  end.

(** [true] when the cookie was cleared and the browser sent to the login page. *)
Definition logout (c : config.Config) (jar : gmap string string) (info : users.RequestInfo)
    (csrf : string) (now : Z) : M Logged unit bool :=
  if negb (session.check_csrf jar c.(config.master_key) csrf) then ret false
  else match jar !! session.SESSION_COOKIE with
  | Some sid =>
      catch (on_fst (session.user_for_session sid now)) (λ user,
        on_fst (ignore (session.delete sid)) ;;;
        match user with
        | Ok (Some u) =>
            emit (audit.ok (signed "auth.logout" u.(users.handle) u.(users.id) info))
        | _ => ret tt
        end) ;;;
      ret true
  | None => ret true
  end.

(** ** Facts *)
Lemma insert_user_rollback uid r d :
  wf d → d.(users) !! uid = None →
  delete_user_row uid (set_users (insert uid r) d) = d.
Proof.
  intros Hwf Hn. unfold delete_user_row. transitivity (cascade d); [|by apply cascade_id].
  f_equal. destruct d. unfold set_users. cbn in *. f_equal. by apply delete_insert_id.
Qed.

Lemma new_account_Ok adm ceremony now d u d' :
  new_account adm ceremony now d = (Ok u, d') →
  d.(users) !! ceremony.(reg_user_id) = None ∧ u.(users.id) = ceremony.(reg_user_id) ∧
  ∃ r, d' = set_users (insert ceremony.(reg_user_id) r) d ∧
    r.(user.handle) = ceremony.(reg_handle) ∧
    r.(user.is_admin) = adm && bool_decide (size d.(users) = 0) ∧ r.(user.disabled) = false.
Proof.
  intros Hrun.
  assert (users.insert_user ceremony.(reg_user_id) ceremony.(reg_handle)
    ceremony.(reg_display_name) (adm && bool_decide (size d.(users) = 0)) now d = (Ok u, d'))
    as Hi by (destruct adm; exact Hrun).
  apply users.insert_user_Ok in Hi as (Hn & _ & r & -> & -> & Hh & Ha & Hd & _).
  split_and!; [done..|]. exists r. by split_and!.
Qed.
Lemma new_account_Err adm ceremony now d e d' :
  new_account adm ceremony now d = (Err e, d') → d' = d.
Proof. destruct adm; apply users.insert_user_Err. Qed.

(** What [register_finish] decides about the account, by purpose. *)
Definition account_for (ceremony : RegCeremony) (now : Z) (d : Db) (uid : string) (d' : Db) : Prop :=
  uid = ceremony.(reg_user_id) ∧
  match ceremony.(purpose) with
  | NewUser adm invite =>
      d.(users) !! uid = None ∧
      ∃ r, r.(user.handle) = ceremony.(reg_handle) ∧
        r.(user.is_admin) = adm && bool_decide (size d.(users) = 0) ∧
        match invite with
        | None => d' = set_users (insert uid r) d
        | Some code =>
            ∃ i, d.(invites) !! oauth.token_hash (trim code) = Some i ∧
              i.(invite.used_at) = None ∧
              d' = set_invites (insert (oauth.token_hash (trim code))
                     (invites.mark_used now uid i)) (set_users (insert uid r) d)
        end
  | AddCredential None => d' = d
  | AddCredential (Some code) =>
      known d.(users) uid ∧
      ∃ i, d.(invites) !! oauth.token_hash (trim code) = Some i ∧ i.(invite.used_at) = None ∧
        d' = set_invites (insert (oauth.token_hash (trim code))
               (invites.mark_used now uid i)) d
  end.

(** An account's sign-in is on record. *)
Definition recorded (action uid : string) (l l' : list audit.Entry) : Prop :=
  ∃ e, l' = (l ++ [e])%list ∧ e.(audit.outcome) = "ok" ∧
    e.(audit.what).(audit.action) = action ∧ e.(audit.what).(audit.actor_id) = uid.
Definition action_of (p : RegPurpose) : string :=
  match p with
  | NewUser _ _ => "auth.register"
  | AddCredential (Some _) => "recovery.use"
  | AddCredential None => "passkey.add"
  end.
Lemma resolve_account_cases ceremony info now l :
  wf l.1 →
  match resolve_account ceremony info now l with
  | (Ok uid, l') => account_for ceremony now l.1 uid l'.1 ∧
      recorded (action_of ceremony.(purpose)) uid l.2 l'.2
  | (Err _, l') => l' = l
  end.
Proof.
  destruct l as [d g]. cbn [fst snd]. intros Hwf. unfold resolve_account, account_for, action_of.
  destruct (purpose ceremony) as [adm invite|[code|]].
  - unfold bind at 1, on_fst at 1, users.find_by_handle, gets. cbn [fst snd].
    unfold bind at 1, refuse_if.
    destruct (bool_decide _); cbn [fail ret]; [done|]. unfold bind at 1, on_fst at 1, map_err.
    cbn [fst snd].
    destruct (new_account adm ceremony now d) as [[u|e] d1] eqn:E; cbn [fst snd];
      [|by apply new_account_Err in E as ->].
    apply new_account_Ok in E as (Hn & Hu & r & -> & Hh & Ha & _).
    destruct invite as [code|].
    2: { cbn. rewrite Hu. split; [|by eexists]. split_and!; [done..|]. by exists r. }
    unfold bind at 1, catch, on_fst. cbn [fst snd].
    destruct (invites.redeem _ _ _ _) as [[[]|e] d2] eqn:Er; cbn [fst snd].
    + apply invites.redeem_Ok in Er as (i & Hi & Hui & _ & ->). cbn in Hi.
      cbn. rewrite Hu. split; [|by eexists]. split_and!; [done..|]. exists r.
      split_and!; [done..|]. by exists i.
    + apply invites.redeem_Err in Er as ->.
      unfold bind, ignore, fail, users.delete, modify. cbn [fst snd]. rewrite Hu.
      by rewrite insert_user_rollback.
  - unfold bind, on_fst, map_err. cbn [fst snd].
    destruct (invites.redeem _ _ _ _) as [[[]|e] d2] eqn:Er.
    + apply invites.redeem_Ok in Er as (i & Hi & Hui & Hk & ->). cbn.
      split; [|by eexists]. split_and!; [done..|]. by exists i.
    + by apply invites.redeem_Err in Er as ->.
  - cbn. split; [done|by eexists].
Qed.

Lemma wf_resolve_account ceremony info now : preserves (of_db wf) (resolve_account ceremony info now).
Proof.
  unfold resolve_account. destruct (purpose ceremony) as [adm invite|[code|]]; auto with hub.
  apply preserves_bind; [by intros l|]. intros o. apply preserves_bind; [auto with hub|].
  intros _. apply preserves_bind; [unfold new_account; destruct adm; auto with hub|]. intros u.
  apply preserves_bind; [|auto with hub].
  destruct invite as [code|]; [|auto with hub]. apply preserves_catch; [auto with hub|].
  intros [|e]; [auto with hub|]. apply preserves_bind; [|auto with hub].
  apply preserves_of_db, preserves_ignore. intros d Hwf. by apply wf_delete_user_row.
Qed.
Lemma wf_register_finish c cookie jar cred info row_id new_sid now :
  preserves (λ st, of_db wf st.1) (register_finish c cookie jar cred info row_id new_sid now).
Proof.
  unfold register_finish. repeat (apply preserves_bind; [|intros ?]);
    auto using wf_resolve_account with hub.
Qed.
Lemma wf_advance_counter uid res : preserves wf (advance_counter uid res).
Proof.
  unfold advance_counter. destruct (needs_update res); [|auto with hub].
  apply preserves_catch; [auto with hub|]. intros [pks|]; [|auto with hub].
  destruct (head _); auto with hub.
Qed.
Lemma wf_login_finish c cookie jar cred info new_sid now :
  preserves (λ st, of_db wf st.1) (login_finish c cookie jar cred info new_sid now).
Proof.
  unfold login_finish, users.find_by_id. do 3 (apply preserves_bind; [auto with hub|intros ?]).
  destruct (finish_passkey_authentication _ _); repeat (apply preserves_bind; [|intros ?]);
    auto using wf_advance_counter with hub.
Qed.
Lemma wf_logout c jar info csrf now : preserves (of_db wf) (logout c jar info csrf now).
Proof.
  unfold logout. destruct (negb _); [auto with hub|]. destruct (jar !! _); [|auto with hub].
  apply preserves_bind; [|auto with hub]. apply preserves_catch; [auto with hub|]. intros r.
  apply preserves_bind; [auto with hub|]. intros _. destruct r as [[u|]|]; auto with hub.
Qed.

(** A login without a counter update, step by step. *)
Lemma login_finish_run c cid jar cred info new_sid now d g m ceremony res :
  m !! cid = Some ceremony →
  finish_passkey_authentication cred ceremony.(auth_state) = Some res →
  needs_update res = false →
  d.(web_sessions) !! new_sid = None →
  known d.(users) ceremony.(auth_user_id) →
  ∃ s d' g', login_finish c (Some cid) jar cred info new_sid now (d, g, m) =
    (Ok {| sid := new_sid; redirect := session.take_next jar |}, (d', g', delete cid m)) ∧
    d'.(web_sessions) !! new_sid = Some s ∧
    (s.(web_session.created_at) = now ∧
     s.(web_session.expires_at) = i64_wrap (now + c.(config.session_idle_ttl_secs))) ∧
    d'.(users) = d.(users) ∧ s.(web_session.user_id) = ceremony.(auth_user_id) ∧
    recorded "auth.login" ceremony.(auth_user_id) g g'.
Proof.
  intros Hcer Hres Hup Hsid Hu. unfold login_finish. unfold bind at 1, ok_or at 1, ret at 1.
  unfold bind at 1, on_snd, take. cbn [fst snd]. rewrite Hcer.
  unfold bind at 1, ok_or at 1, ret at 1. rewrite Hres.
  unfold bind at 1, on_fst at 1, on_fst at 1, advance_counter. rewrite Hup.
  cbn [fst snd ret]. unfold bind at 1, on_fst at 1, on_fst at 1, ignore. cbn [fst snd].
  unfold bind, on_fst, map_err, session.create. cbn.
  rewrite decide_False by (by apply unknown). rewrite decide_True by done. cbn.
  eexists _, _, _. split; [done|]. cbn. split; [by apply lookup_insert_eq|].
  split_and!; try done. by eexists.
Qed.

(** ** Properties *)

(** C19: a registration or recovery that fails while resolving its account - the
    handle was taken, or the invite was spent meanwhile - leaves the database
    exactly as it was, and nothing on record: the account inserted for it is rolled
    back. *)
Theorem resolve_account_atomic ceremony info now l e l' :
  wf l.1 → resolve_account ceremony info now l = (Err e, l') → l' = l.
Proof.
  intros Hwf E. pose proof (resolve_account_cases ceremony info now l Hwf) as Hc. by rewrite E in Hc.
Qed.

(** C18: a finished registration consumed its ceremony and verified the passkey;
    the account is as the ceremony's purpose says (a new account is an
    administrator only if it is the first one and the ceremony said so, and its
    invite was unused and is now spent), the passkey is stored for it, the new
    session is its own, and the sign-in is on record. *)
Theorem register_finish_sound c cookie jar cred info row_id new_sid now l m fin l' m' :
  wf l.1 →
  register_finish c cookie jar cred info row_id new_sid now (l, m) = (Ok fin, (l', m')) →
  ∃ cid ceremony pk d1,
    cookie = Some cid ∧ m !! cid = Some ceremony ∧ m' = delete cid m ∧
    finish_passkey_registration cred ceremony.(reg_state) = Some pk ∧
    account_for ceremony now l.1 ceremony.(reg_user_id) d1 ∧
    (∃ r, l'.1.(webauthn_credentials) !! row_id = Some r ∧
       r.(credential.user_id) = ceremony.(reg_user_id) ∧
       r.(credential.credential_id) = cred_id pk) ∧
    (∃ s, l'.1.(web_sessions) !! fin.(sid) = Some s ∧
       s.(web_session.user_id) = ceremony.(reg_user_id)) ∧
    l'.1.(users) = d1.(users) ∧ l'.1.(invites) = d1.(invites) ∧
    recorded (action_of ceremony.(purpose)) ceremony.(reg_user_id) l.2 l'.2.
Proof.
  intros Hwf. unfold register_finish. intros Hrun. m_inv.
  match goal with Ht : take _ _ = _ |- _ => injection Ht as Ht Hm' end.
  repeat match goal with x : (_ * _)%type |- _ => destruct x end. simplify_eq/=.
  match goal with Hr : resolve_account ?cer _ _ ?l = _ |- _ =>
    pose proof (resolve_account_cases cer info now l Hwf) as Hc; rewrite Hr in Hc;
    destruct Hc as [Hc Hlog]; pose proof (proj1 Hc) as Hu end. subst.
  match goal with Hs : session.create _ _ _ _ _ _ = _ |- _ => rename Hs into Hses end.
  match goal with Hs : users.insert_credential _ _ _ _ _ _ = _ |- _ => rename Hs into Hcr end.
  unfold users.insert_credential in Hcr. destruct (decide _); [done|].
  destruct (find_row _ _); [done|]. destruct (decide _); [|done]. simplify_eq/=.
  unfold session.create in Hses. destruct (decide _); [done|]. destruct (decide _); [|done].
  simplify_eq/=.
  eexists _, _, _, _. split_and!; try done.
  - eexists. split; [by rewrite lookup_insert_eq|done].
  - eexists. split; [by rewrite lookup_insert_eq|done].
Qed.

(** The invite requirement is decided when a ceremony starts: a ceremony that
    was started while there was no account finishes later, when others exist,
    into an ordinary account without any invite, also with open registration
    off. *)
Theorem bootstrap_ceremony_needs_no_invite c cid jar cred info row_id new_sid now d g m ceremony pk :
  wf d → 0 < size d.(users) →
  m !! cid = Some ceremony → ceremony.(purpose) = NewUser true None →
  finish_passkey_registration cred ceremony.(reg_state) = Some pk →
  d.(users) !! ceremony.(reg_user_id) = None →
  (∀ k r, d.(users) !! k = Some r → r.(user.handle) ≠ ceremony.(reg_handle)) →
  d.(webauthn_credentials) !! row_id = None →
  (∀ k r, d.(webauthn_credentials) !! k = Some r → r.(credential.credential_id) ≠ cred_id pk) →
  d.(web_sessions) !! new_sid = None →
  ∃ fin st, register_finish c (Some cid) jar cred info row_id new_sid now (d, g, m) = (Ok fin, st) ∧
    st.1.1.(invites) = d.(invites) ∧
    ∃ r, st.1.1.(users) !! ceremony.(reg_user_id) = Some r ∧ r.(user.is_admin) = false.
Proof.
  intros Hwf Hsz Hcer Hp Hpk Hnew Hh Hrow Hcred Hsid.
  assert (∃ r g', resolve_account ceremony info now (d, g) =
    (Ok ceremony.(reg_user_id), (set_users (insert ceremony.(reg_user_id) r) d, g')) ∧
    r.(user.is_admin) = false) as (r & g' & Hres & Hadm).
  { unfold resolve_account. rewrite Hp. unfold bind at 1, on_fst at 1, users.find_by_handle, gets.
    cbn [fst snd].
    replace (head _) with (@None (string * user.t)); [cbn|].
    - unfold new_account, users.create_admin_if_first, on_fst, bind, gets, map_err, users.insert_user, users.count.
      cbn [fst snd]. rewrite decide_False by (by apply unknown).
      destruct (find_row _ _) as [r|] eqn:E.
      { apply find_row_Some in E as (k & Hk & He). apply eqs_true in He. by destruct (Hh _ _ Hk). }
      cbn. eexists _, _. split; [done|]. apply bool_decide_eq_false. lia.
    - symmetry. apply head_None. destruct (filter _ _) as [|[k r] l] eqn:E; [done|]. exfalso.
      assert ((k, r) ∈ filter (λ kv : string * user.t, kv.2.(user.handle) = ceremony.(reg_handle))
        (map_to_list d.(users))) as Hin by (rewrite E; constructor).
      apply list_elem_of_filter in Hin as [He Hin%elem_of_map_to_list]. by destruct (Hh _ _ Hin). }
  unfold register_finish. unfold bind at 1, ok_or at 1, ret at 1.
  unfold bind at 1, on_snd, take. cbn [fst snd]. rewrite Hcer.
  unfold bind at 1, ok_or at 1, ret at 1. unfold bind at 1. rewrite Hpk.
  unfold ok_or at 1, ret at 1. unfold bind at 1, on_fst at 1. cbn [fst snd]. rewrite Hres.
  cbn [fst snd]. unfold bind at 1, on_fst, map_err, users.insert_credential. cbn [fst snd].
  cbn [webauthn_credentials set_users]. rewrite decide_False by (by apply unknown).
  destruct (find_row _ _) as [x|] eqn:E.
  { apply find_row_Some in E as (k & Hk & He). apply eqs_true in He. by destruct (Hcred _ _ Hk). }
  cbn [users set_users]. rewrite decide_True by apply known_insert_eq. cbn [fst snd].
  unfold bind, session.create. cbn.
  rewrite decide_False by (by apply unknown).
  rewrite decide_True by apply known_insert_eq. cbn.
  eexists _, _. split; [done|]. split; [done|]. exists r. cbn; by rewrite lookup_insert_eq.
Qed.

(** A login that started before its account was disabled still finishes: the
    disabled flag is not looked at again, the session is created, and it is then
    served as that user. *)
Theorem login_finish_ignores_disabled c cid jar cred info new_sid now d g m ceremony res row :
  m !! cid = Some ceremony →
  finish_passkey_authentication cred ceremony.(auth_state) = Some res →
  needs_update res = false →
  d.(users) !! ceremony.(auth_user_id) = Some row → row.(user.disabled) = true →
  d.(web_sessions) !! new_sid = None →
  in_i64 (now + c.(config.session_idle_ttl_secs)) →
  in_i64 (now + c.(config.session_absolute_ttl_secs)) →
  (0 < c.(config.session_idle_ttl_secs))%Z → (0 < c.(config.session_absolute_ttl_secs))%Z →
  ∃ fin st, login_finish c (Some cid) jar cred info new_sid now (d, g, m) = (Ok fin, st) ∧
    (session.load_and_touch fin.(sid) c.(config.session_idle_ttl_secs)
       c.(config.session_absolute_ttl_secs) now st.1.1).1 =
      Ok (Some (users.of_row ceremony.(auth_user_id) row)).
Proof.
  intros Hcer Hres Hup Hu Hdis Hsid Hi Ha Hip Hap.
  destruct (login_finish_run c cid jar cred info new_sid now d g m ceremony res)
    as (s & d1 & g1 & E & Hs & [Hcr Hex] & Hdu & Hsu & _); [done..|by exists row|].
  eexists _, _. split; [exact E|]. cbn [fst snd sid].
  rewrite (session.load_and_touch_live _ _ _ _ _ s Hs).
  - cbn [fst]. by rewrite Hdu, Hsu, Hu.
  - unfold session.live, session.absolute_deadline. rewrite Hcr, Hex.
    rewrite !i64_wrap_id by done. lia.
Qed.

(** Neither ceremony store grows beyond 4096 entries. *)
Theorem insert_ceremony_bounded {T} (created_at : T → Z) key value now m :
  (Z.of_nat (size m) ≤ CEREMONY_CAP)%Z →
  (Z.of_nat (size (insert_ceremony created_at key value now m).2) ≤ CEREMONY_CAP)%Z.
Proof.
  intros Hm. unfold insert_ceremony. destruct (_ <=? _)%Z eqn:E; bool_prop; cbn.
  - etrans; [|exact Hm]. apply Nat2Z.inj_le, map_size_filter.
  - rewrite map_size_insert. destruct (_ !! key); unfold id; lia.
Qed.
End ceremonies.

(** *** Witnesses: an authenticator whose answer is its credential id *)
Definition wa0 : WebauthnRs := {|
  Passkey := string; cred_id := λ p, p; passkey_to_json := λ p, p;
  passkey_from_json := Some; RegState := unit;
  start_passkey_registration := λ _ _ _ _, Some tt; RegResponse := string;
  finish_passkey_registration := λ r _, Some r; AuthState := unit;
  start_passkey_authentication := λ _, Some tt; AuthResponse := string;
  AuthResult := string; finish_passkey_authentication := λ r _, Some r;
  needs_update := λ _, false; result_cred_id := λ r, r;
  passkey_update := λ p _, p |}.
Definition ceremony0 (p : RegPurpose) : RegCeremony (H:=wa0) := {|
  reg_state := tt : @RegState wa0; reg_user_id := "new"; reg_handle := "newbie";
  reg_display_name := "N"; purpose := p; reg_created_at := 5 |}.
Abbreviation finish0 p d := (register_finish (H:=wa0) (H1:=digest0) oauth_witness.cfg0
  (Some "c") ∅ ("pk" : @RegResponse wa0) store.info0 "row" "sid" 10
  (d, [], {["c" := ceremony0 p]})).
Abbreviation resolve0 := (resolve_account (H:=wa0) (H1:=digest0)
  (ceremony0 (NewUser false (Some "x"))) store.info0 10 (db2, [])).

Lemma resolve_account_atomic_witness : resolve0.2 = (db2, []).
Proof.
  destruct resolve0 as [r d'] eqn:E.
  destruct r as [u|e]; [vm_compute in E; discriminate|].
  exact (resolve_account_atomic (H:=wa0) (H1:=digest0) _ _ _ (db2, []) _ _ wf_db2 E).
Defined.

Lemma register_finish_sound_witness :
  ∃ r, (finish0 (NewUser true None) db2).2.1.1.(webauthn_credentials) !! "row" = Some r ∧
    r.(credential.user_id) = "new".
Proof.
  destruct (register_finish_sound (H:=wa0) (H1:=digest0) oauth_witness.cfg0
    (Some "c") ∅ ("pk" : @RegResponse wa0) store.info0 "row" "sid" 10
    (db2, []) {["c" := ceremony0 (NewUser true None)]} {| sid := "sid"; redirect := "/" |}
    (finish0 (NewUser true None) db2).2.1 (finish0 (NewUser true None) db2).2.2 wf_db2)
    as (cid & cer & pk & d1 & [= <-] & Hcer & _ & _ & _ & (r & Hr & Hu & _) & _).
  - assert ((finish0 (NewUser true None) db2).1 = Ok {| sid := "sid"; redirect := "/" |}) as Hok
      by (vm_compute; reflexivity).
    rewrite <- Hok. destruct (finish0 (NewUser true None) db2) as [x [y z]]. reflexivity.
  - exists r. split; [exact Hr|]. rewrite Hu. rewrite lookup_singleton_eq in Hcer.
    by injection Hcer as <-.
Defined.

Lemma bootstrap_ceremony_needs_no_invite_witness :
  ∃ r, (finish0 (NewUser true None) db2).2.1.1.(users) !! "new" = Some r ∧
    r.(user.is_admin) = false.
Proof.
  destruct (bootstrap_ceremony_needs_no_invite (H:=wa0) (H1:=digest0) oauth_witness.cfg0
    "c" ∅ ("pk" : @RegResponse wa0) store.info0 "row" "sid" 10 db2 []
    {["c" := ceremony0 (NewUser true None)]} (ceremony0 (NewUser true None)) "pk" wf_db2)
    as (fin & st & E & _ & r & Hr & Ha).
  all: try (vm_compute; reflexivity).
  - vm_compute. lia.
  - intros k r Hr.
    change (users db2) with (<["root" := admin0]> (<["u" := user0]> (∅ : gmap string user.t))) in Hr.
    apply lookup_insert_Some in Hr as [[_ <-]|[_ Hr]]; [done|].
    apply lookup_insert_Some in Hr as [[_ <-]|[_ Hr]]; [done|]. by rewrite lookup_empty in Hr.
  - intros k r Hr. vm_compute in Hr. discriminate.
  - exists r. rewrite E. split; [exact Hr|exact Ha].
Defined.

Definition db_disabled : Db := (users.set_disabled "u" true db2).2.
Definition auth0 : AuthCeremony (H:=wa0) := {|
  auth_state := tt : @AuthState wa0; auth_user_id := "u"; auth_created_at := 5 |}.
Lemma login_finish_ignores_disabled_witness :
  ∃ fin st, login_finish (H:=wa0) oauth_witness.cfg0 (Some "c") ∅ ("pk" : @AuthResponse wa0)
      store.info0 "sid" 10 (db_disabled, [], {["c" := auth0]}) = (Ok fin, st) ∧
    (session.load_and_touch fin.(sid) 1800 43200 10 st.1.1).1 =
      Ok (Some (users.of_row "u" (users.with_disabled true user0))).
Proof.
  apply (login_finish_ignores_disabled (H:=wa0) oauth_witness.cfg0 "c" ∅
    ("pk" : @AuthResponse wa0) store.info0 "sid" 10 db_disabled [] {["c" := auth0]} auth0 "pk");
    try (vm_compute; reflexivity); vm_compute; split; discriminate.
Defined.

Lemma insert_ceremony_bounded_witness :
  (Z.of_nat (size (insert_ceremony (λ t : Z, t) "k" 5%Z 10 ∅).2) ≤ CEREMONY_CAP)%Z.
Proof. apply (insert_ceremony_bounded (λ t : Z, t)). vm_compute. discriminate. Defined.

End webauthn.
