(* ===== verification/Status.v ===== *)
(** * Runtime status, usage counters and the metrics endpoint
    (status.rs, metrics.rs, stats.rs)

    The in-memory registries that observe the hub, the sealed key that gates
    [/metrics], and the text the endpoint serves. *)

From stdpp Require Import pretty.
From S2P Require Import Prelude Strs Schema External Fixtures Users Oauth GitCreds Instances Config.
Open Scope string_scope.
Open Scope hub_scope.

(** ** The registry of connection outcomes (status.rs) *)
Module status.

Inductive RuntimeState := ok | error | skipped | unbuilt | unknown.
#[global] Instance RuntimeState_eq_dec : EqDecision RuntimeState.
Proof. solve_decision. Defined.
Definition as_str (s : RuntimeState) : string :=
  match s with
  | ok => "ok" | error => "error" | skipped => "skipped" | unbuilt => "unbuilt"
  | unknown => "unknown"
  end.
Record RuntimeStatus := { state : RuntimeState; detail : option string; checked_at : Z }.

Abbreviation StatusRegistry := (gmap string RuntimeStatus).
Definition set {E} (iid : string) (s : RuntimeState) (d : option string) (now : Z)
    : M StatusRegistry E unit :=
  modify (insert iid {| state := s; detail := d; checked_at := now |}).
Definition get (iid : string) (m : StatusRegistry) : option RuntimeStatus := m !! iid.
Definition snapshot (m : StatusRegistry) : gmap string RuntimeStatus := m.
Definition remove {E} (iid : string) : M StatusRegistry E unit := modify (delete iid).
Definition retain {E} (live : gset string) : M StatusRegistry E unit :=
  modify (filter (λ kv, kv.1 ∈ live)).

End status.

(** ** Usage counters (metrics.rs) *)
Module metrics.

Inductive ErrorKind := Timeout | Error | ToolError.
#[global] Instance ErrorKind_eq_dec : EqDecision ErrorKind.
Proof. solve_decision. Defined.
Definition as_str (k : ErrorKind) : string :=
  match k with Timeout => "timeout" | Error => "error" | ToolError => "tool_error" end.
Definition ALL : list ErrorKind := [Timeout; Error; ToolError].

(** [(user, server, tool)]. *)
Definition CallKey : Type := string * string * string.
(** [errors] is the array indexed by kind, as a function. *)
Record CallStats := { calls : Z; errors : ErrorKind → Z; duration_micros : Z }.
Definition no_calls : CallStats := {| calls := 0; errors := λ _, 0%Z; duration_micros := 0 |}.
Definition MAX_SERIES : nat := Z.to_nat 10000.
Abbreviation Metrics := (gmap CallKey CallStats).

Definition other : CallKey := ("_other", "_other", "_other").
Definition bump (micros : Z) (e : option ErrorKind) (s : CallStats) : CallStats := {|
  calls := u64_wrap (s.(calls) + 1);
  errors := λ k, if bool_decide (e = Some k) then u64_wrap (s.(errors) k + 1) else s.(errors) k;
  duration_micros := u64_wrap (s.(duration_micros) + u64_wrap micros) |}.
(** [micros] is the duration in microseconds, a [u128] that the code truncates. *)
Definition record_call (user server tool : string) (micros : Z) (e : option ErrorKind)
    (m : Metrics) : Metrics :=
  let key : CallKey := (user, server, tool) in
  let key := if bool_decide (is_Some (m !! key)) || (size m <? MAX_SERIES)%nat
             then key else other in
  <[key := bump micros e (default no_calls (m !! key))]> m.

Definition nl : string := bytes [10%N].
Definition quoted (s : string) : string := dquote +:+ s +:+ dquote.
(** The characters that need escaping are ASCII: the bytes of the others pass. *)
Fixpoint escape_label (v : string) : string :=
  match v with
  | EmptyString => EmptyString
  | String c v =>
      (if (byte c =? 92)%N then bytes [92; 92]%N
       else if (byte c =? 34)%N then bytes [92; 34]%N
       else if (byte c =? 10)%N then bytes [92; 110]%N
       else String c EmptyString) +:+ escape_label v
  end.
Definition labels (k : CallKey) : string :=
  "{user=" +:+ quoted (escape_label k.1.1) +:+ ",server=" +:+ quoted (escape_label k.1.2) +:+
  ",tool=" +:+ quoted (escape_label k.2) +:+ "}".

Definition key_le (a b : CallKey * CallStats) : Prop :=
  let '((u, s, t), _) := a in let '((u', s', t'), _) := b in
  u ≠ u' ∧ String.leb u u' = true ∨
  u = u' ∧ (s ≠ s' ∧ String.leb s s' = true ∨ s = s' ∧ String.leb t t' = true).
#[global] Instance key_le_dec a b : Decision (key_le a b).
Proof. destruct a as [[[] ] ?], b as [[[]] ?]. cbn. apply _. Defined.

(** Six decimals of [micros / 1e6]. *)
Definition seconds (micros : Z) : string :=
  let frac := pretty (micros mod 1000000)%Z in
  pretty (micros / 1000000)%Z +:+ "." +:+
  str_repeat (Ascii.ascii_of_N 48) (6 - String.length frac) +:+ frac.
Definition render (m : Metrics) : string :=
  let entries := merge_sort key_le (map_to_list m) in
  "# TYPE mcp_hub_tool_calls_total counter" +:+ nl +:+
  String.concat "" (map (λ e,
    "mcp_hub_tool_calls_total" +:+ labels e.1 +:+ " " +:+ pretty e.2.(calls) +:+ nl) entries) +:+
  "# TYPE mcp_hub_tool_call_errors_total counter" +:+ nl +:+
  String.concat "" (flat_map (λ e,
    omap (λ k, let n := e.2.(errors) k in
      if (0 <? n)%Z then Some (
        "mcp_hub_tool_call_errors_total{user=" +:+ quoted (escape_label e.1.1.1) +:+
        ",server=" +:+ quoted (escape_label e.1.1.2) +:+ ",tool=" +:+
        quoted (escape_label e.1.2) +:+ ",error_kind=" +:+ quoted (as_str k) +:+ "} " +:+
        pretty n +:+ nl) else None) ALL) entries) +:+
  "# TYPE mcp_hub_tool_call_duration_seconds_total counter" +:+ nl +:+
  String.concat "" (map (λ e,
    "mcp_hub_tool_call_duration_seconds_total" +:+ labels e.1 +:+ " " +:+
    seconds e.2.(duration_micros) +:+ nl) entries).

(** *** The API key *)
Definition KEY_SETTING : string := "metrics_api_key".
Definition KEY_PREFIX : string := "mcphub_metrics_".

Section key.
Context `{Aead}.
Definition store_key (key nonce : string) : M Db anyhow unit :=
  let* sealed := lift (crypto.seal nonce key) in
  modify (set_settings (insert KEY_SETTING sealed)).
(** [random] is the fresh token, [nonce] that of the sealing. *)
Definition load_or_create_key (random nonce : string) : M Db anyhow string :=
  let* row := gets (λ d, d.(settings) !! KEY_SETTING) in
  let stored := match row with
    | None => None
    | Some sealed =>
        match crypto.open sealed with
        | Ok key => if utf8_valid key then Some key else None
        | Err _ => None
        end
    end in
  match stored with
  | Some key => ret key
  | None =>
      let key := KEY_PREFIX +:+ random in
      store_key key nonce ;;;
      ret key
  end.
(** The state is the database and the key held in memory. *)
Definition regenerate_key (random nonce : string) : M (Db * string) anyhow string :=
  let key := KEY_PREFIX +:+ random in
  on_fst (store_key key nonce) ;;;
  on_snd (modify (λ _, key)) ;;;
  ret key.
End key.

(** The [Authorization] test of [endpoint]; the header is [None] when absent or
    not visible ASCII. *)
Definition authorized (header : option string) (key : string) : bool :=
  let presented := default "" (v ← header; strip_prefix "Bearer " v) in
  negb (is_empty key) && oauth.ct_eq presented key.

(** *** Facts: the counters *)
Definition call : Type := string * string * string * Z * option ErrorKind.
Definition record_all (calls : list call) (m : Metrics) : Metrics :=
  fold_left (λ m '(u, s, t, micros, e), record_call u s t micros e m) calls m.
Definition total_calls (m : Metrics) : Z := map_fold (λ _ s n, (s.(calls) + n)%Z) 0%Z m.

(** At most one series beyond the cap: the fold of the overflow. *)
Definition bounded (m : Metrics) : Prop :=
  (size m ≤ MAX_SERIES)%nat ∨ size m = S MAX_SERIES ∧ is_Some (m !! other).
Definition counts_within (n : Z) (m : Metrics) : Prop :=
  total_calls m = n ∧ map_Forall (λ _ s, (0 ≤ s.(calls))%Z) m.

Lemma total_calls_insert (k : CallKey) (s : CallStats) (m : Metrics) :
  total_calls (<[k:=s]> m) =
  (s.(calls) + total_calls m - default 0 (calls <$> m !! k))%Z.
Proof.
  destruct (m !! k) as [s0|] eqn:E.
  - rewrite <- (insert_delete_id m k s0 E) at 2. rewrite <- (insert_delete_eq m).
    unfold total_calls. rewrite !map_fold_insert_L by (try lia; apply lookup_delete_eq).
    cbn. lia.
  - unfold total_calls. rewrite map_fold_insert_L by (try lia; done). cbn. lia.
Qed.

Lemma insert_bounded (k : CallKey) (s : CallStats) (m : Metrics) :
  bounded m → is_Some (m !! k) ∨ (size m < MAX_SERIES)%nat ∨ k = other → bounded (<[k:=s]> m).
Proof.
  unfold bounded. intros Hb Hk. destruct (m !! k) as [x|] eqn:E.
  - rewrite map_size_insert_Some by eauto. destruct Hb as [|[? ?]]; [by left|right].
    split; [done|]. rewrite lookup_insert. by case_decide.
  - rewrite map_size_insert_None by done. destruct Hk as [[? ?]|[Hlt| ->]]; [done|left; lia|].
    rewrite lookup_insert_eq, E in *. destruct Hb as [?|[_ [? ?]]]; [|done].
    destruct (decide (size m = MAX_SERIES)); [right; split; eauto|left; lia].
Qed.
Lemma record_call_bounded (u s t : string) (micros : Z) (e : option ErrorKind) (m : Metrics) :
  bounded m → bounded (record_call u s t micros e m).
Proof.
  intros Hb. unfold record_call. apply insert_bounded; [done|].
  case_match eqn:E; [|auto].
  apply orb_true_iff in E as [?%bool_decide_eq_true|?%Nat.ltb_lt]; auto.
Qed.
Lemma total_calls_ge (m : Metrics) (k : CallKey) (s : CallStats) :
  map_Forall (λ _ s, (0 ≤ s.(calls))%Z) m → m !! k = Some s → (s.(calls) ≤ total_calls m)%Z.
Proof.
  intros Hpos Hk. rewrite <- (insert_delete_id m k s Hk). unfold total_calls.
  rewrite map_fold_insert_L by (try lia; apply lookup_delete_eq).
  enough (0 ≤ map_fold (λ _ s n, (s.(calls) + n)%Z) 0%Z (delete k m))%Z by lia.
  assert (map_Forall (λ _ s, (0 ≤ s.(calls))%Z) (delete k m)) as Hd by by apply map_Forall_delete.
  clear Hpos Hk. induction (delete k m) as [|i x m' Hi Hf IH] using map_first_key_ind;
    [by rewrite map_fold_empty|].
  rewrite map_fold_insert_L by (try lia; done).
  apply map_Forall_insert in Hd as [? ?]; [|done]. specialize (IH ltac:(done)). lia.
Qed.
Lemma record_call_counts (u s t : string) (micros : Z) (e : option ErrorKind) (m : Metrics) n :
  (0 ≤ n < 2^64 - 1)%Z → counts_within n m → counts_within (n + 1) (record_call u s t micros e m).
Proof.
  intros Hn [Ht Hpos]. unfold record_call. set (k := if _ : bool then _ else _). clearbody k.
  assert (default 0%Z (calls <$> m !! k) = (default no_calls (m !! k)).(calls)) as Hd
    by by destruct (m !! k).
  assert (0 ≤ (default no_calls (m !! k)).(calls) ≤ n)%Z as Hc.
  { destruct (m !! k) as [x|] eqn:E; cbn; [|lia]. split; [by eapply Hpos|].
    rewrite <- Ht. by eapply total_calls_ge. }
  assert ((bump micros e (default no_calls (m !! k))).(calls) =
          (default no_calls (m !! k)).(calls) + 1)%Z as Hb
    by (cbn; unfold u64_wrap; rewrite Z.mod_small; lia).
  split.
  - rewrite total_calls_insert, Hb, Hd. lia.
  - apply map_Forall_insert_2; [rewrite Hb; lia|done].
Qed.

Lemma record_all_snoc (l : list call) (c : call) (m : Metrics) :
  record_all (l ++ [c]) m =
  record_call c.1.1.1.1 c.1.1.1.2 c.1.1.2 c.1.2 c.2 (record_all l m).
Proof. unfold record_all. rewrite fold_left_app. by destruct c as [[[[? ?] ?] ?] ?]. Qed.

(** Recording any sequence of tool calls keeps the table within one series of
    its cap, and, below 2^64 calls, loses none: the counts of the series add up
    to the number of calls recorded. *)
Theorem record_all_complete (calls0 : list call) :
  bounded (record_all calls0 ∅) ∧
  ((Z.of_nat (length calls0) < 2^64)%Z →
   total_calls (record_all calls0 ∅) = Z.of_nat (length calls0)).
Proof.
  split.
  - induction calls0 as [|c l IH] using rev_ind.
    + left. cbn. apply Nat.le_0_l.
    + rewrite record_all_snoc. by apply record_call_bounded.
  - intros Hlt. enough (counts_within (Z.of_nat (length calls0)) (record_all calls0 ∅))
      as [? _] by done.
    induction calls0 as [|c l IH] using rev_ind; [split; [done|apply map_Forall_empty]|].
    rewrite length_app in *. cbn [length] in *. rewrite record_all_snoc.
    replace (Z.of_nat (length l + 1)) with (Z.of_nat (length l) + 1)%Z by lia.
    apply record_call_counts; [lia|]. apply IH. lia.
Qed.
Lemma record_all_complete_witness :
  total_calls (record_all [("u", "fs", "read", 5%Z, None); ("u", "fs", "read", 7%Z, Some Timeout)] ∅)
  = 2%Z.
Proof. apply record_all_complete. reflexivity. Defined.

(** *** Facts: the label text *)
(** The reading of a label value up to its closing quote. *)
Fixpoint read_label (s : string) : option (string * string) :=
  match s with
  | EmptyString => None
  | String c s' =>
      if (byte c =? 34)%N then Some (EmptyString, s')
      else if (byte c =? 92)%N then
        match s' with
        | EmptyString => None
        | String d s'' =>
            let x := if (byte d =? 110)%N then Ascii.ascii_of_N 10 else d in
            '(v, r) ← read_label s''; Some (String x v, r)
        end
      else '(v, r) ← read_label s'; Some (String c v, r)
  end.
Lemma byte_lit c n : (byte c =? n)%N = true → c = Ascii.ascii_of_N n.
Proof. intros <-%N.eqb_eq. symmetry. apply Ascii.ascii_N_embedding. Qed.
Lemma read_escape_label v rest : read_label (escape_label v +:+ dquote +:+ rest) = Some (v, rest).
Proof.
  assert (read_label (dquote +:+ rest) = Some ("", rest)) as Hq by done.
  generalize dependent (dquote +:+ rest). intros q Hq.
  induction v as [|c v IH]; [done|]. cbn [escape_label].
  destruct (byte c =? 92)%N eqn:E1; [apply byte_lit in E1 as ->|
    destruct (byte c =? 34)%N eqn:E2; [apply byte_lit in E2 as ->|
    destruct (byte c =? 10)%N eqn:E3; [apply byte_lit in E3 as ->|]]].
  1-3: rewrite append_assoc; unfold bytes; cbn [fold_right];
    rewrite !append_cons, append_nil_l; cbn; by rewrite IH.
  rewrite append_assoc, append_cons, append_nil_l. cbn [read_label]. rewrite E1, E2.
  cbn. by rewrite IH.
Qed.
Lemma escape_label_inj_rest v w r r' :
  escape_label v +:+ dquote +:+ r = escape_label w +:+ dquote +:+ r' → v = w ∧ r = r'.
Proof.
  intros Heq%(f_equal read_label). rewrite !read_escape_label in Heq. by simplify_eq.
Qed.

(** Whatever users, servers and tools are called, quotes, backslashes and
    newlines included, distinct series have distinct label sets in the
    exposition. *)
Theorem labels_injective k1 k2 : labels k1 = labels k2 → k1 = k2.
Proof.
  destruct k1 as [[u s] t], k2 as [[u' s'] t']. unfold labels, quoted. cbn [fst snd].
  rewrite !append_assoc. intros Heq.
  do 2 apply append_inj_l in Heq. apply escape_label_inj_rest in Heq as [-> Heq].
  do 2 apply append_inj_l in Heq. apply escape_label_inj_rest in Heq as [-> Heq].
  do 2 apply append_inj_l in Heq. by apply escape_label_inj_rest in Heq as [-> _].
Qed.
Lemma labels_injective_witness :
  ("a", "b", "c" +:+ dquote) = ("a", "b", "c" +:+ bytes [34%N]).
Proof. apply labels_injective. vm_compute; reflexivity. Defined.

(** *** Facts: the key *)
Lemma authorized_spec header key :
  authorized header key = true ↔ key ≠ "" ∧ header = Some ("Bearer " +:+ key).
Proof.
  unfold authorized. rewrite andb_true_iff, negb_true_iff. split.
  - intros [He Hc%oauth.ct_eq_eq]. assert (key ≠ "") as Hne by (by intros ->).
    split; [done|]. destruct header as [h|]; [|by rewrite <- Hc in Hne].
    change (v ← Some h; strip_prefix "Bearer " v) with (strip_prefix "Bearer " h) in Hc.
    destruct (strip_prefix "Bearer " h) as [r|] eqn:E; [|by rewrite <- Hc in Hne].
    apply strip_prefix_Some in E. cbn [default] in Hc. by subst.
  - intros [Hne ->]. split; [by destruct key|]. cbn [mbind option_bind].
    rewrite strip_prefix_app. cbn [default]. apply oauth.ct_eq_refl.
Qed.

(** After an administrator regenerates the metrics key, the endpoint accepts
    the new key and no other, and the next start of the hub loads that key from
    its sealed copy. *)
Theorem regenerate_key_rotates `{AeadLaws} random nonce d old key d' cur :
  String.length nonce = crypto.NONCE_LEN → utf8_valid (KEY_PREFIX +:+ random) = true →
  regenerate_key random nonce (d, old) = (Ok key, (d', cur)) →
  (∀ header, authorized header cur = true ↔ header = Some ("Bearer " +:+ key)) ∧
  ∀ random' nonce', load_or_create_key random' nonce' d' = (Ok key, d').
Proof.
  intros Hn Hu Hr. revert Hu. unfold regenerate_key in Hr. m_inv.
  match goal with H : store_key _ _ _ = _ |- _ => unfold store_key in H; m_inv end.
  match goal with H : x0.1 = _ |- _ => rewrite H end. intros Hu.
  split.
  - intros header. rewrite authorized_spec. split; [by intros []|]. by split.
  - intros random' nonce'. unfold load_or_create_key, bind, gets.
    cbn [settings set_settings]. rewrite lookup_insert_eq, (crypto.open_seal _ _ _ Hn) by eassumption.
    by assert (utf8_valid (KEY_PREFIX +:+ random) = true) as -> by exact Hu.
Qed.
Lemma regenerate_key_rotates_witness :
  (∀ header, authorized header "mcphub_metrics_r" = true ↔
             header = Some ("Bearer " +:+ "mcphub_metrics_r")) ∧
  ∀ random' nonce',
    load_or_create_key (H:=aead0) random' nonce'
      (regenerate_key (H:=aead0) "r" nonce0 (db2, "old")).2.1 =
    (Ok "mcphub_metrics_r", (regenerate_key (H:=aead0) "r" nonce0 (db2, "old")).2.1).
Proof.
  apply (regenerate_key_rotates (H:=aead0) (H0:=aead0_laws) "r" nonce0 db2 "old"
           "mcphub_metrics_r"); vm_compute; reflexivity.
Defined.

End metrics.

(** ** Statistics (stats.rs) *)
Module stats.

Record SlotUsage := { used : Z; total : Z }.
Record PoolUsage := { pool_users : Z; pool_backends : Z }.
Record Totals := {
  t_users : Z; t_instances : Z; enabled_instances : Z; running : Z; t_error : Z; t_skipped : Z;
  t_unbuilt : Z; t_unknown : Z }.
Record InstanceStat := {
  owner : string; namespace : string; display_name : string; enabled : bool;
  runtime_status : string; runtime_detail : option string; runtime_checked_at : option Z }.
Record RuntimeStats := {
  slots : SlotUsage; active_sessions : Z; pool : PoolUsage; limits : config.Limits;
  totals : Totals; stat_instances : list InstanceStat }.

Definition state_of (reg : status.StatusRegistry) (iid : string) : status.RuntimeState :=
  match reg !! iid with Some s => s.(status.state) | None => status.unknown end.
Definition tally (P : instances.Instance → bool) (all : list instances.Instance) : Z :=
  Z.of_nat (length (filter (λ i, P i = true) all)).
Definition in_state (reg : status.StatusRegistry) (s : status.RuntimeState)
    (i : instances.Instance) : bool :=
  bool_decide (state_of reg i.(instances.id) = s).
(** The row of one instance, labelled with its owner's handle. *)
Definition stat_of (handles : gmap string string) (reg : status.StatusRegistry)
    (i : instances.Instance) : InstanceStat := {|
  owner := default i.(instances.user_id) (handles !! i.(instances.user_id));
  namespace := i.(instances.namespace); display_name := i.(instances.display_name);
  enabled := i.(instances.enabled);
  runtime_status := match reg !! i.(instances.id) with
                    | Some s => status.as_str s.(status.state) | None => "unknown" end;
  runtime_detail := s ← reg !! i.(instances.id); s.(status.detail);
  runtime_checked_at := status.checked_at <$> reg !! i.(instances.id) |}.
(** [free] permits of the slot semaphore, [sessions] live MCP sessions, [counts]
    of the pool. *)
Definition gather (l : config.Limits) (free sessions : Z) (counts : Z * Z)
    (reg : status.StatusRegistry) (d : Db) : RuntimeStats :=
  let users := users.list d in
  let all := instances.list_all d in {|
  slots := {| used := (l.(config.max_backends_global) - free) `max` 0;
              total := l.(config.max_backends_global) |};
  active_sessions := sessions;
  pool := {| pool_users := counts.1; pool_backends := counts.2 |};
  limits := l;
  totals := {|
    t_users := Z.of_nat (length users); t_instances := Z.of_nat (length all);
    enabled_instances := tally instances.enabled all;
    running := tally (in_state reg status.ok) all;
    t_error := tally (in_state reg status.error) all;
    t_skipped := tally (in_state reg status.skipped) all;
    t_unbuilt := tally (in_state reg status.unbuilt) all;
    t_unknown := tally (in_state reg status.unknown) all |};
  stat_instances := map (stat_of (list_to_map (map (λ u, (u.(users.id), u.(users.handle))) users)) reg)
                   all |}%Z.

Lemma tally_cons P i all : (tally P (i :: all) = Z.b2z (P i) + tally P all)%Z.
Proof.
  unfold tally. rewrite filter_cons. destruct (P i); [rewrite decide_True by done|by rewrite decide_False].
  cbn [length Z.b2z]. lia.
Qed.
Lemma in_one_state reg i :
  (Z.b2z (in_state reg status.ok i) + Z.b2z (in_state reg status.error i) +
   Z.b2z (in_state reg status.skipped i) + Z.b2z (in_state reg status.unbuilt i) +
   Z.b2z (in_state reg status.unknown i) = 1)%Z.
Proof. unfold in_state. by destruct (state_of reg i.(instances.id)). Qed.

(** The statistics page is a census: every instance is counted in exactly one
    of the five states, and the page has one row per instance. *)
Theorem gather_census l free sessions counts reg d :
  let s := gather l free sessions counts reg d in
  s.(totals).(t_instances) =
    (s.(totals).(running) + s.(totals).(t_error) + s.(totals).(t_skipped) +
     s.(totals).(t_unbuilt) + s.(totals).(t_unknown))%Z ∧
  Z.of_nat (length s.(stat_instances)) = s.(totals).(t_instances) ∧
  s.(totals).(t_instances) = Z.of_nat (size d.(user_server_instances)).
Proof.
  cbn. rewrite length_map. split; [|split; [done|]].
  - induction (instances.list_all d) as [|i all IH]; [done|].
    rewrite !tally_cons. pose proof (in_one_state reg i). cbn [length]. lia.
  - unfold instances.list_all. by rewrite merge_sort_Permutation, length_map, length_map_to_list.
Qed.

End stats.

(** ** [GET /metrics] *)
Module exposition.
Import metrics.

Definition gauge (name : string) (value : Z) : string :=
  "# TYPE " +:+ name +:+ " gauge" +:+ nl +:+ name +:+ " " +:+ pretty value +:+ nl.
Definition counter (name : string) (value : Z) : string :=
  "# TYPE " +:+ name +:+ " counter" +:+ nl +:+ name +:+ " " +:+ pretty value +:+ nl.
Definition instance_gauge (name : string) (value : stats.InstanceStat → bool)
    (l : list stats.InstanceStat) : string :=
  "# TYPE " +:+ name +:+ " gauge" +:+ nl +:+
  String.concat "" (map (λ i,
    name +:+ "{owner=" +:+ quoted (escape_label i.(stats.owner)) +:+ ",server=" +:+
    quoted (escape_label i.(stats.namespace)) +:+ "} " +:+
    (if value i then "1" else "0") +:+ nl) l).

(** [json_array_length(capabilities_json, '$.tools')] is SQLite's. *)
Section tools.
Context (json_tools : string → Z).
Definition enabled_tools (d : Db) (iid : string) : Z :=
  match d.(user_server_instances) !! iid with
  | Some r => if r.(instance.enabled)
              then default 0%Z (json_tools <$> r.(instance.capabilities_json)) else 0%Z
  | None => 0%Z
  end.
Definition group_tools (d : Db) (gid : string) : Z :=
  map_fold (λ k _ n, (if eqs k.1 gid then enabled_tools d k.2 else 0) + n)%Z 0%Z
    d.(connector_group_members).
Definition group_order (a b : string * string * Z) : Prop :=
  a.1.1 ≠ b.1.1 ∧ String.leb a.1.1 b.1.1 = true ∨
  a.1.1 = b.1.1 ∧ String.leb a.1.2 b.1.2 = true.
#[global] Instance group_order_dec a b : Decision (group_order a b).
Proof. unfold group_order. apply _. Defined.
Definition render_group_tools (d : Db) : string :=
  let rows := merge_sort group_order
    (omap (λ kv, u ← d.(users) !! kv.2.(group.user_id);
                 Some (u.(user.handle), kv.2.(group.slug), group_tools d kv.1))
      (map_to_list d.(connector_groups))) in
  "# TYPE mcp_hub_group_tools gauge" +:+ nl +:+
  String.concat "" (map (λ r,
    "mcp_hub_group_tools{owner=" +:+ quoted (escape_label r.1.1) +:+ ",group=" +:+
    quoted (escape_label r.1.2) +:+ "} " +:+ pretty r.2 +:+ nl) rows).

(** [None] is the 401. The process-wide counters are arguments. *)
Definition endpoint (header : option string) (key : string) (m : Metrics)
    (s : stats.RuntimeStats) (oauth_errors busy_retries : Z) (d : Db) : option string :=
  if negb (authorized header key) then None else Some (
    render m +:+
    gauge "mcp_hub_backend_slots_used" s.(stats.slots).(stats.used) +:+
    gauge "mcp_hub_backend_slots_total" s.(stats.slots).(stats.total) +:+
    gauge "mcp_hub_active_sessions" s.(stats.active_sessions) +:+
    gauge "mcp_hub_pool_users" s.(stats.pool).(stats.pool_users) +:+
    gauge "mcp_hub_pool_backends" s.(stats.pool).(stats.pool_backends) +:+
    instance_gauge "mcp_hub_instance_up" (λ i, eqs i.(stats.runtime_status) "ok")
      s.(stats.stat_instances) +:+
    instance_gauge "mcp_hub_instance_enabled" stats.enabled s.(stats.stat_instances) +:+
    counter "mcp_hub_oauth_internal_errors_total" oauth_errors +:+
    counter "mcp_hub_db_busy_retries_total" busy_retries +:+
    render_group_tools d).
End tools.

End exposition.
