(* ===== verification/Json.v ===== *)
(** * JSON values (serde_json)

    The values management tools take and answer with.  An object is a
    [BTreeMap]: its fields are in the order of their names. *)

From S2P Require Import Prelude Strs.
Open Scope string_scope.

Module json.

Inductive Num := PosInt (n : Z) | NegInt (n : Z) | Float (text : string).
Inductive Value :=
| Null
| Bool (b : bool)
| Number (n : Num)
| Str (s : string)
| Array (l : list Value)
| Object (fields : list (string * Value)).
Definition JsonObject : Type := list (string * Value).

Definition get (obj : JsonObject) (key : string) : option Value :=
  snd <$> List.find (λ kv, String.eqb kv.1 key) obj.
Definition as_str (v : Value) : option string := match v with Str s => Some s | _ => None end.
Definition as_array (v : Value) : option (list Value) :=
  match v with Array l => Some l | _ => None end.
Definition as_object (v : Value) : option JsonObject :=
  match v with Object l => Some l | _ => None end.
Definition as_u64 (v : Value) : option Z := match v with Number (PosInt n) => Some n | _ => None end.

(** The [json!] macro and the conversions it uses. *)
Definition object (l : list (string * Value)) : Value := Object (merge_sort (by_text fst) l).
Definition num (z : Z) : Value := Number (if (z <? 0)%Z then NegInt z else PosInt z).
Definition opt {A} (f : A → Value) (o : option A) : Value :=
  match o with Some a => f a | None => Null end.
Definition strs (l : list string) : Value := Array (map Str l).

End json.
