(* ===== verification/Sandbox.v ===== *)
(** * The sandbox and the files it guards (sandbox.rs)

    Sandbox identities as [u32] arithmetic on account slots, and the operations
    of [std::fs] the hub uses, on a store of paths.  A path is absolute and has
    no trailing slash; failures of the device itself are not modelled. *)

From stdpp Require Import pretty.
From S2P Require Import Prelude Strs Schema External Fixtures Users.
Open Scope string_scope.
Open Scope hub_scope.

(** ** [std::fs] *)
Module fs.

Inductive node := Dir | File (content : string).
Record entry := { kind : node; owner : Z; grp : Z; mode : Z }.
Abbreviation Fs := (gmap string entry).

(** [Path::join]: an absolute right-hand side replaces the left. *)
Definition join (a b : string) : string :=
  if starts_with "/" b then b
  else if is_empty a then b
  else if (byte (str_last (Ascii.ascii_of_N 47) a) =? 47)%N then a +:+ b
  else a +:+ "/" +:+ b.
Definition under (dir p : string) : bool := starts_with (dir +:+ "/") p.

(** The directories on the way to a path, itself included. *)
Fixpoint prefixes (acc s : string) : list string :=
  match s with
  | EmptyString => [acc]
  | String c s' =>
      (if (byte c =? 47)%N && negb (is_empty acc) then [acc] else []) ++
      prefixes (acc +:+ String c EmptyString) s'
  end%list.

Section process.
(** The hub's own user and the modes its umask leaves. *)
Context (hub_uid dir_mode file_mode : Z).

Definition new_dir : entry := {| kind := Dir; owner := hub_uid; grp := hub_uid; mode := dir_mode |}.
Definition make_dir (p : string) : M Fs anyhow unit :=
  let* e := gets (λ f, f !! p) in
  match e with
  | None => modify (insert p new_dir)
  | Some {| kind := Dir |} => ret tt
  | Some {| kind := File _ |} => fail (Msg "Not a directory")
  end.
Definition create_dir_all (p : string) : M Fs anyhow unit := for_each make_dir (prefixes "" p).
Definition remove_dir_all (p : string) : M Fs anyhow unit := λ f,
  match f !! p with
  | Some {| kind := Dir |} =>
      (Ok tt, filter (λ kv, kv.1 ≠ p ∧ under p kv.1 = false) f)
  | _ => (Err (Msg "No such file or directory"), f)
  end.
Definition with_content (c : string) (o : option entry) : entry :=
  match o with
  | Some e => {| kind := File c; owner := e.(owner); grp := e.(grp); mode := e.(mode) |}
  | None => {| kind := File c; owner := hub_uid; grp := hub_uid; mode := file_mode |}
  end.
(** [fs::write], in a directory that is known to exist. *)
Definition write (p c : string) : M Fs anyhow unit := λ f,
  match f !! p with
  | Some {| kind := Dir |} => (Err (Msg "Is a directory"), f)
  | o => (Ok tt, <[p := with_content c o]> f)
  end.
End process.

Definition with_owner (uid gid : Z) (e : entry) : entry :=
  {| kind := e.(kind); owner := uid; grp := gid; mode := e.(mode) |}.
Definition with_mode (m : Z) (e : entry) : entry :=
  {| kind := e.(kind); owner := e.(owner); grp := e.(grp); mode := m |}.
Definition on_entry (p : string) (g : entry → entry) : M Fs anyhow unit := λ f,
  match f !! p with
  | Some e => (Ok tt, <[p := g e]> f)
  | None => (Err (Msg "No such file or directory"), f)
  end.

(** ** Facts *)
(** Every entry's ancestors are directories. *)
Definition tree (f : Fs) : Prop := ∀ p q, is_Some (f !! p) → under q p = true →
  ∃ e, f !! q = Some e ∧ e.(kind) = Dir.

Lemma prefixes_self acc s : acc +:+ s ∈ prefixes acc s.
Proof.
  revert acc. induction s as [|c s IH]; intros acc; cbn.
  - rewrite append_nil_r. constructor.
  - apply elem_of_app. right.
    replace (acc +:+ String c s) with ((acc +:+ String c EmptyString) +:+ s); [apply IH|].
    by rewrite append_assoc.
Qed.
Lemma prefixes_length acc s q : q ∈ prefixes acc s → (String.length q <= String.length acc + String.length s)%nat.
Proof.
  revert acc. induction s as [|c s IH]; intros acc; cbn.
  - intros ->%list_elem_of_singleton. lia.
  - intros [Hq|Hq]%elem_of_app.
    + destruct (_ && _); [|by apply not_elem_of_nil in Hq].
      apply list_elem_of_singleton in Hq as ->. lia.
    + apply IH in Hq. rewrite length_append in Hq. cbn in Hq. lia.
Qed.
Lemma under_not_prefix dir p : under dir p = true → p ∉ prefixes "" dir.
Proof.
  intros [r ->]%starts_with_spec Hq%prefixes_length. rewrite !length_append in Hq. cbn in Hq. lia.
Qed.
Lemma under_ne dir p : under dir p = true → p ≠ dir.
Proof.
  intros [r ->]%starts_with_spec Heq%(f_equal String.length).
  rewrite !length_append in Heq. cbn in Heq. lia.
Qed.

(** The test of [tree] on a concrete store. *)
Fixpoint str_prefixes (s : string) : list string :=
  match s with
  | EmptyString => [EmptyString]
  | String c s => EmptyString :: map (String c) (str_prefixes s)
  end.
Lemma elem_of_str_prefixes q r : q ∈ str_prefixes (q +:+ r).
Proof.
  induction q as [|c q IH]; [destruct r; constructor|]. rewrite append_cons. cbn.
  apply elem_of_cons. right. by apply list_elem_of_fmap_2.
Qed.
Definition is_dir (o : option entry) : bool :=
  match o with Some {| kind := Dir |} => true | _ => false end.
Definition tree_b (f : Fs) : bool :=
  forallb (λ kv, forallb (λ q, negb (under q kv.1) || is_dir (f !! q)) (str_prefixes kv.1))
    (map_to_list f).
Lemma tree_b_sound f : tree_b f = true → tree f.
Proof.
  unfold tree_b. intros Hb p q [e He%elem_of_map_to_list] Hu.
  rewrite forallb_forall in Hb. apply list_elem_of_In in He. specialize (Hb _ He).
  rewrite forallb_forall in Hb. cbn in Hb.
  assert (In q (str_prefixes p)) as Hq.
  { apply starts_with_spec in Hu as [r ->]. apply list_elem_of_In.
    rewrite append_assoc. apply elem_of_str_prefixes. }
  specialize (Hb _ Hq). rewrite Hu in Hb. cbn in Hb. unfold is_dir in Hb.
  destruct (f !! q) as [[[|] ? ? ?]|]; [by eexists|done..].
Qed.

Section facts.
Context (u dm fm : Z).
Lemma make_dirs_Ok l f f' :
  for_each (make_dir u dm) l f = (Ok tt, f') →
  (∀ q, q ∈ l → ∃ e, f' !! q = Some e ∧ e.(kind) = Dir) ∧
  (∀ q e, f !! q = Some e → f' !! q = Some e) ∧
  (∀ q, q ∉ l → f' !! q = f !! q).
Proof.
  revert f. induction l as [|p l IH]; intros f.
  - intros [= <-]. split_and!; [by intros q ?%not_elem_of_nil|done|done].
  - intros (x & f1 & Hp & Hl)%bind_Ok. destruct (IH _ Hl) as (Hd & Hk & Ho).
    assert (∃ e, f1 !! p = Some e ∧ e.(kind) = Dir) as (e & He & Hkind).
    { unfold make_dir, bind, gets in Hp. destruct (f !! p) as [[[|c] ? ? ?]|] eqn:E; cbn in Hp.
      - injection Hp as _ <-. by eexists.
      - done.
      - injection Hp as _ <-. eexists. by rewrite lookup_insert_eq. }
    assert (∀ q e, f !! q = Some e → f1 !! q = Some e) as Hf1.
    { intros q e' Hq. unfold make_dir, bind, gets in Hp.
      destruct (f !! p) as [[[|c] ? ? ?]|] eqn:E; cbn in Hp;
        [by injection Hp as _ <-|done|].
      injection Hp as _ <-. rewrite lookup_insert_ne; [done|]. intros ->. congruence. }
    split_and!.
    + intros q [->|Hq]%elem_of_cons; [|by apply Hd]. eauto.
    + intros q e' Hq. apply Hk, Hf1, Hq.
    + intros q [Hne Hq]%not_elem_of_cons. rewrite (Ho q Hq).
      unfold make_dir, bind, gets in Hp.
      destruct (f !! p) as [[[|c] ? ? ?]|] eqn:E; cbn in Hp;
        [by injection Hp as _ <-|done|].
      injection Hp as _ <-. by rewrite lookup_insert_ne.
Qed.
Lemma create_dir_all_Ok p f f' :
  create_dir_all u dm p f = (Ok tt, f') →
  (∃ e, f' !! p = Some e ∧ e.(kind) = Dir) ∧
  (∀ q e, f !! q = Some e → f' !! q = Some e) ∧
  (∀ q, under p q = true → f' !! q = f !! q).
Proof.
  intros (Hd & Hk & Ho)%make_dirs_Ok. split_and!; [|done|].
  - apply Hd. apply (prefixes_self "").
  - intros q Hq. apply Ho. by apply under_not_prefix.
Qed.
(** Nothing is left under a directory that was just removed. *)
Lemma remove_dir_all_empty p q f :
  tree f → (∀ e, f !! p = Some e → e.(kind) = Dir) →
  under p q = true → (remove_dir_all p f).2 !! q = None.
Proof.
  intros Ht Hd Hu. unfold remove_dir_all. destruct (f !! p) as [e|] eqn:E.
  - specialize (Hd e eq_refl). destruct e as [[|]]; cbn in Hd; [|done]. cbn.
    apply map_lookup_filter_None. right. intros x _ [_ Hn]. cbn in Hn. congruence.
  - cbn. destruct (f !! q) eqn:Eq; [|done].
    destruct (Ht q p) as (e' & He' & _); [eauto|done|congruence].
Qed.
Lemma on_entry_Ok p g f x f' :
  on_entry p g f = (Ok x, f') → ∃ e, f !! p = Some e ∧ f' = <[p:=g e]> f.
Proof. unfold on_entry. destruct (f !! p); [|done]. intros [= _ <-]. eauto. Qed.
Lemma write_Ok p c f x f' :
  write u fm p c f = (Ok x, f') →
  f' = <[p:=with_content u fm c (f !! p)]> f.
Proof. unfold write. destruct (f !! p) as [[[|] ? ? ?]|] eqn:E; [done|..]; by intros [= _ <-]. Qed.
End facts.

End fs.

(** ** Identities *)
Module sandbox.
Import fs.

Record Sandbox := { uid : Z; gid : Z; cache_dir : string }.

(** [base + u32::try_from(slot?).ok()?], on [u32]; the release profile wraps. *)
Definition uid_for (is_root : bool) (base : option Z) (slot : option Z) : option Z :=
  base ← base;
  if negb is_root then None else
  slot ← slot;
  if (0 <=? slot)%Z && (slot <? 2^32)%Z then Some (u32_wrap (base + slot)) else None.

Definition chown (p : string) (uid gid : Z) : M Fs anyhow unit :=
  refuse_if (contains (bytes [0%N]) p) (Msg "path contains NUL") ;;;
  on_entry p (with_owner uid gid).
(** 0o700 *)
Definition PRIVATE : Z := 448.
Definition set_private (p : string) : M Fs anyhow unit := on_entry p (with_mode PRIVATE).
(** 0o600 *)
Definition lock_database (db_path : string) : M Fs anyhow unit :=
  for_each (λ suffix, ignore (on_entry (db_path +:+ suffix) (with_mode 384)))
    [""; "-wal"; "-shm"].

(** [Path::parent]: the text before the last slash. *)
Definition parent (p : string) : option string :=
  match split_once "/" (str_rev p) with
  | Some (_, r) => Some (if is_empty r then "/" else str_rev r)
  | None => if is_empty p then None else Some ""
  end.
Definition prepare (hub_uid dir_mode : Z) (u : Z) (env_dir : string) : M Fs anyhow Sandbox :=
  let root := join (default env_dir (parent env_dir)) "sandbox" in
  let cache := join root (pretty u) in
  create_dir_all hub_uid dir_mode cache ;;;
  chown cache u u ;;;
  set_private cache ;;;
  ret {| uid := u; gid := u; cache_dir := cache |}.

(** ** The identity of an account (lib.rs, [AppState]) *)
Definition sandbox_uid (is_root : bool) (base : option Z) (user_id : string) (d : Db) : option Z :=
  uid_for is_root base (users.sandbox_slot user_id d).
(** Reads the database, then prepares the cache directory. *)
Definition sandbox_or_fail (hub_uid dir_mode : Z) (is_root : bool) (base : option Z)
    (env_dir user_id : string) : M (Db * Fs) anyhow (option Sandbox) :=
  if bool_decide (base = None) || negb is_root then ret None else
  let* slot := on_fst (gets (users.sandbox_slot user_id)) in
  let* slot := ok_or slot (Msg "sandbox is required but the user has no UID slot") in
  let* u := ok_or (uid_for is_root base (Some slot))
              (Msg "sandbox is required but its UID could not be derived") in
  let* sb := on_snd (map_err (λ e, match e with
               | Msg m => Msg ("sandbox is required but could not be prepared: " +:+ m)
               | e => e end) (prepare hub_uid dir_mode u env_dir)) in
  ret (Some sb).

(** ** Facts *)
(** It only reads the database. *)
Lemma preserves_sandbox_or_fail D hub_uid dm is_root base env_dir uid :
  preserves (λ st, D st.1) (sandbox_or_fail hub_uid dm is_root base env_dir uid).
Proof.
  unfold sandbox_or_fail. destruct (_ || _); [auto with hub|].
  repeat (apply preserves_bind; [solve [auto with hub]|intros ?]). auto with hub.
Qed.
#[global] Hint Resolve preserves_sandbox_or_fail : hub.
Lemma uid_for_Some is_root base slot u :
  uid_for is_root base slot = Some u →
  is_root = true ∧ ∃ b s, base = Some b ∧ slot = Some s ∧ (0 ≤ s < 2^32)%Z ∧ u = u32_wrap (b + s).
Proof.
  unfold uid_for. destruct base as [b|]; [|done]. destruct is_root; [|done]. cbn.
  destruct slot as [s|]; [|done]. cbn. case_match eqn:E; [|done]. intros [= <-].
  bool_prop. split; [done|]. exists b, s. split_and!; [done..|lia| |done]. lia.
Qed.

(** With the sandbox on and the UID range inside 32 bits, no two accounts run
    their backends under one UID, and none runs them as root. *)
Theorem sandbox_uids_distinct d base u1 u2 x :
  wf d → (0 < base)%Z → (∀ k s, users.sandbox_slot k d = Some s → base + s < 2^32)%Z →
  sandbox_uid true (Some base) u1 d = Some x → x ≠ 0%Z ∧
  (sandbox_uid true (Some base) u2 d = Some x → u1 = u2).
Proof.
  unfold sandbox_uid. intros Hwf Hb Hr (_ & b & s & [= <-] & Hs & Hs0 & ->)%uid_for_Some.
  pose proof (Hr _ _ Hs) as Hlt. unfold u32_wrap. rewrite Z.mod_small by lia.
  split; [lia|]. intros (_ & b & s' & [= <-] & Hs' & Hs0' & Heq)%uid_for_Some.
  pose proof (Hr _ _ Hs') as Hlt'. unfold u32_wrap in Heq. rewrite Z.mod_small in Heq by lia.
  assert (s' = s) as -> by lia. clear Heq. unfold users.sandbox_slot in *.
  destruct (d.(Schema.users) !! u1) as [r1|] eqn:E1; [|done].
  destruct (d.(Schema.users) !! u2) as [r2|] eqn:E2; [|done].
  exact (wf_slot _ Hwf _ _ _ _ _ E1 E2 Hs Hs').
Qed.
Lemma sandbox_uids_distinct_witness :
  10000%Z ≠ 0%Z ∧ (sandbox_uid true (Some 10000%Z) "root" db2 = Some 10000%Z → "u" = "root").
Proof.
  apply (sandbox_uids_distinct db2 10000 "u" "root" 10000); [apply wf_db2|lia| |reflexivity].
  intros k s. unfold users.sandbox_slot.
  destruct (db2.(Schema.users) !! k) as [r|] eqn:E; [|done]. cbn in E.
  intros Hs. apply lookup_insert_Some in E as [[_ <-]|[_ E]]; [by injection Hs as <-|].
  apply lookup_insert_Some in E as [[_ <-]|[_ E%lookup_empty_Some]]; [by injection Hs as <-|done].
Defined.

(** Nothing bounds the configured base: at its top the sum wraps and the
    second account's backends run as root. *)
Theorem uid_for_wraps_to_root : uid_for true (Some (2^32 - 1)%Z) (Some 1%Z) = Some 0%Z.
Proof. reflexivity. Qed.

(** C36: with a sandbox base configured and the hub running as root, a backend is
    never handed to the caller without a sandbox: the identity is the account's
    own, or the call fails. *)
Theorem sandbox_fails_closed hub_uid dm base env_dir user_id d f o st :
  sandbox_or_fail hub_uid dm true (Some base) env_dir user_id (d, f) = (Ok o, st) →
  ∃ sb, o = Some sb ∧ sandbox_uid true (Some base) user_id d = Some sb.(uid) ∧ st.1 = d.
Proof.
  unfold sandbox_or_fail. rewrite bool_decide_false by done. intros Hr.
  cbn [negb orb] in Hr. m_inv.
  match goal with H : prepare _ _ _ _ _ = _ |- _ => unfold prepare in H; m_inv end.
  eexists. split_and!; [done| |congruence]. unfold sandbox_uid.
  by match goal with H : users.sandbox_slot _ _ = Some _ |- _ => rewrite H end.
Qed.
Lemma sandbox_fails_closed_witness :
  ∃ sb, Some {| uid := 10000; gid := 10000; cache_dir := "/data/sandbox/10000" |} = Some sb ∧
    sandbox_uid true (Some 10000%Z) "u" db2 = Some sb.(uid) ∧
    (sandbox_or_fail 0 493 true (Some 10000%Z) "/data/envs" "u" (db2, ∅)).2.1 = db2.
Proof.
  apply (sandbox_fails_closed 0 493 10000 "/data/envs" "u" db2 ∅
    (Some {| uid := 10000; gid := 10000; cache_dir := "/data/sandbox/10000" |})
    (sandbox_or_fail 0 493 true (Some 10000%Z) "/data/envs" "u" (db2, ∅)).2).
  vm_compute; reflexivity.
Defined.

End sandbox.
