(* ===== verification/Backend.v ===== *)
(** * One backend connection (proxy/backend.rs)

    The names a backend's tools, prompts and resources have under the hub, the
    credential an http backend is given, and the environment, files and limits
    of a stdio child.  The connection itself is rmcp's: a record of its answers. *)

From stdpp Require Import pretty.
From S2P Require Import Prelude Strs Schema External Util Json Config Instances Sandbox.
Open Scope string_scope.
Open Scope hub_scope.

(** [.context(c)]. *)
Definition context {A} (c : string) (r : result anyhow A) : result anyhow A :=
  match r with Ok a => Ok a | Err e => Err (Context c e) end.
Definition ctx {S A} (c : string) (m : M S anyhow A) : M S anyhow A := map_err (Context c) m.

(** ** The connection *)
Module rmcp.
(** The fields the hub rewrites; [more] is the rest of the value. *)
Record Tool := { tool_name : string; tool_more : string }.
Record Prompt := { prompt_name : string; prompt_more : string }.
Record Resource := { uri : string; resource_more : string }.
Record ResourceTemplate := { uri_template : string; template_more : string }.
Inductive ResourceContents :=
| TextResourceContents (uri text : string)
| BlobResourceContents (uri blob : string)
| OtherContents (value : string).
Record CallToolResult := {
  is_error : option bool; content : string; structured_content : option json.Value }.
Record ServerInfo := { has_tools : bool; has_prompts : bool; has_resources : bool; more : string }.
Definition Args : Type := option json.JsonObject.

(** What a live peer answers to each request. *)
Record Peer := {
  peer_info : ServerInfo;
  is_transport_closed : bool;
  list_all_tools : result anyhow (list Tool);
  list_all_prompts : result anyhow (list Prompt);
  list_all_resources : result anyhow (list Resource);
  list_all_resource_templates : result anyhow (list ResourceTemplate);
  peer_read_resource : string → result anyhow (list ResourceContents);
  peer_get_prompt : string → Args → result anyhow string;
  peer_call_tool : string → Args → result anyhow CallToolResult }.
End rmcp.

Module backend.
Import rmcp.

Record Backend := { instance_id : string; namespace : string; display_name : string; peer : Peer }.

(** ** Names *)
Definition namespaced (ns n : string) : string := ns +:+ "__" +:+ n.
Definition wrap_uri (ns original : string) : string := "hub://" +:+ ns +:+ "/" +:+ original.
Definition unwrap_uri (wrapped : string) : option (string * string) :=
  r ← strip_prefix "hub://" wrapped; split_once "/" r.

Definition map_ok {A B} (f : A → B) (r : result anyhow (list A)) : result anyhow (list B) :=
  match r with Ok l => Ok (map f l) | Err e => Err e end.
Definition list_namespaced_tools (b : Backend) : result anyhow (list Tool) :=
  map_ok (λ t, {| tool_name := namespaced b.(namespace) t.(tool_name); tool_more := t.(tool_more) |})
    (context ("listing tools for '" +:+ b.(namespace) +:+ "'") b.(peer).(list_all_tools)).
Definition list_namespaced_resources (b : Backend) : result anyhow (list Resource) :=
  map_ok (λ r, {| uri := wrap_uri b.(namespace) r.(uri); resource_more := r.(resource_more) |})
    b.(peer).(list_all_resources).
Definition list_namespaced_resource_templates (b : Backend)
    : result anyhow (list ResourceTemplate) :=
  map_ok (λ t, {| uri_template := wrap_uri b.(namespace) t.(uri_template);
                  template_more := t.(template_more) |})
    b.(peer).(list_all_resource_templates).
Definition list_namespaced_prompts (b : Backend) : result anyhow (list Prompt) :=
  map_ok (λ p, {| prompt_name := namespaced b.(namespace) p.(prompt_name);
                  prompt_more := p.(prompt_more) |})
    b.(peer).(list_all_prompts).
Definition rewrap (ns : string) (c : ResourceContents) : ResourceContents :=
  match c with
  | TextResourceContents u t => TextResourceContents (wrap_uri ns u) t
  | BlobResourceContents u t => BlobResourceContents (wrap_uri ns u) t
  | OtherContents v => OtherContents v
  end.
Definition read_resource (b : Backend) (original : string) : result anyhow (list ResourceContents) :=
  map_ok (rewrap b.(namespace))
    (context ("reading resource on '" +:+ b.(namespace) +:+ "'")
       (b.(peer).(peer_read_resource) original)).
Definition get_prompt (b : Backend) (original : string) (args : Args) : result anyhow string :=
  context ("getting prompt on '" +:+ b.(namespace) +:+ "'")
    (b.(peer).(peer_get_prompt) original args).
Definition call_tool (b : Backend) (original : string) (args : Args)
    : result anyhow CallToolResult :=
  context ("calling tool on '" +:+ b.(namespace) +:+ "'")
    (b.(peer).(peer_call_tool) original args).
Definition is_closed (b : Backend) : bool := b.(peer).(is_transport_closed).

(** ** Capabilities *)
Record CapabilitiesSnapshot := {
  fetched_at : Z; server : ServerInfo; tools : list Tool; prompts : list Prompt;
  resources : list Resource; resource_templates : list ResourceTemplate }.
Definition or_empty {A} (advertised : bool) (r : result anyhow (list A)) : list A :=
  if advertised then match r with Ok l => l | Err _ => [] end else [].
Definition capture_snapshot (p : Peer) (now : Z) : CapabilitiesSnapshot :=
  let s := p.(peer_info) in {|
  fetched_at := now; server := s;
  tools := or_empty s.(has_tools) p.(list_all_tools);
  prompts := or_empty s.(has_prompts) p.(list_all_prompts);
  resources := or_empty s.(has_resources) p.(list_all_resources);
  resource_templates := or_empty s.(has_resources) p.(list_all_resource_templates) |}.

(** ** The credential of an http backend *)
Definition AUTH_KEY : string := "AUTHORIZATION".
Definition AUTH_METHOD_KEY : string := "AUTHORIZATION_METHOD".
Definition eq_ignore_ascii_case (a b : string) : bool :=
  eqs (str_map to_ascii_lowercase a) (str_map to_ascii_lowercase b).

Definition strip_scheme (value scheme : string) : string :=
  let trimmed := trim value in
  match split_once " " trimmed with
  | Some (first, rest) => if eq_ignore_ascii_case first scheme then trim rest else trimmed
  | None => trimmed
  end.
(** The tchar of RFC 7230: every byte of another character is refused. *)
Definition is_token (c : Ascii.ascii) : bool :=
  is_ascii_alphanumeric c || contains (String c EmptyString) "!#$%&'*+-.^_`|~".
Definition validate_scheme (scheme : string) : result anyhow unit :=
  if str_all is_token scheme then Ok tt
  else Err (Msg (AUTH_METHOD_KEY +:+
    " must be a bare auth scheme such as 'Bearer' or 'Basic', got '" +:+ scheme +:+ "'")).

(** [auth_header] is sent as [Authorization: Bearer <value>]; [authorization] is
    the custom header of that name. *)
Record HttpConfig := {
  with_uri : string; auth_header : option string; authorization : option string }.
Definition auth_scheme (env : gmap string string) : string :=
  match env !! AUTH_METHOD_KEY with
  | Some s => if is_empty (trim s) then "Bearer" else trim s
  | None => "Bearer"
  end.
Definition http_config `{HttpCrate} (def : ServerDef) (env : gmap string string)
    : result anyhow HttpConfig :=
  match def.(url) with
  | None => Err (Msg "http backend has no url")
  | Some url =>
      match env !! AUTH_KEY with
      | None | Some "" => Ok {| with_uri := url; auth_header := None; authorization := None |}
      | Some auth =>
          let scheme := auth_scheme env in
          if eq_ignore_ascii_case scheme "Bearer" then
            Ok {| with_uri := url; auth_header := Some (strip_scheme auth "Bearer");
                  authorization := None |}
          else
            let? _ := validate_scheme scheme in
            let value := scheme +:+ " " +:+ strip_scheme auth scheme in
            if header_value_ok value then
              Ok {| with_uri := url; auth_header := None; authorization := Some value |}
            else Err (Msg (AUTH_KEY +:+
              " contains characters that are not valid in an HTTP header"))
      end
  end.

(** ** The stdio child *)
Definition CONFIG_FILE_ENV : string := "MCP_CONFIG_FILE".
Definition CONFIG_FILE_NAME : string := "config".
Definition workdir_path (env_dir iid : string) : string := fs.join (fs.join env_dir "workdir") iid.
Definition home_path (env_dir iid : string) : string := fs.join (fs.join env_dir "home") iid.

Inductive RlimitResource := RLIMIT_NPROC | RLIMIT_DATA | RLIMIT_CPU | RLIMIT_FSIZE.
(** [u64::saturating_mul]. *)
Definition saturating_mul (a b : Z) : Z := Z.min (a * b) (2^64 - 1).
(** The [setrlimit] calls, in order. *)
Definition apply_child_limits (l : config.ChildLimits) : list (RlimitResource * Z) :=
  let set r o (f : Z → Z) := match o with Some n => [(r, f n)] | None => [] end in
  (set RLIMIT_NPROC l.(config.max_procs) (λ n, n) ++
   set RLIMIT_DATA l.(config.max_mem_mb) (λ mb, saturating_mul mb (1024 * 1024)) ++
   set RLIMIT_CPU l.(config.max_cpu_secs) (λ s, s) ++
   set RLIMIT_FSIZE l.(config.max_file_mb) (λ mb, saturating_mul mb (1024 * 1024)))%list%Z.

Record Command := {
  program : string; argv : list string; envs : gmap string string; current_dir : option string;
  run_as : option (Z * Z); limits : list (RlimitResource * Z) }.

Section child.
Context (hub_uid dir_mode file_mode : Z).
Abbreviation create_dir_all := (fs.create_dir_all hub_uid dir_mode).

Definition when_sandboxed (sb : option sandbox.Sandbox)
    (k : sandbox.Sandbox → M fs.Fs anyhow unit) : M fs.Fs anyhow unit :=
  match sb with Some sb => k sb | None => ret tt end.
Definition ensure_home (env_dir iid : string) (sb : option sandbox.Sandbox)
    : M fs.Fs anyhow string :=
  let home := home_path env_dir iid in
  create_dir_all home ;;;
  when_sandboxed sb (λ sb,
    sandbox.chown home sb.(sandbox.uid) sb.(sandbox.gid) ;;; sandbox.set_private home) ;;;
  ret home.
Definition remove_home (env_dir iid : string) : M fs.Fs anyhow unit :=
  ignore (fs.remove_dir_all (home_path env_dir iid)).
(** Returns the file and its directory. *)
Definition write_config_file (env_dir iid content : string) (sb : option sandbox.Sandbox)
    : M fs.Fs anyhow (string * string) :=
  let workdir := workdir_path env_dir iid in
  ignore (fs.remove_dir_all workdir) ;;;
  create_dir_all workdir ;;;
  let file := fs.join workdir CONFIG_FILE_NAME in
  fs.write hub_uid file_mode file content ;;;
  when_sandboxed sb (λ sb,
    sandbox.chown workdir sb.(sandbox.uid) sb.(sandbox.gid) ;;;
    sandbox.chown file sb.(sandbox.uid) sb.(sandbox.gid) ;;;
    sandbox.set_private workdir) ;;;
  ret (file, workdir).
Definition remove_workdir (env_dir iid : string) : M fs.Fs anyhow unit :=
  ignore (fs.remove_dir_all (workdir_path env_dir iid)).

(** The child's environment: [env_clear], then these, the later winning. *)
Definition child_env (env : gmap string string) (path : option string) (home : string)
    (sb : option sandbox.Sandbox) : gmap string string :=
  let vars := (λ v, expand_vars v env) <$> env in
  let vars := match path with Some p => <["PATH":=p]> vars | None => vars end in
  let vars := <["MCP_REMOTE_CONFIG_DIR":=fs.join home ".mcp-auth"]> (<["HOME":=home]> vars) in
  match sb with
  | Some sb =>
      <["npm_config_cache" := sb.(sandbox.cache_dir) +:+ "/npm"]>
      (<["UV_CACHE_DIR" := sb.(sandbox.cache_dir) +:+ "/uv"]>
      (<["XDG_CACHE_HOME" := sb.(sandbox.cache_dir)]>
      (<["USER":="mcp-sandbox"]> vars)))
  | None => vars
  end.
(** [path] is the hub's own [PATH]. *)
Definition stdio_command (def : ServerDef) (env : gmap string string)
    (sb : option sandbox.Sandbox) (env_dir iid : string) (config_file : option string)
    (child_limits : config.ChildLimits) (path : option string) : M fs.Fs anyhow Command :=
  let* program := ok_or def.(command) (Msg "stdio backend has no command") in
  let* home := ensure_home env_dir iid sb in
  let* prepared := match config_file with
    | Some content =>
        let* p := write_config_file env_dir iid content sb in
        ret (<[CONFIG_FILE_ENV:=p.1]> env, Some p.2)
    | None => ret (env, None)
    end in
  let '(env, workdir) := prepared in
  ret {| program := expand_vars program env;
         argv := map (λ a, expand_vars a env) def.(args);
         envs := child_env env path home sb;
         current_dir := workdir;
         run_as := (λ sb, (sb.(sandbox.uid), sb.(sandbox.gid))) <$> sb;
         limits := if config.any child_limits then apply_child_limits child_limits else [] |}.

(** ** Starting a backend *)
Inductive Transport := Stdio (c : Command) | Http (c : HttpConfig).
(** [start] is the exec of the child; [serve] is rmcp's handshake over the
    transport: [None] when it does not answer within the given seconds ([0] waits
    for ever). *)
Context `{HttpCrate} (start : Command → result anyhow unit)
  (serve : Transport → Z → option (result anyhow Peer)).
Definition init_with_timeout (t : Transport) (secs : Z) : result anyhow Peer :=
  match serve t secs with
  | Some r => r
  | None => Err (Msg ("initialize timed out after " +:+ pretty secs +:+ "s"))
  end.
Definition spawn (def : ServerDef) (env : gmap string string) (iid ns dn : string)
    (sb : option sandbox.Sandbox) (env_dir : string) (config_file : option string)
    (child_limits : config.ChildLimits) (path : option string) (secs : Z)
    : M fs.Fs anyhow Backend :=
  let* p :=
    if eqs def.(transport) "stdio" then
      let* cmd := ctx ("backend '" +:+ ns +:+ "'")
        (stdio_command def env sb env_dir iid config_file child_limits path) in
      ctx ("spawning backend '" +:+ ns +:+ "'") (lift (start cmd)) ;;;
      ctx ("initializing stdio backend '" +:+ ns +:+ "'")
        (lift (init_with_timeout (Stdio cmd) secs))
    else if eqs def.(transport) "http" then
      let* c := ctx ("backend '" +:+ ns +:+ "'") (lift (http_config def env)) in
      ctx ("connecting http backend '" +:+ ns +:+ "'")
        (lift (init_with_timeout (Http c) secs))
    else fail (Msg ("unsupported transport '" +:+ def.(transport) +:+ "' for backend '" +:+
                    ns +:+ "'")) in
  ret {| instance_id := iid; namespace := ns; display_name := dn; peer := p |}.
End child.

(** ** Facts: names *)
(** No split inside the namespace: it has no double underscore and does not end
    with an underscore. *)
Definition routable (ns : string) : bool := negb (contains "__" (ns +:+ "_")).

Lemma split_namespaced ns t :
  routable ns = true → split_once "__" (namespaced ns t) = Some (ns, t).
Proof.
  intros Hr%negb_true_iff. apply split_once_spec. intros x [|c y] Heq; [done|]. exfalso.
  destruct (str_last_snoc c y) as [a Ha]. rewrite Ha in Heq.
  change "__" with ("_" +:+ "_") in Heq at 1. rewrite <- !append_assoc in Heq.
  apply append_snoc_inj in Heq as [Heq _]. rewrite Heq, !append_assoc, contains_app in Hr. done.
Qed.
Lemma split_unroutable ns t :
  routable ns = false →
  ∃ a b, split_once "__" (namespaced ns t) = Some (a, b) ∧
         (String.length a < String.length ns)%nat.
Proof.
  unfold routable, contains. destruct (split_once "__" (ns +:+ "_")) as [[a b]|] eqn:E; [|done].
  intros _. exists a, (b +:+ "_" +:+ t). split.
  - unfold namespaced. change "__" with ("_" +:+ "_") at 2.
    rewrite append_assoc, <- (append_assoc ns). by apply split_once_app_Some.
  - apply split_once_Some, (f_equal String.length) in E. rewrite !length_append in E.
    cbn in E. lia.
Qed.

Lemma unwrap_uri_Some w ns u : unwrap_uri w = Some (ns, u) → w = wrap_uri ns u.
Proof.
  unfold unwrap_uri, wrap_uri. destruct (strip_prefix "hub://" w) as [r|] eqn:E; [|done].
  intros ->%split_once_Some. apply strip_prefix_Some in E as ->. done.
Qed.

(** A resource URI wrapped for the client unwraps to the backend it came from
    and to its original text, exactly when the namespace has no slash; and only
    wrapped URIs unwrap. *)
Theorem uri_round_trip ns u w :
  (unwrap_uri (wrap_uri ns u) = Some (ns, u) ↔ contains "/" ns = false) ∧
  (∀ ns' u', unwrap_uri w = Some (ns', u') → w = wrap_uri ns' u').
Proof.
  split; [|apply unwrap_uri_Some]. unfold unwrap_uri, wrap_uri.
  rewrite strip_prefix_app. change (Some (?a) ≫= ?k) with (k a). cbn [mbind option_bind]. split.
  - intros Hs. unfold contains. destruct (split_once "/" ns) as [[a b]|] eqn:E; [|done].
    apply (split_once_app_Some _ _ ("/" +:+ u)) in E as E'. rewrite E' in Hs.
    injection Hs as -> Hb. apply split_once_Some, (f_equal String.length) in E.
    rewrite !length_append in E. cbn in E. lia.
  - intros Hn. apply split_once_spec. intros x [|c y] Heq; [done|]. exfalso.
    destruct (str_last_snoc c y) as [a Ha]. rewrite Ha, <- !append_assoc in Heq.
    apply append_snoc_inj in Heq as [Heq _].
    rewrite Heq, append_assoc, contains_app in Hn. done.
Qed.

(** ** Facts: the credential *)
Lemma token_no_break s : str_all is_token s = true → no_line_break s = true.
Proof.
  unfold no_line_break. induction s as [|c s IH]; [done|]. cbn.
  rewrite !andb_true_iff. intros [Hc Hs]. split; [|by apply IH].
  apply negb_true_iff, orb_false_iff. split; apply N.eqb_neq; intros Hb.
  all: assert (is_token (Ascii.ascii_of_N (byte c)) = true) as Ht
    by (unfold byte; by rewrite (Ascii.ascii_N_embedding c)).
  all: rewrite Hb in Ht; vm_compute in Ht; discriminate.
Qed.

(** An http backend is sent one credential at most: none without
    [AUTHORIZATION]; a bearer value, or else a single [Authorization] header that
    is a bare scheme other than [Bearer], a space and the credential, with no line
    break in it that could add a header. *)
Theorem http_config_credential `{HttpLaws} def env c :
  http_config def env = Ok c →
  def.(url) = Some c.(with_uri) ∧
  match env !! AUTH_KEY with
  | None | Some "" => c.(auth_header) = None ∧ c.(authorization) = None
  | Some auth =>
      let scheme := auth_scheme env in
      (eq_ignore_ascii_case scheme "Bearer" = true ∧
       c.(auth_header) = Some (strip_scheme auth "Bearer") ∧ c.(authorization) = None) ∨
      (eq_ignore_ascii_case scheme "Bearer" = false ∧ str_all is_token scheme = true ∧
       c.(auth_header) = None ∧
       ∃ v, c.(authorization) = Some v ∧ v = scheme +:+ " " +:+ strip_scheme auth scheme ∧
            no_line_break v = true)
  end.
Proof.
  unfold http_config. destruct (def.(url)) as [u|]; [|done].
  destruct (env !! AUTH_KEY) as [[|a auth]|]; [by intros [= <-]| |by intros [= <-]].
  destruct (eq_ignore_ascii_case (auth_scheme env) "Bearer").
  - intros [= <-]. split; [done|]. by left.
  - unfold validate_scheme. destruct (str_all is_token (auth_scheme env)) eqn:Et; [|done]. cbn.
    destruct (header_value_ok _) eqn:Ev; [|done]. intros [= <-]. split; [done|]. right.
    split_and!; [done..|]. eexists. split_and!; [done..|]. by apply header_value_no_break.
Qed.

(** ** Facts: the child *)
(** The variables the hub sets over the configured ones, with their values. *)
Definition pinned_vars (path : option string) (home : string) (sb : option sandbox.Sandbox)
    : list (string * string) :=
  ((λ p, ("PATH", p)) <$> option_list path) ++
  [("HOME", home); ("MCP_REMOTE_CONFIG_DIR", fs.join home ".mcp-auth")] ++
  match sb with
  | Some sb => [("USER", "mcp-sandbox"); ("XDG_CACHE_HOME", sb.(sandbox.cache_dir));
      ("UV_CACHE_DIR", sb.(sandbox.cache_dir) +:+ "/uv");
      ("npm_config_cache", sb.(sandbox.cache_dir) +:+ "/npm")]
  | None => []
  end.
Lemma child_env_lookup env path home sb :
  let e := child_env env path home sb in
  (∀ k v, (k, v) ∈ pinned_vars path home sb → e !! k = Some v) ∧
  ∀ k, k ∉ (pinned_vars path home sb).*1 → e !! k = (λ v, expand_vars v env) <$> env !! k.
Proof.
  cbn zeta. unfold child_env, pinned_vars. split.
  - intros k v Hk. destruct path, sb; cbn in Hk;
      repeat (apply elem_of_cons in Hk as [[= -> ->]|Hk]; [by simplify_map_eq|]);
      by apply elem_of_nil in Hk.
  - intros k Hk. destruct path, sb; cbn in Hk; rewrite ?not_elem_of_cons in Hk; destruct_and?;
      by rewrite ?lookup_insert_ne, lookup_fmap by done.
Qed.
Lemma ensure_home_Ok u dm env_dir iid sb f home f' :
  ensure_home u dm env_dir iid sb f = (Ok home, f') → home = home_path env_dir iid.
Proof. unfold ensure_home. intros Hr. by m_inv. Qed.
Lemma write_config_file_Ok u dm fm env_dir iid content sb f file dir f' :
  write_config_file u dm fm env_dir iid content sb f = (Ok (file, dir), f') →
  dir = workdir_path env_dir iid ∧ file = fs.join dir CONFIG_FILE_NAME.
Proof. unfold write_config_file. intros Hr. m_inv. by split. Qed.

(** ** Facts: the files *)
(** An instance id: one path component. *)
Definition component (s : string) : bool := negb (is_empty s) && negb (contains "/" s).
Lemma component_last c s d :
  component s = true → str_last c (d +:+ s) = str_last c s ∧
  (byte (str_last c s) =? 47)%N = false.
Proof.
  unfold component. rewrite andb_true_iff, !negb_true_iff. intros [He Hc].
  destruct s as [|x s]; [done|]. split.
  - revert c. induction d as [|y d IH]; intros c; [done|]. rewrite append_cons. cbn [str_last].
    rewrite IH. done.
  - change (str_last c (String x s)) with (str_last x s).
    destruct (str_last_snoc x s) as [a Ha].
    apply N.eqb_neq. intros Hb.
    assert (str_last x s = Ascii.ascii_of_N 47) as Hx
      by (rewrite <- Hb; symmetry; apply Ascii.ascii_N_embedding).
    rewrite Hx in Ha. rewrite Ha in Hc.
    pose proof (contains_app "/" a "") as Hin. rewrite append_nil_r in Hin.
    change (String (Ascii.ascii_of_N 47) "") with "/" in Hc. congruence.
Qed.
Lemma component_relative s : component s = true → starts_with "/" s = false.
Proof.
  unfold component. rewrite andb_true_iff, !negb_true_iff. intros [_ Hc].
  destruct (starts_with "/" s) eqn:E; [|done]. apply starts_with_spec in E as [r ->].
  pose proof (contains_app "/" "" r) as Hin. rewrite append_nil_l in Hin. congruence.
Qed.
(** Joining a component gives a path that further joins extend with a slash. *)
Lemma join_component a s b :
  component s = true → component b = true →
  fs.join (fs.join a s) b = fs.join a s +:+ "/" +:+ b.
Proof.
  intros Hs Hb. unfold fs.join at 1. rewrite (component_relative _ Hb).
  assert (∃ d, fs.join a s = d +:+ s) as [d ->].
  { unfold fs.join. rewrite (component_relative _ Hs). repeat case_match.
    - by exists "".
    - by exists a.
    - exists (a +:+ "/"). by rewrite append_assoc. }
  destruct (component_last (Ascii.ascii_of_N 47) s d Hs) as [Hl He]. rewrite Hl, He.
  destruct (d +:+ s) eqn:E; [|done]. apply append_eq_nil in E as [_ ->]. done.
Qed.

Lemma join_inj d s1 s2 :
  component s1 = true → component s2 = true → fs.join d s1 = fs.join d s2 → s1 = s2.
Proof.
  intros H1 H2. unfold fs.join. rewrite !component_relative by done.
  repeat case_match; [done|by intros ?%append_inj_l|].
  intros Heq%append_inj_l. by apply (append_inj_l "/") in Heq.
Qed.

(** C37: what the hub gives a stdio child.  The child runs the configured command, its
    arguments expanded, under the account's sandbox identity.  Its environment is pinned
    name by name: [HOME] and [MCP_REMOTE_CONFIG_DIR] are in the instance's own directory,
    which no other instance shares, [PATH] is the hub's when it has one, and under the sandbox
    [USER] and the three cache directories are the sandbox's, whatever the configuration says; every
    other variable, [MCP_CONFIG_FILE] included when a config file is attached, has its
    configured value, expanded, or is absent.  Nothing else of the hub's environment gets
    in. *)
Theorem child_env_isolated u dm fm def env sb env_dir iid config_file lim path f cmd f' :
  stdio_command u dm fm def env sb env_dir iid config_file lim path f = (Ok cmd, f') →
  let home := home_path env_dir iid in
  let workdir := workdir_path env_dir iid in
  let configured := match config_file with
    | Some _ => <[CONFIG_FILE_ENV := fs.join workdir CONFIG_FILE_NAME]> env | None => env end in
  let expand v := expand_vars v configured in
  def.(command) ≠ None ∧ Some cmd.(program) = expand <$> def.(command) ∧
  cmd.(argv) = map expand def.(args) ∧
  cmd.(run_as) = (λ s, (s.(sandbox.uid), s.(sandbox.gid))) <$> sb ∧
  cmd.(current_dir) = (λ _, workdir) <$> config_file ∧
  (∀ k v, (k, v) ∈ pinned_vars path home sb → cmd.(envs) !! k = Some v) ∧
  (∀ k, k ∉ (pinned_vars path home sb).*1 → cmd.(envs) !! k = expand <$> configured !! k) ∧
  ∀ other, component iid = true → component other = true →
    home_path env_dir other = home → other = iid.
Proof.
  unfold stdio_command. intros (p & f1 & [Hp ->]%ok_or_Ok & Hr)%bind_Ok.
  apply bind_Ok in Hr as (home & f2 & ->%ensure_home_Ok & Hr).
  apply bind_Ok in Hr as ([env1 dir] & f3 & Hc & [<- _]%ret_Ok). cbv zeta.
  assert (env1 = match config_file with Some _ => <[CONFIG_FILE_ENV :=
      fs.join (workdir_path env_dir iid) CONFIG_FILE_NAME]> env | None => env end ∧
    dir = (λ _, workdir_path env_dir iid) <$> config_file) as [<- ->].
  { destruct config_file; [|by apply ret_Ok in Hc as [[= <- <-] _]].
    apply bind_Ok in Hc as ([file d] & f4 & [-> ->]%write_config_file_Ok & Hc).
    by apply ret_Ok in Hc as [[= <- <-] _]. }
  destruct (child_env_lookup env1 path (home_path env_dir iid) sb) as [Hin Hout].
  rewrite Hp. split_and!; try done. intros other Hi Ho. by apply join_inj.
Qed.

Section files.
Context (u dm fm : Z).
Lemma chown_Ok p a b f x f' :
  sandbox.chown p a b f = (Ok x, f') →
  ∃ e, f !! p = Some e ∧ f' = <[p:=fs.with_owner a b e]> f.
Proof. intros (y & s & [_ ->]%refuse_if_Ok & Hr)%bind_Ok. by eapply fs.on_entry_Ok. Qed.

(** Writing an instance's config file leaves its working directory with that
    file only, whatever an earlier run left there, owned by the account's sandbox
    UID and closed to every other. *)
Theorem write_config_file_spec env_dir iid content sb f file dir f' :
  component iid = true → fs.tree f →
  write_config_file u dm fm env_dir iid content (Some sb) f = (Ok (file, dir), f') →
  dir = workdir_path env_dir iid ∧ file = dir +:+ "/config" ∧
  (∃ e, f' !! dir = Some e ∧ e.(fs.kind) = fs.Dir ∧ e.(fs.owner) = sb.(sandbox.uid) ∧
        e.(fs.mode) = sandbox.PRIVATE) ∧
  (∃ e, f' !! file = Some e ∧ e.(fs.kind) = fs.File content ∧
        e.(fs.owner) = sb.(sandbox.uid)) ∧
  ∀ p, fs.under dir p = true → p ≠ file → f' !! p = None.
Proof.
  intros Hi Ht Hr. unfold write_config_file in Hr.
  assert (fs.join (workdir_path env_dir iid) CONFIG_FILE_NAME =
          workdir_path env_dir iid +:+ "/config") as Hj
    by (unfold workdir_path; by rewrite join_component).
  set (d := workdir_path env_dir iid) in *. rewrite Hj in Hr.
  set (c := d +:+ "/config") in *.
  assert (fs.under d c = true) as Hc
    by (apply starts_with_spec; exists "config"; subst c; by rewrite append_assoc).
  pose proof (fs.under_ne _ _ Hc) as Hne.
  apply bind_Ok in Hr as (? & f1 & [= _ Hf1] & Hr).
  apply bind_Ok in Hr as ([] & f2 & ((e2 & He2 & Hk2) & Hmono & Hu2)%fs.create_dir_all_Ok & Hr).
  apply bind_Ok in Hr as (? & f3 & ->%fs.write_Ok & Hr).
  apply bind_Ok in Hr as (? & f4 & Hw & [[= <- <-] ->]%ret_Ok). cbn in Hw.
  apply bind_Ok in Hw as (? & f5 & (e5 & He5 & ->)%chown_Ok & Hw).
  apply bind_Ok in Hw as (? & f6 & (e6 & He6 & ->)%chown_Ok & Hw).
  apply fs.on_entry_Ok in Hw as (e7 & He7 & ->).
  rewrite lookup_insert_ne in He5 by done.
  rewrite lookup_insert_ne, lookup_insert_eq in He6 by done.
  rewrite lookup_insert_ne, lookup_insert_eq in He7 by done.
  injection He6 as <-. injection He7 as <-.
  rewrite He2 in He5. injection He5 as <-.
  split_and!; [done..| | |].
  - rewrite lookup_insert_eq. by eexists.
  - rewrite lookup_insert_ne, lookup_insert_eq by done. eexists. split_and!; [done| |done].
    unfold fs.with_content. by destruct (f2 !! c).
  - intros p Hp Hpc. pose proof (fs.under_ne _ _ Hp).
    rewrite !lookup_insert_ne by done. rewrite (Hu2 p Hp).
    rewrite <- Hf1 in *. apply fs.remove_dir_all_empty; [done| |done].
    intros e He. destruct e as [[|k] ? ? ?]; [done|]. exfalso.
    unfold fs.remove_dir_all in Hmono. rewrite He in Hmono. cbn in Hmono.
    specialize (Hmono _ _ He). by simplify_eq.
Qed.
End files.

(** *** Witnesses *)
Definition http0 : HttpCrate := {| header_value_ok := no_line_break |}.
Lemma http0_laws : @HttpLaws http0.
Proof. by split. Qed.
Definition def0 : ServerDef := {|
  Schema.name := "n"; description := ""; transport := "http"; command := None; args := [];
  url := Some "https://x"; runtime := ""; repo := None; git_ref := None; entry := None;
  module := None; connect_timeout_secs := None |}.
Definition env_basic : gmap string string := {[AUTH_KEY := "Basic abc"; AUTH_METHOD_KEY := "Basic"]}.
Definition config_basic : HttpConfig :=
  {| with_uri := "https://x"; auth_header := None; authorization := Some "Basic abc" |}.
Lemma http_config_credential_witness :
  no_line_break "Basic abc" = true ∧ config_basic.(auth_header) = None.
Proof.
  destruct (http_config_credential (H:=http0) (H0:=http0_laws) def0 env_basic config_basic)
    as [_ Hc]; [vm_compute; reflexivity|].
  vm_compute in Hc. split; reflexivity.
Defined.
Lemma uri_round_trip_witness : "hub://fs/file:///a" = wrap_uri "fs" "file:///a".
Proof. apply (uri_round_trip "fs" "file:///a"). reflexivity. Defined.

Definition sandbox0 : sandbox.Sandbox :=
  {| sandbox.uid := 10000; sandbox.gid := 10000; sandbox.cache_dir := "/s/10000" |}.
(** A working directory with a file an earlier configuration left. *)
Definition stale_fs : fs.Fs :=
  let dir := {| fs.kind := fs.Dir; fs.owner := 0; fs.grp := 0; fs.mode := 493 |} in
  {["" := dir; "/e" := dir; "/e/workdir" := dir; "/e/workdir/i" := dir;
    "/e/workdir/i/old" := {| fs.kind := fs.File "secret"; fs.owner := 0; fs.grp := 0;
                             fs.mode := 420 |}]}.
(** A server whose configuration tries to set the hub's variables. *)
Definition stdio0 : ServerDef := {|
  Schema.name := "n"; description := ""; transport := "stdio"; command := Some "npx";
  args := ["--config"; "${MCP_CONFIG_FILE}"]; url := None; runtime := ""; repo := None;
  git_ref := None; entry := None; module := None; connect_timeout_secs := None |}.
Definition greedy : gmap string string :=
  {["HOME" := "/root"; "UV_CACHE_DIR" := "/root/uv"; "KEY" := "${HOME}/k"]}.
Definition child0 := stdio_command 0 493 420 stdio0 greedy (Some sandbox0) "/e" "i" (Some "cfg")
  {| config.max_procs := None; config.max_mem_mb := None; config.max_cpu_secs := None;
     config.max_file_mb := None |} (Some "/usr/bin") stale_fs.
Lemma child_env_isolated_witness :
  ∃ cmd, child0.1 = Ok cmd ∧ cmd.(argv) = ["--config"; "/e/workdir/i/config"] ∧
    cmd.(envs) !! "HOME" = Some "/e/home/i" ∧ cmd.(envs) !! "UV_CACHE_DIR" = Some "/s/10000/uv" ∧
    cmd.(envs) !! "KEY" = Some "/root/k" ∧ cmd.(envs) !! "LD_PRELOAD" = None.
Proof.
  destruct child0 as [[cmd|e] f'] eqn:E; [|vm_compute in E; discriminate E].
  unfold child0 in E. destruct (child_env_isolated _ _ _ _ _ _ _ _ _ _ _ _ _ _ E)
    as (_ & _ & Ha & _ & _ & Hin & Hout & _).
  exists cmd. split; [reflexivity|]. split; [rewrite Ha; vm_compute; reflexivity|].
  split; [apply Hin; apply list_elem_of_In; vm_compute; tauto|].
  split; [apply Hin; apply list_elem_of_In; vm_compute; tauto|].
  split; (rewrite Hout; [vm_compute; reflexivity|]);
    intros Hk%list_elem_of_In; vm_compute in Hk; intuition discriminate.
Defined.
Lemma write_config_file_spec_witness :
  (write_config_file 0 493 420 "/e" "i" "new" (Some sandbox0) stale_fs).2 !! "/e/workdir/i/old"
  = None.
Proof.
  apply (write_config_file_spec 0 493 420 "/e" "i" "new" sandbox0 stale_fs
    "/e/workdir/i/config" "/e/workdir/i"); [reflexivity| |vm_compute; reflexivity|reflexivity|done].
  apply fs.tree_b_sound. vm_compute; reflexivity.
Defined.
End backend.
