(* ===== verification/Gitsrc.v ===== *)
(** * Git-sourced builds (gitsrc.rs)

    Building a repository into an environment, and launching from it.  The build
    tools (git, uv, go) and coreutils are programs outside the repository: a run
    of one is an oracle on the files, and every command handed to a build tool is
    kept in a log. *)

From stdpp Require Import pretty.
From S2P Require Import Prelude Strs Schema External Fixtures GitCreds Instances Sandbox Backend.
Open Scope string_scope.
Open Scope hub_scope.

Module gitsrc.
Import backend.

(** Seconds. *)
Definition LS_REMOTE_TIMEOUT : Z := 30.
Definition BUILD_TIMEOUT : Z := 900.

Record UpdateReport := { changed : bool; previous_commit : option string; commit : string }.

Definition env_path (env_dir iid : string) : string := fs.join env_dir iid.
Definition is_git_source (def : ServerDef) : bool := instances.is_git def.

(** ** Validation *)
Definition validate_repo `{UrlCrate} (repo : string) : result anyhow unit :=
  match url_parse repo with
  | None => Err (Context "repo must be a valid URL" (Msg "invalid URL"))
  | Some url =>
      if eqs url.(scheme) "https" || eqs url.(scheme) "git+https" then Ok tt
      else Err (Msg "repo must be an https git URL")
  end.
Definition char_in (l : list N) (c : Ascii.ascii) : bool := bool_decide (byte c ∈ l).
(** A letter, a digit, or one of [. _ - /]. *)
Definition validate_ref (git_ref : string) : result anyhow unit :=
  if is_empty git_ref || (100 <? String.length git_ref)%nat then Err (Msg "invalid git ref")
  else if str_all (λ c, is_ascii_alphanumeric c || char_in [46; 95; 45; 47]%N c) git_ref
  then Ok tt
  else Err (Msg "git ref may only contain letters, digits, and . _ - /").
Definition validate_name (name : string) : result anyhow unit :=
  if is_empty name || (64 <? String.length name)%nat ||
     negb (str_all (λ c, is_ascii_alphanumeric c || char_in [46; 95; 45]%N c) name)
  then Err (Msg "entry/module name contains invalid characters")
  else Ok tt.

Definition launch_command (env_dir iid : string) (def : ServerDef)
    : result anyhow (string * list string) :=
  let bin := fs.join (env_path env_dir iid) "bin" in
  match trim <$> def.(Schema.command) with
  | None | Some "" => Err (Msg "git source has no command")
  | Some command =>
      let? _ := validate_name command in
      Ok (fs.join bin command, def.(Schema.args))
  end.
Definition exists_ (f : fs.Fs) (p : string) : bool := bool_decide (is_Some (f !! p)).
Definition resolved_command (f : fs.Fs) (env_dir : string) (inst : instances.Instance)
    (def : ServerDef) : option (string * list string) :=
  if is_git_source def then
    if eqs inst.(instances.build_status) "ready" &&
       exists_ f (env_path env_dir inst.(instances.id))
    then ok (launch_command env_dir inst.(instances.id) def)
    else None
  else if eqs def.(transport) "stdio" then (λ c, (c, def.(Schema.args))) <$> def.(Schema.command)
  else None.

(** ** Commands *)
Definition BUILD_ENV_ALLOWLIST : list string :=
  ["PATH"; "HOME"; "TMPDIR"; "SSL_CERT_FILE"; "SSL_CERT_DIR"; "CURL_CA_BUNDLE";
   "REQUESTS_CA_BUNDLE"; "GIT_SSL_CAINFO"; "HTTP_PROXY"; "HTTPS_PROXY"; "NO_PROXY";
   "http_proxy"; "https_proxy"; "no_proxy"; "LANG"; "LC_ALL"].
(** [hub_env]: the hub's own environment. *)
Definition build_command (hub_env : gmap string string) (program : string) : Command := {|
  backend.program := program; argv := [];
  envs := filter (λ kv, kv.1 ∈ BUILD_ENV_ALLOWLIST) hub_env;
  current_dir := None; run_as := None; limits := [] |}.
Definition args (l : list string) (c : Command) : Command := {|
  program := c.(program); argv := (c.(argv) ++ l)%list; envs := c.(envs);
  current_dir := c.(current_dir); run_as := c.(run_as); limits := c.(limits) |}.
Definition env (k v : string) (c : Command) : Command := {|
  program := c.(program); argv := c.(argv); envs := <[k:=v]> c.(envs);
  current_dir := c.(current_dir); run_as := c.(run_as); limits := c.(limits) |}.
Definition cwd (d : string) (c : Command) : Command := {|
  program := c.(program); argv := c.(argv); envs := c.(envs);
  current_dir := Some d; run_as := c.(run_as); limits := c.(limits) |}.
Definition as_user (sb : sandbox.Sandbox) (c : Command) : Command := {|
  program := c.(program); argv := c.(argv); envs := c.(envs); current_dir := c.(current_dir);
  run_as := Some (sb.(sandbox.uid), sb.(sandbox.gid)); limits := c.(limits) |}.

(** ** Credentials *)
Definition helper_script : string :=
  "!f() { case " +:+ dquote +:+ "$1" +:+ dquote +:+ " in get) printf " +:+ dquote +:+
  "username=%s\npassword=%s\n" +:+ dquote +:+ " " +:+ dquote +:+ "$MCP_HUB_GIT_USER" +:+
  dquote +:+ " " +:+ dquote +:+ "$MCP_HUB_GIT_TOKEN" +:+ dquote +:+ ";; esac; }; f".
Definition credential_env (cred : gitcreds.ResolvedCredential) : list (string * string) :=
  let key := "credential.https://" +:+ cred.(gitcreds.rc_host) +:+ ".helper" in
  [("GIT_CONFIG_COUNT", "2"); ("GIT_CONFIG_KEY_0", key); ("GIT_CONFIG_VALUE_0", "");
   ("GIT_CONFIG_KEY_1", key); ("GIT_CONFIG_VALUE_1", helper_script);
   ("MCP_HUB_GIT_USER", cred.(gitcreds.rc_username));
   ("MCP_HUB_GIT_TOKEN", cred.(gitcreds.token))].
Definition apply_credential (cred : option gitcreds.ResolvedCredential) (c : Command) : Command :=
  match cred with
  | Some cr => fold_left (λ c kv, env kv.1 kv.2 c) (credential_env cr) c
  | None => c
  end.

Definition looks_like_auth_failure (text : string) : bool :=
  existsb (λ m, contains m (to_lowercase text))
    ["could not read username"; "terminal prompts disabled"; "authentication failed";
     "repository not found"; "could not read from remote repository"; "403 forbidden";
     "401 unauthorized"; "invalid username or token"; "access denied"].
Definition with_auth_hint `{UrlCrate} (e : anyhow) (repo : string) (had_credential : bool)
    : anyhow :=
  let text := error_text e in
  if negb (looks_like_auth_failure text) then e else
  let host := default repo (gitcreds.host_of_repo repo) in
  let hint :=
    if had_credential then
      "The stored git credential for " +:+ host +:+ " was rejected. Check the token grants read access to this repository and has not expired."
    else
      host +:+ " did not allow anonymous access. If this repository is private, add a git credential for " +:+
      host +:+ " on your Account page (or with hub__set_git_credential), then update again." in
  Msg (text +:+ bytes [10; 10]%N +:+ hint).

(** [tail_str]: the last [max] bytes, from the next character boundary. *)
Fixpoint drop_bytes (n : nat) (s : string) : string :=
  match n, s with S n, String _ s => drop_bytes n s | _, _ => s end.
Fixpoint to_boundary (s : string) : string :=
  match s with String c s' => if cont c then to_boundary s' else s | EmptyString => s end.
Definition tail_str (s : string) (max : nat) : string :=
  if (String.length s <=? max)%nat then s else to_boundary (drop_bytes (String.length s - max) s).

(** ** The build pipeline *)
(** What a program printed, and whether it succeeded. *)
Record Output := { success : bool; stdout : string; stderr : string }.
(** The files, and the commands given to build tools so far. *)
Definition World : Type := fs.Fs * list Command.
Abbreviation B A := (M World anyhow A).
Inductive Lang := Python | Go.

(** The names in a directory, sorted. *)
Definition read_dir (f : fs.Fs) (p : string) : list string :=
  merge_sort (λ a b, String.leb a b = true)
    (omap (λ kv, n ← strip_prefix (p +:+ "/") kv.1;
                 if contains "/" n then None else Some n) (map_to_list f)).
(** [fs::rename] of a directory. *)
Definition rename (src dst : string) : M fs.Fs anyhow unit := λ f,
  let moved := omap (λ kv, if eqs kv.1 src then Some (dst, kv.2) else
    n ← strip_prefix (src +:+ "/") kv.1; Some (dst +:+ "/" +:+ n, kv.2)) (map_to_list f) in
  if negb (fs.is_dir (f !! src)) then (Err (Msg "No such file or directory"), f)
  else if bool_decide (is_Some (f !! dst)) &&
          (negb (fs.is_dir (f !! dst)) || negb (bool_decide (read_dir f dst = [])))
  then (Err (Msg "Directory not empty"), f)
  else (Ok tt, list_to_map moved ∪
               filter (λ kv, kv.1 ≠ src ∧ fs.under src kv.1 = false ∧ kv.1 ≠ dst) f).
Definition is_file (f : fs.Fs) (p : string) : bool :=
  match f !! p with Some {| fs.kind := fs.File _ |} => true | _ => false end.

Section build.
(** [output cmd secs]: a run to its end, [None] when it takes longer than [secs];
    [coreutils]: [chown] and [chmod] with the hub's identity, whether they exit with
    success; [symlink_metadata] and [canonicalize] of [std::fs]. *)
Context `{UrlCrate} (hub_uid dir_mode : Z) (hub_env : gmap string string)
  (output : Command → Z → fs.Fs → option (result anyhow Output) * fs.Fs)
  (coreutils : string → list string → fs.Fs → result anyhow bool * fs.Fs)
  (symlink_metadata : fs.Fs → string → bool) (canonicalize : fs.Fs → string → option string).

Definition files {A} (g : fs.Fs → A) : B A := gets (λ w, g w.1).
Definition create_dir_all (what p : string) : B unit :=
  ctx what (on_fst (fs.create_dir_all hub_uid dir_mode p)).
Definition remove_dir_all (p : string) : B unit := ignore (on_fst (fs.remove_dir_all p)).

(** Runs a build tool, and logs it. *)
Definition run_tool (cmd : Command) (secs : Z) (timed_out running : string) : B Output := λ w,
  let '(r, f) := output cmd secs w.1 in
  (match r with
   | None => Err (Context timed_out (Msg "deadline has elapsed"))
   | Some (Err e) => Err (Context running e)
   | Some (Ok o) => Ok o
   end, (f, (w.2 ++ [cmd])%list)).

Definition run_coreutils (program : string) (argv : list string) : B unit :=
  let* success := λ w, let '(r, f) := coreutils program argv w.1 in (r, (f, w.2)) in
  refuse_if (negb success) (Msg (program +:+ " -R failed")).
Definition chown_recursive (path : string) (uid gid : Z) : B unit :=
  run_coreutils "chown" ["-R"; pretty uid +:+ ":" +:+ pretty gid; path].
Definition make_world_traversable (path : string) : B unit :=
  run_coreutils "chmod" ["-R"; "a+rX"; path].
Definition hand_over (what path : string) (sb : option sandbox.Sandbox) : B unit :=
  match sb with
  | Some sb => ctx what (chown_recursive path sb.(sandbox.uid) sb.(sandbox.gid))
  | None => ret tt
  end.

Section cred.
Context (cred : option gitcreds.ResolvedCredential).

Definition resolve_commit (repo git_ref : string) : B string :=
  let cmd := apply_credential cred
    (env "GIT_TERMINAL_PROMPT" "0"
      (args ["ls-remote"; repo; git_ref] (build_command hub_env "git"))) in
  let* out := run_tool cmd LS_REMOTE_TIMEOUT "git ls-remote timed out" "running git ls-remote" in
  refuse_if (negb out.(success))
    (Msg ("git ls-remote failed: " +:+ trim (from_utf8_lossy out.(stderr)))) ;;;
  match first_word (from_utf8_lossy out.(stdout)) with
  | Some sha => ret sha
  | None =>
      if (7 <=? String.length git_ref)%nat && str_all is_ascii_hexdigit git_ref
      then ret git_ref
      else fail (Msg ("ref '" +:+ git_ref +:+ "' not found in " +:+ repo))
  end.

(** [auth] is the credential this invocation is given. *)
Definition run_git (argv : list string) (auth : option gitcreds.ResolvedCredential) : B unit :=
  let cmd := apply_credential auth
    (env "GIT_TERMINAL_PROMPT" "0" (args argv (build_command hub_env "git"))) in
  let* out := run_tool cmd BUILD_TIMEOUT "git command timed out" "running git" in
  let verb := default "command"
    (List.find (λ a, bool_decide (a ∈ ["init"; "fetch"; "checkout"; "clone"])) argv) in
  refuse_if (negb out.(success))
    (Msg ("git " +:+ verb +:+ " failed: " +:+ trim (from_utf8_lossy out.(stderr)))).

Definition clone_at_commit (repo commit dest : string) : B unit :=
  remove_dir_all dest ;;;
  create_dir_all "creating source checkout dir" dest ;;;
  catch (run_git ["init"; "-q"; dest] None ;;;
         run_git ["-C"; dest; "fetch"; "-q"; "--depth"; "1"; repo; commit] cred ;;;
         run_git ["-C"; dest; "checkout"; "-q"; "--detach"; "FETCH_HEAD"] None)
    (λ shallow : result anyhow unit, match shallow with
     | Ok _ => ret tt
     | Err _ =>
         remove_dir_all dest ;;;
         run_git ["clone"; "-q"; repo; dest] cred ;;;
         run_git ["-C"; dest; "checkout"; "-q"; "--detach"; commit] None
     end).

Definition detect_lang (f : fs.Fs) (checkout : string) : result anyhow Lang :=
  if is_file f (fs.join checkout "go.mod") then Ok Go
  else if is_file f (fs.join checkout "pyproject.toml") || is_file f (fs.join checkout "setup.py")
  then Ok Python
  else Err (Msg "cannot determine how to build this repo: no go.mod or pyproject.toml/setup.py at its root").

Definition python_install_dir (env_dir : string) : string := fs.join env_dir ".uv-python".
Definition run_uv (argv : list string) (env_dir : string) (sb : option sandbox.Sandbox)
    (auth : option gitcreds.ResolvedCredential) : B unit :=
  let cmd := apply_credential auth
    (env "GIT_TERMINAL_PROMPT" "0"
      (env "UV_PYTHON_INSTALL_DIR" (python_install_dir env_dir)
        (args argv (build_command hub_env "uv")))) in
  let cmd := match sb with
    | Some sb =>
        env "UV_CACHE_DIR" (sb.(sandbox.cache_dir) +:+ "/uv")
          (env "USER" "mcp-sandbox" (env "HOME" sb.(sandbox.cache_dir) (as_user sb cmd)))
    | None => env "UV_CACHE_DIR" (fs.join env_dir ".uv-cache") cmd
    end in
  let* out := run_tool cmd BUILD_TIMEOUT "uv command timed out" "running uv" in
  refuse_if (negb out.(success))
    (Msg ("uv " +:+ default "" (head argv) +:+ " failed: " +:+
          trim (from_utf8_lossy out.(stderr)))).

Definition run_go (argv : list string) (env_dir workdir : string) (sb : option sandbox.Sandbox)
    : B unit :=
  let cmd := env "GIT_TERMINAL_PROMPT" "0" (env "GOTOOLCHAIN" "auto"
    (env "GOFLAGS" "-trimpath" (env "CGO_ENABLED" "0"
      (cwd workdir (args argv (build_command hub_env "go")))))) in
  let cmd := match cred with
    | Some c => env "GOPRIVATE" (c.(gitcreds.rc_host) +:+ "/*") cmd
    | None => cmd
    end in
  let cmd := apply_credential cred cmd in
  let cmd := match sb with
    | Some sb =>
        env "GOCACHE" (sb.(sandbox.cache_dir) +:+ "/go-build")
          (env "GOMODCACHE" (sb.(sandbox.cache_dir) +:+ "/go-mod")
            (env "GOPATH" (sb.(sandbox.cache_dir) +:+ "/go")
              (env "USER" "mcp-sandbox" (env "HOME" sb.(sandbox.cache_dir) (as_user sb cmd)))))
    | None =>
        let cache := fs.join env_dir ".go-cache" in
        env "GOCACHE" (fs.join cache "build")
          (env "GOMODCACHE" (fs.join cache "mod") (env "GOPATH" (fs.join cache "gopath") cmd))
    end in
  let* out := run_tool cmd BUILD_TIMEOUT "go build timed out"
    "running go (is the Go toolchain installed?)" in
  refuse_if (negb out.(success))
    (Msg ("go " +:+ default "" (head argv) +:+ " failed: " +:+
          tail_str (trim (from_utf8_lossy out.(stderr))) 3000)).

(** Steps 4 and 5 of both builds: the swap, and the ownership of the result. *)
Definition install (tmp final_path : string) (sb : option sandbox.Sandbox) : B unit :=
  remove_dir_all final_path ;;;
  ctx "installing built environment" (on_fst (rename tmp final_path)) ;;;
  match sb with
  | Some sb => ignore (chown_recursive final_path sb.(sandbox.uid) sb.(sandbox.gid))
  | None => ret tt
  end.

Definition building_path (env_dir iid : string) : string :=
  fs.join env_dir ("." +:+ iid +:+ ".building").
Definition build_env (env_dir iid repo commit : string) (sb : option sandbox.Sandbox) : B unit :=
  create_dir_all "creating env directory" env_dir ;;;
  let tmp := building_path env_dir iid in
  remove_dir_all tmp ;;;
  run_uv ["venv"; "--relocatable"; tmp] env_dir None None ;;;
  let py_dir := python_install_dir env_dir in
  let* there := files (λ f, exists_ f py_dir) in
  (if (there : bool) then ignore (make_world_traversable py_dir) else ret tt) ;;;
  hand_over "handing build dir to sandbox uid" tmp sb ;;;
  run_uv ["pip"; "install"; "--python"; fs.join (fs.join tmp "bin") "python";
          "git+" +:+ repo +:+ "@" +:+ commit] env_dir sb cred ;;;
  install tmp (env_path env_dir iid) sb.

Definition build_go_env (env_dir iid src : string) (def : ServerDef)
    (sb : option sandbox.Sandbox) : B unit :=
  create_dir_all "creating env directory" env_dir ;;;
  let tmp := building_path env_dir iid in
  remove_dir_all tmp ;;;
  let bin := fs.join tmp "bin" in
  create_dir_all "creating build output dir" bin ;;;
  hand_over "handing source checkout to sandbox uid" src sb ;;;
  hand_over "handing build dir to sandbox uid" tmp sb ;;;
  let entry := default "" (trim <$> def.(Schema.command)) in
  let* narrow := files (λ f, negb (is_empty entry) &&
    fs.is_dir (f !! fs.join (fs.join src "cmd") entry)) in
  let target := if (narrow : bool) then "./cmd/" +:+ entry else "./..." in
  run_go ["build"; "-o"; bin +:+ "/"; target] env_dir src sb ;;;
  let* named := files (λ f, negb (is_empty entry) && is_file f (fs.join bin entry)) in
  let* built := files (λ f, read_dir f bin) in
  refuse_if (negb named) (Msg ("command '" +:+ entry +:+
    "' does not name a built binary; the build produced: " +:+
    if bool_decide (built = []) then "(nothing)" else String.concat ", " built)) ;;;
  install tmp (env_path env_dir iid) sb.

Definition env_is_python_venv (f : fs.Fs) (env_dir iid : string) : bool :=
  symlink_metadata f (fs.join (fs.join (env_path env_dir iid) "bin") "python").
(** [Path::starts_with]: component-wise. *)
Definition path_starts_with (p dir : string) : bool := eqs p dir || fs.under dir p.
Definition venv_python_is_shared (f : fs.Fs) (env_dir iid : string) : bool :=
  match canonicalize f (fs.join (fs.join (env_path env_dir iid) "bin") "python"),
        canonicalize f (python_install_dir env_dir) with
  | Some target, Some shared => path_starts_with target shared
  | _, _ => false
  end.
End cred.

Definition venv_is_stale (f : fs.Fs) (env_dir : string) (inst : instances.Instance)
    (def : ServerDef) : bool :=
  let iid := inst.(instances.id) in
  instances.is_git def && eqs inst.(instances.build_status) "ready" &&
  exists_ f (env_path env_dir iid) && env_is_python_venv f env_dir iid &&
  negb (venv_python_is_shared f env_dir iid).

Definition already_built (f : fs.Fs) (env_dir : string) (inst : instances.Instance)
    (commit : string) : bool :=
  let iid := inst.(instances.id) in
  bool_decide (inst.(instances.built_commit) = Some commit) &&
  eqs inst.(instances.build_status) "ready" && exists_ f (env_path env_dir iid) &&
  (negb (env_is_python_venv f env_dir iid) || venv_python_is_shared f env_dir iid).

(** Checks the repository out and builds it. *)
Definition build (cred : option gitcreds.ResolvedCredential) (env_dir iid repo commit : string)
    (def : ServerDef) (sb : option sandbox.Sandbox) : B unit :=
  let src := fs.join env_dir ("." +:+ iid +:+ ".src") in
  clone_at_commit cred repo commit src ;;;
  let* f := gets fst in
  let* lang := lift (detect_lang f src) in
  match lang with
  | Python => remove_dir_all src ;;; build_env cred env_dir iid repo commit sb
  | Go => build_go_env cred env_dir iid src def sb
  end.

Definition update_instance `{Aead} (env_dir : string) (inst : instances.Instance)
    (def : ServerDef) (sb : option sandbox.Sandbox) (now : Z)
    : M (Db * World) anyhow UpdateReport :=
  let iid := inst.(instances.id) in
  refuse_if (negb (is_git_source def))
    (Msg ("'" +:+ inst.(instances.namespace) +:+ "' is not a git-sourced server")) ;;;
  let* repo := ok_or def.(Schema.repo) (Msg "git source has no repo URL") in
  lift (validate_repo repo) ;;;
  let git_ref := default "main" def.(Schema.git_ref) in
  lift (validate_ref git_ref) ;;;
  lift (launch_command env_dir iid def) ;;;
  let* cred := on_fst (gitcreds.for_repo inst.(instances.user_id) repo) in
  let hint e := with_auth_hint e repo (bool_decide (is_Some cred)) in
  let* commit := map_err hint (on_snd (resolve_commit cred repo git_ref)) in
  let* done := gets (λ st, already_built st.2.1 env_dir inst commit) in
  if (done : bool) then
    ret {| changed := false; previous_commit := inst.(instances.built_commit);
           commit := commit |}
  else
  on_snd (create_dir_all "creating env directory" env_dir) ;;;
  catch (on_snd (build cred env_dir iid repo commit def sb)) (λ built : result anyhow unit,
    on_snd (remove_dir_all (fs.join env_dir ("." +:+ iid +:+ ".src"))) ;;;
    match built with
    | Ok _ =>
        on_fst (instances.set_build_state iid "ready" (Some commit)) ;;;
        match cred with
        | Some c => ignore (on_fst (gitcreds.touch c.(gitcreds.rc_id) now))
        | None => ret tt
        end ;;;
        ret {| changed := true; previous_commit := inst.(instances.built_commit);
               commit := commit |}
    | Err e =>
        on_fst (instances.set_build_state iid "error" inst.(instances.built_commit)) ;;;
        fail (hint e)
    end).
End build.

Definition remove_env (env_dir iid : string) : M fs.Fs anyhow unit :=
  ignore (fs.remove_dir_all (env_path env_dir iid)).

(** ** Facts: the launch path *)
Lemma str_all_no_slash P s :
  (∀ c, P c = true → (byte c =? 47)%N = false) → str_all P s = true → contains "/" s = false.
Proof.
  intros HP Hs. destruct (contains "/" s) eqn:E; [|done]. exfalso.
  unfold contains in E. destruct (split_once "/" s) as [[a b]|] eqn:E2; [|done].
  apply split_once_Some in E2. subst s. rewrite !str_all_app in Hs. cbn in Hs.
  rewrite !andb_true_iff in Hs. destruct Hs as [_ [[Hc _] _]]. by apply HP in Hc.
Qed.

(** ** Facts: what a build runs, and with what *)
Definition runs_repo_code (c : Command) : bool :=
  eqs c.(program) "go" || eqs c.(program) "uv" && bool_decide (head c.(argv) = Some "pip").
(** Every invocation of an update, by program and arguments: the credential is not
    among the parameters. *)
Definition invocations (env_dir iid repo git_ref commit entry : string)
    : list (string * list string) :=
  let src := fs.join env_dir ("." +:+ iid +:+ ".src") in
  let tmp := building_path env_dir iid in
  let out := fs.join tmp "bin" +:+ "/" in
  [("git", ["ls-remote"; repo; git_ref]);
   ("git", ["init"; "-q"; src]);
   ("git", ["-C"; src; "fetch"; "-q"; "--depth"; "1"; repo; commit]);
   ("git", ["-C"; src; "checkout"; "-q"; "--detach"; "FETCH_HEAD"]);
   ("git", ["clone"; "-q"; repo; src]);
   ("git", ["-C"; src; "checkout"; "-q"; "--detach"; commit]);
   ("uv", ["venv"; "--relocatable"; tmp]);
   ("uv", ["pip"; "install"; "--python"; fs.join (fs.join tmp "bin") "python";
           "git+" +:+ repo +:+ "@" +:+ commit]);
   ("go", ["build"; "-o"; out; "./cmd/" +:+ entry]);
   ("go", ["build"; "-o"; out; "./..."])].
(** The token is absent, or the credential's own with a helper bound to its host. *)
Definition token_scoped (cred : option gitcreds.ResolvedCredential) (c : Command) : Prop :=
  c.(envs) !! "MCP_HUB_GIT_TOKEN" = None ∨
  ∃ cr, cred = Some cr ∧ c.(envs) !! "MCP_HUB_GIT_TOKEN" = Some cr.(gitcreds.token) ∧
    c.(envs) !! "GIT_CONFIG_COUNT" = Some "2" ∧
    c.(envs) !! "GIT_CONFIG_KEY_0" = Some ("credential.https://" +:+ cr.(gitcreds.rc_host) +:+ ".helper") ∧
    c.(envs) !! "GIT_CONFIG_KEY_1" = Some ("credential.https://" +:+ cr.(gitcreds.rc_host) +:+ ".helper").

Section facts.
Context `{UrlCrate} `{Aead} (hub_uid dir_mode : Z)
  (output : Command → Z → fs.Fs → option (result anyhow Output) * fs.Fs)
  (coreutils : string → list string → fs.Fs → result anyhow bool * fs.Fs)
  (symlink_metadata : fs.Fs → string → bool) (canonicalize : fs.Fs → string → option string).
Abbreviation update hub_env := (update_instance hub_uid dir_mode hub_env output coreutils
  symlink_metadata canonicalize).

Lemma build_command_insert hub_env k v p :
  k ∉ BUILD_ENV_ALLOWLIST → build_command (<[k:=v]> hub_env) p = build_command hub_env p.
Proof.
  intros Hk. unfold build_command. f_equal. rewrite map_filter_insert_False by done.
  apply map_filter_delete_not. intros y _ Hy. by apply Hk.
Qed.

(** An update does not depend on any variable of the hub's environment that is
    not on the allow list: its result, its files, its database and every command
    it runs are the same whatever the master key is. *)
Theorem build_ignores_hub_secrets hub_env k v env_dir inst def sb now st :
  k ∉ BUILD_ENV_ALLOWLIST →
  update (<[k:=v]> hub_env) env_dir inst def sb now st = update hub_env env_dir inst def sb now st.
Proof.
  intros Hk. unfold update_instance, build, build_env, build_go_env, clone_at_commit,
    resolve_commit, run_git, run_uv, run_go.
  by rewrite !(build_command_insert _ k v) by done.
Qed.

(** *** The log *)
Section confined.
Context (hub_env : gmap string string) (sb : option sandbox.Sandbox)
  (cred : option gitcreds.ResolvedCredential) (env_dir iid repo git_ref entry : string).

Definition sandbox_ids : option (Z * Z) := (λ s, (s.(sandbox.uid), s.(sandbox.gid))) <$> sb.
Definition confined (c : Command) : Prop :=
  (∃ commit, (c.(program), c.(argv)) ∈ invocations env_dir iid repo git_ref commit entry) ∧
  (runs_repo_code c = true → c.(run_as) = sandbox_ids) ∧ token_scoped cred c.
Definition log_confined (w : World) : Prop := Forall confined w.2.

Abbreviation P := (preserves log_confined).
Lemma log_on_fst {E A} (m : M fs.Fs E A) : P (on_fst m).
Proof. by intros w Hw. Qed.
Lemma log_coreutils p l : P (run_coreutils coreutils p l).
Proof.
  unfold run_coreutils. apply preserves_bind; [|auto with hub]. intros w Hw. cbn.
  by destruct (coreutils p l w.1).
Qed.
Hint Resolve log_on_fst log_coreutils : hub.
Lemma log_ctx {A} c (m : B A) : P m → P (ctx c m).
Proof. apply preserves_map_err. Qed.
Lemma log_create_dir_all c p : P (create_dir_all hub_uid dir_mode c p).
Proof. apply log_ctx, log_on_fst. Qed.
Lemma log_remove_dir_all p : P (remove_dir_all p).
Proof. apply preserves_ignore, log_on_fst. Qed.
Lemma log_files {A} (g : fs.Fs → A) : P (files g).
Proof. by intros w Hw. Qed.
Lemma log_hand_over c p o : P (hand_over coreutils c p o).
Proof. destruct o; [|apply preserves_ret]. apply log_ctx, log_coreutils. Qed.
Lemma log_install t p o : P (install coreutils t p o).
Proof.
  unfold install. apply preserves_bind; [apply log_remove_dir_all|]. intros _.
  apply preserves_bind; [apply log_ctx, log_on_fst|]. intros _.
  destruct o; [apply preserves_ignore, log_coreutils|apply preserves_ret].
Qed.
Hint Resolve log_ctx log_create_dir_all log_remove_dir_all log_files log_hand_over log_install : hub.
Lemma log_run_tool c secs a b : confined c → P (run_tool output c secs a b).
Proof.
  intros Hc w Hw. unfold run_tool. destruct (output c secs w.1) as [r f]. cbn.
  apply Forall_app. by split; [|apply Forall_singleton].
Qed.

(** The environment of a tool, variable by variable. *)
Lemma inherited_None p k :
  k ∉ BUILD_ENV_ALLOWLIST → (build_command hub_env p).(envs) !! k = None.
Proof. intros Hk. apply map_lookup_filter_None. right. by intros x _ Hx. Qed.
Lemma not_inherited k p : bool_decide (k ∈ BUILD_ENV_ALLOWLIST) = false →
  (build_command hub_env p).(envs) !! k = None.
Proof. intros Hk%bool_decide_eq_false. by apply inherited_None. Qed.
Lemma token_scoped_None c :
  c.(envs) !! "MCP_HUB_GIT_TOKEN" = None → token_scoped cred (apply_credential cred c).
Proof.
  intros Hc. unfold token_scoped. destruct cred as [cr|]; [right|by left].
  exists cr. unfold apply_credential. cbn. split_and!; [done|..]; by simplify_map_eq.
Qed.
Lemma token_scoped_env k v c :
  bool_decide (k ∈ ["MCP_HUB_GIT_TOKEN"; "GIT_CONFIG_COUNT"; "GIT_CONFIG_KEY_0"; "GIT_CONFIG_KEY_1"]) = false →
  token_scoped cred c → token_scoped cred (env k v c).
Proof.
  rewrite bool_decide_eq_false, !not_elem_of_cons. intros (? & ? & ? & ? & _) [Hc|(cr & ?)].
  - left. cbn. by rewrite lookup_insert_ne.
  - right. exists cr. cbn. by rewrite !lookup_insert_ne.
Qed.
Lemma apply_credential_same auth c :
  (apply_credential auth c).(program) = c.(program) ∧
  (apply_credential auth c).(argv) = c.(argv) ∧
  (apply_credential auth c).(run_as) = c.(run_as).
Proof. by destruct auth. Qed.

Lemma log_run_git commit l auth :
  ("git", l) ∈ invocations env_dir iid repo git_ref commit entry → auth = cred ∨ auth = None →
  P (run_git hub_env output l auth).
Proof.
  intros Hl Hauth. unfold run_git. apply preserves_bind; [|auto with hub].
  apply log_run_tool. unfold confined.
  destruct (apply_credential_same auth
    (env "GIT_TERMINAL_PROMPT" "0" (args l (build_command hub_env "git")))) as (Hp & Ha & _).
  unfold runs_repo_code. rewrite Hp, Ha. cbn. split_and!; [by exists commit|done|].
  assert ((env "GIT_TERMINAL_PROMPT" "0" (args l (build_command hub_env "git"))).(envs)
    !! "MCP_HUB_GIT_TOKEN" = None) as Hn
    by (cbn; rewrite lookup_insert_ne by done; by apply (not_inherited _ "git")).
  destruct Hauth as [->| ->]; [by apply token_scoped_None|by left].
Qed.

Lemma log_resolve_commit : P (resolve_commit hub_env output cred repo git_ref).
Proof.
  unfold resolve_commit. apply preserves_bind.
  - apply log_run_tool. unfold confined.
    match goal with |- context [apply_credential cred ?c] =>
      destruct (apply_credential_same cred c) as (Hp & Ha & _) end.
    unfold runs_repo_code. rewrite Hp, Ha. cbn. split_and!; [|done|].
    + exists "". by apply list_elem_of_here.
    + apply token_scoped_None. cbn. rewrite lookup_insert_ne by done. by apply (not_inherited _ "git").
  - intros out. apply preserves_bind; [auto with hub|]. intros _.
    repeat case_match; auto with hub.
Qed.

Lemma log_run_uv commit l who auth :
  ("uv", l) ∈ invocations env_dir iid repo git_ref commit entry →
  who = sb ∧ auth = cred ∨ bool_decide (head l = Some "pip") = false ∧ who = None ∧ auth = None →
  P (run_uv hub_env output l env_dir who auth).
Proof.
  intros Hl Hw. unfold run_uv. apply preserves_bind; [|auto with hub]. apply log_run_tool.
  set (base := env "GIT_TERMINAL_PROMPT" "0" _).
  assert (base.(envs) !! "MCP_HUB_GIT_TOKEN" = None) as Hn
    by (subst base; cbn; rewrite !lookup_insert_ne by done; by apply (not_inherited _ "uv")).
  destruct (apply_credential_same auth base) as (Hp & Ha & Hr). unfold confined, runs_repo_code.
  destruct Hw as [[-> ->]|(Hpip & -> & ->)].
  - pose proof (token_scoped_None base Hn) as Ht.
    unfold sandbox_ids. destruct sb as [s|]; cbn; rewrite ?Hp, ?Ha, ?Hr; cbn;
      (split_and!; [by exists commit|done|]); by repeat apply token_scoped_env.
  - cbn. rewrite Hpip. split_and!; [by exists commit|done|]. left.
    cbn [env envs]. rewrite lookup_insert_ne by done. exact Hn.
Qed.

Lemma log_run_go commit l workdir :
  ("go", l) ∈ invocations env_dir iid repo git_ref commit entry →
  P (run_go hub_env output cred l env_dir workdir sb).
Proof.
  intros Hl. unfold run_go. apply preserves_bind; [|auto with hub]. apply log_run_tool.
  set (base := match cred with Some _ => _ | None => _ end).
  assert (base.(envs) !! "MCP_HUB_GIT_TOKEN" = None ∧ base.(program) = "go" ∧ base.(argv) = l)
    as (Hn & Hbp & Hba).
  { subst base. destruct cred; cbn; rewrite !lookup_insert_ne by done;
      (split; [by apply (not_inherited _ "go")|done]). }
  destruct (apply_credential_same cred base) as (Hp & Ha & _). unfold confined, runs_repo_code.
  pose proof (token_scoped_None base Hn) as Ht. unfold sandbox_ids.
  destruct sb as [s|]; cbn; rewrite ?Hp, ?Ha, ?Hbp, ?Hba;
    (split_and!; [by exists commit| |by repeat apply token_scoped_env]); [done|].
  destruct (apply_credential_same cred base) as (_ & _ & ->). intros _. subst base. by destruct cred.
Qed.

Ltac log_step :=
  repeat match goal with
  | |- preserves _ (bind _ _) => apply preserves_bind; [|intros ?]
  | |- preserves _ (refuse_if _ _) => apply preserves_refuse_if
  | |- preserves _ (remove_dir_all _) => apply log_remove_dir_all
  | |- preserves _ (create_dir_all _ _ _ _) => apply log_create_dir_all
  | |- preserves _ (files _) => apply log_files
  | |- preserves _ (hand_over _ _ _ _) => apply log_hand_over
  | |- preserves _ (install _ _ _ _) => apply log_install
  | |- preserves _ (gets _) => apply preserves_gets
  | |- preserves _ (lift _) => apply preserves_lift
  | |- preserves _ (ret _) => apply preserves_ret
  end.

Lemma log_clone commit :
  P (clone_at_commit hub_uid dir_mode hub_env output cred repo commit
       (fs.join env_dir ("." +:+ iid +:+ ".src"))).
Proof.
  unfold clone_at_commit. do 2 (apply preserves_bind; [log_step|intros _]).
  apply preserves_catch.
  - log_step; apply (log_run_git commit); cbn; auto 8 with hub; set_solver.
  - intros [_|e]; log_step; apply (log_run_git commit); cbn; auto; set_solver.
Qed.
Lemma log_build_env commit :
  P (build_env hub_uid dir_mode hub_env output coreutils cred env_dir iid repo commit sb).
Proof.
  unfold build_env. log_step.
  - apply (log_run_uv commit); [cbn; set_solver|]. right. done.
  - match goal with |- context [if ?b then _ else _] => destruct b end;
      [apply preserves_ignore, log_coreutils|apply preserves_ret].
  - apply (log_run_uv commit); [cbn; set_solver|]. by left.
Qed.
Lemma log_build_go_env def :
  entry = default "" (trim <$> def.(Schema.command)) →
  P (build_go_env hub_uid dir_mode hub_env output coreutils cred env_dir iid
       (fs.join env_dir ("." +:+ iid +:+ ".src")) def sb).
Proof.
  intros ->. unfold build_go_env. log_step. apply (log_run_go "").
  match goal with |- context [if ?b then _ else _] => destruct b end; cbn; set_solver.
Qed.
Lemma log_build commit def :
  entry = default "" (trim <$> def.(Schema.command)) →
  P (build hub_uid dir_mode hub_env output coreutils cred env_dir iid repo commit def sb).
Proof.
  intros He. unfold build. apply preserves_bind; [apply log_clone|intros _]. log_step.
  match goal with |- context [match ?l with Python => _ | Go => _ end] => destruct l end.
  - log_step. apply log_build_env.
  - by apply log_build_go_env.
Qed.
End confined.

(** C38: every command an update gives to a build tool is one of the listed
    invocations, whose arguments do not involve the stored credential; those that
    run the repository's code run as the account's sandbox user; the token reaches
    the environment only as the owner's credential for the repository's host,
    scoped to that host. *)
Theorem build_commands_confined hub_env env_dir inst def sb now d f r d' w' :
  update hub_env env_dir inst def sb now (d, (f, [])) = (r, (d', w')) →
  w'.2 = [] ∨
  ∃ repo cred, def.(Schema.repo) = Some repo ∧
    gitcreds.for_repo inst.(instances.user_id) repo d = (Ok cred, d) ∧
    (∀ c, cred = Some c → gitcreds.host_of_repo repo = Some c.(gitcreds.rc_host)) ∧
    Forall (confined sb cred env_dir inst.(instances.id) repo (default "main" def.(Schema.git_ref))
              (default "" (trim <$> def.(Schema.command)))) w'.2.
Proof.
  intros Hu. unfold update_instance in Hu.
  apply bind_quiet in Hu as [[[= -> ->] _]|(? & _ & Hu)]; [by left| |auto with hub].
  apply bind_quiet in Hu as [[[= -> ->] _]|(repo & [Hrepo _]%ok_or_Ok & Hu)]; [by left| |auto with hub].
  apply bind_quiet in Hu as [[[= -> ->] _]|(? & _ & Hu)]; [by left| |auto with hub].
  apply bind_quiet in Hu as [[[= -> ->] _]|(? & _ & Hu)]; [by left| |auto with hub].
  apply bind_quiet in Hu as [[[= -> ->] _]|(? & _ & Hu)]; [by left| |auto with hub].
  apply bind_quiet in Hu as [[[= -> ->] _]|(cred & [Hc _]%on_fst_Ok & Hu)];
    [by left| |auto with hub].
  right. exists repo, cred. split_and!; [done|done|..].
  { intros c ->. by eapply gitcreds.for_repo_host. }
  set (I := λ st : Db * World, log_confined sb cred env_dir inst.(instances.id) repo
    (default "main" def.(Schema.git_ref)) (default "" (trim <$> def.(Schema.command))) st.2).
  assert (∀ A (m : M World anyhow A), preserves (log_confined sb cred env_dir
    inst.(instances.id) repo (default "main" def.(Schema.git_ref))
    (default "" (trim <$> def.(Schema.command)))) m → preserves I (on_snd (S:=Db) m)) as Hsnd
    by (intros A m Hm [? ?] Hs; exact (Hm _ Hs)).
  assert (∀ A (m : M Db anyhow A), preserves I (on_fst m)) as Hfst by (by intros A m [? ?]).
  change (I (d', w')). change (d', w') with (r, (d', w')).2. rewrite <- Hu.
  clear Hu r d' w'. revert d Hc. intros d Hc.
  apply (preserves_bind I (map_err _ (on_snd _))); [| |by apply Forall_nil].
  { apply preserves_map_err, Hsnd, log_resolve_commit. }
  intros commit. apply preserves_bind; [auto with hub|]. intros [|]; [auto with hub|].
  apply preserves_bind; [apply Hsnd, log_create_dir_all|]. intros _.
  apply preserves_catch; [by apply Hsnd, log_build|]. intros built.
  apply preserves_bind; [apply Hsnd, log_remove_dir_all|]. intros _. destruct built.
  - apply preserves_bind; [apply Hfst|]. intros _. apply preserves_bind; [|auto with hub].
    destruct cred; [|auto with hub]. apply preserves_ignore, Hfst.
  - apply preserves_bind; [apply Hfst|]. auto with hub.
Qed.

Lemma update_instance_cases hub_env env_dir inst def sb now d w r d' w' :
  update hub_env env_dir inst def sb now (d, w) = (r, (d', w')) →
  match r with
  | Ok rep =>
      rep.(previous_commit) = inst.(instances.built_commit) ∧
      if rep.(changed) then
        ∃ g, d' = set_git_credentials g (set_user_server_instances
          (alter (instances.with_build "ready" (Some rep.(commit))) inst.(instances.id)) d)
      else d' = d ∧ already_built symlink_metadata canonicalize w'.1 env_dir inst rep.(commit) = true
  | Err _ =>
      d' = d ∨ d' = set_user_server_instances
        (alter (instances.with_build "error" inst.(instances.built_commit)) inst.(instances.id)) d
  end.
Proof.
  intros Hu. unfold update_instance in Hu.
  do 2 (apply bind_quiet in Hu as [[[= -> ->] (? & _ & ->)]|(? & _ & Hu)];
    [by left| |auto with hub]).
  do 3 (apply bind_quiet in Hu as [[[= -> ->] (? & _ & ->)]|(? & _ & Hu)];
    [by left| |auto with hub]).
  apply bind_quiet in Hu as [[[= -> ->] (? & _ & ->)]|(cred & _ & Hu)]; [by left| |auto with hub].
  unfold bind at 1, map_err, on_snd in Hu. cbn [fst snd] in Hu.
  destruct (resolve_commit _ _ _ _ _ w) as [[commit|e] w1]; cbn [fst snd] in Hu;
    [|simplify_eq; by left].
  unfold bind at 1, gets in Hu. cbn [fst snd] in Hu.
  destruct (already_built _ _ w1.1 env_dir inst commit) eqn:Eb.
  { unfold ret in Hu. simplify_eq. cbn. by rewrite Eb. }
  unfold bind at 1 in Hu. cbn [fst snd] in Hu.
  destruct (create_dir_all _ _ _ _ w1) as [[[]|e] w2]; cbn [fst snd] in Hu; [|simplify_eq; by left].
  unfold catch in Hu. cbn [fst snd] in Hu.
  destruct (build _ _ _ _ _ _ _ _ _ _ _ _ w2) as [[[]|e] w3]; cbn [fst snd] in Hu.
  - unfold remove_dir_all, ignore, on_fst, bind, instances.set_build_state, instances.update,
      modify in Hu. cbn [fst snd] in Hu.
    destruct cred as [c|]; unfold ret in Hu; cbn in Hu; simplify_eq; cbn; split; [done|by eexists|done|].
    exists id. unfold set_git_credentials. cbn. by destruct d.
  - unfold remove_dir_all, ignore, on_fst, bind, instances.set_build_state, instances.update,
      modify in Hu. cbn [fst snd] in Hu. unfold fail in Hu. simplify_eq. by right.
Qed.
(** What an update records. Nothing is recorded for a build that was not needed;
    a build that succeeds makes the instance ready at the commit reported; a
    failure leaves the database as it was, or marks the instance as failed with the
    commit it had before. *)
Theorem update_instance_spec hub_env env_dir inst def sb now d w r d' w' :
  update hub_env env_dir inst def sb now (d, w) = (r, (d', w')) →
  match r with
  | Ok rep =>
      rep.(previous_commit) = inst.(instances.built_commit) ∧
      if rep.(changed) then
        ∃ g, d' = set_git_credentials g (set_user_server_instances
          (alter (instances.with_build "ready" (Some rep.(commit))) inst.(instances.id)) d)
      else d' = d ∧ already_built symlink_metadata canonicalize w'.1 env_dir inst rep.(commit) = true
  | Err _ =>
      d' = d ∨ d' = set_user_server_instances
        (alter (instances.with_build "error" inst.(instances.built_commit)) inst.(instances.id)) d
  end.
Proof. apply update_instance_cases. Qed.

(** After a failed update the build that worked before is not launched any
    more, although it is still there and its commit still recorded. *)
Theorem failed_update_unusable hub_env env_dir inst def sb now d w e d' w' r f :
  update hub_env env_dir inst def sb now (d, w) = (Err e, (d', w')) → d' ≠ d →
  d'.(user_server_instances) !! inst.(instances.id) = Some r → is_git_source def = true →
  r.(instance.built_commit) = inst.(instances.built_commit) ∧
  resolved_command f env_dir (instances.into_instance inst.(instances.id) r) def = None.
Proof.
  intros Hu%update_instance_cases Hne Hr Hg. destruct Hu as [->| ->]; [done|].
  cbn in Hr. rewrite lookup_alter_eq in Hr. apply fmap_Some in Hr as (r0 & _ & ->).
  split; [done|]. unfold resolved_command. by rewrite Hg.
Qed.

End facts.

(** A git backend is launched from its own built environment: the program is
    one file name under the instance's [bin] directory. *)
Theorem launch_command_confined env_dir iid def p l :
  component iid = true → launch_command env_dir iid def = Ok (p, l) →
  l = def.(Schema.args) ∧
  ∃ name, component name = true ∧ p = env_path env_dir iid +:+ "/bin/" +:+ name.
Proof.
  intros Hi. unfold launch_command. destruct (trim <$> def.(Schema.command)) as [name|]; [|done].
  destruct name as [|c name]; [done|]. unfold validate_name. set (n := String c name).
  cbn [is_empty orb]. destruct (_ || _) eqn:E; [done|]. unfold bind_result. intros [= <- <-].
  split; [done|]. apply orb_false_iff in E as [_ Hn%negb_false_iff].
  assert (component n = true) as Hc.
  { unfold component. apply andb_true_iff. split; [done|]. apply negb_true_iff.
    eapply str_all_no_slash; [|exact Hn]. intros x [Hx|Hx]%orb_true_iff.
    - apply N.eqb_neq. intros Hb. revert Hx. unfold is_ascii_alphanumeric, is_ascii_alphabetic,
        is_ascii_lowercase, is_ascii_uppercase, is_ascii_digit. rewrite Hb. done.
    - apply bool_decide_eq_true in Hx. apply N.eqb_neq. intros Hb. rewrite Hb in Hx. set_solver. }
  exists n. split; [done|]. unfold env_path.
  assert (component "bin" = true) as Hbin by done.
  rewrite (join_component env_dir iid "bin" Hi Hbin).
  destruct (component_last (Ascii.ascii_of_N 47) "bin" (fs.join env_dir iid +:+ "/") Hbin)
    as [Hl He].
  rewrite append_assoc in Hl.
  assert (is_empty (fs.join env_dir iid +:+ "/" +:+ "bin") = false) as Hne
    by (by destruct (fs.join env_dir iid)).
  generalize dependent (fs.join env_dir iid). intros a Hl Hne. unfold fs.join.
  rewrite (component_relative _ Hc), Hne, Hl, He. by rewrite !append_assoc.
Qed.

(** *** Witnesses *)
(** An account with a credential and a Go repository, and tools that succeed. *)
Definition git_def : ServerDef := {|
  Schema.name := "n"; description := ""; transport := "stdio"; command := Some "srv";
  Schema.args := ["-v"]; url := None; runtime := ""; repo := Some "https://github.com/a/b";
  git_ref := None; entry := None; module := None; connect_timeout_secs := None |}.
Definition git_inst : instances.Instance := instances.into_instance "i" inst0.
Definition db_cred : Db := set_git_credentials (insert "g" {|
  git_credential.user_id := "u"; git_credential.host := "github.com";
  git_credential.username := ""; git_credential.sealed := {| nonce := nonce0; ciphertext := "tok" |};
  git_credential.label := ""; git_credential.created_at := 1; git_credential.updated_at := 1;
  git_credential.last_used_at := None |}) db2.
Definition text_file : fs.entry :=
  {| fs.kind := fs.File ""; fs.owner := 0; fs.grp := 0; fs.mode := 420 |}.
Definition tools0 (go_works : bool) (c : Command) (_ : Z) (f : fs.Fs)
    : option (result anyhow Output) * fs.Fs :=
  (Some (Ok {| success := negb (eqs c.(program) "go") || go_works; stdout := "abc1234";
               stderr := "" |}),
   if bool_decide ("FETCH_HEAD" ∈ c.(argv)) then <["/e/.i.src/go.mod":=text_file]> f
   else if eqs c.(program) "go" && go_works then <["/e/.i.building/bin/srv":=text_file]> f else f).
Definition coreutils0 (_ : string) (_ : list string) (f : fs.Fs) : result anyhow bool * fs.Fs :=
  (Ok true, f).
Abbreviation update0 hub_env go_works st :=
  (update_instance (H:=url0) (H0:=aead0) 0 493 hub_env (tools0 go_works) coreutils0
    (λ _ _, false) (λ _ _, None) "/e" git_inst git_def (Some sandbox0) 50 st).
Definition hub_env0 : gmap string string := {["PATH" := "/bin"]}.

Lemma build_ignores_hub_secrets_witness :
  update0 (<["HUB_MASTER_KEY":="k"]> hub_env0) true (db_cred, (∅, [])) =
  update0 hub_env0 true (db_cred, (∅, [])).
Proof.
  apply (build_ignores_hub_secrets (H:=url0) (H0:=aead0)).
  apply (bool_decide_eq_false_1 _). reflexivity.
Defined.

Definition built0 : result anyhow UpdateReport * (Db * World) :=
  update0 hub_env0 true (db_cred, (∅, [])).
Lemma build_commands_confined_witness :
  length built0.2.2.2 = 5 ∧
  Forall (λ c, runs_repo_code c = true → c.(run_as) = Some (10000, 10000)%Z) built0.2.2.2.
Proof.
  split; [vm_compute; reflexivity|].
  destruct (build_commands_confined (H:=url0) (H0:=aead0) 0 493 (tools0 true) coreutils0
    (λ _ _, false) (λ _ _, None) hub_env0 "/e" git_inst git_def (Some sandbox0) 50 db_cred ∅
    built0.1 built0.2.1 built0.2.2) as [He|(repo & cred & _ & _ & _ & Hall)].
  - vm_compute; reflexivity.
  - vm_compute in He. discriminate He.
  - eapply Forall_impl; [exact Hall|]. intros c (_ & Hr & _). exact Hr.
Defined.

Lemma update_instance_spec_witness :
  ∃ g, built0.2.1 = set_git_credentials g (set_user_server_instances
    (alter (instances.with_build "ready" (Some "abc1234")) "i") db_cred).
Proof.
  pose proof (update_instance_spec (H:=url0) (H0:=aead0) 0 493 (tools0 true) coreutils0
    (λ _ _, false) (λ _ _, None) hub_env0 "/e" git_inst git_def (Some sandbox0) 50 db_cred (∅, [])
    (Ok {| changed := true; previous_commit := None; commit := "abc1234" |})
    built0.2.1 built0.2.2) as Hs.
  destruct Hs as [_ Hg]; [vm_compute; reflexivity|exact Hg].
Defined.

Definition broken0 : result anyhow UpdateReport * (Db * World) :=
  update0 hub_env0 false (db_cred, (∅, [])).
Lemma failed_update_unusable_witness :
  resolved_command {["/e/i" := text_file]} "/e"
    (instances.into_instance "i" (instances.with_build "error" None inst0)) git_def = None.
Proof.
  destruct (failed_update_unusable (H:=url0) (H0:=aead0) 0 493 (tools0 false) coreutils0
    (λ _ _, false) (λ _ _, None) hub_env0 "/e" git_inst git_def (Some sandbox0) 50 db_cred (∅, [])
    (Msg "go build failed: ") broken0.2.1 broken0.2.2 (instances.with_build "error" None inst0)
    {["/e/i" := text_file]}) as [_ Hn]; [vm_compute; reflexivity| |vm_compute; reflexivity..|exact Hn].
  intros Heq. apply (f_equal (λ d, instance.build_status <$> d.(user_server_instances) !! "i")) in Heq.
  vm_compute in Heq. discriminate Heq.
Defined.

Lemma launch_command_confined_witness :
  ["-v"] = git_def.(Schema.args) ∧
  ∃ name, component name = true ∧ "/e/i/bin/srv" = env_path "/e" "i" +:+ "/bin/" +:+ name.
Proof. apply (launch_command_confined "/e" "i" git_def "/e/i/bin/srv" ["-v"]); reflexivity. Defined.

End gitsrc.
