(* ===== verification/Pool.v ===== *)
(** * The per-user pool of live backends (proxy/pool.rs)

    One user's pool is the record [Inner]; [AppState]'s reload epochs and the
    free permits of the global slot semaphore are arguments.  [reconcile] is
    split at its awaits: [decide_fates] is the part under one lock that settles
    who is kept, dropped, spawned or skipped, [connected] is the end of a spawn
    task, [exercise] the heartbeat pass.  Instants are milliseconds. *)

From S2P Require Import Prelude Strs Schema Fixtures Instances Backend Status.
Open Scope string_scope.
Open Scope hub_scope.

Module pool.

Definition RESPAWN_BACKOFF : Z := 30000.
Definition HEARTBEAT_MAX_STRIKES : Z := 3.

(** An [Arc<Backend>]: [arc] is its identity ([Arc::ptr_eq]). *)
Record Pooled := { arc : nat; conn : backend.Backend }.
Definition iid (b : Pooled) : string := b.(conn).(backend.instance_id).
Definition closed (b : Pooled) : bool := backend.is_closed b.(conn).

Record Inner := {
  initialized : bool; dirty : bool; backends : list Pooled;
  applied_epochs : gmap string Z; connecting : gset string; last_attempt : gmap string Z;
  heartbeat_failures : gmap string Z; last_used : Z }.
Definition new (now : Z) : Inner := {|
  initialized := false; dirty := false; backends := []; applied_epochs := ∅; connecting := ∅;
  last_attempt := ∅; heartbeat_failures := ∅; last_used := now |}.

(** [AppState::reload_epoch]. *)
Definition reload_epoch (epochs : gmap string Z) (id : string) : Z := default 0%Z (epochs !! id).
Definition bump_reload {E} (id : string) : M (gmap string Z) E unit :=
  modify (λ m, <[id := (reload_epoch m id + 1)%Z]> m).

Definition retry_due (now : Z) (i : Inner) (id : string) : bool :=
  match i.(last_attempt) !! id with
  | Some t => (RESPAWN_BACKOFF <=? now - t)%Z
  | None => true
  end.
Definition healthy (id : string) (l : list Pooled) : bool :=
  existsb (λ b, eqs (iid b) id && negb (closed b)) l.
(** One turn of the loop: this instance does not make the pool stale. *)
Definition settled (epochs : gmap string Z) (now : Z) (i : Inner) (id : string) (applied : Z) : bool :=
  (reload_epoch epochs id =? applied)%Z &&
  (bool_decide (id ∈ i.(connecting)) || healthy id i.(backends) || negb (retry_due now i id)).
Definition is_fresh (epochs : gmap string Z) (now : Z) (i : Inner) : bool :=
  i.(initialized) && negb i.(dirty) &&
  forallb (λ kv, settled epochs now i kv.1 kv.2) (map_to_list i.(applied_epochs)).

(** ** The decision of [reconcile] *)
Record Fates := {
  inner : Inner; free : nat; to_spawn : list instances.Instance;
  skipped : list (instances.Instance * string) }.

Definition with_backends (f : list Pooled → list Pooled) (i : Inner) : Inner := {|
  initialized := i.(initialized); dirty := i.(dirty); backends := f i.(backends);
  applied_epochs := i.(applied_epochs); connecting := i.(connecting);
  last_attempt := i.(last_attempt); heartbeat_failures := i.(heartbeat_failures);
  last_used := i.(last_used) |}.
(** [applied_epochs.insert(id, cur); last_attempt.insert(id, now)]. *)
Definition stamp (id : string) (cur now : Z) (i : Inner) : Inner := {|
  initialized := i.(initialized); dirty := i.(dirty); backends := i.(backends);
  applied_epochs := <[id:=cur]> i.(applied_epochs); connecting := i.(connecting);
  last_attempt := <[id:=now]> i.(last_attempt);
  heartbeat_failures := i.(heartbeat_failures); last_used := i.(last_used) |}.
Definition claim (id : string) (i : Inner) : Inner := {|
  initialized := i.(initialized); dirty := i.(dirty); backends := i.(backends);
  applied_epochs := i.(applied_epochs); connecting := {[id]} ∪ i.(connecting);
  last_attempt := i.(last_attempt);
  heartbeat_failures := delete id i.(heartbeat_failures); last_used := i.(last_used) |}.

(** [borrowed]: some request still holds the [Arc], so dropping it from the pool
    does not yet shut the backend down and free its permit. *)
Section decide.
Context (epochs : gmap string Z) (now : Z) (cap : nat) (borrowed : nat → bool).

Definition freed (l : list Pooled) : nat := length (filter (λ b, borrowed b.(arc) = false) l).

Definition skip (inst : instances.Instance) (reason : string) (f : Fates) : Fates := {|
  inner := stamp inst.(instances.id) (reload_epoch epochs inst.(instances.id)) now f.(inner);
  free := f.(free); to_spawn := f.(to_spawn);
  skipped := f.(skipped) ++ [(inst, reason)] |}%list.
Definition decide_one (f : Fates) (inst : instances.Instance) : Fates :=
  let id := inst.(instances.id) in
  let i := f.(inner) in
  if bool_decide (id ∈ i.(connecting)) then f else
  let cur := reload_epoch epochs id in
  let epoch_ok := bool_decide (i.(applied_epochs) !! id = Some cur) in
  let pos := list_find (λ b, iid b = id) i.(backends) in
  if epoch_ok && match pos with Some (_, b) => negb (closed b) | None => false end then f else
  if epoch_ok && negb (retry_due now i id) then f else
  if (cap <=? length i.(backends) + size i.(connecting) + length f.(to_spawn))%nat
  then skip inst "per-user backend cap reached" f
  else match f.(free) with
  | O => skip inst "global backend capacity reached" f
  | S free =>
      let '(drop, dropped) := match pos with
        | Some (p, b) => (delete p, [b])
        | None => (λ l, l, [])
        end in
      {| inner := claim id (stamp id cur now (with_backends drop i));
         free := free + freed dropped; to_spawn := f.(to_spawn) ++ [inst];
         skipped := f.(skipped) |}
  end%list.

(** The retained part of the pool: enabled instances only. *)
Definition retain (ids : list string) (i : Inner) : Inner := {|
  initialized := i.(initialized); dirty := false;
  backends := filter (λ b, iid b ∈ ids) i.(backends);
  applied_epochs := filter (λ kv, kv.1 ∈ ids) i.(applied_epochs);
  connecting := i.(connecting); last_attempt := i.(last_attempt);
  heartbeat_failures := filter (λ kv, kv.1 ∈ ids) i.(heartbeat_failures);
  last_used := i.(last_used) |}.
Definition decide_fates (enabled : list instances.Instance) (free : nat) (i : Inner) : Fates :=
  let ids := instances.id <$> enabled in
  let gone := filter (λ b, iid b ∉ ids) i.(backends) in
  fold_left decide_one enabled
    {| inner := retain ids i; free := free + freed gone; to_spawn := []; skipped := [] |}.

(** The sandbox is required but unavailable: nothing is spawned. *)
Definition sandbox_unavailable (enabled : list instances.Instance) (i : Inner) : Inner :=
  let i := {| initialized := true; dirty := false; backends := i.(backends);
              applied_epochs := i.(applied_epochs); connecting := i.(connecting);
              last_attempt := i.(last_attempt); heartbeat_failures := i.(heartbeat_failures);
              last_used := i.(last_used) |} in
  fold_left (λ i inst, stamp inst.(instances.id) (reload_epoch epochs inst.(instances.id)) now i)
    enabled i.
End decide.

(** ** The other transitions *)
(** The end of a spawn task, under the lock; [true] when the backend is pooled. *)
Definition connected (id : string) (o : option Pooled) (i : Inner) : bool * Inner :=
  let unclaimed := {| initialized := i.(initialized); dirty := i.(dirty);
    backends := i.(backends); applied_epochs := i.(applied_epochs);
    connecting := i.(connecting) ∖ {[id]}; last_attempt := i.(last_attempt);
    heartbeat_failures := i.(heartbeat_failures); last_used := i.(last_used) |} in
  match o with
  | Some b =>
      if bool_decide (is_Some (i.(applied_epochs) !! id))
      then (true, with_backends (λ l, l ++ [b])%list unclaimed)
      else (false, unclaimed)
  | None => (false, unclaimed)
  end.
(** The end of the bind, whether or not its budget expired. *)
Definition bound (i : Inner) : Inner := {|
  initialized := true; dirty := i.(dirty); backends := i.(backends);
  applied_epochs := i.(applied_epochs); connecting := i.(connecting);
  last_attempt := i.(last_attempt); heartbeat_failures := i.(heartbeat_failures);
  last_used := i.(last_used) |}.
Definition mark_dirty (i : Inner) : Inner := {|
  initialized := i.(initialized); dirty := true; backends := i.(backends);
  applied_epochs := i.(applied_epochs); connecting := i.(connecting);
  last_attempt := i.(last_attempt); heartbeat_failures := i.(heartbeat_failures);
  last_used := i.(last_used) |}.
Definition borrow (now : Z) (i : Inner) : Inner := {|
  initialized := i.(initialized); dirty := i.(dirty); backends := i.(backends);
  applied_epochs := i.(applied_epochs); connecting := i.(connecting);
  last_attempt := i.(last_attempt); heartbeat_failures := i.(heartbeat_failures);
  last_used := now |}.

Definition with_strikes (f : gmap string Z → gmap string Z) (i : Inner) : Inner := {|
  initialized := i.(initialized); dirty := i.(dirty); backends := i.(backends);
  applied_epochs := i.(applied_epochs); connecting := i.(connecting);
  last_attempt := i.(last_attempt); heartbeat_failures := f i.(heartbeat_failures);
  last_used := i.(last_used) |}.
(** One heartbeat result of [exercise_all], with the instances dropped so far. *)
Definition exercise_one (st : Inner * list string) (r : Pooled * bool) : Inner * list string :=
  let '(i, dropped) := st in
  let '(b, answered) := r in
  if (answered : bool) then (with_strikes (delete (iid b)) i, dropped)
  else
    let strikes := (default 0%Z (i.(heartbeat_failures) !! iid b) + 1)%Z in
    if (HEARTBEAT_MAX_STRIKES <=? strikes)%Z then
      let i := with_strikes (delete (iid b)) i in
      match list_find (λ x, x.(arc) = b.(arc)) i.(backends) with
      | Some (p, _) => (with_backends (delete p) i, (dropped ++ [iid b])%list)
      | None => (i, dropped)
      end
    else (with_strikes <[iid b := strikes]> i, dropped).
Definition exercise (results : list (Pooled * bool)) (i : Inner) : Inner * list string :=
  fold_left exercise_one results (i, []).

(** ** All users' pools *)
Abbreviation Users := (gmap string Inner).
Definition mark_dirty_user {E} (uid : string) : M Users E unit := modify (alter mark_dirty uid).
Definition entry {E} (uid : string) (now : Z) : M Users E unit :=
  modify (λ us, match us !! uid with Some _ => us | None => <[uid:=new now]> us end).
(** Drops the entries idle for [idle] or longer: [(users, backends)] reaped. *)
Definition idle_for (now idle : Z) (i : Inner) : bool := (idle <=? now - i.(last_used))%Z.
Definition total_backends (us : Users) : nat := map_fold (λ _ i n, length i.(backends) + n) 0 us.
Definition reap_idle {E} (now idle : Z) : M Users E (nat * nat) := λ us,
  let reaped := filter (λ kv, idle_for now idle kv.2 = true) us in
  (Ok (size reaped, total_backends reaped), filter (λ kv, idle_for now idle kv.2 = false) us).
Definition counts (us : Users) : nat * nat := (size us, total_backends us).

(** ** One user's pool as a transition system *)
Record State := { pool : Inner; epochs : gmap string Z; next_arc : nat }.
Definition on_pool (f : Inner → Inner) (s : State) : State :=
  {| pool := f s.(pool); epochs := s.(epochs); next_arc := s.(next_arc) |}.
(** A closed transport. *)
Definition close (b : backend.Backend) : backend.Backend :=
  let p := b.(backend.peer) in {|
  backend.instance_id := b.(backend.instance_id); backend.namespace := b.(backend.namespace);
  backend.display_name := b.(backend.display_name);
  backend.peer := {|
    rmcp.peer_info := p.(rmcp.peer_info); rmcp.is_transport_closed := true;
    rmcp.list_all_tools := p.(rmcp.list_all_tools);
    rmcp.list_all_prompts := p.(rmcp.list_all_prompts);
    rmcp.list_all_resources := p.(rmcp.list_all_resources);
    rmcp.list_all_resource_templates := p.(rmcp.list_all_resource_templates);
    rmcp.peer_read_resource := p.(rmcp.peer_read_resource);
    rmcp.peer_get_prompt := p.(rmcp.peer_get_prompt);
    rmcp.peer_call_tool := p.(rmcp.peer_call_tool) |} |}.
Definition close_arc (a : nat) (b : Pooled) : Pooled :=
  if (b.(arc) =? a)%nat then {| arc := a; conn := close b.(conn) |} else b.

Inductive step (cap : nat) (s : State) : State → Prop :=
| Reconcile now enabled free borrowed :
    NoDup (instances.id <$> enabled) →
    step cap s (on_pool (λ i, (decide_fates s.(epochs) now cap borrowed enabled free i).(inner)) s)
| NoSandbox now enabled : step cap s (on_pool (sandbox_unavailable s.(epochs) now enabled) s)
| Bound : step cap s (on_pool bound s)
| Failed id : id ∈ s.(pool).(connecting) → step cap s (on_pool (λ i, (connected id None i).2) s)
| Connected id b :
    id ∈ s.(pool).(connecting) → b.(backend.instance_id) = id →
    step cap s {| pool := (connected id (Some {| arc := s.(next_arc); conn := b |}) s.(pool)).2;
                  epochs := s.(epochs); next_arc := S s.(next_arc) |}
| Died a : step cap s (on_pool (with_backends (map (close_arc a))) s)
| Dirty : step cap s (on_pool mark_dirty s)
| Borrowed now : step cap s (on_pool (borrow now) s)
| Heartbeats results : step cap s (on_pool (λ i, (exercise results i).1) s)
| Bumped id :
    step cap s {| pool := s.(pool); epochs := (bump_reload (E:=anyhow) id s.(epochs)).2;
                  next_arc := s.(next_arc) |}.

Inductive reachable (cap : nat) : State → Prop :=
| initial now e : reachable cap {| pool := new now; epochs := e; next_arc := 0 |}
| after s s' : reachable cap s → step cap s s' → reachable cap s'.

(** ** Facts: the invariant *)
Record inv (cap : nat) (i : Inner) : Prop := {
  inv_unique : NoDup (iid <$> i.(backends));
  inv_apart : ∀ b, b ∈ i.(backends) → iid b ∉ i.(connecting);
  inv_cap : (length i.(backends) + size i.(connecting) <= cap)%nat }.

Lemma inv_new cap now : inv cap (new now).
Proof. split; cbn; [constructor|by intros b ?%not_elem_of_nil|]. rewrite size_empty. lia. Qed.
(** Dropping backends and claims keeps the invariant. *)
Lemma inv_shrink cap i i' :
  inv cap i → i'.(backends) `sublist_of` i.(backends) → i'.(connecting) ⊆ i.(connecting) →
  inv cap i'.
Proof.
  intros [Hu Ha Hc] Hb Hs. split.
  - by eapply sublist_NoDup, fmap_sublist.
  - intros b Hin Hcon. eapply Ha; [|by apply Hs]. by eapply elem_of_sublist.
  - pose proof (sublist_length _ _ Hb). pose proof (subseteq_size _ _ Hs). lia.
Qed.

(** The backend at [pos] is the only one of its instance. *)
Lemma delete_found (l : list Pooled) id p b :
  NoDup (iid <$> l) → list_find (λ b, iid b = id) l = Some (p, b) →
  l !! p = Some b ∧ iid b = id ∧ S (length (delete p l)) = length l ∧
  ∀ x, x ∈ delete p l → x ∈ l ∧ iid x ≠ id.
Proof.
  intros Hu (Hp & Hb & _)%list_find_Some. pose proof (lookup_lt_Some _ _ _ Hp) as Hlt.
  split_and!; [done..| |].
  - rewrite length_delete by eauto. lia.
  - intros x Hx. split; [by eapply elem_of_sublist, sublist_delete|].
    rewrite delete_take_drop, elem_of_app in Hx. intros Hid.
    assert (∃ q, q ≠ p ∧ l !! q = Some x) as (q & Hne & Hq).
    { destruct Hx as [Hx|Hx]; apply list_elem_of_lookup in Hx as [q Hq].
      - apply lookup_take_Some in Hq as [Hq ?]. exists q. split; [lia|done].
      - rewrite lookup_drop in Hq. exists (S p + q). split; [lia|done]. }
    apply Hne. apply (NoDup_lookup (iid <$> l) _ _ id); [done|..];
      rewrite list_lookup_fmap; [by rewrite Hq, <- Hid|by rewrite Hp, <- Hb].
Qed.

Lemma filter_delete_other (l : list Pooled) p b (P : Pooled → Prop) `{∀ x, Decision (P x)} :
  l !! p = Some b → ¬ P b → filter P (delete p l) = filter P l.
Proof.
  intros Hp Hb. transitivity (filter P (take p l ++ b :: drop (S p) l)%list).
  - rewrite delete_take_drop, !filter_app, filter_cons. by rewrite decide_False.
  - by rewrite take_drop_middle.
Qed.

Section decide_facts.
Context (epochs : gmap string Z) (now : Z) (cap : nat) (borrowed : nat → bool).
Abbreviation decide1 := (decide_one epochs now cap borrowed).

(** The instance needs a (re)spawn: nobody is connecting it, and it is not both at
    its current epoch and either alive or within its backoff. *)
Definition due (i : Inner) (id : string) : bool :=
  negb (bool_decide (id ∈ i.(connecting))) &&
  negb (bool_decide (i.(applied_epochs) !! id = Some (reload_epoch epochs id)) &&
        (match list_find (λ b, iid b = id) i.(backends) with
         | Some (_, b) => negb (closed b) | None => false end ||
         negb (retry_due now i id))).

(** The three outcomes of one instance. *)
Inductive outcome (f : Fates) (inst : instances.Instance) : Fates → Prop :=
| untouched : due f.(inner) inst.(instances.id) = false → outcome f inst f
| skipping reason :
    due f.(inner) inst.(instances.id) = true →
    (cap <= length f.(inner).(backends) + size f.(inner).(connecting) + length f.(to_spawn)
     ∨ f.(free) = 0)%nat →
    outcome f inst (skip epochs now inst reason f)
| spawning i drop n :
    due f.(inner) inst.(instances.id) = true →
    inst.(instances.id) ∉ f.(inner).(connecting) →
    (length f.(inner).(backends) + size f.(inner).(connecting) + length f.(to_spawn) < cap)%nat →
    i = claim inst.(instances.id)
          (stamp inst.(instances.id) (reload_epoch epochs inst.(instances.id)) now
             (with_backends drop f.(inner))) →
    drop f.(inner).(backends) `sublist_of` f.(inner).(backends) →
    (NoDup (iid <$> f.(inner).(backends)) →
     ∀ b, b ∈ drop f.(inner).(backends) → iid b ≠ inst.(instances.id)) →
    (∀ id, id ≠ inst.(instances.id) →
     filter (λ b, iid b = id) (drop f.(inner).(backends)) =
     filter (λ b, iid b = id) f.(inner).(backends)) →
    (f.(free) <= S n)%nat →
    outcome f inst {| inner := i; free := n; to_spawn := f.(to_spawn) ++ [inst];
                      skipped := f.(skipped) |}.
Lemma decide_one_outcome f inst : outcome f inst (decide1 f inst).
Proof.
  assert (∀ b, due f.(inner) inst.(instances.id) = b → due f.(inner) inst.(instances.id) = b)
    as Hdue by done.
  unfold due at 1 in Hdue. unfold decide_one.
  destruct (bool_decide (_ ∈ _)) eqn:Ec; [constructor; by apply Hdue|].
  apply bool_decide_eq_false in Ec.
  set (pos := list_find (λ b, iid b = inst.(instances.id)) f.(inner).(backends)) in *.
  set (alive := match pos with Some (_, b) => negb (closed b) | None => false end) in *.
  destruct (bool_decide _ && alive) eqn:E1;
    [apply andb_true_iff in E1 as [E1 E2]; rewrite E1, E2 in Hdue; constructor; by apply Hdue|].
  destruct (bool_decide _ && negb (retry_due _ _ _)) eqn:E2;
    [apply andb_true_iff in E2 as [E2 E3]; rewrite E2, E3, orb_true_r in Hdue;
     constructor; by apply Hdue|].
  rewrite andb_orb_distrib_r, E1, E2 in Hdue. specialize (Hdue true eq_refl).
  destruct (Nat.leb_spec cap (length f.(inner).(backends) + size f.(inner).(connecting) +
    length f.(to_spawn))) as [|Hlt]; [constructor; by auto|].
  destruct f.(free) as [|n] eqn:En; [constructor; by auto|].
  destruct pos as [[p b]|] eqn:Ep; cbn.
  - eapply (spawning _ _ _ (delete p)); [done|done|done|done|apply sublist_delete| |
      |rewrite En; lia].
    + intros Hu x Hx. destruct (delete_found _ _ _ _ Hu Ep) as (_ & _ & _ & Hd).
      by destruct (Hd x Hx).
    + apply list_find_Some in Ep as (Hp & <- & _). intros id Hne.
      by eapply filter_delete_other.
  - eapply (spawning _ _ _ (λ l, l)); [done|done|done|done|done| |done|rewrite En; lia].
    intros _ x Hx Heq. unfold pos in Ep. rewrite list_find_None, Forall_forall in Ep. by eapply Ep.
Qed.

Lemma inv_decide_one f inst : inv cap f.(inner) → inv cap (decide1 f inst).(inner).
Proof.
  intros Hi. destruct (decide_one_outcome f inst) as
    [|reason|i drop n _ Hc Hlt -> Hsub Hid]; cbn.
  - done.
  - eapply inv_shrink; [exact Hi|done..].
  - destruct Hi as [Hu Ha Hcap]. split; cbn.
    + by eapply sublist_NoDup, fmap_sublist.
    + intros b Hb [?%elem_of_singleton|Hcon]%elem_of_union; [by eapply Hid|].
      eapply Ha; [|done]. by eapply elem_of_sublist.
    + pose proof (sublist_length _ _ Hsub).
      rewrite size_union, size_singleton by set_solver. lia.
Qed.
(** What concerns one instance, the same in two states. *)
Definition same_at (id : string) (i j : Inner) : Prop :=
  i.(applied_epochs) !! id = j.(applied_epochs) !! id ∧
  i.(last_attempt) !! id = j.(last_attempt) !! id ∧
  (id ∈ i.(connecting) ↔ id ∈ j.(connecting)) ∧
  filter (λ b, iid b = id) i.(backends) = filter (λ b, iid b = id) j.(backends).
Lemma same_at_refl id i : same_at id i i.
Proof. done. Qed.
Lemma same_at_trans id i j k : same_at id i j → same_at id j k → same_at id i k.
Proof. unfold same_at. intros (-> & -> & -> & ->) (-> & -> & -> & ->). done. Qed.

Lemma find_head (P : Pooled → Prop) `{∀ b, Decision (P b)} l :
  snd <$> list_find P l = head (filter P l).
Proof.
  induction l as [|b l IH]; [done|]. rewrite filter_cons. cbn [list_find].
  destruct (decide (P b)); [done|]. rewrite <- IH. by destruct (list_find P l) as [[]|].
Qed.
Lemma due_same id i j : same_at id i j → due i id = due j id.
Proof.
  intros (Ha & Hl & Hc & Hb). unfold due, retry_due. rewrite Ha, Hl.
  rewrite (bool_decide_ext _ _ Hc). f_equal. f_equal. f_equal. f_equal.
  assert (∀ l, match list_find (λ b, iid b = id) l with
    | Some (_, b) => negb (closed b) | None => false end =
    match head (filter (λ b, iid b = id) l) with Some b => negb (closed b) | None => false end)
    as Hh by (intros l; rewrite <- find_head; by destruct (list_find _ l) as [[]|]).
  by rewrite !Hh, Hb.
Qed.
Lemma decide_one_other f inst id :
  id ≠ inst.(instances.id) → same_at id f.(inner) (decide1 f inst).(inner).
Proof.
  intros Hne. destruct (decide_one_outcome f inst) as
    [|reason|i drop n _ Hc Hlt -> Hsub Hid Hother]; cbn; [done|..]; unfold same_at; cbn.
  - by rewrite !lookup_insert_ne.
  - rewrite !lookup_insert_ne by done. split_and!; [done..|set_solver|].
    symmetry. by apply Hother.
Qed.

(** The fates of a run of instances: each one that is due is spawned or skipped,
    the others and the instances outside the run are left alone. *)
Record fated (l : list instances.Instance) (f g : Fates) : Prop := {
  fated_other id : id ∉ instances.id <$> l → same_at id f.(inner) g.(inner);
  fated_untouched inst : inst ∈ l → due f.(inner) inst.(instances.id) = false →
    same_at inst.(instances.id) f.(inner) g.(inner);
  fated_lists : ∃ ls lk, g.(to_spawn) = (f.(to_spawn) ++ ls)%list ∧
    g.(skipped) = (f.(skipped) ++ lk)%list ∧
    (∀ inst, inst ∈ l → due f.(inner) inst.(instances.id) = true ↔ inst ∈ ls ∨ inst ∈ lk.*1) ∧
    (∀ inst, inst ∈ ls → inst ∈ l ∧ inst.(instances.id) ∈ g.(inner).(connecting) ∧
      g.(inner).(applied_epochs) !! inst.(instances.id) =
        Some (reload_epoch epochs inst.(instances.id)) ∧
      ∀ b, b ∈ g.(inner).(backends) → iid b ≠ inst.(instances.id)) ∧
    (∀ inst, inst ∈ lk.*1 → inst ∈ l ∧
      g.(inner).(applied_epochs) !! inst.(instances.id) =
        Some (reload_epoch epochs inst.(instances.id)) ∧
      filter (λ b, iid b = inst.(instances.id)) g.(inner).(backends) =
      filter (λ b, iid b = inst.(instances.id)) f.(inner).(backends));
  fated_backends : g.(inner).(backends) `sublist_of` f.(inner).(backends) }.

Lemma filter_absent (l : list Pooled) id :
  filter (λ b, iid b = id) l = [] ↔ ∀ b, b ∈ l → iid b ≠ id.
Proof.
  split.
  - intros Hf b Hb Heq. assert (b ∈ filter (λ b, iid b = id) l) as Hin
      by (by apply list_elem_of_filter). rewrite Hf in Hin. by apply not_elem_of_nil in Hin.
  - intros Hn. destruct (filter _ _) as [|b l'] eqn:E; [done|].
    assert (b ∈ filter (λ b, iid b = id) l) as [Hb Hin]%list_elem_of_filter
      by (rewrite E; constructor). by destruct (Hn b).
Qed.

Lemma decide_one_idle f inst : due f.(inner) inst.(instances.id) = false → decide1 f inst = f.
Proof. intros Hd. destruct (decide_one_outcome f inst); [done|congruence..]. Qed.
Lemma decide_one_fated f inst :
  NoDup (iid <$> f.(inner).(backends)) → fated [inst] f (decide1 f inst).
Proof.
  intros Hu. split.
  - intros id Hid. apply decide_one_other. set_solver.
  - intros j ->%list_elem_of_singleton Hd. by rewrite decide_one_idle.
  - destruct (decide_one_outcome f inst) as
      [Hd|reason Hd Hr|i drop n Hd Hc Hlt -> Hsub Hid Hother]; cbn.
    + exists [], []. rewrite !app_nil_r. split_and!; [done..| | |].
      * intros j ->%list_elem_of_singleton. rewrite Hd. set_solver.
      * intros j ?%not_elem_of_nil. done.
      * intros j ?%not_elem_of_nil. done.
    + exists [], [(inst, reason)]. rewrite app_nil_r. split_and!; [done..| | |].
      * intros j ->%list_elem_of_singleton. rewrite Hd. set_solver.
      * intros j ?%not_elem_of_nil. done.
      * intros j ->%list_elem_of_singleton. split_and!; [set_solver| |done].
        cbn. by rewrite lookup_insert_eq.
    + exists [inst], []. rewrite app_nil_r. split_and!; [done..| | |].
      * intros j ->%list_elem_of_singleton. rewrite Hd. set_solver.
      * intros j ->%list_elem_of_singleton. cbn. rewrite lookup_insert_eq.
        split_and!; [set_solver..|by apply Hid].
      * intros j ?%not_elem_of_nil. done.
  - destruct (decide_one_outcome f inst) as [| |i drop n Hd Hc Hlt -> Hsub Hid Hother]; done.
Qed.

Lemma decide_all_fated l f :
  NoDup (instances.id <$> l) → NoDup (iid <$> f.(inner).(backends)) →
  fated l f (fold_left decide1 l f).
Proof.
  revert f. induction l as [|inst l IH]; intros f Hl Hu.
  - split; [done|by intros j ?%not_elem_of_nil| |done]. exists [], []. rewrite !app_nil_r.
    split_and!; [done..| | |]; intros j ?%not_elem_of_nil; done.
  - apply NoDup_cons in Hl as [Hni Hl]. pose proof (decide_one_fated f inst Hu) as [Ho1 _ Hl1 Hs1].
    assert (NoDup (iid <$> (decide1 f inst).(inner).(backends))) as Hu1
      by (by eapply sublist_NoDup, fmap_sublist).
    cbn [fold_left]. destruct (IH (decide1 f inst) Hl Hu1) as [Ho2 Hi2 Hl2 Hs2].
    set (g := fold_left _ _ _) in *. split.
    + intros id Hid. rewrite fmap_cons, not_elem_of_cons in Hid. destruct Hid as [Hne Hid].
      eapply same_at_trans; [apply Ho1; set_solver|by apply Ho2].
    + intros j [->|Hj]%elem_of_cons Hd.
      * rewrite <- (decide_one_idle f inst Hd) at 1. by apply Ho2.
      * assert (same_at j.(instances.id) f.(inner) (decide1 f inst).(inner)) as Hsj.
        { apply Ho1. intros Heq%list_elem_of_singleton. apply Hni. rewrite <- Heq.
          by apply list_elem_of_fmap_2. }
        eapply same_at_trans; [exact Hsj|]. apply Hi2; [done|]. by rewrite <- (due_same _ _ _ Hsj).
    + destruct Hl1 as (ls1 & lk1 & Es1 & Ek1 & Hd1 & Hs & Hk).
      destruct Hl2 as (ls2 & lk2 & Es2 & Ek2 & Hd2 & Hs' & Hk').
      pose proof (Ho2 _ Hni) as Hsame.
      exists (ls1 ++ ls2)%list, (lk1 ++ lk2)%list.
      rewrite Es2, Es1, Ek2, Ek1, !app_assoc, fmap_app.
      assert (∀ j, j ∈ l → j.(instances.id) ≠ inst.(instances.id)) as Hne.
      { intros j Hj Heq. apply Hni. rewrite <- Heq. by apply list_elem_of_fmap_2. }
      assert (∀ j, j ∈ l → same_at j.(instances.id) f.(inner) (decide1 f inst).(inner)) as Hsj.
      { intros j Hj. apply Ho1. specialize (Hne j Hj). set_solver. }
      split_and!; [done..| | |].
      * intros j [->|Hj]%elem_of_cons.
        -- rewrite (Hd1 inst) by set_solver. rewrite !elem_of_app. split; [naive_solver|].
           intros [[?|Hj]|[?|Hj]]; [by left| |by right|].
           ++ by destruct (Hne inst (proj1 (Hs' _ Hj))).
           ++ by destruct (Hne inst (proj1 (Hk' _ Hj))).
        -- rewrite (due_same _ _ _ (Hsj j Hj)), (Hd2 j Hj), !elem_of_app.
           split; [naive_solver|]. intros [[Hj'|?]|[Hj'|?]]; [|by left| |by right].
           ++ destruct (Hs _ Hj') as [->%list_elem_of_singleton _]. by destruct (Hne inst Hj).
           ++ destruct (Hk _ Hj') as [->%list_elem_of_singleton _]. by destruct (Hne inst Hj).
      * intros j [Hj|Hj]%elem_of_app.
        -- destruct (Hs j Hj) as (->%list_elem_of_singleton & Hc & Ha & Hb).
           destruct Hsame as (Ha' & _ & Hc' & Hb'). split_and!; [set_solver|by apply Hc'|congruence|].
           apply filter_absent. rewrite <- Hb'. by apply filter_absent.
        -- destruct (Hs' j Hj) as (? & ? & ? & ?). split_and!; [set_solver|done..].
      * intros j [Hj|Hj]%elem_of_app.
        -- destruct (Hk j Hj) as (->%list_elem_of_singleton & Ha & Hb).
           destruct Hsame as (Ha' & _ & _ & Hb'). split_and!; [set_solver|congruence..].
        -- destruct (Hk' j Hj) as (Hjl & Ha & Hb). split_and!; [set_solver|done|].
           rewrite Hb. symmetry. apply (Hsj j Hjl).
    + by etrans.
Qed.

Lemma inv_decide_fates enabled free i :
  inv cap i → inv cap (decide_fates epochs now cap borrowed enabled free i).(inner).
Proof.
  intros Hi. unfold decide_fates. set (f := {| inner := retain _ _ |}).
  assert (inv cap f.(inner)) as Hf.
  { eapply inv_shrink; [exact Hi|cbn; apply sublist_filter|done]. }
  clearbody f. revert f Hf. induction enabled as [|inst l IH]; intros f Hf; [done|].
  cbn. by apply IH, inv_decide_one.
Qed.
End decide_facts.

Lemma inv_sandbox_unavailable cap epochs now enabled i :
  inv cap i → inv cap (sandbox_unavailable epochs now enabled i).
Proof.
  intros Hi. unfold sandbox_unavailable. set (j := {| initialized := true |}).
  assert (inv cap j) as Hj by (eapply inv_shrink; [exact Hi|done..]).
  clearbody j. revert j Hj. induction enabled as [|inst l IH]; intros j Hj; [done|].
  cbn. apply IH. by eapply inv_shrink.
Qed.
Lemma inv_failed cap id i : inv cap i → inv cap (connected id None i).2.
Proof. intros Hi. eapply inv_shrink; [exact Hi|done|cbn; set_solver]. Qed.
Lemma inv_connected cap id b i :
  id ∈ i.(connecting) → iid b = id → inv cap i → inv cap (connected id (Some b) i).2.
Proof.
  intros Hc Hb Hi. unfold connected. case_bool_decide as Ht;
    [|eapply inv_shrink; [exact Hi|done|cbn; set_solver]].
  destruct Hi as [Hu Ha Hcap]. split; cbn.
  - rewrite fmap_app. apply NoDup_app. split_and!; [done| |apply NoDup_singleton].
    intros x (y & -> & Hy)%list_elem_of_fmap Heq%list_elem_of_singleton.
    apply (Ha _ Hy). by rewrite Heq, Hb.
  - intros x [Hx| ->%list_elem_of_singleton]%elem_of_app; [|set_solver].
    specialize (Ha _ Hx). set_solver.
  - rewrite length_app, size_difference by set_solver. rewrite size_singleton. cbn.
    assert (0 < size i.(connecting))%nat; [|lia].
    destruct (size i.(connecting)) eqn:E; [|lia]. apply size_empty_iff in E. set_solver.
Qed.
Lemma inv_exercise cap results i : inv cap i → inv cap (exercise results i).1.
Proof.
  unfold exercise. generalize (@nil string) as dropped.
  revert i. induction results as [|[b answered] l IH]; intros i dropped Hi; [done|]. cbn.
  destruct answered; [apply IH; by eapply inv_shrink|].
  case_match; [|apply IH; by eapply inv_shrink].
  destruct (list_find _ _) as [[p x]|] eqn:E; apply IH; eapply inv_shrink; try done.
  cbn. apply sublist_delete.
Qed.
Lemma inv_died cap a i : inv cap i → inv cap (with_backends (map (close_arc a)) i).
Proof.
  intros [Hu Ha Hc]. assert (∀ b, iid (close_arc a b) = iid b) as Hid.
  { intros b. unfold close_arc. by destruct (_ =? _)%nat. }
  split; cbn.
  - rewrite <- list_fmap_compose. erewrite list_fmap_ext; [exact Hu|]. intros k b _. apply Hid.
  - intros b (x & -> & Hx)%list_elem_of_fmap. rewrite Hid. by apply Ha.
  - by rewrite length_map.
Qed.

Lemma inv_step cap s s' : step cap s s' → inv cap s.(pool) → inv cap s'.(pool).
Proof.
  intros Hstep IH. destruct Hstep; cbn.
  - by apply inv_decide_fates.
  - by apply inv_sandbox_unavailable.
  - by eapply inv_shrink.
  - by apply inv_failed.
  - by apply inv_connected.
  - by apply inv_died.
  - by eapply inv_shrink.
  - by eapply inv_shrink.
  - by apply inv_exercise.
  - done.
Qed.

(** C22: however binds, connects, crashes, heartbeats, restarts and edits of the
    server list interleave, a user's pool never holds two backends of one
    instance, never one that a spawn task is still connecting, and its backends
    and pending connects never exceed the per-user cap. *)
Theorem pool_invariant cap s : reachable cap s → inv cap s.(pool).
Proof. induction 1 as [now e|s s' _ IH Hstep]; [apply inv_new|by eapply inv_step]. Qed.

(** ** What a reconcile does *)
Lemma sublist_retained ids i : (retain ids i).(backends) `sublist_of` i.(backends).
Proof. cbn. apply sublist_filter. Qed.

(** C23: a reconcile converges the pool on the enabled instances: an instance that
    needs a (re)spawn is claimed, its old backend leaving the pool, or reported
    skipped; a backend of an instance that does not keeps its place; and nothing
    else stays in the pool. *)
Theorem reconcile_spec epochs now cap borrowed enabled free i :
  NoDup (instances.id <$> enabled) → inv cap i →
  let ids := instances.id <$> enabled in
  let g := decide_fates epochs now cap borrowed enabled free i in
  let needs id := due epochs now (retain ids i) id in
  (∀ inst, inst ∈ enabled →
     needs inst.(instances.id) = true ↔ inst ∈ g.(to_spawn) ∨ inst ∈ g.(skipped).*1) ∧
  (∀ inst, inst ∈ g.(to_spawn) →
     inst ∈ enabled ∧ inst.(instances.id) ∈ g.(inner).(connecting) ∧
     ∀ b, b ∈ g.(inner).(backends) → iid b ≠ inst.(instances.id)) ∧
  (∀ b, b ∈ i.(backends) → iid b ∈ ids → needs (iid b) = false → b ∈ g.(inner).(backends)) ∧
  (∀ b, b ∈ g.(inner).(backends) → b ∈ i.(backends) ∧ iid b ∈ ids).
Proof.
  intros Hn Hi ids g needs. unfold g, decide_fates.
  set (f := {| inner := retain _ _ |}).
  assert (NoDup (iid <$> f.(inner).(backends))) as Hu
    by (eapply sublist_NoDup; [apply Hi|apply fmap_sublist, sublist_retained]).
  destruct (decide_all_fated epochs now cap borrowed enabled f Hn Hu)
    as [_ Hidle (ls & lk & Es & Ek & Hd & Hs & Hk) Hb].
  set (h := fold_left _ _ _) in *. cbn in Es, Ek. rewrite Es, Ek.
  assert (∀ b, b ∈ h.(inner).(backends) → b ∈ i.(backends) ∧ iid b ∈ ids) as Hsub.
  { intros b Hbh. eapply elem_of_sublist in Hbh; [|exact Hb]. cbn in Hbh.
    by apply list_elem_of_filter in Hbh as [? ?]. }
  split_and!; [done| | |done].
  - intros inst Hin. by destruct (Hs inst Hin) as (? & ? & _ & ?).
  - intros b Hbi Hid Hneed.
    pose proof Hid as (inst & Heq & Hin)%list_elem_of_fmap.
    rewrite Heq in Hneed. destruct (Hidle inst Hin Hneed) as (_ & _ & _ & Hf).
    assert (b ∈ filter (λ x, iid x = inst.(instances.id)) h.(inner).(backends))
      as [_ ?]%list_elem_of_filter; [|done].
    rewrite <- Hf. apply list_elem_of_filter. split; [done|]. cbn. by apply list_elem_of_filter.
Qed.

(** ** Capacity *)
(** An instance of a pool that tracks nothing is due. *)
Lemma due_untracked epochs now i id :
  id ∉ i.(connecting) → i.(applied_epochs) !! id = None → due epochs now i id = true.
Proof. intros Hc Ha. unfold due. by rewrite Ha, !bool_decide_false. Qed.

Section first_bind.
Context (epochs : gmap string Z) (now : Z) (cap : nat) (borrowed : nat → bool).
(** The state of the loop on a first bind: [k] claimed so far, counted twice. *)
Definition claimed (k : nat) (f : Fates) : Prop :=
  f.(inner).(backends) = [] ∧ size f.(inner).(connecting) = k ∧ length f.(to_spawn) = k.
Lemma claim_step f inst k :
  claimed k f → inst.(instances.id) ∉ f.(inner).(connecting) →
  f.(inner).(applied_epochs) !! inst.(instances.id) = None → (0 < f.(free))%nat →
  let f' := decide_one epochs now cap borrowed f inst in
  claimed (if (k + k <? cap)%nat then S k else k) f' ∧ (f.(free) <= S f'.(free))%nat.
Proof.
  intros (Hb & Hc & Hs) Hn Ha Hf f'. unfold f'.
  pose proof (due_untracked epochs now _ _ Hn Ha) as Hdue.
  destruct (decide_one_outcome epochs now cap borrowed f inst) as
    [Hd|reason _ Hr|i drop n _ _ Hlt -> Hsub _ _ Hfree]; [congruence|..].
  - rewrite Hb, Hc, Hs in Hr. cbn in Hr. destruct (Nat.ltb_spec (k + k) cap); [lia|].
    unfold claimed. cbn. split; [done|lia].
  - rewrite Hb, Hc, Hs in Hlt. cbn in Hlt. destruct (Nat.ltb_spec (k + k) cap); [|lia].
    split; [|done]. unfold claimed. cbn. rewrite Hb in *. apply sublist_nil_r in Hsub.
    rewrite size_union, size_singleton, length_app by set_solver. cbn. split_and!; [done|lia|lia].
Qed.
Lemma claim_run l f k :
  claimed k f → NoDup (instances.id <$> l) →
  (∀ inst, inst ∈ l → (inst.(instances.id) ∉ f.(inner).(connecting)) ∧
    f.(inner).(applied_epochs) !! inst.(instances.id) = None) →
  (k <= Nat.div (S cap) 2)%nat → (length l <= f.(free))%nat →
  claimed (Nat.min (k + length l) (Nat.div (S cap) 2))
    (fold_left (decide_one epochs now cap borrowed) l f).
Proof.
  revert f k. induction l as [|inst l IH]; intros f k Hk Hn Hl Hle Hf; cbn [fold_left length].
  - replace (Nat.min (k + 0) (Nat.div (S cap) 2))%nat with k by lia. done.
  - apply NoDup_cons in Hn as [Hni Hn]. destruct (Hl inst ltac:(constructor)) as [Hc Ha].
    cbn [length] in Hf. destruct (claim_step f inst k Hk Hc Ha ltac:(lia)) as [Hk' Hfree].
    pose proof (Nat.div_mod_eq (S cap) 2). pose proof (Nat.mod_upper_bound (S cap) 2 ltac:(lia)).
    assert (∀ j, j ∈ l → (j.(instances.id) ∉ (decide_one epochs now cap borrowed f inst).(inner).(connecting)) ∧
      (decide_one epochs now cap borrowed f inst).(inner).(applied_epochs) !! j.(instances.id) = None)
      as Hl'.
    { intros j Hj. destruct (Hl j ltac:(by constructor)) as [Hcj Haj].
      destruct (decide_one_other epochs now cap borrowed f inst j.(instances.id)) as (Ea & _ & Ec & _).
      { intros Heq. apply Hni. rewrite <- Heq. by apply list_elem_of_fmap_2. }
      by rewrite <- Ea, <- Ec. }
    destruct (Nat.ltb_spec (k + k) cap).
    + specialize (IH _ (S k) Hk' Hn Hl' ltac:(lia) ltac:(lia)).
      by replace (k + S (length l))%nat with (S k + length l)%nat by lia.
    + specialize (IH _ k Hk' Hn Hl' ltac:(lia) ltac:(lia)).
      by replace (Nat.min (k + S (length l)) (Nat.div (S cap) 2))%nat
        with (Nat.min (k + length l) (Nat.div (S cap) 2))%nat by lia.
Qed.
End first_bind.

(** A claim is counted both as connecting and as to be spawned, so the first
    bind of a user with many enabled servers, all slots free, starts only half of
    the configured per-user cap and reports the rest as over the cap. *)
Theorem first_bind_half_cap epochs now cap borrowed enabled free :
  NoDup (instances.id <$> enabled) → (length enabled <= free)%nat →
  length (decide_fates epochs now cap borrowed enabled free (new now)).(to_spawn) =
  Nat.min (length enabled) (Nat.div (S cap) 2).
Proof.
  intros Hn Hf. unfold decide_fates. set (f := {| inner := retain _ _ |}).
  destruct (claim_run epochs now cap borrowed enabled f 0) as (_ & _ & Hl); [|done|..|exact Hl].
  - unfold claimed. cbn. by rewrite size_empty.
  - intros inst _. cbn. split; [apply not_elem_of_empty|].
    by rewrite map_filter_empty, lookup_empty.
  - lia.
  - cbn. lia.
Qed.

(** At the per-user cap a Restart is lost: the instance is reported skipped,
    its running backend stays in the pool, and the new epoch is recorded as
    applied, so the old process goes on being served as current. *)
Theorem restart_lost_at_cap epochs now cap borrowed enabled free i inst b :
  NoDup (instances.id <$> enabled) → inv cap i →
  (cap <= length (filter (λ b, iid b ∈ instances.id <$> enabled) i.(backends)))%nat →
  inst ∈ enabled → b ∈ i.(backends) → iid b = inst.(instances.id) →
  i.(applied_epochs) !! inst.(instances.id) ≠ Some (reload_epoch epochs inst.(instances.id)) →
  let g := decide_fates epochs now cap borrowed enabled free i in
  g.(to_spawn) = [] ∧ b ∈ g.(inner).(backends) ∧ inst ∈ g.(skipped).*1 ∧
  g.(inner).(applied_epochs) !! inst.(instances.id) =
    Some (reload_epoch epochs inst.(instances.id)).
Proof.
  intros Hn Hi Hcap Hin Hb Hid Hne g.
  unfold g, decide_fates. set (f := {| inner := retain _ _ |}).
  assert (∀ l h, h.(inner).(backends) = f.(inner).(backends) →
    (fold_left (decide_one epochs now cap borrowed) l h).(to_spawn) = h.(to_spawn) ∧
    (fold_left (decide_one epochs now cap borrowed) l h).(inner).(backends) = f.(inner).(backends))
    as Hfull.
  { intros l. induction l as [|j l IH]; intros h Hh; [done|]. cbn [fold_left].
    destruct (decide_one_outcome epochs now cap borrowed h j) as
      [|reason _ _|i' drop n _ _ Hlt -> _ _ _ _]; [by apply IH| |].
    - destruct (IH (skip epochs now j reason h)) as [-> ->]; done.
    - rewrite Hh in Hlt. unfold f in Hlt. cbn in Hlt. lia. }
  destruct (Hfull enabled f eq_refl) as [Hsp Hbk].
  assert (NoDup (iid <$> f.(inner).(backends))) as Hu
    by (eapply sublist_NoDup; [apply Hi|apply fmap_sublist, sublist_retained]).
  destruct (decide_all_fated epochs now cap borrowed enabled f Hn Hu)
    as [_ _ (ls & lk & Es & Ek & Hd & _ & Hk) _].
  cbn in Es, Ek. rewrite Hsp in Es. cbn in Es. subst ls.
  assert (inst ∈ lk.*1) as Hsk.
  { destruct (proj1 (Hd inst Hin)) as [?%not_elem_of_nil|]; [|done..].
    unfold due. rewrite (bool_decide_false (_ ∈ _)); [|rewrite <- Hid; by apply (inv_apart _ _ Hi)].
    rewrite bool_decide_false; [done|]. cbn. by intros [? _]%map_lookup_filter_Some. }
  destruct (Hk inst Hsk) as (_ & Ha & _). rewrite Ek, Hbk, Hsp.
  split_and!; [done| |done|done]. cbn. apply list_elem_of_filter. split; [|done].
  rewrite Hid. by apply list_elem_of_fmap_2.
Qed.

(** ** Restart with capacity to spare *)
Section spare.
Context (epochs : gmap string Z) (now : Z) (cap : nat) (borrowed : nat → bool).
(** Room for [n] more claims, each counted twice. *)
Definition room (n : nat) (f : Fates) : Prop :=
  (length f.(inner).(backends) + size f.(inner).(connecting) + length f.(to_spawn) + 2 * n
   <= S cap)%nat ∧ (n <= f.(free))%nat.
Lemma room_step f inst n :
  room (S n) f → room n (decide_one epochs now cap borrowed f inst) ∧
  (decide_one epochs now cap borrowed f inst).(skipped) = f.(skipped).
Proof.
  intros [Hr Hf]. destruct (decide_one_outcome epochs now cap borrowed f inst) as
    [|reason _ Hs|i drop m _ Hc Hlt -> Hsub _ _ Hfree].
  - split; [split; lia|done].
  - lia.
  - split; [|done]. split; cbn; [|lia]. pose proof (sublist_length _ _ Hsub).
    rewrite size_union, size_singleton, length_app by set_solver. cbn. lia.
Qed.
Lemma room_run l f :
  room (length l) f → (fold_left (decide_one epochs now cap borrowed) l f).(skipped) = f.(skipped).
Proof.
  revert f. induction l as [|inst l IH]; intros f Hr; [done|]. cbn [fold_left].
  destruct (room_step f inst (length l) Hr) as [Hr' <-]. by apply IH.
Qed.
End spare.

Lemma is_fresh_settled epochs now i id a :
  is_fresh epochs now i = true → i.(applied_epochs) !! id = Some a →
  settled epochs now i id a = true.
Proof.
  unfold is_fresh. intros [_ Hall]%andb_true_iff Ha. rewrite forallb_forall in Hall.
  apply (Hall (id, a)). by apply list_elem_of_In, elem_of_map_to_list.
Qed.

(** C24: with capacity to spare, a Restart of an enabled instance makes the pool
    stale at once, and the reconcile that follows takes its old backend out of the
    pool and claims a new one, whatever the backoff says. *)
Theorem restart_respawns epochs now cap borrowed enabled free i inst a :
  NoDup (instances.id <$> enabled) → inv cap i → inst ∈ enabled →
  i.(applied_epochs) !! inst.(instances.id) = Some a →
  reload_epoch epochs inst.(instances.id) = a →
  inst.(instances.id) ∉ i.(connecting) →
  (length i.(backends) + size i.(connecting) + 2 * length enabled <= S cap)%nat →
  (length enabled <= free)%nat →
  let epochs' := (bump_reload (E:=anyhow) inst.(instances.id) epochs).2 in
  let g := decide_fates epochs' now cap borrowed enabled free i in
  is_fresh epochs' now i = false ∧ inst ∈ g.(to_spawn) ∧
  ∀ b, b ∈ g.(inner).(backends) → iid b ≠ inst.(instances.id).
Proof.
  intros Hn Hi Hin Ha Hcur Hc Hroom Hfree epochs' g.
  assert (reload_epoch epochs' inst.(instances.id) = (a + 1)%Z) as He
    by (unfold epochs', reload_epoch; cbn; by rewrite lookup_insert_eq, <- Hcur).
  split.
  { destruct (is_fresh epochs' now i) eqn:Ef; [|done].
    pose proof (is_fresh_settled _ _ _ _ _ Ef Ha) as Hs. unfold settled in Hs.
    rewrite He in Hs. apply andb_true_iff in Hs as [Hs%Z.eqb_eq _]. lia. }
  destruct (reconcile_spec epochs' now cap borrowed enabled free i Hn Hi) as (Hneed & Hsp & _ & _).
  fold g in Hneed, Hsp. assert (g.(skipped) = []) as Hsk.
  { unfold g, decide_fates. rewrite room_run; [done|]. split; cbn; [|lia].
    pose proof (sublist_length _ _ (sublist_filter (λ b, iid b ∈ instances.id <$> enabled)
      i.(backends))). lia. }
  rewrite Hsk in Hneed. assert (inst ∈ g.(to_spawn)) as Hs.
  { destruct (proj1 (Hneed inst Hin)) as [|?%not_elem_of_nil]; [|done..].
    unfold due. rewrite (bool_decide_false (_ ∈ _)) by done.
    rewrite bool_decide_false; [done|]. rewrite He. cbn.
    intros [Heq _]%map_lookup_filter_Some. rewrite Ha in Heq. injection Heq. lia. }
  split; [done|]. by destruct (Hsp inst Hs) as (_ & _ & ?).
Qed.

(** ** A connect that outlives a disable *)
(** A server disabled and enabled again while its backend is still connecting
    is lost: the second reconcile leaves it to the running connect, the connect's
    end finds it untracked and drops the backend, and the pool then counts as
    fresh for ever, without it. *)
Theorem reenabled_while_connecting_lost later b :
  let fates := decide_fates ∅ 0 16 (λ _, false) in
  let inst := instances.i0 in
  let first := fates [inst] 1%nat (new 0) in
  let disabled := fates [] first.(free) (mark_dirty (bound first.(inner))) in
  let enabled := fates [inst] disabled.(free) (mark_dirty (bound disabled.(inner))) in
  let r := connected inst.(instances.id) (Some b) (bound enabled.(inner)) in
  first.(to_spawn) = [inst] ∧ enabled.(to_spawn) = [] ∧ r = (false, r.2) ∧
  r.2.(backends) = [] ∧ is_fresh ∅ later r.2 = true.
Proof. split_and!; vm_compute; reflexivity. Qed.

(** ** Heartbeats *)
(** The failures at the end of a history, and the passes over one backend. *)
Definition trailing (rs : list bool) : nat :=
  fold_left (λ n (r : bool), if r then 0 else S n)%nat rs 0%nat.
Definition beats (b : Pooled) (rs : list bool) (i : Inner) : Inner :=
  fold_left (λ i r, (exercise [(b, r)] i).1) rs i.

Lemma beats_snoc b rs r i : beats b (rs ++ [r]) i = (exercise [(b, r)] (beats b rs i)).1.
Proof. unfold beats. by rewrite fold_left_app. Qed.
Lemma trailing_snoc rs r : trailing (rs ++ [r]) = if r then 0%nat else S (trailing rs).
Proof. unfold trailing. by rewrite fold_left_app. Qed.
(** While fewer than three in a row failed, the pass only counts. *)
Lemma beats_counted b rs i :
  i.(heartbeat_failures) !! iid b = None → (∀ k, (trailing (take k rs) < 3)%nat) →
  (beats b rs i).(backends) = i.(backends) ∧
  default 0%Z ((beats b rs i).(heartbeat_failures) !! iid b) = Z.of_nat (trailing rs).
Proof.
  intros Hn. induction rs as [|r rs IH] using rev_ind; intros Hlt; [cbn; by rewrite Hn|].
  destruct IH as [Hb Hc].
  { intros k. specialize (Hlt (Nat.min k (length rs))). rewrite take_app_le in Hlt by lia.
    by rewrite <- take_take, firstn_all in Hlt. }
  specialize (Hlt (length (rs ++ [r]))). rewrite firstn_all in Hlt.
  rewrite beats_snoc, trailing_snoc in *. cbn. destruct r; cbn.
  - by rewrite lookup_delete_eq.
  - rewrite Hc. unfold HEARTBEAT_MAX_STRIKES. case_match; bool_prop; [lia|]. cbn.
    rewrite lookup_insert_eq. split; [done|]. cbn. lia.
Qed.

(** A backend is dropped by the heartbeat exactly at its third failure in a
    row: a single answer before that starts the count again. *)
Theorem heartbeat_three_strikes b i rs r :
  NoDup (arc <$> i.(backends)) → b ∈ i.(backends) →
  i.(heartbeat_failures) !! iid b = None → (∀ k, (trailing (take k rs) < 3)%nat) →
  b ∈ (beats b rs i).(backends) ∧
  (b ∈ (beats b (rs ++ [r]) i).(backends) ↔ (trailing (rs ++ [r]) < 3)%nat).
Proof.
  intros Hu Hin Hn Hlt. destruct (beats_counted b rs i Hn Hlt) as [Hb Hc].
  specialize (Hlt (length rs)). rewrite firstn_all in Hlt.
  split; [by rewrite Hb|]. rewrite beats_snoc, trailing_snoc. cbn.
  destruct r; cbn; [rewrite Hb; split; [lia|done]|].
  rewrite Hc. unfold HEARTBEAT_MAX_STRIKES. case_match; bool_prop; cbn;
    [|rewrite Hb; split; [lia|done]].
  split; [|lia]. rewrite Hb.
  destruct (list_find (λ x, x.(arc) = b.(arc)) i.(backends)) as [[p x]|] eqn:E; cbn.
  - rewrite Hb. apply list_find_Some in E as (Hp & Hx & _). intros Hd. exfalso.
    assert (NoDup (arc <$> i.(backends))) as Hu' by done.
    rewrite <- (take_drop_middle _ _ _ Hp), fmap_app, fmap_cons in Hu'.
    rewrite delete_take_drop in Hd.
    apply NoDup_app in Hu' as (_ & Hdis & [Hnx _]%NoDup_cons).
    apply elem_of_app in Hd as [Hd|Hd]; apply (list_elem_of_fmap_2 arc) in Hd.
    + apply (Hdis _ Hd). rewrite <- Hx. by left.
    + by rewrite Hx in Hnx.
  - apply list_find_None in E. rewrite Forall_forall in E. by destruct (E b Hin).
Qed.

(** ** Witnesses *)
Definition conn0 (id : string) : backend.Backend := {|
  backend.instance_id := id; backend.namespace := "fs"; backend.display_name := "fs";
  backend.peer := {|
    rmcp.peer_info := {| rmcp.has_tools := true; rmcp.has_prompts := false;
                         rmcp.has_resources := false; rmcp.more := "" |};
    rmcp.is_transport_closed := false;
    rmcp.list_all_tools := Ok [{| rmcp.tool_name := "read"; rmcp.tool_more := "" |}];
    rmcp.list_all_prompts := Ok []; rmcp.list_all_resources := Ok [];
    rmcp.list_all_resource_templates := Ok [];
    rmcp.peer_read_resource := λ _, Err (Msg "none"); rmcp.peer_get_prompt := λ _ _, Err (Msg "none");
    rmcp.peer_call_tool := λ n _, Ok {|
      rmcp.is_error := None; rmcp.content := n; rmcp.structured_content := None |} |} |}.
Definition b0 : Pooled := {| arc := 0; conn := conn0 "i" |}.
(** A bound pool whose one instance runs at epoch 0. *)
Definition pool0 : Inner := {|
  initialized := true; dirty := false; backends := [b0]; applied_epochs := {["i" := 0%Z]};
  connecting := ∅; last_attempt := {["i" := 0%Z]}; heartbeat_failures := ∅; last_used := 0 |}.
Lemma inv_pool0 cap : (1 <= cap)%nat → inv cap pool0.
Proof.
  intros. split; cbn.
  - apply NoDup_singleton.
  - intros b _. apply not_elem_of_empty.
  - rewrite size_empty. lia.
Qed.
Lemma one_enabled : NoDup (instances.id <$> [instances.i0]).
Proof. apply NoDup_singleton. Qed.

Lemma pool_invariant_witness :
  inv 16 (connected "i" (Some {| arc := 0; conn := conn0 "i" |})
            (decide_fates ∅ 0 16 (λ _, false) [instances.i0] 1 (new 0)).(inner)).2.
Proof.
  pose (s0 := {| pool := new 0; epochs := ∅; next_arc := 0 |}).
  pose (s1 := on_pool (λ i, (decide_fates ∅ 0 16 (λ _, false) [instances.i0] 1 i).(inner)) s0).
  apply (pool_invariant 16 {| pool := (connected "i" (Some {| arc := 0; conn := conn0 "i" |})
                                         s1.(pool)).2; epochs := ∅; next_arc := 1 |}).
  apply (after 16 s1); [apply (after 16 s0); [apply initial|]|].
  - apply (Reconcile 16 s0 0 [instances.i0] 1 (λ _, false)). apply one_enabled.
  - apply (Connected 16 s1 "i" (conn0 "i")); [|reflexivity].
    apply (bool_decide_eq_true_1 ("i" ∈ s1.(pool).(connecting))). vm_compute; reflexivity.
Defined.
Lemma reconcile_spec_witness :
  b0 ∈ (decide_fates ∅ 5 16 (λ _, false) [instances.i0] 1 pool0).(inner).(backends).
Proof.
  destruct (reconcile_spec ∅ 5 16 (λ _, false) [instances.i0] 1 pool0 one_enabled
              (inv_pool0 16 ltac:(lia))) as (_ & _ & Hkeep & _).
  apply Hkeep; [constructor|constructor|vm_compute; reflexivity].
Defined.
Lemma restart_respawns_witness :
  instances.i0 ∈ (decide_fates (bump_reload (E:=anyhow) "i" ∅).2 5 16 (λ _, false)
                    [instances.i0] 1 pool0).(to_spawn).
Proof.
  apply (restart_respawns ∅ 5 16 (λ _, false) [instances.i0] 1 pool0 instances.i0 0 one_enabled
           (inv_pool0 16 ltac:(lia)));
    [constructor|reflexivity|reflexivity|apply not_elem_of_empty|vm_compute; lia|cbn; lia].
Defined.
Lemma first_bind_half_cap_witness :
  length (decide_fates ∅ 0 1 (λ _, false) [instances.i0] 1 (new 0)).(to_spawn) = 1%nat.
Proof. apply (first_bind_half_cap ∅ 0 1 (λ _, false)); [apply one_enabled|done]. Defined.
Lemma restart_lost_at_cap_witness :
  b0 ∈ (decide_fates {["i" := 1%Z]} 5 1 (λ _, false) [instances.i0] 9 pool0).(inner).(backends).
Proof.
  apply (restart_lost_at_cap {["i" := 1%Z]} 5 1 (λ _, false) [instances.i0] 9 pool0 instances.i0 b0
           one_enabled (inv_pool0 1 ltac:(lia))); [vm_compute; lia|constructor|constructor|done|done].
Defined.
Lemma heartbeat_three_strikes_witness :
  b0 ∉ (beats b0 [true; false; false; false] pool0).(backends).
Proof.
  assert (∀ k, (trailing (take k [true; false; false]) < 3)%nat) as Hlt
    by (intros [|[|[|[|k]]]]; vm_compute; lia).
  intros Hin. apply (heartbeat_three_strikes b0 pool0 [true; false; false] false
    (NoDup_singleton _) (list_elem_of_here _ _) eq_refl Hlt) in Hin.
  vm_compute in Hin. lia.
Defined.

End pool.
