(* ===== verification/Startup.v ===== *)
(** * Start-up (lib.rs [AppState::new], oauth/keys.rs, instances.rs, auth/mod.rs)

    What a start of the hub does to what survives it: the signing key is loaded or
    created, instances of the old shared catalog become self-contained, accounts get
    their sandbox slots, the database files their mode, the metrics key is loaded or
    created.  Also the request's identifying headers. *)

From S2P Require Import Prelude Strs Trim Schema External Fixtures Users GitCreds Config Instances.
From S2P Require Import OauthServer Status Sandbox.
Open Scope string_scope.
Open Scope hub_scope.

(** ** The client of a request (auth/mod.rs) *)
Module headers.

(** The first value of each header, by its lower-case name. *)
Abbreviation HeaderMap := (gmap string string).
(** [HeaderValue::to_str]: visible ASCII and tabs only. *)
Definition to_str (v : string) : option string :=
  if str_all (λ c, ((32 <=? byte c) && (byte c <=? 126) || (byte c =? 9))%N) v
  then Some v else None.
Definition present (s : string) : option string := if is_empty s then None else Some s.
Definition header_str (h : HeaderMap) (name : string) : option string :=
  v ← h !! name; s ← to_str v; present (trim s).
(** The client-most hop of [X-Forwarded-For], else [X-Real-IP]. *)
Definition client_ip (h : HeaderMap) : option string :=
  let first := match split_once "," (default "" (v ← h !! "x-forwarded-for"; to_str v)) with
               | Some (a, _) => a
               | None => default "" (v ← h !! "x-forwarded-for"; to_str v)
               end in
  match present (trim first) with
  | Some ip => Some ip
  | None => header_str h "x-real-ip"
  end.
Definition from_headers (h : HeaderMap) : users.RequestInfo := {|
  users.ip := client_ip h; users.user_agent := header_str h "user-agent" |}.
End headers.

(** ** The signing key (oauth/keys.rs) *)
Module signing.

(** A row of [oauth_signing_keys], by its [kid]. *)
Record key_row := { stored : string; created_at : Z; active : bool }.
Abbreviation Table := (gmap string key_row).

Section signing.
Context `{Aead} `{P256} `{Base64}.

Definition load_active (t : Table) : option (string * string) :=
  head (map (λ kv, (kv.1, kv.2.(stored)))
    (merge_sort (by_num_desc (λ kv, kv.2.(created_at)))
      (filter (λ kv, kv.2.(active) = true) (map_to_list t)))).
(** base64 of the nonce and the ciphertext. *)
Definition seal_pem (nonce pem : string) : result anyhow string :=
  let? s := crypto.seal nonce pem in
  Ok (b64_encode (s.(Schema.nonce) +:+ s.(ciphertext))).
(** A key from before they were encrypted is its own PEM. *)
Definition unseal_pem (st : string) : result anyhow string :=
  if starts_with "-----BEGIN" st then Ok st else
  let? blob := match b64_decode (trim st) with
               | Ok b => Ok b
               | Err e => Err (Context "decoding stored signing key" e) end in
  let n := crypto.NONCE_LEN in
  if (String.length blob <=? n)%nat then Err (Msg "stored signing key is truncated") else
  let? plain := crypto.open {|
    Schema.nonce := String.substring 0 n blob;
    ciphertext := String.substring n (String.length blob - n) blob |} in
  if utf8_valid plain then Ok plain
  else Err (Context "signing key was not valid UTF-8" (Msg "invalid utf-8 sequence")).
Definition from_pem (kid issuer pem : string) : result anyhow keys.Signer :=
  if pem_ok pem then Ok {| keys.kid := kid; keys.issuer := issuer |}
  else Err (Context "parsing stored signing key" (Msg "invalid key")).

Definition deactivate (r : key_row) : key_row :=
  {| stored := r.(stored); created_at := r.(created_at); active := false |}.
(** [kid], [pem] and [nonce] are the fresh key's. *)
Definition create (issuer kid pem nonce : string) (now : Z) : M Table anyhow keys.Signer :=
  let* st := lift (seal_pem nonce pem) in
  let* taken := gets (λ t, bool_decide (is_Some (t !! kid))) in
  refuse_if taken (Context "persisting signing key" (Unique "oauth_signing_keys.kid")) ;;;
  modify (insert kid {| stored := st; created_at := now; active := true |}) ;;;
  lift (from_pem kid issuer pem).
(** A stored key that cannot be opened is retired and replaced. *)
Definition load_or_create (issuer kid pem nonce : string) (now : Z)
    : M Table anyhow keys.Signer :=
  let* row := gets load_active in
  match row with
  | Some (old, st) =>
      match (let? p := unseal_pem st in from_pem old issuer p) with
      | Ok signer => ret signer
      | Err _ => modify (alter deactivate old) ;;; create issuer kid pem nonce now
      end
  | None => create issuer kid pem nonce now
  end.

(** *** Facts *)
Lemma load_active_newest t k r :
  t !! k = Some r → r.(active) = true →
  (∀ k' r', t !! k' = Some r' → r'.(active) = true → k' ≠ k → (r'.(created_at) < r.(created_at))%Z) →
  load_active t = Some (k, r.(stored)).
Proof.
  intros Hr Ha Hnew. unfold load_active.
  set (rows := filter _ _). set (P := by_num_desc _).
  assert (Transitive P) by (intros x y z; subst P; unfold by_num_desc; lia).
  assert (Total P) by (intros x y; subst P; unfold by_num_desc; lia).
  pose proof (StronglySorted_merge_sort P rows) as Hs.
  pose proof (merge_sort_Permutation P rows) as Hp.
  assert (∀ x, x ∈ merge_sort P rows → t !! x.1 = Some x.2 ∧ x.2.(active) = true) as Hin.
  { intros [k' r'] Hx. rewrite Hp in Hx. apply list_elem_of_filter in Hx as [Hx Hm].
    by apply elem_of_map_to_list in Hm. }
  assert ((k, r) ∈ merge_sort P rows) as Hk.
  { rewrite Hp. apply list_elem_of_filter. split; [done|by apply elem_of_map_to_list]. }
  destruct (merge_sort P rows) as [|[k' r'] l]; [by apply not_elem_of_nil in Hk|]. cbn.
  destruct (decide (k' = k)) as [->|Hne].
  - destruct (Hin (k, r')) as [Hr' _]; [by left|]. cbn in Hr'. by simplify_eq.
  - exfalso. apply StronglySorted_inv in Hs as [_ Hs]. rewrite Forall_forall in Hs.
    apply elem_of_cons in Hk as [[= -> ->]|Hk]; [done|]. apply Hs in Hk. subst P.
    destruct (Hin (k', r')) as [Hx Hy]; [by left|]. specialize (Hnew _ _ Hx Hy Hne).
    unfold by_num_desc in Hk. cbn in *. lia.
Qed.
Lemma substring_prefix a b : String.substring 0 (String.length a) (a +:+ b) = a.
Proof.
  induction a as [|c a IH]; [by destruct b|]. change (String c a +:+ b) with (String c (a +:+ b)).
  cbn [String.length String.substring]. by rewrite IH.
Qed.
Lemma substring_whole b : String.substring 0 (String.length b) b = b.
Proof. induction b as [|c b IH]; [done|]. cbn [String.length String.substring]. by rewrite IH. Qed.
Lemma substring_suffix a b :
  String.substring (String.length a) (String.length b) (a +:+ b) = b.
Proof.
  induction a as [|c a IH]; [apply substring_whole|].
  change (String c a +:+ b) with (String c (a +:+ b)). cbn [String.length String.substring]. exact IH.
Qed.
Lemma dashes_dash s : starts_with "-----BEGIN" s = true → starts_with "-" s = true.
Proof.
  rewrite !starts_with_spec. intros [r ->]. by exists ("----BEGIN" +:+ r).
Qed.
Lemma unseal_seal `{!AeadLaws} `{!Base64Laws} n p st :
  (∀ c, aead_encrypt n p = Some c → c ≠ "") →
  String.length n = crypto.NONCE_LEN → utf8_valid p = true → seal_pem n p = Ok st →
  unseal_pem st = Ok p.
Proof.
  intros Hc Hn Hu. unfold seal_pem. destruct (crypto.seal n p) as [s|] eqn:Es; [|done].
  intros [= <-]. pose proof (crypto.open_seal _ _ _ Hn Es) as Ho. unfold crypto.seal in Es.
  destruct (aead_encrypt n p) as [c|] eqn:Ec; [|done]. injection Es as <-. cbn [Schema.nonce ciphertext] in *.
  unfold unseal_pem. destruct (starts_with "-----BEGIN" _) eqn:Ed.
  { apply dashes_dash in Ed. by rewrite b64_no_dash in Ed. }
  rewrite b64_trim, b64_decode_encode. cbn [bind_result]. rewrite length_append, Hn.
  assert (1 ≤ String.length c)%nat as Hl
    by (destruct c; [by destruct (Hc "" eq_refl)|cbn; lia]).
  destruct (Nat.leb_spec (crypto.NONCE_LEN + String.length c) crypto.NONCE_LEN); [lia|].
  replace (crypto.NONCE_LEN + String.length c - crypto.NONCE_LEN)%nat with (String.length c) by lia.
  rewrite <- Hn, substring_prefix, substring_suffix, Ho. cbn [bind_result]. by rewrite Hu.
Qed.

(** C39: a restart keeps the signing key.  Once a start has loaded or created a signing
    key, every later start under the same master key loads that key, whatever fresh
    key it would have drawn, and writes nothing: access tokens issued before a
    restart still verify after it.  A created key must be newer than the active ones. *)
Theorem signing_key_survives_restart `{!AeadLaws} `{!Base64Laws} issuer kid pem n now t s t' :
  (∀ c, aead_encrypt n pem = Some c → c ≠ "") →
  String.length n = crypto.NONCE_LEN → utf8_valid pem = true →
  (∀ k r, t !! k = Some r → r.(active) = true → (r.(created_at) < now)%Z) →
  load_or_create issuer kid pem n now t = (Ok s, t') →
  ∀ kid' pem' n' now', load_or_create issuer kid' pem' n' now' t' = (Ok s, t').
Proof.
  intros Hc Hn Hu Hold Hr kid' pem' n' now'.
  assert (∀ t0, (∀ k r, t0 !! k = Some r → r.(active) = true → (r.(created_at) < now)%Z) →
    create issuer kid pem n now t0 = (Ok s, t') →
    load_or_create issuer kid' pem' n' now' t' = (Ok s, t')) as Hcreate.
  { intros t0 Ht0 Hcr. unfold create in Hcr. m_inv.
    match goal with H : seal_pem _ _ = _ |- _ => rename H into Hs end.
    match goal with H : from_pem _ _ _ = _ |- _ => rename H into Hp end.
    unfold load_or_create, bind, gets.
    erewrite (load_active_newest _ kid); [|apply lookup_insert_eq|done|].
    - cbn [stored]. rewrite (unseal_seal _ _ _ Hc Hn Hu Hs). cbn [bind_result].
      by rewrite Hp.
    - intros k r Hk Ha Hne. rewrite lookup_insert_ne in Hk by done. by eapply Ht0. }
  unfold load_or_create in Hr. apply bind_Ok in Hr as (row & t0 & [-> ->]%gets_Ok & Hr).
  destruct (load_active t) as [[old st]|] eqn:El; [|by eapply Hcreate].
  destruct (let? p := unseal_pem st in from_pem old issuer p) as [signer|e] eqn:Ek.
  - apply ret_Ok in Hr as [-> ->]. unfold load_or_create, bind, gets. rewrite El. cbn.
    by rewrite Ek.
  - apply bind_Ok in Hr as ([] & t1 & ->%modify_Ok & Hr). eapply Hcreate; [|exact Hr].
    intros k r. destruct (decide (old = k)) as [->|].
    + rewrite lookup_alter_eq. destruct (t !! k); [|done]. by intros [= <-].
    + rewrite lookup_alter_ne by done. apply Hold.
Qed.
End signing.

(** An encoding between two marks. *)
Definition MARK : Ascii.ascii := Ascii.ascii_of_N 120.
Definition b64_0 : Base64 := {|
  b64_encode := λ s, String MARK (s +:+ String MARK EmptyString);
  b64_decode := λ t,
    match t with
    | String _ r => match str_rev r with
                    | String _ r' => Ok (str_rev r')
                    | EmptyString => Err (Msg "not base64")
                    end
    | EmptyString => Err (Msg "not base64")
    end |}.
Lemma b64_0_laws : @Base64Laws b64_0.
Proof.
  split; intros s; cbn [b64_encode b64_decode b64_0].
  - rewrite str_rev_app. change (Ok (str_rev (str_rev s)) = Ok (E:=anyhow) s).
    by rewrite str_rev_involutive.
  - apply trim_clean_id, clean_plain_app; [done..|apply clean_empty].
  - done.
Qed.
Definition p256_0 : P256 := {| pem_ok := λ s, starts_with "-----BEGIN" s |}.
Lemma signing_key_survives_restart_witness :
  let start kid := load_or_create (H:=aead0) (H0:=p256_0) (H1:=b64_0) "https://hub" kid
    ("-----BEGIN " +:+ kid) nonce0 in
  let (r, t) := start "k1" 5%Z ∅ in
  r = Ok {| keys.kid := "k1"; keys.issuer := "https://hub" |} ∧ start "k2" 9%Z t = (r, t).
Proof.
  intros start. destruct (start "k1" 5%Z ∅) as [r t] eqn:E.
  pose proof E as E'. vm_compute in E'. injection E' as <- _. split; [reflexivity|].
  apply (signing_key_survives_restart (H:=aead0) (H0:=p256_0) (H1:=b64_0) (H2:=aead0_laws)
    (H3:=b64_0_laws) "https://hub" "k1" "-----BEGIN k1" nonce0 5 ∅);
    [by intros c [= <-]|reflexivity|vm_compute; reflexivity|
     by intros k r ?%lookup_empty_Some|exact E].
Defined.
End signing.

(** ** The instances of the old shared catalog (instances.rs) *)
Module migrate.

(** [links] is the column [catalog_server_id]; [catalog] the table
    [catalog_servers]; [nonces] gives the nonce drawn for each variable. *)
Section migrate.
Context `{Aead} (catalog : gmap string ServerDef) (nonces : string → string → string).
Abbreviation State := (Db * gmap string string)%type.
Abbreviation Pending := (string * string * gmap string string)%type.

Definition pending (st : State) : list Pending :=
  omap (λ kv, if bool_decide (kv.2.(instance.custom_def) = None)
              then cat ← st.2 !! kv.1; Some (kv.1, cat, kv.2.(instance.config)) else None)
    (map_to_list st.1.(user_server_instances)).

(** A catalog row as a definition: it has no timeout of its own. *)
Definition of_catalog (row : ServerDef) : ServerDef := instances.normalized {|
  name := row.(name); description := row.(description); transport := row.(transport);
  command := row.(command); args := row.(args); url := row.(url); runtime := row.(runtime);
  repo := row.(repo); git_ref := row.(git_ref); entry := row.(entry); module := row.(module);
  connect_timeout_secs := None |}.
Definition with_url (u : string) (def : ServerDef) : ServerDef := {|
  name := def.(name); description := def.(description); transport := def.(transport);
  command := def.(command); args := def.(args); url := Some u; runtime := def.(runtime);
  repo := def.(repo); git_ref := def.(git_ref); entry := def.(entry); module := def.(module);
  connect_timeout_secs := def.(connect_timeout_secs) |}.
(** The user's [MCP_URL] is the URL of an http server; the rest is environment. *)
Definition definition (row : ServerDef) (config : gmap string string) : ServerDef :=
  let def := of_catalog row in
  if eqs def.(transport) "http"
  then match config !! "MCP_URL" with
       | Some u => if is_empty (trim u) then def else with_url u def
       | None => def
       end
  else def.
Definition environment (row : ServerDef) (config : gmap string string) : gmap string string :=
  if eqs (of_catalog row).(transport) "http" then base.delete "MCP_URL" config else config.

(** [ON CONFLICT DO NOTHING]: a secret of the same name stays. *)
Definition keep_secret (iid key : string) (s : Sealed) : M Db anyhow unit := λ d,
  match d.(instance_secrets) !! (iid, key) with
  | Some _ => (Ok tt, d)
  | None => instances.write_secret iid key s d
  end.
Definition seal_value (iid : string) (kv : string * string) : M Db anyhow unit :=
  let* sealed := lift (crypto.seal (nonces iid kv.1) kv.2) in
  keep_secret iid kv.1 sealed.
Definition migrated (def : ServerDef) (r : instance.t) : instance.t :=
  instances.with_config ∅ (instances.with_def def r).
Definition migrate_one (p : Pending) : M State anyhow unit :=
  let '(iid, cat, config) := p in
  match catalog !! cat with
  | None => ret tt
  | Some row =>
      on_fst (for_each (seal_value iid)
        (merge_sort (by_text fst) (map_to_list (environment row config)))) ;;;
      on_fst (instances.update (migrated (definition row config)) iid) ;;;
      on_snd (modify (base.delete iid))
  end.
Definition migrate_catalog_instances : M State anyhow unit :=
  let* todo := gets pending in for_each migrate_one todo.

(** *** Facts *)
(** What the secrets step leaves alone. *)
Definition only_secrets (d d' : Db) : Prop :=
  d'.(user_server_instances) = d.(user_server_instances) ∧
  d.(instance_secrets) ⊆ d'.(instance_secrets).
Lemma seal_value_only iid kv d : only_secrets d (seal_value iid kv d).2.
Proof.
  unfold seal_value, bind, lift. destruct (crypto.seal _ _) as [s|]; [|done].
  unfold keep_secret. destruct (instance_secrets d !! (iid, kv.1)) eqn:E; [done|].
  unfold instances.write_secret. destruct (decide _); [|done]. split; [done|].
  by apply insert_subseteq.
Qed.
Lemma seal_values_only iid l d : only_secrets d (for_each (seal_value iid) l d).2.
Proof.
  revert d. induction l as [|kv l IH]; intros d; [done|]. cbn. unfold bind.
  pose proof (seal_value_only iid kv d) as [Hi Hs].
  destruct (seal_value iid kv d) as [[[]|e] d1]; [|done]. cbn in *.
  destruct (IH d1) as [Hi' Hs']. split; [congruence|by etrans].
Qed.
Lemma wf_seal_value iid kv : preserves wf (seal_value iid kv).
Proof.
  unfold seal_value. apply preserves_bind; [apply preserves_lift|]. intros s d Hd.
  unfold keep_secret. destruct (_ !! _); [done|by apply instances.wf_write_secret].
Qed.
Lemma wf_migrate : preserves (λ st, wf st.1) migrate_catalog_instances.
Proof.
  apply preserves_bind; [apply preserves_gets|]. intros todo. apply preserves_for_each.
  intros [[iid cat] cfg]. cbn. destruct (catalog !! cat) as [row|]; [|apply preserves_ret].
  apply preserves_bind.
  { apply preserves_on_fst, preserves_for_each. intros kv. apply wf_seal_value. }
  intros _. apply preserves_bind; [|intros _ st Hst; exact Hst].
  by apply preserves_on_fst, instances.wf_update.
Qed.

(** The effect of one instance. *)
Definition applied (p : Pending) (st st' : State) : Prop :=
  let '(iid, cat, config) := p in
  match catalog !! cat with
  | None => st' = st
  | Some row =>
      st'.1.(user_server_instances) =
        alter (migrated (definition row config)) iid st.1.(user_server_instances) ∧
      st'.2 = base.delete iid st.2
  end ∧ st.1.(instance_secrets) ⊆ st'.1.(instance_secrets).
Lemma migrate_one_Ok p st st' : migrate_one p st = (Ok tt, st') → applied p st st'.
Proof.
  destruct p as [[iid cat] config]. unfold migrate_one, applied.
  destruct (catalog !! cat) as [row|]; [|intros [_ ->]%ret_Ok; by split].
  intros Hr. apply bind_Ok in Hr as ([] & st1 & H1 & Hr).
  apply bind_Ok in Hr as ([] & st2 & H2 & Hr). apply on_fst_Ok in H1 as [H1 E1].
  apply on_fst_Ok in H2 as [H2 E2]. apply on_snd_Ok in Hr as [Hr E3].
  apply modify_Ok in Hr, H2.
  pose proof (seal_values_only iid (merge_sort (by_text fst)
    (map_to_list (environment row config))) st.1) as [Hi Hs].
  rewrite H1 in Hi, Hs. cbn in Hi, Hs. rewrite E3, Hr, H2, E2, E1. cbn. by rewrite Hi.
Qed.

(** The new definition of the instances in a list of pending ones. *)
Definition fate (l : list Pending) (k : string) : option ServerDef :=
  p ← List.find (λ p : Pending, eqs p.1.1 k) l;
  row ← catalog !! p.1.2; Some (definition row p.2).
Definition settled (l : list Pending) (st st' : State) : Prop :=
  st.1.(instance_secrets) ⊆ st'.1.(instance_secrets) ∧
  ∀ k, st'.1.(user_server_instances) !! k =
         match fate l k with
         | Some def => migrated def <$> st.1.(user_server_instances) !! k
         | None => st.1.(user_server_instances) !! k
         end ∧
       st'.2 !! k = match fate l k with Some _ => None | None => st.2 !! k end.
Lemma fate_absent l k : k ∉ (λ p : Pending, p.1.1) <$> l → fate l k = None.
Proof.
  intros Hk. unfold fate. destruct (List.find _ l) as [p|] eqn:E; [|done].
  apply find_some in E as [Hin He%eqs_true]. destruct Hk.
  apply list_elem_of_fmap. exists p. split; [by rewrite He|by apply list_elem_of_In].
Qed.
Lemma fate_cons p l k :
  fate (p :: l) k = if eqs p.1.1 k then row ← catalog !! p.1.2; Some (definition row p.2)
                    else fate l k.
Proof. unfold fate. cbn. by destruct (eqs _ _). Qed.
Lemma migrate_run l st st' :
  NoDup ((λ p : Pending, p.1.1) <$> l) → for_each migrate_one l st = (Ok tt, st') →
  settled l st st'.
Proof.
  revert st. induction l as [|p l IH]; intros st Hnd Hr; [by apply ret_Ok in Hr as [_ ->]|].
  apply NoDup_cons in Hnd as [Hp Hnd]. apply bind_Ok in Hr as ([] & st1 & Ha%migrate_one_Ok & Hr).
  destruct (IH st1 Hnd Hr) as [Hs Hk]. destruct p as [[iid cat] cfg], Ha as [Ha Hs1]. cbn in *.
  split; [by etrans|]. intros k. destruct (Hk k) as [-> ->]. rewrite fate_cons. cbn.
  destruct (eqs iid k) eqn:Ek.
  - apply eqs_true in Ek as <-. rewrite (fate_absent l iid Hp).
    destruct (catalog !! cat) as [row|]; cbn; [|by rewrite Ha].
    destruct Ha as [-> ->]. by rewrite lookup_alter_eq, lookup_delete_eq.
  - apply eqs_false in Ek. destruct (catalog !! cat) as [row|]; [|by rewrite Ha].
    destruct Ha as [-> ->]. by rewrite lookup_alter_ne, lookup_delete_ne.
Qed.
Lemma elem_of_pending st p :
  p ∈ pending st ↔ ∃ r, st.1.(user_server_instances) !! p.1.1 = Some r ∧
    r.(instance.custom_def) = None ∧ st.2 !! p.1.1 = Some p.1.2 ∧ p.2 = r.(instance.config).
Proof.
  unfold pending. rewrite list_elem_of_omap. split.
  - intros ([k r] & Hin & Hp). cbn in Hp. case_bool_decide as Hd; [|done].
    apply bind_Some in Hp as (cat & Hc & [= <-]). exists r. by apply elem_of_map_to_list in Hin.
  - destruct p as [[iid cat] cfg]. cbn. intros (r & Hr & Hd & Hl & ->).
    exists (iid, r). cbn. split; [by apply elem_of_map_to_list|].
    rewrite bool_decide_eq_true_2 by done. by rewrite Hl.
Qed.
Lemma NoDup_pending st : NoDup ((λ p : Pending, p.1.1) <$> pending st).
Proof.
  unfold pending. pose proof (NoDup_fst_map_to_list st.1.(user_server_instances)) as Hnd.
  induction (map_to_list _) as [|[k r] l IH]; [constructor|]. cbn in Hnd.
  apply NoDup_cons in Hnd as [Hk Hnd]. specialize (IH Hnd). cbn.
  case_bool_decide; [|done]. destruct (st.2 !! k) as [cat|]; [|done]. cbn. constructor; [|done].
  rewrite list_elem_of_fmap. intros (p & Hp & Hin). destruct Hk.
  apply list_elem_of_omap in Hin as ([k' r'] & Hin & Heq). cbn in Heq.
  case_bool_decide; [|done]. apply bind_Some in Heq as (? & _ & [= <-]). cbn in Hp. subst k'.
  apply list_elem_of_fmap. by exists (k, r').
Qed.
Lemma fate_pending st k :
  fate (pending st) k =
    r ← st.1.(user_server_instances) !! k;
    if bool_decide (r.(instance.custom_def) = None)
    then cat ← st.2 !! k; row ← catalog !! cat; Some (definition row r.(instance.config)) else None.
Proof.
  unfold fate. destruct (List.find _ (pending st)) as [p|] eqn:E.
  - apply find_some in E as [Hin Hp%eqs_true]. apply list_elem_of_In, elem_of_pending in Hin
      as (r & Hr & Hd & Hl & Hc). rewrite Hp in *. rewrite Hr. cbn.
    rewrite bool_decide_eq_true_2 by done. rewrite Hl. cbn. rewrite Hc. reflexivity.
  - cbn [mbind option_bind]. destruct (st.1.(user_server_instances) !! k) as [r|] eqn:Hr; [|done]. cbn. case_bool_decide as Hd; [|done].
    destruct (st.2 !! k) as [cat|] eqn:Hl; [|done]. exfalso.
    assert ((k, cat, r.(instance.config)) ∈ pending st) as Hin
      by (apply elem_of_pending; by exists r).
    apply list_elem_of_In, (find_none _ _ E) in Hin. cbn in Hin. by rewrite eqs_refl in Hin.
Qed.

(** The migration is complete, loses nothing and is done once.  When it succeeds
    every instance that had no definition of its own and a link to a catalog row has
    that row's definition, with the user's URL, and no link; every other instance is
    as it was; every stored secret is kept; and running it again changes nothing. *)
Theorem migration_complete st st' :
  migrate_catalog_instances st = (Ok tt, st') →
  st.1.(instance_secrets) ⊆ st'.1.(instance_secrets) ∧
  (∀ k r cat row, st.1.(user_server_instances) !! k = Some r →
     r.(instance.custom_def) = None → st.2 !! k = Some cat → catalog !! cat = Some row →
     st'.1.(user_server_instances) !! k =
       Some (migrated (definition row r.(instance.config)) r) ∧ st'.2 !! k = None) ∧
  (∀ k r, st.1.(user_server_instances) !! k = Some r →
     r.(instance.custom_def) ≠ None ∨ (cat ← st.2 !! k; catalog !! cat) = None →
     st'.1.(user_server_instances) !! k = Some r ∧ st'.2 !! k = st.2 !! k) ∧
  migrate_catalog_instances st' = (Ok tt, st').
Proof.
  unfold migrate_catalog_instances at 1. intros Hr.
  apply bind_Ok in Hr as (todo & s1 & [-> ->]%gets_Ok & Hr).
  apply migrate_run in Hr as [Hs Hk]; [|apply NoDup_pending]. split; [done|]. split; [|split].
  - intros k r cat row Hr Hd Hl Hc. destruct (Hk k) as [-> ->].
    rewrite fate_pending, Hr. cbn. rewrite bool_decide_eq_true_2 by done. by rewrite Hl; cbn; rewrite Hc.
  - intros k r Hr Ho. destruct (Hk k) as [-> ->].
    assert (fate (pending st) k = None) as ->; [|done].
    rewrite fate_pending, Hr. cbn. case_bool_decide as Hd; [|done].
    destruct Ho as [?|Ho]; [done|]. destruct (st.2 !! k) as [cat|]; [|done]. cbn in *. by rewrite Ho.
  - unfold migrate_catalog_instances, bind, gets.
    assert (∀ p, p ∈ pending st' → catalog !! p.1.2 = None) as Hnone.
    { intros p (r & Hr & Hd & Hl & _)%elem_of_pending. destruct (Hk p.1.1) as [Hi Hlk].
      destruct (fate (pending st) p.1.1) as [def|] eqn:Ef; [by rewrite Hlk in Hl|].
      rewrite Hi in Hr. rewrite Hlk in Hl. rewrite fate_pending, Hr in Ef. cbn in Ef.
      rewrite bool_decide_eq_true_2 in Ef by done. rewrite Hl in Ef. cbn in Ef.
      by destruct (catalog !! p.1.2). }
    induction (pending st') as [|[[iid cat] cfg] l IH]; [done|]. cbn [for_each].
    unfold bind. cbn [migrate_one]. pose proof (Hnone (iid, cat, cfg) ltac:(left)) as Hn.
    cbn in Hn. rewrite Hn. cbn. apply IH. intros p Hp. apply Hnone. by right.
Qed.
End migrate.

Definition row0 : ServerDef := {|
  name := "Files"; description := ""; transport := "http"; command := None; args := [];
  url := None; runtime := ""; repo := None; git_ref := None; entry := None; module := None;
  connect_timeout_secs := Some 5%Z |}.
Definition linked0 : Db := set_user_server_instances
  (alter (instances.with_config {["MCP_URL" := "https://a"; "KEY" := "v"]}) "i") db2.
Lemma migration_complete_witness :
  let run := migrate_catalog_instances (H:=aead0) {["c" := row0]} (λ _ _, nonce0) in
  let st' := (run (linked0, {["i" := "c"]})).2 in
  (r ← st'.1.(user_server_instances) !! "i"; r.(instance.custom_def)) =
    Some (with_url "https://a" (of_catalog row0)) ∧
  run st' = (Ok tt, st').
Proof.
  intros run st'. assert (run (linked0, {["i" := "c"]}) = (Ok tt, st')) as Hr
    by (vm_compute; reflexivity).
  destruct (migration_complete (H:=aead0) {["c" := row0]} (λ _ _, nonce0) _ _ Hr)
    as (_ & _ & _ & Hagain).
  split; [vm_compute; reflexivity|exact Hagain].
Defined.
End migrate.

(** ** [AppState::new] (lib.rs) *)
Module startup.

(** What a start reads and writes. *)
Record Disk := {
  disk_db : Db; links : gmap string string; signing_keys : signing.Table; disk_files : fs.Fs }.
Definition on_database {A} (m : M Db anyhow A) : M Disk anyhow A := λ s,
  ((m s.(disk_db)).1, {| disk_db := (m s.(disk_db)).2; links := s.(links);
     signing_keys := s.(signing_keys); disk_files := s.(disk_files) |}).
Definition on_links {A} (m : M (Db * gmap string string) anyhow A) : M Disk anyhow A := λ s,
  let '(r, (d, l)) := m (s.(disk_db), s.(links)) in
  (r, {| disk_db := d; links := l; signing_keys := s.(signing_keys);
         disk_files := s.(disk_files) |}).
Definition on_keys {A} (m : M signing.Table anyhow A) : M Disk anyhow A := λ s,
  ((m s.(signing_keys)).1, {| disk_db := s.(disk_db); links := s.(links);
     signing_keys := (m s.(signing_keys)).2; disk_files := s.(disk_files) |}).
Definition on_disk {A} (m : M fs.Fs anyhow A) : M Disk anyhow A := λ s,
  ((m s.(disk_files)).1, {| disk_db := s.(disk_db); links := s.(links);
     signing_keys := s.(signing_keys); disk_files := (m s.(disk_files)).2 |}).

(** What a start draws: a signing key, and a secret with its nonce. *)
Record Drawn := {
  kid : string; pem : string; key_nonce : string; env_nonces : string → string → string;
  random : string; metrics_nonce : string }.

Section new.
Context `{Aead} `{P256} `{Base64} (c : config.Config) (catalog : gmap string ServerDef)
  (webauthn_build : string → string → result anyhow unit) (is_root : bool) (drawn : Drawn)
  (now : Z).
(** The signer and the metrics key of the new state. *)
Definition new : M Disk anyhow (keys.Signer * string) :=
  lift (webauthn_build c.(config.base_url) c.(config.rp_id)) ;;;
  let* signer := on_keys (signing.load_or_create c.(config.base_url) drawn.(kid) drawn.(pem)
                            drawn.(key_nonce) now) in
  on_links (migrate.migrate_catalog_instances catalog drawn.(env_nonces)) ;;;
  on_database users.assign_sandbox_slots ;;;
  (if bool_decide (is_Some c.(config.sandbox_uid_base)) && is_root
   then on_disk (sandbox.lock_database c.(config.db_path)) else ret tt) ;;;
  let* key := on_database
    (metrics.load_or_create_key drawn.(random) drawn.(metrics_nonce)) in
  ret (signer, key).

(** A start keeps the database well formed. *)
Lemma wf_new : preserves (λ s, wf s.(disk_db)) new.
Proof.
  assert (∀ A (m : M Db anyhow A), preserves wf m →
    preserves (λ s, wf s.(disk_db)) (on_database m)) as Hdb by (intros A m Hm s Hs; by apply Hm).
  unfold new. apply preserves_bind; [apply preserves_lift|]. intros _.
  apply preserves_bind; [by intros s Hs|]. intros signer. apply preserves_bind.
  { intros s Hs. pose proof (migrate.wf_migrate catalog drawn.(env_nonces)
      (s.(disk_db), s.(links)) Hs) as Hm.
    unfold on_links. by destruct (migrate.migrate_catalog_instances _ _ _) as [r [d l]]. }
  intros _. apply preserves_bind; [apply Hdb, users.wf_assign_sandbox_slots|]. intros _.
  apply preserves_bind.
  { destruct (_ && _); [by intros s Hs|apply preserves_ret]. }
  intros _. apply preserves_bind; [|intros; apply preserves_ret]. apply Hdb.
  unfold metrics.load_or_create_key, metrics.store_key.
  apply preserves_bind; [apply preserves_gets|]. intros row.
  destruct (match row with Some _ => _ | None => _ end); [apply preserves_ret|].
  apply preserves_bind; [|intros; apply preserves_ret].
  apply preserves_bind; [apply preserves_lift|]. intros s d Hd. cbn. wf_table Hd.
Qed.
End new.

(** ** The process (main.rs, db.rs, auth/webauthn.rs) *)
(** The relying party of the configuration; [builder] is webauthn-rs'. *)
Definition build `{UrlCrate} {W} (builder : string → Url → string → result anyhow W)
    (base_url rp_id : string) : result anyhow W :=
  match url_parse base_url with
  | Some origin => builder rp_id origin "MCP Hub"
  | None => Err (Msg "invalid URL")
  end.

Record ConnectOptions := {
  filename : string; create_if_missing : bool; foreign_keys : bool; busy_timeout_secs : Z;
  write_ahead_log : bool; max_connections : Z }.
Definition connect_options (db_path : string) : ConnectOptions := {|
  filename := db_path; create_if_missing := true; foreign_keys := true; busy_timeout_secs := 10;
  write_ahead_log := true; max_connections := 8 |}.

Section main.
Context `{UrlCrate} `{Aead} `{P256} `{Base64}.
(** The hub's user and the mode of new directories; sqlx: opening a database, and running
    the embedded migrations on it. *)
Context (hub_uid dir_mode : Z).
Context (open : ConnectOptions → M Disk anyhow unit) (run_migrations : M Disk anyhow unit).
Definition connect (db_path : string) : M Disk anyhow unit :=
  match sandbox.parent db_path with
  | Some dir =>
      if is_empty dir then ret tt
      else on_disk (map_err (Schema.Context ("creating database directory " +:+ dir))
             (fs.create_dir_all hub_uid dir_mode dir))
  | None => ret tt
  end ;;;
  map_err (Schema.Context "connecting to sqlite") (open (connect_options db_path)) ;;;
  map_err (Schema.Context "running database migrations") run_migrations.

(** The configuration, the signer and the metrics key a process serves with. *)
Definition main {W} (builder : string → Url → string → result anyhow W)
    (from_env : result anyhow config.Config) (catalog : gmap string ServerDef) (is_root : bool)
    (drawn : Drawn) (now : Z) : M Disk anyhow (config.Config * keys.Signer * string) :=
  let* c := lift from_env in
  connect c.(config.db_path) ;;;
  let* (signer, key) := new c catalog
    (λ base rp, match build builder base rp with Ok _ => Ok tt | Err e => Err e end)
    is_root drawn now in
  ret (c, signer, key).

(** What a process serves from is well formed, if what sqlx opens and migrates is. *)
Lemma wf_main {W} (builder : string → Url → string → result anyhow W) from_env catalog root drawn now :
  (∀ o, preserves (λ s, wf s.(disk_db)) (open o)) → preserves (λ s, wf s.(disk_db)) run_migrations →
  preserves (λ s, wf s.(disk_db)) (main builder from_env catalog root drawn now).
Proof.
  intros Ho Hm. unfold main. apply preserves_bind; [apply preserves_lift|]. intros c.
  apply preserves_bind.
  - unfold connect. apply preserves_bind.
    + destruct (sandbox.parent _) as [dir|]; [|apply preserves_ret].
      destruct (is_empty dir); [apply preserves_ret|]. by intros s Hs.
    + intros _. apply preserves_bind; [by apply preserves_map_err|]. intros _.
      by apply preserves_map_err.
  - intros _. apply preserves_bind; [apply wf_new|]. intros [signer key]. apply preserves_ret.
Qed.
End main.
End startup.
