(* ===== verification/Html.v ===== *)
(** * HTML fragments (web.rs)

    The pages are built by [format!] from literal templates and values passed
    through [esc].  A template is written with single quotes for its double ones and backquotes for its
    single ones.
    [markup] is the part of a text a browser reads as tags and attribute borders:
    escaping removes all of it, so data cannot add, close or split a tag. *)

From stdpp Require Import pretty.
From S2P Require Import Prelude Strs Trim.
Open Scope string_scope.

Module html.

(** [s.replace(c, by)] of one character. *)
Fixpoint replace (c : Ascii.ascii) (by_ : string) (s : string) : string :=
  match s with
  | EmptyString => EmptyString
  | String d s => (if Ascii.eqb d c then by_ else String d EmptyString) +:+ replace c by_ s
  end.
Definition AMP : Ascii.ascii := Ascii.ascii_of_N 38.
Definition LT : Ascii.ascii := Ascii.ascii_of_N 60.
Definition GT : Ascii.ascii := Ascii.ascii_of_N 62.
Definition QUOT : Ascii.ascii := Ascii.ascii_of_N 34.
Definition APOS : Ascii.ascii := Ascii.ascii_of_N 39.
Definition esc (s : string) : string :=
  replace QUOT "&quot;" (replace GT "&gt;" (replace LT "&lt;" (replace AMP "&amp;" s))).

(** A template: its single quotes stand for double ones, its backquotes for single
    ones. *)
Definition BACKQUOTE : Ascii.ascii := Ascii.ascii_of_N 96.
Definition html (s : string) : string :=
  str_map (λ c, if Ascii.eqb c APOS then QUOT else if Ascii.eqb c BACKQUOTE then APOS else c) s.

Definition LFs : string := bytes [10%N].

(** ** The page shell *)
(** [asset_ver] is computed from the static files, [source_url] from the hub's
    environment, [version] by cargo.  The title is not escaped. *)
Section page.
Context (asset_ver source_url version : string).
Definition page_with (title body class : string) : string :=
  html ("<!doctype html>" +:+ LFs +:+ "<html lang='en'>" +:+ LFs +:+ "<head>" +:+ LFs +:+
    "  <meta charset='utf-8'>" +:+ LFs +:+
    "  <meta name='viewport' content='width=device-width, initial-scale=1'>" +:+ LFs +:+
    "  <title>") +:+ title +:+ html (" · MCP Hub</title>" +:+ LFs +:+
    "  <link rel='stylesheet' href='/static/style.css?v=") +:+ asset_ver +:+ html ("'>" +:+ LFs +:+
    "</head>" +:+ LFs +:+ "<body>" +:+ LFs +:+ "  <main class='") +:+ class +:+ html "'>" +:+
    body +:+ html ("</main>" +:+ LFs +:+ "  <footer class='legal'>" +:+ LFs +:+
    "    MCP Hub v") +:+ version +:+ html " · <a href='" +:+ esc source_url +:+
    html ("' rel='noopener'>Source</a> ·" +:+ LFs +:+
    "    <a href='https://www.gnu.org/licenses/agpl-3.0.html' rel='noopener'>AGPL-3.0-or-later</a>" +:+
    LFs +:+ "  </footer>" +:+ LFs +:+ "  <script src='/static/auth.js?v=") +:+ asset_ver +:+
  html ("'></script>" +:+ LFs +:+ "</body>" +:+ LFs +:+ "</html>").
Definition page (title body : string) : string := page_with title body "card".
Definition page_wide (title body : string) : string := page_with title body "card wide".
End page.

(** ** Small fragments *)
Definition COPY_ICONS : string := html
  ("<svg class='icon-copy' width='14' height='14' viewBox='0 0 16 16' fill='none' stroke='currentColor' stroke-width='1.5' aria-hidden='true'><rect x='5' y='5' width='9' height='9' rx='1.5'/><path d='M11 5V3.5A1.5 1.5 0 0 0 9.5 2h-6A1.5 1.5 0 0 0 2 3.5v6A1.5 1.5 0 0 0 3.5 11H5'/></svg>" +:+
   "<svg class='icon-check' width='14' height='14' viewBox='0 0 16 16' fill='none' stroke='currentColor' stroke-width='2' aria-hidden='true'><path d='M3 8.5 6.5 12 13 4.5'/></svg>").
Definition copy_btn (value : string) : string :=
  html "<button type='button' class='copy' data-copy='" +:+ esc value +:+
  html "' title='Copy' aria-label='Copy to clipboard'>" +:+ COPY_ICONS +:+ "</button>".
Definition copy_code (value : string) : string :=
  html "<span class='copywrap'><code>" +:+ esc value +:+ "</code>" +:+ copy_btn value +:+ "</span>".
Definition copy_pre (value : string) : string :=
  html "<div class='copywrap block'><pre class='cmd'><code>" +:+ esc value +:+ "</code></pre>" +:+
  copy_btn value +:+ "</div>".

Definition ago (secs : Z) : string :=
  let s := Z.max secs 0 in
  if (s <? 90)%Z then "just now"
  else if (s <? 3600)%Z then pretty (s / 60)%Z +:+ "m ago"
  else if (s <? 86400)%Z then pretty (s / 3600)%Z +:+ "h ago"
  else pretty (s / 86400)%Z +:+ "d ago".
Definition duration (secs : Z) : string :=
  let s := Z.max secs 0 in
  if (86400 <=? s)%Z then pretty (s / 86400)%Z +:+ " days"
  else if (3600 <=? s)%Z then pretty (s / 3600)%Z +:+ " hours"
  else pretty (Z.max (s / 60) 1)%Z +:+ " minutes".
Definition secs_or (secs : Z) (zero : string) : string :=
  if (secs =? 0)%Z then zero else pretty secs +:+ "s".
(** At most [max] characters and an ellipsis. *)
Definition truncate_chars (s : string) (max : nat) : string :=
  if (count_chars s <=? max)%nat then s else trim_end (take_chars max s) +:+ "…".
(** The address and agent last seen, when known. *)
Definition known (o : option string) : option string :=
  s ← o; let t := trim s in if is_empty t then None else Some t.
Definition origin_detail (ip ua : option string) : string :=
  let parts := (option_list ((λ ip, "IP " +:+ esc ip) <$> known ip) ++
                option_list (esc <$> known ua))%list in
  match parts with [] => "" | _ => " · " +:+ String.concat " · " parts end.
Definition server_tabs (id active : string) : string :=
  let cls t := if String.eqb t active then html " class='active'" else "" in
  html "<nav class='tabs'><a href='/servers/" +:+ esc id +:+ html "'" +:+ cls "config" +:+
  html ">Configuration</a><a href='/servers/" +:+ esc id +:+ html "/capabilities'" +:+
  cls "capabilities" +:+ ">Capabilities</a></nav>".
Definition argv_secret_banner (refs : list string) : string :=
  match refs with
  | [] => ""
  | _ =>
      html "<div class='status status-warn'>" +:+
      String.concat ", " (map (λ n, "<code>" +:+ esc n +:+ "</code>") refs) +:+ " " +:+
      (if (length refs =? 1)%nat then "is a stored secret" else "are stored secrets") +:+
      " referenced on the command line, where the value is visible to other processes via <code>/proc</code>. Pass it to the server as an environment variable instead.</div>"
  end.

(** ** Facts *)
(** One pass over the text. *)
Definition esc_char (c : Ascii.ascii) : string :=
  if Ascii.eqb c AMP then "&amp;" else if Ascii.eqb c LT then "&lt;"
  else if Ascii.eqb c GT then "&gt;" else if Ascii.eqb c QUOT then "&quot;"
  else String c EmptyString.
Fixpoint esc1 (s : string) : string :=
  match s with EmptyString => EmptyString | String c s => esc_char c +:+ esc1 s end.
Lemma replace_app c b s t : replace c b (s +:+ t) = replace c b s +:+ replace c b t.
Proof.
  induction s as [|d s IH]; [done|]. cbn [replace].
  change (String d s +:+ t) with (String d (s +:+ t)). cbn [replace]. by rewrite IH, append_assoc.
Qed.
Lemma esc_app s t : esc (s +:+ t) = esc s +:+ esc t.
Proof. unfold esc. by rewrite !replace_app. Qed.
Lemma esc_one c : esc (String c EmptyString) = esc_char c.
Proof. destruct c as [[] [] [] [] [] [] [] []]; vm_compute; reflexivity. Qed.
Lemma esc_esc1 s : esc s = esc1 s.
Proof.
  induction s as [|c s IH]; [done|]. change (String c s) with (String c EmptyString +:+ s).
  rewrite esc_app, esc_one, IH. done.
Qed.

(** What a browser reads back: the four entities, decoded left to right; [skip]
    counts the characters of the entity just decoded. *)
Fixpoint decode (skip : nat) (s : string) : string :=
  match s with
  | EmptyString => EmptyString
  | String c r =>
      match skip with
      | S n => decode n r
      | O =>
          if negb (Ascii.eqb c AMP) then String c (decode 0 r)
          else if starts_with "amp;" r then String AMP (decode 4 r)
          else if starts_with "lt;" r then String LT (decode 3 r)
          else if starts_with "gt;" r then String GT (decode 3 r)
          else if starts_with "quot;" r then String QUOT (decode 5 r)
          else String c (decode 0 r)
      end
  end.
Lemma decode_esc_char c s : decode 0 (esc_char c +:+ s) = String c (decode 0 s).
Proof. destruct c as [[] [] [] [] [] [] [] []]; reflexivity. Qed.

(** The tag and attribute delimiters of a text, in order. *)
Definition is_markup (c : Ascii.ascii) : bool :=
  Ascii.eqb c LT || Ascii.eqb c GT || Ascii.eqb c QUOT.
Fixpoint markup (s : string) : string :=
  match s with
  | EmptyString => EmptyString
  | String c s => if is_markup c then String c (markup s) else markup s
  end.
Lemma markup_app s t : markup (s +:+ t) = markup s +:+ markup t.
Proof.
  induction s as [|c s IH]; [done|]. change (String c s +:+ t) with (String c (s +:+ t)).
  cbn [markup]. rewrite IH. by destruct (is_markup c).
Qed.
Lemma markup_esc s : markup (esc s) = "".
Proof.
  rewrite esc_esc1. induction s as [|c s IH]; [done|]. cbn [esc1]. rewrite markup_app, IH.
  destruct c as [[] [] [] [] [] [] [] []]; reflexivity.
Qed.

(** Escaping neither loses nor leaks anything: the escaped text holds no tag or
    attribute delimiter, and a browser decodes it to exactly the original. *)
Theorem esc_spec s : markup (esc s) = "" ∧ decode 0 (esc s) = s.
Proof.
  split; [apply markup_esc|]. rewrite esc_esc1.
  induction s as [|c s IH]; [done|]. cbn [esc1]. by rewrite decode_esc_char, IH.
Qed.

Create Rewrite HintDb markup.
#[global] Hint Rewrite markup_app markup_esc : markup.
End html.
