(* ===== verification/Markup.v ===== *)
(** * A scanner of HTML

    The tags of a page, read the way a browser reads them, in a strict dialect: every
    element is closed in order, every attribute value is quoted.  A page that the
    scanner accepts whatever its data are is one into which data cannot put a tag, an
    attribute or the end of either.  [flow s a b]: the text [s] leads from the state
    [a] to [b]; its rules follow a template piece by piece. *)

From stdpp Require Import pretty.
From S2P Require Import Prelude Strs Html.
Open Scope string_scope.

Module scanner.
Import html.

(** Inside a tag: after a space, in a name, after its equals sign, after a value. *)
Inductive position := Gap | Name | Eq | Quoted.
Inductive mode :=
| Text
| Open (name : string)
| Tag (name : string) (p : position)
| Value (name : string)
| Slash (name : string)
| Close (name : string)
| Declaration.
(** The mode, and the elements open around it. *)
Abbreviation State := (mode * list string)%type.

Definition SPACE : Ascii.ascii := Ascii.ascii_of_N 32.
Definition SOLIDUS : Ascii.ascii := Ascii.ascii_of_N 47.
Definition BANG : Ascii.ascii := Ascii.ascii_of_N 33.
Definition EQUALS : Ascii.ascii := Ascii.ascii_of_N 61.
Definition void (name : string) : bool :=
  bool_decide (name ∈ ["meta"; "link"; "input"; "br"; "img"; "hr"]).
Definition snoc (s : string) (c : Ascii.ascii) : string := s +:+ String c EmptyString.
Definition is_gap (c : Ascii.ascii) : bool :=
  Ascii.eqb c SPACE || Ascii.eqb c (Ascii.ascii_of_N 10).
(** A start tag ends. *)
Definition enter (name : string) (st : list string) : State :=
  (Text, if void name then st else name :: st).

Definition step (c : Ascii.ascii) (s : State) : option State :=
  let '(m, st) := s in
  match m with
  | Text =>
      if Ascii.eqb c LT then Some (Open "", st)
      else if Ascii.eqb c GT then None else Some (Text, st)
  | Open name =>
      if is_ascii_alphanumeric c then Some (Open (snoc name c), st)
      else if is_empty name then
        if Ascii.eqb c SOLIDUS then Some (Close "", st)
        else if Ascii.eqb c BANG then Some (Declaration, st) else None
      else if is_gap c then Some (Tag name Gap, st)
      else if Ascii.eqb c SOLIDUS then Some (Slash name, st)
      else if Ascii.eqb c GT then Some (enter name st) else None
  | Tag name p =>
      match p with
      | Eq => if Ascii.eqb c QUOT then Some (Value name, st) else None
      | _ =>
          if Ascii.eqb c GT then Some (enter name st)
          else if Ascii.eqb c SOLIDUS then Some (Slash name, st)
          else if is_gap c then Some (Tag name Gap, st)
          else if is_markup c then None
          else match p with
          | Gap => if Ascii.eqb c EQUALS then None else Some (Tag name Name, st)
          | Name => Some (Tag name (if Ascii.eqb c EQUALS then Eq else Name), st)
          | _ => None
          end
      end
  | Value name =>
      if Ascii.eqb c QUOT then Some (Tag name Quoted, st)
      else if is_markup c then None else Some (Value name, st)
  | Slash name => if Ascii.eqb c GT then Some (Text, st) else None
  | Close name =>
      if is_ascii_alphanumeric c then Some (Close (snoc name c), st)
      else if Ascii.eqb c GT then
        match st with
        | top :: st => if String.eqb top name then Some (Text, st) else None
        | [] => None
        end
      else None
  | Declaration => if Ascii.eqb c GT then Some (Text, st) else Some (Declaration, st)
  end.
Fixpoint scan (s : string) (a : State) : option State :=
  match s with
  | EmptyString => Some a
  | String c s => match step c a with Some b => scan s b | None => None end
  end.
(** A whole page: every element it opens is closed. *)
Definition balanced (page : string) : bool :=
  match scan page (Text, []) with Some (Text, []) => true | _ => false end.

(** *** The tags of a page *)
Inductive tag := Start (name : string) | End_ (name : string).
(** What the end of a tag adds; a void element is no tag of either kind. *)
Definition emit (c : Ascii.ascii) (m : mode) : list tag :=
  if Ascii.eqb c GT then
    match m with
    | Open name | Tag name _ => if void name then [] else [Start name]
    | Close name => [End_ name]
    | _ => []
    end
  else [].
Fixpoint tags (s : string) (a : State) : list tag :=
  match s with
  | EmptyString => []
  | String c s =>
      (emit c a.1 ++ match step c a with Some b => tags s b | None => [] end)%list
  end.
(** Every start has its end, and elements do not overlap. *)
Inductive nested : list tag → Prop :=
| nested_nil : nested []
| nested_app l1 l2 : nested l1 → nested l2 → nested (l1 ++ l2)
| nested_element name l : nested l → nested (Start name :: l ++ [End_ name]).

(** ** The rules *)
Definition flow (s : string) (a b : State) : Prop := scan s a = Some b.
(** A text that can stand where elements stand. *)
Definition fragment (s : string) : Prop := ∀ st, flow s (Text, st) (Text, st).
(** A text without delimiters. *)
Definition inert (s : string) : Prop := markup s = "".

Lemma scan_app s t a : scan (s +:+ t) a = (b ← scan s a; scan t b).
Proof.
  revert a. induction s as [|c s IH]; intros a; [done|].
  change (String c s +:+ t) with (String c (s +:+ t)). cbn [scan].
  by destruct (step c a).
Qed.
Lemma flow_app s t a b c : flow s a b → flow t b c → flow (s +:+ t) a c.
Proof. unfold flow. intros Hs Ht. rewrite scan_app, Hs. exact Ht. Qed.
Lemma flow_nil a : flow "" a a.
Proof. done. Qed.
Lemma flow_if (b : bool) s t a c : flow s a c → flow t a c → flow (if b then s else t) a c.
Proof. by destruct b. Qed.

Lemma inert_cons c s : inert (String c s) → is_markup c = false ∧ inert s.
Proof. unfold inert. cbn. by destruct (is_markup c). Qed.
Lemma inert_app s t : inert s → inert t → inert (s +:+ t).
Proof. unfold inert. intros Hs Ht. by rewrite markup_app, Hs, Ht. Qed.
Lemma inert_esc s : inert (esc s).
Proof. apply markup_esc. Qed.
Lemma step_inert c n st : is_markup c = false →
  step c (Text, st) = Some (Text, st) ∧ step c (Value n, st) = Some (Value n, st).
Proof.
  unfold step, is_markup. destruct (Ascii.eqb c LT); [done|]. destruct (Ascii.eqb c GT); [done|].
  by destruct (Ascii.eqb c QUOT).
Qed.
Lemma inert_LFs : inert LFs.
Proof. done. Qed.
Lemma inert_text s st : inert s → flow s (Text, st) (Text, st).
Proof.
  unfold flow. induction s as [|c s IH]; [done|]. intros [Hc Hs]%inert_cons. cbn [scan].
  rewrite (proj1 (step_inert c "" st Hc)). by apply IH.
Qed.
Lemma inert_value s n st : inert s → flow s (Value n, st) (Value n, st).
Proof.
  unfold flow. induction s as [|c s IH]; [done|]. intros [Hc Hs]%inert_cons. cbn [scan].
  rewrite (proj2 (step_inert c n st Hc)). by apply IH.
Qed.
Lemma inert_fragment s : inert s → fragment s.
Proof. intros Hs st. by apply inert_text. Qed.

Lemma fragment_app s t : fragment s → fragment t → fragment (s +:+ t).
Proof. intros Hs Ht st. by eapply flow_app. Qed.
Lemma fragment_join sep l : fragment sep → Forall fragment l → fragment (String.concat sep l).
Proof.
  intros Hsep. induction 1 as [|s l Hs Hl IH]; [by intros st|]. destruct l as [|t l]; [done|].
  change (String.concat sep (s :: t :: l)) with (s +:+ sep +:+ String.concat sep (t :: l)).
  by apply fragment_app; [|apply fragment_app].
Qed.
Lemma fragment_join_map {A} sep (f : A → string) l :
  fragment sep → (∀ x, fragment (f x)) → fragment (String.concat sep (map f l)).
Proof. intros Hsep Hf. apply fragment_join, Forall_map, Forall_true, Hf. exact Hsep. Qed.
Lemma fragment_nil : fragment "".
Proof. by intros st. Qed.

(** *** What the scanner accepts *)
(** The tags read so far, with the elements [st] still open. *)
Inductive opened : list string → list tag → Prop :=
| opened_none l : nested l → opened [] l
| opened_in name st l l' : opened st l → nested l' → opened (name :: st) (l ++ Start name :: l').
Lemma opened_app st l l' : opened st l → nested l' → opened st (l ++ l').
Proof.
  intros [l0 H0|name st0 l0 l1 H0 H1] Hl'.
  - constructor. by constructor.
  - rewrite <- app_assoc. cbn. constructor; [done|by constructor].
Qed.
Lemma opened_enter name st l :
  opened st l → opened (enter name st).2 (l ++ if void name then [] else [Start name]).
Proof.
  intros Ho. unfold enter. destruct (void name); cbn; [by rewrite app_nil_r|].
  by apply (opened_in _ _ _ []); [|constructor].
Qed.
Lemma opened_leave name st l : opened (name :: st) l → opened st (l ++ [End_ name]).
Proof.
  inversion 1 as [|? ? l0 l' Ho Hl']; subst. rewrite <- app_assoc. cbn.
  apply opened_app; [done|]. by constructor.
Qed.
Lemma opened_step c a b l : step c a = Some b → opened a.2 l → opened b.2 (l ++ emit c a.1).
Proof.
  destruct a as [m st]. unfold emit. cbn [fst snd]. intros Hs Ho.
  pose proof (λ n, opened_enter n st l Ho) as He.
  unfold step in Hs. destruct (Ascii.eqb c GT) eqn:Eg.
  - apply Ascii.eqb_eq in Eg as ->. destruct m; cbn -[enter void] in Hs;
      repeat (case_match; try done); simplify_eq/=; rewrite ?app_nil_r; try done;
      try (match goal with Hn : String.eqb _ _ = true |- _ => apply String.eqb_eq in Hn as -> end;
           by apply opened_leave);
      match goal with Hv : void ?n = _ |- _ =>
        specialize (He n); unfold enter; rewrite Hv in *; cbn in *;
        rewrite ?app_nil_r in *; exact He end.
  - rewrite app_nil_r. by destruct m; repeat case_match; simplify_eq.
Qed.
Lemma opened_scan s : ∀ a b l, scan s a = Some b → opened a.2 l → opened b.2 (l ++ tags s a).
Proof.
  induction s as [|c s IH]; intros a b l; cbn [scan tags]; [intros [= ->]; by rewrite app_nil_r|].
  destruct (step c a) as [a'|] eqn:Ec; [|done]. intros Hs Ho. rewrite app_assoc.
  by eapply IH, opened_step.
Qed.
(** A balanced page is a properly nested sequence of elements. *)
Lemma balanced_nested page : balanced page = true → nested (tags page (Text, [])).
Proof.
  unfold balanced. destruct (scan page _) as [[m st]|] eqn:E; [|done].
  destruct m, st; try done. intros _.
  apply (opened_scan _ _ _ []) in E; [|by constructor; constructor]. by inversion E.
Qed.

(** *** Numbers *)
Lemma inert_digit n : is_markup (pretty_N_char n) = false.
Proof. unfold pretty_N_char. by repeat case_match. Qed.
Lemma inert_pretty_N_go x s : inert s → inert (pretty_N_go x s).
Proof.
  revert s. induction (N.lt_wf_0 x) as [x _ IH]. intros s Hs.
  destruct (decide (x = 0)%N) as [->|Hx]; [by rewrite pretty_N_go_0|].
  rewrite pretty_N_go_step by lia. apply IH; [apply N.div_lt; lia|].
  unfold inert in *. cbn [markup]. rewrite Hs, inert_digit. done.
Qed.
Lemma inert_pretty_Z (z : Z) : inert (pretty z).
Proof.
  assert (∀ n : N, inert (pretty n)) as HN.
  { intros n. unfold pretty, pretty_N. case_decide; [done|]. by apply inert_pretty_N_go. }
  destruct z; cbn; [done|apply HN|]. apply (inert_app "-"); [done|apply HN].
Qed.
Lemma inert_pretty_nat (n : nat) : inert (pretty n).
Proof.
  unfold pretty, pretty_nat, pretty, pretty_N. case_decide; [done|]. by apply inert_pretty_N_go.
Qed.

Lemma fragment_icons : fragment COPY_ICONS.
Proof. intros st. reflexivity. Qed.

(** ** Following a template *)
Create HintDb html discriminated.
#[global] Hint Constants Opaque : html.
#[global] Hint Variables Opaque : html.
#[global] Hint Resolve inert_app inert_esc inert_LFs inert_pretty_Z inert_pretty_nat fragment_join_map
  inert_fragment fragment_nil
  fragment_icons : html.

Ltac literal s :=
  match s with html _ => idtac | String _ _ => idtac | EmptyString => idtac end.
#[global] Hint Extern 4 (inert ?s) => literal s; vm_compute; reflexivity : html.
#[global] Hint Extern 3 (inert (match ?x with _ => _ end)) => destruct x : html.

(** One piece: data, a fragment with a lemma of its own, or a literal, which is run. *)
Ltac piece :=
  match goal with
  | |- flow _ (Text, ?st) _ => solve [apply inert_text; auto with html nocore]
  | |- flow _ (Value _, ?st) _ => solve [apply inert_value; auto with html nocore]
  | |- flow ?s (Text, ?st) _ =>
      let Hs := fresh in
      assert (fragment s) as Hs by (solve [auto with html nocore]); exact (Hs st)
  | |- flow ?s ?a _ =>
      literal s;
      let r := eval vm_compute in (scan s a) in
      match r with Some ?b => exact (@eq_refl _ (Some b) <: scan s a = Some b) end
  end.
Ltac branch :=
  match goal with
  | |- flow (match ?x with _ => _ end +:+ _) _ _ => destruct x
  | |- flow (match ?x with _ => _ end) _ _ => destruct x
  end.
Ltac follow :=
  cbv zeta; repeat first
    [ branch
    | match goal with |- flow (_ +:+ _) _ _ => eapply flow_app; [piece|] end
    | match goal with |- flow ((_ +:+ _) +:+ _) _ _ => rewrite append_assoc end
    | piece ].
End scanner.
