(* ===== verification/Discovery.v ===== *)
(** * Discovery and consent (oauth/metadata.rs, oauth/authorize.rs, oauth/keys.rs)

    The metadata documents an MCP client reads to find its way from a 401 to a token,
    and the page on which the user agrees. *)

From S2P Require Import Prelude Strs Trim Schema External Fixtures Json Html Markup Users Oauth Groups.
From S2P Require Import Config Sessions OauthStore OauthServer Tokens McpAuth.
Open Scope string_scope.
Open Scope hub_scope.

Module metadata.
Import json.

Definition authorization_server (c : config.Config) : Value :=
  let base := c.(config.base_url) in object [
    ("issuer", Str base);
    ("authorization_endpoint", Str (base +:+ "/authorize"));
    ("token_endpoint", Str (base +:+ "/token"));
    ("registration_endpoint", Str (base +:+ "/register"));
    ("jwks_uri", Str (base +:+ "/.well-known/jwks.json"));
    ("scopes_supported", strs ["mcp"]);
    ("response_types_supported", strs ["code"]);
    ("grant_types_supported", strs ["authorization_code"; "refresh_token"]);
    ("code_challenge_methods_supported", strs ["S256"]);
    ("token_endpoint_auth_methods_supported",
      strs ["none"; "client_secret_basic"; "client_secret_post"])].
Definition resource_document (c : config.Config) (resource : string) : Value := object [
  ("resource", Str resource);
  ("authorization_servers", strs [c.(config.base_url)]);
  ("scopes_supported", strs ["mcp"]);
  ("bearer_methods_supported", strs ["header"])].
Definition protected_resource (c : config.Config) : Value :=
  resource_document c (config.mcp_url c).
(** [None] is a 404. *)
Definition protected_resource_group (c : config.Config) (slug : string) : option Value :=
  if groups.valid_slug slug then Some (resource_document c (config.group_mcp_url c slug)) else None.
(** [Signer::jwks], of the public key's own JSON. *)
Definition jwks (public_jwk : Value) : Value := object [("keys", Array [public_jwk])].

(** The routes of the documents; [{slug}] is one non-empty segment, as sent. *)
Definition RESOURCE : string := "/.well-known/oauth-protected-resource".
Definition well_known (c : config.Config) (public_jwk : Value) (path : string) : option Value :=
  if eqs path "/.well-known/oauth-authorization-server" then Some (authorization_server c)
  else if eqs path RESOURCE || eqs path (RESOURCE +:+ "/mcp") then Some (protected_resource c)
  else if eqs path "/.well-known/jwks.json" then Some (jwks public_jwk)
  else match strip_prefix (RESOURCE +:+ "/mcp/") path with
  | Some slug =>
      if is_empty slug || negb (lacks config.slash slug) then None
      else protected_resource_group c slug
  | None => None
  end.

(** ** Facts *)
Definition field (doc : Value) (key : string) : option Value :=
  o ← as_object doc; json.get o key.
Definition slug_of (cand : proxy.EndpointCandidate) : option string :=
  match cand with proxy.ManagementPath => None | proxy.GroupSlug s => Some s end.
Definition metadata_path (cand : proxy.EndpointCandidate) : string :=
  RESOURCE +:+ match slug_of cand with None => "/mcp" | Some s => "/mcp/" +:+ s end.

Lemma slug_no_slash s : groups.valid_slug s = true → lacks config.slash s = true.
Proof.
  destruct s as [|ch s]; [done|]. unfold groups.valid_slug, lacks.
  destruct (64 <? _)%nat; [done|]. intros [_ Ha]%andb_true_iff. revert Ha.
  generalize (String ch s). clear. induction s as [|d s IH]; [done|]. cbn [str_all].
  intros [Hd Hs]%andb_true_iff. rewrite IH, andb_true_r by done.
  revert Hd. by destruct d as [[] [] [] [] [] [] [] []].
Qed.
Lemma candidate_slug path cand s :
  proxy.endpoint_candidate path = Some cand → slug_of cand = Some s → groups.valid_slug s = true.
Proof.
  unfold proxy.endpoint_candidate. destruct (is_empty _); [by intros [= <-]|].
  destruct (groups.valid_slug _) eqn:Hv; [|done]. by intros [= <-] [= <-].
Qed.
Lemma document_served c k cand :
  (∀ s, slug_of cand = Some s → groups.valid_slug s = true) →
  well_known c k (metadata_path cand) =
    Some (resource_document c (proxy.expected_audience c cand)).
Proof.
  intros Hv. destruct cand as [|s]; [done|]. specialize (Hv s eq_refl).
  unfold well_known, metadata_path, RESOURCE. cbn [slug_of].
  pose proof (groups.valid_slug_nonempty s Hv) as Hne.
  destruct (eqs _ "/.well-known/oauth-authorization-server") eqn:E1; [by apply eqs_true in E1|].
  destruct (eqs _ "/.well-known/oauth-protected-resource" || _) eqn:E2.
  { apply orb_true_iff in E2 as [E2%eqs_true|E2%eqs_true]; [done|].
    apply append_inj_l in E2. by destruct s. }
  destruct (eqs _ "/.well-known/jwks.json") eqn:E3; [by apply eqs_true in E3|].
  change ("/.well-known/oauth-protected-resource" +:+ "/mcp/" +:+ s) with
    (("/.well-known/oauth-protected-resource" +:+ "/mcp/") +:+ s).
  rewrite strip_prefix_app, slug_no_slash by done. unfold protected_resource_group. rewrite Hv.
  by destruct s.
Qed.
Lemma audience_classified c cand :
  (∀ s, slug_of cand = Some s → groups.valid_slug s = true) →
  authorize.resource_group_slug c (proxy.expected_audience c cand) = Some (slug_of cand).
Proof.
  intros Hv. apply authorize.resource_group_slug_spec. split; [done|]. exists 0%nat.
  rewrite append_nil_r. apply proxy.expected_audience_resource.
Qed.

(** A well-formed request for a token bound to an endpoint is put to the user, if the
    endpoint is one of the user's. *)
Lemma authorize_consents `{UrlCrate} c cand user q raw d client :
  (∀ s, slug_of cand = Some s → groups.valid_slug s = true) →
  store.get_client q.(authorize.client_id) d = Some client →
  q.(authorize.redirect_uri) ∈ client.(store.redirect_uris) →
  q.(authorize.response_type) = "code" →
  default "S256" q.(authorize.code_challenge_method) = "S256" →
  q.(authorize.code_challenge) ≠ "" →
  default (config.mcp_url c) q.(authorize.resource) = proxy.expected_audience c cand →
  (∀ s, slug_of cand = Some s → is_Some (groups.find_by_slug user.(users.id) s d)) →
  ∃ name, authorize.authorize c (Some user) q raw d =
    authorize.Consent name user.(users.handle)
      {| authorize.p_client_id := q.(authorize.client_id);
         authorize.p_redirect_uri := q.(authorize.redirect_uri);
         authorize.p_scope := default "mcp" q.(authorize.scope);
         authorize.p_state := q.(authorize.state);
         authorize.p_code_challenge := q.(authorize.code_challenge);
         authorize.p_resource := q.(authorize.resource);
         authorize.p_user_id := user.(users.id) |}.
Proof.
  intros Hv Hcl Hru Hrt Hm Hch Hres Hg. unfold authorize.authorize. rewrite Hcl, Hrt, Hm.
  assert (existsb (String.eqb q.(authorize.redirect_uri)) client.(store.redirect_uris) = true) as ->.
  { apply existsb_exists. eexists. split; [by apply list_elem_of_In|]. apply String.eqb_refl. }
  destruct (is_empty q.(authorize.code_challenge)) eqn:Ee; [by destruct q.(authorize.code_challenge)|].
  assert (match q.(authorize.resource) with None => Some None
          | Some res => authorize.resource_group_slug c res end = Some (slug_of cand)) as ->.
  { destruct q.(authorize.resource) as [res|]; cbn in Hres.
    - rewrite Hres. by apply audience_classified.
    - destruct cand as [|s]; [done|]. symmetry in Hres. apply authorize.group_url_not_base in Hres; [done|].
      by apply groups.valid_slug_nonempty, Hv. }
  cbn [negb eqs].
  assert (match slug_of cand with None => true | Some slug =>
    bool_decide (is_Some (groups.find_by_slug user.(users.id) slug d)) end = true) as ->.
  { destruct (slug_of cand) as [s|] eqn:Es; [|done]. by apply bool_decide_eq_true, Hg. }
  rewrite !eqs_refl. by eexists.
Qed.

(** C31: discovery leads back to where it began.  The challenge of a refused request, for
    any MCP endpoint, names a document the hub serves; its resource is the audience that
    very endpoint checks, and no other endpoint's; it names the hub as its authorization
    server, whose document points at the hub's own endpoints and PKCE method; and the
    authorization endpoint takes that resource: a user who owns the group, or any user at
    the base endpoint, is asked for consent to a token bound to it. *)
Theorem discovery_closes `{UrlCrate} c k path cand reason :
  proxy.endpoint_candidate path = Some cand →
  ∃ res doc server,
    proxy.unauthorized c reason cand = proxy.Unauthorized reason
      ("Bearer resource_metadata=" +:+ dquote +:+ c.(config.base_url) +:+ metadata_path cand +:+
       dquote) ∧
    well_known c k (metadata_path cand) = Some doc ∧
    field doc "resource" = Some (Str res) ∧
    field doc "authorization_servers" = Some (Array [Str c.(config.base_url)]) ∧
    well_known c k "/.well-known/oauth-authorization-server" = Some server ∧
    field server "issuer" = Some (Str c.(config.base_url)) ∧
    field server "authorization_endpoint" = Some (Str (c.(config.base_url) +:+ "/authorize")) ∧
    field server "code_challenge_methods_supported" = Some (Array [Str "S256"]) ∧
    (∀ path' cand', proxy.endpoint_candidate path' = Some cand' →
       proxy.expected_audience c cand' = res ↔ cand' = cand) ∧
    ∀ user (q : authorize.AuthorizeQuery) raw d client,
      store.get_client q.(authorize.client_id) d = Some client →
      q.(authorize.redirect_uri) ∈ client.(store.redirect_uris) →
      q.(authorize.response_type) = "code" → q.(authorize.code_challenge_method) = Some "S256" →
      q.(authorize.code_challenge) ≠ "" → q.(authorize.resource) = Some res →
      (∀ s, slug_of cand = Some s → is_Some (groups.find_by_slug user.(users.id) s d)) →
      ∃ name pending, authorize.authorize c (Some user) q raw d =
        authorize.Consent name user.(users.handle) pending ∧
        default (config.mcp_url c) pending.(authorize.p_resource) =
          proxy.expected_audience c cand ∧
        pending.(authorize.p_user_id) = user.(users.id).
Proof.
  intros Hc. pose proof (λ s, candidate_slug path cand s Hc) as Hv.
  exists (proxy.expected_audience c cand), (resource_document c (proxy.expected_audience c cand)),
    (authorization_server c).
  split_and!; [|by apply document_served|done..| |].
  - unfold proxy.unauthorized, metadata_path, RESOURCE. rewrite !append_assoc. by destruct cand.
  - intros path' cand' Hc'. split; [|by intros ->]. intros Heq.
    pose proof (audience_classified c cand' (λ s, candidate_slug _ _ s Hc')) as H1.
    rewrite Heq, (audience_classified c cand Hv) in H1. injection H1 as H1.
    destruct cand, cand'; cbn in H1; congruence.
  - intros user q raw d client Hcl Hru Hrt Hm Hch Hres Hg.
    destruct (authorize_consents c cand user q raw d client) as (name & ->);
      [done..|by rewrite Hm|done|by rewrite Hres|done|].
    eexists _, _. split; [reflexivity|]. cbn. by rewrite Hres.
Qed.

(** *** A group endpoint *)
Lemma discovery_closes_witness :
  ∃ res doc server, proxy.unauthorized oauth_witness.cfg0 "no_bearer" (proxy.GroupSlug "dev") =
    proxy.Unauthorized "no_bearer" ("Bearer resource_metadata=" +:+ dquote +:+
      oauth_witness.cfg0.(config.base_url) +:+ "/.well-known/oauth-protected-resource/mcp/dev" +:+
      dquote) ∧
    field doc "resource" = Some (Str res) ∧ res = oauth_witness.cfg0.(config.base_url) +:+ "/mcp/dev" ∧
    field server "issuer" = Some (Str oauth_witness.cfg0.(config.base_url)).
Proof.
  destruct (discovery_closes (H:=url0) oauth_witness.cfg0 Null "/dev" (proxy.GroupSlug "dev")
    "no_bearer" eq_refl) as (res & doc & server & Hch & _ & Hr & _ & _ & Hi & _ & _ & Ha & _).
  exists res, doc, server. split_and!; [exact Hch|exact Hr| |exact Hi].
  symmetry. exact (proj2 (Ha "/dev" (proxy.GroupSlug "dev") eq_refl) eq_refl).
Defined.
End metadata.

(** ** The consent page *)
Module consent.
Import html scanner.

(** Not [html.esc]: quotes are left. *)
Definition esc (s : string) : string :=
  replace GT "&gt;" (replace LT "&lt;" (replace AMP "&amp;" s)).
Definition consent_html (client_name scope handle csrf : string) : string :=
  html ("<!doctype html>" +:+ LFs +:+
    "<html lang='en'><head><meta charset='utf-8'>" +:+ LFs +:+
    "<meta name='viewport' content='width=device-width, initial-scale=1'>" +:+ LFs +:+
    "<title>Authorize · MCP Hub</title><link rel='stylesheet' href='/static/style.css'></head>" +:+
    LFs +:+ "<body><main class='card'>" +:+ LFs +:+ "  <h1>Authorize access</h1>" +:+ LFs +:+
    "  <p><strong>") +:+ esc client_name +:+
  "</strong> wants to connect to your MCP Hub as <strong>" +:+ esc handle +:+
  html ("</strong>.</p>" +:+ LFs +:+ "  <p class='muted'>Requested scope: <code>") +:+ esc scope +:+
  html ("</code></p>" +:+ LFs +:+ "  <form method='post' action='/authorize/decision'>" +:+ LFs +:+
    "    ") +:+ csrf +:+
  html (LFs +:+
    "    <button name='decision' value='approve' type='submit'>Authorize</button>" +:+ LFs +:+
    "    <button name='decision' value='deny' type='submit' class='ghost' style='width:100%;margin-top:10px'>Deny</button>"
    +:+ LFs +:+ "  </form>" +:+ LFs +:+ "</main></body></html>").

(** ** Facts *)
Lemma lacks_app d s t : lacks d (s +:+ t) = lacks d s && lacks d t.
Proof.
  unfold lacks. induction s as [|c s IH]; [done|]. rewrite append_cons. cbn [str_all].
  by rewrite IH, andb_assoc.
Qed.
Lemma lacks_replaced c b s : lacks c b = true → lacks c (replace c b s) = true.
Proof.
  intros Hb. induction s as [|d s IH]; [done|]. cbn [replace]. rewrite lacks_app, IH, andb_true_r.
  destruct (Ascii.eqb d c) eqn:E; [done|]. unfold lacks. cbn. by rewrite Ascii.eqb_sym, E.
Qed.
Lemma lacks_replace_other c d b s :
  lacks d b = true → lacks d s = true → lacks d (replace c b s) = true.
Proof.
  intros Hb. unfold lacks. induction s as [|e s IH]; [done|]. cbn [replace str_all].
  intros [He Hs]%andb_true_iff. fold (lacks d). rewrite lacks_app. unfold lacks.
  rewrite IH by done. destruct (Ascii.eqb e c); [by rewrite andb_true_r; fold (lacks d b)|].
  cbn. by rewrite He.
Qed.
(** A text without angle brackets is text. *)
Lemma text_flow s st :
  lacks LT s = true → lacks GT s = true → flow s (Text, st) (Text, st).
Proof.
  unfold flow, lacks. induction s as [|c s IH]; [done|]. cbn [str_all scan step].
  rewrite !(Ascii.eqb_sym _ c). intros [Hl%negb_true_iff Hs]%andb_true_iff.
  intros [Hg%negb_true_iff Ht]%andb_true_iff. rewrite Hl, Hg. by apply IH.
Qed.
Lemma fragment_text s : fragment (esc s).
Proof.
  intros st. apply text_flow.
  - by apply lacks_replace_other, lacks_replaced.
  - by apply lacks_replaced.
Qed.
Lemma consent_balanced name scope handle csrf :
  fragment csrf → balanced (consent_html name scope handle csrf) = true.
Proof.
  intros Hc. unfold balanced.
  assert (flow (consent_html name scope handle csrf) (Text, []) (Text, [])) as ->; [|done].
  unfold consent_html. pose proof fragment_text. follow.
Qed.
End consent.
