(* ===== verification/Flow.v ===== *)
(** * Signing a client in, end to end (oauth/*.rs, proxy/mod.rs)

    The authorization endpoints and the bearer check, each in the state the program is in
    when it is reached: whatever happened in between, if what the flow needs is still
    there, the next step succeeds. *)

From S2P Require Import Prelude Strs Schema External Fixtures Users Oauth OauthStore Groups.
From S2P Require Import Sessions Config AuditLog Tokens OauthServer McpAuth Discovery.
Open Scope string_scope.
Open Scope hub_scope.

Module flow.
Import metadata.

(** ** Each step succeeds *)
Section steps.
Context `{UrlCrate} `{Digest} `{Jwt keys.AccessClaims}.
Context (c : config.Config) (signer : keys.Signer).

(** The row a refresh token of [issue_tokens] is kept as. *)
Definition refresh_row (info : users.RequestInfo) (cid uid sc : string) (res : option string)
    (family : string) (now : Z) : refresh_token.t := {|
  refresh_token.client_id := cid; refresh_token.user_id := uid; refresh_token.scope := sc;
  refresh_token.resource := res; refresh_token.family_id := family;
  refresh_token.consumed := false; refresh_token.created_at := now;
  refresh_token.expires_at := i64_wrap (now + token.REFRESH_TTL_SECS);
  refresh_token.last_ip := info.(users.ip);
  refresh_token.last_user_agent := info.(users.user_agent) |}.

Lemma approve_run user jar info p csrf code now l m :
  session.check_csrf jar c.(config.master_key) csrf = true →
  p.(authorize.p_user_id) = user.(users.id) →
  is_Some (url_parse p.(authorize.p_redirect_uri)) →
  (size (store.retain_live now m) < store.AUTH_CODE_CAP)%nat →
  authorize.decision c user jar info (authorize.authreq p) "approve" csrf code now (l, m) =
    (Ok (true, authorize.redirect p.(authorize.p_redirect_uri)
           (("code", code) :: (if is_empty (default "" p.(authorize.p_state)) then []
                               else [("state", default "" p.(authorize.p_state))]))),
     ((l.1, (l.2 ++ [audit.ok (authorize.consent_to user info p.(authorize.p_client_id))])%list),
      <[code := {| store.auth := {|
          store.ac_client_id := p.(authorize.p_client_id);
          store.ac_user_id := user.(users.id);
          store.redirect_uri := p.(authorize.p_redirect_uri);
          store.code_challenge := p.(authorize.p_code_challenge);
          store.ac_scope := p.(authorize.p_scope);
          store.ac_resource := p.(authorize.p_resource) |};
        store.expires_at := i64_wrap (now + authorize.AUTH_CODE_TTL_SECS) |}]>
        (store.retain_live now m))).
Proof.
  intros Hcsrf Hu [u Hurl] Hroom. unfold authorize.decision.
  rewrite Hcsrf, Hu, eqs_refl. cbn [negb]. change (eqs "approve" "approve") with true.
  cbn [negb]. unfold catch, on_snd, store.insert_code. cbn [fst snd].
  rewrite (proj2 (Nat.leb_gt _ _)) by done. unfold authorize.redirect_with. by rewrite Hurl.
Qed.

Lemma issue_tokens_run info user cid aud sc res family fresh now l access ttl :
  keys.issue_access_token signer user.(users.id) cid aud sc user.(users.is_admin)
    token.ACCESS_TTL_SECS fresh.(token.new_jti) now = Ok (access, ttl) →
  l.1.(oauth_refresh_tokens) !! oauth.token_hash fresh.(token.new_refresh) = None →
  known l.1.(users) user.(users.id) → known l.1.(oauth_clients) cid →
  token.issue_tokens signer info user cid aud sc res family fresh now l =
    (Ok {| token.access_token := access; token.token_type := "Bearer"; token.expires_in := ttl;
           token.new_refresh_token := fresh.(token.new_refresh); token.scope := sc |},
     (set_oauth_refresh_tokens (insert (oauth.token_hash fresh.(token.new_refresh))
        (refresh_row info cid user.(users.id) sc res family now)) l.1,
      (l.2 ++ [token.token_entry info user cid])%list)).
Proof.
  intros Hi Hf Hu Hc. unfold token.issue_tokens. rewrite Hi.
  unfold bind, lift, on_fst, map_err, store.insert_refresh.
  rewrite store.retry_busy_plain; unfold store.insert_refresh_once.
  - rewrite decide_False by (unfold known; rewrite Hf; by apply is_Some_None).
    by rewrite decide_True.
  - intros e s'. rewrite decide_False by (unfold known; rewrite Hf; by apply is_Some_None).
    by rewrite decide_True.
Qed.

(** The client's data in a form of the code grant, and the code's own. *)
Record exchange_of (form : token.TokenForm) (code verifier : string) (a : store.AuthCode) : Prop := {
  x_code : form.(token.code) = Some code;
  x_client : form.(token.client_id) = Some a.(store.ac_client_id);
  x_redirect : form.(token.redirect_uri) = Some a.(store.redirect_uri);
  x_verifier : form.(token.code_verifier) = Some verifier;
  x_pkce : b64url_encode (sha256 verifier) = a.(store.code_challenge);
}.

Lemma authenticated_run cid secret d :
  token.authenticated d cid secret →
  ∃ cl, token.authenticate_client cid secret d = (Ok cl, d).
Proof.
  intros (cl & d' & Ha)%token.authenticate_client_Ok. exists cl. rewrite Ha.
  by apply token.authenticate_client_inv in Ha as [_ ->].
Qed.
Lemma authenticated_known cid secret d :
  token.authenticated d cid secret → known d.(oauth_clients) cid.
Proof.
  intros (cl & Hc & _). unfold known. unfold store.get_client in Hc.
  by destruct (d.(oauth_clients) !! cid).
Qed.

Lemma exchange_run info form code verifier pc fresh now l m row access ttl :
  let a := pc.(store.auth) in
  let audience := default (config.mcp_url c) a.(store.ac_resource) in
  exchange_of form code verifier a →
  token.authenticated l.1 a.(store.ac_client_id) form.(token.client_secret) →
  m !! code = Some pc → (now ≤ pc.(store.expires_at))%Z →
  l.1.(users) !! a.(store.ac_user_id) = Some row →
  l.1.(oauth_refresh_tokens) !! oauth.token_hash fresh.(token.new_refresh) = None →
  keys.issue_access_token signer a.(store.ac_user_id) a.(store.ac_client_id) audience
    a.(store.ac_scope) row.(user.is_admin) token.ACCESS_TTL_SECS fresh.(token.new_jti) now =
    Ok (access, ttl) →
  token.authorization_code c signer info form fresh now (l, m) =
    (Ok {| token.access_token := access; token.token_type := "Bearer"; token.expires_in := ttl;
           token.new_refresh_token := fresh.(token.new_refresh);
           token.scope := a.(store.ac_scope) |},
     ((set_oauth_refresh_tokens (insert (oauth.token_hash fresh.(token.new_refresh))
         (refresh_row info a.(store.ac_client_id) a.(store.ac_user_id) a.(store.ac_scope)
            a.(store.ac_resource) fresh.(token.new_family) now)) l.1,
       (l.2 ++ [token.token_entry info (users.of_row a.(store.ac_user_id) row)
                  a.(store.ac_client_id)])%list), delete code m)).
Proof.
  intros a audience [Hc Hcid Hr Hv Hp] Ha Hm Hnow Hu Hfresh Hi.
  pose proof (authenticated_known _ _ _ Ha) as Hk.
  apply authenticated_run in Ha as [cl Ha]. destruct l as [d g]. unfold token.authorization_code.
  rewrite Hc, Hcid, Hv. unfold bind at 1 2 3, ok_or at 1 2 3, ret at 1 2 3.
  unfold bind at 1, on_fst at 1 2. cbn [fst snd] in *. fold a in Ha. rewrite Ha. cbn [fst snd].
  unfold bind, on_snd, map_err. cbn [fst snd]. rewrite token.store_take_code_run, Hm. cbn [mbind option_bind].
  rewrite (proj2 (Z.leb_le _ _)) by done. unfold token.exchange_code. fold a.
  rewrite Hr. unfold bind, ok_or, refuse_if, ret. cbn [fst snd]. rewrite !eqs_refl. cbn [negb].
  unfold oauth.verify_pkce_s256, oauth.b64url. rewrite Hp, oauth.ct_eq_refl. cbn [negb].
  unfold users.find_by_id, gets, on_fst. cbn [fst snd]. rewrite Hu. cbn [fmap option_fmap option_map].
  rewrite (issue_tokens_run _ _ _ _ _ _ _ _ _ _ access ttl); [done..|by eexists|done].
Qed.

(** The same for a refresh. *)
Lemma refresh_run info form tok fresh now l r row access ttl :
  let cid := r.(refresh_token.client_id) in
  let audience := default (config.mcp_url c) r.(refresh_token.resource) in
  form.(token.refresh_token) = Some tok → form.(token.client_id) = Some cid →
  token.authenticated l.1 cid form.(token.client_secret) →
  l.1.(oauth_refresh_tokens) !! oauth.token_hash tok = Some r →
  r.(refresh_token.consumed) = false → (now ≤ r.(refresh_token.expires_at))%Z →
  l.1.(users) !! r.(refresh_token.user_id) = Some row →
  l.1.(oauth_refresh_tokens) !! oauth.token_hash fresh.(token.new_refresh) = None →
  keys.issue_access_token signer r.(refresh_token.user_id) cid audience r.(refresh_token.scope)
    row.(user.is_admin) token.ACCESS_TTL_SECS fresh.(token.new_jti) now = Ok (access, ttl) →
  token.refresh c signer info form fresh now l =
    (Ok {| token.access_token := access; token.token_type := "Bearer"; token.expires_in := ttl;
           token.new_refresh_token := fresh.(token.new_refresh);
           token.scope := r.(refresh_token.scope) |},
     (set_oauth_refresh_tokens (insert (oauth.token_hash fresh.(token.new_refresh))
        (refresh_row info cid r.(refresh_token.user_id) r.(refresh_token.scope)
           r.(refresh_token.resource) r.(refresh_token.family_id) now) ∘
        alter store.with_consumed (oauth.token_hash tok)) l.1,
      (l.2 ++ [token.token_entry info (users.of_row r.(refresh_token.user_id) row) cid])%list)).
Proof.
  intros cid audience Ht Hcid Ha Hr Hcons Hnow Hu Hfresh Hi.
  pose proof (authenticated_known _ _ _ Ha) as Hk.
  apply authenticated_run in Ha as [cl Ha]. destruct l as [d g]. unfold token.refresh.
  rewrite Ht, Hcid. cbn [fst snd] in *. unfold bind at 1 2, ok_or at 1 2, ret at 1 2.
  unfold bind at 1, on_fst at 1. cbn [fst snd]. rewrite Ha. cbn [fst snd].
  unfold bind at 1, on_fst at 1, map_err. cbn [fst snd]. rewrite store.consume_refresh_run.
  unfold store.consume_refresh_once. rewrite Hr, (proj2 (Z.ltb_ge _ _)), Hcons by done.
  cbn [fst snd token.accept_outcome]. unfold token.rotate, bind, refuse_if, ret, ok_or.
  cbn [fst snd store.token_of store.rt_client_id store.rt_user_id store.scope store.resource
       store.family_id]. fold cid. rewrite eqs_refl. cbn [negb].
  unfold users.find_by_id, gets, on_fst at 1.
  cbn [fst snd]. change (users (set_oauth_refresh_tokens _ _)) with (users d). rewrite Hu.
  cbn [fmap option_fmap option_map ret].
  rewrite (issue_tokens_run _ _ _ _ _ _ _ _ _ _ access ttl); [done|done| |by eexists|done].
  cbn. rewrite lookup_alter_ne; [done|]. intros Heq. rewrite Heq in Hr. congruence.
Qed.

(** An access token opens the endpoint it was issued for. *)
Definition active (uid : string) (cand : proxy.EndpointCandidate) (d : Db) : Prop :=
  (∃ row, d.(users) !! uid = Some row ∧ row.(user.disabled) = false) ∧
  ∀ s, slug_of cand = Some s → is_Some (groups.find_by_slug uid s d).
Definition opens (tok uid cid path : string) (until : Z) : Prop :=
  ∀ cand info now l, proxy.endpoint_candidate path = Some cand → active uid cand l.1 →
    (now ≤ until)%Z →
    ∃ e u, proxy.require_bearer c signer path (Some ("Bearer " +:+ tok)) info now l =
        (Ok (proxy.Forward e u), l) ∧
      proxy.names e cand uid l.1 ∧ u.(proxy.user_id) = uid ∧
      u.(proxy.client_id) = Some cid ∧ u.(proxy.pat_id) = None.

Lemma verify_issued_claims `{!keys.JwtLaws} uid cid aud sc adm ttl jti now tok t now' :
  keys.issue_access_token signer uid cid aud sc adm ttl jti now = Ok (tok, t) →
  in_i64 (now + ttl) → (now' ≤ now + ttl + 60)%Z →
  ∃ claims, keys.verify_access_token signer tok aud now' = Ok claims ∧
    claims.(keys.sub) = uid ∧ claims.(keys.client_id) = cid.
Proof.
  unfold keys.issue_access_token. destruct (jwt_encode _ _) as [t'|] eqn:E; [|done].
  intros [= <- _] Hr Hn. unfold keys.verify_access_token.
  rewrite (keys.jwt_kid_encode _ _ _ E). unfold eqo. rewrite bool_decide_true by done. cbn [negb].
  rewrite (keys.jwt_decode_encode _ _ _ _ _ _ E). cbn. rewrite !eqs_refl, i64_wrap_id by done.
  rewrite (proj2 (Z.leb_le _ _)) by lia. cbn. by eexists.
Qed.
Lemma issued_opens `{!keys.JwtLaws} path cand uid cid sc adm ttl jti now tok t :
  proxy.endpoint_candidate path = Some cand →
  keys.issue_access_token signer uid cid (proxy.expected_audience c cand) sc adm ttl jti now =
    Ok (tok, t) →
  tokens.looks_like_pat tok = false → in_i64 (now + ttl) →
  opens tok uid cid path (now + ttl + 60).
Proof.
  intros Hc Hi Hj Hr cand' info now' l Hc' [(row & Hrow & Hdis) Hg] Hnow.
  rewrite Hc in Hc'. injection Hc' as <-. unfold proxy.require_bearer. rewrite Hc.
  unfold proxy.bearer. cbn [mbind option_bind]. rewrite strip_prefix_app, Hj.
  destruct (verify_issued_claims _ _ _ _ _ _ _ _ _ _ _ Hi Hr Hnow) as (cl & -> & -> & ->).
  unfold proxy.authorize, bind, on_fst, users.find_by_id, gets, ret. cbn [fst snd].
  rewrite Hrow. destruct l as [d g]. cbn [fmap option_fmap option_map fst snd] in *.
  change (users.disabled (users.of_row uid row)) with (user.disabled row). rewrite Hdis.
  change (users.id (users.of_row uid row)) with uid. destruct cand as [|s].
  - by eexists _, _.
  - destruct (Hg s eq_refl) as [gr Hgr]. cbn [fst snd]. rewrite Hgr. eexists _, _. split; [done|].
    split_and!; try done. cbn. split; [done|]. eauto.
Qed.
End steps.

(** ** The whole flow *)
(** What the crate documents of signing: it does not fail with a loaded key, and gives a
    JWS in compact form, whose first bytes are those of an encoded JSON object. *)
Class JwtSigns `{Jwt keys.AccessClaims} (kid : string) : Prop := {
  jwt_signs cl : is_Some (jwt_encode kid cl);
  jwt_compact cl t : jwt_encode kid cl = Some t → starts_with "eyJ" t = true;
}.
(** A time well inside an i64. *)
Definition clock (t : Z) : Prop := (0 ≤ t < 2 ^ 62)%Z.

Section flow.
Context `{UrlCrate} `{Digest} `{Jwt keys.AccessClaims} `{!keys.JwtLaws}.
Context (c : config.Config) (signer : keys.Signer) `{!JwtSigns signer.(keys.kid)}.

Lemma clock_plus t ttl : clock t → (0 ≤ ttl < 2 ^ 62)%Z → in_i64 (t + ttl).
Proof. unfold clock, in_i64, i64_min, i64_max. lia. Qed.
Lemma issue_signs uid cid aud sc adm ttl jti now :
  ∃ tok, keys.issue_access_token signer uid cid aud sc adm ttl jti now = Ok (tok, ttl) ∧
    tokens.looks_like_pat tok = false.
Proof.
  unfold keys.issue_access_token.
  match goal with |- context [jwt_encode _ ?cl] => destruct (jwt_signs cl) as [t Ht]; rewrite Ht end.
  exists t. split; [done|]. apply jwt_compact in Ht. unfold starts_with in Ht.
  destruct (strip_prefix "eyJ" t) eqn:E; [|done]. apply strip_prefix_Some in E as ->. done.
Qed.

(** The grant a token answer stands for: whose, for which client, scope and resource. *)
Record Grant := { g_user : string; g_client : string; g_scope : string; g_resource : option string }.
(** Its refresh token, issued at [t], is still stored and unused. *)
Definition kept (g : Grant) (resp : token.TokenResponse) (t : Z) (d : Db) : Prop :=
  ∃ r, d.(oauth_refresh_tokens) !! oauth.token_hash resp.(token.new_refresh_token) = Some r ∧
    r.(refresh_token.client_id) = g.(g_client) ∧ r.(refresh_token.user_id) = g.(g_user) ∧
    r.(refresh_token.scope) = g.(g_scope) ∧ r.(refresh_token.resource) = g.(g_resource) ∧
    r.(refresh_token.consumed) = false ∧
    r.(refresh_token.expires_at) = i64_wrap (t + token.REFRESH_TTL_SECS).
(** The draws of a request are new to the database. *)
Definition unused (fresh : token.Fresh) (d : Db) : Prop :=
  d.(oauth_refresh_tokens) !! oauth.token_hash fresh.(token.new_refresh) = None.
(** The answer's access token opens the endpoint for a quarter of an hour, and the
    refresh token gives another such answer within thirty days, [n] times over. *)
Fixpoint serves (n : nat) (g : Grant) (path : string) (resp : token.TokenResponse) (t : Z) : Prop :=
  opens c signer resp.(token.access_token) g.(g_user) g.(g_client) path
    (t + token.ACCESS_TTL_SECS + 60) ∧
  match n with
  | O => True
  | S n => ∀ form info fresh now l m,
      form.(token.grant_type) = "refresh_token" →
      form.(token.refresh_token) = Some resp.(token.new_refresh_token) →
      form.(token.client_id) = Some g.(g_client) →
      token.authenticated l.1 g.(g_client) form.(token.client_secret) →
      is_Some (l.1.(users) !! g.(g_user)) →
      kept g resp t l.1 → unused fresh l.1 → clock now → (now ≤ t + token.REFRESH_TTL_SECS)%Z →
      ∃ resp' l', token.token c signer info form fresh now (l, m) = (Ok resp', (l', m)) ∧
        kept g resp' now l'.1 ∧ serves n g path resp' now
  end.

Lemma kept_serves n g path cand resp t :
  proxy.endpoint_candidate path = Some cand → clock t →
  default (config.mcp_url c) g.(g_resource) = proxy.expected_audience c cand →
  (∃ adm jti, keys.issue_access_token signer g.(g_user) g.(g_client)
     (default (config.mcp_url c) g.(g_resource)) g.(g_scope) adm token.ACCESS_TTL_SECS jti t =
     Ok (resp.(token.access_token), token.ACCESS_TTL_SECS)) →
  tokens.looks_like_pat resp.(token.access_token) = false →
  serves n g path resp t.
Proof.
  intros Hc. revert resp t. induction n as [|n IH]; intros resp t Ht Haud (adm & jti & Hi) Hp;
    (split; [rewrite Haud in Hi; apply (issued_opens _ _ _ _ _ _ _ _ _ _ _ _ _ Hc Hi Hp);
             apply clock_plus; [done|unfold token.ACCESS_TTL_SECS; lia]|]); [done|].
  intros form info fresh now l m Hg Hrt Hcid Ha [row Hrow] (r & Hr & Hrc & Hru & Hrs & Hrr & Hcons & Hexp)
    Hun Hnow Hle.
  destruct (issue_signs g.(g_user) g.(g_client) (default (config.mcp_url c) g.(g_resource))
    g.(g_scope) row.(user.is_admin) token.ACCESS_TTL_SECS fresh.(token.new_jti) now)
    as (access & Hiss & Hpat).
  eexists _, _. split; [|split].
  - unfold token.token. rewrite Hg. change (eqs "refresh_token" "authorization_code") with false.
    change (eqs "refresh_token" "refresh_token") with true. cbv iota.
    unfold on_fst. cbn [fst snd].
    rewrite (refresh_run c signer info form _ fresh now l r row access token.ACCESS_TTL_SECS Hrt);
      [cbn [fst snd]; reflexivity|by rewrite Hrc..|done|done| |by rewrite Hru|done|].
    + rewrite Hexp, i64_wrap_id by (apply clock_plus; [done|unfold token.REFRESH_TTL_SECS; lia]). done.
    + by rewrite Hru, Hrc, Hrs, Hrr.
  - cbn [fst token.new_refresh_token]. eexists. split; [apply lookup_insert_eq|]. cbn.
    by rewrite Hrc, Hru, Hrs, Hrr.
  - apply IH; cbn [token.access_token]; [done..|by eexists _, _|done].
Qed.

(** A request the endpoint cannot fault: [user]'s client wants a token for [cand]. *)
Record proper (q : authorize.AuthorizeQuery) (user : users.User) (cand : proxy.EndpointCandidate)
    (verifier : string) (d : Db) : Prop := {
  pr_client : ∃ client, store.get_client q.(authorize.client_id) d = Some client ∧
    q.(authorize.redirect_uri) ∈ client.(store.redirect_uris);
  pr_uri : is_Some (url_parse q.(authorize.redirect_uri));
  pr_type : q.(authorize.response_type) = "code";
  pr_method : default "S256" q.(authorize.code_challenge_method) = "S256";
  pr_challenge : q.(authorize.code_challenge) = b64url_encode (sha256 verifier);
  pr_nonempty : q.(authorize.code_challenge) ≠ "";
  pr_resource : default (config.mcp_url c) q.(authorize.resource) = proxy.expected_audience c cand;
  pr_group s : slug_of cand = Some s → is_Some (groups.find_by_slug user.(users.id) s d);
}.
(** The client's form for the code it was sent. *)
Record code_form (form : token.TokenForm) (q : authorize.AuthorizeQuery) (code verifier : string)
    : Prop := {
  cf_grant : form.(token.grant_type) = "authorization_code";
  cf_code : form.(token.code) = Some code;
  cf_client : form.(token.client_id) = Some q.(authorize.client_id);
  cf_redirect : form.(token.redirect_uri) = Some q.(authorize.redirect_uri);
  cf_verifier : form.(token.code_verifier) = Some verifier;
}.

(** C8: An MCP client gets in.  A proper request of a signed-in user is put to
    them; their approval, given with the session's CSRF token while the store has room,
    sends the client a code, with the state it gave; the code, presented within ten
    minutes with the verifier by the authenticated client, buys tokens, in whatever state
    the program is by then, as long as the code has not been used and the account is still
    there; the access token opens the endpoint it was asked for, for a quarter of an hour; and
    the refresh token, while it is kept, gives further such answers, any number of times. *)
Theorem oauth_flow_completes n path cand user q raw d0 verifier :
  proxy.endpoint_candidate path = Some cand → proper q user cand verifier d0 →
  ∃ name pending,
    authorize.authorize c (Some user) q raw d0 =
      authorize.Consent name user.(users.handle) pending ∧
    ∀ jar info csrf code t1 l1 m1,
      session.check_csrf jar c.(config.master_key) csrf = true → clock t1 →
      (size (store.retain_live t1 m1) < store.AUTH_CODE_CAP)%nat →
      ∃ params l1' m1',
        authorize.decision c user jar info (authorize.authreq pending) "approve" csrf code t1
          (l1, m1) =
          (Ok (true, authorize.redirect q.(authorize.redirect_uri) (("code", code) :: params)),
           (l1', m1')) ∧
        (∀ st, q.(authorize.state) = Some st → st ≠ "" → params = [("state", st)]) ∧
        ∀ form info' fresh t2 l2 m2,
          code_form form q code verifier →
          m2 !! code = m1' !! code → clock t2 → (t2 ≤ t1 + authorize.AUTH_CODE_TTL_SECS)%Z →
          token.authenticated l2.1 q.(authorize.client_id) form.(token.client_secret) →
          is_Some (l2.1.(users) !! user.(users.id)) → unused fresh l2.1 →
          let g := {| g_user := user.(users.id); g_client := q.(authorize.client_id);
                      g_scope := default "mcp" q.(authorize.scope);
                      g_resource := q.(authorize.resource) |} in
          ∃ resp l2', token.token c signer info' form fresh t2 (l2, m2) =
              (Ok resp, (l2', delete code m2)) ∧
            kept g resp t2 l2'.1 ∧ serves n g path resp t2.
Proof.
  intros Hc [(client & Hcl & Hin) Huri Hty Hm Hch Hne Hres Hg].
  destruct (authorize_consents c cand user q raw d0 client) as (name & Hauth);
    [eauto using candidate_slug|done..|].
  eexists name, _. split; [exact Hauth|].
  intros jar info csrf code t1 l1 m1 Hcsrf Ht1 Hroom.
  eexists _, _, _. split; [by apply approve_run|]. cbn [authorize.p_state].
  split; [intros st -> Hst; cbn; destruct st; done|].
  intros form info' fresh t2 l2 m2 [Hf1 Hf2 Hf3 Hf4 Hf5] Hcode Ht2 Hle Ha [row Hrow] Hun.
  rewrite lookup_insert_eq in Hcode.
  destruct (issue_signs user.(users.id) q.(authorize.client_id)
    (default (config.mcp_url c) q.(authorize.resource)) (default "mcp" q.(authorize.scope))
    row.(user.is_admin) token.ACCESS_TTL_SECS fresh.(token.new_jti) t2) as (access & Hiss & Hpat).
  eexists _, _. split; [|split].
  - unfold token.token. rewrite Hf1. rewrite eqs_refl. cbv iota.
    pose proof (λ pc, exchange_run c signer info' form code verifier pc fresh t2 l2 m2 row access
      token.ACCESS_TTL_SECS) as Hrun. cbv zeta in Hrun.
    eapply Hrun; [| |exact Hcode|..]; [by split|exact Ha| |exact Hrow|exact Hun|exact Hiss].
    cbn [store.expires_at]. rewrite i64_wrap_id; [done|]. apply clock_plus; [done|].
    unfold authorize.AUTH_CODE_TTL_SECS. lia.
  - eexists. split; [apply lookup_insert_eq|]. by split_and!.
  - apply (kept_serves _ _ _ cand); [done..|by eexists _, _|done].
Qed.

(** Registration gives a client the flow can start with: its redirect URIs are the ones it
    asked for, and the secret it is handed authenticates it. *)
Lemma register_completes req info id secret now l :
  (Z.of_nat (size l.1.(oauth_clients)) < register.MAX_CLIENTS)%Z →
  req.(register.redirect_uris) ≠ [] →
  (∀ uri, uri ∈ req.(register.redirect_uris) → is_Some (url_parse uri)) →
  l.1.(oauth_clients) !! ("hub_" +:+ id) = None →
  ∃ resp l', register.register req info id secret now l = (Ok resp, l') ∧
    token.authenticated l'.1 resp.(register.r_client_id) resp.(register.r_client_secret) ∧
    ∃ client, store.get_client resp.(register.r_client_id) l'.1 = Some client ∧
      client.(store.redirect_uris) = req.(register.redirect_uris).
Proof.
  intros Hsz Hne Hu Hid. destruct l as [d g]. cbn [fst] in *. unfold register.register.
  assert (∀ l, (∀ uri, uri ∈ l → is_Some (url_parse uri)) →
    for_each (λ uri, refuse_if (bool_decide (url_parse uri = None))
      (register.invalid_redirect_uri ("invalid redirect_uri: " +:+ uri))) l (d, g) =
    (Ok tt, (d, g))) as Huris.
  { clear. induction l as [|uri l IH]; intros Hl; [done|]. cbn [for_each].
    destruct (Hl uri) as [u Hu]; [by left|]. unfold bind, refuse_if.
    rewrite bool_decide_false by (by rewrite Hu). apply IH. intros. apply Hl. by right. }
  unfold bind at 1, gets. cbn [fst snd]. unfold refuse_if at 1.
  rewrite (proj2 (Z.leb_gt _ _)) by done. unfold bind at 1, ret at 1, refuse_if at 1.
  rewrite bool_decide_false by done. unfold bind at 1, ret at 1. unfold bind at 1.
  rewrite Huris by done. unfold bind, on_fst, map_err, store.create_client. cbn [fst snd].
  rewrite decide_False by (unfold known; rewrite Hid; by apply is_Some_None).
  eexists _, _. split; [reflexivity|]. cbn [fst register.r_client_id register.r_client_secret].
  assert (∀ d', d'.(oauth_clients) !! ("hub_" +:+ id) = Some {|
    client.client_secret_hash := oauth.token_hash <$>
      (if eqs (default "none" req.(register.token_endpoint_auth_method)) "none" then None
       else Some secret);
    client.redirect_uris := req.(register.redirect_uris);
    client.client_name := req.(register.client_name); client.created_at := now |} →
    token.authenticated d' ("hub_" +:+ id)
      (if eqs (default "none" req.(register.token_endpoint_auth_method)) "none" then None
       else Some secret) ∧
    ∃ client, store.get_client ("hub_" +:+ id) d' = Some client ∧
      client.(store.redirect_uris) = req.(register.redirect_uris)) as Hd.
  { intros d' Hd'. unfold token.authenticated, store.get_client. rewrite Hd'. split.
    - eexists. split; [reflexivity|]. cbn. destruct (eqs _ _); cbn; [done|].
      intros h [= <-]. by eexists.
    - by eexists. }
  apply Hd. apply lookup_insert_eq.
Qed.
End flow.
End flow.

(** ** Witnesses *)
Module flow_witness.
Import flow.

#[global] Instance claims_countable : Countable keys.AccessClaims.
Proof.
  refine (inj_countable'
    (λ cl, (cl.(keys.iss), cl.(keys.sub), cl.(keys.aud), cl.(keys.exp), cl.(keys.iat),
            cl.(keys.jti), cl.(keys.scope), cl.(keys.client_id), cl.(keys.admin)))
    (λ '(i, s, a, e, t, j, sc, c, b), {| keys.iss := i; keys.sub := s; keys.aud := a;
       keys.exp := e; keys.iat := t; keys.jti := j; keys.scope := sc; keys.client_id := c;
       keys.admin := b |}) _).
  by intros [].
Defined.
Fixpoint spell_bits (p : positive) : string :=
  match p with
  | xH => EmptyString | xO p => String (Ascii.ascii_of_nat 48) (spell_bits p) | xI p => String (Ascii.ascii_of_nat 49) (spell_bits p)
  end.
Fixpoint read_bits (s : string) : positive :=
  match s with
  | EmptyString => xH
  | String b s => if Ascii.eqb b (Ascii.ascii_of_nat 49) then xI (read_bits s) else xO (read_bits s)
  end.
Lemma read_spell p : read_bits (spell_bits p) = p.
Proof. induction p as [p IH|p IH|]; cbn; by rewrite ?IH. Qed.

(** A signer of every claim: the token spells the key's id and the claims. *)
Definition content (t : string) : option (string * keys.AccessClaims) :=
  b ← strip_prefix "eyJ" t; decode (read_bits b).
Definition total_jwt : Jwt keys.AccessClaims := {|
  jwt_encode := λ k cl, Some ("eyJ" +:+ spell_bits (encode (k, cl)));
  jwt_header_kid := λ t, Some ∘ fst <$> content t;
  jwt_decode := λ i a now t,
    p ← content t;
    if eqs p.2.(keys.iss) i && eqs p.2.(keys.aud) a && (now - 60 <=? p.2.(keys.exp))%Z
    then Some p.2 else None |}.
Lemma content_spell k cl :
  content ("eyJ" +:+ spell_bits (encode (k, cl))) = Some (k, cl).
Proof. unfold content. rewrite strip_prefix_app. cbn. by rewrite read_spell, decode_encode. Qed.
Lemma total_jwt_laws : @keys.JwtLaws total_jwt.
Proof.
  split.
  - intros k cl t [= <-]. cbn -[content spell_bits]. by rewrite content_spell.
  - intros k cl t i a now [= <-]. cbn -[content spell_bits]. by rewrite content_spell.
  - intros i a now t cl. cbn -[content]. destruct (content t) as [[k cl']|]; [|done]. cbn.
    destruct (eqs _ i) eqn:Ei; [|done]. destruct (eqs _ a) eqn:Ea; [|done]. cbn.
    destruct (_ <=? _)%Z eqn:El; [|done]. intros [= <-]. apply eqs_true in Ei, Ea.
    apply Z.leb_le in El. done.
Qed.
Lemma total_jwt_signs k : @JwtSigns total_jwt k.
Proof.
  split.
  - intros cl. by eexists.
  - by intros cl t [= <-].
Qed.

Definition query1 : authorize.AuthorizeQuery := {|
  authorize.response_type := "code"; authorize.client_id := "c";
  authorize.redirect_uri := "https://x/cb"; authorize.scope := None;
  authorize.state := Some "s"; authorize.code_challenge := "v";
  authorize.code_challenge_method := None; authorize.resource := None |}.
Definition form2 : token.TokenForm := {|
  token.grant_type := "authorization_code"; token.code := Some "new";
  token.redirect_uri := Some "https://x/cb"; token.client_id := Some "c";
  token.client_secret := None; token.code_verifier := Some "v";
  token.refresh_token := None |}.

Abbreviation decided1 := (authorize.decision (H:=url0) (H0:=digest0) oauth_witness.cfg0
  oauth_witness.u0 oauth_witness.jar0 store.info0
  (authorize.authreq {|
     authorize.p_client_id := "c"; authorize.p_redirect_uri := "https://x/cb";
     authorize.p_scope := "mcp"; authorize.p_state := Some "s"; authorize.p_code_challenge := "v";
     authorize.p_resource := None; authorize.p_user_id := "u" |})
  "approve" "hub-csrf-v1keysid" "new" 10 (store.db_client, [], ∅)).
Lemma oauth_flow_completes_witness :
  ∃ resp l', token.token (H:=digest0) (H0:=total_jwt) oauth_witness.cfg0 oauth_witness.signer0
      store.info0 form2 oauth_witness.fresh0 20 (store.db_client, [], decided1.2.2) = (Ok resp, l') ∧
    opens (H0:=digest0) (H1:=total_jwt) oauth_witness.cfg0 oauth_witness.signer0
      resp.(token.access_token) "u" "c" "/" 980.
Proof.
  destruct (oauth_flow_completes (H:=url0) (H0:=digest0) (H1:=total_jwt) (H2:=total_jwt_laws)
    oauth_witness.cfg0 oauth_witness.signer0 (JwtSigns0:=total_jwt_signs _)
    3 "/" proxy.ManagementPath oauth_witness.u0 query1 None store.db_client "v")
    as (name & pending & Ha & Hnext); [reflexivity| |].
  { split; try reflexivity; [|by eexists|done..].
    eexists. split; [reflexivity|]. cbn. by left. }
  assert (pending = {|
     authorize.p_client_id := "c"; authorize.p_redirect_uri := "https://x/cb";
     authorize.p_scope := "mcp"; authorize.p_state := Some "s"; authorize.p_code_challenge := "v";
     authorize.p_resource := None; authorize.p_user_id := "u" |}) as ->.
  { vm_compute in Ha. injection Ha as _ <-. reflexivity. }
  destruct (Hnext oauth_witness.jar0 store.info0 "hub-csrf-v1keysid" "new" 10%Z
    (store.db_client, []) ∅) as (params & l1' & m1' & Hd & _ & Hx);
    [reflexivity|split; lia|cbn; unfold store.AUTH_CODE_CAP; vm_compute; lia|].
  destruct (Hx form2 store.info0 oauth_witness.fresh0 20%Z (store.db_client, []) decided1.2.2)
    as (resp & l' & Ht & _ & Ho & _).
  - by split.
  - by rewrite Hd.
  - split; lia.
  - vm_compute. discriminate.
  - apply oauth_witness.client_authenticated.
  - by eexists.
  - reflexivity.
  - exists resp. eexists. split; [exact Ht|]. exact Ho.
Defined.
End flow_witness.
