(* ===== verification/Tenancy.v ===== *)
(** * Tenancy

    What a user's own operations may change: [foreign uid d d'] says that the rows
    of every other user are the same in [d] and [d'], and so are the accounts.  Each statement of the
    program that is handed one of the user's own rows keeps it. *)

From S2P Require Import Prelude Strs Schema External Fixtures Users Sessions Tokens Access Groups.
From S2P Require Import GitCreds Instances.
From S2P Require Import OauthStore Sandbox Backend Gitsrc.
Open Scope string_scope.
Open Scope hub_scope.

Module tenancy.

(** The rows that [P] selects are the same. *)
Definition same_rows {K A} `{Countable K} (P : K → A → Prop) (t t' : gmap K A) : Prop :=
  ∀ k r, P k r → t !! k = Some r ↔ t' !! k = Some r.

(** A key of the table that is not [uid]'s. *)
Definition others {A} (owner : A → string) (uid : string) (t : gmap string A) (k : string) : Prop :=
  ∃ r, t !! k = Some r ∧ owner r ≠ uid.

Record foreign (uid : string) (d d' : Db) : Prop := {
  f_users : d'.(users) = d.(users);
  f_credentials : same_rows (λ _ r, r.(credential.user_id) ≠ uid)
    d.(webauthn_credentials) d'.(webauthn_credentials);
  f_sessions : same_rows (λ _ r, r.(web_session.user_id) ≠ uid) d.(web_sessions) d'.(web_sessions);
  f_instances : same_rows (λ _ r, r.(instance.user_id) ≠ uid)
    d.(user_server_instances) d'.(user_server_instances);
  f_secrets : same_rows (λ k _, others instance.user_id uid d.(user_server_instances) k.1)
    d.(instance_secrets) d'.(instance_secrets);
  f_config : same_rows (λ k _, others instance.user_id uid d.(user_server_instances) k)
    d.(instance_config_files) d'.(instance_config_files);
  f_clients : d'.(oauth_clients) = d.(oauth_clients);
  f_refresh : same_rows (λ _ r, r.(refresh_token.user_id) ≠ uid)
    d.(oauth_refresh_tokens) d'.(oauth_refresh_tokens);
  f_labels : same_rows (λ k _, k.1 ≠ uid) d.(oauth_client_labels) d'.(oauth_client_labels);
  f_invites : d'.(invites) = d.(invites);
  f_pats : same_rows (λ _ r, r.(pat.user_id) ≠ uid)
    d.(personal_access_tokens) d'.(personal_access_tokens);
  f_denials : same_rows (λ _ r, r.(denial.user_id) ≠ uid)
    d.(credential_backend_denials) d'.(credential_backend_denials);
  f_groups : same_rows (λ _ r, r.(group.user_id) ≠ uid) d.(connector_groups) d'.(connector_groups);
  f_members : same_rows (λ k _, others group.user_id uid d.(connector_groups) k.1)
    d.(connector_group_members) d'.(connector_group_members);
  f_git : same_rows (λ _ r, r.(git_credential.user_id) ≠ uid)
    d.(git_credentials) d'.(git_credentials);
  f_settings : d'.(settings) = d.(settings);
}.

(** ** [foreign] is an equivalence *)
Section rows.
Context {K : Type} `{Countable K} {A : Type}.
Implicit Types (t : gmap K A) (P Q : K → A → Prop).
Lemma same_rows_refl P t : same_rows P t t.
Proof. done. Qed.
Lemma same_rows_trans P t1 t2 t3 : same_rows P t1 t2 → same_rows P t2 t3 → same_rows P t1 t3.
Proof. intros H1 H2 k r HP. rewrite (H1 k r HP). by apply H2. Qed.
Lemma same_rows_impl P Q t t' : same_rows P t t' → (∀ k r, Q k r → P k r) → same_rows Q t t'.
Proof. intros Hs Hi k r HQ. apply Hs. auto. Qed.
Lemma same_rows_filter P (Q : K * A → Prop) `{∀ x, Decision (Q x)} t :
  (∀ k r, t !! k = Some r → P k r → Q (k, r)) → same_rows P t (filter Q t).
Proof.
  intros HQ k r HP. rewrite map_lookup_filter_Some. split; [|by intros []].
  intros Hr. split; [done|]. by apply HQ.
Qed.
Lemma same_rows_insert P t i r :
  ¬ P i r → (∀ r0, t !! i = Some r0 → ¬ P i r0) → same_rows P t (<[i:=r]> t).
Proof.
  intros Hn Ho k s HP. destruct (decide (i = k)) as [<-|].
  - rewrite lookup_insert_eq. split; [intros Hs; by destruct (Ho _ Hs)|intros [= ->]; done].
  - by rewrite lookup_insert_ne.
Qed.
Lemma same_rows_alter P t i f :
  (∀ r, t !! i = Some r → ¬ P i r ∧ ¬ P i (f r)) → same_rows P t (alter f i t).
Proof.
  intros Hi. destruct (t !! i) as [r|] eqn:Hr; [|by rewrite alter_none].
  destruct (Hi r eq_refl). rewrite (alter_insert _ _ _ r) by done.
  apply same_rows_insert; [done|]. intros r0 ?. congruence.
Qed.
Lemma same_rows_delete P t i : (∀ r, t !! i = Some r → ¬ P i r) → same_rows P t (delete i t).
Proof.
  intros Hi k r HP. rewrite lookup_delete_Some. split; [|by intros []].
  intros Hr. split; [|done]. intros ->. by destruct (Hi _ Hr).
Qed.
End rows.
#[global] Hint Resolve same_rows_refl : hub.

Lemma others_same {A} (owner : A → string) uid (t t' : gmap string A) k :
  same_rows (λ _ r, owner r ≠ uid) t t' → others owner uid t k ↔ others owner uid t' k.
Proof. intros Hs. split; intros (r & Hr & Ho); exists r; split; auto; by apply (Hs k r Ho). Qed.

Lemma foreign_refl uid d : foreign uid d d.
Proof. split; auto with hub. Qed.
Lemma foreign_trans uid d1 d2 d3 : foreign uid d1 d2 → foreign uid d2 d3 → foreign uid d1 d3.
Proof.
  intros H12 H23. pose proof (f_instances _ _ _ H12) as Hi. pose proof (f_groups _ _ _ H12) as Hg.
  destruct H12, H23. split; try congruence; (eapply same_rows_trans; [eassumption|]); try done;
    (eapply same_rows_impl; [eassumption|]); intros k r Ho;
    first [by apply (others_same _ _ _ _ _ Hi)|by apply (others_same _ _ _ _ _ Hg)].
Qed.
Lemma foreign_sym uid d1 d2 : foreign uid d1 d2 → foreign uid d2 d1.
Proof.
  intros Hf. pose proof (f_instances _ _ _ Hf) as Hi. pose proof (f_groups _ _ _ Hf) as Hg.
  destruct Hf. split; try congruence; intros k r Ho; symmetry;
    match goal with H : same_rows _ ?a ?b |- ?a !! _ = _ ↔ ?b !! _ = _ => apply H; try done end;
    first [by apply (others_same _ _ _ _ _ Hi)|by apply (others_same _ _ _ _ _ Hg)].
Qed.
#[global] Hint Resolve foreign_refl : hub.

(** A statement on one table. *)
Ltac foreign_table := split; cbn; try apply same_rows_refl; try reflexivity.

(** ** The user's own rows *)
Section steps.
Context (uid : string).
Abbreviation local m := (∀ d, wf d → foreign uid d (m d).2).
(** The row at this key, if any, is [uid]'s. *)
Definition own_instance (d : Db) (iid : string) : Prop :=
  ¬ others instance.user_id uid d.(user_server_instances) iid.
Definition own_group (d : Db) (gid : string) : Prop :=
  ¬ others group.user_id uid d.(connector_groups) gid.
Definition own_git (d : Db) (k : string) : Prop :=
  ¬ others git_credential.user_id uid d.(git_credentials) k.

Lemma own_row {A} (owner : A → string) (t : gmap string A) k r :
  ¬ others owner uid t k → t !! k = Some r → owner r = uid.
Proof. intros Ho Hr. destruct (decide (owner r = uid)); [done|]. destruct Ho. by exists r. Qed.
Lemma owned {A} (owner : A → string) (t : gmap string A) k r :
  t !! k = Some r → owner r = uid → ¬ others owner uid t k.
Proof. intros Hr Ho (r' & Hr' & Hne). congruence. Qed.
Lemma absent {A} (owner : A → string) (t : gmap string A) k :
  t !! k = None → ¬ others owner uid t k.
Proof. intros Hn (r & Hr & _). congruence. Qed.

Lemma f_update f iid d :
  (∀ r, (f r).(instance.user_id) = r.(instance.user_id)) → own_instance d iid →
  foreign uid d (set_user_server_instances (alter f iid) d).
Proof.
  intros Hf Ho. foreign_table. apply same_rows_alter. intros r Hr.
  rewrite Hf, (own_row _ _ _ _ Ho Hr). auto.
Qed.
Lemma f_insert_instance iid r d :
  r.(instance.user_id) = uid → foreign uid d (instances.insert_instance iid r d).2.
Proof.
  intros Hr. unfold instances.insert_instance. destruct (decide _) as [|Hn]; [auto with hub|].
  destruct (find_kv _ _); [auto with hub|]. destruct (decide _); [|auto with hub].
  foreign_table. apply same_rows_insert; [intros Hne; by destruct Hne|].
  intros r0 Hr0. destruct Hn. by exists r0.
Qed.
Lemma f_create_instance def ns nm iid now d :
  foreign uid d (instances.create uid def ns nm iid now d).2.
Proof.
  unfold instances.create, bind, map_err, gets, ok_or, refuse_if, lift.
  destruct (instances.validate_namespace ns); [|apply foreign_refl].
  destruct (bool_decide _); [apply foreign_refl|]. cbn.
  match goal with |- context [instances.insert_instance iid ?r d] =>
    pose proof (f_insert_instance iid r d eq_refl) as Hf;
    destruct (instances.insert_instance iid r d) as [[[]|e] d1] end; cbn in *; [|done].
  by destruct (instances.get iid d1).
Qed.
Lemma own_created def ns nm iid now d i d' :
  instances.create uid def ns nm iid now d = (Ok i, d') → own_instance d' i.(instances.id).
Proof.
  unfold instances.create. intros Hr.
  do 2 apply bind_Ok in Hr as (? & ? & _ & Hr).
  apply bind_Ok in Hr as ([] & ? & Hi & Hr). apply map_err_Ok in Hi.
  apply instances.insert_instance_Ok in Hi as [-> _]. m_inv.
  rename select (_ = Some _) into Hg. unfold instances.get in Hg. cbn in Hg.
  rewrite lookup_insert_eq in Hg. cbn in Hg. simplify_eq.
  eapply owned; [cbn; apply lookup_insert_eq|done].
Qed.

(** A group or an instance of the user's goes, and what referred to it. *)
Lemma f_cascade d d1 :
  wf d → d1.(users) = d.(users) →
  same_rows (λ _ r, r.(instance.user_id) ≠ uid) d.(user_server_instances) d1.(user_server_instances) →
  same_rows (λ _ r, r.(group.user_id) ≠ uid) d.(connector_groups) d1.(connector_groups) →
  d1 = set_user_server_instances (λ _, d1.(user_server_instances))
         (set_connector_groups (λ _, d1.(connector_groups)) d) →
  foreign uid d (cascade d1).
Proof.
  intros Hwf Hu Hi Hg ->. cbn in *.
  assert (∀ iid, others instance.user_id uid d.(user_server_instances) iid →
    known (keep_rows (λ _ r, known d.(users) r.(instance.user_id)) d1.(user_server_instances)) iid)
    as Hki.
  { intros iid (r & Hr & Ho). exists r. apply keep_rows_Some. split; [by apply Hi|].
    by apply (wf_inst_user _ Hwf iid). }
  assert (∀ gid, others group.user_id uid d.(connector_groups) gid →
    known (keep_rows (λ _ r, known d.(users) r.(group.user_id)) d1.(connector_groups)) gid) as Hkg.
  { intros gid (r & Hr & Ho). exists r. apply keep_rows_Some. split; [by apply Hg|].
    by apply (wf_group_user _ Hwf gid). }
  split; cbn; auto with hub; try apply same_rows_filter.
  - intros k r Hr _. by apply (wf_cred_user _ Hwf k).
  - intros k r Hr _. by apply (wf_session_user _ Hwf k).
  - eapply same_rows_trans; [exact Hi|]. intros k r Ho. rewrite keep_rows_Some.
    split; [|by intros []]. intros Hr. split; [done|]. apply (Hi k r Ho) in Hr.
    by apply (wf_inst_user _ Hwf k).
  - intros k r _ Ho. by apply Hki.
  - intros k r _ Ho. by apply Hki.
  - intros k r Hr _. by apply (wf_refresh _ Hwf k).
  - intros k r Hr _. by apply (wf_label _ Hwf k r).
  - rewrite keep_rows_id.
    + rewrite (map_fmap_ext _ id), map_fmap_id; [done|]. intros k i Hk.
      destruct (wf_invite _ Hwf _ _ Hk) as (? & ? & _). by apply null_invite_id.
    + intros k r Hr. by destruct (wf_invite _ Hwf _ _ Hr) as (_ & _ & ?).
  - intros k r Hr _. by apply (wf_pat_user _ Hwf k).
  - intros k r Hr Ho. destruct (wf_denial _ Hwf _ _ Hr) as [? (i & Hk & Hio)].
    split; [done|]. apply Hki. exists i. split; [done|congruence].
  - eapply same_rows_trans; [exact Hg|]. intros k r Ho. rewrite keep_rows_Some.
    split; [|by intros []]. intros Hr. split; [done|]. apply (Hg k r Ho) in Hr.
    by apply (wf_group_user _ Hwf k).
  - intros k z Hz Ho. split; [by apply Hkg|].
    destruct (wf_member _ Hwf _ _ Hz) as (g & Hk & i & Hii & Hio). apply Hki.
    destruct Ho as (g' & Hg' & Ho). exists i. split; [done|congruence].
  - intros k r Hr _. by apply (wf_git_user _ Hwf k).
Qed.
Lemma f_delete_instance iid d :
  wf d → own_instance d iid → foreign uid d (delete_instance_row iid d).
Proof.
  intros Hwf Ho. apply f_cascade; cbn; auto with hub.
  apply same_rows_delete. intros r Hr Hne. apply Hne. exact (own_row _ _ _ _ Ho Hr).
Qed.
Lemma f_delete_group gid d : wf d → own_group d gid → foreign uid d (delete_group_row gid d).
Proof.
  intros Hwf Ho. apply f_cascade; cbn; auto with hub.
  apply same_rows_delete. intros r Hr Hne. apply Hne. exact (own_row _ _ _ _ Ho Hr).
Qed.
Lemma f_write_secret iid key sealed d :
  own_instance d iid → foreign uid d (instances.write_secret iid key sealed d).2.
Proof.
  intros Ho. unfold instances.write_secret. destruct (decide _); [|auto with hub].
  foreign_table. apply same_rows_insert; auto.
Qed.
Lemma f_clear_env iid d :
  own_instance d iid →
  foreign uid d (set_instance_secrets (without (instances.of_instance iid)) d).
Proof.
  intros Ho. foreign_table. apply same_rows_filter. intros k s _ Hk. cbn.
  apply eqs_false. intros <-. by destruct Ho.
Qed.
Lemma f_write_config_file iid sealed d :
  own_instance d iid → foreign uid d (instances.write_config_file iid sealed d).2.
Proof.
  intros Ho. unfold instances.write_config_file. destruct (decide _); [|auto with hub].
  foreign_table. apply same_rows_insert; auto.
Qed.
Lemma f_clear_config_file iid d :
  own_instance d iid → foreign uid d (set_instance_config_files (delete iid) d).
Proof. intros Ho. foreign_table. apply same_rows_delete. auto. Qed.

Lemma f_set_client_label cid nm n now d :
  foreign uid d (store.set_client_label uid cid nm n now d).2.
Proof.
  unfold store.set_client_label. destruct (decide _); [|auto with hub].
  foreign_table. apply same_rows_insert; cbn; auto.
Qed.
Lemma f_pat_touch tid t d :
  (∀ r, d.(personal_access_tokens) !! tid = Some r → r.(pat.user_id) = uid) →
  foreign uid d (tokens.touch tid t d).2.
Proof.
  intros Ho. foreign_table. apply same_rows_alter. intros r Hr. rewrite <- (Ho r Hr).
  destruct (tokens.stale t r); by split; [intros []|intros []].
Qed.
(** Serving a session's request slides that session only. *)
Lemma f_session_user sid idle abs t d u d' :
  session.load_and_touch sid idle abs t d = (Ok (Some u), d') → u.(users.id) = uid →
  foreign uid d d'.
Proof.
  intros Hr Hu. destruct (d.(web_sessions) !! sid) as [r|] eqn:Er;
    [|by rewrite session.load_and_touch_missing in Hr].
  destruct (decide (session.live r abs t)) as [Hl|Hl];
    [|by rewrite (session.load_and_touch_dead _ _ _ _ _ _ Er Hl) in Hr].
  rewrite (session.load_and_touch_live _ _ _ _ _ _ Er Hl) in Hr. injection Hr as Hf <-.
  destruct (d.(users) !! r.(web_session.user_id)) as [row|]; [|done]. injection Hf as <-.
  cbn in Hu. foreign_table. apply same_rows_insert.
  - intros Hn. apply Hn. unfold session.slid. by destruct (_ || _).
  - intros r0 Hr0 Hn. apply Hn. congruence.
Qed.
Lemma f_pat_revoke tid d : foreign uid d (tokens.revoke uid tid d).2.
Proof.
  unfold tokens.revoke. foreign_table. apply same_rows_filter. intros k r _ Ho.
  unfold tokens.mine. cbn. apply andb_false_iff. right. by apply eqs_false.
Qed.

Lemma f_git_store new_id h u sealed l now d :
  foreign uid d (gitcreds.store new_id uid h u sealed l now d).2.
Proof.
  destruct (gitcreds.store _ _ _ _ _ _ _ d) as [[[]|e] d'] eqn:E; cbn.
  - apply gitcreds.store_Ok in E as (k & r & -> & Hr & _ & _ & _ & Hk). foreign_table.
    apply same_rows_insert; [auto|]. intros r0 Hr0. apply Hk, gitcreds.at_host_true in Hr0 as [].
    auto.
  - apply gitcreds.store_Err in E as ->. auto with hub.
Qed.
Lemma f_git_touch k now d : own_git d k → foreign uid d (gitcreds.touch k now d).2.
Proof.
  intros Ho. unfold gitcreds.touch. foreign_table. apply same_rows_alter. intros r Hr.
  cbn. rewrite (own_row _ _ _ _ Ho Hr). auto.
Qed.

Lemma f_insert_group gid r d :
  r.(group.user_id) = uid → foreign uid d (groups.insert_group gid r d).2.
Proof.
  intros Hr. destruct (groups.insert_group gid r d) as [[[]|e] d'] eqn:E; cbn.
  - apply groups.insert_group_Ok in E as (-> & _ & Hn & _). foreign_table.
    apply same_rows_insert; [by rewrite Hr; auto|]. intros r0. by rewrite Hn.
  - apply groups.insert_group_Err in E as ->. auto with hub.
Qed.
Lemma f_group_rename gid nm d : foreign uid d (groups.rename uid gid nm d).2.
Proof.
  unfold groups.rename. foreign_table. intros k r Ho. rewrite lookup_alter_Some. split.
  - intros Hr. destruct (decide (gid = k)) as [->|]; [left|by right].
    split; [done|]. exists r. split; [done|]. destruct (eqs _ _) eqn:E; [|done].
    by apply eqs_true in E.
  - intros [(-> & r0 & Hr & ->)|[_ ?]]; [|done]. destruct (eqs _ _) eqn:E; [|done].
    by apply eqs_true in E.
Qed.
Lemma f_insert_member gid now iid d :
  own_group d gid → foreign uid d (groups.insert_member uid gid now iid d).2.
Proof.
  intros Ho. unfold groups.insert_member. destruct (_ !! iid); [|auto with hub].
  destruct (eqs _ _); [|auto with hub]. destruct (_ !! (_, _)); [auto with hub|].
  destruct (decide _); [|auto with hub]. foreign_table. apply same_rows_insert; auto.
Qed.
Lemma f_clear_members gid d :
  own_group d gid →
  foreign uid d (set_connector_group_members (without (groups.of_group gid)) d).
Proof.
  intros Ho. foreign_table. apply same_rows_filter. intros k s _ Hk. cbn.
  apply eqs_false. intros <-. by destruct Ho.
Qed.
End steps.

(** ** Operations

    [D]: the database is well formed and every other user's rows are those of [d0]. *)
Section operations.
Context (uid : string) (d0 : Db).
Definition D (d : Db) : Prop := wf d ∧ foreign uid d0 d.
Abbreviation keeps := (preserves D).
Abbreviation own := (own_instance uid d0).

Lemma keeps_local {E A} (m : M Db E A) :
  preserves wf m → (∀ d, D d → foreign uid d (m d).2) → keeps m.
Proof.
  intros Hw Hf d Hd. split; [by apply Hw, Hd|]. eapply foreign_trans; [apply Hd|by apply Hf].
Qed.
Lemma own_same d iid : foreign uid d0 d → own_instance uid d iid ↔ own iid.
Proof. intros Hf. unfold own_instance. by rewrite (others_same _ _ _ _ _ (f_instances _ _ _ Hf)). Qed.
Lemma own_group_same d gid : foreign uid d0 d → own_group uid d gid ↔ own_group uid d0 gid.
Proof. intros Hf. unfold own_group. by rewrite (others_same _ _ _ _ _ (f_groups _ _ _ Hf)). Qed.
Lemma own_git_same d k : foreign uid d0 d → own_git uid d k ↔ own_git uid d0 k.
Proof. intros Hf. unfold own_git. by rewrite (others_same _ _ _ _ _ (f_git _ _ _ Hf)). Qed.

Ltac local_step :=
  apply keeps_local; [auto with hub|let d := fresh "d" in let Hd := fresh "Hd" in intros d Hd];
  try match goal with
  | H : own_instance _ d0 ?i, Hd : D ?d |- _ => apply (own_same d i (proj2 Hd)) in H
  end.

Lemma keeps_update f iid :
  own iid → preserves wf (instances.update f iid) →
  (∀ r, (f r).(instance.user_id) = r.(instance.user_id)) → keeps (instances.update f iid).
Proof. intros Ho Hw Hf. local_step. by apply f_update. Qed.
Lemma keeps_enabled_set iid b : own iid → keeps (instances.set_enabled iid b).
Proof. intros Ho. by apply keeps_update; [|apply instances.wf_set_enabled|]. Qed.
Lemma keeps_update_def iid def : own iid → keeps (instances.update_def iid def).
Proof. intros Ho. by apply keeps_update; [|apply instances.wf_update_def|]. Qed.
Lemma keeps_set_build_state iid s c : own iid → keeps (instances.set_build_state iid s c).
Proof. intros Ho. by apply keeps_update; [|apply instances.wf_set_build_state|]. Qed.
Lemma keeps_set_capabilities iid j : own iid → keeps (instances.set_capabilities_snapshot iid j).
Proof. intros Ho. by apply keeps_update; [|apply instances.wf_set_capabilities_snapshot|]. Qed.
Lemma keeps_delete_instance iid : own iid → keeps (instances.delete iid).
Proof. intros Ho. local_step. apply f_delete_instance; [apply Hd|done]. Qed.
Lemma keeps_create_instance def ns nm iid now : keeps (instances.create uid def ns nm iid now).
Proof. local_step. apply f_create_instance. Qed.
Lemma own_create_instance def ns nm iid now d i d' :
  D d → instances.create uid def ns nm iid now d = (Ok i, d') → own i.(instances.id).
Proof.
  intros Hd Hr. assert (D d') as Hd'.
  { pose proof (keeps_create_instance def ns nm iid now d Hd) as Hk. by rewrite Hr in Hk. }
  apply (own_same d' _ (proj2 Hd')). by eapply own_created.
Qed.
Lemma keeps_write_secret iid key s : own iid → keeps (instances.write_secret iid key s).
Proof. intros Ho. local_step. by apply f_write_secret. Qed.
Lemma keeps_replace_env `{Aead} nonces iid env :
  own iid → keeps (instances.replace_env nonces iid env).
Proof.
  intros Ho. unfold instances.replace_env. apply preserves_transaction, preserves_bind.
  - local_step. by apply f_clear_env.
  - intros _. apply preserves_for_each. intros kv. apply preserves_bind; [auto with hub|].
    intros s. by apply keeps_write_secret.
Qed.
Lemma keeps_config_file_set `{Aead} iid c n : own iid → keeps (instances.set_config_file iid c n).
Proof.
  intros Ho. unfold instances.set_config_file. apply preserves_bind; [auto with hub|].
  intros s. local_step. by apply f_write_config_file.
Qed.
Lemma keeps_clear_config_file iid : own iid → keeps (instances.clear_config_file iid).
Proof. intros Ho. local_step. by apply f_clear_config_file. Qed.

Lemma keeps_set_client_label cid nm n now : keeps (store.set_client_label uid cid nm n now).
Proof. local_step. apply f_set_client_label. Qed.
Lemma keeps_pat_revoke tid : keeps (tokens.revoke uid tid).
Proof. local_step. apply f_pat_revoke. Qed.

Lemma keeps_quiet {E A} (m : M Db E A) : quiet m → keeps m.
Proof. intros Hq d Hd. by rewrite Hq. Qed.
Lemma keeps_upsert `{UrlCrate} `{Aead} h u l t i n now : keeps (gitcreds.upsert uid h u l t i n now).
Proof.
  assert (∀ h', keeps (gitcreds.find uid h')) as Hf.
  { intros h'. apply keeps_quiet. unfold gitcreds.find. auto with hub. }
  unfold gitcreds.upsert. repeat (apply preserves_bind; [|intros ?]); auto with hub.
  local_step. apply f_git_store.
Qed.
Lemma keeps_git_delete `{UrlCrate} h : keeps (gitcreds.delete uid h).
Proof.
  unfold gitcreds.delete. apply preserves_bind; [auto with hub|]. intros h'. apply keeps_local.
  { intros d Hd. cbn. wf_table Hd. }
  intros d Hd. foreign_table. apply same_rows_filter. intros k r _ Ho. cbn.
  destruct (gitcreds.at_host uid h' k r) eqn:E; [|done].
  by apply gitcreds.at_host_true in E as [].
Qed.
Lemma keeps_git_touch k now : own_git uid d0 k → keeps (gitcreds.touch k now).
Proof.
  intros Ho. apply keeps_local; [auto with hub|intros d Hd]. apply f_git_touch.
  apply own_git_same; [apply Hd|done].
Qed.

Lemma keeps_group_create s nm gid now : keeps (groups.create uid s nm gid now).
Proof.
  unfold groups.create. repeat (apply preserves_bind; [|intros ?]); auto with hub.
  apply preserves_map_err. local_step. by apply f_insert_group.
Qed.
Lemma keeps_group_rename gid nm : keeps (groups.rename uid gid nm).
Proof. local_step. apply f_group_rename. Qed.
Lemma keeps_group_delete gid : keeps (groups.delete uid gid).
Proof.
  local_step. unfold groups.delete. destruct (_ !! gid) eqn:Hg; [|auto with hub].
  destruct (eqs _ _) eqn:E; [|auto with hub]. apply eqs_true in E.
  apply f_delete_group; [apply Hd|]. by eapply owned.
Qed.
Lemma keeps_set_members gid l now : keeps (groups.set_members uid gid l now).
Proof.
  local_step. destruct (groups.set_members_run uid gid l now d) as [[_ ->]|[(g & Hg & Ho) ->]];
    [auto with hub|].
  assert (own_group uid d0 gid) as Hown.
  { apply (own_group_same d _ (proj2 Hd)). by eapply owned. }
  assert (foreign uid d0 (set_connector_group_members (without (groups.of_group gid)) d)) as H1.
  { eapply foreign_trans; [apply Hd|]. apply f_clear_members. apply own_group_same; [apply Hd|done]. }
  eapply foreign_trans; [by apply foreign_sym, Hd|].
  revert H1. apply (preserves_for_each (foreign uid d0)). intros iid d1 Hd1.
  eapply foreign_trans; [done|]. apply f_insert_member. by apply own_group_same.
Qed.
Lemma own_for_repo `{UrlCrate} `{Aead} repo d c d' :
  D d → gitcreds.for_repo uid repo d = (Ok (Some c), d') → own_git uid d0 c.(gitcreds.rc_id).
Proof.
  intros Hd. unfold gitcreds.for_repo. destruct (gitcreds.host_of_repo repo); [|done].
  intros Hr. m_inv. destruct (find_kv _ _) as [[k r]|] eqn:E; [|done]. m_inv.
  apply find_kv_Some in E as [Hk [Hu _]%gitcreds.at_host_true].
  apply (own_git_same d _ (proj2 Hd)). by eapply owned.
Qed.
Lemma keeps_update_instance `{UrlCrate} `{Aead} hub_uid dir_mode hub_env output coreutils
    symlink_metadata canonicalize env_dir inst def sb now :
  inst.(instances.user_id) = uid → own inst.(instances.id) →
  preserves (λ st, D st.1) (gitsrc.update_instance hub_uid dir_mode hub_env output coreutils
    symlink_metadata canonicalize env_dir inst def sb now).
Proof.
  intros Hu Ho. unfold gitsrc.update_instance. rewrite Hu.
  do 5 (apply preserves_bind; [auto with hub|intros ?]).
  apply preserves_bind_res with (Q := λ cred, ∀ c, cred = Some c → own_git uid d0 c.(gitcreds.rc_id)).
  - apply preserves_on_fst, keeps_quiet, gitcreds.quiet_for_repo.
  - intros st cred st' Hst [Hr _]%on_fst_Ok c ->. by eapply own_for_repo.
  - intros cred Hc. apply preserves_bind; [auto with hub|]. intros commit.
    apply preserves_bind; [auto with hub|]. intros [|]; [auto with hub|].
    apply preserves_bind; [auto with hub|]. intros _.
    apply preserves_catch; [auto with hub|]. intros built.
    apply preserves_bind; [auto with hub|]. intros _. destruct built.
    + apply preserves_bind; [apply preserves_on_fst; by apply keeps_set_build_state|]. intros _.
      apply preserves_bind; [|auto with hub]. destruct cred as [c|]; [|auto with hub].
      apply preserves_ignore, preserves_on_fst, keeps_git_touch. by apply Hc.
    + apply preserves_bind; [apply preserves_on_fst; by apply keeps_set_build_state|auto with hub].
Qed.
Lemma keeps_delete_others keep : keeps (session.delete_others uid keep).
Proof.
  local_step. unfold session.delete_others. foreign_table. apply same_rows_filter.
  intros k r _ Ho. cbn. apply andb_false_iff. left. by apply eqs_false.
Qed.
Lemma keeps_revoke_user_client cid : keeps (store.revoke_user_client uid cid).
Proof.
  local_step. unfold store.revoke_user_client. foreign_table. apply same_rows_filter.
  intros k r _ Ho. cbn. unfold store.of_user_client.
  destruct (eqs r.(refresh_token.user_id) uid) eqn:E; [by apply eqs_true in E|done].
Qed.
Lemma keeps_pat_create `{Digest} nm ttl tid random now :
  keeps (tokens.create uid nm ttl tid random now).
Proof.
  unfold tokens.create. apply preserves_bind; [|auto with hub].
  local_step. unfold tokens.insert_pat. destruct (decide _) as [|Hn]; [auto with hub|].
  destruct (find_kv _ _); [auto with hub|]. destruct (decide _); [|auto with hub].
  foreign_table. apply same_rows_insert; [cbn; auto|]. intros r0 Hr0. destruct Hn. by exists r0.
Qed.
Lemma keeps_delete_credential cid : keeps (users.delete_credential uid cid).
Proof.
  local_step. unfold users.delete_credential. foreign_table. apply same_rows_filter.
  intros k r _ Ho. cbn. apply andb_false_iff. right. by apply eqs_false.
Qed.
End operations.

(** ** The tables but the denials

    A denial names the credential, not whose it is; forgetting them leaves the part of
    the database that the statements on them do not touch. *)
Definition without_denials (d : Db) : Db := set_credential_backend_denials (λ _, ∅) d.
Lemma foreign_without_denials uid d d' :
  foreign uid d d' → foreign uid (without_denials d) (without_denials d').
Proof. intros []. by split. Qed.
Lemma set_denials_others uid ctype cid l now d :
  without_denials (access.set_denials uid ctype cid l now d).2 = without_denials d.
Proof.
  enough (preserves (λ d1, without_denials d1 = without_denials d)
    (access.set_denials uid ctype cid l now)) as Hp by by apply Hp.
  unfold access.set_denials. apply preserves_transaction, preserves_bind.
  - intros d1 <-. done.
  - intros _. apply preserves_for_each. intros iid d1 <-. unfold access.insert_denial.
    destruct (_ !! iid); [|done]. repeat (destruct (decide _) || destruct (eqs _ _) ||
      destruct (_ !! _)); done.
Qed.
#[global] Hint Resolve keeps_delete_others keeps_revoke_user_client keeps_pat_create
  keeps_delete_credential : hub.
#[global] Hint Resolve keeps_enabled_set keeps_update_def keeps_set_build_state
  keeps_set_capabilities keeps_delete_instance keeps_create_instance keeps_replace_env
  keeps_config_file_set keeps_clear_config_file keeps_set_client_label keeps_pat_revoke
  keeps_upsert keeps_git_delete keeps_git_touch keeps_group_create keeps_group_rename
  keeps_group_delete keeps_set_members : hub.
End tenancy.
