(* ===== verification/Hub.v ===== *)
(** * The state of the hub (lib.rs)

    What the handlers of the web pages and of the management tools change: the
    database, the pools, the reload epochs, the runtime status, the files, the
    notification peers; and what they emit: notifications and audit entries.  A
    component's operation runs on its own part of it. *)

From S2P Require Import Prelude Strs Schema External Users Instances Status Sandbox Backend.
From S2P Require Import AuditLog Gitsrc Pool.
Open Scope string_scope.
Open Scope hub_scope.

Module hub.

(** The machine the hub runs on: its identity and environment, the programs it
    starts, and the links of the file system. *)
Class Machine := {
  hub_uid : Z; dir_mode : Z; file_mode : Z; is_root : bool; hub_env : gmap string string;
  output : backend.Command → Z → fs.Fs → option (result anyhow gitsrc.Output) * fs.Fs;
  coreutils : string → list string → fs.Fs → result anyhow bool * fs.Fs;
  symlink_metadata : fs.Fs → string → bool;
  canonicalize : fs.Fs → string → option string;
}.

(** [peers] maps a session's key to its user; [notified] lists the sessions a
    [tools/list_changed] was sent to; [tools_run] the build tools' commands. *)
Record Hub := {
  db : Db; pools : pool.Users; epochs : gmap string Z; runtime_status : status.StatusRegistry;
  files : fs.Fs; peers : gmap string string; notified : list string;
  tools_run : list backend.Command; metrics_key : string; audit_log : list audit.Entry }.

Definition set_db (d : Db) (h : Hub) : Hub := {|
  db := d; pools := h.(pools); epochs := h.(epochs); runtime_status := h.(runtime_status);
  files := h.(files); peers := h.(peers); notified := h.(notified);
  tools_run := h.(tools_run); metrics_key := h.(metrics_key); audit_log := h.(audit_log) |}.
Definition set_pools (p : pool.Users) (h : Hub) : Hub := {|
  db := h.(db); pools := p; epochs := h.(epochs); runtime_status := h.(runtime_status);
  files := h.(files); peers := h.(peers); notified := h.(notified);
  tools_run := h.(tools_run); metrics_key := h.(metrics_key); audit_log := h.(audit_log) |}.
Definition set_epochs (e : gmap string Z) (h : Hub) : Hub := {|
  db := h.(db); pools := h.(pools); epochs := e; runtime_status := h.(runtime_status);
  files := h.(files); peers := h.(peers); notified := h.(notified);
  tools_run := h.(tools_run); metrics_key := h.(metrics_key); audit_log := h.(audit_log) |}.
Definition set_status (s : status.StatusRegistry) (h : Hub) : Hub := {|
  db := h.(db); pools := h.(pools); epochs := h.(epochs); runtime_status := s;
  files := h.(files); peers := h.(peers); notified := h.(notified);
  tools_run := h.(tools_run); metrics_key := h.(metrics_key); audit_log := h.(audit_log) |}.
Definition set_files (f : fs.Fs) (log : list backend.Command) (h : Hub) : Hub := {|
  db := h.(db); pools := h.(pools); epochs := h.(epochs); runtime_status := h.(runtime_status);
  files := f; peers := h.(peers); notified := h.(notified);
  tools_run := log; metrics_key := h.(metrics_key); audit_log := h.(audit_log) |}.
Definition set_peers (p : gmap string string) (h : Hub) : Hub := {|
  db := h.(db); pools := h.(pools); epochs := h.(epochs); runtime_status := h.(runtime_status);
  files := h.(files); peers := p; notified := h.(notified);
  tools_run := h.(tools_run); metrics_key := h.(metrics_key); audit_log := h.(audit_log) |}.
Definition notify (keys : list string) (h : Hub) : Hub := {|
  db := h.(db); pools := h.(pools); epochs := h.(epochs); runtime_status := h.(runtime_status);
  files := h.(files); peers := h.(peers); notified := (h.(notified) ++ keys)%list;
  tools_run := h.(tools_run); metrics_key := h.(metrics_key); audit_log := h.(audit_log) |}.
Definition set_log (l : list audit.Entry) (h : Hub) : Hub := {|
  db := h.(db); pools := h.(pools); epochs := h.(epochs); runtime_status := h.(runtime_status);
  files := h.(files); peers := h.(peers); notified := h.(notified);
  tools_run := h.(tools_run); metrics_key := h.(metrics_key); audit_log := l |}.
Definition log (e : audit.Entry) (h : Hub) : Hub := set_log (h.(audit_log) ++ [e])%list h.

Definition set_key (d : Db) (k : string) (h : Hub) : Hub := {|
  db := d; pools := h.(pools); epochs := h.(epochs); runtime_status := h.(runtime_status);
  files := h.(files); peers := h.(peers); notified := h.(notified);
  tools_run := h.(tools_run); metrics_key := k; audit_log := h.(audit_log) |}.

(** ** A component's operation on its part of the hub *)
Definition on_db {E A} (m : M Db E A) : M Hub E A := λ h,
  ((m h.(db)).1, set_db (m h.(db)).2 h).
Definition on_pools {E A} (m : M pool.Users E A) : M Hub E A := λ h,
  ((m h.(pools)).1, set_pools (m h.(pools)).2 h).
Definition on_epochs {E A} (m : M (gmap string Z) E A) : M Hub E A := λ h,
  ((m h.(epochs)).1, set_epochs (m h.(epochs)).2 h).
Definition on_status {E A} (m : M status.StatusRegistry E A) : M Hub E A := λ h,
  ((m h.(runtime_status)).1, set_status (m h.(runtime_status)).2 h).
Definition on_files {E A} (m : M fs.Fs E A) : M Hub E A := λ h,
  ((m h.(files)).1, set_files (m h.(files)).2 h.(tools_run) h).
Definition on_build {E A} (m : M (Db * gitsrc.World) E A) : M Hub E A := λ h,
  let '(r, (d, (f, l))) := m (h.(db), (h.(files), h.(tools_run))) in
  (r, set_files f l (set_db d h)).
Definition on_db_files {E A} (m : M (Db * fs.Fs) E A) : M Hub E A := λ h,
  let '(r, (d, f)) := m (h.(db), h.(files)) in
  (r, set_files f h.(tools_run) (set_db d h)).
Definition on_key {E A} (m : M (Db * string) E A) : M Hub E A := λ h,
  let '(r, (d, k)) := m (h.(db), h.(metrics_key)) in (r, set_key d k h).
(** A read of the database. *)
Definition read {E A} (f : Db → A) : M Hub E A := gets (λ h, f h.(db)).

(** ** [AppState] *)
Definition register_client_peer {E} (key uid : string) : M Hub E unit :=
  modify (λ h, set_peers (<[key:=uid]> h.(peers)) h).
Definition unregister_client_peer {E} (key : string) : M Hub E unit :=
  modify (λ h, set_peers (delete key h.(peers)) h).
(** Every session of the user is sent one notification. *)
Definition targets (uid : string) (p : gmap string string) : list string :=
  (filter (λ kv, kv.2 = uid) (map_to_list p)).*1.
Definition notify_tools_changed {E} (uid : string) : M Hub E unit :=
  modify (λ h, notify (targets uid h.(peers)) h).
Definition mark_dirty {E} (uid : string) : M Hub E unit := on_pools (pool.mark_dirty_user uid).
Definition restart_backend {E} (iid uid : string) : M Hub E unit :=
  on_epochs (pool.bump_reload iid) ;;; notify_tools_changed uid.
Definition audit {E} (e : audit.Entry) : M Hub E unit := modify (log e).

(** ** Frames

    [kept D P L]: the database satisfies [D], the pools [P], the audit log [L].  An
    operation on one part keeps the other two. *)
Definition kept (D : Db → Prop) (P : pool.Users → Prop) (L : list audit.Entry → Prop) (h : Hub)
    : Prop :=
  D h.(db) ∧ P h.(pools) ∧ L h.(audit_log).

Lemma quiet_on_db {E A} (m : M Db E A) : quiet m → quiet (on_db m).
Proof. intros Hm h. unfold on_db. cbn. rewrite (Hm h.(db)). by destruct h. Qed.
Lemma on_db_Ok {E A} (m : M Db E A) h a h' :
  on_db m h = (Ok a, h') → ∃ d', m h.(db) = (Ok a, d') ∧ h' = set_db d' h.
Proof. unfold on_db. intros [= <- <-]. exists (m h.(db)).2. by destruct (m h.(db)). Qed.
Lemma read_Ok {E A} (f : Db → A) h a h' :
  read (E:=E) f h = (Ok a, h') → a = f h.(db) ∧ h' = h.
Proof. by intros [= <- <-]. Qed.
Lemma quiet_read {E A} (f : Db → A) : quiet (read (E:=E) f).
Proof. done. Qed.
#[global] Hint Resolve quiet_on_db quiet_read : hub.

Section frames.
Context {E : Type} (D : Db → Prop) (P : pool.Users → Prop) (L : list audit.Entry → Prop).
Abbreviation keeps := (preserves (E:=E) (kept D P L)).
Lemma kept_on_db {A} (m : M Db E A) : preserves D m → keeps (on_db m).
Proof. intros Hm h (Hd & Hp & Hl). split; [by apply Hm|done]. Qed.
Lemma kept_on_pools {A} (m : M pool.Users E A) : preserves P m → keeps (on_pools m).
Proof. intros Hm h (Hd & Hp & Hl). split_and!; [done|by apply Hm|done]. Qed.
Lemma kept_on_epochs {A} (m : M (gmap string Z) E A) : keeps (on_epochs m).
Proof. by intros h Hh. Qed.
Lemma kept_on_status {A} (m : M status.StatusRegistry E A) : keeps (on_status m).
Proof. by intros h Hh. Qed.
Lemma kept_on_files {A} (m : M fs.Fs E A) : keeps (on_files m).
Proof. by intros h Hh. Qed.
Lemma kept_on_build {A} (m : M (Db * gitsrc.World) E A) :
  preserves (λ st, D st.1) m → keeps (on_build m).
Proof.
  intros Hm h (Hd & Hh). specialize (Hm (h.(db), (h.(files), h.(tools_run))) Hd). unfold on_build.
  by destruct (m _) as [r [d [f cs]]].
Qed.
Lemma kept_on_db_files {A} (m : M (Db * fs.Fs) E A) :
  preserves (λ st, D st.1) m → keeps (on_db_files m).
Proof.
  intros Hm h (Hd & Hh). specialize (Hm (h.(db), h.(files)) Hd). unfold on_db_files.
  by destruct (m _) as [r [d f]].
Qed.
Lemma kept_on_key {A} (m : M (Db * string) E A) :
  preserves (λ st, D st.1) m → keeps (on_key m).
Proof.
  intros Hm h (Hd & Hh). specialize (Hm (h.(db), h.(metrics_key)) Hd). unfold on_key.
  by destruct (m _) as [r [d k]].
Qed.
Lemma kept_read {A} (f : Db → A) : keeps (read f).
Proof. by intros h Hh. Qed.
Lemma kept_notify uid : keeps (notify_tools_changed uid).
Proof. by intros h Hh. Qed.
Lemma kept_audit e : (∀ l, L l → L (l ++ [e])%list) → keeps (audit e).
Proof. intros HL h (Hd & Hp & Hl). split_and!; [done..|]. by apply HL. Qed.
Lemma kept_restart iid uid : keeps (restart_backend iid uid).
Proof. apply preserves_bind; [apply kept_on_epochs|]. intros _. apply kept_notify. Qed.
Lemma kept_mark_dirty uid :
  (∀ p, P p → P (alter pool.mark_dirty uid p)) → keeps (mark_dirty uid).
Proof. intros HP. apply kept_on_pools. intros p Hp. by apply HP. Qed.
End frames.
#[global] Hint Resolve kept_on_db kept_on_epochs kept_on_status kept_on_files kept_on_build
  kept_on_db_files kept_read kept_notify kept_restart kept_mark_dirty : hub.

(** Step through a handler over parts of the state. *)
Ltac part :=
  match goal with
  | |- preserves _ (bind _ _) => apply preserves_bind; [|intros ?]
  | |- preserves _ (match ?x with _ => _ end) => destruct x
  | |- preserves (of_db _) (on_fst _) => apply preserves_of_db
  | |- preserves _ (on_fst _) => apply both_on_fst
  | |- preserves _ (on_snd _) => apply both_on_snd
  | |- preserves _ (map_err _ _) => apply preserves_map_err
  | |- preserves _ (catch _ _) => apply preserves_catch; [|intros ?]
  | |- preserves _ (ignore _) => apply preserves_ignore
  | |- preserves _ (users.find_by_handle _) => by intros ?
  | |- preserves _ (users.find_by_id _) => by intros ?
  | _ => solve [auto with hub]
  end.
Ltac parts := repeat part.

(** ** A concrete hub *)
Definition machine0 : Machine := {|
  hub_uid := 0; dir_mode := 493; file_mode := 420; is_root := false; hub_env := gitsrc.hub_env0;
  output := gitsrc.tools0 true; coreutils := gitsrc.coreutils0;
  symlink_metadata := λ _ _, false; canonicalize := λ _ _, None |}.
Definition hub0 (d : Db) : Hub := {|
  db := d; pools := ∅; epochs := ∅; runtime_status := ∅; files := ∅; peers := {["s" := "u"]};
  notified := []; tools_run := []; metrics_key := ""; audit_log := [] |}.
End hub.
