(* ===== verification/Custody.v ===== *)
(** * Custody

    Who holds which credential.  [fewer d0 d] says that every credential of [d] is in
    [d0], in the same hands; each statement of the program but the five that issue a
    credential keeps it, whatever it is handed. *)

From S2P Require Import Prelude Strs Schema External Users Invites Sessions Tokens Access Groups.
From S2P Require Import GitCreds Instances OauthStore Status AuditLog Sandbox Backend Gitsrc Hub.
Open Scope string_scope.
Open Scope hub_scope.

Module custody.
Import hub.

(** What the hub accepts from outside as somebody, or lets one become somebody. *)
Inductive Credential :=
| Account (uid : string)
| Passkey (row_id : string)
| Session (sid : string)
| AccessToken (tid : string)
| RefreshToken (hash : string)
| AuthCode (code : string).

(** A row's owner; codes are not in the database. *)
Definition row_owner {A} (owner : string → A → string) (t : gmap string A) (k : string)
    : option string := owner k <$> t !! k.
Definition owner_in (d : Db) (k : Credential) : option string :=
  match k with
  | Account uid => row_owner (λ uid _, uid) d.(users) uid
  | Passkey id => row_owner (λ _, credential.user_id) d.(webauthn_credentials) id
  | Session sid => row_owner (λ _, web_session.user_id) d.(web_sessions) sid
  | AccessToken tid => row_owner (λ _, pat.user_id) d.(personal_access_tokens) tid
  | RefreshToken hash => row_owner (λ _, refresh_token.user_id) d.(oauth_refresh_tokens) hash
  | AuthCode _ => None
  end.

(** ** Tables *)
Section tables.
Context {A : Type} (owner : string → A → string).
Implicit Types t : gmap string A.
Definition fewer_rows t t' : Prop :=
  ∀ k uid, row_owner owner t' k = Some uid → row_owner owner t k = Some uid.
Lemma fewer_rows_refl t : fewer_rows t t.
Proof. by intros k uid. Qed.
Lemma fewer_rows_filter (P : string * A → Prop) `{∀ x, Decision (P x)} t :
  fewer_rows t (filter P t).
Proof.
  intros k uid. unfold row_owner. destruct (filter P t !! k) as [r|] eqn:E; [|done].
  by apply map_lookup_filter_Some in E as [-> _].
Qed.
Lemma fewer_rows_delete i t : fewer_rows t (delete i t).
Proof.
  intros k uid. unfold row_owner. destruct (decide (i = k)) as [->|].
  - by rewrite lookup_delete_eq.
  - by rewrite lookup_delete_ne.
Qed.
Lemma fewer_rows_fmap f t : (∀ k r, owner k (f r) = owner k r) → fewer_rows t (f <$> t).
Proof.
  intros Hf k uid. unfold row_owner. rewrite lookup_fmap. destruct (t !! k); [|done]. cbn.
  by rewrite Hf.
Qed.
Lemma fewer_rows_alter f i t : (∀ k r, owner k (f r) = owner k r) → fewer_rows t (alter f i t).
Proof.
  intros Hf k uid. unfold row_owner. destruct (decide (i = k)) as [->|].
  - rewrite lookup_alter_eq. destruct (t !! k); [|done]. cbn. by rewrite Hf.
  - by rewrite lookup_alter_ne.
Qed.
Lemma row_owner_insert i r t k uid :
  row_owner owner (<[i:=r]> t) k = Some uid →
  (k = i ∧ owner i r = uid) ∨ row_owner owner t k = Some uid.
Proof.
  unfold row_owner. destruct (decide (i = k)) as [->|].
  - rewrite lookup_insert_eq. intros [= <-]. by left.
  - rewrite lookup_insert_ne by done. by right.
Qed.
End tables.
#[export] Hint Resolve fewer_rows_refl fewer_rows_filter fewer_rows_delete : hub.

(** ** Databases *)
Definition fewer (d0 d : Db) : Prop :=
  ∀ k uid, owner_in d k = Some uid → owner_in d0 k = Some uid.
#[global] Instance fewer_preorder : PreOrder fewer.
Proof. split; [by intros d k uid|]. intros d1 d2 d3 H12 H23 k uid Hk. by apply H12, H23. Qed.
Lemma fewer_tables d0 d :
  fewer_rows (λ uid _, uid) d0.(users) d.(users) →
  fewer_rows (λ _, credential.user_id) d0.(webauthn_credentials) d.(webauthn_credentials) →
  fewer_rows (λ _, web_session.user_id) d0.(web_sessions) d.(web_sessions) →
  fewer_rows (λ _, pat.user_id) d0.(personal_access_tokens) d.(personal_access_tokens) →
  fewer_rows (λ _, refresh_token.user_id) d0.(oauth_refresh_tokens) d.(oauth_refresh_tokens) →
  fewer d0 d.
Proof. intros ? ? ? ? ? k u Hk. destruct k; cbn in *; auto. Qed.
Lemma fewer_cascade d : fewer d (cascade d).
Proof. apply fewer_tables; cbn; auto with hub; apply fewer_rows_filter. Qed.

(** ** Operations *)
(** A statement on other tables; on one of the five, row by row. *)
Ltac elsewhere := intros d Hd; cbn; repeat case_match; exact Hd.
Ltac in_tables :=
  apply fewer_tables; cbn; auto with hub;
  first [apply fewer_rows_filter|apply fewer_rows_fmap|apply fewer_rows_alter]; intros k r;
  repeat case_match; done.
Ltac in_table :=
  let d := fresh "d" in let Hd := fresh "Hd" in
  intros d Hd; cbn; repeat case_match; first [exact Hd|etrans; [exact Hd|in_tables]].

Section operations.
Context `{UrlCrate} (d0 : Db).
Abbreviation keeps := (preserves (fewer d0)).
Lemma fewer_assign_slot uid : keeps (users.assign_slot uid).
Proof. in_table. Qed.
Lemma fewer_disabled_set uid b : keeps (users.set_disabled uid b).
Proof. in_table. Qed.
Lemma fewer_delete_user uid : keeps (users.delete uid).
Proof.
  intros d Hd. etrans; [exact Hd|]. etrans; [|apply fewer_cascade]. in_tables.
Qed.
Lemma fewer_update_credential `{WebauthnRs} pk : keeps (users.update_credential pk).
Proof. in_table. Qed.
Lemma fewer_touch_credential cid info now : keeps (users.touch_credential cid info now).
Proof. in_table. Qed.
Lemma fewer_delete_credential uid cid : keeps (users.delete_credential uid cid).
Proof. in_table. Qed.
Lemma fewer_insert_invite h r : keeps (invites.insert_invite h r).
Proof. unfold invites.insert_invite. elsewhere. Qed.
Lemma fewer_redeem `{Digest} code uid now : keeps (invites.redeem code uid now).
Proof. unfold invites.redeem. elsewhere. Qed.
Lemma fewer_revoke_invite s : keeps (invites.revoke s).
Proof. elsewhere. Qed.

Lemma fewer_session_delete sid : keeps (session.delete sid).
Proof. in_table. Qed.
Lemma fewer_delete_others uid keep : keeps (session.delete_others uid keep).
Proof. in_table. Qed.
Lemma fewer_delete_all_for_user uid : keeps (session.delete_all_for_user uid).
Proof. in_table. Qed.
Lemma fewer_delete_expired now : keeps (session.delete_expired now).
Proof. in_table. Qed.
Lemma fewer_slide {E} t sid :
  preserves (E:=E) (fewer d0) (modify (set_web_sessions (alter (session.with_expires t) sid))).
Proof. in_table. Qed.

Lemma fewer_pat_touch tid now : keeps (tokens.touch tid now).
Proof. in_table. Qed.
Lemma fewer_pat_revoke uid tid : keeps (tokens.revoke uid tid).
Proof. in_table. Qed.
Lemma fewer_revoke_all_for_user uid : keeps (tokens.revoke_all_for_user uid).
Proof. in_table. Qed.

Lemma fewer_consume_refresh hash now : keeps (store.consume_refresh hash now).
Proof.
  apply store.preserves_retry_busy. unfold store.consume_refresh_once. in_table.
Qed.
Lemma fewer_revoke_family f : keeps (store.revoke_family f).
Proof. apply store.preserves_retry_busy. in_table. Qed.
Lemma fewer_revoke_user_client uid cid : keeps (store.revoke_user_client uid cid).
Proof. in_table. Qed.
Lemma fewer_revoke_all_user_tokens uid : keeps (store.revoke_all_user_tokens uid).
Proof. in_table. Qed.
Lemma fewer_create_client cid h uris nm now : keeps (store.create_client cid h uris nm now).
Proof. unfold store.create_client. elsewhere. Qed.
Lemma fewer_set_client_label uid cid nm n now : keeps (store.set_client_label uid cid nm n now).
Proof. unfold store.set_client_label. elsewhere. Qed.
Lemma fewer_clear_for_credential ctype cid : keeps (access.clear_for_credential ctype cid).
Proof. elsewhere. Qed.
Lemma fewer_insert_denial uid ctype cid now iid : keeps (access.insert_denial uid ctype cid now iid).
Proof. unfold access.insert_denial. elsewhere. Qed.
Lemma fewer_insert_group gid r : keeps (groups.insert_group gid r).
Proof. unfold groups.insert_group. elsewhere. Qed.
Lemma fewer_group_rename uid gid nm : keeps (groups.rename uid gid nm).
Proof. elsewhere. Qed.
Lemma fewer_insert_member uid gid now iid : keeps (groups.insert_member uid gid now iid).
Proof. unfold groups.insert_member. elsewhere. Qed.
Lemma fewer_group_delete uid gid : keeps (groups.delete uid gid).
Proof.
  intros d Hd. unfold groups.delete. repeat case_match; [|exact Hd..].
  etrans; [exact Hd|apply (fewer_cascade (set_connector_groups (delete gid) d))].
Qed.
Lemma fewer_git_store new_id uid h u s l now : keeps (gitcreds.store new_id uid h u s l now).
Proof. unfold gitcreds.store. elsewhere. Qed.
Lemma fewer_git_touch k now : keeps (gitcreds.touch k now).
Proof. elsewhere. Qed.
Lemma fewer_instance_update f iid : keeps (instances.update f iid).
Proof. elsewhere. Qed.
Lemma fewer_set_enabled iid b : keeps (instances.set_enabled iid b).
Proof. apply fewer_instance_update. Qed.
Lemma fewer_update_def iid def : keeps (instances.update_def iid def).
Proof. apply fewer_instance_update. Qed.
Lemma fewer_set_build_state iid s c : keeps (instances.set_build_state iid s c).
Proof. apply fewer_instance_update. Qed.
Lemma fewer_set_capabilities iid j : keeps (instances.set_capabilities_snapshot iid j).
Proof. apply fewer_instance_update. Qed.
Lemma fewer_insert_instance iid r : keeps (instances.insert_instance iid r).
Proof. unfold instances.insert_instance. elsewhere. Qed.
Lemma fewer_instance_delete iid : keeps (instances.delete iid).
Proof. intros d Hd. etrans; [exact Hd|apply (fewer_cascade (set_user_server_instances (delete iid) d))]. Qed.
Lemma fewer_write_secret iid key s : keeps (instances.write_secret iid key s).
Proof. unfold instances.write_secret. elsewhere. Qed.
Lemma fewer_write_config_file iid s : keeps (instances.write_config_file iid s).
Proof. unfold instances.write_config_file. elsewhere. Qed.
Lemma fewer_clear_config_file iid : keeps (instances.clear_config_file iid).
Proof. elsewhere. Qed.
End operations.
#[export] Hint Resolve fewer_git_touch fewer_set_enabled fewer_update_def fewer_set_build_state
  fewer_set_capabilities fewer_assign_slot fewer_disabled_set fewer_delete_user
  fewer_update_credential fewer_touch_credential fewer_delete_credential fewer_insert_invite
  fewer_redeem fewer_revoke_invite fewer_session_delete fewer_delete_others
  fewer_delete_all_for_user fewer_delete_expired fewer_slide fewer_pat_touch fewer_pat_revoke
  fewer_revoke_all_for_user fewer_consume_refresh fewer_revoke_family fewer_revoke_user_client
  fewer_revoke_all_user_tokens fewer_create_client fewer_set_client_label
  fewer_clear_for_credential fewer_insert_denial fewer_insert_group fewer_group_rename
  fewer_insert_member fewer_group_delete fewer_git_store fewer_instance_update
  fewer_insert_instance fewer_instance_delete fewer_write_secret fewer_write_config_file
  fewer_clear_config_file : hub.

(** ** Composed operations *)
Section composed.
Context `{UrlCrate} (d0 : Db).
Abbreviation keeps := (preserves (fewer d0)).

Lemma fewer_invite_create `{Digest} c n code now : keeps (invites.create c n code now).
Proof. unfold invites.create. parts. Qed.
Lemma fewer_create_recovery `{Digest} c n code now : keeps (invites.create_recovery c n code now).
Proof. unfold invites.create_recovery. parts. Qed.
Lemma fewer_user_for_session sid now : keeps (session.user_for_session sid now).
Proof. unfold session.user_for_session. parts. Qed.
Lemma fewer_load_and_touch sid i a now : keeps (session.load_and_touch sid i a now).
Proof. unfold session.load_and_touch. parts. Qed.
Lemma fewer_AuthUser j i a now : preserves (fewer d0) (session.AuthUser j i a now).
Proof.
  unfold session.AuthUser. destruct (j !! _); [|auto with hub].
  apply preserves_catch; [apply fewer_load_and_touch|]. intros r. parts.
Qed.
Lemma fewer_MaybeUser j i a now : preserves (fewer d0) (session.MaybeUser j i a now).
Proof.
  unfold session.MaybeUser. destruct (j !! _); [|auto with hub].
  apply preserves_catch; [apply fewer_load_and_touch|]. intros r. parts.
Qed.
Lemma fewer_set_denials uid ctype cid l now : keeps (access.set_denials uid ctype cid l now).
Proof. unfold access.set_denials. apply preserves_transaction. parts. Qed.
Lemma fewer_group_create uid s nm gid now : keeps (groups.create uid s nm gid now).
Proof. unfold groups.create. parts. Qed.
Lemma fewer_set_members uid gid l now : keeps (groups.set_members uid gid l now).
Proof. unfold groups.set_members. apply preserves_transaction. parts; elsewhere. Qed.
Lemma fewer_git_find uid h : keeps (gitcreds.find uid h).
Proof. unfold gitcreds.find. parts. Qed.
Lemma fewer_for_repo `{Aead} uid repo : keeps (gitcreds.for_repo uid repo).
Proof. unfold gitcreds.for_repo. parts. Qed.
Lemma fewer_upsert `{Aead} uid h u l t i n now : keeps (gitcreds.upsert uid h u l t i n now).
Proof. unfold gitcreds.upsert. parts. apply fewer_git_find. Qed.
Lemma fewer_git_delete uid h : keeps (gitcreds.delete uid h).
Proof. unfold gitcreds.delete. parts; elsewhere. Qed.
Lemma fewer_instance_create uid def ns nm iid now : keeps (instances.create uid def ns nm iid now).
Proof. unfold instances.create. parts. Qed.
Lemma fewer_replace_env `{Aead} ns iid env : keeps (instances.replace_env ns iid env).
Proof. unfold instances.replace_env. apply preserves_transaction. parts; elsewhere. Qed.
Lemma fewer_set_config_file `{Aead} iid c n : keeps (instances.set_config_file iid c n).
Proof. unfold instances.set_config_file. parts. Qed.
Lemma fewer_update_instance `{Aead} hub_uid dir_mode hub_env output coreutils symlink_metadata
    canonicalize env_dir inst def sb now :
  preserves (λ st, fewer d0 st.1) (gitsrc.update_instance hub_uid dir_mode hub_env output coreutils
    symlink_metadata canonicalize env_dir inst def sb now).
Proof.
  unfold gitsrc.update_instance.
  do 5 (apply preserves_bind; [auto with hub|intros ?]).
  apply preserves_bind; [apply preserves_on_fst, fewer_for_repo|intros cred].
  do 2 (apply preserves_bind; [auto with hub|intros ?]). destruct a5; [auto with hub|].
  apply preserves_bind; [auto with hub|intros _].
  apply preserves_catch; [auto with hub|]. intros built.
  apply preserves_bind; [auto with hub|intros _]. repeat first
    [ apply preserves_bind; [|intros ?] | case_match | progress auto with hub
    | apply preserves_ignore | apply preserves_on_fst ].
Qed.
Lemma fewer_regenerate_key `{Aead} random nonce :
  preserves (λ st, fewer d0 st.1) (metrics.regenerate_key random nonce).
Proof.
  unfold metrics.regenerate_key, metrics.store_key.
  apply preserves_bind; [apply preserves_on_fst|intros _; auto with hub]. parts; elsewhere.
Qed.
End composed.
#[export] Hint Resolve fewer_invite_create fewer_create_recovery fewer_user_for_session
  fewer_load_and_touch fewer_set_denials fewer_group_create fewer_set_members fewer_git_find
  fewer_for_repo fewer_git_delete fewer_instance_create fewer_replace_env fewer_set_config_file
  fewer_update_instance fewer_regenerate_key fewer_upsert fewer_AuthUser fewer_MaybeUser : hub.
End custody.
