(* ===== verification/Launch.v ===== *)
(** * Starting one server (proxy/pool.rs [spawn_one], web.rs [probe_instance])

    The pool's launch of an instance and the "Test connection" button's: the same
    resolution of definition, build, environment and configuration file, once for a
    pooled backend and once for a probe. *)

From stdpp Require Import pretty.
From S2P Require Import Prelude Strs Trim Schema External Fixtures Users GitCreds Config Instances.
From S2P Require Import InstanceText OauthServer Status AuditLog Sandbox Backend Gitsrc Pool Tenancy Hub.
Open Scope string_scope.
Open Scope hub_scope.

Module launch.
Import hub rmcp.

(** What a launch meets outside: the exec of a child, rmcp's handshake, what a child
    that died wrote to stderr (as read within two seconds, decoded), name
    resolution, the hub's own [PATH], and a peer that answers the capability
    requests within a given time. *)
Class Children := {
  start : backend.Command → result anyhow unit;
  serve : backend.Transport → Z → option (result anyhow Peer);
  stderr_text : backend.Command → option string;
  resolve : string → Z → option (list IpAddr);
  show_ip : IpAddr → string;
  path_var : option string;
  answers_within : Peer → Z → bool;
}.

Section launch.
Context `{Machine} `{UrlCrate} `{HttpCrate} `{Aead} `{Children} (c : config.Config) (now : Z).
Abbreviation env_dir := c.(config.env_dir).

(** [read_stderr_tail]: the last 3000 characters. *)
Definition read_stderr_tail (text : string) : string := last_chars (Z.to_nat 3000) (trim text).

(** ** [Backend::probe] *)
Definition probe (def : ServerDef) (env : gmap string string) (sb : option sandbox.Sandbox)
    (iid : string) (config_file : option string) (secs : Z)
    : M fs.Fs anyhow backend.CapabilitiesSnapshot :=
  if eqs def.(transport) "stdio" then
    let* cmd := backend.stdio_command hub_uid dir_mode file_mode def env sb env_dir iid config_file
                  c.(config.child_limits) path_var in
    ctx "spawning backend" (lift (start cmd)) ;;;
    match backend.init_with_timeout serve (backend.Stdio cmd) secs with
    | Ok peer => ret (backend.capture_snapshot peer now)
    | Err e =>
        let tail := match stderr_text cmd with Some s => read_stderr_tail s | None => "" end in
        if is_empty tail then fail (Context "initializing backend" e)
        else fail (Msg (error_text e +:+ text.newline +:+ "--- server stderr ---" +:+
                        text.newline +:+ tail))
    end
  else if eqs def.(transport) "http" then
    let* h := lift (backend.http_config def env) in
    let* peer := ctx "connecting http backend"
      (lift (backend.init_with_timeout serve (backend.Http h) secs)) in
    ret (backend.capture_snapshot peer now)
  else fail (Msg ("unsupported transport '" +:+ def.(transport) +:+ "'")).

(** ** The definition that is started *)
(** Why a server is not running: its state and what the page shows. *)
Definition Why : Type := status.RuntimeState * option string.
Abbreviation L A := (M Hub Why A).
Definition unbuilt {A} (detail : string) : L A := fail (status.unbuilt, Some detail).
Definition error_with {A} (m : M Hub anyhow A) (detail : anyhow → string) : L A :=
  map_err (λ e, (status.error, Some (detail e))) m.
Definition chain (what : string) (e : anyhow) : string := what +:+ ": " +:+ error_text e.

(** An http backend's URL passes the address check, at every connect. *)
Definition check_url (def : ServerDef) : L unit :=
  if negb (eqs def.(transport) "http") then ret tt else
  let url := trim (default "" def.(url)) in
  refuse_if (is_empty url) (status.error, Some "no remote URL set") ;;;
  error_with (lift (text.check_backend_host resolve show_ip url
    c.(config.block_private_backend_ips))) to_string.
Definition is_ready (inst : instances.Instance) (f : fs.Fs) : bool :=
  eqs inst.(instances.build_status) "ready" &&
  gitsrc.exists_ f (gitsrc.env_path env_dir inst.(instances.id)).
(** A git build is run by its own program. *)
Definition as_stdio (def : ServerDef) (pa : string * list string) : ServerDef := {|
  name := def.(name); description := def.(description); transport := "stdio";
  command := Some pa.1; args := pa.2; url := def.(url); runtime := def.(runtime);
  repo := def.(repo); git_ref := def.(git_ref); entry := def.(entry);
  module := def.(module); connect_timeout_secs := def.(connect_timeout_secs) |}.
Definition launched (inst : instances.Instance) (def : ServerDef) : L ServerDef :=
  let* pa := error_with (lift (gitsrc.launch_command env_dir inst.(instances.id) def))
    (chain "git launch failed") in
  ret (as_stdio def pa).
Definition config_error {A} (r : Db → result anyhow A) : L A :=
  let* v := read r in error_with (lift v) (chain "config error").
Definition timeout (def : ServerDef) : Z :=
  instances.connect_timeout_or def c.(config.limits).(config.backend_connect_timeout_secs).

(** ** The pool's launch *)
Definition start_one (inst : instances.Instance) (sb : option sandbox.Sandbox)
    : L backend.Backend :=
  let iid := inst.(instances.id) in
  let* def := error_with (instances.resolve_def inst) (chain "resolve failed") in
  check_url def ;;;
  let* f := gets files in
  let* def :=
    if negb (gitsrc.is_git_source def) then ret def
    else if is_ready inst f && gitsrc.venv_is_stale symlink_metadata canonicalize f env_dir inst def
    then unbuilt "needs rebuild after upgrade — open its page and click “Test connection”"
    else if is_ready inst f then launched inst def
    else unbuilt "not built yet; run hub__update_server" in
  let* env := config_error (instances.resolved_env inst) in
  let* config_file := config_error (instances.resolved_config_file iid) in
  error_with (on_files (backend.spawn hub_uid dir_mode file_mode start serve def env iid
    inst.(instances.namespace) inst.(instances.display_name) sb env_dir config_file
    c.(config.child_limits) path_var (timeout def))) (chain "failed to start").
Definition mark_status {E} (inst : instances.Instance) (s : status.RuntimeState)
    (detail : option string) : M Hub E unit :=
  on_status (status.set inst.(instances.id) s detail now).
Definition spawn_one {E} (inst : instances.Instance) (sb : option sandbox.Sandbox)
    : M Hub E (option backend.Backend) :=
  catch (start_one inst sb) (λ r,
    match r with
    | Ok b => mark_status inst status.ok None ;;; ret (Some b)
    | Err (s, detail) => mark_status inst s detail ;;; ret None
    end).
Definition mark_skipped {E} (insts : list instances.Instance) (reason : string) : M Hub E unit :=
  for_each (λ inst, mark_status inst status.skipped (Some reason)) insts.
(** The detached re-capture of a fresh backend's snapshot, written as JSON. *)
Definition refresh_snapshot {E} (to_json : backend.CapabilitiesSnapshot → string) (iid : string)
    (b : backend.Backend) : M Hub E unit :=
  let secs := c.(config.limits).(config.backend_list_timeout_secs) in
  if (secs =? 0)%Z || answers_within b.(backend.peer) secs
  then ignore (on_db (instances.set_capabilities_snapshot iid
    (to_json (backend.capture_snapshot b.(backend.peer) now))))
  else ret tt.

(** ** The page's launch *)
Definition probe_one (uid : string) (inst : instances.Instance) : L backend.CapabilitiesSnapshot :=
  let iid := inst.(instances.id) in
  let* def := error_with (instances.resolve_def inst) (chain "resolve failed") in
  check_url def ;;;
  let* sb := error_with (on_db_files (sandbox.sandbox_or_fail hub_uid dir_mode is_root
    c.(config.sandbox_uid_base) env_dir uid)) (chain "sandbox unavailable") in
  let* f := gets files in
  let* def :=
    if negb (gitsrc.is_git_source def) then ret def
    else if negb (is_ready inst f)
    then unbuilt "not built yet; run “Update from repository” first"
    else
      (if gitsrc.venv_is_stale symlink_metadata canonicalize f env_dir inst def
       then let* _ := error_with (on_build (gitsrc.update_instance hub_uid dir_mode hub_env
              output coreutils symlink_metadata canonicalize env_dir inst def sb now))
              (chain "rebuild failed") in ret tt
       else ret tt) ;;;
      launched inst def in
  let* env := config_error (instances.resolved_env inst) in
  let* config_file := config_error (instances.resolved_config_file iid) in
  error_with (on_files (probe def env sb iid config_file (timeout def)))
    (chain "failed to start").
(** The state, the detail and the snapshot of a probe. *)
Definition probe_instance {E} (uid : string) (inst : instances.Instance)
    : M Hub E (status.RuntimeState * option string * option backend.CapabilitiesSnapshot) :=
  catch (probe_one uid inst) (λ r,
    ret match r with
        | Ok snap => (status.ok, None, Some snap)
        | Err (s, detail) => (s, detail, None)
        end).

(** ** The two launches agree *)
(** One succeeds exactly when the other does, the probe's snapshot is the pooled
    backend's, and both leave the same files. *)
Definition same_spawn (a : result anyhow backend.Backend * fs.Fs)
    (b : result anyhow backend.CapabilitiesSnapshot * fs.Fs) : Prop :=
  a.2 = b.2 ∧
  match a.1, b.1 with
  | Ok k, Ok snap => snap = backend.capture_snapshot k.(backend.peer) now
  | Err _, Err _ => True
  | _, _ => False
  end.
Lemma spawn_probe def env iid ns dn sb config_file secs f :
  same_spawn
    (backend.spawn hub_uid dir_mode file_mode start serve def env iid ns dn sb env_dir config_file
       c.(config.child_limits) path_var secs f)
    (probe def env sb iid config_file secs f).
Proof.
  unfold backend.spawn, probe. destruct (eqs def.(transport) "stdio").
  - unfold bind, ctx, map_err, lift, ret, fail.
    destruct (backend.stdio_command _ _ _ _ _ _ _ _ _ _ _ f) as [[cmd|e] f']; [|done].
    destruct (start cmd); [|done]. destruct (backend.init_with_timeout _ _ _); [done|].
    by destruct (is_empty _).
  - destruct (eqs def.(transport) "http"); [|done].
    unfold bind, ctx, map_err, lift, ret. destruct (backend.http_config def env); [|done].
    by destruct (backend.init_with_timeout _ _ _).
Qed.

(** Two launches from one state. *)
Definition same_launch (a : result Why backend.Backend * Hub)
    (b : result Why backend.CapabilitiesSnapshot * Hub) : Prop :=
  a.2 = b.2 ∧
  match a.1, b.1 with
  | Ok k, Ok snap => snap = backend.capture_snapshot k.(backend.peer) now
  | Err (s, _), Err (s', _) => s = s'
  | _, _ => False
  end.
Lemma same_bind {A} (m : L A) (k : A → L backend.Backend)
    (k' : A → L backend.CapabilitiesSnapshot) h :
  (∀ a h', m h = (Ok a, h') → same_launch (k a h') (k' a h')) →
  same_launch (bind m k h) (bind m k' h).
Proof.
  intros Hk. unfold bind. destruct (m h) as [[a|[s d]] h'] eqn:E; [by apply Hk|by split].
Qed.
Lemma same_start inst def env sb iid config_file h :
  same_launch
    (error_with (on_files (backend.spawn hub_uid dir_mode file_mode start serve def env iid
       inst.(instances.namespace) inst.(instances.display_name) sb env_dir config_file
       c.(config.child_limits) path_var (timeout def))) (chain "failed to start") h)
    (error_with (on_files (probe def env sb iid config_file (timeout def)))
       (chain "failed to start") h).
Proof.
  pose proof (spawn_probe def env iid inst.(instances.namespace) inst.(instances.display_name)
    sb config_file (timeout def) h.(files)) as [Hf Hr].
  unfold error_with, map_err, on_files.
  destruct (backend.spawn _ _ _ _ _ _ _ _ _ _ _ _ _ _ _ _ _) as [[k|e] f];
    destruct (probe _ _ _ _ _ _ _) as [[sn|e'] f']; cbn in *; subst; done.
Qed.

(** C34: "Test connection" tells the truth about the pool.  With the sandbox prepared
    and no environment that needs rebuilding, the page's probe of a server and the
    pool's spawn of it, run from the same state, both start it or both fail in the
    same state (error or not built); the probe's snapshot is the one the pooled
    backend gives, and both leave the hub the same. *)
Theorem probe_agrees_with_spawn inst sb uid h :
  on_db_files (sandbox.sandbox_or_fail hub_uid dir_mode is_root c.(config.sandbox_uid_base)
    env_dir uid) h = (Ok sb, h) →
  (∀ def, instances.resolve_def inst h = (Ok def, h) →
    gitsrc.venv_is_stale symlink_metadata canonicalize h.(files) env_dir inst def = false) →
  same_launch (start_one inst sb h) (probe_one uid inst h).
Proof.
  intros Hsb Hstale. unfold start_one, probe_one.
  apply same_bind. intros def h1 Hdef.
  assert (h1 = h) as -> by (unfold error_with, map_err, instances.resolve_def in Hdef;
    destruct (instances.normalized <$> _); by simplify_eq/=).
  apply map_err_Ok in Hdef. specialize (Hstale def Hdef).
  apply same_bind. intros [] h1 Hurl.
  assert (h1 = h) as -> by (revert Hurl; unfold check_url; destruct (negb _); [by intros [=]|];
    unfold bind, refuse_if, error_with, map_err, lift; destruct (is_empty _); [done|];
    cbn; destruct (text.check_backend_host _ _ _ _); by intros [=]).
  rewrite (bind_run (error_with _ _) _ _ sb h) by (unfold error_with, map_err; by rewrite Hsb).
  rewrite !(bind_run (gets files) _ h h.(files) h) by done. rewrite Hstale, andb_false_r.
  assert (∀ (m m' : L ServerDef), m h = m' h ∨ (∃ d d', m h = (Err (status.unbuilt, d), h) ∧
    m' h = (Err (status.unbuilt, d'), h)) → ∀ k k', (∀ a h', same_launch (k a h') (k' a h')) →
    same_launch (bind m k h) (bind m' k' h)) as Hstep.
  { intros m m' [He|(d & d' & E & E')] k k' Hk; unfold bind.
    - rewrite He. destruct (m' h) as [[a|[s d]] h'] eqn:E; [by apply Hk|by split].
    - rewrite E, E'. by split. }
  apply Hstep.
  - destruct (gitsrc.is_git_source def); cbn [negb]; [|by left].
    destruct (is_ready inst h.(files)); cbn [negb]; [by left|]. right. eauto.
  - intros def' h1. apply same_bind. intros env h2 _. apply same_bind. intros cf h3 _.
    apply same_start.
Qed.
End launch.

Definition silent_peer : Peer := {|
  peer_info := {| has_tools := true; has_prompts := false; has_resources := false; more := "" |};
  is_transport_closed := false; list_all_tools := Ok [{| tool_name := "read"; tool_more := "" |}];
  list_all_prompts := Ok []; list_all_resources := Ok []; list_all_resource_templates := Ok [];
  peer_read_resource := λ _, Ok []; peer_get_prompt := λ _ _, Ok "";
  peer_call_tool := λ _ _, Err (Msg "no") |}.
Definition children0 : Children := {|
  start := λ _, Ok tt; serve := λ _ _, Some (Ok silent_peer); stderr_text := λ _, None;
  resolve := λ _ _, None; show_ip := λ _, ""; path_var := Some "/bin";
  answers_within := λ _ _, true |}.
Definition stdio_def : ServerDef := {|
  name := "n"; description := ""; transport := "stdio"; command := Some "srv"; args := ["-v"];
  url := None; runtime := ""; repo := None; git_ref := None; entry := None; module := None;
  connect_timeout_secs := None |}.
Definition stdio_inst : instances.Instance := instances.into_instance "i" {|
  instance.user_id := "u"; instance.custom_def := Some stdio_def; instance.namespace := "fs";
  instance.display_name := "fs"; instance.enabled := true; instance.config := ∅;
  instance.built_commit := None; instance.build_status := "ready";
  instance.capabilities_json := None; instance.created_at := 5 |}.
Lemma probe_agrees_with_spawn_witness :
  same_launch 50
    (start_one (H:=machine0) (H0:=url0) (H1:=backend.http0) (H2:=aead0) (H3:=children0)
       oauth_witness.cfg0 stdio_inst None (hub0 db2))
    (probe_one (H:=machine0) (H0:=url0) (H1:=backend.http0) (H2:=aead0) (H3:=children0)
       oauth_witness.cfg0 50 "u" stdio_inst (hub0 db2)).
Proof.
  apply probe_agrees_with_spawn; [reflexivity|].
  intros def Hd. injection Hd as <-. reflexivity.
Defined.
End launch.
