(* ===== verification/ToolTable.v ===== *)
(** * The table of management tools (proxy/management.rs [tools])

    Each [hub__] tool with its description, its JSON Schema and its behavioural
    hints, and the audit action of the ones that change something. *)

From S2P Require Import Prelude Strs Schema Json.
Open Scope string_scope.

Module tool_table.

Record Annotations := { read_only : bool; destructive : bool; idempotent : bool; open_world : bool }.
Definition one_of (l : list string) (s : string) : bool := bool_decide (s ∈ l).
Definition annotations_for (name : string) : Annotations :=
  if one_of ["hub__whoami"; "hub__list_my_servers"; "hub__list_tokens"; "hub__get_my_client";
             "hub__runtime_stats"; "hub__list_users"; "hub__list_invites"; "hub__list_groups";
             "hub__list_git_credentials"] name
  then {| read_only := true; destructive := false; idempotent := true; open_world := false |}
  else if one_of ["hub__add_server"; "hub__update_server"] name
  then {| read_only := false; destructive := false; idempotent := false; open_world := true |}
  else if one_of ["hub__create_invite"; "hub__create_recovery"] name
  then {| read_only := false; destructive := false; idempotent := false; open_world := false |}
  else if one_of ["hub__remove"; "hub__revoke_token"; "hub__revoke_invite"; "hub__delete_user";
                  "hub__disable_user"; "hub__delete_group"; "hub__delete_git_credential"] name
  then {| read_only := false; destructive := true; idempotent := true; open_world := false |}
  else {| read_only := false; destructive := false; idempotent := true; open_world := false |}.

Record Tool := {
  tool_name : string; tool_description : string; input_schema : json.JsonObject;
  annotations : Annotations }.
Definition schema (properties : list (string * json.Value)) (required : list string)
    : json.JsonObject :=
  ([("properties", json.object properties)] ++
   (if bool_decide (required = []) then [] else [("required", json.strs required)]) ++
   [("type", json.Str "object")])%list.
Definition tool (name desc : string) (properties : list (string * json.Value))
    (required : list string) : Tool :=
  {| tool_name := name; tool_description := desc; input_schema := schema properties required;
     annotations := annotations_for name |}.

(** The two commonest properties. *)
Definition str_prop : json.Value := json.object [("type", json.Str "string")].
Definition described (d : string) : json.Value :=
  json.object [("type", json.Str "string"); ("description", json.Str d)].

Definition server_tools : list Tool := [
  tool "hub__whoami"
    ("Show the current user and their configured servers.")
    [] [];
  tool "hub__list_my_servers"
    ("List your configured servers, their launch command and status.")
    [] [];
  tool "hub__add_server"
    ("Add one of your own MCP servers. For stdio, give a 'command' line (and optionally a " +:+
     "'repo' to build a cached environment from — Python via uv or Go via go build, detected " +:+
     "from pyproject.toml / go.mod; the command's first word names the console script or built " +:+
     "binary); for http, give a 'url'. 'env' is a map of environment variables (encrypted).")
    [("namespace", described "Unique tool-name prefix, e.g. 'zabbix'");
     ("transport", json.object [("type", json.Str "string");
       ("enum", json.strs ["stdio"; "http"])]);
     ("command", described "stdio: the command line, e.g. 'uvx zabbix-mcp-server'");
     ("url", described "http: the remote endpoint URL");
     ("repo", described "stdio (optional): git repo to build a cached environment from (Python or Go, auto-detected)");
     ("git_ref", described "branch/tag for 'repo' (default main)");
     ("display_name", str_prop);
     ("env", json.object [("type", json.Str "object");
       ("additionalProperties", json.object [("type", json.Str "string")]);
       ("description", json.Str "Values may reference ${VAR}, e.g. GOOGLE_APPLICATION_CREDENTIALS=${MCP_CONFIG_FILE}")]);
     ("config_file", described "stdio (optional): config file written to the server's working dir, path in MCP_CONFIG_FILE");
     ("connect_timeout_secs", json.object [("type", json.Str "integer");
       ("minimum", json.num 0);
       ("description", json.Str "Seconds the hub waits for this server to start and answer initialize; omit to use the hub default (HUB_BACKEND_CONNECT_TIMEOUT_SECS), 0 = no limit")])] ["namespace"; "transport"];
  tool "hub__edit_server"
    ("Change one of your servers' command/url/repo/connect_timeout_secs (omitted fields are " +:+
     "left unchanged; pass connect_timeout_secs as null to go back to the hub default). The " +:+
     "running server is relaunched with the new definition.")
    [("namespace", str_prop);
     ("command", str_prop);
     ("url", str_prop);
     ("repo", str_prop);
     ("git_ref", str_prop);
     ("connect_timeout_secs", json.object [("type", json.strs ["integer"; "null"]);
       ("minimum", json.num 0);
       ("description", json.Str "Seconds the hub waits for this server to start and answer initialize; 0 = no limit, null = hub default")])] ["namespace"];
  tool "hub__set_env"
    ("Replace the full set of environment variables on one of your servers (encrypted at " +:+
     "rest). Pass the complete map; omitted keys are removed. Values may reference ${VAR} " +:+
     "(expanded at launch), including ${MCP_CONFIG_FILE} for the config file's path. On an " +:+
     "http server, AUTHORIZATION is sent as the request's Authorization header, using the " +:+
     "Bearer scheme unless AUTHORIZATION_METHOD overrides it (e.g. Basic); the credential is " +:+
     "sent verbatim after the scheme. The running server is relaunched with the new " +:+
     "environment.")
    [("namespace", str_prop);
     ("env", json.object [("type", json.Str "object");
       ("additionalProperties", json.object [("type", json.Str "string")])])] ["namespace"; "env"];
  tool "hub__set_config_file"
    ("Set or clear the configuration file for one of your stdio servers (encrypted at rest). " +:+
     "At launch the file is written into the server's working directory and its path exposed " +:+
     "as the MCP_CONFIG_FILE environment variable. Pass an empty 'content' (or omit it) to " +:+
     "remove the file. The running server is relaunched with the new file.")
    [("namespace", str_prop);
     ("content", described "File contents; empty/omitted clears it")] ["namespace"];
  tool "hub__update_server"
    ("Build or update a git-sourced server from its repository (fetches the latest commit and " +:+
     "rebuilds its environment). Run this after you push changes; if the build changed, the " +:+
     "running server is relaunched and live sessions are told to re-list their tools.")
    [("namespace", str_prop)] ["namespace"];
  tool "hub__list_git_credentials"
    ("List the git hosts you have stored a credential for (metadata only — the tokens are " +:+
     "never shown again). These are used when building git-sourced servers from private " +:+
     "repositories.")
    [] [];
  tool "hub__set_git_credential"
    ("Store (or replace) the HTTPS token used to build git-sourced servers from one git host, " +:+
     "e.g. host 'github.com'. The token is encrypted at rest and never returned. Note it will " +:+
     "appear in this client's transcript — prefer the Account web page if that matters. Use a " +:+
     "read-only, repo-scoped token with an expiry: building runs the repository's own build " +:+
     "code, which can read the token. 'username' defaults to 'x-access-token' (GitLab: " +:+
     "'oauth2', Bitbucket: 'x-token-auth').")
    [("host", described "Git host, e.g. 'github.com'; a full repo URL is also accepted");
     ("token", described "Personal access token with read access to the repositories");
     ("username", described "HTTP basic username (default 'x-access-token')");
     ("label", described "Optional note, e.g. which token this is")] ["host"; "token"];
  tool "hub__delete_git_credential"
    ("Remove the stored git credential for a host. Git-sourced servers on that host then build " +:+
     "with anonymous access only.")
    [("host", str_prop)] ["host"];
  tool "hub__enable"
    ("Enable one of your servers.")
    [("namespace", str_prop)] ["namespace"];
  tool "hub__disable"
    ("Disable one of your servers.")
    [("namespace", str_prop)] ["namespace"];
  tool "hub__remove"
    ("Remove one of your servers.")
    [("namespace", str_prop)] ["namespace"]].
Definition account_tools : list Tool := [
  tool "hub__list_tokens"
    ("List your personal access tokens (metadata only — the token secrets are never shown " +:+
     "again). Create new ones from the Account web page.")
    [] [];
  tool "hub__revoke_token"
    ("Revoke one of your personal access tokens by its id (from hub__list_tokens).")
    [("token_id", str_prop)] ["token_id"];
  tool "hub__get_my_client"
    ("Show how THIS MCP client (the one making the call) appears in your connected-clients " +:+
     "list: its client id, the name it registered with, and any custom name and note you have " +:+
     "set for it.")
    [] [];
  tool "hub__list_groups"
    ("List your connector groups: each is its own MCP endpoint at /mcp/<slug> serving only its " +:+
     "member servers' tools. Shows every group's connector URL, member servers with tool " +:+
     "counts (from the last connect or capability probe), and whether the total fits under " +:+
     "claude.ai's 256-tool cap.")
    [] [];
  tool "hub__create_group"
    ("Create a connector group. Its endpoint becomes <base>/mcp/<slug> — add that URL to your " +:+
     "MCP client as a new connector. 'servers' is a list of your server namespaces.")
    [("slug", described "URL path segment: 1-64 lowercase letters/digits/hyphens");
     ("name", described "Optional display name");
     ("servers", json.object [("type", json.Str "array");
       ("items", json.object [("type", json.Str "string")]);
       ("description", json.Str "Member server namespaces")])] ["slug"];
  tool "hub__update_group"
    ("Update a connector group's display name and/or replace its full member set. The slug " +:+
     "itself is immutable (it is baked into the connector URL and issued tokens) — delete and " +:+
     "recreate to change it.")
    [("slug", str_prop);
     ("name", described "New display name");
     ("servers", json.object [("type", json.Str "array");
       ("items", json.object [("type", json.Str "string")]);
       ("description", json.Str "Full replacement set of member namespaces")])] ["slug"];
  tool "hub__delete_group"
    ("Delete a connector group. Clients connected to its /mcp/<slug> endpoint lose access " +:+
     "immediately; the member servers themselves are untouched.")
    [("slug", str_prop)] ["slug"];
  tool "hub__set_my_client"
    ("Set the custom name and/or note for THIS MCP client only (the one making the call). You " +:+
     "cannot change any other client, even your own others. Omitted fields are left unchanged; " +:+
     "pass an empty string to clear one. Only available to OAuth clients, not personal access " +:+
     "tokens.")
    [("name", described "Custom display name for this client ('' clears it)");
     ("note", described "Freeform note for this client ('' clears it)")] []].
Definition user_tools : list Tool := (server_tools ++ account_tools)%list.
Definition admin_tools : list Tool := [
  tool "hub__runtime_stats"
    ("(admin) Show live backend-slot usage, active MCP session count, the configured limits, " +:+
     "and each backend's last-known runtime status.")
    [] [];
  tool "hub__list_users"
    ("(admin) List all hub users.")
    [] [];
  tool "hub__create_invite"
    ("(admin) Generate a single-use invite code for registration. The plaintext code is " +:+
     "returned once and cannot be retrieved later.")
    [("note", described "Optional label, e.g. who it is for")] [];
  tool "hub__list_invites"
    ("(admin) List invite codes and their status (metadata only; the codes themselves are " +:+
     "never shown again).")
    [] [];
  tool "hub__revoke_invite"
    ("(admin) Revoke an unused invite by its id (the short id from hub__list_invites).")
    [("id", str_prop)] ["id"];
  tool "hub__create_recovery"
    ("(admin) Issue a one-time recovery code so a user who lost their passkey can enroll a new " +:+
     "one on their existing account. The code is returned once and cannot be retrieved later.")
    [("handle", str_prop)] ["handle"];
  tool "hub__disable_user"
    ("(admin) Disable a user: end their sessions, revoke their tokens, and block sign-in. " +:+
     "Cannot target yourself or the last admin.")
    [("handle", str_prop)] ["handle"];
  tool "hub__enable_user"
    ("(admin) Re-enable a disabled user.")
    [("handle", str_prop)] ["handle"];
  tool "hub__delete_user"
    ("(admin) Permanently delete a user and all their servers, secrets and passkeys. Cannot " +:+
     "target yourself or the last admin.")
    [("handle", str_prop)] ["handle"]].
Definition tools (admin : bool) : list Tool :=
  (user_tools ++ if admin then admin_tools else [])%list.

Definition action_for (op : string) : option string :=
  snd <$> List.find (λ kv, eqs kv.1 op)
    [("add_server", "server.add"); ("edit_server", "server.edit"); ("set_env", "server.set_env");
     ("set_config_file", "server.set_config_file"); ("update_server", "server.update");
     ("enable", "server.enable"); ("disable", "server.disable"); ("remove", "server.remove");
     ("revoke_token", "token.revoke"); ("set_git_credential", "git_credential.set");
     ("delete_git_credential", "git_credential.delete"); ("create_group", "group.create");
     ("update_group", "group.update"); ("delete_group", "group.delete");
     ("set_my_client", "client.label"); ("create_invite", "invite.create");
     ("revoke_invite", "invite.revoke"); ("create_recovery", "recovery.create");
     ("disable_user", "user.disable"); ("enable_user", "user.enable");
     ("delete_user", "user.delete")].

(** ** The schemas are well formed *)
Definition has_type (v : json.Value) : bool :=
  bool_decide (is_Some (o ← json.as_object v; json.get o "type")).
Definition required_of (s : json.JsonObject) : list string :=
  omap json.as_str (default [] (v ← json.get s "required"; json.as_array v)).
Definition properties_of (s : json.JsonObject) : json.JsonObject :=
  default [] (v ← json.get s "properties"; json.as_object v).
Definition well_formed_schema (s : json.JsonObject) : bool :=
  bool_decide ((v ← json.get s "type"; json.as_str v) = Some "object") &&
  forallb (λ kv, has_type kv.2) (properties_of s) &&
  forallb (λ k, bool_decide (k ∈ (properties_of s).*1)) (required_of s).

(** The table is consistent.  No two tools share a name; every name is in the
    [hub__] namespace; every schema is an object schema whose properties all have a
    type and whose required names are properties; and exactly the tools that are not
    read-only have an audit action. *)
Theorem tools_well_formed admin :
  NoDup (tool_name <$> tools admin) ∧
  Forall (λ t, starts_with "hub__" t.(tool_name) = true ∧
    well_formed_schema t.(input_schema) = true ∧
    (t.(annotations).(read_only) = true ↔
       action_for (String.substring 5 60 t.(tool_name)) = None)) (tools admin).
Proof. split; apply (bool_decide_unpack _); destruct admin; vm_compute; exact I. Qed.

End tool_table.
