(* ===== verification/Server.v ===== *)
(** * The aggregating MCP server (proxy/server.rs)

    One [HubProxy] per client session.  The base endpoint serves the management
    tools, a group endpoint the tools of its member backends under the names
    [<server>__<tool>].  The pool answers with a snapshot of the user's live
    backends; the management component is the operation [dispatch]. *)

From stdpp Require Import pretty.
From S2P Require Import Prelude Strs Schema External Fixtures Users Access Groups Config OauthServer.
From S2P Require Import AuditLog McpAuth Backend Status Pool.
Open Scope string_scope.
Open Scope hub_scope.

Module server.

Import rmcp.

Inductive ErrorCode := InvalidRequest | InvalidParams | InternalError.
Record McpError := { code : ErrorCode; message : string }.
Definition invalid_request (m : string) : McpError := {| code := InvalidRequest; message := m |}.
Definition invalid_params (m : string) : McpError := {| code := InvalidParams; message := m |}.
Definition internal_error (m : string) : McpError := {| code := InternalError; message := m |}.

(** Who is making a management call (management.rs). *)
Record Caller := {
  caller_user_id : string; caller_handle : string; caller_admin : bool;
  caller_client_id : option string; caller_request : users.RequestInfo }.

Record Bound := { user_id : string; handle : string; admin : bool }.
(** What a request's handler can change: its session's binding, the registered
    notification peers, the usage counters and the audit log. *)
Record Session := {
  bound : option Bound; client_peers : gmap string string; counters : metrics.Metrics;
  log : list audit.Entry }.
Abbreviation H A := (M Session McpError A).

(** What the HTTP layer attached to the request. *)
Record RequestContext := { parts_user : option proxy.AuthedUser; parts_endpoint : option proxy.McpEndpoint }.

(** How the hub presents itself to a client. *)
Record HubInfo := {
  hub_name : string; hub_title : string; hub_version : string;
  hub_icon : string; hub_icon_type : string; hub_icon_sizes : list string;
  offers : list string; announces_changes_of : list string; hub_instructions : string }.
(** [version] is the crate's, [icon] the picture of assets/ as a data URI. *)
Definition get_info (version icon : string) : HubInfo := {|
  hub_name := "mcp-hub"; hub_title := "MCP Hub"; hub_version := version;
  hub_icon := icon; hub_icon_type := "image/png"; hub_icon_sizes := ["96x96"];
  offers := ["tools"; "resources"; "prompts"];
  announces_changes_of := ["tools"; "resources"; "prompts"];
  hub_instructions :=
    "Aggregating MCP proxy. Tools and prompts are namespaced as " +:+
    "<server>__<name>, and resource URIs as hub://<server>/<uri>. " +:+
    "The base /mcp endpoint serves the hub__ management tools; each " +:+
    "connector group you define serves its servers' tools at " +:+
    "/mcp/<group> (see hub__list_groups)." |}.

Definition authed (ctx : RequestContext) : result McpError proxy.AuthedUser :=
  match ctx.(parts_user) with
  | Some u => Ok u | None => Err (invalid_request "missing authentication") end.
Definition endpoint (ctx : RequestContext) : result McpError proxy.McpEndpoint :=
  match ctx.(parts_endpoint) with
  | Some e => Ok e | None => Err (invalid_request "missing endpoint context") end.

Definition is_management_tool (full_name : string) : bool := starts_with "hub__" full_name.

Section handler.
Context (c : config.Config) (session_key : string) (d : Db).
(** The pool's snapshot for a user, and which backends do not answer in time. *)
Context (backends_for : string → list backend.Backend) (slow : backend.Backend → bool).

Definition denied_instances (ctx : RequestContext) : gset string :=
  match authed ctx with
  | Ok a => match proxy.credential a with
            | Some (t, id) => access.denied_instances t id d
            | None => ∅
            end
  | Err _ => ∅
  end.

(** The entry of a session's first request, or of its first as another user. *)
Definition bind_entry (a : proxy.AuthedUser) (handle : string) : audit.Entry :=
  audit.ok (audit.request a.(proxy.request) (audit.with_client_id a.(proxy.client_id)
    (audit.as_actor handle a.(proxy.user_id) (audit.event "mcp.bind")))).
Definition bind_session (a : proxy.AuthedUser) (s : Session) : Session :=
  let stale := match s.(bound) with
               | None => true
               | Some b => negb (eqs b.(user_id) a.(proxy.user_id)) end in
  if stale then
    let h := match d.(users) !! a.(proxy.user_id) with
             | Some r => r.(user.handle) | None => "" end in
    {| bound := Some {| user_id := a.(proxy.user_id); handle := h; admin := a.(proxy.admin) |};
       client_peers := <[session_key := a.(proxy.user_id)]> s.(client_peers);
       counters := s.(counters); log := (s.(log) ++ [bind_entry a h])%list |}
  else s.
Definition bind (ctx : RequestContext) : H proxy.AuthedUser :=
  let* a := lift (authed ctx) in
  modify (bind_session a) ;;;
  ret a.

Definition group_backends (ctx : RequestContext) (group_id : string) : H (list backend.Backend) :=
  let* a := bind ctx in
  let members := groups.member_instance_ids group_id d in
  ret (filter (λ b, b.(backend.instance_id) ∈ members) (backends_for a.(proxy.user_id))).

(** [None]: the configured wall clock ran out ([0] never does). *)
Definition with_list_timeout {A} (b : backend.Backend) (r : result anyhow A) : result anyhow A :=
  if (c.(config.limits).(config.backend_list_timeout_secs) =? 0)%Z then r
  else if slow b then Err (Msg ("list timed out after " +:+
    pretty c.(config.limits).(config.backend_list_timeout_secs) +:+ "s")) else r.
Definition with_call_timeout {A} (b : backend.Backend) (r : A) : option A :=
  if (c.(config.limits).(config.backend_call_timeout_secs) =? 0)%Z then Some r
  else if slow b then None else Some r.
Definition call_timed_out : McpError :=
  internal_error ("backend call timed out after " +:+
    pretty c.(config.limits).(config.backend_call_timeout_secs) +:+ "s").

(** [bytes] is the serialized size; the cap is computed in [usize], and wraps. *)
Definition check_response_size (bytes : Z) : result McpError unit :=
  let mb := c.(config.limits).(config.max_response_mb) in
  if (mb =? 0)%Z then Ok tt
  else
    let cap := u64_wrap (mb * 1024 * 1024)%Z in
    if (cap <? bytes)%Z then Err (internal_error ("backend response of " +:+ pretty bytes +:+
      " bytes exceeds the " +:+ pretty mb +:+ " MB limit"))
    else Ok tt.

(** ** Lists *)
Definition served (ctx : RequestContext) (bs : list backend.Backend) : list backend.Backend :=
  let denied := denied_instances ctx in
  filter (λ b, b.(backend.instance_id) ∉ denied) bs.
(** Each backend's answer, in backend order; a failed one contributes nothing. *)
Definition gather {A} (f : backend.Backend → result anyhow (list A)) (bs : list backend.Backend)
    : list A :=
  flat_map (λ b, match with_list_timeout b (f b) with Ok l => l | Err _ => [] end) bs.
Definition list_with {A} (f : backend.Backend → result anyhow (list A)) (ctx : RequestContext)
    (management : bool → list A) : H (list A) :=
  let* e := lift (endpoint ctx) in
  match e with
  | proxy.Management => let* a := bind ctx in ret (management a.(proxy.admin))
  | proxy.Group gid _ =>
      let* bs := group_backends ctx gid in
      ret (gather f (served ctx bs))
  end.
Definition list_tools (tools : bool → list Tool) (ctx : RequestContext) : H (list Tool) :=
  list_with backend.list_namespaced_tools ctx tools.
Definition list_resources (ctx : RequestContext) : H (list Resource) :=
  list_with backend.list_namespaced_resources ctx (λ _, []).
Definition list_resource_templates (ctx : RequestContext) : H (list ResourceTemplate) :=
  list_with backend.list_namespaced_resource_templates ctx (λ _, []).
Definition list_prompts (ctx : RequestContext) : H (list Prompt) :=
  list_with backend.list_namespaced_prompts ctx (λ _, []).

(** ** Calls *)
(** The backend that answers for a namespace; a denied one does not exist. *)
Definition find_server (ctx : RequestContext) (bs : list backend.Backend) (ns : string)
    : result McpError backend.Backend :=
  let denied := denied_instances ctx in
  match List.find (λ b, eqs b.(backend.namespace) ns &&
                        negb (bool_decide (b.(backend.instance_id) ∈ denied))) bs with
  | Some b => Ok b
  | None => Err (invalid_params ("no enabled server with namespace '" +:+ ns +:+ "'"))
  end.
Definition record (user server tool : string) (micros : Z) (kind : option metrics.ErrorKind)
    (s : Session) : Session := {|
  bound := s.(bound); client_peers := s.(client_peers);
  counters := metrics.record_call user server tool micros kind s.(counters); log := s.(log) |}.
Definition label (b : Bound) : string := if is_empty b.(handle) then b.(user_id) else b.(handle).

(** [dispatch] is the management component; [elapsed] is in microseconds, [bytes]
    the serialized size of a result. *)
Context (dispatch : Caller → string → Args → result McpError CallToolResult) (elapsed : Z)
  (bytes : CallToolResult → Z) (read_bytes : list ResourceContents → Z) (prompt_bytes : string → Z).

Definition read_bound : H Bound :=
  let* b := gets bound in
  ok_or b (internal_error "bound after bind").
Definition manage (a : proxy.AuthedUser) (b : Bound) (name : string) (args : Args)
    : H CallToolResult :=
  let caller := {| caller_user_id := b.(user_id); caller_handle := b.(handle);
                   caller_admin := b.(admin); caller_client_id := a.(proxy.client_id);
                   caller_request := a.(proxy.request) |} in
  let op := default "" (strip_prefix "hub__" name) in
  let result := dispatch caller op args in
  let kind := match result with
    | Err _ => Some metrics.Error
    | Ok r => if bool_decide (r.(is_error) = Some true) then Some metrics.ToolError else None
    end in
  modify (record (label b) "hub" op elapsed kind) ;;;
  lift result.
Definition call_tool (name : string) (args : Args) (ctx : RequestContext) : H CallToolResult :=
  let* e := lift (endpoint ctx) in
  match e with
  | proxy.Management =>
      refuse_if (negb (is_management_tool name)) (invalid_params
        "backend tools are served on your connector group endpoints (/mcp/<group>), not on /mcp; see hub__list_groups") ;;;
      let* a := bind ctx in
      let* b := read_bound in
      manage a b name args
  | proxy.Group gid _ =>
      refuse_if (is_management_tool name) (invalid_params
        "hub management tools are only available on the base /mcp endpoint") ;;;
      let* bs := group_backends ctx gid in
      let* split := ok_or (split_once "__" name)
        (invalid_params "tool name must be namespaced as <server>__<tool>") in
      let '(ns, original) := split in
      let* b := lift (find_server ctx bs ns) in
      let* who := gets (λ s, match s.(bound) with Some b => label b | None => "" end) in
      match with_call_timeout b (backend.call_tool b original args) with
      | None =>
          modify (record who ns original elapsed (Some metrics.Timeout)) ;;;
          fail call_timed_out
      | Some (Err e) =>
          modify (record who ns original elapsed (Some metrics.Error)) ;;;
          fail (internal_error (error_text e))
      | Some (Ok r) =>
          modify (record who ns original elapsed
            (if bool_decide (r.(is_error) = Some true) then Some metrics.ToolError else None)) ;;;
          lift (check_response_size (bytes r)) ;;;
          ret r
      end
  end.

(** Reading a resource or a prompt: a split of the identifier, then the answer of
    the backend it names. *)
Definition fetch {A} (refused : string) (malformed : string)
    (split : option (string * string)) (ask : backend.Backend → string → result anyhow A)
    (size : A → Z) (ctx : RequestContext) : H A :=
  let* e := lift (endpoint ctx) in
  match e with
  | proxy.Management => fail (invalid_params refused)
  | proxy.Group gid _ =>
      let* bs := group_backends ctx gid in
      let* split := ok_or split (invalid_params malformed) in
      let '(ns, original) := split in
      let* b := lift (find_server ctx bs ns) in
      match with_call_timeout b (ask b original) with
      | None => fail call_timed_out
      | Some (Err e) => fail (internal_error (error_text e))
      | Some (Ok r) => lift (check_response_size (size r)) ;;; ret r
      end
  end.
Definition read_resource (uri : string) (ctx : RequestContext) : H (list ResourceContents) :=
  fetch "resources are served on your connector group endpoints (/mcp/<group>)"
    "resource URI must be namespaced as hub://<server>/<uri>" (backend.unwrap_uri uri)
    backend.read_resource read_bytes ctx.
Definition get_prompt (name : string) (args : Args) (ctx : RequestContext) : H string :=
  fetch "prompts are served on your connector group endpoints (/mcp/<group>)"
    "prompt name must be namespaced as <server>__<prompt>" (split_once "__" name)
    (λ b n, backend.get_prompt b n args) prompt_bytes ctx.


(** ** Facts *)
Lemma server_bind_inv ctx s a s' :
  bind ctx s = (Ok a, s') → ctx.(parts_user) = Some a ∧ s' = bind_session a s.
Proof.
  unfold bind. intros Hb. m_inv. unfold authed in *.
  destruct ctx.(parts_user) as [u|] eqn:E; [|done]. by simplify_eq.
Qed.
Lemma endpoint_Ok ctx e : endpoint ctx = Ok e → ctx.(parts_endpoint) = Some e.
Proof. unfold endpoint. destruct ctx.(parts_endpoint); [|done]. by intros [= ->]. Qed.
Lemma bind_session_bound a s :
  ∃ b, (bind_session a s).(bound) = Some b ∧ b.(user_id) = a.(proxy.user_id).
Proof.
  unfold bind_session. destruct s.(bound) as [b|] eqn:E; cbn; [|eexists; by split].
  destruct (eqs b.(user_id) a.(proxy.user_id)) eqn:Eq; cbn; [|eexists; by split].
  apply eqs_true in Eq. by exists b.
Qed.
Lemma group_backends_Ok ctx gid s bs s' :
  group_backends ctx gid s = (Ok bs, s') →
  ∃ a, ctx.(parts_user) = Some a ∧ s' = bind_session a s ∧
    bs = filter (λ b, b.(backend.instance_id) ∈ groups.member_instance_ids gid d)
           (backends_for a.(proxy.user_id)).
Proof.
  unfold group_backends. intros (a & s1 & [Ha ->]%server_bind_inv & [<- ->]%ret_Ok)%bind_Ok.
  by exists a.
Qed.
Lemma find_server_Ok ctx bs ns b :
  find_server ctx bs ns = Ok b →
  b ∈ bs ∧ b.(backend.namespace) = ns ∧ b.(backend.instance_id) ∉ denied_instances ctx.
Proof.
  unfold find_server. destruct (List.find _ bs) as [x|] eqn:E; [|done]. intros [= <-].
  apply find_some in E as [Hin Hx]. apply andb_true_iff in Hx as [Hn Hd].
  apply eqs_true in Hn. rewrite negb_true_iff, bool_decide_eq_false in Hd.
  split_and!; [by apply list_elem_of_In|done|done].
Qed.

(** The backends a request may reach. *)
Definition reachable_backend (ctx : RequestContext) (a : proxy.AuthedUser) (gid : string)
    (b : backend.Backend) : Prop :=
  b ∈ backends_for a.(proxy.user_id) ∧
  b.(backend.instance_id) ∈ groups.member_instance_ids gid d ∧
  b.(backend.instance_id) ∉ denied_instances ctx.

Lemma call_tool_Ok name args ctx s r s' gid slug :
  ctx.(parts_endpoint) = Some (proxy.Group gid slug) →
  call_tool name args ctx s = (Ok r, s') →
  is_management_tool name = false ∧
  ∃ a b original, ctx.(parts_user) = Some a ∧ reachable_backend ctx a gid b ∧
    split_once "__" name = Some (b.(backend.namespace), original) ∧
    backend.call_tool b original args = Ok r.
Proof.
  intros He Hr. unfold call_tool in Hr.
  apply bind_Ok in Hr as (e & s1 & [Hep ->]%lift_Ok & Hr).
  apply endpoint_Ok in Hep. rewrite He in Hep. injection Hep as <-.
  apply bind_Ok in Hr as (? & s2 & [Hm ->]%refuse_if_Ok & Hr).
  apply bind_Ok in Hr as (bs & s3 & (a & Ha & -> & ->)%group_backends_Ok & Hr).
  apply bind_Ok in Hr as ([ns original] & s4 & [Hs ->]%ok_or_Ok & Hr).
  apply bind_Ok in Hr as (b & s5 & [Hf ->]%lift_Ok & Hr).
  apply bind_Ok in Hr as (who & s6 & [-> ->]%gets_Ok & Hr).
  apply find_server_Ok in Hf as (Hin & <- & Hd).
  pose proof (proj1 (list_elem_of_filter _ _ _) Hin) as [Hmem Hlive].
  split; [done|]. exists a, b, original. split_and!; [done|by split|done|].
  unfold with_call_timeout in Hr.
  destruct (_ =? 0)%Z; [|destruct (slow b); [by inv_m Hr|]];
    (destruct (backend.call_tool b original args) as [r'|e] eqn:Ec; [|by inv_m Hr]);
    m_inv; done.
Qed.
(** A member of a group of the user is an instance of the user. *)
Lemma member_owned gid slug cand uid iid :
  wf d → proxy.names (proxy.Group gid slug) cand uid d →
  iid ∈ groups.member_instance_ids gid d →
  ∃ inst, d.(user_server_instances) !! iid = Some inst ∧ inst.(instance.user_id) = uid.
Proof.
  intros Hwf Hn [z Hz]%groups.elem_of_member_instance_ids. destruct cand as [|sl]; [done|].
  destruct Hn as (_ & g & Hg & Hid). unfold groups.find_by_slug in Hg.
  destruct (find_kv _ _) as [[k r]|] eqn:E; [|done]. cbn in Hg. injection Hg as <-.
  cbn in Hid. subst k. apply find_kv_Some in E as [Hr [Hu _]%andb_true_iff].
  apply eqs_true in Hu. destruct (wf_member _ Hwf _ _ Hz) as (g & Hg & inst & Hi & Ho).
  cbn in Hg, Hi. rewrite Hr in Hg. injection Hg as <-. exists inst. split; [done|]. congruence.
Qed.

(** C15: end to end, a tool call on a group endpoint that returns a result got it
    from a live backend of the account whose token was presented: one whose
    instance that account owns, in that group, not denied to the credential, asked
    for the part of the name after its namespace; and a hub tool never gets that
    far. *)
Theorem call_tool_isolated name args ctx s r s' gid slug cand a :
  wf d → ctx.(parts_endpoint) = Some (proxy.Group gid slug) → ctx.(parts_user) = Some a →
  proxy.names (proxy.Group gid slug) cand a.(proxy.user_id) d →
  call_tool name args ctx s = (Ok r, s') →
  is_management_tool name = false ∧
  ∃ b original, reachable_backend ctx a gid b ∧
    name = backend.namespaced b.(backend.namespace) original ∧
    backend.call_tool b original args = Ok r ∧
    ∃ inst, d.(user_server_instances) !! b.(backend.instance_id) = Some inst ∧
      inst.(instance.user_id) = a.(proxy.user_id).
Proof.
  intros Hwf He Ha Hn Hr.
  destruct (call_tool_Ok _ _ _ _ _ _ _ _ He Hr) as (Hm & a' & b & o & Ha' & Hb & Hs & Hc).
  rewrite Ha in Ha'. injection Ha' as <-. split; [done|]. exists b, o.
  split_and!; [done|by apply split_once_Some in Hs|done|].
  destruct Hb as (_ & Hmem & _). by eapply member_owned.
Qed.

(** ** Names that route back *)
Lemma namespaced_not_management ns t :
  backend.routable ns = true → ns ≠ "hub" → is_management_tool (backend.namespaced ns t) = false.
Proof.
  intros Hr Hne. unfold is_management_tool. destruct (starts_with _ _) eqn:E; [|done].
  apply starts_with_spec in E as [r E]. pose proof (backend.split_namespaced ns t Hr) as Hs.
  rewrite E in Hs. change ("hub__" +:+ r) with (backend.namespaced "hub" r) in Hs.
  rewrite backend.split_namespaced in Hs by done. congruence.
Qed.
Lemma find_server_unique ctx bs b :
  NoDup (backend.namespace <$> bs) → b ∈ bs → b.(backend.instance_id) ∉ denied_instances ctx →
  find_server ctx bs b.(backend.namespace) = Ok b.
Proof.
  intros Hn Hin Hd. unfold find_server. destruct (List.find _ bs) as [x|] eqn:E.
  - apply find_some in E as [Hx Hp]. apply andb_true_iff in Hp as [Hp%eqs_true _].
    apply list_elem_of_In in Hx. f_equal.
    apply list_elem_of_lookup in Hx as [i Hi], Hin as [j Hj].
    assert (i = j) as ->; [|congruence].
    eapply (NoDup_lookup (backend.namespace <$> bs)); [done|..];
      rewrite list_lookup_fmap; [by rewrite Hi|by rewrite Hj, Hp].
  - exfalso. apply list_elem_of_In, (find_none _ _ E) in Hin.
    by rewrite eqs_refl, bool_decide_false in Hin.
Qed.
Lemma gather_In {A} (f : backend.Backend → result anyhow (list A)) bs x :
  x ∈ gather f bs → ∃ b l, b ∈ bs ∧ f b = Ok l ∧ x ∈ l.
Proof.
  unfold gather. rewrite list_elem_of_In, in_flat_map. intros (b & Hb & Hx).
  apply list_elem_of_In in Hb. unfold with_list_timeout in Hx.
  destruct (_ =? 0)%Z; [|destruct (slow b); [done|]];
    (destruct (f b) as [l|] eqn:E; [|done]; exists b, l; split_and!; [done|done|by apply list_elem_of_In]).
Qed.

(** C35: every tool a group endpoint lists can be called there under its listed
    name: when the live namespaces are distinct, none is [hub] and none has a
    double underscore or a trailing one, the call reaches the very backend that
    listed the tool, under the tool's own name, and is answered as that backend answers,
    with its result or its error, unless the call runs out of time or the result is over
    the response cap, each of which is an error of its own. *)
Theorem listed_tool_callable tools ctx s ts s1 gid slug t args a s2 :
  ctx.(parts_endpoint) = Some (proxy.Group gid slug) → ctx.(parts_user) = Some a →
  NoDup (backend.namespace <$> backends_for a.(proxy.user_id)) →
  (∀ b, b ∈ backends_for a.(proxy.user_id) →
     backend.routable b.(backend.namespace) = true ∧ b.(backend.namespace) ≠ "hub") →
  list_tools tools ctx s = (Ok ts, s1) → t ∈ ts →
  ∃ b l t0, reachable_backend ctx a gid b ∧ b.(backend.peer).(list_all_tools) = Ok l ∧ t0 ∈ l ∧
    t.(tool_name) = backend.namespaced b.(backend.namespace) t0.(tool_name) ∧
    (call_tool t.(tool_name) args ctx s2).1 =
      match with_call_timeout b (backend.call_tool b t0.(tool_name) args) with
      | None => Err call_timed_out
      | Some (Err e) => Err (internal_error (error_text e))
      | Some (Ok r) =>
          match check_response_size (bytes r) with Ok _ => Ok r | Err e => Err e end
      end.
Proof.
  intros He Ha Hn Hall Hl Ht. unfold list_tools, list_with in Hl.
  apply bind_Ok in Hl as (e & s3 & [Hep ->]%lift_Ok & Hl).
  apply endpoint_Ok in Hep. rewrite He in Hep. injection Hep as <-.
  apply bind_Ok in Hl as (bs & s4 & (a' & Ha' & -> & ->)%group_backends_Ok & Hl).
  rewrite Ha in Ha'. injection Ha' as <-. apply ret_Ok in Hl as [<- _].
  set (bs := filter _ (backends_for _)) in *.
  apply gather_In in Ht as (b & l & Hb & Hf & Hin).
  apply list_elem_of_filter in Hb as [Hd Hb].
  pose proof (proj1 (list_elem_of_filter _ _ _) Hb) as [Hm Hlive].
  destruct (Hall b Hlive) as (Hr & Hhub).
  unfold backend.list_namespaced_tools, backend.map_ok, context in Hf.
  destruct b.(backend.peer).(list_all_tools) as [l0|] eqn:El; [|done]. injection Hf as <-.
  apply list_elem_of_fmap in Hin as (t0 & -> & Ht0).
  exists b, l0, t0. split_and!; [by split|done|done|done|]. cbn [tool_name].
  assert (NoDup (backend.namespace <$> bs)) as Hnb
    by (eapply sublist_NoDup; [exact Hn|apply fmap_sublist, sublist_filter]).
  assert (group_backends ctx gid s2 = (Ok bs, bind_session a s2)) as Hg.
  { unfold group_backends, bind, authed. by rewrite Ha. }
  unfold call_tool. rewrite (bind_run _ _ _ (proxy.Group gid slug) s2)
    by (unfold lift, endpoint; by rewrite He).
  rewrite (bind_run _ _ _ tt s2) by (by rewrite namespaced_not_management).
  rewrite (bind_run _ _ _ bs (bind_session a s2)) by done.
  rewrite (bind_run _ _ _ (b.(backend.namespace), t0.(tool_name)) (bind_session a s2))
    by (by rewrite backend.split_namespaced).
  rewrite (bind_run _ _ _ b (bind_session a s2)) by (unfold lift; by rewrite find_server_unique).
  unfold Prelude.bind at 1, gets at 1.
  destruct (with_call_timeout b _) as [[r|err]|]; [|done..].
  unfold Prelude.bind, modify, lift, ret. by destruct (check_response_size _).
Qed.

(** The rules for namespaces admit ones with a double or a trailing
    underscore, and every tool of a backend under such a namespace is beyond
    reach: what answers to its listed name, if anything does, is another
    server. *)
Theorem underscore_namespace_misroutes ns t args ctx s r s' gid slug :
  ctx.(parts_endpoint) = Some (proxy.Group gid slug) → backend.routable ns = false →
  call_tool (backend.namespaced ns t) args ctx s = (Ok r, s') →
  ∃ b original, b.(backend.namespace) ≠ ns ∧ backend.call_tool b original args = Ok r.
Proof.
  intros He Hr Hc. destruct (call_tool_Ok _ _ _ _ _ _ _ _ He Hc) as (_ & a & b & o & _ & _ & Hs & Hb).
  exists b, o. split; [|done]. intros <-.
  destruct (backend.split_unroutable b.(backend.namespace) t Hr) as (x & y & Hs' & Hlt).
  rewrite Hs in Hs'. injection Hs' as <- <-. lia.
Qed.

(** ** Two requests on one session *)
(** On its own, a management call runs as the user of its token. *)
Theorem manage_as_caller ctx s a s1 b s2 :
  bind ctx s = (Ok a, s1) → read_bound s1 = (Ok b, s2) →
  ctx.(parts_user) = Some a ∧ b.(user_id) = a.(proxy.user_id).
Proof.
  intros [Ha ->]%server_bind_inv Hb. split; [done|]. unfold read_bound in Hb.
  destruct (bind_session_bound a s) as (b' & E & Hu). m_inv. congruence.
Qed.
(** The binding is read after its lock was released: when another user's
    request on the same session binds in between, the first request's management
    call is dispatched as that other user, with that user's rights. *)
Theorem manage_as_other_user ctx1 ctx2 s a1 a2 s1 s2 name args :
  bind ctx1 s = (Ok a1, s1) → bind ctx2 s1 = (Ok a2, s2) →
  a1.(proxy.user_id) ≠ a2.(proxy.user_id) →
  ∃ b h, read_bound s2 = (Ok b, s2) ∧
    (manage a1 b name args s2).1 =
    dispatch {| caller_user_id := a2.(proxy.user_id); caller_handle := h;
                caller_admin := a2.(proxy.admin); caller_client_id := a1.(proxy.client_id);
                caller_request := a1.(proxy.request) |}
      (default "" (strip_prefix "hub__" name)) args.
Proof.
  intros [_ ->]%server_bind_inv [_ ->]%server_bind_inv Hne.
  destruct (bind_session_bound a1 s) as (b1 & E1 & Hu1).
  set (t := bind_session a1 s) in *. unfold bind_session. rewrite E1. cbn [negb].
  rewrite Hu1. unfold eqs. rewrite bool_decide_false by done. cbn.
  eexists _, _. split; [done|]. unfold manage, Prelude.bind, modify, lift. done.
Qed.

End handler.

(** ** Witnesses *)
Import oauth_witness.
(** The account's group, with its backend in it. *)
Definition db_group : Db :=
  (groups.set_members "u" "g" ["i"] 9 (groups.create "u" "dev" "Dev" "g" 9 db2).2).2.
Lemma wf_db_group : wf db_group.
Proof. apply groups.wf_set_members, groups.wf_group_create, wf_db2. Qed.
Definition ctx0 : RequestContext := {|
  parts_user := Some proxy.authed0; parts_endpoint := Some (proxy.Group "g" "dev") |}.
Definition live (_ : string) : list backend.Backend := [pool.conn0 "i"].
Definition session0 : Session := {| bound := None; client_peers := ∅; counters := ∅; log := [] |}.
Definition nothing (_ : Caller) (_ : string) (_ : Args) : result McpError CallToolResult :=
  Err (invalid_params "unknown").
Abbreviation call0 name := (call_tool cfg0 "k" db_group live (λ _, false) nothing 5 (λ _, 7%Z)
  name None ctx0 session0).

Lemma call_tool_isolated_witness :
  is_management_tool "fs__read" = false ∧
  ∃ b original, reachable_backend db_group live ctx0 proxy.authed0 "g" b ∧
    "fs__read" = backend.namespaced b.(backend.namespace) original ∧
    backend.call_tool b original None = Ok {| is_error := None; content := "read"; structured_content := None |} ∧
    ∃ inst, db_group.(user_server_instances) !! b.(backend.instance_id) = Some inst ∧
      inst.(instance.user_id) = "u".
Proof.
  apply (call_tool_isolated cfg0 "k" db_group live (λ _, false) nothing 5 (λ _, 7%Z)
    "fs__read" None ctx0 session0 {| is_error := None; content := "read"; structured_content := None |}
    (call0 "fs__read").2 "g" "dev" (proxy.GroupSlug "dev") proxy.authed0);
    [apply wf_db_group|reflexivity|reflexivity| |vm_compute; reflexivity].
  split; [reflexivity|]. eexists. split; [vm_compute; reflexivity|reflexivity].
Defined.
Lemma listed_tool_callable_witness :
  ∃ b l t0, reachable_backend db_group live ctx0 proxy.authed0 "g" b ∧
    b.(backend.peer).(list_all_tools) = Ok l ∧ t0 ∈ l ∧
    "fs__read" = backend.namespaced b.(backend.namespace) t0.(tool_name) ∧
    (call0 "fs__read").1 =
      match with_call_timeout cfg0 (λ _, false) b (backend.call_tool b t0.(tool_name) None) with
      | None => Err (call_timed_out cfg0)
      | Some (Err e) => Err (internal_error (error_text e))
      | Some (Ok r) =>
          match check_response_size cfg0 7%Z with Ok _ => Ok r | Err e => Err e end
      end.
Proof.
  apply (listed_tool_callable cfg0 "k" db_group live (λ _, false) nothing 5 (λ _, 7%Z) (λ _, [])
    ctx0 session0 [{| tool_name := "fs__read"; tool_more := "" |}]
    (list_tools cfg0 "k" db_group live (λ _, false) (λ _, []) ctx0 session0).2 "g" "dev"
    {| tool_name := "fs__read"; tool_more := "" |} None proxy.authed0);
    [reflexivity|reflexivity|apply NoDup_singleton| |vm_compute; reflexivity|constructor].
  intros b ->%list_elem_of_singleton. split; [vm_compute; reflexivity|done].
Defined.

(** Two servers, [a] and [a_]: the second one's [read] is the first one's [_read]. *)
Definition named (ns : string) : backend.Backend := {|
  backend.instance_id := "i"; backend.namespace := ns; backend.display_name := ns;
  backend.peer := (pool.conn0 "i").(backend.peer) |}.
Definition crossed (_ : string) : list backend.Backend := [named "a"; named "a_"].
Lemma underscore_namespace_misroutes_witness :
  ∃ b original, b.(backend.namespace) ≠ "a_" ∧
    backend.call_tool b original None = Ok {| is_error := None; content := "_read"; structured_content := None |}.
Proof.
  apply (underscore_namespace_misroutes cfg0 "k" db_group crossed (λ _, false) nothing 5 (λ _, 7%Z)
    "a_" "read" None ctx0 session0 {| is_error := None; content := "_read"; structured_content := None |}
    (call_tool cfg0 "k" db_group crossed (λ _, false) nothing 5 (λ _, 7%Z) "a___read" None ctx0
       session0).2 "g" "dev"); [reflexivity|vm_compute; reflexivity|vm_compute; reflexivity].
Defined.

Definition authed1 : proxy.AuthedUser := {|
  proxy.user_id := "root"; proxy.admin := true; proxy.client_id := None;
  proxy.pat_id := Some "q"; proxy.request := proxy.authed0.(proxy.request) |}.
Definition base (a : proxy.AuthedUser) : RequestContext := {|
  parts_user := Some a; parts_endpoint := Some proxy.Management |}.
Lemma manage_as_caller_witness :
  (base proxy.authed0).(parts_user) = Some proxy.authed0 ∧ "u" = proxy.authed0.(proxy.user_id).
Proof.
  apply (manage_as_caller "k" db2 (base proxy.authed0) session0 proxy.authed0
    (bind "k" db2 (base proxy.authed0) session0).2
    {| user_id := "u"; handle := "u"; admin := proxy.authed0.(proxy.admin) |}
    (bind "k" db2 (base proxy.authed0) session0).2); vm_compute; reflexivity.
Defined.
Lemma manage_as_other_user_witness :
  ∃ b, read_bound (bind "k" db2 (base authed1)
                       (bind "k" db2 (base proxy.authed0) session0).2).2 =
         (Ok b, (bind "k" db2 (base authed1) (bind "k" db2 (base proxy.authed0) session0).2).2) ∧
    (manage (λ cl _ _, Ok {| is_error := None; content := cl.(caller_user_id); structured_content := None |}) 5
       proxy.authed0 b "hub__delete_user" None
       (bind "k" db2 (base authed1) (bind "k" db2 (base proxy.authed0) session0).2).2).1 =
    Ok {| is_error := None; content := "root"; structured_content := None |}.
Proof.
  destruct (manage_as_other_user "k" db2
    (λ cl _ _, Ok {| is_error := None; content := cl.(caller_user_id); structured_content := None |}) 5
    (base proxy.authed0) (base authed1) session0 proxy.authed0 authed1
    (bind "k" db2 (base proxy.authed0) session0).2
    (bind "k" db2 (base authed1) (bind "k" db2 (base proxy.authed0) session0).2).2
    "hub__delete_user" None eq_refl eq_refl ltac:(done)) as (b & h & Hb & Hm).
  exists b. split; [exact Hb|exact Hm].
Defined.

End server.
