(* ===== verification/Management.v ===== *)
(** * The management tools (proxy/management.rs)

    The [hub__] tools of the base endpoint, as handlers over the hub's state: the
    caller's own servers, groups, tokens and credentials, and for administrators
    the accounts and invites.  Ids, codes and nonces a handler draws are given. *)

From S2P Require Import Prelude Strs Trim Schema External Fixtures Json Users Invites Sessions.
From S2P Require Import Tokens Access Groups GitCreds Config Instances InstanceText OauthStore.
From S2P Require Import Status AuditLog ToolTable Sandbox Backend Gitsrc Pool Hub Server.
Open Scope string_scope.
Open Scope hub_scope.

(** ** Account operations shared with the web pages (web.rs) *)
Module accounts.
Import hub.

Definition deactivate_user (uid : string) : M Hub anyhow unit :=
  on_db (users.set_disabled uid true ;;;
         session.delete_all_for_user uid ;;;
         store.revoke_all_user_tokens uid ;;;
         (let* _ := tokens.revoke_all_for_user uid in ret tt)).
Definition purge_user (env_dir uid : string) : M Hub anyhow unit :=
  let* insts := read (instances.list_for_user uid) in
  for_each (λ inst, let iid := inst.(instances.id) in
    on_files (gitsrc.remove_env env_dir iid ;;; backend.remove_home env_dir iid) ;;;
    on_status (status.remove iid)) insts ;;;
  on_db (users.delete uid).
End accounts.

Module management.
Import hub rmcp.
Export tool_table.
Import (notations) json.

Abbreviation McpError := server.McpError.
Abbreviation T A := (M Hub McpError A).
Abbreviation ServerDef := Schema.ServerDef.

Definition invalid_params {A} (m : string) : T A := fail (server.invalid_params m).
Definition invalid_request {A} (m : string) : T A := fail (server.invalid_request m).
Definition internal (e : anyhow) : McpError := server.internal_error (to_string e).
Definition bad_request (e : anyhow) : McpError := server.invalid_params (to_string e).
Definition db_internal {A} (m : M Db anyhow A) : T A := map_err internal (on_db m).
Definition db_bad_request {A} (m : M Db anyhow A) : T A := map_err bad_request (on_db m).

(** ** Arguments *)
Definition str_arg (args : json.JsonObject) (key : string) : option string :=
  v ← json.get args key; json.as_str v.
Definition opt_str (args : json.JsonObject) (key : string) : option string :=
  s ← str_arg args key; if is_empty s then None else Some s.
Definition req_str (args : json.JsonObject) (key : string) : T string :=
  ok_or (opt_str args key) (server.invalid_params ("'" +:+ key +:+ "' is required")).
Definition opt_secs (args : json.JsonObject) (key : string) : T (option Z) :=
  match json.get args key with
  | None | Some json.Null => ret None
  | Some v =>
      let* n := ok_or (json.as_u64 v) (server.invalid_params
        ("'" +:+ key +:+ "' must be a whole number of seconds (0 = no limit)")) in
      ret (Some n)
  end.
Definition require_admin (admin : bool) : T unit :=
  refuse_if (negb admin) (server.invalid_request "this tool requires administrator privileges").
Definition require_client (client_id : option string) : T string :=
  ok_or (c ← client_id; if is_empty c then None else Some c)
    (server.invalid_request "this tool is only available to OAuth-authenticated MCP clients, not personal access tokens").
Definition find_instance (uid ns : string) : T instances.Instance :=
  let* l := read (instances.list_for_user uid) in
  ok_or (List.find (λ i, eqs i.(instances.namespace) ns) l)
    (server.invalid_params ("no server with namespace '" +:+ ns +:+ "'")).

(** ** The tools *)
Definition audit_object (args : json.JsonObject) : string :=
  default "" (head (omap (opt_str args)
    ["namespace"; "handle"; "token_id"; "slug"; "host"; "id"])).

Section tools.
Context `{Machine} `{UrlCrate} `{Shlex} `{Aead} `{Digest} (c : config.Config).
(** What the handler draws: an id, a nonce per variable and one more, an invite
    code; the clock; [serde_json::to_string_pretty]; the parse of a stored snapshot,
    and the JSON of the statistics, whose live inputs are the free slots and the
    session count. *)
Record Drawn := { new_id : string; nonces : string → string; nonce : string; code : string }.
Context (fresh : Drawn) (now : Z) (pretty_json : json.Value → string)
  (parse_snapshot : string → option backend.CapabilitiesSnapshot)
  (stats_json : stats.RuntimeStats → json.Value) (free_slots sessions : Z).

Definition succeed (v : json.Value) : CallToolResult := {|
  is_error := Some false; content := pretty_json v; structured_content := Some v |}.
Definition ok_json (fields : list (string * json.Value)) : T CallToolResult :=
  ret (succeed (json.object fields)).
Abbreviation env_dir := c.(config.env_dir).

Definition whoami (uid : string) : T CallToolResult :=
  let* user := db_internal (users.find_by_id uid) in
  let* user := ok_or user (server.invalid_request "user not found") in
  let* servers := read (instances.list_for_user uid) in
  ok_json [("handle", json.Str user.(users.handle));
           ("display_name", json.Str user.(users.display_name));
           ("admin", json.Bool user.(users.is_admin));
           ("servers", json.Array (map (λ i, json.object
              [("namespace", json.Str i.(instances.namespace));
               ("enabled", json.Bool i.(instances.enabled))]) servers))].

(** *** The calling client *)
Definition get_my_client (uid : string) (client_id : option string) : T CallToolResult :=
  let* cid := require_client client_id in
  let* label := read (store.get_client_label uid cid) in
  let* client := read (store.get_client cid) in
  ok_json [("client_id", json.Str cid);
           ("registered_name", json.opt json.Str (cl ← client; cl.(store.client_name)));
           ("name", json.Str label.1); ("note", json.Str label.2)].
Definition set_my_client (uid : string) (client_id : option string) (args : json.JsonObject)
    : T CallToolResult :=
  let* cid := require_client client_id in
  let* connected := read (store.user_has_connection uid cid now) in
  refuse_if (negb connected)
    (server.invalid_request "this client is not currently connected to your account") ;;;
  let* label := read (store.get_client_label uid cid) in
  let n := str_arg args "name" in
  let t := str_arg args "note" in
  let name := match n with Some n => take_chars 60 (trim n) | None => label.1 end in
  let note := match t with Some t => take_chars 200 (trim t) | None => label.2 end in
  refuse_if (bool_decide (n = None) && bool_decide (t = None))
    (server.invalid_params "provide 'name' and/or 'note' to set") ;;;
  db_internal (store.set_client_label uid cid name note now) ;;;
  ok_json [("client_id", json.Str cid); ("name", json.Str name); ("note", json.Str note)].

(** *** The caller's servers *)
Definition server_json (uid : string) (h : Hub) (i : instances.Instance) : json.Value :=
  let def := ok (instances.resolve_def i ()).1 in
  let command := d ← def; gitsrc.resolved_command h.(files) env_dir i d in
  let rs := status.get i.(instances.id) h.(runtime_status) in
  let host := d ← def; r ← d.(Schema.repo);
    match (gitcreds.find uid r h.(db)).1 with
    | Ok found => gitcreds.host <$> found
    | Err _ => None
    end in
  json.object
    [("namespace", json.Str i.(instances.namespace));
     ("display_name", json.Str i.(instances.display_name));
     ("enabled", json.Bool i.(instances.enabled));
     ("transport", json.opt (λ d, json.Str d.(transport)) def);
     ("url", json.opt json.Str (d ← def; d.(url)));
     ("repo", json.opt json.Str (d ← def; d.(Schema.repo)));
     ("connect_timeout_secs", json.opt json.num (d ← def; d.(connect_timeout_secs)));
     ("command", json.opt (λ pa, json.strs (pa.1 :: pa.2)) command);
     ("env_keys", json.strs (instances.secret_names i.(instances.id) h.(db)));
     ("build_status", json.Str i.(instances.build_status));
     ("built_commit", json.opt json.Str i.(instances.built_commit));
     ("git_credential_host", json.opt json.Str host);
     ("runtime_status", json.Str match rs with
        | Some s => status.as_str s.(status.state) | None => "unknown" end);
     ("runtime_detail", json.opt json.Str (s ← rs; s.(status.detail)));
     ("runtime_checked_at", json.opt (λ s, json.num s.(status.checked_at)) rs)].
Definition list_my_servers (uid : string) : T CallToolResult :=
  let* l := read (instances.list_for_user uid) in
  let* out := gets (λ h, map (server_json uid h) l) in
  ok_json [("servers", json.Array out)].

Definition new_def (name transport : string) (command : option string) (args : list string)
    (url repo git_ref : option string) (timeout : option Z) : ServerDef := {|
  Schema.name := name; description := ""; Schema.transport := transport;
  Schema.command := command; Schema.args := args; Schema.url := url; runtime := "";
  Schema.repo := repo; Schema.git_ref := git_ref; entry := None; module := None;
  connect_timeout_secs := timeout |}.
Definition parse_command_arg (line : string) : T (option string * list string) :=
  map_err bad_request (lift (text.parse_command line)).
Definition check_repo (repo : string) : T unit :=
  refuse_if (bool_decide (url_parse repo = None)) (server.invalid_params "repo must be a valid URL").
Definition def_from_args (args : json.JsonObject) (display_name : string) : T ServerDef :=
  let* transport := req_str args "transport" in
  let* timeout := opt_secs args "connect_timeout_secs" in
  refuse_if (negb (one_of ["stdio"; "http"] transport))
    (server.invalid_params "transport must be stdio or http") ;;;
  if eqs transport "http" then
    let* url := req_str args "url" in
    map_err bad_request (lift (text.validate_remote_url url)) ;;;
    ret (new_def display_name transport None [] (Some url) None None timeout)
  else
    let* line := req_str args "command" in
    let* parsed := parse_command_arg line in
    let '(command, cmd_args) := parsed in
    refuse_if (bool_decide (command = None))
      (server.invalid_params "a command line is required") ;;;
    let repo := opt_str args "repo" in
    match repo with Some r => check_repo r | None => ret tt end ;;;
    let git_ref := _ ← repo; Some (default "main" (opt_str args "git_ref")) in
    ret (new_def display_name transport command cmd_args None repo git_ref timeout).

(** The map is written out as an env block, and parsed. *)
Fixpoint env_text (fields : list (string * json.Value)) : T string :=
  match fields with
  | [] => ret ""
  | (k, v) :: rest =>
      let* value := ok_or (json.as_str v)
        (server.invalid_params ("env '" +:+ k +:+ "' must be a string")) in
      let* text := env_text rest in
      ret (k +:+ "=" +:+ value +:+ text.newline +:+ text)
  end.
Definition env_from_args (args : json.JsonObject) : T (gmap string string) :=
  match json.get args "env" with
  | None => ret ∅
  | Some v =>
      let* fields := ok_or (json.as_object v) (server.invalid_params "'env' must be an object") in
      let* block := env_text fields in
      map_err bad_request (lift (text.parse_env block))
  end.

(** The server set of the user changed. *)
Definition servers_changed (uid : string) : T unit :=
  mark_dirty uid ;;; notify_tools_changed uid.
Definition add_server (uid : string) (args : json.JsonObject) : T CallToolResult :=
  let* ns := req_str args "namespace" in
  let display_name := default ns (opt_str args "display_name") in
  let* def := def_from_args args display_name in
  let* env := env_from_args args in
  let* inst := db_bad_request
    (instances.create uid (Some def) ns display_name fresh.(new_id) now) in
  db_internal (instances.replace_env fresh.(nonces) inst.(instances.id) env) ;;;
  match opt_str args "config_file" with
  | Some content =>
      db_internal (instances.set_config_file inst.(instances.id) content fresh.(nonce))
  | None => ret tt
  end ;;;
  servers_changed uid ;;;
  ok_json [("added", json.Bool true); ("namespace", json.Str inst.(instances.namespace))].

Definition with_parts (def : ServerDef) (command : option string) (args : list string)
    (url repo git_ref : option string) (timeout : option Z) : ServerDef := {|
  Schema.name := def.(Schema.name); description := def.(description);
  Schema.transport := def.(transport); Schema.command := command; Schema.args := args;
  Schema.url := url; runtime := def.(runtime); Schema.repo := repo; Schema.git_ref := git_ref;
  entry := def.(entry); module := def.(module); connect_timeout_secs := timeout |}.
Definition restart_if_enabled (inst : instances.Instance) (uid : string) : T unit :=
  if inst.(instances.enabled) then restart_backend inst.(instances.id) uid else ret tt.
Definition edit_server (uid : string) (args : json.JsonObject) : T CallToolResult :=
  let* ns := req_str args "namespace" in
  let* inst := find_instance uid ns in
  let* def := map_err internal (instances.resolve_def inst) in
  let* cmd := match opt_str args "command" with
    | Some line => parse_command_arg line
    | None => ret (def.(Schema.command), def.(Schema.args))
    end in
  let* url := match opt_str args "url" with
    | Some u => map_err bad_request (lift (text.validate_remote_url u)) ;;; ret (Some u)
    | None => ret def.(url)
    end in
  let* src := match opt_str args "repo" with
    | Some r => check_repo r ;;; ret (Some r, Some (default "main" def.(Schema.git_ref)))
    | None => ret (def.(Schema.repo), def.(Schema.git_ref))
    end in
  let git_ref := match opt_str args "git_ref" with Some g => Some g | None => src.2 end in
  let* timeout := match json.get args "connect_timeout_secs" with
    | Some _ => opt_secs args "connect_timeout_secs"
    | None => ret def.(connect_timeout_secs)
    end in
  db_internal (instances.update_def inst.(instances.id)
    (with_parts def cmd.1 cmd.2 url src.1 git_ref timeout)) ;;;
  restart_if_enabled inst uid ;;;
  ok_json [("edited", json.Bool true); ("namespace", json.Str ns);
           ("restarted", json.Bool inst.(instances.enabled))].

Definition set_env (uid : string) (args : json.JsonObject) : T CallToolResult :=
  let* ns := req_str args "namespace" in
  let* inst := find_instance uid ns in
  let* env := env_from_args args in
  db_internal (instances.replace_env fresh.(nonces) inst.(instances.id) env) ;;;
  restart_if_enabled inst uid ;;;
  ok_json [("set", json.Bool true); ("namespace", json.Str ns);
           ("keys", json.strs (text.sorted_entries env).*1);
           ("restarted", json.Bool inst.(instances.enabled))].

Definition set_config_file (uid : string) (args : json.JsonObject) : T CallToolResult :=
  let* ns := req_str args "namespace" in
  let* inst := find_instance uid ns in
  let iid := inst.(instances.id) in
  let* verb := match opt_str args "content" with
    | None =>
        db_internal (instances.clear_config_file iid) ;;;
        map_err internal (on_files (backend.remove_workdir env_dir iid)) ;;;
        ret "cleared"
    | Some content =>
        db_internal (instances.set_config_file iid content fresh.(nonce)) ;;; ret "set"
    end in
  restart_if_enabled inst uid ;;;
  ok_json [("namespace", json.Str ns); (verb, json.Bool true);
           ("restarted", json.Bool inst.(instances.enabled))].

Definition update_server (uid : string) (args : json.JsonObject) : T CallToolResult :=
  let* ns := req_str args "namespace" in
  let* inst := find_instance uid ns in
  let* def := map_err internal (instances.resolve_def inst) in
  refuse_if (negb (gitsrc.is_git_source def))
    (server.invalid_params ("'" +:+ ns +:+ "' is not a git-sourced server")) ;;;
  let* sb := map_err internal (on_db_files (sandbox.sandbox_or_fail hub_uid dir_mode is_root
    c.(config.sandbox_uid_base) env_dir uid)) in
  let* report := map_err bad_request (on_build (gitsrc.update_instance hub_uid dir_mode hub_env
    output coreutils symlink_metadata canonicalize env_dir inst def sb now)) in
  let restarted := report.(gitsrc.changed) && inst.(instances.enabled) in
  (if restarted then restart_backend inst.(instances.id) uid else ret tt) ;;;
  ok_json [("namespace", json.Str ns); ("updated", json.Bool report.(gitsrc.changed));
           ("restarted", json.Bool restarted); ("commit", json.Str report.(gitsrc.commit));
           ("previous_commit", json.opt json.Str report.(gitsrc.previous_commit));
           ("note", json.Str
             (if restarted then "rebuilt; the running server is being relaunched and live sessions were told to re-list"
              else if report.(gitsrc.changed)
              then "rebuilt; the server is disabled and will run the new build once enabled"
              else "already up to date"))].

Definition set_enabled (uid : string) (args : json.JsonObject) (enabled : bool)
    : T CallToolResult :=
  let* ns := req_str args "namespace" in
  let* inst := find_instance uid ns in
  db_internal (instances.set_enabled inst.(instances.id) enabled) ;;;
  (if enabled then ret tt else on_status (status.remove inst.(instances.id))) ;;;
  servers_changed uid ;;;
  ok_json [("namespace", json.Str ns); ("enabled", json.Bool enabled)].

(** The files of an instance: its build, its working directory, its home. *)
Definition remove_files (iid : string) : M fs.Fs anyhow unit :=
  gitsrc.remove_env env_dir iid ;;; backend.remove_workdir env_dir iid ;;;
  backend.remove_home env_dir iid.
Definition remove (uid : string) (args : json.JsonObject) : T CallToolResult :=
  let* ns := req_str args "namespace" in
  let* inst := find_instance uid ns in
  db_internal (instances.delete inst.(instances.id)) ;;;
  on_status (status.remove inst.(instances.id)) ;;;
  map_err internal (on_files (remove_files inst.(instances.id))) ;;;
  servers_changed uid ;;;
  ok_json [("removed", json.Bool true); ("namespace", json.Str ns)].

(** *** Tokens and git credentials *)
Definition list_tokens (uid : string) : T CallToolResult :=
  let* l := read (tokens.list_for_user uid) in
  ok_json [("tokens", json.Array (map (λ t, json.object
    [("id", json.Str t.(tokens.id)); ("name", json.Str t.(tokens.name));
     ("created_at", json.num t.(tokens.created_at));
     ("last_used_at", json.opt json.num t.(tokens.last_used_at));
     ("expires_at", json.num t.(tokens.expires_at))]) l))].
Definition revoke_token (uid : string) (args : json.JsonObject) : T CallToolResult :=
  let* tid := req_str args "token_id" in
  let* revoked := db_internal (tokens.revoke uid tid) in
  ok_json [("revoked", json.Bool revoked)].

Definition list_git_credentials (uid : string) : T CallToolResult :=
  let* l := read (gitcreds.list_for_user uid) in
  ok_json [("git_credentials", json.Array (map (λ g, json.object
    [("host", json.Str g.(gitcreds.host));
     ("username", json.Str (if is_empty g.(gitcreds.username) then gitcreds.DEFAULT_USERNAME
                            else g.(gitcreds.username)));
     ("label", json.Str g.(gitcreds.label)); ("created_at", json.num g.(gitcreds.created_at));
     ("updated_at", json.num g.(gitcreds.updated_at));
     ("last_used_at", json.opt json.num g.(gitcreds.last_used_at))]) l))].
Definition set_git_credential (uid : string) (args : json.JsonObject) : T CallToolResult :=
  let* host := req_str args "host" in
  let* token := req_str args "token" in
  let* cred := db_bad_request (gitcreds.upsert uid host (default "" (opt_str args "username"))
    (default "" (opt_str args "label")) token fresh.(new_id) fresh.(nonce) now) in
  ok_json [("host", json.Str cred.(gitcreds.host)); ("stored", json.Bool true)].
Definition delete_git_credential (uid : string) (args : json.JsonObject) : T CallToolResult :=
  let* host := req_str args "host" in
  let* deleted := db_bad_request (gitcreds.delete uid host) in
  ok_json [("host", json.Str host); ("deleted", json.Bool deleted)].

(** *** Administration *)
Definition runtime_stats : T CallToolResult :=
  let* s := gets (λ h, let n := pool.counts h.(pools) in
    stats.gather c.(config.limits) free_slots sessions (Z.of_nat n.1, Z.of_nat n.2)
      h.(runtime_status) h.(db)) in
  ret (succeed (stats_json s)).
Definition list_users : T CallToolResult :=
  let* l := read users.list in
  ok_json [("users", json.Array (map (λ u, json.object
    [("handle", json.Str u.(users.handle)); ("display_name", json.Str u.(users.display_name));
     ("admin", json.Bool u.(users.is_admin)); ("disabled", json.Bool u.(users.disabled))]) l))].
Definition by_handle (h : string) : T users.User :=
  let* found := db_internal (users.find_by_handle h) in
  ok_or found (server.invalid_params ("no user with handle '" +:+ h +:+ "'")).
(** The target exists, is not the caller, and is not the last administrator. *)
Definition admin_target (caller h : string) : T users.User :=
  let* target := by_handle h in
  refuse_if (eqs target.(users.id) caller)
    (server.invalid_params "you cannot disable or delete your own account") ;;;
  let* admins := read users.count_admins in
  refuse_if (target.(users.is_admin) && (admins <=? 1)%nat)
    (server.invalid_params "cannot disable or delete the last administrator") ;;;
  ret target.
Definition set_user_disabled (caller : string) (args : json.JsonObject) (disabled : bool)
    : T CallToolResult :=
  let* handle := req_str args "handle" in
  (if disabled then
     let* target := admin_target caller handle in
     map_err internal (accounts.deactivate_user target.(users.id))
   else
     let* target := by_handle handle in
     db_internal (users.set_disabled target.(users.id) false)) ;;;
  ok_json [("handle", json.Str handle); ("disabled", json.Bool disabled)].
Definition delete_user (caller : string) (args : json.JsonObject) : T CallToolResult :=
  let* handle := req_str args "handle" in
  let* target := admin_target caller handle in
  map_err internal (accounts.purge_user env_dir target.(users.id)) ;;;
  ok_json [("deleted", json.Bool true); ("handle", json.Str handle)].

Definition create_invite (uid : string) (args : json.JsonObject) : T CallToolResult :=
  let* made := db_internal
    (invites.create uid (default "" (opt_str args "note")) fresh.(code) now) in
  ok_json [("created", json.Bool true); ("code", json.Str made.1);
           ("id", json.Str (invites.short_id made.2)); ("note", json.Str made.2.(invites.note));
           ("note_advice", json.Str "single-use; this code is shown only once and cannot be retrieved later")].
Definition list_invites : T CallToolResult :=
  let* l := read invites.list in
  ok_json [("invites", json.Array (map (λ i, json.object
    [("id", json.Str (invites.short_id i)); ("note", json.Str i.(invites.note));
     ("used", json.Bool (invites.used i)); ("created_at", json.num i.(invites.created_at));
     ("used_at", json.opt json.num i.(invites.used_at))]) l))].
Definition revoke_invite (args : json.JsonObject) : T CallToolResult :=
  let* id := req_str args "id" in
  let* revoked := db_internal (invites.revoke id) in
  if revoked : bool then ok_json [("revoked", json.Bool true); ("id", json.Str id)]
  else invalid_params
    ("no unused invite with id '" +:+ id +:+ "' (used invites cannot be revoked)").
Definition create_recovery (uid : string) (args : json.JsonObject) : T CallToolResult :=
  let* handle := req_str args "handle" in
  let* target := by_handle handle in
  let* made := db_internal
    (invites.create_recovery uid target.(users.id) fresh.(code) now) in
  ok_json [("created", json.Bool true); ("code", json.Str made.1);
           ("id", json.Str (invites.short_id made.2));
           ("for_handle", json.Str target.(users.handle));
           ("redeem_at", json.Str (c.(config.base_url) +:+ "/recover"));
           ("advice", json.Str "single-use; shown only once. The user enrolls a new passkey with their handle and this code.")].

(** *** Connector groups *)
Definition tool_count (d : Db) (i : instances.Instance) : option Z :=
  r ← d.(user_server_instances) !! i.(instances.id); j ← r.(instance.capabilities_json);
  s ← parse_snapshot j; Some (Z.of_nat (length s.(backend.tools))).
(** An unprobed member makes the total unknowable. *)
Definition total_count (counts : list (option Z)) : option Z :=
  fold_left (λ total n, t ← total; n ← n; Some (t + n)%Z) counts (Some 0%Z).
Definition group_json (d : Db) (instances : list instances.Instance) (g : groups.Group)
    : json.Value :=
  let members := merge_sort (by_text instances.namespace)
    (filter (λ i, i.(instances.id) ∈ groups.member_instance_ids g.(groups.id) d) instances) in
  let total := total_count (map (tool_count d) members) in
  json.object
    [("slug", json.Str g.(groups.slug)); ("name", json.Str g.(groups.name));
     ("connector_url", json.Str (config.group_mcp_url c g.(groups.slug)));
     ("servers", json.Array (map (λ i, json.object
        [("namespace", json.Str i.(instances.namespace));
         ("tool_count", json.opt json.num (tool_count d i))]) members));
     ("total_tool_count", json.opt json.num total);
     ("fits_claude_ai", json.opt (λ t, json.Bool (t <=? 256)%Z) total);
     ("note", json.Str "tool counts come from each server's last connect or capability probe")].
Definition list_groups (uid : string) : T CallToolResult :=
  let* l := read (groups.list_for_user uid) in
  let* instances := read (instances.list_for_user uid) in
  let* out := read (λ d, map (group_json d instances) l) in
  ok_json [("groups", json.Array out);
           ("usage", json.Str "add a group's connector_url to your MCP client as its own connector; the base /mcp endpoint serves only these hub__ management tools")].

(** An unknown namespace is an error, not a silent drop. *)
Fixpoint instance_ids (uid : string) (entries : list json.Value) : T (list string) :=
  match entries with
  | [] => ret []
  | e :: rest =>
      let* ns := ok_or (json.as_str e)
        (server.invalid_params "'servers' entries must be strings") in
      let* i := find_instance uid ns in
      let* ids := instance_ids uid rest in
      ret (i.(instances.id) :: ids)
  end.
Definition instance_ids_from_args (uid : string) (args : json.JsonObject)
    : T (option (list string)) :=
  match json.get args "servers" with
  | None => ret None
  | Some v =>
      let* l := ok_or (json.as_array v)
        (server.invalid_params "'servers' must be an array of namespaces") in
      let* ids := instance_ids uid l in
      ret (Some ids)
  end.
Definition put_members (uid gid : string) (ids : option (list string)) : T unit :=
  match ids with
  | Some ids => db_internal (groups.set_members uid gid ids now)
  | None => ret tt
  end.
Definition create_group (uid : string) (args : json.JsonObject) : T CallToolResult :=
  let* slug := req_str args "slug" in
  let name := default "" (opt_str args "name") in
  let* ids := instance_ids_from_args uid args in
  let* group := db_bad_request (groups.create uid slug name fresh.(new_id) now) in
  put_members uid group.(groups.id) ids ;;;
  notify_tools_changed uid ;;;
  ok_json [("created", json.Bool true); ("slug", json.Str group.(groups.slug));
           ("connector_url", json.Str (config.group_mcp_url c group.(groups.slug)));
           ("next_step", json.Str "add the connector_url to your MCP client as a new connector and authenticate")].
Definition find_group (uid slug : string) : T groups.Group :=
  let* found := read (groups.find_by_slug uid slug) in
  ok_or found (server.invalid_params ("no group with slug '" +:+ slug +:+ "'")).
Definition update_group (uid : string) (args : json.JsonObject) : T CallToolResult :=
  let* slug := req_str args "slug" in
  let* group := find_group uid slug in
  let* ids := instance_ids_from_args uid args in
  let name := opt_str args "name" in
  refuse_if (bool_decide (ids = None) && bool_decide (name = None))
    (server.invalid_params "provide 'name' and/or 'servers' to update") ;;;
  match name with
  | Some name => let* _ := db_internal (groups.rename uid group.(groups.id) name) in ret tt
  | None => ret tt
  end ;;;
  put_members uid group.(groups.id) ids ;;;
  notify_tools_changed uid ;;;
  ok_json [("updated", json.Bool true); ("slug", json.Str slug)].
Definition delete_group (uid : string) (args : json.JsonObject) : T CallToolResult :=
  let* slug := req_str args "slug" in
  let* group := find_group uid slug in
  let* _ := db_internal (groups.delete uid group.(groups.id)) in
  notify_tools_changed uid ;;;
  ok_json [("deleted", json.Bool true); ("slug", json.Str slug)].

(** ** The dispatcher *)
Definition run (caller : server.Caller) (op : string) (args : json.JsonObject)
    : T CallToolResult :=
  let uid := caller.(server.caller_user_id) in
  let client_id := caller.(server.caller_client_id) in
  let as_admin (t : T CallToolResult) : T CallToolResult :=
    require_admin caller.(server.caller_admin) ;;; t in
  if eqs op "whoami" then whoami uid
  else if eqs op "get_my_client" then get_my_client uid client_id
  else if eqs op "set_my_client" then set_my_client uid client_id args
  else if eqs op "list_my_servers" then list_my_servers uid
  else if eqs op "add_server" then add_server uid args
  else if eqs op "edit_server" then edit_server uid args
  else if eqs op "set_env" then set_env uid args
  else if eqs op "set_config_file" then set_config_file uid args
  else if eqs op "update_server" then update_server uid args
  else if eqs op "enable" then set_enabled uid args true
  else if eqs op "disable" then set_enabled uid args false
  else if eqs op "remove" then remove uid args
  else if eqs op "list_tokens" then list_tokens uid
  else if eqs op "revoke_token" then revoke_token uid args
  else if eqs op "list_git_credentials" then list_git_credentials uid
  else if eqs op "set_git_credential" then set_git_credential uid args
  else if eqs op "delete_git_credential" then delete_git_credential uid args
  else if eqs op "list_groups" then list_groups uid
  else if eqs op "create_group" then create_group uid args
  else if eqs op "update_group" then update_group uid args
  else if eqs op "delete_group" then delete_group uid args
  else if eqs op "runtime_stats" then as_admin runtime_stats
  else if eqs op "list_users" then as_admin list_users
  else if eqs op "create_invite" then as_admin (create_invite uid args)
  else if eqs op "list_invites" then as_admin list_invites
  else if eqs op "revoke_invite" then as_admin (revoke_invite args)
  else if eqs op "create_recovery" then as_admin (create_recovery uid args)
  else if eqs op "disable_user" then as_admin (set_user_disabled uid args true)
  else if eqs op "enable_user" then as_admin (set_user_disabled uid args false)
  else if eqs op "delete_user" then as_admin (delete_user uid args)
  else invalid_params ("unknown management tool 'hub__" +:+ op +:+ "'").

(** The outcome of a call in the audit log. *)
Definition outcome (r : result McpError CallToolResult) (e : audit.Event) : audit.Entry :=
  match r with
  | Ok r => if bool_decide (r.(is_error) = Some true) then audit.failed "tool_error" e
            else audit.ok e
  | Err e' => audit.failed e'.(server.message) e
  end.
Definition event_of (caller : server.Caller) (op action : string) (args : json.JsonObject)
    : audit.Event :=
  audit.with_object (if eqs op "set_my_client" then default "" caller.(server.caller_client_id)
                     else audit_object args)
    (audit.request caller.(server.caller_request)
      (audit.with_client_id caller.(server.caller_client_id)
        (audit.as_actor caller.(server.caller_handle) caller.(server.caller_user_id)
          (audit.event action)))).
Definition dispatch (caller : server.Caller) (op : string) (args : option json.JsonObject)
    : T CallToolResult :=
  let args := default [] args in
  catch (run caller op args) (λ result,
    match action_for op with
    | Some action => hub.audit (outcome result (event_of caller op action args))
    | None => ret tt
    end ;;;
    lift result).
End tools.
End management.
