(* ===== verification/Isolation.v ===== *)
(** * What a management call may do

    The tools of a caller without administrator rights change that caller's rows
    only; administrators' tools keep the database well formed; every mutating call
    leaves exactly one audit entry. *)

From S2P Require Import Prelude Strs Schema External Fixtures Json Users Invites Sessions Tokens.
From S2P Require Import Groups GitCreds Config Instances InstanceText OauthStore Status AuditLog.
From S2P Require Import Sandbox Backend Gitsrc Pool Tenancy Hub Server OauthServer Management.
Open Scope string_scope.
Open Scope hub_scope.

Module isolation.
Import hub rmcp management tenancy.

Lemma elem_of_list_for_user uid d i :
  i ∈ instances.list_for_user uid d →
  i.(instances.user_id) = uid ∧ own_instance uid d i.(instances.id).
Proof.
  unfold instances.list_for_user. rewrite merge_sort_Permutation, list_elem_of_fmap.
  intros ([k r] & -> & Hin). apply list_elem_of_filter in Hin as [Hu Hin]. cbn in *.
  split; [done|]. apply elem_of_map_to_list in Hin. by eapply owned.
Qed.

(** Every pool but [uid]'s is as it was. *)
Definition other_pools (uid : string) (p0 p : pool.Users) : Prop := ∀ u, u ≠ uid → p !! u = p0 !! u.
Lemma other_pools_dirty uid p0 p :
  other_pools uid p0 p → other_pools uid p0 (alter pool.mark_dirty uid p).
Proof. intros Hp u Hu. rewrite lookup_alter_ne by done. by apply Hp. Qed.
#[global] Hint Resolve other_pools_dirty : hub.

Section tools.
Context `{Machine} `{UrlCrate} `{Shlex} `{Aead} `{Digest} (c : config.Config).
Context (fresh : Drawn) (now : Z) (pretty_json : json.Value → string)
  (parse_snapshot : string → option backend.CapabilitiesSnapshot)
  (stats_json : stats.RuntimeStats → json.Value) (free_slots sessions : Z).

(** ** The caller's own tools *)
Section own.
Context (uid : string) (d0 : Db) (P : pool.Users → Prop) (L : list audit.Entry → Prop).
Context (HP : ∀ p, P p → P (alter pool.mark_dirty uid p)).
Definition I : Hub → Prop := kept (D uid d0) P L.
Abbreviation keeps := (preserves I).
Abbreviation own := (own_instance uid d0).

Lemma keeps_db {E A} (m : M Db E A) : preserves (D uid d0) m → keeps (on_db m).
Proof. apply kept_on_db. Qed.
Lemma keeps_db_internal {A} (m : M Db anyhow A) : preserves (D uid d0) m → keeps (db_internal m).
Proof. intros Hm. by apply preserves_map_err, keeps_db. Qed.
Lemma keeps_db_bad_request {A} (m : M Db anyhow A) :
  preserves (D uid d0) m → keeps (db_bad_request m).
Proof. intros Hm. by apply preserves_map_err, keeps_db. Qed.
Lemma keeps_mark_dirty {E} : keeps (mark_dirty (E:=E) uid).
Proof. by apply kept_mark_dirty. Qed.
Lemma keeps_read {E A} (f : Db → A) : keeps (read (E:=E) f).
Proof. apply kept_read. Qed.
Lemma keeps_ok_json fields : keeps (ok_json pretty_json fields).
Proof. apply preserves_ret. Qed.
Lemma keeps_req_str args k : keeps (req_str args k).
Proof. apply preserves_ok_or. Qed.
Lemma keeps_opt_secs args k : keeps (opt_secs args k).
Proof. unfold opt_secs. destruct (json.get args k) as [[]|]; auto with hub. Qed.
Lemma keeps_notify {E} u : keeps (notify_tools_changed (E:=E) u).
Proof. apply kept_notify. Qed.
Lemma keeps_restart {E} iid u : keeps (restart_backend (E:=E) iid u).
Proof. apply kept_restart. Qed.
Lemma keeps_servers_changed : keeps (servers_changed uid).
Proof. apply preserves_bind; [apply keeps_mark_dirty|]. intros _. apply keeps_notify. Qed.
Lemma keeps_restart_if_enabled i : keeps (restart_if_enabled i uid).
Proof. unfold restart_if_enabled. destruct (instances.enabled i); auto using keeps_restart with hub. Qed.
Hint Resolve keeps_db_internal keeps_db_bad_request keeps_mark_dirty keeps_read keeps_ok_json
  keeps_req_str keeps_opt_secs keeps_notify keeps_restart keeps_servers_changed
  keeps_restart_if_enabled : hub.

(** A server the caller names is the caller's. *)
Lemma keeps_find_instance {B} ns (k : instances.Instance → T B) :
  (∀ i, i.(instances.user_id) = uid → own i.(instances.id) → keeps (k i)) →
  keeps (bind (find_instance uid ns) k).
Proof.
  intros Hk. eapply preserves_bind_res with (Q := λ i, i.(instances.user_id) = uid ∧ own i.(instances.id)).
  - apply preserves_bind; auto with hub.
  - intros h i h' [[_ Hf] _] Hr. unfold find_instance, read in Hr. m_inv.
    rename select (List.find _ _ = _) into Hi. apply find_some in Hi as [Hin _].
    apply list_elem_of_In, elem_of_list_for_user in Hin as [Hu Ho]. split; [done|].
    by apply (own_same uid d0 _ _ Hf).
  - intros i [? ?]. auto.
Qed.

(** Step through a handler. *)
Ltac step :=
  match goal with
  | |- preserves _ (bind (find_instance _ _) _) => apply keeps_find_instance; intros ? ? ?
  | |- preserves _ (bind _ _) => apply preserves_bind; [|intros ?]
  | |- preserves _ (match ?x with _ => _ end) => destruct x
  | |- preserves _ (map_err _ _) => apply preserves_map_err
  | _ => solve [auto with hub]
  end.
Ltac steps := repeat step.

Lemma keeps_parse_command_arg line : keeps (parse_command_arg line).
Proof. apply preserves_map_err, preserves_lift. Qed.
Lemma keeps_check_repo r : keeps (check_repo r).
Proof. apply preserves_refuse_if. Qed.
Lemma keeps_resolve_def i : keeps (instances.resolve_def i).
Proof. apply preserves_ok_or. Qed.
Hint Resolve keeps_parse_command_arg keeps_check_repo keeps_resolve_def : hub.
Lemma keeps_def_from_args args nm : keeps (def_from_args args nm).
Proof. unfold def_from_args. steps. Qed.
Lemma keeps_env_from_args args : keeps (env_from_args args).
Proof.
  unfold env_from_args. assert (∀ f, keeps (env_text f)) as He.
  { induction f as [|[k v] f IH]; cbn; steps. }
  steps.
Qed.
Hint Resolve keeps_def_from_args keeps_env_from_args : hub.

Lemma keeps_add_server args : keeps (add_server fresh now pretty_json uid args).
Proof.
  unfold add_server. do 3 (apply preserves_bind; [solve [auto with hub]|intros ?]).
  eapply preserves_bind_res with (Q := λ i, own i.(instances.id)); [auto with hub| |].
  - intros h i h' [Hd _] Hr. apply map_err_Ok in Hr. unfold on_db in Hr.
    destruct (instances.create _ _ _ _ _ _ _) as [r d'] eqn:E. cbn in Hr. simplify_eq.
    by eapply own_create_instance.
  - intros i Ho. steps.
Qed.
Lemma keeps_edit_server args : keeps (edit_server pretty_json uid args).
Proof. unfold edit_server. steps. Qed.
Lemma keeps_set_env args : keeps (set_env fresh pretty_json uid args).
Proof. unfold set_env. steps. Qed.
Lemma keeps_set_config_file args : keeps (set_config_file c fresh pretty_json uid args).
Proof. unfold set_config_file. steps. apply kept_on_files. Qed.
Lemma keeps_update_server args : keeps (update_server c now pretty_json uid args).
Proof.
  unfold update_server. steps.
  - apply kept_on_db_files, sandbox.preserves_sandbox_or_fail.
  - apply kept_on_build. by apply keeps_update_instance.
Qed.
Lemma keeps_set_enabled args b : keeps (set_enabled pretty_json uid args b).
Proof. unfold set_enabled. steps. apply kept_on_status. Qed.
Lemma keeps_remove args : keeps (remove c pretty_json uid args).
Proof. unfold remove. steps; [apply kept_on_status|apply kept_on_files]. Qed.
Lemma keeps_set_my_client cid args : keeps (set_my_client now pretty_json uid cid args).
Proof. unfold set_my_client, require_client. steps. Qed.
Lemma keeps_revoke_token args : keeps (revoke_token pretty_json uid args).
Proof. unfold revoke_token. steps. Qed.
Lemma keeps_set_git_credential args : keeps (set_git_credential fresh now pretty_json uid args).
Proof. unfold set_git_credential. steps. Qed.
Lemma keeps_delete_git_credential args : keeps (delete_git_credential pretty_json uid args).
Proof. unfold delete_git_credential. steps. Qed.

Lemma keeps_instance_ids_from_args args : keeps (instance_ids_from_args uid args).
Proof.
  unfold instance_ids_from_args. assert (∀ v, keeps (instance_ids uid v)) as He.
  { induction v as [|e v IH]; cbn; steps. }
  steps.
Qed.
Lemma keeps_put_members gid ids : keeps (put_members now uid gid ids).
Proof. unfold put_members. steps. Qed.
Lemma keeps_find_group s : keeps (find_group uid s).
Proof. unfold find_group. steps. Qed.
Hint Resolve keeps_instance_ids_from_args keeps_put_members keeps_find_group : hub.
Lemma keeps_create_group args : keeps (create_group c fresh now pretty_json uid args).
Proof. unfold create_group. steps. Qed.
Lemma keeps_update_group args : keeps (update_group now pretty_json uid args).
Proof. unfold update_group. steps. Qed.
Lemma keeps_delete_group args : keeps (delete_group pretty_json uid args).
Proof. unfold delete_group. steps. Qed.

(** *** The whole dispatcher *)
Abbreviation run := (run c fresh now pretty_json parse_snapshot stats_json free_slots sessions).
Abbreviation dispatch :=
  (dispatch c fresh now pretty_json parse_snapshot stats_json free_slots sessions).
Definition admin_ops : list string :=
  ["runtime_stats"; "list_users"; "create_invite"; "list_invites"; "revoke_invite";
   "create_recovery"; "disable_user"; "enable_user"; "delete_user"].

(** The reads. *)
Lemma quiet_db_internal {A} (m : M Db anyhow A) : quiet m → quiet (db_internal m).
Proof. intros Hm. by apply quiet_map_err, quiet_on_db. Qed.
Lemma quiet_ok_json fields : quiet (ok_json pretty_json fields).
Proof. done. Qed.
Lemma quiet_by_handle h : quiet (by_handle h).
Proof. unfold by_handle, users.find_by_handle. auto using quiet_db_internal with hub. Qed.
Hint Resolve quiet_db_internal quiet_ok_json users.quiet_find_by_id quiet_by_handle : hub.
Lemma quiet_whoami u : quiet (whoami pretty_json u).
Proof. unfold whoami. auto 9 with hub. Qed.
Lemma quiet_get_my_client u cid : quiet (get_my_client pretty_json u cid).
Proof. unfold get_my_client, require_client. auto 9 with hub. Qed.
Lemma quiet_list_my_servers u : quiet (list_my_servers c pretty_json u).
Proof. unfold list_my_servers. auto 9 with hub. Qed.
Lemma quiet_list_tokens u : quiet (list_tokens pretty_json u).
Proof. unfold list_tokens. auto 9 with hub. Qed.
Lemma quiet_list_git_credentials u : quiet (list_git_credentials pretty_json u).
Proof. unfold list_git_credentials. auto 9 with hub. Qed.
Lemma quiet_list_groups u : quiet (list_groups c pretty_json parse_snapshot u).
Proof. unfold list_groups. auto 9 with hub. Qed.
Lemma quiet_require_admin b (t : T CallToolResult) :
  (b = true → quiet t) → quiet (require_admin b ;;; t).
Proof. intros Ht. destruct b; [by apply Ht|]. done. Qed.

Lemma keeps_quiet_hub {E A} (m : M Hub E A) : quiet m → keeps m.
Proof. intros Hq h Hh. by rewrite Hq. Qed.
Hint Resolve keeps_quiet_hub quiet_whoami quiet_get_my_client quiet_list_my_servers
  quiet_list_tokens quiet_list_git_credentials quiet_list_groups keeps_add_server
  keeps_edit_server keeps_set_env keeps_set_config_file keeps_update_server keeps_set_enabled
  keeps_remove keeps_set_my_client keeps_revoke_token keeps_set_git_credential
  keeps_delete_git_credential keeps_create_group keeps_update_group keeps_delete_group : hub.

Lemma keeps_run caller op args :
  caller.(server.caller_user_id) = uid → op ∉ admin_ops ∨ caller.(server.caller_admin) = false →
  keeps (run caller op args).
Proof.
  intros Hu Hop. unfold management.run. rewrite Hu.
  repeat match goal with
  | |- preserves _ (if eqs op ?s then require_admin _ ;;; _ else _) =>
      let E := fresh in destruct (eqs op s) eqn:E;
      [apply eqs_true in E; subst op; destruct Hop as [[]|Ha];
       [unfold admin_ops; set_solver|by rewrite Ha; intros h Hh]|clear E]
  | |- preserves _ (if eqs op ?s then _ else _) => destruct (eqs op s); [solve [auto with hub]|]
  end.
  apply preserves_fail.
Qed.
End own.

(** ** The administrators' tools *)
Section admin.
Context (caller : string) (was : Prop) (P : pool.Users → Prop) (L : list audit.Entry → Prop).
(** The account can administer the hub. *)
Definition active_admin (d : Db) : Prop :=
  ∃ r, d.(Schema.users) !! caller = Some r ∧ r.(user.is_admin) = true ∧ r.(user.disabled) = false.
(** [was]: the caller was an active administrator to begin with. *)
Definition governed (d : Db) : Prop := wf d ∧ (was → active_admin d).
Definition J : Hub → Prop := kept governed P L.
Abbreviation keeps := (preserves J).

Lemma governed_of_users {E A} (m : M Db E A) :
  preserves wf m → (∀ d, (m d).2.(Schema.users) = d.(Schema.users)) → preserves governed m.
Proof. intros Hw Hu d [Hd Ha]. split; [by apply Hw|]. unfold active_admin. by rewrite Hu. Qed.
Lemma governed_set_disabled uid b :
  uid ≠ caller ∨ b = false → preserves governed (users.set_disabled uid b).
Proof.
  intros Hne d [Hd Ha]. split; [by apply users.wf_set_disabled|].
  intros (r & Hr & Hadm & Hdis)%Ha. unfold active_admin. cbn. destruct (decide (uid = caller)) as [->|].
  - rewrite lookup_alter_eq, Hr. eexists. split; [done|]. destruct Hne as [ | -> ]; done.
  - rewrite lookup_alter_ne by done. by exists r.
Qed.
Lemma governed_delete uid : uid ≠ caller → preserves governed (users.delete uid).
Proof.
  intros Hne d [Hd Ha]. split; [by apply users.wf_delete|]. intros (r & Hr & Hadm & Hdis)%Ha.
  exists r. cbn. by rewrite lookup_delete_ne.
Qed.
Lemma admin_db {E A} (m : M Db E A) : preserves governed m → keeps (on_db m).
Proof. apply kept_on_db. Qed.
Lemma admin_quiet {E A} (m : M Hub E A) : quiet m → keeps m.
Proof. intros Hq h Hh. by rewrite Hq. Qed.
Hint Resolve admin_db admin_quiet governed_set_disabled quiet_by_handle quiet_ok_json : hub.

Lemma admin_deactivate uid : uid ≠ caller → keeps (accounts.deactivate_user uid).
Proof.
  intros Hne. apply admin_db. apply preserves_bind; [auto with hub|]. intros _.
  repeat (apply preserves_bind; [|intros ?]); try apply preserves_ret;
    apply governed_of_users; auto with hub.
Qed.
Lemma admin_purge env_dir uid : uid ≠ caller → keeps (accounts.purge_user env_dir uid).
Proof.
  intros Hne. apply preserves_bind; [auto with hub|]. intros insts. apply preserves_bind.
  - apply preserves_for_each. intros i. apply preserves_bind; [apply kept_on_files|].
    intros _. apply kept_on_status.
  - intros _. by apply admin_db, governed_delete.
Qed.
(** The target of an administrator's action is another account. *)
Lemma admin_target_other h s u s' : admin_target caller h s = (Ok u, s') → u.(users.id) ≠ caller.
Proof. unfold admin_target. intros Hr. m_inv. by apply eqs_false. Qed.
Lemma admin_target_Ok h s u s' :
  admin_target caller h s = (Ok u, s') →
  s' = s ∧ ∃ row, s.(db).(Schema.users) !! u.(users.id) = Some row ∧ row.(user.handle) = h ∧
  u.(users.id) ≠ caller ∧ (row.(user.is_admin) = true → (2 ≤ users.count_admins s.(db))%nat).
Proof.
  intros Hr. pose proof (admin_target_other _ _ _ _ Hr) as Hne. unfold admin_target in Hr.
  apply bind_Ok in Hr as (t & s1 & Hb & Hr). unfold by_handle, db_internal in Hb.
  apply bind_Ok in Hb as (o & s2 & Hf%map_err_Ok%on_db_Ok & [-> ->]%ok_or_Ok).
  destruct Hf as (d' & [= Ho <-] & ->).
  apply bind_Ok in Hr as (? & ? & [_ ->]%refuse_if_Ok & Hr).
  apply bind_Ok in Hr as (n & ? & [-> ->]%read_Ok & Hr).
  apply bind_Ok in Hr as (? & ? & [Hadm ->]%refuse_if_Ok & [-> ->]%ret_Ok).
  split; [by destruct s|].
  apply bind_Some in Ho as ([k row] & Hk & [= <-]). cbn in *.
  apply head_Some_elem_of, list_elem_of_filter in Hk as [Hh Hk%elem_of_map_to_list].
  exists row. split_and!; [done..|]. intros Ha. rewrite Ha in Hadm. cbn in Hadm. bool_prop. lia.
Qed.
Lemma quiet_admin_target h : quiet (admin_target caller h).
Proof. unfold admin_target. auto 9 with hub. Qed.
Lemma keeps_admin_target {B} h (k : users.User → T B) :
  (∀ u, u.(users.id) ≠ caller → keeps (k u)) → keeps (bind (admin_target caller h) k).
Proof.
  intros Hk. eapply preserves_bind_res; [|intros; by eapply admin_target_other|done].
  apply admin_quiet, quiet_admin_target.
Qed.
Lemma admin_set_user_disabled args b : keeps (set_user_disabled pretty_json caller args b).
Proof.
  unfold set_user_disabled. apply preserves_bind; [apply preserves_ok_or|]. intros h.
  apply preserves_bind; [|auto with hub]. destruct b.
  - apply keeps_admin_target. intros u Hu. by apply preserves_map_err, admin_deactivate.
  - apply preserves_bind; [auto with hub|]. intros u.
    apply preserves_map_err, admin_db, governed_set_disabled. by right.
Qed.
Lemma admin_delete_user args : keeps (delete_user c pretty_json caller args).
Proof.
  unfold delete_user. apply preserves_bind; [apply preserves_ok_or|]. intros h.
  apply keeps_admin_target. intros u Hu. apply preserves_bind; [|auto with hub].
  intros. by apply preserves_map_err, admin_purge.
Qed.
Lemma admin_users {A} (m : M Db anyhow A) :
  preserves wf m → (∀ d, (m d).2.(Schema.users) = d.(Schema.users)) → keeps (db_internal m).
Proof. intros Hw Hu. by apply preserves_map_err, admin_db, governed_of_users. Qed.
Lemma insert_invite_users h r d : (invites.insert_invite h r d).2.(Schema.users) = d.(Schema.users).
Proof. unfold invites.insert_invite. by repeat destruct (decide _). Qed.
Lemma invites_create_users uid note code d :
  (invites.create uid note code now d).2.(Schema.users) = d.(Schema.users).
Proof.
  unfold invites.create, bind. cbn.
  match goal with |- context [invites.insert_invite ?h ?r d] =>
    pose proof (insert_invite_users h r d) end.
  by destruct (invites.insert_invite _ _ _) as [[] ?].
Qed.
Lemma create_recovery_users uid target code d :
  (invites.create_recovery uid target code now d).2.(Schema.users) = d.(Schema.users).
Proof.
  unfold invites.create_recovery, bind. cbn.
  match goal with |- context [invites.insert_invite ?h ?r d] =>
    pose proof (insert_invite_users h r d) end.
  by destruct (invites.insert_invite _ _ _) as [[] ?].
Qed.
Lemma admin_create_invite uid args : keeps (create_invite fresh now pretty_json uid args).
Proof.
  unfold create_invite. apply preserves_bind; [|auto with hub].
  apply admin_users; [auto with hub|]. apply invites_create_users.
Qed.
Lemma admin_create_recovery uid args : keeps (create_recovery c fresh now pretty_json uid args).
Proof.
  unfold create_recovery. apply preserves_bind; [apply preserves_ok_or|]. intros h.
  apply preserves_bind; [auto with hub|]. intros u.
  apply preserves_bind; [|auto with hub].
  apply admin_users; [auto with hub|]. apply create_recovery_users.
Qed.
Lemma admin_revoke_invite args : keeps (revoke_invite pretty_json args).
Proof.
  unfold revoke_invite. apply preserves_bind; [apply preserves_ok_or|]. intros id.
  apply preserves_bind; [apply admin_users; [auto with hub|done]|].
  intros [|]; [auto with hub|apply preserves_fail].
Qed.
Lemma quiet_runtime_stats : quiet (runtime_stats c pretty_json stats_json free_slots sessions).
Proof. done. Qed.
Lemma quiet_list_users : quiet (list_users pretty_json).
Proof. done. Qed.
Lemma quiet_list_invites : quiet (list_invites pretty_json).
Proof. done. Qed.
Hint Resolve admin_set_user_disabled admin_delete_user admin_create_invite admin_create_recovery
  admin_revoke_invite quiet_runtime_stats quiet_list_users quiet_list_invites : hub.

Lemma admin_run who op args :
  who.(server.caller_user_id) = caller → op ∈ admin_ops →
  keeps (management.run c fresh now pretty_json parse_snapshot stats_json free_slots sessions
    who op args).
Proof.
  intros Hu Hop. unfold management.run. rewrite Hu.
  assert (∀ b (t : T CallToolResult), keeps t → keeps (require_admin b ;;; t)) as Hr.
  { intros b t Ht. apply preserves_bind; [apply preserves_refuse_if|done]. }
  unfold admin_ops in Hop. set_unfold in Hop.
  repeat destruct Hop as [->|Hop]; [..|done]; cbn; apply Hr; auto with hub.
Qed.
End admin.

(** ** Every call *)
Abbreviation dispatch :=
  (dispatch c fresh now pretty_json parse_snapshot stats_json free_slots sessions).
Abbreviation run := (run c fresh now pretty_json parse_snapshot stats_json free_slots sessions).

(** What [dispatch] adds to [run]. *)
Definition entries (who : server.Caller) (op : string) (args : json.JsonObject)
    (r : result McpError CallToolResult) : list audit.Entry :=
  match action_for op with Some a => [outcome r (event_of who op a args)] | None => [] end.
Lemma dispatch_run who op args h :
  dispatch who op args h =
    let (r, h') := run who op (default [] args) h in
    (r, match action_for op with
        | Some a => log (outcome r (event_of who op a (default [] args))) h'
        | None => h' end).
Proof.
  unfold management.dispatch, catch. destruct (run _ _ _ h) as [r h']. by destruct (action_for op).
Qed.
Lemma run_own who op args h :
  op ∉ admin_ops ∨ who.(server.caller_admin) = false → wf h.(db) →
  let h' := (run who op args h).2 in let uid := who.(server.caller_user_id) in
  wf h'.(db) ∧ foreign uid h.(db) h'.(db) ∧ (∀ u, u ≠ uid → h'.(pools) !! u = h.(pools) !! u) ∧
  h'.(audit_log) = h.(audit_log).
Proof.
  intros Hop Hwf. set (uid := who.(server.caller_user_id)).
  destruct (keeps_run uid h.(db) (other_pools uid h.(pools)) (eq h.(audit_log))
    (other_pools_dirty _ _) who op args eq_refl Hop h) as ([??]&?&?).
  - split_and!; [|done..]. split; auto with hub.
  - done.
Qed.
Lemma run_governed who op args h :
  wf h.(db) →
  let h' := (run who op args h).2 in let uid := who.(server.caller_user_id) in
  wf h'.(db) ∧ (active_admin uid h.(db) → active_admin uid h'.(db)) ∧
  h'.(audit_log) = h.(audit_log).
Proof.
  intros Hwf. destruct (decide (op ∈ admin_ops)) as [Hop|Hop].
  - set (uid := who.(server.caller_user_id)).
    destruct (admin_run uid (active_admin uid h.(db)) (λ _, True) (eq h.(audit_log)) who op args
      eq_refl Hop h)
      as ([??]&?&?); [by split_and!|done].
  - destruct (run_own who op args h (or_introl Hop) Hwf) as (Hw & Hf & _ & Hl).
    split_and!; [done| |done]. unfold active_admin. by rewrite (f_users _ _ _ Hf).
Qed.

(** Any call keeps the database well formed, and whatever of the pools staleness
    marks keep. *)
Lemma dispatch_keeps (P : pool.Users → Prop) who op args h :
  (∀ u p, P p → P (alter pool.mark_dirty u p)) → wf h.(db) → P h.(pools) →
  wf (dispatch who op args h).2.(db) ∧ P (dispatch who op args h).2.(pools).
Proof.
  intros HP Hwf Hp. rewrite dispatch_run. set (uid := who.(server.caller_user_id)).
  assert (wf (run who op (default [] args) h).2.(db) ∧ P (run who op (default [] args) h).2.(pools))
    as Hk.
  { destruct (decide (op ∈ admin_ops)) as [Hop|Hop].
    - destruct (admin_run uid False P (λ _, True) who op (default [] args) eq_refl Hop h)
        as ([??]&?&?); [by split_and!|done].
    - destruct (keeps_run uid h.(db) P (λ _, True) (HP uid) who op (default [] args) eq_refl
        (or_introl Hop) h) as ([??]&?&?); [|done]. split_and!; [split; auto with hub|done..]. }
  destruct (run who op (default [] args) h) as [r h']. by destruct (action_for op).
Qed.

(** ** Properties *)

(** C10: tenancy of the management endpoint.  Whatever tool a caller without
    administrator rights calls, with whatever arguments: every account, every
    invite, and every row of every other user — servers, secrets, files, groups,
    tokens, sessions, credentials — is the same afterwards, and so is every other
    user's pool of backends. *)
Theorem management_isolation who op args h :
  who.(server.caller_admin) = false → wf h.(db) →
  let h' := (dispatch who op args h).2 in let uid := who.(server.caller_user_id) in
  wf h'.(db) ∧ foreign uid h.(db) h'.(db) ∧ ∀ u, u ≠ uid → h'.(pools) !! u = h.(pools) !! u.
Proof.
  intros Ha Hwf. rewrite dispatch_run.
  destruct (run_own who op (default [] args) h (or_intror Ha) Hwf) as (Hw & Hf & Hp & _).
  destruct (run _ _ _ h) as [r h']. destruct (action_for op); split_and!; assumption.
Qed.

(** An administrator's tool called by anyone else is refused with the same
    error, and nothing happens but the audit entry of the failed call. *)
Theorem admin_tools_refused who op args h :
  "hub__" +:+ op ∈ tool_name <$> tools true →
  "hub__" +:+ op ∉ tool_name <$> tools false → who.(server.caller_admin) = false →
  let refused := Err (server.invalid_request "this tool requires administrator privileges") in
  dispatch who op args h =
    (refused, match action_for op with
              | Some a => log (outcome refused (event_of who op a (default [] args))) h
              | None => h end).
Proof.
  intros Hin Hno Ha. assert (op ∈ admin_ops) as Hop.
  { destruct (decide (op ∈ admin_ops)) as [|Hn]; [done|]. destruct Hno.
    apply list_elem_of_In in Hin. cbn in Hin.
    repeat destruct Hin as [Hin|Hin]; [..|done]; vm_compute in Hin; simplify_eq;
      first [by apply (bool_decide_unpack _); vm_compute|
             destruct Hn; by apply (bool_decide_unpack _); vm_compute]. }
  rewrite dispatch_run.
  unfold admin_ops in Hop. set_unfold in Hop.
  repeat destruct Hop as [->|Hop]; [..|done]; unfold management.run; rewrite Ha; reflexivity.
Qed.

(** The tools advertised as read-only are: calling one, with any arguments and as
    anyone, leaves the whole hub as it was, the audit log included. *)
Theorem read_only_tools_change_nothing who op args h :
  (annotations_for ("hub__" +:+ op)).(read_only) = true → (dispatch who op args h).2 = h.
Proof.
  intros Hro. assert (op ∈ ["whoami"; "list_my_servers"; "list_tokens"; "get_my_client";
    "runtime_stats"; "list_users"; "list_invites"; "list_groups"; "list_git_credentials"]) as Hop.
  { unfold annotations_for in Hro. destruct (one_of _ _) eqn:E; [|by repeat destruct (one_of _ _)].
    apply bool_decide_eq_true, list_elem_of_In in E. apply list_elem_of_In.
    repeat destruct E as [E|E]; [..|done]; vm_compute in E; simplify_eq;
      apply list_elem_of_In; by apply (bool_decide_unpack _); vm_compute. }
  rewrite dispatch_run. set_unfold in Hop.
  assert (∀ b (t : T CallToolResult), quiet t → quiet (require_admin b ;;; t)) as Hadm.
  { intros b t Ht. by apply quiet_require_admin. }
  repeat destruct Hop as [->|Hop]; [..|done]; unfold management.run;
    match goal with |- context [let (_, _) := ?m _ in _] => assert (quiet m) as Hq
      by first
        [exact (quiet_whoami _) | exact (quiet_list_my_servers _) | exact (quiet_list_tokens _)
        |exact (quiet_get_my_client _ _) | exact (Hadm _ _ quiet_runtime_stats)
        |exact (Hadm _ _ quiet_list_users) | exact (Hadm _ _ quiet_list_invites)
        |exact (quiet_list_groups _) | exact (quiet_list_git_credentials _)];
      specialize (Hq h); destruct (m h) as [r h'] end; exact Hq.
Qed.

(** The audit trail of the management endpoint.  Every advertised tool is either
    read-only or has an audit action; and a call of one that has appends exactly one
    entry, naming the caller, the action and the outcome that was answered: [run]
    itself never writes to the log. *)
Theorem dispatch_audited :
  (∀ t, t ∈ tools true → t.(annotations).(read_only) =
     bool_decide (action_for (String.substring 5 60 t.(tool_name)) = None)) ∧
  ∀ who op args h, wf h.(db) →
    let (r, h') := dispatch who op args h in
    h'.(audit_log) = (h.(audit_log) ++ entries who op (default [] args) r)%list.
Proof.
  split.
  - apply Forall_forall. repeat constructor.
  - intros who op args h Hwf. rewrite dispatch_run. unfold entries.
    pose proof (run_governed who op (default [] args) h Hwf) as (_ & _ & Hl).
    destruct (run _ _ _ h) as [r h']. cbn [snd] in Hl.
    destruct (action_for op); cbn; rewrite Hl; [done|by rewrite app_nil_r].
Qed.

(** C25: the hub cannot be left without its administrator by the administrator's own
    calls: an active administrator is still one after any call of theirs, and the
    database stays well formed, whatever the tool and the arguments. *)
Theorem administrator_survives who op args h :
  wf h.(db) → active_admin who.(server.caller_user_id) h.(db) →
  let h' := (dispatch who op args h).2 in
  wf h'.(db) ∧ active_admin who.(server.caller_user_id) h'.(db).
Proof.
  intros Hwf Ha. rewrite dispatch_run.
  destruct (run_governed who op (default [] args) h Hwf) as (Hw & Hk & _).
  destruct (run _ _ _ h) as [r h']. specialize (Hk Ha). by destruct (action_for op).
Qed.

(** The rows of a table that are not the user's are the ones left. *)
Definition only_others {R} (owner : R → string) (uid : string) (m m' : gmap string R) : Prop :=
  ∀ k r, m' !! k = Some r ↔ m !! k = Some r ∧ owner r ≠ uid.
(** C26: disabling an account ends its sessions and tokens.  When [disable_user] answers,
    the caller is an administrator and the account with that handle, which is not the
    caller's and not the only administrator's, is disabled; its browser sessions, refresh
    tokens and personal access tokens are gone, all of them and no one else's; and nothing
    else of the hub's state has changed: passkeys, servers, groups, invites, pools and
    files are as they were.  (So the passkeys stay, as do a ceremony in progress and an
    authorization code already issued, which live in other stores.) *)
Theorem disable_user_revokes who args h r h' :
  run who "disable_user" args h = (Ok r, h') →
  who.(server.caller_admin) = true ∧
  ∃ handle t row, str_arg args "handle" = Some handle ∧
    h.(db).(Schema.users) !! t = Some row ∧ row.(user.handle) = handle ∧
    t ≠ who.(server.caller_user_id) ∧
    (row.(user.is_admin) = true → (2 ≤ users.count_admins h.(db))%nat) ∧
    let d := h.(db) in let d' := h'.(db) in
    d'.(Schema.users) = <[t := users.with_disabled true row]> d.(Schema.users) ∧
    only_others web_session.user_id t d.(web_sessions) d'.(web_sessions) ∧
    only_others refresh_token.user_id t d.(oauth_refresh_tokens) d'.(oauth_refresh_tokens) ∧
    only_others pat.user_id t d.(personal_access_tokens) d'.(personal_access_tokens) ∧
    h' = set_db (set_users (λ _, d'.(Schema.users)) (set_web_sessions (λ _, d'.(web_sessions))
      (set_oauth_refresh_tokens (λ _, d'.(oauth_refresh_tokens))
        (set_personal_access_tokens (λ _, d'.(personal_access_tokens)) d)))) h.
Proof.
  intros Hr. change (run who "disable_user" args h) with
    ((require_admin who.(server.caller_admin) ;;;
      set_user_disabled pretty_json who.(server.caller_user_id) args true) h) in Hr.
  apply bind_Ok in Hr as (? & ? & Hreq & Hr). apply refuse_if_Ok in Hreq as [Hadmin%negb_false_iff ->].
  split; [exact Hadmin|].
  unfold set_user_disabled in Hr.
  apply bind_Ok in Hr as (handle & ? & Harg & Hr). apply ok_or_Ok in Harg as [Harg ->].
  apply bind_Ok in Hr as ([] & h1 & Hd & [_ ->]%ret_Ok). cbv iota in Hd.
  apply bind_Ok in Hd as (u & h2 & Ht & Hd).
  apply admin_target_Ok in Ht as (-> & row & Hrow & Hh & Hne & Hadm).
  exists handle, u.(users.id), row. unfold opt_str in Harg.
  destruct (str_arg args "handle") as [s|] eqn:Es; [|done]. cbn in Harg.
  destruct (is_empty s); [done|]. simplify_eq.
  apply map_err_Ok, on_db_Ok in Hd as (d' & Hd & ->).
  apply bind_Ok in Hd as ([] & d1 & [= <-] & Hd).
  apply bind_Ok in Hd as ([] & d2 & [= <-] & Hd).
  apply bind_Ok in Hd as ([] & d3 & [= <-] & Hd).
  apply bind_Ok in Hd as (n & d4 & [= _ <-] & [_ ->]%ret_Ok).
  assert (∀ {R} (owner : R → string) (m : gmap string R),
    only_others owner u.(users.id) m (without (λ _ r, eqs (owner r) u.(users.id)) m)) as Ho.
  { intros R owner m k r0. rewrite without_Some, eqs_false. naive_solver. }
  split_and!; try done; cbn. split_and!; [|apply Ho..|by destruct h as [[]]].
  apply map_eq. intros k. destruct (decide (k = u.(users.id))) as [->|Hk].
  - by rewrite lookup_alter_eq, Hrow, lookup_insert_eq.
  - by rewrite lookup_alter_ne, lookup_insert_ne.
Qed.

End tools.

(** ** Witnesses *)
Definition who0 (uid : string) (admin : bool) : server.Caller := {|
  server.caller_user_id := uid; server.caller_handle := uid; server.caller_admin := admin;
  server.caller_client_id := None; server.caller_request := store.info0 |}.
Definition fresh0 : Drawn := {|
  new_id := "n"; nonces := λ _, nonce0; nonce := nonce0; code := "code" |}.
Definition call (who : server.Caller) (op : string) (args : json.JsonObject) (h : Hub) :=
  dispatch (H:=machine0) (H0:=url0) (H1:=shlex0) (H2:=aead0) (H3:=digest0)
    oauth_witness.cfg0 fresh0 50 (λ _, "{}") (λ _, None) (λ _, json.Null) 0 0 who op (Some args) h.
Definition named (ns : string) : json.JsonObject := [("namespace", json.Str ns)].

Lemma management_isolation_witness :
  (call (who0 "u" false) "remove" (named "fs") (hub0 db2)).2.(db).(user_server_instances) = ∅ ∧
  foreign "u" db2 (call (who0 "u" false) "remove" (named "fs") (hub0 db2)).2.(db).
Proof.
  split; [vm_compute; reflexivity|].
  apply (management_isolation (H:=machine0) (H0:=url0) (H1:=shlex0) (H2:=aead0) (H3:=digest0)
    oauth_witness.cfg0 fresh0 50 (λ _, "{}") (λ _, None) (λ _, json.Null) 0 0
    (who0 "u" false) "remove" (Some (named "fs")) (hub0 db2)); [reflexivity|apply wf_db2].
Defined.
Lemma admin_tools_refused_witness :
  (call (who0 "u" false) "delete_user" [("handle", json.Str "root")] (hub0 db2)).1 =
  Err (server.invalid_request "this tool requires administrator privileges").
Proof.
  refine (f_equal fst (admin_tools_refused (H:=machine0) (H0:=url0) (H1:=shlex0) (H2:=aead0)
    (H3:=digest0) oauth_witness.cfg0 fresh0 50 (λ _, "{}") (λ _, None) (λ _, json.Null) 0 0
    (who0 "u" false) "delete_user" (Some [("handle", json.Str "root")]) (hub0 db2) _ _ eq_refl));
    apply (bool_decide_unpack _); vm_compute; exact Logic.I.
Defined.
Lemma read_only_tools_change_nothing_witness :
  (call (who0 "u" false) "whoami" [] (hub0 db2)).2 = hub0 db2.
Proof.
  apply (read_only_tools_change_nothing (H:=machine0) (H0:=url0) (H1:=shlex0) (H2:=aead0)
    (H3:=digest0) oauth_witness.cfg0 fresh0 50 (λ _, "{}") (λ _, None) (λ _, json.Null) 0 0
    (who0 "u" false) "whoami" (Some [])).
  reflexivity.
Defined.
Lemma dispatch_audited_witness :
  (call (who0 "u" false) "remove" (named "fs") (hub0 db2)).2.(audit_log) =
  [audit.ok (event_of (who0 "u" false) "remove" "server.remove" (named "fs"))].
Proof.
  pose proof (proj2 (dispatch_audited (H:=machine0) (H0:=url0) (H1:=shlex0) (H2:=aead0)
    (H3:=digest0) oauth_witness.cfg0 fresh0 50 (λ _, "{}") (λ _, None) (λ _, json.Null) 0 0)
    (who0 "u" false) "remove" (Some (named "fs")) (hub0 db2) wf_db2) as Ha.
  vm_compute in Ha |- *. exact Ha.
Defined.
Lemma administrator_survives_witness :
  active_admin "root"
    (call (who0 "root" true) "delete_user" [("handle", json.Str "u")] (hub0 db2)).2.(db).
Proof.
  apply (administrator_survives (H:=machine0) (H0:=url0) (H1:=shlex0) (H2:=aead0) (H3:=digest0)
    oauth_witness.cfg0 fresh0 50 (λ _, "{}") (λ _, None) (λ _, json.Null) 0 0
    (who0 "root" true) "delete_user" (Some [("handle", json.Str "u")]) (hub0 db2) wf_db2).
  exists admin0. repeat split; reflexivity.
Defined.
Definition disabled0 :=
  management.run (H:=machine0) (H0:=url0) (H1:=shlex0) (H2:=aead0) (H3:=digest0)
    oauth_witness.cfg0 fresh0 50 (λ _, "{}") (λ _, None) (λ _, json.Null) 0 0
    (who0 "root" true) "disable_user" [("handle", json.Str "u")]
    (hub0 (tokens.create (H:=digest0) "u" "n" 900 "t" "r" 10 db2).2).
Lemma disable_user_revokes_witness :
  ∃ t, disabled0.2.(db).(Schema.users) !! t = Some (users.with_disabled true user0) ∧
    only_others pat.user_id t
      (tokens.create (H:=digest0) "u" "n" 900 "t" "r" 10 db2).2.(personal_access_tokens)
      disabled0.2.(db).(personal_access_tokens).
Proof.
  destruct (disable_user_revokes (H:=machine0) (H0:=url0) (H1:=shlex0) (H2:=aead0) (H3:=digest0)
    oauth_witness.cfg0 fresh0 50 (λ _, "{}") (λ _, None) (λ _, json.Null) 0 0
    (who0 "root" true) [("handle", json.Str "u")]
    (hub0 (tokens.create (H:=digest0) "u" "n" 900 "t" "r" 10 db2).2)
    (succeed (λ _, "{}") (json.object [("handle", json.Str "u"); ("disabled", json.Bool true)]))
    disabled0.2)
    as (_ & h & t & row & Hh & Hr & Hrh & _ & _ & Hd & _ & _ & Hp & _).
  - vm_compute. reflexivity.
  - exists t. split; [|exact Hp]. rewrite Hd, lookup_insert_eq. injection Hh as <-.
    destruct (decide (t = "u")) as [->|].
    + vm_compute in Hr. injection Hr as <-. reflexivity.
    + exfalso. destruct (decide (t = "root")) as [->|].
      * vm_compute in Hr. injection Hr as <-. discriminate Hrh.
      * change (db1.(Schema.users) !! t = Some row) in Hr. unfold db1, db0 in Hr. cbn in Hr.
        rewrite !lookup_insert_ne in Hr by congruence. discriminate Hr.
Defined.
End isolation.
