(* ===== verification/Warm.v ===== *)
(** * Keeping every user's backends hot (proxy/pool.rs [backends_for], [warm_all], main.rs)

    Over the whole hub: a bind of one user's pool — the decision of [Pool], the launches
    of [Launch], their ends — the pass that warms every user, the heartbeat pass, and the
    periodic tasks [main] starts.  Instants [tick] are milliseconds of the monotonic
    clock; [now] is the wall clock, in seconds. *)

From S2P Require Import Prelude Strs Schema External Fixtures Users Config Instances Sessions Status.
From S2P Require Import Sandbox Backend Gitsrc Pool Tenancy Hub Launch OauthServer.
Open Scope string_scope.
Open Scope hub_scope.

Module warm.
Import hub.

(** What a bind meets: the permits held by backends that left their pool while borrowed,
    the backends borrowed now, and, of the launches it starts, those that end inside the
    bind budget, in the order they end. *)
Record Bind := {
  lent : nat; borrowed : nat → bool;
  in_time : list instances.Instance → list instances.Instance;
  in_time_started : ∀ l, in_time l ⊆ l }.

Section warm.
Context `{Machine} `{UrlCrate} `{HttpCrate} `{Aead} `{launch.Children} (c : config.Config).
Context (snapshot_json : backend.CapabilitiesSnapshot → string).
Abbreviation limits := c.(config.limits).

Section at_tick.
Context (tick now : Z).

(** The user's pool, under its lock.  [None]: the pool left the map meanwhile. *)
Definition on_inner {A} (uid : string) (f : pool.Inner → A * pool.Inner)
    : M Hub anyhow (option A) := λ h,
  match h.(pools) !! uid with
  | Some i => (Ok (Some (f i).1), set_pools (<[uid := (f i).2]> h.(pools)) h)
  | None => (Ok None, h)
  end.
Definition touch_inner (uid : string) (f : pool.Inner → pool.Inner) : M Hub anyhow unit :=
  ignore (on_inner uid (λ i, (tt, f i))).

(** A permit of [backend_slots] is held by every live or connecting backend. *)
Definition held (us : pool.Users) : nat :=
  map_fold (λ _ i n, length i.(pool.backends) + size i.(pool.connecting) + n) 0 us.
Definition available_permits (b : Bind) (h : Hub) : nat :=
  Z.to_nat limits.(config.max_backends_global) - (held h.(pools) + b.(lent)).

Definition sandbox_or_fail (uid : string) : M Hub anyhow (option sandbox.Sandbox) :=
  on_db_files (sandbox.sandbox_or_fail hub_uid dir_mode is_root c.(config.sandbox_uid_base)
    c.(config.env_dir) uid).

(** One spawn task; [late] once the bind budget has expired. *)
Definition new_arc (i : pool.Inner) : nat := S (list_max (pool.arc <$> i.(pool.backends))).
Definition spawn_task (late : bool) (uid : string) (sb : option sandbox.Sandbox)
    (inst : instances.Instance) : M Hub anyhow unit :=
  let* b := launch.spawn_one c now inst sb in
  let* pooled := on_inner uid (λ i, pool.connected inst.(instances.id)
    ((λ k, {| pool.arc := new_arc i; pool.conn := k |}) <$> b) i) in
  match b, pooled with
  | Some k, Some true =>
      (if late then notify_tools_changed uid else ret tt) ;;;
      launch.refresh_snapshot c now snapshot_json inst.(instances.id) k
  | _, _ => ret tt
  end.

Definition cap : nat := Z.to_nat limits.(config.max_backends_per_user).
Definition reconcile (meets : Bind) (uid : string) : M Hub anyhow unit :=
  let* all := read (instances.list_for_user uid) in
  let enabled := filter (λ i, i.(instances.enabled) = true) all in
  let* eps := gets epochs in
  catch (sandbox_or_fail uid) (λ r,
    match r with
    | Err e =>
        touch_inner uid (pool.sandbox_unavailable eps tick enabled) ;;;
        launch.mark_skipped now enabled (launch.chain "sandbox unavailable" e)
    | Ok sb =>
        let* free := gets (available_permits meets) in
        let* fates := on_inner uid (λ i,
          let g := pool.decide_fates eps tick cap meets.(borrowed) enabled free i in
          (g, g.(pool.inner))) in
        match fates with
        | None => ret tt
        | Some g =>
            for_each (λ ir, launch.mark_status now ir.1 status.skipped (Some ir.2))
              g.(pool.skipped) ;;;
            for_each (spawn_task false uid sb) (meets.(in_time) g.(pool.to_spawn)) ;;;
            touch_inner uid pool.bound
        end
    end).

Definition backends (uid : string) : M Hub anyhow (list backend.Backend) :=
  gets (λ h, from_option (λ i, pool.conn <$> i.(pool.backends)) [] (h.(pools) !! uid)).
Definition backends_for (meets : Bind) (uid : string) : M Hub anyhow (list backend.Backend) :=
  on_pools (pool.entry uid tick) ;;;
  touch_inner uid (pool.borrow tick) ;;;
  let* fresh := gets (λ h, from_option (pool.is_fresh h.(epochs) tick) false (h.(pools) !! uid)) in
  (if (fresh : bool) then ret tt else reconcile meets uid) ;;;
  backends uid.

(** ** The keep-warm passes *)
Fixpoint warm_users (binds : string → Bind) (us : list users.User) : M Hub anyhow (nat * nat) :=
  match us with
  | [] => ret (0, 0)
  | u :: us =>
      let* bs := backends_for (binds u.(users.id)) u.(users.id) in
      let* p := warm_users binds us in
      ret (S p.1, length bs + p.2)
  end.
Definition with_enabled (all : list instances.Instance) (u : users.User) : Prop :=
  u.(users.disabled) = false ∧
  u.(users.id) ∈ instances.user_id <$> filter (λ i, i.(instances.enabled) = true) all.
Definition warm_all (binds : string → Bind) : M Hub anyhow (nat * nat) :=
  let* us := read users.list in
  let* all := read instances.list_all in
  on_status (status.retain (list_to_set (instances.id <$> all))) ;;;
  warm_users binds (filter (with_enabled all) us).

(** A real [tools/list], within the list timeout. *)
Definition answers (b : pool.Pooled) : bool :=
  let secs := limits.(config.backend_list_timeout_secs) in
  is_ok (backend.list_namespaced_tools b.(pool.conn)) &&
  ((secs =? 0)%Z || launch.answers_within b.(pool.conn).(backend.peer) secs).
Definition heartbeat (i : pool.Inner) : list (pool.Pooled * bool) :=
  (λ b, (b, answers b)) <$> i.(pool.backends).
Definition exercise_all : M Hub anyhow (nat * nat) :=
  let* us := gets pools in
  let results := heartbeat <$> us in
  let passes := (λ i, pool.exercise (heartbeat i) i) <$> us in
  modify (set_pools (fst <$> passes)) ;;;
  for_each (λ iid, on_status (status.set iid status.error
    (Some "heartbeat failed; dropped for respawn") now))
    (concat (map (λ kv, kv.2.2) (map_to_list passes))) ;;;
  let all := concat (map snd (map_to_list results)) in
  ret (length (filter (λ r, r.2 = true) all), length (filter (λ r, r.2 = false) all)).

(** ** The periodic tasks of [main] *)
(** One turn of the warmer, with the instant of the last heartbeat pass. *)
Definition deep_due (last_deep : option Z) : bool :=
  (0 <? c.(config.keep_warm_interval_secs))%Z &&
  match last_deep with
  | None => true
  | Some t => (c.(config.keep_warm_interval_secs) <=? (tick - t) / 1000)%Z
  end.
Definition warmer (binds : string → Bind) (last_deep : option Z) : M Hub anyhow (option Z) :=
  warm_all binds ;;;
  if deep_due last_deep then exercise_all ;;; ret (Some tick) else ret last_deep.
Definition reaper : M Hub anyhow (nat * nat) :=
  on_pools (pool.reap_idle tick (limits.(config.backend_idle_secs) * 1000)%Z).
Definition sweeper : M Hub anyhow nat := on_db (session.delete_expired now).
End at_tick.

(** Periods, in seconds; [None]: the task is not started. *)
Definition sweeper_period : option Z := Some 3600%Z.
Definition warmer_period : option Z := if c.(config.keep_warm) then Some 60%Z else None.
Definition reaper_period : option Z :=
  let idle := limits.(config.backend_idle_secs) in
  if (idle =? 0)%Z then None else Some (Z.min 300 (Z.max 30 (idle / 4)))%Z.

(** ** Facts: the decision of a bind *)
Section decision.
Import pool.
Context (eps : gmap string Z) (tick : Z) (most : nat) (held_by : nat → bool).
Abbreviation decide1 := (decide_one eps tick most held_by).

(** The server is tracked at its current epoch, and alive or within its backoff. *)
Definition settled_at (i : Inner) (id : string) : Prop :=
  i.(applied_epochs) !! id = Some (reload_epoch eps id) ∧
  (healthy id i.(pool.backends) = true ∨ retry_due tick i id = false).

Lemma healthy_filter id l :
  healthy id l = existsb (λ b, negb (closed b)) (filter (λ b, iid b = id) l).
Proof.
  unfold healthy. induction l as [|b l IH]; [done|]. cbn [existsb]. rewrite filter_cons, IH.
  destruct (decide (iid b = id)) as [->|Hn]; [by rewrite eqs_refl|].
  by rewrite (proj2 (eqs_false _ _) Hn).
Qed.
Lemma settled_same i j id : same_at id i j → settled_at i id → settled_at j id.
Proof.
  intros (Ha & Hl & _ & Hb) [Hs Hr]. unfold settled_at. rewrite healthy_filter, <- Hb, <- Ha.
  split; [done|]. rewrite healthy_filter in Hr. unfold retry_due in *. by rewrite <- Hl.
Qed.
Lemma settled_not_due i id : due eps tick i id = false → id ∉ i.(connecting) → settled_at i id.
Proof.
  unfold due, settled_at. intros Hd Hc. rewrite (bool_decide_false _ Hc) in Hd. cbn in Hd.
  apply negb_false_iff, andb_true_iff in Hd as [Ha%bool_decide_eq_true Hr]. split; [done|].
  apply orb_true_iff in Hr as [Hr|Hr%negb_true_iff]; [left|by right].
  destruct (list_find _ _) as [[p b]|] eqn:E; [|done].
  apply list_find_Some in E as (Hp & Hb & _). unfold healthy. apply existsb_exists. exists b.
  split; [by apply list_elem_of_In, list_elem_of_lookup; eauto|]. by rewrite Hr, Hb, eqs_refl.
Qed.
Lemma settled_decided f inst :
  inst.(instances.id) ∉ f.(inner).(connecting) →
  settled_at (decide1 f inst).(inner) inst.(instances.id).
Proof.
  intros Hc. destruct (decide_one_outcome eps tick most held_by f inst) as
    [Hd|reason _ _|i drop n _ _ _ -> _ _ _ _]; [by apply settled_not_due|..];
    unfold settled_at, retry_due; cbn; rewrite !lookup_insert_eq, Z.sub_diag;
    (split; [done|by right]).
Qed.
Lemma settled_run l f id :
  id ∉ instances.id <$> l → settled_at f.(inner) id → settled_at (fold_left decide1 l f).(inner) id.
Proof.
  revert f. induction l as [|inst l IH]; intros f Hni Hs; [done|].
  apply not_elem_of_cons in Hni as [Hne Hni]. cbn [fold_left]. apply IH; [done|].
  eapply settled_same; [by apply decide_one_other|done].
Qed.

(** What a run of decisions leaves, from a pool that was connecting to [busy]. *)
Record decided (ids : list string) (busy : gset string) (used : Z) (f : Fates) : Prop := {
  decided_clean : f.(inner).(dirty) = false;
  decided_used : f.(inner).(last_used) = used;
  decided_tracked id : is_Some (f.(inner).(applied_epochs) !! id) → id ∈ ids;
  decided_busy : busy ⊆ f.(inner).(connecting);
  decided_claims id :
    id ∈ f.(inner).(connecting) → id ∈ busy ∨ id ∈ instances.id <$> f.(to_spawn);
  decided_new inst : inst ∈ f.(to_spawn) → inst.(instances.id) ∈ ids ∧ inst.(instances.id) ∉ busy }.
Lemma decided_one ids busy used f inst :
  inst.(instances.id) ∈ ids → decided ids busy used f → decided ids busy used (decide1 f inst).
Proof.
  intros Hin [Hc Hu Ht Hb Hs Hn]. destruct (decide_one_outcome eps tick most held_by f inst) as
    [Hd|reason _ _|i drop n _ Hf _ -> _ _ _ _]; [done|..]; split; cbn; try done.
  - intros id [Hid|[_ Hid]]%lookup_insert_is_Some; [by subst|by apply Ht].
  - intros id [Hid|[_ Hid]]%lookup_insert_is_Some; [by subst|by apply Ht].
  - set_solver.
  - intros id. rewrite fmap_app, elem_of_app, elem_of_union, elem_of_singleton.
    intros [->|Hid]; [right; right; cbn; set_solver|]. destruct (Hs id Hid); tauto.
  - intros x [Hx|Hx]%elem_of_app; [by apply Hn|]. apply list_elem_of_singleton in Hx as ->.
    split; [done|]. intros Hbusy. apply Hf, Hb, Hbusy.
Qed.
Lemma decided_all ids busy used l f :
  NoDup (instances.id <$> l) → (∀ inst, inst ∈ l → inst.(instances.id) ∈ ids) →
  (∀ inst, inst ∈ l → inst.(instances.id) ∉ busy → inst.(instances.id) ∉ f.(inner).(connecting)) →
  decided ids busy used f →
  let g := fold_left decide1 l f in
  decided ids busy used g ∧
  ∀ inst, inst ∈ l → inst.(instances.id) ∉ busy → settled_at g.(inner) inst.(instances.id).
Proof.
  revert f. induction l as [|inst l IH]; intros f Hn Hids Hc Hf; cbn [fold_left].
  { split; [done|]. by intros j ?%not_elem_of_nil. }
  apply NoDup_cons in Hn as [Hni Hn].
  assert (∀ j, j ∈ l → j.(instances.id) ≠ inst.(instances.id)) as Hne.
  { intros j Hj Heq. apply Hni. rewrite <- Heq. by apply list_elem_of_fmap_2. }
  assert (∀ j, j.(instances.id) ≠ inst.(instances.id) →
    same_at j.(instances.id) f.(inner) (decide1 f inst).(inner)) as Hsame
    by (intros j Hj; by apply decide_one_other).
  destruct (IH (decide1 f inst) Hn) as [Hg Hs].
  - intros j Hj. apply Hids. by right.
  - intros j Hj Hb Hcon. destruct (Hsame j (Hne j Hj)) as (_ & _ & Hcc & _).
    apply (Hc j); [by right|done|by apply Hcc].
  - apply decided_one; [|done]. apply Hids. by left.
  - split; [done|]. intros j [->|Hj]%elem_of_cons Hb; [|by apply Hs].
    apply settled_run, settled_decided, Hc; [done|by left|done].
Qed.
(** The bind that finds no sandbox counts every server as tried now. *)
Lemma settled_stamped l i id :
  id ∈ instances.id <$> l →
  settled_at (fold_left (λ i inst, stamp inst.(instances.id)
    (reload_epoch eps inst.(instances.id)) tick i) l i) id.
Proof.
  clear most held_by.
  revert i. induction l as [|inst l IH] using rev_ind; intros i; [by intros ?%not_elem_of_nil|].
  rewrite fmap_app, elem_of_app, fold_left_app. cbn [fold_left]. unfold settled_at, retry_due. cbn.
  set (j := fold_left _ l i). destruct (decide (inst.(instances.id) = id)) as [->|Hne].
  - rewrite !lookup_insert_eq, Z.sub_diag. split; [done|by right].
  - rewrite !lookup_insert_ne by done. intros [Hid|Hid]; [by apply IH|]. set_solver.
Qed.
Lemma stamped_rest l i :
  let j := fold_left (λ i inst, stamp inst.(instances.id)
    (reload_epoch eps inst.(instances.id)) tick i) l i in
  j.(initialized) = i.(initialized) ∧ j.(last_used) = i.(last_used).
Proof. revert i. induction l as [|inst l IH]; intros i; [done|]. cbn [fold_left].
  destruct (IH (stamp inst.(instances.id) (reload_epoch eps inst.(instances.id)) tick i)).
  by split.
Qed.
End decision.

(** ** Facts: what a launch leaves alone *)
(** Who has an account, and who owns which server, enabled or not. *)
Definition roster (d : Db) : gmap string user.t * gmap string (string * bool) :=
  (d.(Schema.users),
   (λ r, (r.(instance.user_id), r.(instance.enabled))) <$> d.(user_server_instances)).
Section still.
Context {E : Type} (P : pool.Users → gmap string Z → Prop)
  (ro : gmap string user.t * gmap string (string * bool)).
(** The pools and the epochs satisfy [P]; nobody came, left, or changed a server. *)
Definition still (h : Hub) : Prop := P h.(pools) h.(epochs) ∧ roster h.(db) = ro.
Abbreviation keeps m := (preserves (E:=E) still m).
Lemma still_on_db {A} (m : M Db E A) : preserves (λ d, roster d = ro) m → keeps (on_db m).
Proof. intros Hm h (Hp & Hr). split; [done|by apply Hm]. Qed.
Lemma still_on_db_files {A} (m : M (Db * fs.Fs) E A) :
  preserves (λ st, roster st.1 = ro) m → keeps (on_db_files m).
Proof.
  intros Hm h (Hp & Hr). specialize (Hm (h.(db), h.(files)) Hr). unfold on_db_files.
  by destruct (m _) as [r [d f]].
Qed.
Lemma still_on_files {A} (m : M fs.Fs E A) : keeps (on_files m).
Proof. by intros h Hh. Qed.
Lemma still_on_status {A} (m : M status.StatusRegistry E A) : keeps (on_status m).
Proof. by intros h Hh. Qed.
Lemma still_read {A} (f : Db → A) : keeps (read f).
Proof. by intros h Hh. Qed.
Lemma still_notify uid : keeps (notify_tools_changed uid).
Proof. by intros h Hh. Qed.
End still.
Hint Resolve still_on_files still_on_status still_read still_notify : hub.

Lemma roster_snapshot ro iid json :
  preserves (λ d, roster d = ro) (instances.set_capabilities_snapshot iid json).
Proof.
  intros d <-. unfold roster. cbn. f_equal. apply map_eq. intros k. rewrite !lookup_fmap.
  destruct (decide (k = iid)) as [->|Hn]; [|by rewrite lookup_alter_ne].
  rewrite lookup_alter_eq. by destruct (user_server_instances d !! iid).
Qed.
Hint Resolve roster_snapshot : hub.
Lemma still_launch {E} P ro inst sb now :
  preserves (E:=E) (still P ro) (launch.spawn_one c now inst sb).
Proof.
  unfold launch.spawn_one, launch.start_one, launch.mark_status, launch.check_url,
    launch.launched, launch.config_error, launch.unbuilt, launch.error_with,
    instances.resolve_def.
  parts.
Qed.
Lemma still_refresh {E} P ro iid b now :
  preserves (E:=E) (still P ro) (launch.refresh_snapshot c now snapshot_json iid b).
Proof. unfold launch.refresh_snapshot. parts. apply still_on_db. auto with hub. Qed.
Lemma still_sandbox P ro uid : preserves (still P ro) (sandbox_or_fail uid).
Proof.
  apply still_on_db_files, (sandbox.preserves_sandbox_or_fail (λ d, roster d = ro)).
Qed.
Lemma still_marks {E} P ro now insts reason :
  preserves (E:=E) (still P ro) (launch.mark_skipped now insts reason).
Proof. unfold launch.mark_skipped, launch.mark_status. parts. Qed.

(** ** Facts: one bind *)
Lemma for_each_run {S E A} (I : list A → S → Prop) (body : A → M S E unit) l s :
  (∀ x l s, I (x :: l) s → ∃ s', body x s = (Ok tt, s') ∧ I l s') → I l s →
  ∃ s', for_each body l s = (Ok tt, s') ∧ I [] s'.
Proof.
  intros Hb. revert s. induction l as [|x l IH]; intros s Hs; [by exists s|].
  destruct (Hb x l s Hs) as (s1 & E1 & Ha1). destruct (IH s1 Ha1) as (s2 & E2 & Ha2).
  exists s2. split; [|done]. cbn. by rewrite (bind_run _ _ _ _ _ E1).
Qed.

Section one_user.
Context (p0 : pool.Users) (eps : gmap string Z) (uid : string)
  (ro : gmap string user.t * gmap string (string * bool)) (tick now : Z).
(** One user's pool satisfies [Q], the rest of the hub is as [p0], [eps] and [ro] say. *)
Definition alone (Q : pool.Inner → Prop) : Hub → Prop :=
  still (λ p e, e = eps ∧ ∃ i, p = <[uid:=i]> p0 ∧ Q i) ro.
Lemma alone_on_inner {A} (f : pool.Inner → A * pool.Inner) Q h :
  alone Q h → ∃ i, Q i ∧ ∃ h', on_inner uid f h = (Ok (Some (f i).1), h') ∧
    alone (eq (f i).2) h'.
Proof.
  intros ((He & i & Hp & Hi) & Hr). exists i. split; [done|]. unfold on_inner.
  rewrite Hp, lookup_insert_eq. eexists. split; [done|]. split; [|done]. split; [done|].
  exists (f i).2. split; [|done]. cbn. by rewrite insert_insert_eq.
Qed.
Lemma alone_weaken (Q Q' : pool.Inner → Prop) h : (∀ i, Q i → Q' i) → alone Q h → alone Q' h.
Proof. intros HQ ((He & i & Hp & Hi) & Hr). split; [|done]. split; [done|]. exists i. auto. Qed.
Lemma alone_touch f (Q Q' : pool.Inner → Prop) h :
  (∀ i, Q i → Q' (f i)) → alone Q h → ∃ h', touch_inner uid f h = (Ok tt, h') ∧ alone Q' h'.
Proof.
  intros HQ (i & Hi & h' & E & Hh)%(alone_on_inner (λ i, (tt, f i))). exists h'. split.
  - unfold touch_inner, ignore. by rewrite E.
  - eapply alone_weaken; [|exact Hh]. intros j <-. by apply HQ.
Qed.
Lemma alone_spawn inst sb (Q Q' : pool.Inner → Prop) h :
  (∀ i o, Q i → Q' (pool.connected inst.(instances.id) o i).2) → alone Q h →
  ∃ h', spawn_task now false uid sb inst h = (Ok tt, h') ∧ alone Q' h'.
Proof.
  intros HQ Hh. unfold spawn_task.
  assert (∃ o h1, launch.spawn_one (E:=anyhow) c now inst sb h = (Ok o, h1) ∧ alone Q h1) as (o & h1 & E & Ha1).
  { pose proof (still_launch (E:=anyhow) _ _ inst sb now h Hh) as Hs. revert Hs.
    unfold launch.spawn_one, catch, bind. set (r := launch.start_one c inst sb h).
    destruct r.1 as [b|[st d]]; cbn; eauto. }
  rewrite (bind_run _ _ _ _ _ E).
  destruct (alone_on_inner (λ i, pool.connected inst.(instances.id)
    ((λ k, {| pool.arc := new_arc i; pool.conn := k |}) <$> o) i) Q h1 Ha1)
    as (i & Hi & h2 & E2 & Ha2).
  rewrite (bind_run _ _ _ _ _ E2).
  assert (alone Q' h2) as Ha2' by (eapply alone_weaken; [|exact Ha2]; intros j <-; by apply HQ).
  destruct o as [k|]; [|by exists h2]. destruct (pool.connected _ _ i).1; [|by exists h2].
  pose proof (still_refresh (E:=anyhow) _ _ inst.(instances.id) k now h2 Ha2') as Hs.
  cbn. revert Hs. unfold launch.refresh_snapshot. destruct (_ || _); cbn; eauto.
Qed.
End one_user.

(** The servers a bind wants up. *)
Definition wants (ro : gmap string user.t * gmap string (string * bool)) (uid id : string) : Prop :=
  ro.2 !! id = Some (uid, true).
(** The server is being launched, or is up to date with its restarts and alive, or else
    was last tried less than the backoff ago. *)
Definition attended (eps : gmap string Z) (tick : Z) (i : pool.Inner) (id : string) : Prop :=
  id ∈ i.(pool.connecting) ∨ settled_at eps tick i id.
(** The pool is marked stale whenever it misses a server it should have: what the
    [mark_dirty] of every change of servers is for. *)
Definition complete (ro : gmap string user.t * gmap string (string * bool)) (uid : string)
    (i : pool.Inner) : Prop :=
  i.(pool.initialized) = true → i.(pool.dirty) = false →
  ∀ id, wants ro uid id → is_Some (i.(pool.applied_epochs) !! id).
(** Nothing is connecting, and the pool is marked stale whenever it tracks others than the
    servers it should. *)
Definition quiet_pool (ro : gmap string user.t * gmap string (string * bool)) (uid : string)
    (i : pool.Inner) : Prop :=
  i.(pool.connecting) = ∅ ∧
  (i.(pool.initialized) = true → i.(pool.dirty) = false →
   ∀ id, is_Some (i.(pool.applied_epochs) !! id) ↔ wants ro uid id).
(** The next request is answered from memory, for exactly the servers it should. *)
Definition ready (eps : gmap string Z) (tick : Z)
    (ro : gmap string user.t * gmap string (string * bool)) (uid : string) (i : pool.Inner) : Prop :=
  pool.is_fresh eps tick i = true ∧
  (∀ id, is_Some (i.(pool.applied_epochs) !! id) ↔ wants ro uid id) ∧
  ∀ id, id ∈ i.(pool.connecting) → wants ro uid id.
(** What a bind at [tick] leaves of the pool [i0], when the sandbox could be had or not. *)
Definition warmed (eps : gmap string Z) (tick : Z)
    (ro : gmap string user.t * gmap string (string * bool)) (uid : string) (i0 : pool.Inner)
    (sandboxed : bool) (i : pool.Inner) : Prop :=
  i.(pool.initialized) = true ∧ i.(pool.last_used) = tick ∧
  (complete ro uid i0 → ∀ id, wants ro uid id → attended eps tick i id) ∧
  (quiet_pool ro uid i0 → sandboxed = true → ready eps tick ro uid i).

Lemma enabled_ids d uid id :
  id ∈ instances.id <$> filter (λ i, i.(instances.enabled) = true) (instances.list_for_user uid d) ↔
  wants (roster d) uid id.
Proof.
  unfold wants, roster. cbn. rewrite lookup_fmap, fmap_Some. split.
  - intros (inst & -> & (Hen & Hin)%list_elem_of_filter)%list_elem_of_fmap. revert Hin.
    unfold instances.list_for_user. rewrite merge_sort_Permutation, list_elem_of_fmap.
    intros ([k r] & -> & (Hu & Hin)%list_elem_of_filter). apply elem_of_map_to_list in Hin.
    exists r. cbn in *. split; [done|]. congruence.
  - intros (r & Hr & [= Hu He]). apply list_elem_of_fmap. exists (instances.into_instance id r).
    split; [done|]. apply list_elem_of_filter. split; [done|]. unfold instances.list_for_user.
    rewrite merge_sort_Permutation, list_elem_of_fmap. exists (id, r). split; [done|].
    apply list_elem_of_filter. split; [done|]. by apply elem_of_map_to_list.
Qed.
Lemma enabled_nodup d uid :
  NoDup (instances.id <$> filter (λ i, i.(instances.enabled) = true)
    (instances.list_for_user uid d)).
Proof.
  eapply sublist_NoDup; [|apply fmap_sublist, sublist_filter].
  unfold instances.list_for_user. rewrite merge_sort_Permutation, map_map.
  rewrite (map_ext _ fst) by done.
  eapply sublist_NoDup; [apply (NoDup_fst_map_to_list d.(user_server_instances))|apply (fmap_sublist fst), sublist_filter].
Qed.

Section binding.
Context (p0 : pool.Users) (eps : gmap string Z) (uid : string)
  (ro : gmap string user.t * gmap string (string * bool)) (tick now : Z) (meets : Bind).
Abbreviation alone1 := (alone p0 eps uid ro).

(** While the launches of [l] are still to end, in a pool that was connecting to [busy]. *)
Definition launching (ids : list string) (busy : gset string) (l : list instances.Instance)
    (i : pool.Inner) : Prop :=
  i.(pool.dirty) = false ∧ i.(pool.last_used) = tick ∧
  (∀ id, is_Some (i.(pool.applied_epochs) !! id) → id ∈ ids) ∧
  (∀ id, id ∈ ids →
     ((id ∈ busy ∧ id ∈ i.(pool.connecting)) ∨ ((id ∉ busy) ∧ settled_at eps tick i id))) ∧
  (∀ id, id ∈ i.(pool.connecting) → id ∈ busy ∨ id ∈ ids) ∧
  ∀ inst, inst ∈ l → inst.(instances.id) ∉ busy.
Lemma launching_connected ids busy inst l i o :
  launching ids busy (inst :: l) i →
  launching ids busy l (pool.connected inst.(instances.id) o i).2.
Proof.
  intros (Hd & Hu & Ht & Hs & Hc & Hl).
  assert (inst.(instances.id) ∉ busy) as Hni by (apply Hl; by left).
  assert ((pool.connected inst.(instances.id) o i).2 = pool.with_backends
    (λ bs, bs ++ if (pool.connected inst.(instances.id) o i).1 then option_list o else [])%list
    (pool.connected inst.(instances.id) None i).2) as ->.
  { destruct o as [b|]; cbn; [|unfold pool.with_backends; cbn; by rewrite app_nil_r].
    unfold pool.connected. destruct (bool_decide _); [done|].
    unfold pool.with_backends; cbn. by rewrite app_nil_r. }
  split_and!; cbn; [done..| | |].
  - intros id Hid. destruct (Hs id Hid) as [[Hb Hin]|[Hb [Ha Hr]]]; [left|right].
    { split; [done|]. apply elem_of_difference. split; [done|]. set_solver. }
    split; [done|]. split; [done|]. cbn.
    destruct Hr as [Hr|Hr]; [left|by right]. rewrite <- Hr. unfold pool.healthy in *.
    by rewrite existsb_app, Hr.
  - intros id (Hid & Hne)%elem_of_difference. by apply Hc.
  - intros x Hx. apply Hl. by right.
Qed.
Lemma launching_decided enabled free i :
  NoDup (instances.id <$> enabled) → i.(pool.last_used) = tick →
  let ids := instances.id <$> enabled in
  let g := pool.decide_fates eps tick (cap) meets.(borrowed) enabled free i in
  launching ids i.(pool.connecting) g.(pool.to_spawn) g.(pool.inner).
Proof.
  intros Hn Hu ids g. unfold g, pool.decide_fates.
  set (f := {| pool.inner := pool.retain _ _ |}).
  destruct (decided_all eps tick cap meets.(borrowed) ids i.(pool.connecting) tick enabled f Hn)
    as [[Hd Hl Ht Hb Hcl Hnew] Hs].
  - intros inst Hin. by apply list_elem_of_fmap_2.
  - done.
  - split; cbn; [done..| |done| |].
    + intros id (a & (Ha & Hid)%map_lookup_filter_Some). done.
    + intros id Hid. by left.
    + by intros inst ?%not_elem_of_nil.
  - fold f. split_and!; [done|done|done|..].
    + intros id Hid. destruct (decide (id ∈ i.(pool.connecting))) as [Hin|Hni].
      * left. split; [done|by apply Hb].
      * right. split; [done|]. apply list_elem_of_fmap in Hid as (inst & -> & Hin). by apply Hs.
    + intros id Hid. destruct (Hcl id Hid) as [|Hx]; [by left|right].
      apply list_elem_of_fmap in Hx as (inst & -> & Hx). by apply Hnew.
    + intros inst Hin. by apply Hnew.
Qed.
Lemma warmed_launched ids i0 l i b :
  launching ids i0.(pool.connecting) l i → (∀ id, id ∈ ids ↔ wants ro uid id) →
  warmed eps tick ro uid i0 b (pool.bound i).
Proof.
  intros (Hd & Hu & Ht & Hs & Hc & _) Hids. split_and!; [done|done|..].
  - intros _ id Hid%Hids. destruct (Hs id Hid) as [[_ Hb]|[_ Hx]]; [by left|by right].
  - intros [Hq _] _. rewrite Hq in Hs, Hc. split_and!.
    + unfold pool.is_fresh. cbn. rewrite Hd. cbn. apply forallb_forall. intros [id a] Hin.
      apply list_elem_of_In, elem_of_map_to_list in Hin.
      destruct (Hs id (Ht id ltac:(eauto))) as [[Hx _]|[_ [Ha Hr]]]; [set_solver|].
      rewrite Hin in Ha. injection Ha as ->. apply andb_true_iff. split; [apply Z.eqb_refl|].
      change (bool_decide (id ∈ pool.connecting i) || pool.healthy id (pool.backends i) ||
        negb (pool.retry_due tick i id) = true).
      destruct Hr as [->| ->]; by rewrite ?orb_true_r.
    + intros id. cbn. rewrite <- Hids. split; [apply Ht|]. intros Hid.
      destruct (Hs id Hid) as [[Hx _]|[_ [Ha _]]]; [set_solver|]. eauto.
    + intros id [Hx|Hx]%Hc; [set_solver|by apply Hids].
Qed.
(** Whether the user's sandbox can be had in this state of the hub. *)
Definition sandbox_ok (h : Hub) : bool := is_ok (sandbox_or_fail uid h).1.
Lemma sandbox_ok_same h h' :
  h'.(db) = h.(db) → h'.(files) = h.(files) → sandbox_ok h' = sandbox_ok h.
Proof.
  intros Hd Hf. unfold sandbox_ok, sandbox_or_fail, on_db_files. rewrite Hd, Hf.
  by destruct (sandbox.sandbox_or_fail _ _ _ _ _ _ _) as [? []].
Qed.
Lemma reconcile_run i0 h :
  i0.(pool.last_used) = tick → alone1 (eq i0) h →
  ∃ h', reconcile tick now meets uid h = (Ok tt, h') ∧
    alone1 (warmed eps tick ro uid i0 (sandbox_ok h)) h'.
Proof.
  intros Hu Hh. unfold reconcile. destruct (Hh) as ((He & _) & Hro).
  rewrite (bind_run (read _) _ h _ h eq_refl), (bind_run (gets epochs) _ h _ h eq_refl), He.
  pose proof (enabled_nodup h.(db) uid) as Hn. pose proof (enabled_ids h.(db) uid) as Hids.
  rewrite Hro in Hids. set (enabled := filter _ _) in *. unfold sandbox_ok.
  pose proof (still_sandbox _ _ uid h Hh) as Hs. unfold catch.
  destruct (sandbox_or_fail uid h) as [[sb|e] h1]; cbn [fst snd is_ok] in Hs |- *.
  - rewrite (bind_run (gets _) _ h1 _ h1 eq_refl). set (free := available_permits _ _).
    destruct (alone_on_inner p0 eps uid ro (λ i,
      let g := pool.decide_fates eps tick cap (borrowed meets) enabled free i in
      (g, pool.inner g)) _ h1 Hs) as (i & <- & h2 & E2 & Hs2).
    rewrite (bind_run _ _ _ _ _ E2). cbn.
    set (g := pool.decide_fates _ _ _ _ _ _ _) in *.
    pose proof (launching_decided enabled free i0 Hn Hu) as Hg. fold g in Hg.
    set (I l := alone1 (launching (instances.id <$> enabled) i0.(pool.connecting) l)).
    destruct (for_each_run (E:=anyhow) (λ _, I (pool.to_spawn g))
      (λ ir, launch.mark_status now ir.1 status.skipped (Some ir.2)) (pool.skipped g) h2)
      as (h3 & E3 & Hs3).
    { intros x l s Hl. eexists. split; [done|]. exact Hl. }
    { eapply alone_weaken; [|exact Hs2]. by intros j <-. }
    rewrite (bind_run _ _ _ _ _ E3).
    destruct (for_each_run I (spawn_task now false uid sb) (in_time meets (pool.to_spawn g)) h3)
      as (h4 & E4 & Hs4).
    { intros x l s Hl. eapply alone_spawn; [|exact Hl]. intros j o. apply launching_connected. }
    { eapply alone_weaken; [|exact Hs3]. intros j (? & ? & ? & ? & ? & Hnew).
      split_and!; [done..|]. intros x Hx%in_time_started. by apply Hnew. }
    rewrite (bind_run _ _ _ _ _ E4).
    eapply alone_touch; [|exact Hs4]. intros j Hj. by eapply warmed_launched.
  - destruct (alone_touch p0 eps uid ro (pool.sandbox_unavailable eps tick enabled) (eq i0)
      (warmed eps tick ro uid i0 false) h1) as (h2 & E2 & Hs2); [|exact Hs|].
    { intros i <-. unfold pool.sandbox_unavailable. set (i1 := {| pool.initialized := true |}).
      destruct (stamped_rest eps tick enabled i1) as [Hi Hl].
      split_and!; [by rewrite Hi|by rewrite Hl| |done].
      intros _ id Hid%Hids. right. by apply settled_stamped. }
    rewrite (bind_run _ _ _ _ _ E2).
    pose proof (still_marks (E:=anyhow) _ _ now enabled
      (launch.chain "sandbox unavailable" e) h2 Hs2) as Hm. revert Hm.
    destruct (for_each_run (E:=anyhow) (λ _ _, True)
      (λ i, launch.mark_status now i status.skipped (Some (launch.chain "sandbox unavailable" e)))
      enabled h2) as (h3 & E3 & _); [by eexists|done|].
    unfold launch.mark_skipped. rewrite E3. intros Hm. by exists h3.
Qed.
End binding.

(** ** Facts: the passes *)
Definition pooled (p : pool.Users) (uid : string) : nat :=
  from_option (λ i, length i.(pool.backends)) 0 (p !! uid).
Section passes.
Context (eps : gmap string Z) (ro : gmap string user.t * gmap string (string * bool))
  (tick now : Z).
Definition at_pools (p : pool.Users) : Hub → Prop := still (λ q e, q = p ∧ e = eps) ro.
(** The user's pool, or the one a first request creates. *)
Definition pool_of (p : pool.Users) (uid : string) : pool.Inner := default (pool.new tick) (p !! uid).
Lemma warmed_fresh uid i b :
  i.(pool.last_used) = tick → pool.is_fresh eps tick i = true → warmed eps tick ro uid i b i.
Proof.
  intros Hu Hf. pose proof Hf as [[Hi Hd%negb_true_iff]%andb_true_iff Hall]%andb_true_iff.
  rewrite forallb_forall in Hall. split_and!; [done|done|..].
  - intros Hc id Hid. destruct (Hc Hi Hd id Hid) as [a Ha].
    assert (pool.settled eps tick i id a = true) as Hs.
    { apply (Hall (id, a)), list_elem_of_In. by apply elem_of_map_to_list. }
    unfold pool.settled in Hs. apply andb_true_iff in Hs as [He Hs]. apply Z.eqb_eq in He.
    rewrite !orb_true_iff, bool_decide_eq_true, negb_true_iff in Hs.
    destruct Hs as [[Hs|Hs]|Hs]; [by left|right..]; (split; [congruence|tauto]).
  - intros [Hc Ht] _. split_and!; [done|by apply Ht|]. rewrite Hc. set_solver.
Qed.
Lemma backends_for_run p0 meets uid h :
  at_pools p0 h →
  ∃ i h', backends_for tick now meets uid h = (Ok (pool.conn <$> i.(pool.backends)), h') ∧
    at_pools (<[uid:=i]> p0) h' ∧
    warmed eps tick ro uid (pool.borrow tick (pool_of p0 uid)) (sandbox_ok uid h) i.
Proof.
  intros ((Hp & He) & Hr). unfold backends_for. set (start := pool_of p0 uid).
  set (h1 := (on_pools (E:=anyhow) (pool.entry uid tick) h).2).
  assert (on_pools (pool.entry uid tick) h = (Ok (E:=anyhow) tt, h1)) as E1 by done.
  assert (alone p0 eps uid ro (eq start) h1) as Hs1.
  { split; [|done]. split; [done|]. exists start. split; [|done].
    cbn. rewrite Hp. unfold start, pool_of. destruct (p0 !! uid) as [i|] eqn:E; [|done].
    symmetry. by apply insert_id. }
  rewrite (bind_run _ _ _ _ _ E1).
  pose proof (alone_touch p0 eps uid ro (pool.borrow tick) _ (eq (pool.borrow tick start)) h1
    (λ i (Hi : start = i), f_equal (pool.borrow tick) Hi) Hs1) as (h2 & E2 & Hs2).
  assert (sandbox_ok uid h2 = sandbox_ok uid h) as Hsb.
  { apply sandbox_ok_same; unfold touch_inner, ignore, on_inner in E2;
      destruct (h1.(pools) !! uid); by injection E2 as <-. }
  rewrite (bind_run _ _ _ _ _ E2), (bind_run (gets _) _ h2 _ h2 eq_refl), <- Hsb.
  assert (∃ h3, (if from_option (pool.is_fresh h2.(epochs) tick) false (h2.(pools) !! uid)
    then ret tt else reconcile tick now meets uid) h2 = (Ok tt, h3) ∧
    alone p0 eps uid ro
      (warmed eps tick ro uid (pool.borrow tick start) (sandbox_ok uid h2)) h3)
    as (h3 & E3 & ((He3 & i & Hp3 & Hw) & Hr3)).
  { destruct (Hs2) as ((He2 & i2 & Hp2 & <-) & Hr2).
    rewrite Hp2, lookup_insert_eq. cbn [from_option]. rewrite He2.
    destruct (pool.is_fresh eps tick (pool.borrow tick start)) eqn:Ef.
    - exists h2. split; [done|]. split; [|done]. split; [done|]. eexists. split; [exact Hp2|].
      by apply warmed_fresh.
    - by apply reconcile_run. }
  rewrite (bind_run _ _ _ _ _ E3). exists i, h3. unfold backends, gets.
  rewrite Hp3, lookup_insert_eq. by split.
Qed.

(** Every user in turn; the others' pools stay. *)
Lemma warm_users_run binds us p0 h :
  NoDup (users.id <$> us) → at_pools p0 h →
  ∃ p h', warm_users tick now binds us h =
      (Ok (length us, sum_list_with (λ u, pooled p u.(users.id)) us), h') ∧
    at_pools p h' ∧ (∀ u, u ∉ users.id <$> us → p !! u = p0 !! u) ∧
    ∀ us1 u us2, us = (us1 ++ u :: us2)%list → ∃ i, p !! u.(users.id) = Some i ∧
      warmed eps tick ro u.(users.id) (pool.borrow tick (pool_of p0 u.(users.id)))
        (sandbox_ok u.(users.id) (warm_users tick now binds us1 h).2) i.
Proof.
  revert p0 h. induction us as [|u us IH]; intros p0 h Hn Hh.
  { exists p0, h. split_and!; try done. by intros []. }
  rewrite fmap_cons in Hn. apply NoDup_cons in Hn as [Hni Hn].
  destruct (backends_for_run p0 (binds u.(users.id)) u.(users.id) h Hh) as (i & h1 & E1 & Hs1 & Hw).
  destruct (IH (<[u.(users.id):=i]> p0) h1 Hn Hs1) as (p & h2 & E2 & Hs2 & Hout & Hin).
  assert (p !! u.(users.id) = Some i) as Hi by (rewrite Hout by done; apply lookup_insert_eq).
  assert (∀ l, (warm_users tick now binds (u :: l) h).2 = (warm_users tick now binds l h1).2) as Hl.
  { intros l. cbn [warm_users]. rewrite (bind_run _ _ _ _ _ E1). unfold bind.
    by destruct (warm_users tick now binds l h1) as [[]]. }
  exists p, h2. split_and!; [|done|..].
  - cbn [warm_users]. rewrite (bind_run _ _ _ _ _ E1), (bind_run _ _ _ _ _ E2). cbn.
    unfold ret, pooled at 2. by rewrite Hi, length_fmap.
  - intros v [Hne Hv]%not_elem_of_cons. rewrite Hout by done. by rewrite lookup_insert_ne.
  - intros [|v us1] w us2 [= <- Hus]; [by exists i|]. rewrite Hl.
    destruct (Hin us1 w us2 Hus) as (j & Hj & Hwj). exists j. split; [done|].
    unfold pool_of in *. rewrite lookup_insert_ne in Hwj; [done|].
    intros Heq. apply Hni. rewrite Heq, Hus, fmap_app. cbn. set_solver.
Qed.
End passes.

(** An enabled account with an enabled server. *)
Definition warms (ro : gmap string user.t * gmap string (string * bool)) (uid : string) : Prop :=
  (∃ r, ro.1 !! uid = Some r ∧ r.(user.disabled) = false) ∧ ∃ id, wants ro uid id.
Lemma warmed_users d uid :
  uid ∈ users.id <$> filter (with_enabled (instances.list_all d)) (users.list d) ↔
  warms (roster d) uid.
Proof.
  assert (∀ u, u ∈ instances.user_id <$> filter (λ i, i.(instances.enabled) = true)
    (instances.list_all d) ↔ ∃ id, wants (roster d) u id) as Hw.
  { intros u. unfold wants, roster. cbn. rewrite list_elem_of_fmap. split.
    - intros (i & -> & (Hen & Hin)%list_elem_of_filter). revert Hin. unfold instances.list_all.
      rewrite merge_sort_Permutation, list_elem_of_fmap. intros ([k r] & -> & Hin).
      apply elem_of_map_to_list in Hin. exists k. rewrite lookup_fmap, Hin. cbn in *. congruence.
    - intros (id & (r & [= Hu He] & Hr)%lookup_fmap_Some).
      exists (instances.into_instance id r). split; [done|]. apply list_elem_of_filter.
      split; [done|]. unfold instances.list_all. rewrite merge_sort_Permutation, list_elem_of_fmap.
      exists (id, r). split; [done|]. by apply elem_of_map_to_list. }
  unfold warms. rewrite list_elem_of_fmap. setoid_rewrite list_elem_of_filter.
  unfold with_enabled. setoid_rewrite Hw. unfold users.list.
  setoid_rewrite merge_sort_Permutation. setoid_rewrite list_elem_of_fmap. cbn. split.
  - intros (u & -> & (Hd & Hi) & [k r] & -> & Hin). apply elem_of_map_to_list in Hin.
    split; [by exists r|done].
  - intros ((r & Hr & Hd) & Hi). exists (users.of_row uid r). split_and!; [done..|].
    exists (uid, r). split; [done|]. by apply elem_of_map_to_list.
Qed.
Lemma warmed_nodup d :
  NoDup (users.id <$> filter (with_enabled (instances.list_all d)) (users.list d)).
Proof.
  eapply sublist_NoDup; [|apply fmap_sublist, sublist_filter]. unfold users.list.
  rewrite merge_sort_Permutation, map_map. rewrite (map_ext _ fst) by done.
  apply NoDup_fst_map_to_list.
Qed.

(** The pass, from the state in which the status of removed servers was dropped. *)
Definition pruned (h : Hub) : Hub := (on_status (E:=anyhow) (status.retain
  (list_to_set (instances.id <$> instances.list_all h.(db)))) h).2.
Definition warm_order (d : Db) : list users.User :=
  filter (with_enabled (instances.list_all d)) (users.list d).
Lemma warm_all_run tick now binds h :
  let ro := roster h.(db) in let us := warm_order h.(db) in
  ∃ p h', warm_all tick now binds h =
      (Ok (length us, sum_list_with (λ u, pooled p u.(users.id)) us), h') ∧
    at_pools h.(epochs) ro p h' ∧ (∀ u, u ∉ users.id <$> us → p !! u = h.(pools) !! u) ∧
    ∀ us1 u us2, us = (us1 ++ u :: us2)%list → ∃ i, p !! u.(users.id) = Some i ∧
      warmed h.(epochs) tick ro u.(users.id)
        (pool.borrow tick (pool_of tick h.(pools) u.(users.id)))
        (sandbox_ok u.(users.id) (warm_users tick now binds us1 (pruned h)).2) i.
Proof.
  intros ro us. unfold warm_all.
  rewrite (bind_run (read _) _ h _ h eq_refl), (bind_run (read _) _ h _ h eq_refl).
  rewrite (bind_run _ _ h tt (pruned h)) by done.
  by apply (warm_users_run h.(epochs) ro tick now binds us h.(pools) (pruned h)
    (warmed_nodup h.(db))).
Qed.

(** C28: what a keep-warm pass does, whatever the launches and the sandbox do.  It never
    fails; it changes no account, nor which servers there are, whose and which of them are
    enabled, no restart epoch and no pool but those of the enabled accounts with an enabled
    server, each visited once, and reports how many it visited and how many backends they
    have.  The pool of each of them counts as used now.
    If the pool was marked stale whenever it missed an enabled server, then each enabled
    server is now being launched, or is up to date with its restarts and alive, or else
    was last tried — perhaps in vain, or skipped for want of a slot or of a sandbox — less
    than the backoff ago.  If moreover nothing was connecting, the mark was exact and the
    user's sandbox could be had when the pass came to it (or none is configured), the pool
    is fresh — the next request is answered without touching the database — and tracks
    exactly the enabled servers. *)
Theorem warm_all_spec tick now binds h :
  let ro := roster h.(db) in let us := warm_order h.(db) in
  NoDup (users.id <$> us) ∧ (∀ uid, uid ∈ users.id <$> us ↔ warms ro uid) ∧
  ∃ h', warm_all tick now binds h =
      (Ok (length us, sum_list_with (λ u, pooled h'.(pools) u.(users.id)) us), h') ∧
    h'.(epochs) = h.(epochs) ∧ roster h'.(db) = ro ∧
    (∀ uid, ¬ warms ro uid → h'.(pools) !! uid = h.(pools) !! uid) ∧
    ∀ us1 u us2, us = (us1 ++ u :: us2)%list →
      let uid := u.(users.id) in let i0 := pool_of tick h.(pools) uid in
      ∃ i, h'.(pools) !! uid = Some i ∧ i.(pool.last_used) = tick ∧
        (complete ro uid i0 → ∀ id, wants ro uid id → attended h.(epochs) tick i id) ∧
        (quiet_pool ro uid i0 →
         sandbox_ok uid (warm_users tick now binds us1 (pruned h)).2 = true →
         ready h.(epochs) tick ro uid i).
Proof.
  intros ro us. split; [apply warmed_nodup|]. split; [apply warmed_users|].
  destruct (warm_all_run tick now binds h) as (p & h' & E & ((<- & He) & Hr) & Hout & Hin).
  exists h'. split_and!; [done..| |].
  - intros uid Hw. apply Hout. by intros ?%warmed_users.
  - intros us1 u us2 Hus. destruct (Hin us1 u us2 Hus) as (i & Hi & _ & Hu & Hc & Hq). by exists i.
Qed.

(** ** Facts: warmed pools stay *)
(** A heartbeat pass only drops backends and counts strikes. *)
Definition beaten (i j : pool.Inner) : Prop :=
  j.(pool.initialized) = i.(pool.initialized) ∧ j.(pool.dirty) = i.(pool.dirty) ∧
  j.(pool.applied_epochs) = i.(pool.applied_epochs) ∧
  j.(pool.connecting) = i.(pool.connecting) ∧ j.(pool.last_used) = i.(pool.last_used).
Lemma exercise_beaten rs i : beaten i (pool.exercise rs i).1.
Proof.
  unfold pool.exercise. generalize (@nil string).
  assert (∀ j, beaten i j → ∀ d, beaten i (fold_left pool.exercise_one rs (j, d)).1) as Hg;
    [|intros d; by apply Hg].
  induction rs as [|[b a] rs IH]; intros j Hj d; [done|]. cbn [fold_left].
  assert (beaten i (pool.exercise_one (j, d) (b, a)).1) as Hk.
  { unfold pool.exercise_one. destruct a; [done|]. destruct (_ <=? _)%Z; [|done].
    by destruct (list_find _ _) as [[]|]. }
  destruct (pool.exercise_one (j, d) (b, a)). by apply IH.
Qed.
Lemma exercise_all_run now h : ∃ r h', exercise_all now h = (Ok r, h') ∧
  h'.(pools) = (λ i, (pool.exercise (heartbeat i) i).1) <$> h.(pools) ∧
  h'.(epochs) = h.(epochs) ∧ roster h'.(db) = roster h.(db).
Proof.
  unfold exercise_all. rewrite (bind_run (gets pools) _ h _ h eq_refl).
  set (h1 := set_pools (fst <$> ((λ i, pool.exercise (heartbeat i) i) <$> h.(pools))) h).
  rewrite (bind_run _ _ h tt h1) by done.
  set (ids := concat (map _ _)).
  destruct (for_each_run (E:=anyhow) (λ _ h', h'.(pools) = h1.(pools) ∧
    h'.(epochs) = h.(epochs) ∧ roster h'.(db) = roster h.(db)) (λ iid, on_status (status.set iid
    status.error (Some "heartbeat failed; dropped for respawn") now)) ids h1)
    as (h2 & E2 & Hp & He & Hr); [|done|].
  { intros x l s Hs. by eexists. }
  rewrite (bind_run _ _ _ _ _ E2). eexists _, h2. split; [done|]. rewrite Hp.
  split; [|done]. cbn. by rewrite <- map_fmap_compose.
Qed.

(** A turn of one of the periodic tasks, a request of a user, or the end of a launch that
    may have outlived the bind that began it. *)
Inductive Turn :=
| Warmed (tick now : Z) (binds : string → Bind) (last_deep : option Z)
| Reaped (tick : Z)
| Swept (now : Z)
| Requested (tick now : Z) (meets : Bind) (uid : string)
| Launched (now : Z) (late : bool) (uid : string) (sb : option sandbox.Sandbox)
    (inst : instances.Instance).
Definition turn (h : Hub) (t : Turn) : Hub :=
  match t with
  | Warmed tick now binds last_deep => (warmer tick now binds last_deep h).2
  | Reaped tick => (reaper tick h).2
  | Swept now => (sweeper now h).2
  | Requested tick now meets uid => (backends_for tick now meets uid h).2
  | Launched now late uid sb inst => (spawn_task now late uid sb inst h).2
  end.
(** The warmer last ran at [last], and requests are later; neither its next pass nor a turn
    of the reaper comes more than [gap] after it. *)
Fixpoint paced (gap last : Z) (l : list Turn) : Prop :=
  match l with
  | [] => True
  | Warmed tick _ _ _ :: l => (last ≤ tick ≤ last + gap)%Z ∧ paced gap tick l
  | Reaped tick :: l => (tick ≤ last + gap)%Z ∧ paced gap last l
  | Requested tick _ _ _ :: l => (last ≤ tick)%Z ∧ paced gap last l
  | Swept _ :: l | Launched _ _ _ _ _ :: l => paced gap last l
  end.
(** The user's pool exists and was used at [last] or since. *)
Definition used_since (uid : string) (last : Z) (p : pool.Users) : Prop :=
  ∃ i, p !! uid = Some i ∧ (last ≤ i.(pool.last_used))%Z.
Abbreviation kept_since ro uid last := (still (λ p _, used_since uid last p) ro).
Lemma kept_warmed ro uid tick now binds deep h :
  warms ro uid → roster h.(db) = ro → kept_since ro uid tick (warmer tick now binds deep h).2.
Proof.
  intros Hw <-. destruct (warm_all_run tick now binds h) as (p & h1 & E & ((Hp & _) & Hr1) & _ & Hin).
  pose proof (proj2 (warmed_users h.(db) uid) Hw) as Hu. fold (warm_order h.(db)) in Hu.
  apply list_elem_of_fmap in Hu as (u & -> & (us1 & us2 & Hus)%list_elem_of_split).
  destruct (Hin us1 u us2 Hus) as (i & Hi & _ & Hl & _).
  unfold warmer. rewrite (bind_run _ _ _ _ _ E). destruct (deep_due tick deep).
  - destruct (exercise_all_run now h1) as (r & h2 & E2 & Hp2 & _ & Hr2).
    rewrite (bind_run _ _ _ _ _ E2). cbn [ret snd]. split; [|congruence].
    unfold used_since. rewrite Hp2, Hp, lookup_fmap, Hi. eexists. split; [done|].
    destruct (exercise_beaten (heartbeat i) i) as (_ & _ & _ & _ & ->). lia.
  - cbn [ret snd]. split; [|done]. exists i. rewrite Hp, Hl. by split.
Qed.
Lemma kept_requested ro uid last tick now meets v h :
  (last ≤ tick)%Z → kept_since ro uid last h →
  kept_since ro uid last (backends_for tick now meets v h).2.
Proof.
  intros Ht ((i & Hi & Hu) & Hr).
  destruct (backends_for_run h.(epochs) ro tick now h.(pools) meets v h) as
    (j & h' & -> & ((Hp & _) & Hr') & _ & Hj & _); [done|]. split; [|done].
  unfold used_since. cbn. rewrite Hp. destruct (decide (v = uid)) as [->|Hne].
  - exists j. by rewrite lookup_insert_eq, Hj.
  - exists i. by rewrite lookup_insert_ne.
Qed.
Lemma kept_connected {A} ro uid last v (f : pool.Inner → A * pool.Inner) :
  (∀ i, (f i).2.(pool.last_used) = i.(pool.last_used)) →
  preserves (kept_since ro uid last) (on_inner v f).
Proof.
  intros Hf h ((i & Hi & Hu) & Hr). unfold on_inner. destruct (h.(pools) !! v) as [j|] eqn:Hj;
    (split; [|done]); [|by exists i]. cbn. destruct (decide (v = uid)) as [->|Hne].
  - exists (f j).2. rewrite lookup_insert_eq, Hf. split; [done|]. congruence.
  - exists i. by rewrite lookup_insert_ne.
Qed.
Lemma kept_launched ro uid last now late v sb inst :
  preserves (kept_since ro uid last) (spawn_task now late v sb inst).
Proof.
  unfold spawn_task. apply preserves_bind; [apply still_launch|]. intros b.
  apply preserves_bind.
  - apply kept_connected. intros i. unfold pool.connected.
    destruct (_ <$> b); [|done]. by case_bool_decide.
  - intros pooled. destruct b as [k|]; [|apply preserves_ret].
    destruct pooled as [[]|]; [|apply preserves_ret..].
    apply preserves_bind; [destruct late; auto with hub|]. intros _. apply still_refresh.
Qed.

(** C27: the reaper never takes a warmed pool.  When the clock does not run back, the
    warmer's passes and the reaper's turns come at most [gap] after the warmer's last pass,
    and the idle timeout is longer than that, the pool of an enabled account with an
    enabled server exists from the first pass on, whatever the periodic tasks, the requests
    of any users and the launches still under way do — with or without a sandbox, and
    whether or not it can be had.  (No account or server changes meanwhile; the pool may
    hold no live backend.) *)
Theorem warmed_pools_survive gap uid tick now binds deep l h :
  warms (roster h.(db)) uid →
  (gap < limits.(config.backend_idle_secs) * 1000)%Z → paced gap tick l →
  ∃ i, (fold_left turn l (turn h (Warmed tick now binds deep))).(pools) !! uid = Some i.
Proof.
  intros Hw Hgap Hl. pose proof (kept_warmed _ uid tick now binds deep h Hw eq_refl) as Hk.
  cbn [turn]. revert Hl Hk. generalize (warmer tick now binds deep h).2. generalize tick.
  induction l as [|t l IH]; intros last h1 Hl Hk; [by destruct Hk as ((i & Hi & _) & _); exists i|].
  cbn [fold_left]. destruct t as [tick' now' binds' deep'|tick'|now'|tick' now' meets v|now' late v sb inst];
    cbn [turn paced] in *.
  - destruct Hl as (_ & Hl). eapply IH; [exact Hl|]. apply kept_warmed; [done|apply Hk].
  - destruct Hl as (Ht & Hl). eapply IH; [exact Hl|]. destruct Hk as ((i & Hi & Hu) & Hr).
    split; [|done]. exists i. split; [|done]. apply map_lookup_filter_Some. split; [done|]. cbn.
    apply Z.leb_gt. lia.
  - by eapply IH.
  - destruct Hl as (Ht & Hl). eapply IH; [exact Hl|]. by apply kept_requested.
  - eapply IH; [exact Hl|]. by apply kept_launched.
Qed.

(** An idle timeout of half a minute or less defeats the warmer: the reaper's turn
    between two passes takes a pool the warmer has just touched. *)
Theorem short_idle_reaps tick uid i h :
  (0 < limits.(config.backend_idle_secs) ≤ 30)%Z →
  h.(pools) !! uid = Some i → i.(pool.last_used) = tick → c.(config.keep_warm) = true →
  reaper_period = Some 30%Z ∧ warmer_period = Some 60%Z ∧
  (reaper (tick + 30 * 1000) h).2.(pools) !! uid = None.
Proof.
  intros Hidle Hi Hu Hw. unfold reaper_period, warmer_period. rewrite Hw. split_and!; [|done|].
  - destruct (Z.eqb_spec (config.backend_idle_secs limits) 0); [lia|]. f_equal.
    pose proof (Z.div_le_upper_bound (config.backend_idle_secs limits) 4 30). lia.
  - cbn. apply map_lookup_filter_None. right. intros j Hj. rewrite Hi in Hj. injection Hj as <-.
    cbn. unfold pool.idle_for. rewrite Hu. intros Hf%Z.leb_gt. lia.
Qed.
End warm.

(** A server disabled while the sandbox cannot be prepared keeps running: the bind
    that should drop its backend only clears the pool's mark, so the pool counts as fresh
    for ever and every request is still offered that backend. *)
Theorem sandbox_down_keeps_disabled later :
  let before := pool.mark_dirty (pool.bound (pool.connected "i" (Some pool.b0)
    (pool.decide_fates ∅ 0 16 (λ _, false) [instances.i0] 1 (pool.new 0)).(pool.inner)).2) in
  let after := pool.sandbox_unavailable ∅ 0 [] before in
  pool.is_fresh ∅ later before = false ∧ after.(pool.backends) = [pool.b0] ∧
  pool.is_fresh ∅ later after = true.
Proof. split_and!; vm_compute; reflexivity. Qed.

(** ** One account, one server *)
Definition hub1 : Hub :=
  hub0 (set_user_server_instances (insert "i" {|
    instance.user_id := "u"; instance.custom_def := Some launch.stdio_def;
    instance.namespace := "fs"; instance.display_name := "fs"; instance.enabled := true;
    instance.config := ∅; instance.built_commit := None; instance.build_status := "ready";
    instance.capabilities_json := None; instance.created_at := 5 |}) db1).
Definition bind0 : string → Bind := λ _, {|
  lent := 0; borrowed := λ _, false; in_time := λ l, l; in_time_started := λ l _ Hx, Hx |}.
(** A hub that runs as root with a sandbox base, as the image does. *)
Definition root0 : Machine := {|
  hub_uid := 0; dir_mode := 493; file_mode := 420; is_root := true; hub_env := ∅;
  output := @output machine0; coreutils := @coreutils machine0;
  symlink_metadata := @symlink_metadata machine0; canonicalize := @canonicalize machine0 |}.
Definition sandboxed0 : config.Config :=
  let c := oauth_witness.cfg0 in {|
  config.base_url := c.(config.base_url); config.rp_id := c.(config.rp_id);
  config.listen := c.(config.listen); config.db_path := c.(config.db_path);
  config.env_dir := "/data/envs"; config.master_key := c.(config.master_key);
  config.bootstrap_admin := c.(config.bootstrap_admin);
  config.allow_open_registration := c.(config.allow_open_registration);
  config.sandbox_uid_base := Some 10000%Z; config.keep_warm := c.(config.keep_warm);
  config.keep_warm_interval_secs := c.(config.keep_warm_interval_secs);
  config.limits := c.(config.limits); config.child_limits := c.(config.child_limits);
  config.block_private_backend_ips := c.(config.block_private_backend_ips);
  config.allowed_hosts := c.(config.allowed_hosts);
  config.session_idle_ttl_secs := c.(config.session_idle_ttl_secs);
  config.session_absolute_ttl_secs := c.(config.session_absolute_ttl_secs) |}.
#[local] Existing Instances root0 url0 backend.http0 aead0 launch.children0.
Abbreviation pass0 tick h := (warm_all sandboxed0 (λ _, "{}") tick 50 bind0 h).
Lemma warms0 : warms (roster hub1.(db)) "u".
Proof. split; [by exists user0|]. by exists "i". Qed.

(** In its sandbox the one server is launched by the pass, and the next request finds its
    pool fresh. *)
Example warm_all_sandboxed :
  fst (pass0 0%Z hub1) = Ok (1%nat, 1%nat) ∧
  from_option (pool.is_fresh ∅ 1000) false ((pass0 0%Z hub1).2.(pools) !! "u") = true.
Proof. split; vm_compute; reflexivity. Qed.
Lemma warm_all_spec_witness :
  ∃ i, (pass0 0%Z hub1).2.(pools) !! "u" = Some i ∧ ready ∅ 0 (roster hub1.(db)) "u" i.
Proof.
  destruct (warm_all_spec sandboxed0 (λ _, "{}") 0 50 bind0 hub1)
    as (_ & _ & h' & E & He & _ & _ & Hin).
  destruct (Hin [] (users.of_row "u" user0) [] eq_refl) as (i & Hi & _ & _ & Hr).
  exists i. rewrite E. split; [exact Hi|]. apply Hr.
  - split; [vm_compute; reflexivity|]. intros Hf. vm_compute in Hf. discriminate Hf.
  - vm_compute. reflexivity.
Defined.
Lemma warmed_pools_survive_witness :
  ∃ i, (fold_left (turn sandboxed0 (λ _, "{}"))
    [Reaped 30000; Requested 40000 90 (bind0 "v") "v"; Warmed 60000 110 bind0 (Some 0%Z);
     Swept 3650; Launched 140 true "v" None instances.i0; Reaped 90000]
    (turn sandboxed0 (λ _, "{}") hub1 (Warmed 0 50 bind0 None))).(pools) !! "u" = Some i.
Proof.
  apply (warmed_pools_survive sandboxed0 (λ _, "{}") 60000);
    [exact warms0|vm_compute; reflexivity|].
  cbn [paced]. split_and!; try exact I; lia.
Defined.
End warm.
