(* ===== verification/Web.v ===== *)
(** * The web handlers (web.rs)

    The form submissions of the browser pages: every one that changes the hub.  A
    handler answers a [Response]; an early return is the error of the monad.
    [user], [jar] and [info] are what the extractors give: the account of the
    session, its cookies, and the request's address and agent. *)

From stdpp Require Import pretty.
From S2P Require Import Prelude Strs Trim Schema External Fixtures Json Html Users Invites Sessions.
From S2P Require Import Tokens Access Groups GitCreds Config Instances InstanceText OauthStore.
From S2P Require Import Status AuditLog Sandbox Backend Gitsrc Pool Hub Launch Server Management.
Open Scope string_scope.
Open Scope hub_scope.

Module web.
Import hub html.

Inductive Response := Redirect (to : string) | Page (status : Z) (body : string).
Abbreviation W A := (M Hub Response A).
Definition respond {E} (m : W Response) : M Hub E Response := λ h,
  (Ok match (m h).1 with Ok r | Err r => r end, (m h).2).

Record CreateServerForm := {
  csrf : string; display_name : string; namespace : string; transport : string;
  command : string; repo : string; git_ref : string; url : string; env : string;
  config_file : string; connect_timeout_secs : string }.

Section web.
Context `{Machine} `{UrlCrate} `{HttpCrate} `{Shlex} `{Aead} `{Digest} `{launch.Children}.
Context (c : config.Config) (asset_ver source_url version : string).
(** The ids, nonces, codes and tokens drawn; the clock; snapshots as JSON. *)
Context (fresh : management.Drawn) (random : string) (now : Z)
  (snapshot_json : backend.CapabilitiesSnapshot → string).
Abbreviation env_dir := c.(config.env_dir).
Abbreviation page := (page asset_ver source_url version).

(** ** Answers *)
Definition back : string := html "<p><a href='/'>← Back</a></p>".
Definition forbidden : Response := Page 403 (page "Blocked"
  ("<h1>Request blocked</h1><p>Invalid or missing security token. Reload the page and try again.</p>" +:+ back)).
Definition admin_forbidden : Response := Page 403 (page "Forbidden"
  ("<h1>Administrators only</h1><p>You do not have access to this page.</p>" +:+ back)).
Definition error_page (msg : string) : Response := Page 200 (page "Error"
  ("<h1>Something went wrong</h1><p>" +:+ esc msg +:+ "</p>" +:+ back)).

Section session.
Context (user : users.User) (jar : gmap string string) (info : users.RequestInfo).
Abbreviation uid := user.(users.id).

Definition event (action object : string) : audit.Event :=
  audit.with_object object (audit.request info
    (audit.as_actor user.(users.handle) uid (audit.event action))).
Definition audit_ok {E} (action object : string) : M Hub E unit :=
  hub.audit (audit.ok (event action object)).
Definition audit_denied {E} (action object reason : string) : M Hub E unit :=
  hub.audit (audit.denied reason (event action object)).
(** The token of the form is the session's; refusals are audited, or not. *)
Definition valid_csrf (submitted : string) : bool :=
  session.check_csrf jar c.(config.master_key) submitted.
Definition check_csrf (action object submitted : string) : W unit :=
  if valid_csrf submitted then ret tt
  else audit_denied action object "csrf" ;;; fail forbidden.
Definition check_csrf_silently (submitted : string) : W unit :=
  refuse_if (negb (valid_csrf submitted)) forbidden.
Definition check_admin (action object : string) : W unit :=
  if user.(users.is_admin) then ret tt
  else audit_denied action object "not_admin" ;;; fail admin_forbidden.
Definition or_error {A} (m : M Hub anyhow A) : W A := map_err (λ e, error_page (to_string e)) m.
Definition owned_instance (iid : string) : W instances.Instance :=
  let* found := read (instances.get_owned iid uid) in
  ok_or found (error_page "server not found").
Definition to_server (iid : string) : Response := Redirect ("/servers/" +:+ iid).

(** ** Servers *)
Definition opt_field (s : string) : option string :=
  let t := trim s in if is_empty t then None else Some t.
Definition text_err {A} (r : result anyhow A) : result string A :=
  match r with Ok a => Ok a | Err e => Err (to_string e) end.
Definition source_from_form (form : CreateServerForm)
    : result string (option string * list string * option string * option string * option string) :=
  if eqs (trim form.(transport)) "http" then
    match opt_field form.(url) with
    | None => Err "a remote URL is required for an http server"
    | Some url =>
        let? _ := text_err (text.validate_remote_url url) in
        Ok (None, [], Some url, None, None)
    end
  else
    let? (command, args) := text_err (text.parse_command form.(command)) in
    if bool_decide (command = None) then Err "a command line is required for a stdio server" else
    let repo := opt_field form.(repo) in
    if bool_decide ((r ← repo; url_parse r) = None) && bool_decide (is_Some repo)
    then Err "repository must be a valid URL"
    else Ok (command, args, None, repo,
             _ ← repo; Some (default "main" (opt_field form.(git_ref)))).
Definition def_from_form (form : CreateServerForm)
    : result string (ServerDef * gmap string string) :=
  let transport := trim form.(transport) in
  if negb (eqs transport "stdio" || eqs transport "http")
  then Err "transport must be stdio or http" else
  let? env := text_err (text.parse_env form.(env)) in
  let? timeout := text_err (text.parse_connect_timeout form.(connect_timeout_secs)) in
  let? (command, args, url, repo, git_ref) := source_from_form form in
  Ok ({| Schema.name := trim form.(display_name); description := "";
         Schema.transport := transport; Schema.command := command; Schema.args := args;
         Schema.url := url; runtime := ""; Schema.repo := repo; Schema.git_ref := git_ref;
         entry := None; module := None; Schema.connect_timeout_secs := timeout |}, env).
(** A blank value clears the file, and the copy in the working directory. *)
Definition apply_config_file (iid content : string) : M Hub anyhow unit :=
  if is_empty (trim content)
  then on_db (instances.clear_config_file iid) ;;; on_files (backend.remove_workdir env_dir iid)
  else on_db (instances.set_config_file iid content fresh.(management.nonce)).
Definition servers_changed {E} : M Hub E unit := mark_dirty uid ;;; notify_tools_changed uid.
Definition restart_if_enabled {E} (inst : instances.Instance) : M Hub E unit :=
  if inst.(instances.enabled) then restart_backend inst.(instances.id) uid else ret tt.

Definition create_server (form : CreateServerForm) : W Response :=
  let ns := trim form.(namespace) in
  check_csrf "server.add" ns form.(csrf) ;;;
  let* parsed := map_err error_page (lift (def_from_form form)) in
  let display := if is_empty (trim form.(display_name)) then ns else trim form.(display_name) in
  let* inst := or_error (on_db
    (instances.create uid (Some parsed.1) ns display fresh.(management.new_id) now)) in
  let iid := inst.(instances.id) in
  or_error (on_db (instances.replace_env fresh.(management.nonces) iid parsed.2)) ;;;
  or_error (apply_config_file iid form.(config_file)) ;;;
  servers_changed ;;;
  audit_ok "server.add" ns ;;;
  ret (to_server iid).

(** Transport and name are the stored ones. *)
Definition with_transport (t : string) (form : CreateServerForm) : CreateServerForm := {|
  csrf := form.(csrf); display_name := form.(display_name); namespace := form.(namespace);
  transport := t; command := form.(command); repo := form.(repo); git_ref := form.(git_ref);
  url := form.(url); env := form.(env); config_file := form.(config_file);
  connect_timeout_secs := form.(connect_timeout_secs) |}.
Definition with_name (n : string) (def : ServerDef) : ServerDef := {|
  Schema.name := n; description := def.(description); Schema.transport := def.(Schema.transport);
  Schema.command := def.(Schema.command); Schema.args := def.(Schema.args);
  Schema.url := def.(Schema.url); runtime := def.(runtime); Schema.repo := def.(Schema.repo);
  Schema.git_ref := def.(Schema.git_ref); entry := def.(entry); module := def.(module);
  Schema.connect_timeout_secs := def.(Schema.connect_timeout_secs) |}.
Definition save_config (iid : string) (form : CreateServerForm) : W Response :=
  check_csrf "server.edit" iid form.(csrf) ;;;
  let* inst := owned_instance iid in
  let* existing := or_error (instances.resolve_def inst) in
  let form := with_transport existing.(Schema.transport) form in
  let* parsed := map_err error_page (lift (def_from_form form)) in
  let def := with_name existing.(Schema.name) parsed.1 in
  or_error (on_db (instances.update_def inst.(instances.id) def)) ;;;
  or_error (on_db
    (instances.replace_env fresh.(management.nonces) inst.(instances.id) parsed.2)) ;;;
  or_error (apply_config_file inst.(instances.id) form.(config_file)) ;;;
  restart_if_enabled inst ;;;
  audit_ok "server.edit" inst.(instances.namespace) ;;;
  ret (to_server iid).

Definition set_enabled_and_redirect (iid : string) (enabled : bool) : W Response :=
  let* inst := owned_instance iid in
  ignore (on_db (instances.set_enabled iid enabled)) ;;;
  (if enabled then ret tt else on_status (status.remove iid)) ;;;
  servers_changed ;;;
  audit_ok (if enabled then "server.enable" else "server.disable") inst.(instances.namespace) ;;;
  ret (to_server iid).
Definition enable_server (iid submitted : string) : W Response :=
  check_csrf "server.enable" iid submitted ;;; set_enabled_and_redirect iid true.
Definition disable_server (iid submitted : string) : W Response :=
  check_csrf "server.disable" iid submitted ;;; set_enabled_and_redirect iid false.
Definition restart_server (iid submitted : string) : W Response :=
  check_csrf "server.restart" iid submitted ;;;
  let* inst := owned_instance iid in
  restart_backend inst.(instances.id) uid ;;;
  audit_ok "server.restart" inst.(instances.namespace) ;;;
  ret (to_server iid).
Definition delete_server (iid submitted : string) : W Response :=
  check_csrf "server.remove" iid submitted ;;;
  let* inst := owned_instance iid in
  ignore (on_db (instances.delete iid)) ;;;
  on_status (status.remove iid) ;;;
  ignore (on_files (gitsrc.remove_env env_dir iid)) ;;;
  ignore (on_files (backend.remove_workdir env_dir iid)) ;;;
  ignore (on_files (backend.remove_home env_dir iid)) ;;;
  servers_changed ;;;
  audit_ok "server.remove" inst.(instances.namespace) ;;;
  ret (Redirect "/").

Definition update_server (iid submitted : string) : W Response :=
  check_csrf "server.update" iid submitted ;;;
  let* inst := owned_instance iid in
  let* def := or_error (instances.resolve_def inst) in
  refuse_if (negb (gitsrc.is_git_source def)) (error_page "this server is not git-sourced") ;;;
  let* sb := map_err (λ e, error_page (launch.chain "sandbox unavailable" e))
    (on_db_files (sandbox.sandbox_or_fail hub_uid dir_mode is_root c.(config.sandbox_uid_base)
      env_dir uid)) in
  catch (on_build (gitsrc.update_instance hub_uid dir_mode hub_env output coreutils
    symlink_metadata canonicalize env_dir inst def sb now)) (λ r : result anyhow gitsrc.UpdateReport,
    match r with
    | Ok report =>
        (if report.(gitsrc.changed) then restart_if_enabled inst else ret tt) ;;;
        audit_ok "server.update" inst.(instances.namespace) ;;;
        ret (to_server iid)
    | Err e =>
        audit_denied "server.update" inst.(instances.namespace) "error" ;;;
        fail (error_page ("update failed: " +:+ to_string e))
    end).

(** "Test connection" and "Refresh capabilities": one probe, recorded. *)
Definition record_probe (action iid : string) (inst : instances.Instance) : W unit :=
  let* probed := launch.probe_instance c now uid inst in
  let '(state, detail, snapshot) := probed in
  on_status (status.set inst.(instances.id) state detail now) ;;;
  match snapshot with
  | Some snap =>
      ignore (on_db (instances.set_capabilities_snapshot inst.(instances.id) (snapshot_json snap)))
  | None => ret tt
  end ;;;
  if bool_decide (state = status.ok) then audit_ok action inst.(instances.namespace)
  else audit_denied action inst.(instances.namespace) (status.as_str state).
Definition test_server (iid submitted : string) : W Response :=
  check_csrf "server.test" iid submitted ;;;
  let* inst := owned_instance iid in
  record_probe "server.test" iid inst ;;;
  ret (to_server iid).
Definition refresh_capabilities (iid submitted : string) : W Response :=
  check_csrf "server.capabilities" iid submitted ;;;
  let* inst := owned_instance iid in
  record_probe "server.capabilities" iid inst ;;;
  ret (Redirect ("/servers/" +:+ iid +:+ "/capabilities")).

(** ** Invites (administrators) *)
Definition once_page (title lead code tail : string) : Response := Page 200 (page title
  (html ("<header class='row'><h1>" +:+ title +:+ "</h1><a href='/invites'>← Back</a></header>" +:+
     LFs +:+ "<p>") +:+ lead +:+
   " It works once and <strong>will not be shown again</strong>:</p>" +:+ LFs +:+
   html "<p class='copywrap'><code class='invite-code'>" +:+ esc code +:+ "</code>" +:+
   copy_btn code +:+ "</p>" +:+ LFs +:+ html "<p class='muted'>" +:+ tail +:+ "</p>")).
Definition create_recovery (handle submitted : string) : W Response :=
  check_admin "recovery.create" (trim handle) ;;;
  check_csrf "recovery.create" (trim handle) submitted ;;;
  let* found := or_error (on_db (users.find_by_handle (trim handle))) in
  let* target := ok_or found (error_page "no user with that handle") in
  let* made := or_error (on_db
    (invites.create_recovery uid target.(users.id) fresh.(management.code) now)) in
  audit_ok "recovery.create" target.(users.handle) ;;;
  ret (once_page "Recovery code created"
    ("Give this one-time code to <strong>" +:+ esc target.(users.handle) +:+ "</strong>.") made.1
    ("They enroll a new passkey at <code>" +:+ esc c.(config.base_url) +:+
     "/recover</code> using their handle and this code.")).
Definition create_invite (note submitted : string) : W Response :=
  check_admin "invite.create" "" ;;;
  check_csrf "invite.create" "" submitted ;;;
  let* made := or_error (on_db (invites.create uid (trim note) fresh.(management.code) now)) in
  audit_ok "invite.create" (invites.short_id made.2) ;;;
  ret (once_page "Invite created" "Share this code with the person you are inviting." made.1
    ("They register at <code>" +:+ esc c.(config.base_url) +:+
     "/register</code> using this code.")).
Definition revoke_invite (short_id submitted : string) : W Response :=
  check_admin "invite.revoke" (trim short_id) ;;;
  check_csrf "invite.revoke" (trim short_id) submitted ;;;
  ignore (on_db (invites.revoke (trim short_id))) ;;;
  audit_ok "invite.revoke" (trim short_id) ;;;
  ret (Redirect "/invites").

(** ** The account's sessions and connections *)
Definition revoke_other_sessions (submitted : string) : W Response :=
  check_csrf "session.revoke_others" "" submitted ;;;
  let keep := default "" (session.current_session_id jar) in
  ignore (on_db (session.delete_others uid keep)) ;;;
  audit_ok "session.revoke_others" "" ;;;
  ret (Redirect "/account").
Definition revoke_connection (client_id submitted : string) : W Response :=
  check_csrf "connection.revoke" (trim client_id) submitted ;;;
  ignore (on_db (store.revoke_user_client uid (trim client_id))) ;;;
  audit_ok "connection.revoke" (trim client_id) ;;;
  ret (Redirect "/account").
Definition connected (client_id : string) : W unit :=
  let* b := read (store.user_has_connection uid client_id now) in
  refuse_if (negb b) (error_page "no such connected client").
Definition update_connection_label (client_id name note submitted : string) : W Response :=
  check_csrf "client.label" (trim client_id) submitted ;;;
  let client_id := trim client_id in
  connected client_id ;;;
  ignore (on_db (store.set_client_label uid client_id (take_chars 60 (trim name))
    (take_chars 200 (trim note)) now)) ;;;
  audit_ok "client.label" client_id ;;;
  ret (Redirect "/account").

(** The user's backends whose box was not checked. *)
Definition denied_from_form (form : gmap string string) (d : Db) : list string :=
  map instances.id (filter (λ i, form !! ("allow_" +:+ i.(instances.id)) = None)
    (instances.list_for_user uid d)).
Definition field (form : gmap string string) (k : string) : string := default "" (form !! k).
Definition update_connection_access (form : gmap string string) : W Response :=
  check_csrf_silently (field form "csrf") ;;;
  let client_id := trim (field form "client_id") in
  connected client_id ;;;
  let* denied := read (denied_from_form form) in
  ignore (on_db (access.set_denials uid access.OAUTH client_id denied now)) ;;;
  audit_ok "client.access" client_id ;;;
  ret (Redirect "/account").
Definition update_token_access (form : gmap string string) : W Response :=
  check_csrf_silently (field form "csrf") ;;;
  let token_id := trim (field form "token_id") in
  let* tokens := read (tokens.list_for_user uid) in
  refuse_if (negb (existsb (λ t, eqs t.(tokens.id) token_id) tokens))
    (error_page "no such token") ;;;
  let* denied := read (denied_from_form form) in
  ignore (on_db (access.set_denials uid access.PAT token_id denied now)) ;;;
  audit_ok "token.access" token_id ;;;
  ret (Redirect "/account").

(** ** Groups *)
Definition create_group (slug name submitted : string) : W Response :=
  check_csrf "group.create" (trim slug) submitted ;;;
  map_err (λ e, error_page ("could not create group: " +:+ to_string e))
    (on_db (groups.create uid (trim slug) (trim name) fresh.(management.new_id) now)) ;;;
  audit_ok "group.create" (trim slug) ;;;
  ret (Redirect "/").
Definition owned_group (gid : string) : W groups.Group :=
  let* found := read (groups.find_by_id uid gid) in ok_or found (error_page "no such group").
Definition update_group (gid : string) (form : gmap string string) : W Response :=
  check_csrf_silently (field form "csrf") ;;;
  let* group := owned_group gid in
  let* members := read (λ d, map instances.id
    (filter (λ i, is_Some (form !! ("member_" +:+ i.(instances.id))))
      (instances.list_for_user uid d))) in
  map_err (λ e, error_page ("could not update group: " +:+ to_string e))
    (on_db (groups.set_members uid group.(groups.id) members now)) ;;;
  notify_tools_changed uid ;;;
  audit_ok "group.update" group.(groups.slug) ;;;
  ret (Redirect "/").
Definition delete_group (gid submitted : string) : W Response :=
  check_csrf_silently submitted ;;;
  let* group := owned_group gid in
  ignore (on_db (groups.delete uid group.(groups.id))) ;;;
  notify_tools_changed uid ;;;
  audit_ok "group.delete" group.(groups.slug) ;;;
  ret (Redirect "/").

(** ** Tokens *)
Definition token_days (submitted : Z) : Z := Z.max 1 (Z.min 365 submitted).
Definition create_token (name : string) (expires_days : Z) (submitted : string) : W Response :=
  check_csrf "token.create" "" submitted ;;;
  let name := trim name in
  refuse_if (is_empty name) (error_page "a token name is required") ;;;
  let days := token_days expires_days in
  let* made := map_err (λ e, error_page ("could not create token: " +:+ to_string e))
    (on_db (tokens.create uid name (days * 86400) fresh.(management.new_id) random now)) in
  audit_ok "token.create" name ;;;
  let example := "curl -H " +:+ dquote +:+ "Authorization: Bearer " +:+ made.2 +:+ dquote +:+
                 " " +:+ config.mcp_url c in
  ret (Page 200 (page "Token created"
    (html "<header class='row'><h1>Token created</h1><a href='/account'>← Account</a></header>" +:+
     LFs +:+ html "<p class='status status-warn'>Copy this token now — it will <strong>not</strong> be shown again.</p>" +:+
     LFs +:+ html "<p class='muted'>Token <code>" +:+ esc name +:+ "</code>, expires in " +:+
     pretty days +:+ " days. It grants full access to your MCP endpoint; store it like a password.</p>" +:+
     LFs +:+ copy_pre made.2 +:+ LFs +:+
     html "<p class='muted'>Use it as a bearer token, e.g.</p>" +:+ LFs +:+ copy_pre example +:+
     LFs +:+ html "<p><a href='/account'>← Back to account</a></p>"))).
Definition revoke_token (token_id submitted : string) : W Response :=
  check_csrf "token.revoke" (trim token_id) submitted ;;;
  ignore (on_db (tokens.revoke uid (trim token_id))) ;;;
  ignore (on_db (access.clear_for_credential access.PAT (trim token_id))) ;;;
  audit_ok "token.revoke" (trim token_id) ;;;
  ret (Redirect "/account").

(** ** Git credentials *)
Definition save_git_credential (host username label token submitted : string) : W Response :=
  check_csrf "git_credential.set" (trim host) submitted ;;;
  let* cred := map_err (λ e, error_page ("could not save the git credential: " +:+ to_string e))
    (on_db (gitcreds.upsert uid host username label token fresh.(management.new_id)
      fresh.(management.nonce) now)) in
  audit_ok "git_credential.set" cred.(gitcreds.host) ;;;
  ret (Redirect "/account").
Definition delete_git_credential (host submitted : string) : W Response :=
  check_csrf "git_credential.delete" (trim host) submitted ;;;
  ignore (on_db (gitcreds.delete uid (trim host))) ;;;
  audit_ok "git_credential.delete" (trim host) ;;;
  ret (Redirect "/account").

(** ** Passkeys: never the last one *)
Definition remove_passkey (cred_id submitted : string) : W Response :=
  check_csrf "passkey.remove" (trim cred_id) submitted ;;;
  let* n := read (users.count_credentials uid) in
  refuse_if (n <=? 1)%nat (error_page "you cannot remove your only passkey") ;;;
  ignore (on_db (users.delete_credential uid (trim cred_id))) ;;;
  audit_ok "passkey.remove" (trim cred_id) ;;;
  ret (Redirect "/account").

(** ** Administration *)
Definition regenerate_metrics_key (submitted : string) : W Response :=
  check_admin "metrics.key_regenerate" "" ;;;
  check_csrf "metrics.key_regenerate" "" submitted ;;;
  or_error (on_key (metrics.regenerate_key random fresh.(management.nonce))) ;;;
  audit_ok "metrics.key_regenerate" "" ;;;
  ret (Redirect "/stats").
Definition resolve_admin_target (action handle submitted : string) : W users.User :=
  check_admin action (trim handle) ;;;
  check_csrf action (trim handle) submitted ;;;
  let* found := map_err (λ _ : anyhow, error_page "no user with that handle")
    (on_db (users.find_by_handle (trim handle))) in
  let* target := ok_or found (error_page "no user with that handle") in
  refuse_if (eqs target.(users.id) uid) (error_page "you cannot act on your own account here") ;;;
  let* admins := read users.count_admins in
  refuse_if (target.(users.is_admin) && (admins <=? 1)%nat)
    (error_page "cannot disable or delete the last administrator") ;;;
  ret target.
(** An action that failed is audited as refused. *)
Definition audited (action object : string) (m : M Hub anyhow unit) : W unit :=
  catch m (λ r : result anyhow unit,
    match r with
    | Ok _ => ret tt
    | Err e => audit_denied action object "error" ;;; fail (error_page (to_string e))
    end).
Definition disable_user (handle submitted : string) : W Response :=
  let* target := resolve_admin_target "user.disable" handle submitted in
  audited "user.disable" target.(users.handle) (accounts.deactivate_user target.(users.id)) ;;;
  audit_ok "user.disable" target.(users.handle) ;;;
  ret (Redirect "/users").
Definition enable_user (handle submitted : string) : W Response :=
  let* target := resolve_admin_target "user.enable" handle submitted in
  ignore (on_db (users.set_disabled target.(users.id) false)) ;;;
  audit_ok "user.enable" target.(users.handle) ;;;
  ret (Redirect "/users").
Definition delete_user (handle submitted : string) : W Response :=
  let* target := resolve_admin_target "user.delete" handle submitted in
  audited "user.delete" target.(users.handle) (accounts.purge_user env_dir target.(users.id)) ;;;
  audit_ok "user.delete" target.(users.handle) ;;;
  ret (Redirect "/users").
End session.

(** ** The sign-in pages *)
(** The cookie added to the jar, and the page or the redirect of a live session. *)
Definition with_next (next : option string) : option session.Cookie :=
  n ← next; p ← session.safe_next n; Some (session.next_cookie p (config.cookie_secure c)).
Definition login_body : string := html
  ("<h1>Sign in</h1>" +:+ LFs +:+ "<form id='login-form'>" +:+ LFs +:+
   "  <label>Handle<input id='login-handle' name='handle' autocomplete='username webauthn' required></label>" +:+ LFs +:+
   "  <button id='login-btn' type='submit'>Sign in with passkey</button>" +:+ LFs +:+
   "</form>" +:+ LFs +:+ "<p class='error' id='login-error'></p>" +:+ LFs +:+
   "<p class='muted'>Need an account? <a href='/register'>Register</a></p>" +:+ LFs +:+
   "<p class='muted'>Lost your device? <a href='/recover'>Recover access</a></p>").
Definition login_page (user : option users.User) (next : option string)
    : option session.Cookie * Response :=
  match user with
  | Some _ => (None, Redirect "/")
  | None => (with_next next, Page 200 (page "Sign in" login_body))
  end.
Definition register_body : string := html
  ("<h1>Create account</h1>" +:+ LFs +:+ "<form id='register-form'>" +:+ LFs +:+
   "  <label>Handle<input id='reg-handle' name='handle' autocomplete='username' required></label>" +:+ LFs +:+
   "  <label>Display name<input id='reg-display' name='display_name' required></label>" +:+ LFs +:+
   "  <label>Invite code<input id='reg-invite' name='invite_code' autocomplete='off'></label>" +:+ LFs +:+
   "  <p class='muted'>Registration is invite-only. Leave the code blank only if you are setting up the very first (admin) account.</p>" +:+ LFs +:+
   "  <button id='register-btn' type='submit'>Create account &amp; passkey</button>" +:+ LFs +:+
   "</form>" +:+ LFs +:+ "<p class='error' id='register-error'></p>" +:+ LFs +:+
   "<p class='muted'>Already have an account? <a href='/login'>Sign in</a></p>").
Definition register_page (user : option users.User) (next : option string)
    : option session.Cookie * Response :=
  match user with
  | Some _ => (None, Redirect "/")
  | None => (with_next next, Page 200 (page "Register" register_body))
  end.
End web.
End web.
