(* ===== verification/Pages.v ===== *)
(** * The pages of a user's servers (web.rs)

    The dashboard, the form of a new server, the two tabs of a server: each handler
    reads the hub and renders a page.  Fields of an rmcp value the hub does not
    otherwise read are what [Rmcp] gives. *)

From stdpp Require Import pretty.
From S2P Require Import Prelude Strs Trim Schema External Json Util Html Markup Users Sessions.
From S2P Require Import Groups GitCreds Config Instances InstanceText Status Backend Gitsrc Hub Web.
Open Scope string_scope.
Open Scope hub_scope.

(** rmcp: what a page shows of a definition the backend advertised; a JSON value
    pretty-printed. *)
Record ToolAnnotations := {
  ann_title : option string; read_only_hint : option bool; destructive_hint : option bool;
  idempotent_hint : option bool; open_world_hint : option bool }.
Record ToolFields := {
  tool_title : option string; tool_description : option string; tool_input : string;
  tool_output : option string; tool_annotations : option ToolAnnotations }.
Record ArgumentFields := {
  arg_name : string; arg_description : option string; arg_required : option bool }.
Record ServerFields := {
  info_name : string; info_title : option string; info_version : string; protocol : string;
  instructions : option string; tools_cap : option (option bool);
  prompts_cap : option (option bool); resources_cap : option (option bool * option bool);
  logging_cap : bool; completions_cap : bool; experimental_cap : bool }.
Class Rmcp := {
  server_fields_of : rmcp.ServerInfo → ServerFields;
  tool_fields : rmcp.Tool → ToolFields;
  prompt_fields : rmcp.Prompt → option string * option (list ArgumentFields);
  (** A name and a MIME type. *)
  resource_fields : rmcp.Resource → string * option string;
  template_fields : rmcp.ResourceTemplate → string * option string;
  parse_snapshot_json : string → option backend.CapabilitiesSnapshot }.

Module pages.
Import hub html web.

Abbreviation concat_map f l := (String.concat "" (map f l)).

(** The hidden field with the session's token. *)
Definition csrf_field `{Digest} (jar : gmap string string) (master_key : string) : string :=
  match session.csrf_for jar master_key with
  | Some t => html "<input type='hidden' name='csrf' value='" +:+ t +:+ html "'>"
  | None => ""
  end.

Section pages.
Context `{UrlCrate} `{Shlex} `{Aead} `{Digest} `{Rmcp}.
Context (c : config.Config) (asset_ver source_url version : string) (now : Z).
Abbreviation page := (page asset_ver source_url version).
Abbreviation page_wide := (page_wide asset_ver source_url version).
Abbreviation error_page := (error_page asset_ver source_url version).
Abbreviation csrf jar := (csrf_field jar c.(config.master_key)).

(** ** The dashboard *)
Definition server_row (i : instances.Instance) : string :=
  html "<li><a href='/servers/" +:+ esc i.(instances.id) +:+ html "'><code>" +:+
  esc i.(instances.namespace) +:+ "</code> · " +:+ esc i.(instances.display_name) +:+
  html "</a> <span class='muted'>" +:+
  (if i.(instances.enabled) then "enabled" else "disabled") +:+ "</span></li>".
Definition server_rows (l : list instances.Instance) : string :=
  match l with
  | [] => html "<p class='muted'>No servers yet. Add one to get started.</p>"
  | _ => html "<ul class='servers'>" +:+ concat_map server_row l +:+ "</ul>"
  end.

(** Tools seen at the last probe of a server. *)
Definition get_capabilities_snapshot (iid : string) (d : Db) : option backend.CapabilitiesSnapshot :=
  r ← d.(user_server_instances) !! iid; json ← r.(instance.capabilities_json);
  parse_snapshot_json json.
Definition tool_count (d : Db) (iid : string) : option Z :=
  s ← get_capabilities_snapshot iid d; Some (Z.of_nat (length s.(backend.tools))).
(** [None] as soon as one member was never probed. *)
Definition total_tools (d : Db) (members : gset string) (l : list instances.Instance) : option Z :=
  foldl (λ total i,
    if bool_decide (i.(instances.id) ∈ members)
    then match total, tool_count d i.(instances.id) with
         | Some t, Some n => Some (u64_wrap (t + n))
         | _, _ => None
         end
    else total) (Some 0%Z) l.
Definition member_box (members : gset string) (i : instances.Instance) : string :=
  html "<label class='checkbox'><input type='checkbox' name='member_" +:+ esc i.(instances.id) +:+
  html "' value='on'" +:+
  (if bool_decide (i.(instances.id) ∈ members) then " checked" else "") +:+ "> <code>" +:+
  esc i.(instances.namespace) +:+ "</code></label>".
Definition count_line (total : option Z) : string :=
  match total with
  | Some t =>
      if (256 <? t)%Z
      then html "<span class='badge'>⚠ ~" +:+ pretty t +:+
           html " tools — over claude.ai`s 256-tool cap</span>"
      else html "<span class='muted'>~" +:+ pretty t +:+ " tools</span>"
  | None => html "<span class='muted'>tool count unknown (probe servers via 'Test connection')</span>"
  end.
Definition group_card (csrf : string) (d : Db) (l : list instances.Instance) (g : groups.Group)
    : string :=
  let members := groups.member_instance_ids g.(groups.id) d in
  let title := if is_empty g.(groups.name) then g.(groups.slug) else g.(groups.name) in
  html "<div class='group-card'>
  <div class='group-head'><strong>" +:+ esc title +:+ "</strong> " +:+
  count_line (total_tools d members l) +:+ html "
    <form method='post' action='/groups/" +:+ esc g.(groups.id) +:+
  html "/delete' data-confirm='Delete group `" +:+ esc g.(groups.slug) +:+
  html "`? Clients connected to its endpoint lose access immediately.'>" +:+ csrf +:+
  html "<button class='ghost danger'>Delete</button></form>
  </div>
  <div class='group-url muted'>Connector URL: " +:+
  copy_code (config.group_mcp_url c g.(groups.slug)) +:+ html "</div>
  <form class='group-members' method='post' action='/groups/" +:+ esc g.(groups.id) +:+
  html "/update'>" +:+ csrf +:+ html "
    <span class='muted'>Servers</span>
    <div class='member-grid'>" +:+ concat_map (member_box members) l +:+ html "</div>
    <button class='ghost' type='submit'>Save members</button>
  </form>
</div>".
Definition groups_section (csrf uid : string) (l : list instances.Instance) (d : Db) : string :=
  html "<section>
  <div class='row'><h2>Connector groups</h2></div>
  " +:+ match groups.list_for_user uid d with
        | [] => html "<p class='muted'>No groups yet. Each group is its own MCP endpoint serving only its servers` tools — that is how every connector stays under client tool caps (claude.ai truncates at 256 tools).</p>"
        | gs => html "<div class='groups'>" +:+ concat_map (group_card csrf d l) gs +:+ "</div>"
        end +:+ html "
  <form class='group-create' method='post' action='/groups/create'>" +:+ csrf +:+ html "
    <input name='slug' placeholder='slug (e.g. monitoring)' required pattern='[a-z0-9][a-z0-9-]*[a-z0-9]|[a-z0-9]'>
    <input name='name' placeholder='display name (optional)'>
    <button type='submit'>Create group</button>
  </form>
</section>".

Definition dashboard (user : users.User) (jar : gmap string string) (h : Hub) : Response :=
  let l := instances.list_for_user user.(users.id) h.(db) in
  Page 200 (page_wide "Dashboard" (html "<header class='row'>
  <h1>MCP Hub</h1>
  <div class='row'>
    <a href='/account'>Account</a>
    <form method='post' action='/logout'>" +:+ csrf jar +:+ html "<button class='ghost'>Sign out</button></form>
  </div>
</header>
<p>Signed in as <strong>" +:+ esc user.(users.handle) +:+ "</strong> " +:+
  (if user.(users.is_admin) then html "<span class='badge'>admin</span>" else "") +:+ html "</p>
<section>
  <div class='row'><h2>Your MCP servers</h2><a href='/servers/new'>+ Add a server</a></div>
  " +:+ server_rows l +:+ html "
</section>
" +:+ groups_section (csrf jar) user.(users.id) l h.(db) +:+ html "
" +:+ (if user.(users.is_admin)
       then html "<section><div class='row'><h2>Administration</h2><span><a href='/invites'>Invites</a> · <a href='/users'>Users</a> · <a href='/stats'>Stats</a></span></div></section>"
       else "") +:+ html "
<p class='muted'>Management endpoint (hub tools only): " +:+ copy_code (config.mcp_url c) +:+
  " — backend tools are served on your connector group endpoints above.</p>")).

(** ** Adding and editing a server *)
Definition server_fields (transport : string) (transport_select : bool)
    (command_line repo git_ref url env config_file connect_timeout : string)
    (hub_connect : Z) : string :=
  let http := eqs transport "http" in
  (if transport_select then
     html "<label>Transport<select name='transport' id='transport-select'>
    <option value='stdio' " +:+ (if http then "" else "selected") +:+ html ">stdio (run a command)</option>
    <option value='http' " +:+ (if http then "selected" else "") +:+ html ">http (remote URL)</option>
  </select></label>"
   else
     html "<p class='muted'>Transport: <code>" +:+ esc transport +:+
     html "</code></p><input type='hidden' name='transport' value='" +:+ esc transport +:+
     html "'>") +:+ html "
  <div class='stdio-only " +:+ (if http then "hidden" else "") +:+ html "'>
    <label>Command line<input name='command' value='" +:+ esc command_line +:+
  html "' placeholder='uvx your-mcp-server'></label>
    <label>Repository (optional — builds a cached venv from a git repo; for a private repo, add a token for its host on your <a href='/account'>Account</a> page)<input name='repo' value='" +:+ esc repo +:+
  html "' placeholder='https://github.com/you/your-mcp'></label>
    <label>Git ref (branch or tag)<input name='git_ref' value='" +:+ esc git_ref +:+
  html "' placeholder='main'></label>
    <label>Config file (optional — written to the server`s working directory; its path is exposed as <code>$MCP_CONFIG_FILE</code>)<textarea name='config_file' rows='6' placeholder='(paste a config file the server needs on disk)'>" +:+ esc config_file +:+
  html "</textarea></label>
  </div>
  <div class='http-only " +:+ (if http then "" else "hidden") +:+ html "'>
    <label>Remote URL<input name='url' value='" +:+ esc url +:+
  html "' placeholder='https://server.example.com/mcp'></label>
    <p class='muted'>To authenticate, set <code>AUTHORIZATION</code> below to the credential; it is sent as <code>Authorization: Bearer &lt;value&gt;</code>. For a different scheme, add <code>AUTHORIZATION_METHOD</code> (e.g. <code>Basic</code>) — the credential is sent verbatim after it, so a <code>Basic</code> one must already be base64.</p>
  </div>
  <label>Environment variables (one <code>KEY=VALUE</code> per line; values may reference <code>${VAR}</code>, e.g. <code>GOOGLE_APPLICATION_CREDENTIALS=${MCP_CONFIG_FILE}</code>)<textarea name='env' rows='6' placeholder='API_TOKEN=...'>" +:+ esc env +:+
  html "</textarea></label>
  <label>Connect timeout in seconds (optional — how long the hub waits for this server to start and answer <code>initialize</code>; blank uses the hub default of " +:+
  secs_or hub_connect "no limit" +:+
  html ", <code>0</code> waits forever)<input name='connect_timeout_secs' type='number' min='0' step='1' value='" +:+
  esc connect_timeout +:+ html "' placeholder='" +:+ pretty hub_connect +:+ html "'></label>".
Abbreviation hub_connect := c.(config.limits).(config.backend_connect_timeout_secs).

Definition new_server (jar : gmap string string) : Response :=
  Page 200 (page "Add a server" (html "<header class='row'><h1>Add a server</h1><a href='/'>← Back</a></header>
<form id='server-form' method='post' action='/servers/create'>
  " +:+ csrf jar +:+ html "
  <label>Display name<input name='display_name' required></label>
  <label>Namespace (tool prefix, e.g. <code>zabbix</code>)<input name='namespace' required></label>
  " +:+ server_fields "stdio" true "" "" "" "" "" "" "" hub_connect +:+ html "
  <button type='submit'>Add server</button>
</form>")).

(** The last connection outcome; no entry, no banner. *)
Definition banner_label (s : status.RuntimeState) : option (string * string) :=
  match s with
  | status.ok => Some ("ok", "running")
  | status.error => Some ("danger", "error")
  | status.unbuilt => Some ("warn", "not built")
  | status.skipped => Some ("warn", "not started")
  | status.unknown => None
  end.
Definition runtime_banner (rs : option status.RuntimeStatus) : string :=
  match rs with
  | None => ""
  | Some rs =>
      let when := " · checked " +:+ ago (i64_wrap (now - rs.(status.checked_at))) in
      match banner_label rs.(status.state) with
      | None => ""
      | Some (class, label) =>
          html "<div class='status status-" +:+ class +:+ html "'>Backend " +:+ label +:+
          match rs.(status.detail) with
          | Some d =>
              if contains LFs d
              then when +:+ html "<pre class='cmd'><code>" +:+ esc d +:+ "</code></pre>"
              else if is_empty d then when else ": " +:+ esc d +:+ when
          | None => when
          end +:+ "</div>"
      end
  end.

(** The command to be executed; an argument with white space is quoted. *)
Definition quoted (p : string) : string :=
  if existsb (λ w, contains w p) white_space then dquote +:+ p +:+ dquote else p.
Definition command_line (h : Hub) (inst : instances.Instance) (def : ServerDef) : string :=
  match gitsrc.resolved_command h.(files) c.(config.env_dir) inst def with
  | Some (program, args) =>
      html "<p class='muted'>Command</p><pre class='cmd'><code>" +:+
      esc (String.concat " " (map quoted (program :: args))) +:+ "</code></pre>"
  | None => ""
  end.

(** Which credential the builds of a repository use. *)
Definition build_auth (uid : string) (def : ServerDef) (inst : instances.Instance) (d : Db)
    : string :=
  let host := gitcreds.host_of_repo (default "" def.(Schema.repo)) in
  let stored := match host with
                | Some hst => match (gitcreds.find uid hst d).1 with Ok o => o | Err _ => None end
                | None => None
                end in
  match stored, host with
  | Some _, _ =>
      html "<p class='muted'>Auth: using your git credential for <code>" +:+
      esc (default "" host) +:+ "</code>.</p>"
  | None, Some hst =>
      if eqs inst.(instances.build_status) "error"
      then html "<p class='status status-warn'>No git credential for <code>" +:+ esc hst +:+
        html "</code>, so builds use anonymous access. If this repository is private, <a href='/account'>add a token on your Account page</a> and update again.</p>"
      else ""
  | None, None => ""
  end.
Definition git_section (csrf uid : string) (def : ServerDef) (inst : instances.Instance) (d : Db)
    : string :=
  if gitsrc.is_git_source def then
    let commit := match inst.(instances.built_commit) with
                  | Some k => String.substring 0 10 k | None => "—" end in
    html "<section>
  <h2>Source</h2>
  <p class='muted'>Repo <code>" +:+ esc (default "?" def.(Schema.repo)) +:+ "</code> @ <code>" +:+
    esc (default "main" def.(Schema.git_ref)) +:+ "</code> · build <code>" +:+
    esc inst.(instances.build_status) +:+ "</code> · commit <code>" +:+ esc commit +:+ html "</code></p>
  " +:+ build_auth uid def inst d +:+ html "
  <form method='post' action='/servers/" +:+ esc inst.(instances.id) +:+ html "/update'>" +:+ csrf +:+
    html "<button>Update from repository</button></form>
</section>"
  else "".
Definition action_form (csrf id action class label : string) : string :=
  html "<form method='post' action='/servers/" +:+ esc id +:+ "/" +:+ action +:+ html "'>" +:+ csrf +:+
  html "<button class='" +:+ class +:+ html "'>" +:+ label +:+ "</button></form>".

Definition state_word (i : instances.Instance) : string :=
  if i.(instances.enabled) then "enabled" else "disabled".
Definition server_head (i : instances.Instance) (def : ServerDef) (tab : string)
    (rs : option status.RuntimeStatus) : string :=
  html "<header class='row'><h1>" +:+ esc i.(instances.display_name) +:+
  html "</h1><a href='/'>← Back</a></header>
<p class='muted'>Namespace <code>" +:+ esc i.(instances.namespace) +:+ "</code> · " +:+
  esc def.(Schema.transport) +:+ " · " +:+ state_word i +:+ html "</p>
" +:+ server_tabs i.(instances.id) tab +:+ html "
" +:+ runtime_banner rs.

Definition owned_with_def (user : users.User) (iid : string) (h : Hub)
    : result Response (instances.Instance * ServerDef) :=
  match instances.get_owned iid user.(users.id) h.(db) with
  | None => Err (error_page "server not found")
  | Some inst =>
      match (instances.resolve_def inst h.(db)).1 with
      | Ok def => Ok (inst, def)
      | Err e => Err (error_page (to_string e))
      end
  end.
(** The body of the configuration tab. *)
Definition server_body (csrf uid : string) (inst : instances.Instance) (def : ServerDef) (h : Hub)
    : string :=
  let d := h.(db) in
  let iid := inst.(instances.id) in
  let env := match instances.env_for_edit iid d with Ok e => e | Err _ => ∅ end in
  let file := match instances.config_file_for_edit iid d with Ok (Some f) => f | _ => "" end in
  let refs := secret_refs_in_argv def.(Schema.command) def.(Schema.args)
                (instances.secret_names iid d) in
  let fields := server_fields def.(Schema.transport) false
    (text.render_command def.(Schema.command) def.(Schema.args)) (default "" def.(Schema.repo))
    (default "" def.(Schema.git_ref)) (default "" def.(Schema.url)) (text.render_env env) file
    (match def.(Schema.connect_timeout_secs) with Some s => pretty s | None => "" end)
    hub_connect in
  server_head inst def "config" (status.get iid h.(runtime_status)) +:+ html "
" +:+ argv_secret_banner refs +:+ html "
" +:+ command_line h inst def +:+ html "
<form method='post' action='/servers/" +:+ esc iid +:+ html "/config'>
  " +:+ csrf +:+ html "
  " +:+ fields +:+ html "
  <button type='submit'>Save configuration</button>
</form>
" +:+ git_section csrf uid def inst d +:+ html "
<div class='row' style='margin-top:18px'>
  " +:+ action_form csrf iid "test" "ghost" "Test connection" +:+ html "
  " +:+ (if inst.(instances.enabled) then action_form csrf iid "restart" "ghost" "Restart" else "") +:+ html "
  " +:+ (if inst.(instances.enabled) then action_form csrf iid "disable" "ghost" "Disable"
         else action_form csrf iid "enable" "ghost" "Enable") +:+ html "
  <form method='post' action='/servers/" +:+ esc iid +:+ html "/delete' data-confirm='Remove this server?'>" +:+ csrf +:+
  html "<button class='ghost danger'>Remove</button></form>
</div>
<p class='muted'>Saving configuration or updating from the repository relaunches this server in your connected MCP sessions automatically; Restart does the same on demand (it takes effect on their next request).</p>".
Definition server_detail (user : users.User) (jar : gmap string string) (iid : string) (h : Hub)
    : Response :=
  match owned_with_def user iid h with
  | Err r => r
  | Ok (inst, def) =>
      Page 200 (page_wide inst.(instances.display_name)
        (server_body (csrf jar) user.(users.id) inst def h))
  end.

(** ** What a server advertised *)
Definition schema_block (label json : string) : string :=
  html "<p class='muted'>" +:+ label +:+ html "</p><pre class='cmd'><code>" +:+ esc json +:+ "</code></pre>".
Definition chip (cls label : string) : string :=
  html "<span class='badge ann-" +:+ cls +:+ html "'>" +:+ label +:+ "</span> ".
(** Only hints the server set; a destructive hint means nothing on a read-only tool. *)
Definition annotation_chips (a : ToolAnnotations) : string :=
  match a.(read_only_hint) with
  | Some true => chip "safe" "read-only"
  | Some false => chip "warn" "read-write"
  | None => ""
  end +:+
  (if bool_decide (a.(read_only_hint) = Some true) then ""
   else match a.(destructive_hint) with
        | Some true => chip "warn" "destructive"
        | Some false => chip "safe" "non-destructive"
        | None => ""
        end) +:+
  (if bool_decide (a.(idempotent_hint) = Some true) then chip "neutral" "idempotent" else "") +:+
  match a.(open_world_hint) with
  | Some true => chip "neutral" "open world"
  | Some false => chip "neutral" "closed world"
  | None => ""
  end.

Definition changed (o : option bool) : string :=
  if bool_decide (o = Some true) then " · listChanged" else "".
Definition badge_labels (s : ServerFields) : list string :=
  (option_list ((λ o, "tools" +:+ changed o) <$> s.(tools_cap)) ++
   option_list ((λ o, "prompts" +:+ changed o) <$> s.(prompts_cap)) ++
   option_list ((λ r : option bool * option bool, "resources" +:+
     (if bool_decide (r.1 = Some true) then " · subscribe" else "") +:+ changed r.2)
     <$> s.(resources_cap)) ++
   (if s.(logging_cap) then ["logging"] else []) ++
   (if s.(completions_cap) then ["completions"] else []) ++
   (if s.(experimental_cap) then ["experimental"] else []))%list.
Definition badge (label : string) : string := html "<span class='badge'>" +:+ esc label +:+ "</span> ".
Definition badges (s : ServerFields) : string :=
  match badge_labels s with
  | [] => html "<span class='muted'>none advertised</span>"
  | l => concat_map badge l
  end.
Definition non_empty (o : option string) : option string :=
  s ← o; if is_empty s then None else Some s.
(** An element around a text that is there and not empty. *)
Definition wrapped (before : string) (o : option string) (after : string) : string :=
  match non_empty o with Some s => before +:+ esc s +:+ after | None => "" end.

Definition server_summary (s : ServerFields) : string :=
  html "<section>
<h2>Server</h2>
<table class='invites'><tbody>
<tr><th>Name</th><td>" +:+ esc s.(info_name) +:+ html "</td></tr>
" +:+ wrapped "<tr><th>Title</th><td>" s.(info_title) "</td></tr>" +:+ html "
<tr><th>Version</th><td>" +:+ esc s.(info_version) +:+ html "</td></tr>
<tr><th>Protocol</th><td>" +:+ esc s.(protocol) +:+ html "</td></tr>
<tr><th>Capabilities</th><td>" +:+ badges s +:+ html "</td></tr>
</tbody></table>
</section>".
Definition instructions_section (s : ServerFields) : string :=
  match s.(instructions) with
  | Some i =>
      if is_empty (trim i) then ""
      else html "<section><h2>Instructions</h2><pre class='cmd'><code>" +:+ esc i +:+
           "</code></pre></section>"
  | None => ""
  end.
Definition listing {A B} (cap : option B) (l : list A) (all : string) : string :=
  match cap, l with
  | None, _ => html "<p class='muted'>Not supported by this server.</p>"
  | Some _, [] => html "<p class='muted'>None advertised.</p>"
  | Some _, _ :: _ => all
  end.
Definition section_head (name : string) (n : nat) : string :=
  "<section><h2>" +:+ name +:+ " (" +:+ pretty n +:+ ")</h2>".
Definition details (name desc chips body : string) : string :=
  html "<details class='tool'><summary><code>" +:+ esc name +:+ html "</code> <span class='muted'>" +:+
  esc (truncate_chars desc 120) +:+ "</span>" +:+ chips +:+ "</summary>" +:+ body +:+ "</details>".

Definition tool_details (t : rmcp.Tool) : string :=
  let f := tool_fields t in
  let desc := default "" f.(tool_description) in
  let ann := a ← f.(tool_annotations);
             x ← non_empty a.(ann_title);
             if bool_decide (Some x = f.(tool_title)) then None else Some x in
  details t.(rmcp.tool_name) desc
    (" " +:+ match f.(tool_annotations) with Some a => annotation_chips a | None => "" end)
    (wrapped "<p><strong>" f.(tool_title) "</strong></p>" +:+
     wrapped "<p><strong>" ann "</strong></p>" +:+
     wrapped "<p>" (Some desc) "</p>" +:+
     schema_block "Input schema" f.(tool_input) +:+
     match f.(tool_output) with Some o => schema_block "Output schema" o | None => "" end).
Definition tools_section (s : ServerFields) (ns : string) (l : list rmcp.Tool) : string :=
  section_head "Tools" (length l) +:+
  listing s.(tools_cap) l
    (html "<p class='muted'>Names shown are the server`s own; clients see them as <code>" +:+ esc ns +:+
     "__&lt;name&gt;</code>.</p>" +:+ concat_map tool_details l) +:+ "</section>".
Definition argument_item (a : ArgumentFields) : string :=
  "<li><code>" +:+ esc a.(arg_name) +:+ "</code>" +:+
  (if bool_decide (a.(arg_required) = Some true) then " (required)" else "") +:+
  wrapped (html " — <span class='muted'>") a.(arg_description) "</span>" +:+ "</li>".
Definition prompt_details (p : rmcp.Prompt) : string :=
  let '(d, args) := prompt_fields p in
  let desc := default "" d in
  details p.(rmcp.prompt_name) desc ""
    (wrapped "<p>" (Some desc) "</p>" +:+
     match args with
     | Some (a :: l) =>
         html "<p class='muted'>Arguments</p><ul>" +:+ concat_map argument_item (a :: l) +:+ "</ul>"
     | _ => ""
     end).
Definition prompts_section (s : ServerFields) (l : list rmcp.Prompt) : string :=
  section_head "Prompts" (length l) +:+
  listing s.(prompts_cap) l (concat_map prompt_details l) +:+ "</section>".
Definition resource_row (uri name : string) (mime : option string) : string :=
  "<tr><td><code>" +:+ esc uri +:+ "</code></td><td>" +:+ esc name +:+ "</td><td>" +:+
  esc (default "—" mime) +:+ "</td></tr>".
Definition uri_table (first rows : string) : string :=
  html "<table class='invites'><thead><tr><th>" +:+ first +:+
  "</th><th>Name</th><th>MIME type</th></tr></thead><tbody>" +:+ rows +:+ "</tbody></table>".
Definition template_table (ts : list rmcp.ResourceTemplate) : string :=
  match ts with
  | [] => ""
  | _ => "<h2>Resource templates (" +:+ pretty (length ts) +:+ ")</h2>" +:+
         uri_table "URI template" (concat_map (λ r,
           resource_row r.(rmcp.uri_template) (template_fields r).1 (template_fields r).2) ts)
  end.
Definition resources_section (s : ServerFields) (l : list rmcp.Resource)
    (ts : list rmcp.ResourceTemplate) : string :=
  section_head "Resources" (length l) +:+
  (listing s.(resources_cap) l (uri_table "URI" (concat_map (λ r,
     resource_row r.(rmcp.uri) (resource_fields r).1 (resource_fields r).2) l)) +:+
   template_table ts) +:+ "</section>".
Definition render_snapshot (snap : backend.CapabilitiesSnapshot) (ns : string) : string :=
  let s := server_fields_of snap.(backend.server) in
  server_summary s +:+ instructions_section s +:+ tools_section s ns snap.(backend.tools) +:+
  prompts_section s snap.(backend.prompts) +:+
  resources_section s snap.(backend.resources) snap.(backend.resource_templates).

(** The body of the capabilities tab. *)
Definition capabilities_body (csrf : string) (inst : instances.Instance) (def : ServerDef) (h : Hub)
    : string :=
  let iid := inst.(instances.id) in
  let snapshot := get_capabilities_snapshot iid h.(db) in
  let fetched := match snapshot with
                 | Some s => "Fetched " +:+ ago (i64_wrap (now - s.(backend.fetched_at)))
                 | None => "Never fetched"
                 end in
  server_head inst def "capabilities" (status.get iid h.(runtime_status)) +:+ html "
<div class='row'>
  <p class='muted'>" +:+ esc fetched +:+ html "</p>
  <form method='post' action='/servers/" +:+ esc iid +:+ html "/capabilities/refresh'>" +:+ csrf +:+
  html "<button class='ghost inline'>Refresh</button></form>
</div>
" +:+
  match snapshot with
  | Some s => render_snapshot s inst.(instances.namespace)
  | None => html "<p class='muted'>No capability snapshot yet. Click Refresh (or Test connection on the Configuration tab) to fetch what this server advertises.</p>"
  end.
Definition server_capabilities (user : users.User) (jar : gmap string string) (iid : string)
    (h : Hub) : Response :=
  match owned_with_def user iid h with
  | Err r => r
  | Ok (inst, def) =>
      Page 200 (page_wide inst.(instances.display_name) (capabilities_body (csrf jar) inst def h))
  end.

(** ** Facts *)
Import scanner.
Lemma fragment_copy_btn s : fragment (copy_btn s).
Proof. intros st. unfold copy_btn. follow. Qed.
Hint Resolve fragment_copy_btn : html.
Lemma fragment_copy_code s : fragment (copy_code s).
Proof. intros st. unfold copy_code. follow. Qed.
Lemma fragment_copy_pre s : fragment (copy_pre s).
Proof. intros st. unfold copy_pre. follow. Qed.
Hint Resolve fragment_copy_code : html.
Lemma fragment_server_row i : fragment (server_row i).
Proof. intros st. unfold server_row. follow. Qed.
Hint Resolve fragment_server_row : html.
Lemma fragment_server_rows l : fragment (server_rows l).
Proof. intros st. unfold server_rows. follow. Qed.
Hint Resolve fragment_server_rows : html.
Lemma fragment_member_box m i : fragment (member_box m i).
Proof. intros st. unfold member_box. follow. Qed.
Lemma fragment_count_line n : fragment (count_line n).
Proof. intros st. unfold count_line. follow. Qed.
Hint Resolve fragment_member_box fragment_count_line : html.
Lemma fragment_group_card csrf d l g : fragment csrf → fragment (group_card csrf d l g).
Proof. intros Hc st. unfold group_card. follow. Qed.
Hint Resolve fragment_group_card : html.
Lemma fragment_groups_section csrf uid l d : fragment csrf → fragment (groups_section csrf uid l d).
Proof. intros Hc st. unfold groups_section. follow. Qed.
Hint Resolve fragment_groups_section : html.

Lemma inert_secs_or n z : inert z → inert (secs_or n z).
Proof. intros Hz. unfold secs_or. destruct (_ =? _)%Z; auto with html. Qed.
Lemma inert_ago n : inert (ago n).
Proof. unfold ago. repeat case_match; auto with html. Qed.
Hint Resolve inert_secs_or inert_ago : html.
Lemma fragment_server_fields tr sel cl repo gr url env cf ct hub :
  fragment (server_fields tr sel cl repo gr url env cf ct hub).
Proof. intros st. unfold server_fields. follow. Qed.
Lemma fragment_runtime_banner rs : fragment (runtime_banner rs).
Proof.
  intros st. unfold runtime_banner. destruct rs as [[s d t0]|]; [|done]. destruct s; cbn; follow.
Qed.
Lemma fragment_server_tabs i tab : fragment (server_tabs i tab).
Proof. intros st. unfold server_tabs. follow. Qed.
Lemma fragment_command_line h inst def : fragment (command_line h inst def).
Proof. intros st. unfold command_line. follow. Qed.
Lemma fragment_build_auth uid def inst d : fragment (build_auth uid def inst d).
Proof. intros st. unfold build_auth. follow. Qed.
Hint Resolve fragment_server_fields fragment_runtime_banner fragment_server_tabs
  fragment_command_line fragment_build_auth : html.
Lemma fragment_git_section csrf uid def inst d :
  fragment csrf → fragment (git_section csrf uid def inst d).
Proof. intros Hc st. unfold git_section. follow. Qed.
Hint Resolve fragment_git_section : html.
Lemma fragment_server_head i def tab rs : fragment (server_head i def tab rs).
Proof. intros st. unfold server_head, state_word. follow. Qed.
Hint Resolve fragment_server_head : html.
Lemma fragment_action_form csrf i act cl lb :
  fragment csrf → inert act → inert cl → inert lb → fragment (action_form csrf i act cl lb).
Proof. intros Hc Ha Hcl Hlb st. unfold action_form. follow. Qed.
Lemma fragment_code_of n : fragment ("<code>" +:+ esc n +:+ "</code>").
Proof. intros st. follow. Qed.
Hint Resolve fragment_action_form fragment_code_of : html.
Lemma fragment_argv_secret_banner refs : fragment (argv_secret_banner refs).
Proof. intros st. unfold argv_secret_banner. follow. Qed.
Hint Resolve fragment_argv_secret_banner : html.
Lemma fragment_server_body csrf uid inst def h :
  fragment csrf → fragment (server_body csrf uid inst def h).
Proof. intros Hc st. unfold server_body. follow. Qed.

Lemma fragment_schema_block l j : inert l → fragment (schema_block l j).
Proof. intros Hl st. unfold schema_block. follow. Qed.
Lemma fragment_chip cl l : inert cl → inert l → fragment (chip cl l).
Proof. intros Hc Hl st. unfold chip. follow. Qed.
Hint Resolve fragment_schema_block fragment_chip : html.
Lemma fragment_annotation_chips a : fragment (annotation_chips a).
Proof. intros st. unfold annotation_chips. follow. Qed.
Lemma fragment_badge l : fragment (badge l).
Proof. intros st. unfold badge. follow. Qed.
Hint Resolve fragment_annotation_chips fragment_badge : html.
Lemma fragment_badges s : fragment (badges s).
Proof. intros st. unfold badges. follow. Qed.
Lemma fragment_wrapped b o a :
  (∀ s, fragment (b +:+ esc s +:+ a)) → fragment (wrapped b o a).
Proof. intros Hb st. unfold wrapped. destruct (non_empty o); [apply Hb|done]. Qed.
Hint Resolve fragment_badges : html.
Hint Extern 2 (fragment (wrapped _ _ _)) => apply fragment_wrapped; intros ? ?; follow : html.
Lemma fragment_server_summary s : fragment (server_summary s).
Proof. intros st. unfold server_summary. follow. Qed.
Lemma fragment_instructions s : fragment (instructions_section s).
Proof. intros st. unfold instructions_section. follow. Qed.
Lemma fragment_listing {A B} (cap : option B) (l : list A) all :
  fragment all → fragment (listing cap l all).
Proof. intros Ha st. unfold listing. destruct cap, l; [|apply Ha|..]; follow. Qed.
Lemma flow_section_head name n st :
  inert name → flow (section_head name n) (Text, st) (Text, "section" :: st).
Proof. intros Hn. unfold section_head. follow. Qed.
Lemma fragment_details name desc chips body :
  fragment chips → fragment body → fragment (details name desc chips body).
Proof. intros Hc Hb st. unfold details. follow. Qed.
Lemma fragment_section name n body :
  inert name → fragment body → fragment (section_head name n +:+ body +:+ "</section>").
Proof.
  intros Hn Hb st. eapply flow_app; [by apply flow_section_head|].
  eapply flow_app; [apply Hb|]. follow.
Qed.
Hint Resolve fragment_server_summary fragment_instructions fragment_listing fragment_details
  fragment_app : html.
Lemma fragment_tool_details x : fragment (tool_details x).
Proof.
  unfold tool_details. apply fragment_details.
  - destruct (tool_annotations _); auto with html.
  - intros st. follow.
Qed.
Hint Resolve fragment_tool_details : html.
Lemma fragment_tools_section s ns l : fragment (tools_section s ns l).
Proof.
  apply fragment_section; [done|]. apply fragment_listing. intros st. follow.
Qed.
Lemma fragment_argument_item x : fragment (argument_item x).
Proof. intros st. unfold argument_item. follow. Qed.
Hint Resolve fragment_argument_item : html.
Lemma fragment_prompt_details p : fragment (prompt_details p).
Proof.
  unfold prompt_details. destruct (prompt_fields p) as [d args]. apply fragment_details; [done|].
  intros st. follow.
Qed.
Hint Resolve fragment_prompt_details : html.
Lemma fragment_prompts_section s l : fragment (prompts_section s l).
Proof. apply fragment_section; [done|]. auto with html. Qed.
Lemma fragment_resource_row u n m : fragment (resource_row u n m).
Proof. intros st. unfold resource_row. follow. Qed.
Lemma fragment_uri_table first rows : inert first → fragment rows → fragment (uri_table first rows).
Proof. intros Hf Hr st. unfold uri_table. follow. Qed.
Hint Resolve fragment_resource_row fragment_uri_table : html.
Lemma fragment_template_table ts : fragment (template_table ts).
Proof. intros st. unfold template_table. follow. Qed.
Hint Resolve fragment_template_table : html.
Lemma fragment_resources_section s l ts : fragment (resources_section s l ts).
Proof.
  apply fragment_section; [done|]. apply fragment_app; [|auto with html].
  apply fragment_listing, fragment_uri_table; auto with html.
Qed.
Hint Resolve fragment_tools_section fragment_prompts_section fragment_resources_section : html.
Lemma fragment_render_snapshot snap ns : fragment (render_snapshot snap ns).
Proof. intros st. unfold render_snapshot. follow. Qed.
Hint Resolve fragment_render_snapshot : html.
Lemma fragment_capabilities_body csrf inst def h :
  fragment csrf → fragment (capabilities_body csrf inst def h).
Proof. intros Hc st. unfold capabilities_body. follow. Qed.
End pages.
#[global] Hint Resolve fragment_copy_btn fragment_copy_pre fragment_copy_code fragment_code_of inert_secs_or inert_ago : html.
End pages.
