(* ===== verification/AccountPages.v ===== *)
(** * The account page and the administrators' pages (web.rs)

    What a user sees of their own passkeys, clients, tokens, credentials and sessions,
    and what an administrator sees of the invites, the accounts and the running hub. *)

From stdpp Require Import pretty.
From S2P Require Import Prelude Strs Trim Schema External Json Html Markup Users Invites Sessions Tokens.
From S2P Require Import Access GitCreds Config Instances InstanceText OauthStore Status Pool Hub Web Pages.
Open Scope string_scope.
Open Scope hub_scope.

Module account_pages.
Import hub html web pages.

Section pages.
Context `{Digest}.
Context (c : config.Config) (asset_ver source_url version : string) (now : Z).
Abbreviation page := (page asset_ver source_url version).
Abbreviation page_wide := (page_wide asset_ver source_url version).
Abbreviation csrf jar := (csrf_field jar c.(config.master_key)).
Abbreviation since t := (ago (i64_wrap (now - t))).

(** ** The account *)
(** The backends a credential may use: a box per backend. *)
Definition access_box (denied : gset string) (i : instances.Instance) : string :=
  html "<label class='checkbox'><input type='checkbox' name='allow_" +:+ esc i.(instances.id) +:+
  html "' value='on'" +:+ (if bool_decide (i.(instances.id) ∈ denied) then "" else " checked") +:+
  "> <code>" +:+ esc i.(instances.namespace) +:+ "</code></label>".
Definition access_form (action id_field id_value : string) (l : list instances.Instance)
    (denied : gset string) (csrf : string) : string :=
  match l with
  | [] => ""
  | _ =>
      html "<form class='access' method='post' action='" +:+ action +:+ html "'>" +:+ csrf +:+
      html "<input type='hidden' name='" +:+ id_field +:+ html "' value='" +:+ esc id_value +:+
      html "'><span class='muted'>Backends:</span><div class='access-grid'>" +:+
      concat_map (access_box denied) l +:+
      html "</div><button class='ghost' type='submit'>Save access</button></form>"
  end.
Definition last_used (o : option Z) : string :=
  match o with Some u => "last used " +:+ since u | None => "never used" end.

Definition passkey_row (csrf : string) (only_one : bool) (k : users.CredentialInfo) : string :=
  let name := if is_empty k.(users.cred_name) then "passkey" else k.(users.cred_name) in
  html "<li><div><code>" +:+ esc name +:+ html "</code><div class='meta muted'>added " +:+
  since k.(users.cred_created_at) +:+ " · " +:+ last_used k.(users.cred_last_used_at) +:+
  origin_detail k.(users.cred_last_ip) k.(users.cred_last_user_agent) +:+ "</div></div> " +:+
  (if only_one then html "<span class='muted'>only key</span>"
   else html "<form method='post' action='/account/passkeys/remove' data-confirm='Remove this passkey?'>" +:+
     csrf +:+ html "<input type='hidden' name='cred_id' value='" +:+ esc k.(users.cred_id) +:+
     html "'><button class='ghost danger'>Remove</button></form>") +:+ "</li>".

Definition first_non_empty (a b : string) : string := if is_empty a then b else a.
Definition redirect_list (uris : list string) : string :=
  match uris with
  | [] => ""
  | _ => html "<div class='conn-redirects muted'>" +:+
         concat_map (λ u, "<code>" +:+ esc u +:+ "</code>") uris +:+ "</div>"
  end.
Definition connection_row (csrf : string) (mine : list instances.Instance) (d : Db)
    (k : store.Connection) : string :=
  let cid := k.(store.conn_client_id) in
  let dcr := default "" k.(store.conn_client_name) in
  let custom := k.(store.custom_name) in
  let title := first_non_empty custom (first_non_empty dcr cid) in
  html "<li>
  <div class='conn-head'>
    <span class='conn-title'><code>" +:+ esc title +:+ html "</code></span>
    <form method='post' action='/account/connections/revoke' data-confirm='Disconnect this client?'>" +:+
  csrf +:+ html "<input type='hidden' name='client_id' value='" +:+ esc cid +:+
  html "'><button class='ghost danger'>Disconnect</button></form>
  </div>
  <div class='conn-meta muted'>" +:+
  (if is_empty custom || is_empty dcr then "" else "“" +:+ esc dcr +:+ "” · ") +:+
  "<code>" +:+ esc cid +:+ "</code> · last accessed " +:+ since k.(store.last_seen) +:+
  " · connected " +:+ since k.(store.first_seen) +:+
  origin_detail k.(store.last_ip) k.(store.last_user_agent) +:+ html "</div>
  " +:+ redirect_list k.(store.conn_redirect_uris) +:+ html "
  <form class='conn-edit' method='post' action='/account/connections/label'>
    " +:+ csrf +:+ html "
    <input type='hidden' name='client_id' value='" +:+ esc cid +:+ html "'>
    <label>Name<br><input type='text' name='name' value='" +:+ esc custom +:+
  html "' placeholder='" +:+ esc dcr +:+ html "' maxlength='60'></label>
    <label>Note<br><input type='text' name='note' value='" +:+ esc k.(store.note) +:+
  html "' maxlength='200'></label>
    <button class='ghost' type='submit'>Save</button>
  </form>
  " +:+ access_form "/account/connections/access" "client_id" cid mine
          (access.denied_instances access.OAUTH cid d) csrf +:+ html "
</li>".

Definition session_row (current : string) (s : string * web_session.t) : string :=
  html "<li><div><code>session</code>" +:+
  (if eqs s.1 current then html " <span class='badge'>this device</span>" else "") +:+
  html "<div class='meta muted'>started " +:+ since s.2.(web_session.created_at) +:+
  " · expires in " +:+ duration (i64_wrap (s.2.(web_session.expires_at) - now)) +:+
  origin_detail s.2.(web_session.last_ip) s.2.(web_session.last_user_agent) +:+
  "</div></div></li>".

Definition token_row (csrf : string) (mine : list instances.Instance) (d : Db) (t : tokens.Pat)
    : string :=
  let name := if is_empty t.(tokens.name) then "token" else t.(tokens.name) in
  html "<li>
  <div class='conn-head'>
    <span class='conn-title'><code>" +:+ esc name +:+ html "</code> <span class='muted'>· " +:+
  last_used t.(tokens.last_used_at) +:+ " · " +:+
  (if (t.(tokens.expires_at) <=? now)%Z then "expired"
   else "expires in " +:+ duration (i64_wrap (t.(tokens.expires_at) - now))) +:+ html "</span></span>
    <form method='post' action='/account/tokens/revoke' data-confirm='Revoke this token?'>" +:+ csrf +:+
  html "<input type='hidden' name='token_id' value='" +:+ esc t.(tokens.id) +:+
  html "'><button class='ghost danger'>Revoke</button></form>
  </div>
  " +:+ access_form "/account/tokens/access" "token_id" t.(tokens.id) mine
          (access.denied_instances access.PAT t.(tokens.id) d) csrf +:+ html "
</li>".

Definition git_row (csrf : string) (k : gitcreds.GitCredential) : string :=
  let username := if is_empty k.(gitcreds.username)
                  then gitcreds.DEFAULT_USERNAME else k.(gitcreds.username) in
  html "<li>
  <div class='conn-head'>
    <span class='conn-title'><code>" +:+ esc k.(gitcreds.host) +:+
  html "</code> <span class='muted'>· user " +:+ esc username +:+ " · updated " +:+
  since k.(gitcreds.updated_at) +:+ " · " +:+ last_used k.(gitcreds.last_used_at) +:+
  (if is_empty k.(gitcreds.label) then "" else " · " +:+ esc k.(gitcreds.label)) +:+ html "</span></span>
    <form method='post' action='/account/git-credentials/delete' data-confirm='Remove the credential for " +:+
  esc k.(gitcreds.host) +:+ html "?'>" +:+ csrf +:+
  html "<input type='hidden' name='host' value='" +:+ esc k.(gitcreds.host) +:+
  html "'><button class='ghost danger'>Remove</button></form>
  </div>
</li>".

(** A list, or a sentence when there is nothing to list. *)
Definition conns (empty : string) (rows : list string) : string :=
  match rows with
  | [] => html "<p class='muted'>" +:+ empty +:+ "</p>"
  | _ => html "<ul class='conns'>" +:+ String.concat "" rows +:+ "</ul>"
  end.
Definition servers_list (rows : list string) : string :=
  html "<ul class='servers'>" +:+ String.concat "" rows +:+ "</ul>".

Definition passkeys_section (csrf : string) (keys : list users.CredentialInfo) : string :=
  html "<section>
  <h2>Passkeys</h2>
  <p class='muted'>Passkeys are how you sign in — a private key held by your device or hardware key (Touch ID, Face ID, Windows Hello, a YubiKey, …) that proves who you are without a password. The hub only stores the matching public key, so there is nothing to phish or leak. Add a second passkey (another device or a hardware key) so you are not locked out if you lose one.</p>
  " +:+ servers_list (map (passkey_row csrf (length keys <=? 1)%nat) keys) +:+ html "
  <button id='add-passkey-btn' class='inline' type='button'>Add a passkey</button>
  <p class='error' id='add-passkey-error'></p>
</section>".
Definition connections_section (rows : list string) : string :=
  html "<section style='margin-top:18px'>
  <h2>Connected MCP clients</h2>
  <p class='muted'>Clients you have authorized to reach your MCP endpoint. Disconnecting revokes refresh access; any active token still works until it expires (≤15 min).</p>
  " +:+ conns "No MCP clients are connected." rows +:+ html "
</section>".
Definition tokens_section (csrf : string) (rows : list string) : string :=
  html "<section style='margin-top:18px'>
  <h2>Personal access tokens</h2>
  <p class='muted'>For MCP clients that can`t sign in with OAuth. A token is a bearer credential with full access to your MCP endpoint — treat it like a password. Shown once at creation.</p>
  " +:+ conns "No tokens yet." rows +:+ html "
  <form method='post' action='/account/tokens/create' class='token-create'>
    " +:+ csrf +:+ html "
    <label class='name'>Name<br><input type='text' name='name' placeholder='e.g. my-laptop' maxlength='60' required></label>
    <label class='expires'>Expires<br><select name='expires_days'>
      <option value='7'>7 days</option>
      <option value='30' selected>30 days</option>
      <option value='90'>90 days</option>
      <option value='180'>180 days</option>
      <option value='365'>365 days</option>
    </select></label>
    <button class='inline' type='submit'>Create token</button>
  </form>
</section>".
Definition git_section (csrf : string) (rows : list string) : string :=
  html "<section style='margin-top:18px'>
  <h2>Git credentials</h2>
  <p class='muted'>Tokens the hub uses to build git-sourced servers from private repositories — one per git host. Stored encrypted and never shown again; saving a host again replaces its token. Use a read-only, repo-scoped token with an expiry: building runs the repository`s own build code, which can read the token.</p>
  " +:+ conns "No git credentials yet." rows +:+ html "
  <form method='post' action='/account/git-credentials/save' class='token-create'>
    " +:+ csrf +:+ html "
    <label class='name'>Host<br><input type='text' name='host' placeholder='github.com' maxlength='200' required></label>
    <label>Username<br><input type='text' name='username' placeholder='x-access-token' maxlength='100'></label>
    <label>Token<br><input type='password' name='token' autocomplete='off' required></label>
    <label class='name'>Note<br><input type='text' name='label' placeholder='optional' maxlength='60'></label>
    <button class='inline' type='submit'>Save credential</button>
  </form>
  <p class='muted'>Leave the username blank for GitHub. GitLab wants <code>oauth2</code>; Bitbucket wants <code>x-token-auth</code>.</p>
</section>".
Definition sessions_section (csrf current : string) (l : list (string * web_session.t)) : string :=
  let others := (length l - 1)%nat in
  html "<section style='margin-top:18px'>
  <h2>Browser sessions</h2>
  <p class='muted'>You have " +:+ pretty (length l) +:+ " active session(s)" +:+
  (if (0 <? others)%nat then ", including " +:+ pretty others +:+ " other than this one" else "") +:+
  html ".</p>
  " +:+ servers_list (map (session_row current) l) +:+ html "
  " +:+ (if (0 <? others)%nat
         then html "<form method='post' action='/account/sessions/revoke-others'>" +:+ csrf +:+
              html "<button class='ghost'>Sign out other sessions</button></form>"
         else "") +:+ html "
</section>".

Definition account_body (user : users.User) (jar : gmap string string) (d : Db) : string :=
  let uid := user.(users.id) in
  let csrf := csrf jar in
  let mine := instances.list_for_user uid d in
  html "<header class='row'><h1>Account</h1><a href='/'>← Back</a></header>
<p>Signed in as <strong>" +:+ esc user.(users.handle) +:+ html "</strong></p>
" +:+ passkeys_section csrf (users.list_credentials uid d) +:+ html "
" +:+ connections_section (map (connection_row csrf mine d) (store.list_user_connections uid now d)) +:+ html "
" +:+ tokens_section csrf (map (token_row csrf mine d) (tokens.list_for_user uid d)) +:+ html "
" +:+ git_section csrf (map (git_row csrf) (gitcreds.list_for_user uid d)) +:+ html "
" +:+ sessions_section csrf (default "" (session.current_session_id jar))
        (session.list_for_user uid now d).
Definition account_page (user : users.User) (jar : gmap string string) (h : Hub) : Response :=
  Page 200 (page_wide "Account" (account_body user jar h.(db))).
Definition recover_page (user : option users.User) : Response :=
  match user with
  | Some _ => Redirect "/account"
  | None => Page 200 (page "Recover access" (html "<h1>Recover access</h1>
<p class='muted'>Lost the device with your passkey? Ask an administrator for a recovery code, then enroll a new passkey here.</p>
<form id='recover-form'>
  <label>Handle<input id='recover-handle' name='handle' autocomplete='username' required></label>
  <label>Recovery code<input id='recover-code' name='code' autocomplete='off' required></label>
  <button id='recover-btn' type='submit'>Recover &amp; add passkey</button>
</form>
<p class='error' id='recover-error'></p>
<p class='muted'><a href='/login'>← Back to sign in</a></p>"))
  end.
(** ** The administrators' pages *)
Abbreviation admin_only u r := (if u.(users.is_admin) then r else admin_forbidden asset_ver source_url version).

Definition invite_row (csrf : string) (i : invites.Invite) : string :=
  let sid := invites.short_id i in
  html "<tr><td><code>" +:+ esc sid +:+ "</code></td><td>" +:+ esc i.(invites.note) +:+ "</td><td>" +:+
  (if invites.used i then "used" else "available") +:+ "</td><td>" +:+
  (if invites.used i then ""
   else html "<form method='post' action='/invites/revoke' data-confirm='Revoke this invite?'>" +:+ csrf +:+
        html "<input type='hidden' name='short_id' value='" +:+ esc sid +:+
        html "'><button class='ghost danger'>Revoke</button></form>") +:+ "</td></tr>".
Definition invites_table (csrf : string) (l : list invites.Invite) : string :=
  match l with
  | [] => html "<p class='muted'>No invites yet. Generate one above to let someone register.</p>"
  | _ => html "<table class='invites'><thead><tr><th>ID</th><th>Note</th><th>Status</th><th></th></tr></thead><tbody>" +:+
         concat_map (invite_row csrf) l +:+ "</tbody></table>"
  end.
Definition invites_body (csrf : string) (d : Db) : string :=
  html "<header class='row'><h1>Invites</h1><a href='/'>← Back</a></header>
<p class='muted'>Registration is invite-only. Each code works once. The code is shown only when generated — copy it then.</p>
<form method='post' action='/invites/create'>
  " +:+ csrf +:+ html "
  <label>Note (optional)<input name='note' placeholder='e.g. for Alice' autocomplete='off'></label>
  <button type='submit'>Generate invite</button>
</form>
<section style='margin-top:18px'>" +:+ invites_table csrf (invites.list d) +:+ html "</section>
<section style='margin-top:18px'>
  <h2>Recovery code</h2>
  <p class='muted'>Issue a one-time code that lets an existing user who lost their device enroll a new passkey on their account.</p>
  <form method='post' action='/invites/recovery'>
    " +:+ csrf +:+ html "
    <label>User handle<input name='handle' placeholder='their handle' autocomplete='off' required></label>
    <button type='submit'>Issue recovery code</button>
  </form>
</section>".
Definition invites_page (user : users.User) (jar : gmap string string) (h : Hub) : Response :=
  admin_only user (Page 200 (page_wide "Invites" (invites_body (csrf jar) h.(db)))).

(** No action on oneself or on the last administrator. *)
Definition user_actions (csrf : string) (u : users.User) : string :=
  let path := if u.(users.disabled) then "/users/enable" else "/users/disable" in
  let label := if u.(users.disabled) then "Enable" else "Disable" in
  html "<form method='post' action='" +:+ path +:+ html "'>" +:+ csrf +:+
  html "<input type='hidden' name='handle' value='" +:+ esc u.(users.handle) +:+
  html "'><button class='ghost'>" +:+ label +:+ html "</button></form>
<form method='post' action='/users/delete' data-confirm='Delete this user and all their data?'>" +:+ csrf +:+
  html "<input type='hidden' name='handle' value='" +:+ esc u.(users.handle) +:+
  html "'><button class='ghost danger'>Delete</button></form>".
Definition user_row (csrf me : string) (admins : nat) (u : users.User) : string :=
  html "<tr><td><code>" +:+ esc u.(users.handle) +:+ "</code></td><td>" +:+
  (if u.(users.is_admin) then "admin" else "user") +:+ "</td><td>" +:+
  (if u.(users.disabled) then "disabled" else "active") +:+ html "</td><td><div class='actions'>" +:+
  (if eqs u.(users.id) me || (u.(users.is_admin) && (admins <=? 1)%nat)
   then html "<span class='muted'>—</span>" else user_actions csrf u) +:+ "</div></td></tr>".
Definition users_body (csrf me : string) (d : Db) : string :=
  let all := users.list d in
  let admins := length (filter (λ u, u.(users.is_admin) = true) all) in
  html "<header class='row'><h1>Users</h1><a href='/'>← Back</a></header>
<p class='muted'>Disabling an account ends its sessions and revokes its tokens immediately; deleting also removes its servers and passkeys. You cannot act on your own account or the last admin.</p>
<table class='invites'><thead><tr><th>Handle</th><th>Role</th><th>Status</th><th></th></tr></thead><tbody>" +:+
  concat_map (user_row csrf me admins) all +:+ "</tbody></table>".
Definition users_page (user : users.User) (jar : gmap string string) (h : Hub) : Response :=
  admin_only user (Page 200 (page_wide "Users" (users_body (csrf jar) user.(users.id) h.(db)))).

(** *** Runtime statistics *)
Definition slots_class (pct : Z) : string :=
  if (90 <=? pct)%Z then "danger" else if (75 <=? pct)%Z then "warn" else "ok".
Definition headline (s : stats.RuntimeStats) : string :=
  let slots := s.(stats.slots) in
  let pct := if (slots.(stats.total) =? 0)%Z then 0%Z
             else (u64_wrap (slots.(stats.used) * 100) / slots.(stats.total))%Z in
  html "<div class='row'>
  <div class='status status-" +:+ slots_class pct +:+ html "'>Backend slots: <strong>" +:+
  pretty slots.(stats.used) +:+ " / " +:+ pretty slots.(stats.total) +:+ "</strong> (" +:+
  pretty pct +:+ html "% in use)</div>
  <div class='status status-ok'>Active sessions: <strong>" +:+ pretty s.(stats.active_sessions) +:+ html "</strong></div>
  <div class='status status-ok'>Pooled backends: <strong>" +:+
  pretty s.(stats.pool).(stats.pool_backends) +:+ "</strong> across <strong>" +:+
  pretty s.(stats.pool).(stats.pool_users) +:+ html "</strong> user(s)</div>
</div>".
Definition limit_row (name value var : string) : string :=
  "<tr><td>" +:+ name +:+ "</td><td>" +:+ value +:+ "</td><td><code>" +:+ var +:+ "</code></td></tr>" +:+ LFs.
Definition limits_table (l : config.Limits) : string :=
  html "<table class='invites'><thead><tr><th>Limit</th><th>Value</th><th>Env var</th></tr></thead><tbody>
" +:+
  limit_row "Max backends (global)" (pretty l.(config.max_backends_global)) "HUB_MAX_BACKENDS_GLOBAL" +:+
  limit_row "Max backends per user" (pretty l.(config.max_backends_per_user)) "HUB_MAX_BACKENDS_PER_USER" +:+
  limit_row "Backend idle timeout" (secs_or l.(config.backend_idle_secs) "off") "HUB_BACKEND_IDLE_SECS" +:+
  limit_row "Per-call timeout" (secs_or l.(config.backend_call_timeout_secs) "off") "HUB_BACKEND_CALL_TIMEOUT_SECS" +:+
  limit_row "Connect timeout (default; servers may override)" (secs_or l.(config.backend_connect_timeout_secs) "off")
    "HUB_BACKEND_CONNECT_TIMEOUT_SECS" +:+
  limit_row "List timeout" (secs_or l.(config.backend_list_timeout_secs) "off") "HUB_BACKEND_LIST_TIMEOUT_SECS" +:+
  limit_row "Bind budget" (secs_or l.(config.bind_budget_secs) "wait for all") "HUB_BIND_BUDGET_SECS" +:+
  limit_row "Keep warm" (if c.(config.keep_warm) then "on" else "off") "HUB_KEEP_WARM" +:+
  limit_row "Max response size"
    (if (l.(config.max_response_mb) =? 0)%Z then "uncapped" else pretty l.(config.max_response_mb) +:+ " MB")
    "HUB_MAX_RESPONSE_MB" +:+ "</tbody></table>".
Definition totals_line (t : stats.Totals) : string :=
  html "<p class='muted'>" +:+ pretty t.(stats.t_users) +:+ " user(s) · " +:+
  pretty t.(stats.t_instances) +:+ " server(s) (" +:+ pretty t.(stats.enabled_instances) +:+
  " enabled) · running " +:+ pretty t.(stats.running) +:+ " · error " +:+ pretty t.(stats.t_error) +:+
  " · not started " +:+ pretty t.(stats.t_skipped) +:+ " · not built " +:+ pretty t.(stats.t_unbuilt) +:+
  " · unknown " +:+ pretty t.(stats.t_unknown) +:+ "</p>".
Definition status_label (s : string) : string * string :=
  if eqs s "ok" then ("ok", "running")
  else if eqs s "error" then ("danger", "error")
  else if eqs s "skipped" then ("warn", "not started")
  else if eqs s "unbuilt" then ("warn", "not built")
  else ("muted", "unknown").
(** The detail's first line only. *)
Definition stat_row (i : stats.InstanceStat) : string :=
  let '(class, label) := status_label i.(stats.runtime_status) in
  html "<tr><td><code>" +:+ esc i.(stats.owner) +:+ "</code></td><td><code>" +:+
  esc i.(stats.namespace) +:+ "</code> · " +:+ esc i.(stats.display_name) +:+
  html "</td><td><span class='status status-" +:+ class +:+ html "'>" +:+ label +:+
  html "</span></td><td class='muted'>" +:+
  match non_empty i.(stats.runtime_detail) with
  | Some d => esc (default "" (head (text.lines d))) | None => "" end +:+
  html "</td><td class='muted'>" +:+
  match i.(stats.runtime_checked_at) with Some t => since t | None => "—" end +:+ "</td></tr>".
Definition stat_table (l : list stats.InstanceStat) : string :=
  html "<table class='invites'><thead><tr><th>Owner</th><th>Server</th><th>Status</th><th>Detail</th><th>Checked</th></tr></thead><tbody>" +:+
  match l with
  | [] => html "<tr><td colspan='5' class='muted'>No servers configured.</td></tr>"
  | _ => concat_map stat_row l
  end +:+ "</tbody></table>".
Definition metrics_section (csrf key : string) : string :=
  html "<p class='muted'>Per-user/server/tool usage counters in Prometheus text format, for a Zabbix HTTP-agent item (or any Prometheus scraper). Counters reset on restart; use rate/delta preprocessing.</p>
<table class='invites'><tbody>
<tr><td>Endpoint</td><td>" +:+ copy_code (c.(config.base_url) +:+ "/metrics") +:+ html "</td></tr>
<tr><td>API key</td><td>" +:+ copy_code key +:+ html "</td></tr>
<tr><td>Header</td><td>" +:+ copy_code ("Authorization: Bearer " +:+ key) +:+ html "</td></tr>
</tbody></table>
<form method='post' action='/stats/metrics-key/regenerate' data-confirm='Regenerate the metrics API key? The current key stops working immediately.'>" +:+
  csrf +:+ html "<button class='ghost danger'>Regenerate key</button></form>".
Definition stats_body (csrf key : string) (s : stats.RuntimeStats) : string :=
  html "<header class='row'><h1>Runtime stats</h1><a href='/'>← Back</a></header>
<p class='muted'>Backend slots and active sessions are live; the server table shows each backend`s last-known status. Reload to refresh.</p>
" +:+ headline s +:+ html "
<section><h2>Limits</h2>" +:+ limits_table s.(stats.limits) +:+ html "</section>
<section><h2>Servers</h2>" +:+ totals_line s.(stats.totals) +:+ stat_table s.(stats.stat_instances) +:+ html "</section>
<section><h2>Metrics</h2>" +:+ metrics_section csrf key +:+ "</section>".
(** [free_slots] and [sessions] are what the semaphore and the session manager say. *)
Definition stats_page (free_slots sessions : Z) (user : users.User) (jar : gmap string string)
    (h : Hub) : Response :=
  let n := pool.counts h.(pools) in
  admin_only user (Page 200 (page_wide "Runtime stats" (stats_body (csrf jar) h.(metrics_key)
    (stats.gather c.(config.limits) free_slots sessions (Z.of_nat n.1, Z.of_nat n.2)
       h.(runtime_status) h.(db))))).

(** ** Facts *)
Import scanner.
Lemma inert_last_used o : inert (last_used o).
Proof. destruct o; cbn; auto with html. Qed.
Lemma inert_duration n : inert (duration n).
Proof. unfold duration. repeat case_match; auto with html. Qed.
Lemma inert_origin_detail ip ua : inert (origin_detail ip ua).
Proof.
  unfold origin_detail. destruct (known ip), (known ua); cbn; auto with html.
Qed.
Hint Resolve inert_last_used inert_duration inert_origin_detail : html.
Lemma fragment_access_box d i : fragment (access_box d i).
Proof. intros st. unfold access_box. follow. Qed.
Hint Resolve fragment_access_box : html.
Lemma fragment_access_form act f v l d csrf :
  inert act → inert f → fragment csrf → fragment (access_form act f v l d csrf).
Proof. intros Ha Hf Hc st. unfold access_form. follow. Qed.
Hint Resolve fragment_access_form : html.
Lemma fragment_passkey_row csrf b k : fragment csrf → fragment (passkey_row csrf b k).
Proof. intros Hc st. unfold passkey_row. follow. Qed.
Lemma fragment_redirect_list l : fragment (redirect_list l).
Proof. intros st. unfold redirect_list. follow. Qed.
Hint Resolve fragment_passkey_row fragment_redirect_list : html.
Lemma fragment_connection_row csrf m d k : fragment csrf → fragment (connection_row csrf m d k).
Proof. intros Hc st. unfold connection_row. follow. Qed.
Hint Resolve fragment_connection_row : html.
Lemma fragment_session_row cur s : fragment (session_row cur s).
Proof. intros st. unfold session_row. follow. Qed.
Lemma fragment_token_row csrf m d k : fragment csrf → fragment (token_row csrf m d k).
Proof. intros Hc st. unfold token_row. follow. Qed.
Lemma fragment_git_row csrf k : fragment csrf → fragment (git_row csrf k).
Proof. intros Hc st. unfold git_row. follow. Qed.
Hint Resolve fragment_session_row fragment_token_row fragment_git_row : html.
Lemma fragment_rows {A} (f : A → string) l :
  (∀ x, fragment (f x)) → fragment (String.concat "" (map f l)).
Proof. auto with html. Qed.
Lemma fragment_conns {A} e (f : A → string) l :
  inert e → (∀ x, fragment (f x)) → fragment (conns e (map f l)).
Proof.
  intros He Hf st. unfold conns. destruct (map f l) eqn:El; [follow|].
  rewrite <- El. follow.
Qed.
Lemma fragment_servers_list {A} (f : A → string) l :
  (∀ x, fragment (f x)) → fragment (servers_list (map f l)).
Proof. intros Hf st. unfold servers_list. follow. Qed.
Hint Resolve fragment_conns fragment_servers_list : html.
Lemma fragment_passkeys_section csrf l : fragment csrf → fragment (passkeys_section csrf l).
Proof. intros Hc st. unfold passkeys_section. follow. Qed.
Lemma fragment_connections_section {A} (f : A → string) l :
  (∀ x, fragment (f x)) → fragment (connections_section (map f l)).
Proof. intros Hf st. unfold connections_section. follow. Qed.
Lemma fragment_tokens_section {A} csrf (f : A → string) l :
  fragment csrf → (∀ x, fragment (f x)) → fragment (tokens_section csrf (map f l)).
Proof. intros Hc Hf st. unfold tokens_section. follow. Qed.
Lemma fragment_git_credentials {A} csrf (f : A → string) l :
  fragment csrf → (∀ x, fragment (f x)) → fragment (git_section csrf (map f l)).
Proof. intros Hc Hf st. unfold git_section. follow. Qed.
Lemma fragment_sessions_section csrf cur l :
  fragment csrf → fragment (sessions_section csrf cur l).
Proof. intros Hc st. unfold sessions_section. follow. Qed.
Hint Resolve fragment_passkeys_section fragment_connections_section fragment_tokens_section
  fragment_git_credentials fragment_sessions_section : html.
Lemma fragment_account_body user jar d : fragment (csrf jar) → fragment (account_body user jar d).
Proof. intros Hc st. unfold account_body. follow. Qed.

Lemma fragment_invite_row csrf i : fragment csrf → fragment (invite_row csrf i).
Proof. intros Hc st. unfold invite_row. follow. Qed.
Hint Resolve fragment_invite_row : html.
Lemma fragment_invites_table csrf l : fragment csrf → fragment (invites_table csrf l).
Proof. intros Hc st. unfold invites_table. follow. Qed.
Hint Resolve fragment_invites_table : html.
Lemma fragment_invites_body csrf d : fragment csrf → fragment (invites_body csrf d).
Proof. intros Hc st. unfold invites_body. follow. Qed.
Lemma fragment_user_actions csrf u : fragment csrf → fragment (user_actions csrf u).
Proof. intros Hc st. unfold user_actions. follow. Qed.
Hint Resolve fragment_user_actions : html.
Lemma fragment_user_row csrf me n u : fragment csrf → fragment (user_row csrf me n u).
Proof. intros Hc st. unfold user_row. follow. Qed.
Hint Resolve fragment_user_row : html.
Lemma fragment_users_body csrf me d : fragment csrf → fragment (users_body csrf me d).
Proof. intros Hc st. unfold users_body. follow. Qed.

Lemma inert_slots_class p : inert (slots_class p).
Proof. unfold slots_class. repeat case_match; auto with html. Qed.
Hint Resolve inert_slots_class : html.
Lemma fragment_headline s : fragment (headline s).
Proof. intros st. unfold headline. follow. Qed.
Lemma fragment_limit_row n v x : inert n → inert v → inert x → fragment (limit_row n v x).
Proof. intros Hn Hv Hx st. unfold limit_row. follow. Qed.
Hint Resolve fragment_headline fragment_limit_row : html.
Lemma fragment_limits_table l : fragment (limits_table l).
Proof. intros st. unfold limits_table. follow. Qed.
Lemma fragment_totals_line x : fragment (totals_line x).
Proof. intros st. unfold totals_line. follow. Qed.
Lemma fragment_stat_row i : fragment (stat_row i).
Proof.
  intros st. unfold stat_row, status_label. repeat destruct (eqs _ _); follow.
Qed.
Hint Resolve fragment_limits_table fragment_totals_line fragment_stat_row : html.
Lemma fragment_stat_table l : fragment (stat_table l).
Proof. intros st. unfold stat_table. follow. Qed.
Lemma fragment_metrics_section csrf k : fragment csrf → fragment (metrics_section csrf k).
Proof. intros Hc st. unfold metrics_section. follow. Qed.
Hint Resolve fragment_stat_table fragment_metrics_section : html.
Lemma fragment_stats_body csrf k s : fragment csrf → fragment (stats_body csrf k s).
Proof. intros Hc st. unfold stats_body. follow. Qed.
End pages.
End account_pages.
