(* ===== verification/Router.v ===== *)
(** * The form routes (lib.rs [build_router]) and what a submission may do

    [post] sends a submitted form to its handler.  A forged form changes nothing; a
    user's own forms change that user's rows only; administrators cannot lock
    themselves out; every accepted submission is audited. *)

From S2P Require Import Prelude Strs Trim Schema External Fixtures Json Html Users Invites Sessions.
From S2P Require Import Tokens Access Groups GitCreds Config Instances InstanceText OauthStore.
From S2P Require Import Status AuditLog Sandbox Backend Gitsrc Pool Tenancy Hub Launch Server.
From S2P Require Import OauthServer Management Isolation Web.
Open Scope string_scope.
Open Scope hub_scope.

Module router.
Import hub web tenancy isolation.

(** The [POST] routes of the browser pages, with the path's id and the form. *)
Inductive Request :=
| AccountPasskeysRemove (cred_id submitted : string)
| AccountSessionsRevokeOthers (submitted : string)
| AccountConnectionsRevoke (client_id submitted : string)
| AccountConnectionsLabel (client_id name note submitted : string)
| AccountConnectionsAccess (form : gmap string string)
| AccountTokensCreate (name : string) (expires_days : Z) (submitted : string)
| AccountTokensRevoke (token_id submitted : string)
| AccountTokensAccess (form : gmap string string)
| AccountGitCredentialsSave (host username label token submitted : string)
| AccountGitCredentialsDelete (host submitted : string)
| StatsMetricsKeyRegenerate (submitted : string)
| UsersDisable (handle submitted : string)
| UsersEnable (handle submitted : string)
| UsersDelete (handle submitted : string)
| ServersCreate (form : CreateServerForm)
| ServersCapabilitiesRefresh (iid submitted : string)
| ServersConfig (iid : string) (form : CreateServerForm)
| ServersTest (iid submitted : string)
| ServersEnable (iid submitted : string)
| ServersDisable (iid submitted : string)
| ServersRestart (iid submitted : string)
| ServersUpdate (iid submitted : string)
| ServersDelete (iid submitted : string)
| GroupsCreate (slug name submitted : string)
| GroupsUpdate (gid : string) (form : gmap string string)
| GroupsDelete (gid submitted : string)
| InvitesCreate (note submitted : string)
| InvitesRecovery (handle submitted : string)
| InvitesRevoke (short_id submitted : string).

(** The security token a request carries. *)
Definition token_of (req : Request) : string :=
  match req with
  | AccountConnectionsAccess form | AccountTokensAccess form | GroupsUpdate _ form =>
      field form "csrf"
  | ServersCreate form | ServersConfig _ form => form.(csrf)
  | AccountPasskeysRemove _ s | AccountSessionsRevokeOthers s | AccountConnectionsRevoke _ s
  | AccountConnectionsLabel _ _ _ s | AccountTokensCreate _ _ s | AccountTokensRevoke _ s
  | AccountGitCredentialsSave _ _ _ _ s | AccountGitCredentialsDelete _ s
  | StatsMetricsKeyRegenerate s | UsersDisable _ s | UsersEnable _ s | UsersDelete _ s
  | ServersCapabilitiesRefresh _ s | ServersTest _ s | ServersEnable _ s | ServersDisable _ s
  | ServersRestart _ s | ServersUpdate _ s | ServersDelete _ s | GroupsCreate _ _ s
  | GroupsDelete _ s | InvitesCreate _ s | InvitesRecovery _ s | InvitesRevoke _ s => s
  end.

Section router.
Context `{Machine} `{UrlCrate} `{HttpCrate} `{Shlex} `{Aead} `{Digest} `{launch.Children}.
Context (c : config.Config) (asset_ver source_url version : string).
Context (fresh : management.Drawn) (random : string) (now : Z)
  (snapshot_json : backend.CapabilitiesSnapshot → string).
Context (user : users.User) (jar : gmap string string) (info : users.RequestInfo).
Abbreviation W A := (M Hub Response A).
Abbreviation h1 f := (f c asset_ver source_url version user jar info).

Definition post (req : Request) : W Response :=
  match req with
  | AccountPasskeysRemove id s => h1 remove_passkey id s
  | AccountSessionsRevokeOthers s => h1 revoke_other_sessions s
  | AccountConnectionsRevoke id s => h1 revoke_connection id s
  | AccountConnectionsLabel id n t s =>
      update_connection_label c asset_ver source_url version now user jar info id n t s
  | AccountConnectionsAccess f =>
      update_connection_access c asset_ver source_url version now user jar info f
  | AccountTokensCreate n d s =>
      create_token c asset_ver source_url version fresh random now user jar info n d s
  | AccountTokensRevoke id s => h1 revoke_token id s
  | AccountTokensAccess f => update_token_access c asset_ver source_url version now user jar info f
  | AccountGitCredentialsSave h u l t s =>
      save_git_credential c asset_ver source_url version fresh now user jar info h u l t s
  | AccountGitCredentialsDelete h s => h1 delete_git_credential h s
  | StatsMetricsKeyRegenerate s =>
      regenerate_metrics_key c asset_ver source_url version fresh random user jar info s
  | UsersDisable h s => h1 disable_user h s
  | UsersEnable h s => h1 enable_user h s
  | UsersDelete h s => h1 delete_user h s
  | ServersCreate f => create_server c asset_ver source_url version fresh now user jar info f
  | ServersCapabilitiesRefresh id s =>
      refresh_capabilities c asset_ver source_url version now snapshot_json user jar info id s
  | ServersConfig id f => save_config c asset_ver source_url version fresh user jar info id f
  | ServersTest id s =>
      test_server c asset_ver source_url version now snapshot_json user jar info id s
  | ServersEnable id s => h1 enable_server id s
  | ServersDisable id s => h1 disable_server id s
  | ServersRestart id s => h1 restart_server id s
  | ServersUpdate id s => update_server c asset_ver source_url version now user jar info id s
  | ServersDelete id s => h1 delete_server id s
  | GroupsCreate sl n s => create_group c asset_ver source_url version fresh now user jar info sl n s
  | GroupsUpdate id f => update_group c asset_ver source_url version now user jar info id f
  | GroupsDelete id s => h1 delete_group id s
  | InvitesCreate n s => create_invite c asset_ver source_url version fresh now user jar info n s
  | InvitesRecovery h s => create_recovery c asset_ver source_url version fresh now user jar info h s
  | InvitesRevoke id s => h1 revoke_invite id s
  end.

(** ** Forged forms *)
Abbreviation event := (event user info).
Abbreviation valid := (valid_csrf c jar).
(** Answered 403; nothing happened, or one refusal was logged. *)
Definition refused {A} (m : W A) (h : Hub) : Prop :=
  (∃ body, (m h).1 = Err (Page 403 body)) ∧
  ((m h).2 = h ∨ ∃ a o why, (m h).2 = log (audit.denied why (event a o)) h).
Lemma refused_bind {A B} (m : W A) (k : A → W B) h : refused m h → refused (bind m k) h.
Proof.
  unfold refused, bind. destruct (m h) as [r h']. cbn. intros [[body ->] Hh]. split; [|done].
  by exists body.
Qed.
Lemma refused_csrf {B} a o s (k : unit → W B) h :
  valid s = false →
  refused (bind (check_csrf c asset_ver source_url version user jar info a o s) k) h.
Proof.
  intros Hv. unfold refused, bind, check_csrf. rewrite Hv. cbn.
  split; [by eexists|]. right. by do 3 eexists.
Qed.
Lemma refused_silently {B} s (k : unit → W B) h :
  valid s = false →
  refused (bind (check_csrf_silently c asset_ver source_url version jar s) k) h.
Proof.
  intros Hv. unfold refused, bind, check_csrf_silently. rewrite Hv. cbn.
  split; [by eexists|by left].
Qed.
Lemma refused_admin {B} a o (k : unit → W B) h :
  refused (k tt) h → refused (bind (check_admin asset_ver source_url version user info a o) k) h.
Proof.
  intros Hk. unfold bind, check_admin. destruct (users.is_admin user); [done|].
  split; [by eexists|]. right. by do 3 eexists.
Qed.

(** C13: cross-site request forgery.  A form submitted to any of the routes without the
    token of the session's own cookie is answered 403 and changes nothing at all: at
    most its refusal is logged. *)
Theorem forged_form_changes_nothing req h :
  valid (token_of req) = false →
  refused (post req) h.
Proof.
  intros Hv. destruct req; cbn [post token_of] in *;
    first
      [ by apply refused_csrf | by apply refused_silently
      | apply refused_admin; by apply refused_csrf
      | apply refused_bind, refused_admin; by apply refused_csrf ].
Qed.

(** ** One audit entry per accepted form

    [quietly m]: whatever the audit log, [m] adds nothing to it and keeps [D] of the
    database and [P] of the pools.  [once m]: it keeps both, and adds at most one
    entry, naming the user; exactly one when it is accepted. *)
Section once.
Context (D : Db → Prop) (P : pool.Users → Prop).
Definition quietly {E A} (m : M Hub E A) : Prop := ∀ l, preserves (kept D P (eq l)) m.
Definition entries_of (l : list audit.Entry) (accepted : bool) (h : Hub) : Prop :=
  D h.(db) ∧ P h.(pools) ∧ ∃ es, h.(audit_log) = (l ++ es)%list ∧ (length es <= 1)%nat ∧
  (accepted = true → length es = 1%nat) ∧
  Forall (λ e, e.(audit.what).(audit.actor_id) = user.(users.id)) es.
Definition accepted {E A} (r : result E A) : bool := match r with Ok _ => true | Err _ => false end.
Definition once {A} (m : W A) : Prop :=
  ∀ l h, kept D P (eq l) h → entries_of l (accepted (m h).1) (m h).2.

Lemma none_of l h : kept D P (eq l) h → entries_of l false h.
Proof.
  intros (Hd & Hp & ->). split_and!; [done..|]. exists []. rewrite app_nil_r.
  split_and!; [done|cbn; lia|done|constructor].
Qed.
Lemma one_of l b h e :
  kept D P (eq l) h → e.(audit.what).(audit.actor_id) = user.(users.id) →
  entries_of l b (log e h).
Proof.
  intros (Hd & Hp & ->) He. split_and!; [done..|]. exists [e].
  split_and!; [done|done|done|by constructor].
Qed.
Lemma once_fail {A} r : once (A:=A) (fail r).
Proof. intros l h Hh. by apply none_of. Qed.
(** What precedes the entry says nothing. *)
Lemma once_bind_res {A B} (Q : A → Prop) (m : W A) (k : A → W B) :
  quietly m → (∀ l h a h', kept D P (eq l) h → m h = (Ok a, h') → Q a) →
  (∀ a, Q a → once (k a)) → once (bind m k).
Proof.
  intros Hm HQ Hk l h Hh. pose proof (Hm l h Hh) as Hh'. unfold bind.
  destruct (m h) as [[a|r] h'] eqn:E; [|by apply none_of].
  apply (Hk a); [exact (HQ _ _ _ _ Hh E)|exact Hh'].
Qed.
Lemma once_bind {A B} (m : W A) (k : A → W B) :
  quietly m → (∀ a, once (k a)) → once (bind m k).
Proof. intros Hm Hk. eapply once_bind_res with (Q := λ _, True); auto. Qed.
Lemma once_assoc {A B C} (m : W A) (f : A → W B) (k : B → W C) :
  once (bind m (λ a, bind (f a) k)) → once (bind (bind m f) k).
Proof.
  intros Ho l h Hh. specialize (Ho l h Hh). revert Ho. unfold bind.
  by destruct (m h) as [[a|r] h'].
Qed.
Lemma once_audit_ok {A} a o (r : A) : once (audit_ok user info a o ;;; ret r).
Proof. intros l h Hh. by apply one_of. Qed.
Lemma once_audit_denied {A} a o why r :
  once (A:=A) (audit_denied user info a o why ;;; fail r).
Proof. intros l h Hh. by apply one_of. Qed.
Lemma once_log (e : audit.Entry) :
  e.(audit.what).(audit.actor_id) = user.(users.id) → once (hub.audit e).
Proof. intros He l h Hh. by apply one_of. Qed.
Lemma once_ret {A B} (m : W A) (b : B) : once m → once (m ;;; ret b).
Proof.
  intros Hm l h Hh. specialize (Hm l h Hh). unfold bind. by destruct (m h) as [[a|r] h'].
Qed.
Lemma once_catch {A B} (m : M Hub anyhow A) (k : result anyhow A → W B) :
  quietly m → (∀ r, once (k r)) → once (catch m k).
Proof. intros Hm Hk l h Hh. unfold catch. apply Hk, Hm, Hh. Qed.
Lemma once_action {A} a o (m : M Hub anyhow unit) a' o' (r : A) :
  quietly m →
  once (audited asset_ver source_url version user info a o m ;;; audit_ok user info a' o' ;;; ret r).
Proof.
  intros Hm l h Hh. pose proof (Hm l h Hh) as Hh'. unfold audited, bind, catch.
  destruct (m h) as [[[]|e] h']; by apply one_of.
Qed.
Lemma once_csrf {B} a o s (k : unit → W B) :
  once (k tt) → once (bind (check_csrf c asset_ver source_url version user jar info a o s) k).
Proof.
  intros Hk l h Hh. unfold bind, check_csrf. destruct (valid s); [by apply Hk|]. by apply one_of.
Qed.
Lemma once_silently {B} s (k : unit → W B) :
  once (k tt) → once (bind (check_csrf_silently c asset_ver source_url version jar s) k).
Proof.
  intros Hk l h Hh. unfold bind, check_csrf_silently. destruct (valid s); [by apply Hk|].
  by apply none_of.
Qed.
Lemma once_admin {B} a o (k : unit → W B) :
  (user.(users.is_admin) = true → once (k tt)) →
  once (bind (check_admin asset_ver source_url version user info a o) k).
Proof.
  intros Hk l h Hh. unfold bind, check_admin. destruct (users.is_admin user); [by apply Hk|].
  by apply one_of.
Qed.

(** Quiet steps. *)
Lemma quietly_quiet {E A} (m : M Hub E A) : quiet m → quietly m.
Proof. intros Hq l h Hh. by rewrite Hq. Qed.
Lemma quietly_db {E A} (m : M Db E A) : preserves D m → quietly (on_db m).
Proof. intros Hm l. by apply kept_on_db. Qed.
Lemma quietly_ignore {E F A} (m : M Hub E A) : quietly m → quietly (ignore (F:=F) m).
Proof. intros Hm l. by apply preserves_ignore. Qed.
Lemma quietly_map_err {E F A} (f : E → F) (m : M Hub E A) : quietly m → quietly (map_err f m).
Proof. intros Hm l. by apply preserves_map_err. Qed.
Lemma quietly_bind {E A B} (m : M Hub E A) (k : A → M Hub E B) :
  quietly m → (∀ a, quietly (k a)) → quietly (bind m k).
Proof. intros Hm Hk l. apply preserves_bind; [done|]. intros a. by apply Hk. Qed.
Lemma quietly_status {E A} (m : M status.StatusRegistry E A) : quietly (on_status m).
Proof. intros l. apply kept_on_status. Qed.
Lemma quietly_files {E A} (m : M fs.Fs E A) : quietly (on_files m).
Proof. intros l. apply kept_on_files. Qed.
Lemma quietly_notify {E} u : quietly (notify_tools_changed (E:=E) u).
Proof. intros l. apply kept_notify. Qed.
Lemma quietly_restart {E} i u : quietly (restart_backend (E:=E) i u).
Proof. intros l. apply kept_restart. Qed.
Lemma quietly_sandbox u :
  quietly (on_db_files (sandbox.sandbox_or_fail hub_uid dir_mode is_root
    c.(config.sandbox_uid_base) c.(config.env_dir) u)).
Proof.
  intros l. apply kept_on_db_files, sandbox.preserves_sandbox_or_fail.
Qed.
End once.
#[local] Hint Resolve quietly_quiet quietly_db quietly_ignore quietly_map_err quietly_status
  quietly_files quietly_notify quietly_restart quietly_sandbox once_audit_ok once_audit_denied
  once_fail : hub.

(** ** The user's own forms *)
Section own.
Abbreviation uid := user.(users.id).
Context (d0 : Db) (P : pool.Users → Prop).
Context (HP : ∀ p, P p → P (alter pool.mark_dirty uid p)).
Abbreviation D := (tenancy.D uid d0).
Abbreviation quietly := (quietly D P).
Abbreviation once := (once D P).
Abbreviation own := (own_instance uid d0).

Lemma quietly_mark_dirty {E} : quietly (mark_dirty (E:=E) uid).
Proof. intros l. by apply kept_mark_dirty. Qed.
Lemma quietly_servers_changed {E} : quietly (servers_changed (E:=E) user).
Proof. apply quietly_bind; [apply quietly_mark_dirty|]. intros _. apply quietly_notify. Qed.
Lemma quietly_restart_if_enabled {E} i : quietly (restart_if_enabled (E:=E) user i).
Proof. unfold restart_if_enabled. destruct (instances.enabled i); auto with hub. Qed.
Lemma quietly_error {E A} (m : M Db E A) f : preserves D m → quietly (map_err (F:=Response) f (on_db m)).
Proof. auto with hub. Qed.
Lemma quietly_or_error {A} (m : M Hub anyhow A) :
  quietly m → quietly (or_error asset_ver source_url version m).
Proof. apply quietly_map_err. Qed.
Lemma quietly_apply_config_file iid content :
  own iid → quietly (apply_config_file c fresh iid content).
Proof.
  intros Ho. unfold apply_config_file. destruct (is_empty _); [|auto with hub].
  apply quietly_bind; auto with hub.
Qed.
Lemma quietly_connected cid : quietly (connected asset_ver source_url version now user cid).
Proof. apply quietly_quiet. unfold connected. auto with hub. Qed.
Lemma quietly_owned_group gid : quietly (owned_group asset_ver source_url version user gid).
Proof. apply quietly_quiet. unfold owned_group. auto with hub. Qed.
Lemma quietly_resolve_def i :
  quietly (or_error asset_ver source_url version (instances.resolve_def i)).
Proof. apply quietly_quiet. unfold or_error, instances.resolve_def. auto with hub. Qed.
Lemma quietly_update_instance inst def sb :
  inst.(instances.user_id) = uid → own inst.(instances.id) →
  quietly (on_build (gitsrc.update_instance hub_uid dir_mode hub_env output coreutils
    symlink_metadata canonicalize c.(config.env_dir) inst def sb now)).
Proof. intros Hu Ho l. apply kept_on_build. by apply keeps_update_instance. Qed.
#[local] Hint Resolve quietly_mark_dirty quietly_servers_changed quietly_restart_if_enabled
  quietly_or_error quietly_apply_config_file quietly_connected quietly_owned_group
  quietly_resolve_def quietly_update_instance : hub.

Lemma once_owned_instance {B} iid (k : instances.Instance → W B) :
  (∀ i, i.(instances.user_id) = uid → own i.(instances.id) → own iid → once (k i)) →
  once (bind (owned_instance asset_ver source_url version user iid) k).
Proof.
  intros Hk. apply once_bind_res with
    (Q := λ i, i.(instances.user_id) = uid ∧ own i.(instances.id) ∧ own iid).
  - apply quietly_quiet. unfold owned_instance. auto with hub.
  - intros l h i h' [[_ Hf] _] Hr. unfold owned_instance, read in Hr. m_inv.
    rename select (_ = Some i) into Hi. unfold instances.get_owned, instances.get in Hi.
    destruct (user_server_instances (db h) !! iid) as [r|] eqn:Er; [|done]. cbn in Hi.
    destruct (eqs _ _) eqn:Eu; [|done]. apply eqs_true in Eu. simplify_eq/=.
    split; [done|]. split; apply (own_same uid d0 _ _ Hf); by eapply owned.
  - intros i (? & ? & ?). auto.
Qed.

Lemma quietly_probe inst :
  inst.(instances.user_id) = uid → own inst.(instances.id) →
  quietly (launch.probe_instance (E:=Response) c now uid inst).
Proof.
  intros Hu Ho l. unfold launch.probe_instance. apply preserves_catch; [|intros [|[]]; auto with hub].
  revert l. change (quietly (launch.probe_one c now uid inst)). unfold launch.probe_one.
  apply quietly_bind; [apply quietly_quiet; unfold launch.error_with, instances.resolve_def; auto with hub|].
  intros def. apply quietly_bind.
  { apply quietly_quiet. unfold launch.check_url, launch.error_with.
    destruct (negb _); auto with hub. }
  intros _. apply quietly_bind; [apply quietly_map_err, quietly_sandbox|]. intros sb.
  apply quietly_bind; [auto with hub|]. intros f. apply quietly_bind.
  - destruct (negb (gitsrc.is_git_source def)); [auto with hub|].
    destruct (negb _); [apply quietly_quiet, quiet_fail|]. apply quietly_bind.
    + destruct (gitsrc.venv_is_stale _ _ _ _ _ _); [|auto with hub].
      apply quietly_bind; [|auto with hub]. apply quietly_map_err. by apply quietly_update_instance.
    + intros _. apply quietly_quiet. unfold launch.launched, launch.error_with. auto with hub.
  - intros def'. apply quietly_bind; [apply quietly_quiet; unfold launch.config_error, launch.error_with; auto with hub|].
    intros env. apply quietly_bind; [apply quietly_quiet; unfold launch.config_error, launch.error_with; auto with hub|].
    intros cf. apply quietly_map_err, quietly_files.
Qed.

(** Step through a handler up to its entry. *)
Ltac step :=
  match goal with
  | |- router.once _ _ (bind (check_csrf _ _ _ _ _ _ _ _ _ _) _) => apply once_csrf
  | |- router.once _ _ (bind (check_csrf_silently _ _ _ _ _ _) _) => apply once_silently
  | |- router.once _ _ (bind (owned_instance _ _ _ _ _) _) => apply once_owned_instance; intros
  | |- router.once _ _ (bind (audit_ok _ _ _ _) _) => apply once_audit_ok
  | |- router.once _ _ (bind (audit_denied _ _ _ _ _) _) => apply once_audit_denied
  | |- router.once _ _ (bind (if ?b then _ else _) _) => destruct b
  | |- router.once _ _ (bind _ _) => apply once_bind; [solve [auto with hub]|intros]
  | |- router.once _ _ (catch _ _) => apply once_catch; [solve [auto with hub]|intros [|]]
  end.
Ltac steps := cbv zeta; repeat step.

Lemma once_create_server form :
  once (create_server c asset_ver source_url version fresh now user jar info form).
Proof.
  unfold create_server. cbv zeta. do 2 step.
  apply once_bind_res with (Q := λ i, own i.(instances.id)).
  - apply quietly_or_error. auto with hub.
  - intros l h i h' [Hd _] Hr. apply map_err_Ok, on_db_Ok in Hr as (d' & Hr & ->).
    by eapply own_create_instance.
  - intros i Ho. steps.
Qed.
Lemma once_save_config iid form :
  once (save_config c asset_ver source_url version fresh user jar info iid form).
Proof. unfold save_config. steps. Qed.
Lemma once_set_enabled iid b :
  once (set_enabled_and_redirect asset_ver source_url version user info iid b).
Proof. unfold set_enabled_and_redirect. destruct b; steps. Qed.
Lemma once_restart iid s : once (restart_server c asset_ver source_url version user jar info iid s).
Proof. unfold restart_server. steps. Qed.
Lemma once_delete_server iid s :
  once (delete_server c asset_ver source_url version user jar info iid s).
Proof. unfold delete_server. steps. Qed.
Lemma once_update_server iid s :
  once (update_server c asset_ver source_url version now user jar info iid s).
Proof. unfold update_server. steps. Qed.
Lemma once_record_probe action iid inst :
  inst.(instances.user_id) = uid → own inst.(instances.id) →
  once (record_probe c now snapshot_json user info action iid inst).
Proof.
  intros Hu Ho. unfold record_probe. apply once_bind; [by apply quietly_probe|].
  intros [[st detail] snap]. apply once_bind; [auto with hub|]. intros _. apply once_bind.
  - destruct snap; auto with hub.
  - intros _. case_bool_decide; by apply once_log.
Qed.
Lemma once_test_server iid s :
  once (test_server c asset_ver source_url version now snapshot_json user jar info iid s).
Proof. unfold test_server. do 2 step. by apply once_ret, once_record_probe. Qed.
Lemma once_refresh iid s :
  once (refresh_capabilities c asset_ver source_url version now snapshot_json user jar info iid s).
Proof. unfold refresh_capabilities. do 2 step. by apply once_ret, once_record_probe. Qed.
Lemma once_revoke_other_sessions s :
  once (revoke_other_sessions c asset_ver source_url version user jar info s).
Proof. unfold revoke_other_sessions. steps. Qed.
Lemma once_revoke_connection id s :
  once (revoke_connection c asset_ver source_url version user jar info id s).
Proof. unfold revoke_connection. steps. Qed.
Lemma once_update_label id n t s :
  once (update_connection_label c asset_ver source_url version now user jar info id n t s).
Proof. unfold update_connection_label. steps. Qed.
Lemma once_create_group sl n s :
  once (create_group c asset_ver source_url version fresh now user jar info sl n s).
Proof. unfold create_group. steps. Qed.
Lemma once_update_group gid f :
  once (update_group c asset_ver source_url version now user jar info gid f).
Proof. unfold update_group. steps. Qed.
Lemma once_delete_group gid s :
  once (delete_group c asset_ver source_url version user jar info gid s).
Proof. unfold delete_group. steps. Qed.
Lemma once_create_token n d s :
  once (create_token c asset_ver source_url version fresh random now user jar info n d s).
Proof. unfold create_token. steps. Qed.
Lemma once_save_git h u l t s :
  once (save_git_credential c asset_ver source_url version fresh now user jar info h u l t s).
Proof. unfold save_git_credential. steps. Qed.
Lemma once_delete_git h s :
  once (delete_git_credential c asset_ver source_url version user jar info h s).
Proof. unfold delete_git_credential. steps. Qed.
Lemma once_remove_passkey id s :
  once (remove_passkey c asset_ver source_url version user jar info id s).
Proof. unfold remove_passkey. steps. Qed.

(** *** The denials *)
Definition masked (d : Db) : Prop :=
  wf d ∧ foreign uid (without_denials d0) (without_denials d).
Abbreviation once_masked := (router.once masked P).
Lemma masked_step {E A} (m : M Db E A) :
  preserves wf m → (∀ d, without_denials (m d).2 = without_denials d) →
  router.quietly masked P (on_db m).
Proof.
  intros Hw Hm. apply quietly_db. intros d [Hd Hf]. split; [by apply Hw|]. by rewrite Hm.
Qed.
Lemma masked_local {E A} (m : M Db E A) :
  preserves wf m → (∀ d, wf d → foreign uid d (m d).2) → router.quietly masked P (on_db m).
Proof.
  intros Hw Hm. apply quietly_db. intros d [Hd Hf]. split; [by apply Hw|].
  eapply foreign_trans; [done|]. by apply foreign_without_denials, Hm.
Qed.
Lemma once_access ctype id denied (o : string) :
  once_masked (
    ignore (on_db (access.set_denials uid ctype id denied now)) ;;;
    audit_ok user info o id ;;; ret (Redirect "/account")).
Proof.
  apply once_bind; [|intros; apply once_audit_ok]. apply quietly_ignore, masked_step; [auto with hub|].
  intros d. apply set_denials_others.
Qed.
Lemma quietly_denied_from_form f : router.quietly masked P (read (E:=Response) (denied_from_form user f)).
Proof. apply quietly_quiet, quiet_read. Qed.
Lemma once_connection_access f :
  once_masked (update_connection_access c asset_ver source_url version now user jar info f).
Proof.
  unfold update_connection_access. apply once_silently. cbv zeta. apply once_bind.
  { apply quietly_quiet. unfold connected. auto with hub. }
  intros _. apply once_bind; [apply quietly_denied_from_form|]. intros l. apply once_access.
Qed.
Lemma once_token_access f :
  once_masked (update_token_access c asset_ver source_url version now user jar info f).
Proof.
  unfold update_token_access. apply once_silently. cbv zeta. apply once_bind; [auto with hub|].
  intros toks. apply once_bind; [auto with hub|]. intros _.
  apply once_bind; [apply quietly_denied_from_form|]. intros l. apply once_access.
Qed.
Lemma once_revoke_token id s :
  once_masked (revoke_token c asset_ver source_url version user jar info id s).
Proof.
  unfold revoke_token. apply once_csrf, once_bind.
  { apply quietly_ignore, masked_local; [auto with hub|]. intros d _. apply f_pat_revoke. }
  intros _. apply once_bind; [|intros; apply once_audit_ok].
  apply quietly_ignore, masked_step; [auto with hub|done].
Qed.
End own.

(** The forms for administrators, and those that rewrite denials. *)
Definition admin_form (req : Request) : bool :=
  match req with
  | StatsMetricsKeyRegenerate _ | UsersDisable _ _ | UsersEnable _ _ | UsersDelete _ _
  | InvitesCreate _ _ | InvitesRecovery _ _ | InvitesRevoke _ _ => true
  | _ => false
  end.
Definition writes_denials (req : Request) : bool :=
  match req with
  | AccountConnectionsAccess _ | AccountTokensRevoke _ _ | AccountTokensAccess _ => true
  | _ => false
  end.
Lemma once_own d0 (P : pool.Users → Prop) req :
  (∀ p, P p → P (alter pool.mark_dirty user.(users.id) p)) →
  admin_form req = false → writes_denials req = false →
  once (D user.(users.id) d0) P (post req).
Proof.
  intros HP Ha Hd. destruct req; try done; cbn [post].
  - by apply once_remove_passkey.
  - by apply once_revoke_other_sessions.
  - by apply once_revoke_connection.
  - by apply once_update_label.
  - by apply once_create_token.
  - by apply once_save_git.
  - by apply once_delete_git.
  - by apply once_create_server.
  - by apply once_refresh.
  - by apply once_save_config.
  - by apply once_test_server.
  - apply once_csrf; by apply once_set_enabled.
  - apply once_csrf; by apply once_set_enabled.
  - by apply once_restart.
  - by apply once_update_server.
  - by apply once_delete_server.
  - by apply once_create_group.
  - by apply once_update_group.
  - by apply once_delete_group.
Qed.
Lemma once_denials d0 (P : pool.Users → Prop) req :
  writes_denials req = true → once (masked d0) P (post req).
Proof.
  intros Hd. destruct req; try done; cbn [post].
  - by apply once_connection_access.
  - by apply once_revoke_token.
  - by apply once_token_access.
Qed.

(** ** The administrators' forms *)
Section admin.
Context (was : Prop) (P : pool.Users → Prop).
Abbreviation caller := user.(users.id).
Abbreviation G := (governed caller was).
Abbreviation quietly := (quietly G P).
Abbreviation once := (once G P).

Lemma quietly_users {E A} (m : M Db E A) :
  preserves wf m → (∀ d, (m d).2.(Schema.users) = d.(Schema.users)) → quietly (on_db m).
Proof. intros Hw Hu. by apply quietly_db, governed_of_users. Qed.
Lemma quietly_find h : quietly (on_db (E:=anyhow) (users.find_by_handle h)).
Proof. apply quietly_quiet. unfold users.find_by_handle. auto with hub. Qed.
(** The guards of an action on another account. *)
Lemma once_admin_target {B} action h s (k : users.User → W B) :
  (∀ u, u.(users.id) ≠ caller → once (k u)) →
  once (bind (resolve_admin_target c asset_ver source_url version user jar info action h s) k).
Proof.
  intros Hk. unfold resolve_admin_target. apply once_assoc, once_admin. intros _.
  apply once_assoc, once_csrf. apply once_assoc, once_bind; [apply quietly_map_err, quietly_find|].
  intros o. apply once_assoc, once_bind; [auto with hub|]. intros u. apply once_assoc.
  apply once_bind_res with (Q := λ _, u.(users.id) ≠ caller); [auto with hub| |].
  - intros l h0 [] h' _ [Hne _]%refuse_if_Ok. by apply eqs_false.
  - intros [] Hne. apply once_assoc, once_bind; [auto with hub|]. intros n.
    apply once_assoc, once_bind; [auto with hub|]. intros _.
    intros l h0 Hh. by apply (Hk u Hne).
Qed.
Lemma quietly_deactivate uid : uid ≠ caller → quietly (accounts.deactivate_user uid).
Proof. intros Hne l. by apply admin_deactivate. Qed.
Lemma quietly_purge uid : uid ≠ caller → quietly (accounts.purge_user c.(config.env_dir) uid).
Proof. intros Hne l. by apply admin_purge. Qed.
Lemma once_disable_user h s :
  once (disable_user c asset_ver source_url version user jar info h s).
Proof.
  unfold disable_user. apply once_admin_target. intros u Hu.
  by apply once_action, quietly_deactivate.
Qed.
Lemma once_delete_user h s : once (delete_user c asset_ver source_url version user jar info h s).
Proof.
  unfold delete_user. apply once_admin_target. intros u Hu. by apply once_action, quietly_purge.
Qed.
Lemma once_enable_user h s : once (enable_user c asset_ver source_url version user jar info h s).
Proof.
  unfold enable_user. apply once_admin_target. intros u Hu.
  apply once_bind; [|intros; apply once_audit_ok].
  by apply quietly_ignore, quietly_db, governed_set_disabled; left.
Qed.
Lemma once_regenerate s :
  once (regenerate_metrics_key c asset_ver source_url version fresh random user jar info s).
Proof.
  unfold regenerate_metrics_key. apply once_admin. intros _. apply once_csrf, once_bind;
    [|intros; apply once_audit_ok].
  apply quietly_map_err. intros l. apply kept_on_key. unfold metrics.regenerate_key, metrics.store_key.
  apply preserves_bind; [|intros _; auto with hub]. apply preserves_on_fst, governed_of_users.
  - apply preserves_bind; [auto with hub|]. intros sl d Hd. cbn. wf_table Hd.
  - intros d. unfold bind, lift. by destruct (crypto.seal _ _).
Qed.
Lemma once_create_invite n s :
  once (create_invite c asset_ver source_url version fresh now user jar info n s).
Proof.
  unfold create_invite. apply once_admin. intros _. apply once_csrf, once_bind;
    [|intros; apply once_audit_ok].
  apply quietly_map_err, quietly_users; [auto with hub|]. apply invites_create_users.
Qed.
Lemma once_create_recovery h s :
  once (create_recovery c asset_ver source_url version fresh now user jar info h s).
Proof.
  unfold create_recovery. apply once_admin. intros _. apply once_csrf, once_bind;
    [apply quietly_map_err, quietly_find|]. intros o. apply once_bind; [auto with hub|]. intros u.
  apply once_bind; [|intros; apply once_audit_ok].
  apply quietly_map_err, quietly_users; [auto with hub|]. apply create_recovery_users.
Qed.
Lemma once_revoke_invite id s :
  once (revoke_invite c asset_ver source_url version user jar info id s).
Proof.
  unfold revoke_invite. apply once_admin. intros _. apply once_csrf, once_bind;
    [|intros; apply once_audit_ok].
  apply quietly_ignore, quietly_users; [auto with hub|done].
Qed.
Lemma once_admin_form req : admin_form req = true → once (post req).
Proof.
  intros Ha. destruct req; try done; cbn [post].
  - apply once_regenerate.
  - apply once_disable_user.
  - apply once_enable_user.
  - apply once_delete_user.
  - apply once_create_invite.
  - apply once_create_recovery.
  - apply once_revoke_invite.
Qed.
End admin.

(** ** Properties *)
Lemma post_own req h :
  admin_form req = false → wf h.(db) →
  let h' := (post req h).2 in let uid := user.(users.id) in
  wf h'.(db) ∧ foreign uid (without_denials h.(db)) (without_denials h'.(db)) ∧
  (writes_denials req = false → foreign uid h.(db) h'.(db)) ∧
  other_pools uid h.(pools) h'.(pools) ∧
  entries_of (λ _, True) (λ _, True) h.(audit_log) (accepted (post req h).1) h'.
Proof.
  intros Ha Hwf. destruct (writes_denials req) eqn:Hd.
  - destruct (once_denials h.(db) (other_pools user.(users.id) h.(pools)) req Hd h.(audit_log) h) as ([Hw Hf] & Hp & Hes).
    + split_and!; [split; [done|apply foreign_refl]|done..].
    + by split_and!.
  - destruct (once_own h.(db) (other_pools user.(users.id) h.(pools)) req
      (other_pools_dirty _ _) Ha Hd h.(audit_log) h) as ([Hw Hf] & Hp & Hes).
    + split_and!; [split; [done|apply foreign_refl]|done..].
    + split_and!; auto using foreign_without_denials. by split_and!.
Qed.
Lemma post_governed req h :
  wf h.(db) →
  let h' := (post req h).2 in
  governed user.(users.id) (active_admin user.(users.id) h.(db)) h'.(db) ∧
  entries_of (λ _, True) (λ _, True) h.(audit_log) (accepted (post req h).1) h'.
Proof.
  intros Hwf. destruct (admin_form req) eqn:Ha.
  - destruct (once_admin_form (active_admin user.(users.id) h.(db)) (λ _, True) req Ha h.(audit_log) h)
      as (Hg & _ & Hes); [by split_and!|]. by split_and!.
  - destruct (post_own req h Ha Hwf) as (Hw & Hf & _ & _ & Hes). split; [|done].
    split; [done|].
    pose proof (f_users _ _ _ Hf) as Hu. cbn in Hu. unfold active_admin. by rewrite Hu.
Qed.

(** Any form keeps the database well formed, and whatever of the pools staleness
    marks keep. *)
Lemma post_keeps (P : pool.Users → Prop) req h :
  (∀ u p, P p → P (alter pool.mark_dirty u p)) → wf h.(db) → P h.(pools) →
  wf (post req h).2.(db) ∧ P (post req h).2.(pools).
Proof.
  intros HP Hwf Hp. destruct (admin_form req) eqn:Ha.
  { by destruct (once_admin_form False P req Ha h.(audit_log) h) as ([??]&?&_); [split_and!|]. }
  destruct (writes_denials req) eqn:Hd.
  - destruct (once_denials h.(db) P req Hd h.(audit_log) h) as ([??]&?&_); [|done].
    split_and!; [split; [done|apply foreign_refl]|done..].
  - destruct (once_own h.(db) P req (HP _) Ha Hd h.(audit_log) h) as ([??]&?&_); [|done].
    split_and!; [split; [done|apply foreign_refl]|done..].
Qed.
(** An administrator's form from anyone else is refused at the door. *)
Lemma admin_form_refused req h :
  admin_form req = true → user.(users.is_admin) = false →
  ∃ a o, (post req h).2 = log (audit.denied "not_admin" (event a o)) h.
Proof.
  intros Ha Hn. destruct req; try done; cbn [post];
    unfold regenerate_metrics_key, disable_user, enable_user, delete_user, create_invite,
      create_recovery, revoke_invite, resolve_admin_target, check_admin, bind; rewrite Hn; cbn;
    by do 2 eexists.
Qed.

(** C11: tenancy of the browser pages.  Whatever form a user submits that is not an
    administrator's, every account, every invite and every row of every other user
    is the same afterwards, and so is every other user's pool — except that the
    three forms that rewrite per-credential denials may touch the denials. *)
Theorem web_isolation req h :
  admin_form req = false → wf h.(db) →
  let h' := (post req h).2 in let uid := user.(users.id) in
  wf h'.(db) ∧ foreign uid (without_denials h.(db)) (without_denials h'.(db)) ∧
  (writes_denials req = false → foreign uid h.(db) h'.(db)) ∧
  ∀ u, u ≠ uid → h'.(pools) !! u = h.(pools) !! u.
Proof. intros Ha Hwf. by destruct (post_own req h Ha Hwf) as (? & ? & ? & ? & _). Qed.

(** C33: the audit trail of the browser pages.  An accepted form of any route appends
    exactly one entry to the log, a refused one at most one, and each names the user
    of the session. *)
Theorem accepted_form_audited req h :
  wf h.(db) →
  ∃ es, (post req h).2.(audit_log) = (h.(audit_log) ++ es)%list ∧ (length es <= 1)%nat ∧
    (accepted (post req h).1 = true → length es = 1%nat) ∧
    Forall (λ e, e.(audit.what).(audit.actor_id) = user.(users.id)) es.
Proof. intros Hwf. by destruct (post_governed req h Hwf) as [_ (_ & _ & ?)]. Qed.

(** An administrator using the pages stays an active administrator, whatever form
    is submitted; and every form keeps the database well formed. *)
Theorem web_administrator_survives req h :
  wf h.(db) →
  wf (post req h).2.(db) ∧
  (active_admin user.(users.id) h.(db) → active_admin user.(users.id) (post req h).2.(db)).
Proof. intros Hwf. by destruct (post_governed req h Hwf) as [[? ?] _]. Qed.

(** Deleting by primary key removes one row at most. *)
Lemma count_without_key {A} (P : A → bool) k0 (t : gmap string A) :
  (2 ≤ count_rows P t)%nat → (1 ≤ count_rows P (without (λ k r, eqs k k0 && P r) t))%nat.
Proof.
  intros Hc. assert (∃ i r, i ≠ k0 ∧ t !! i = Some r ∧ P r = true) as (i & r & Hi & Hr & HP).
  { destruct (t !! k0) as [r0|] eqn:E.
    - rewrite <- (insert_delete_id t k0 r0), count_rows_insert_new in Hc
        by (done || apply lookup_delete_eq).
      destruct (count_rows_witness P (delete k0 t)) as (i & r & Hr & HP); [destruct (P r0); lia|].
      apply lookup_delete_Some in Hr as [? ?]. by exists i, r.
    - destruct (count_rows_witness P t) as (i & r & Hr & HP); [lia|].
      exists i, r. split_and!; [congruence|done..]. }
  apply (count_rows_pos _ _ i r); [|done]. apply without_Some. split; [done|].
  by rewrite (proj2 (eqs_false _ _) Hi).
Qed.

(** Nobody locks themselves out: removing a passkey, with any request, leaves a
    user who had one with at least one. *)
Theorem last_passkey_stays cred_id submitted h :
  (1 ≤ users.count_credentials user.(users.id) h.(db))%nat →
  (1 ≤ users.count_credentials user.(users.id)
     (post (AccountPasskeysRemove cred_id submitted) h).2.(db))%nat.
Proof.
  intros Hc. cbn [post]. unfold remove_passkey, check_csrf, bind.
  destruct (valid submitted); [|done]. cbn. unfold refuse_if.
  destruct (users.count_credentials _ _ <=? 1)%nat eqn:Hn; [done|]. cbn.
  apply Nat.leb_gt in Hn. by apply count_without_key.
Qed.
End router.

(** ** Witnesses *)
Definition jar0 : gmap string string := {[ session.SESSION_COOKIE := "s" ]}.
Definition form0 : string :=
  session.csrf_token (H:=digest0) oauth_witness.cfg0.(config.master_key) "s".
Definition passkey0 : credential.t := {|
  credential.user_id := "u"; credential.credential_id := "c"; credential.passkey_json := "p";
  credential.name := ""; credential.created_at := 0; credential.last_used_at := None;
  credential.last_ip := None; credential.last_user_agent := None |}.
Definition user1 : users.User := users.of_row "u" user0.
Definition root1 : users.User := users.of_row "root" admin0.
Abbreviation at_fixtures f := (f oauth_witness.cfg0 "1" "src" "v" isolation.fresh0 "r" 50%Z
  (λ _ : backend.CapabilitiesSnapshot, "{}")).
Definition submit (user : users.User) (req : Request) (h : Hub) :=
  at_fixtures (post (H:=machine0) (H0:=url0) (H1:=backend.http0) (H2:=shlex0) (H3:=aead0)
    (H4:=digest0) (H5:=launch.children0)) user jar0 store.info0 req h.

Lemma forged_form_changes_nothing_witness :
  refused user1 store.info0 (submit user1 (ServersDelete "i" "guess")) (hub0 db2) ∧
  (submit user1 (ServersDelete "i" form0) (hub0 db2)).2.(db).(user_server_instances) = ∅.
Proof.
  split; [|vm_compute; reflexivity].
  apply (at_fixtures (forged_form_changes_nothing (H:=machine0) (H0:=url0) (H1:=backend.http0)
    (H2:=shlex0) (H3:=aead0) (H4:=digest0) (H5:=launch.children0))). vm_compute. reflexivity.
Defined.
Lemma web_isolation_witness :
  wf (submit user1 (ServersDelete "i" form0) (hub0 db2)).2.(db) ∧
  foreign "u" db2 (submit user1 (ServersDelete "i" form0) (hub0 db2)).2.(db).
Proof.
  destruct (at_fixtures (web_isolation (H:=machine0) (H0:=url0) (H1:=backend.http0)
    (H2:=shlex0) (H3:=aead0) (H4:=digest0) (H5:=launch.children0)) user1 jar0 store.info0
    (ServersDelete "i" form0) (hub0 db2) eq_refl wf_db2) as (Hw & _ & Hf & _).
  split; [exact Hw|exact (Hf eq_refl)].
Defined.
Lemma accepted_form_audited_witness :
  length (submit user1 (ServersDelete "i" form0) (hub0 db2)).2.(audit_log) = 1%nat.
Proof.
  destruct (at_fixtures (accepted_form_audited (H:=machine0) (H0:=url0) (H1:=backend.http0)
    (H2:=shlex0) (H3:=aead0) (H4:=digest0) (H5:=launch.children0)) user1 jar0 store.info0
    (ServersDelete "i" form0) (hub0 db2) wf_db2) as (es & Hes & _ & Hl & _).
  unfold submit. rewrite Hes. apply Hl. vm_compute. reflexivity.
Defined.
Lemma web_administrator_survives_witness :
  active_admin "root" (submit root1 (UsersDelete "u" form0) (hub0 db2)).2.(db) ∧
  (submit root1 (UsersDelete "u" form0) (hub0 db2)).2.(db).(Schema.users) !! "u" = None.
Proof.
  split; [|vm_compute; reflexivity].
  apply (at_fixtures (web_administrator_survives (H:=machine0) (H0:=url0) (H1:=backend.http0)
    (H2:=shlex0) (H3:=aead0) (H4:=digest0) (H5:=launch.children0)) root1 jar0 store.info0
    (UsersDelete "u" form0) (hub0 db2) wf_db2).
  exists admin0. repeat split; reflexivity.
Defined.
Lemma last_passkey_stays_witness :
  (1 ≤ users.count_credentials "u" (submit user1 (AccountPasskeysRemove "k" form0)
    (hub0 (set_webauthn_credentials (insert "k" passkey0) db2))).2.(db))%nat.
Proof.
  apply (at_fixtures (last_passkey_stays (H:=machine0) (H0:=url0) (H1:=backend.http0)
    (H2:=shlex0) (H3:=aead0) (H4:=digest0) (H5:=launch.children0)) user1 jar0 store.info0
    "k" form0 (hub0 (set_webauthn_credentials (insert "k" passkey0) db2))).
  vm_compute. lia.
Defined.
End router.
