(* ===== verification/Wire.v ===== *)
(** * What goes over the wire (lib.rs, auth/*.rs, oauth/*.rs)

    The cookies a browser holds and how the hub reads them, the HTTP answers the handlers'
    results become, and the layer around the router. *)

From S2P Require Import Prelude Strs Schema External Fixtures Json Html Users Oauth Sessions.
From S2P Require Import OauthStore Config AuditLog OauthServer McpAuth Webauthn Discovery Hub Web Pages.
Open Scope string_scope.
Open Scope hub_scope.

(** What the cookie crate documents of a signed jar: a cookie it signed is read back, and
    a cookie it did not sign with the key is as if it were not there. *)
Class CookieCrate := {
  cookie_sign : string → string → string → string;
  cookie_verify : string → string → string → option string;
}.
Class CookieLaws `{CookieCrate} : Prop := {
  cookie_verify_sign k n v : cookie_verify k n (cookie_sign k n v) = Some v;
  cookie_verify_signed k n w v : cookie_verify k n w = Some v → w = cookie_sign k n v;
}.
(** serde_json on text; here the fields of an object are in the order of the text. *)
Class SerdeJson := {
  json_text : json.Value → string;
  json_parse : string → option json.Value;
}.

Module wire.
Import json.

(** ** Cookies *)
Definition ceremony_cookie (id : string) (sec : bool) : session.Cookie := {|
  session.cookie_name := webauthn.CEREMONY_COOKIE; session.value := id;
  session.http_only := true; session.same_site_lax := true; session.secure := sec;
  session.path := "/"; session.max_age := Some webauthn.CEREMONY_TTL_SECS |}.
Definition clear_ceremony_cookie (sec : bool) : session.Cookie := {|
  session.cookie_name := webauthn.CEREMONY_COOKIE; session.value := "";
  session.http_only := true; session.same_site_lax := false; session.secure := sec;
  session.path := "/"; session.max_age := Some 0%Z |}.
Definition authreq_cookie (value : string) (sec : bool) : session.Cookie := {|
  session.cookie_name := authorize.AUTHREQ_COOKIE; session.value := value;
  session.http_only := true; session.same_site_lax := true; session.secure := sec;
  session.path := "/"; session.max_age := Some authorize.AUTH_CODE_TTL_SECS |}.
Definition clear_authreq_cookie (sec : bool) : session.Cookie := {|
  session.cookie_name := authorize.AUTHREQ_COOKIE; session.value := "";
  session.http_only := true; session.same_site_lax := false; session.secure := sec;
  session.path := "/"; session.max_age := Some 0%Z |}.

Definition derive_cookie_key `{Digest} (master : string) : string :=
  sha256 ("hub-cookie-1" +:+ master) +:+ sha256 ("hub-cookie-2" +:+ master).

Section jar.
Context `{CookieCrate} (key : string).
(** The cookies of a request as the browser sent them, and the jar made of them. *)
Abbreviation Browser := (gmap string string).
Definition jar_of (b : Browser) : gmap string string :=
  map_imap (λ n w, cookie_verify key n w) b.
(** A browser takes an answer's cookies: each is stored signed, or dropped. *)
Definition receive_one (b : Browser) (ck : session.Cookie) : Browser :=
  if bool_decide (ck.(session.max_age) = Some 0%Z) then delete ck.(session.cookie_name) b
  else <[ck.(session.cookie_name) :=
         cookie_sign key ck.(session.cookie_name) ck.(session.value)]> b.
Definition receive (cks : list session.Cookie) (b : Browser) : Browser :=
  fold_left receive_one cks b.
End jar.
Definition ceremony_id (jar : gmap string string) : option string :=
  jar !! webauthn.CEREMONY_COOKIE.
Definition session_id_from_parts `{CookieCrate} (key : string) (b : gmap string string)
    : option string := jar_of key b !! session.SESSION_COOKIE.

(** *** The authorization request between its two steps *)
Definition pending_json (p : authorize.PendingAuth) : Value := Object [
  ("client_id", Str p.(authorize.p_client_id));
  ("redirect_uri", Str p.(authorize.p_redirect_uri));
  ("scope", Str p.(authorize.p_scope));
  ("state", opt Str p.(authorize.p_state));
  ("code_challenge", Str p.(authorize.p_code_challenge));
  ("resource", opt Str p.(authorize.p_resource));
  ("user_id", Str p.(authorize.p_user_id))].
(** What was written is read back. *)
Class SerdeJsonLaws `{SerdeJson} : Prop :=
  json_parse_text p : json_parse (json_text (pending_json p)) = Some (pending_json p).
(** [derive(Deserialize)]: unknown fields are skipped, a repeated one is an error, an
    absent or null [Option] is [None]. *)
Definition PENDING_FIELDS : list string :=
  ["client_id"; "redirect_uri"; "scope"; "state"; "code_challenge"; "resource"; "user_id"].
Definition str_field (o : JsonObject) (k : string) : option string := v ← json.get o k; as_str v.
Definition opt_field (o : JsonObject) (k : string) : option (option string) :=
  match json.get o k with
  | None | Some Null => Some None
  | Some v => Some <$> as_str v
  end.
Definition pending_of_json (v : Value) : option authorize.PendingAuth :=
  o ← as_object v;
  if decide (NoDup (filter (λ k, k ∈ PENDING_FIELDS) (fst <$> o))) then
    cid ← str_field o "client_id"; uri ← str_field o "redirect_uri"; sc ← str_field o "scope";
    st ← opt_field o "state"; ch ← str_field o "code_challenge"; res ← opt_field o "resource";
    uid ← str_field o "user_id";
    Some {| authorize.p_client_id := cid; authorize.p_redirect_uri := uri;
            authorize.p_scope := sc; authorize.p_state := st; authorize.p_code_challenge := ch;
            authorize.p_resource := res; authorize.p_user_id := uid |}
  else None.
Definition authreq_of `{SerdeJson} (jar : gmap string string) : authorize.AuthReq :=
  match jar !! authorize.AUTHREQ_COOKIE with
  | None => authorize.no_authreq
  | Some raw =>
      match v ← json_parse raw; pending_of_json v with
      | Some p => authorize.authreq p
      | None => authorize.bad_authreq
      end
  end.

(** ** Answers *)
Inductive Body := HtmlBody (text : string) | TextBody (text : string) | JsonBody (v : Value) | NoBody.
Record Response := {
  status : Z; headers : list (string * string); cookies : list session.Cookie; body : Body }.
Definition answer (st : Z) (b : Body) : Response :=
  {| status := st; headers := []; cookies := []; body := b |}.
(** [(jar, response)]. *)
Definition with_cookies (cks : list session.Cookie) (r : Response) : Response := {|
  status := r.(status); headers := r.(headers); cookies := r.(cookies) ++ cks; body := r.(body) |}.
(** [Redirect::to]. *)
Definition redirect_to (target : string) : Response :=
  {| status := 303; headers := [("location", target)]; cookies := []; body := NoBody |}.

Definition api_error (e : webauthn.ApiError) : Response :=
  answer e.(webauthn.status) (JsonBody (object [("error", Str e.(webauthn.message))])).
Definition oauth_error (e : oauth.OAuthError) : Response :=
  answer e.(oauth.status) (JsonBody (object [
    ("error", Str e.(oauth.error)); ("error_description", Str e.(oauth.error_description))])).
Definition login_redirect : Response := redirect_to "/login".
Definition of_web (r : web.Response) : Response :=
  match r with
  | web.Redirect target => redirect_to target
  | web.Page st text => answer st (HtmlBody text)
  end.

(** *** Ceremonies *)
Section endpoints.
Context (c : config.Config).
Abbreviation sec := (config.cookie_secure c).
(** The id of the ceremony goes into its cookie; the challenge is webauthn-rs'. *)
Definition started (challenge : Value) (r : result webauthn.ApiError string) : Response :=
  match r with
  | Ok cid => with_cookies [ceremony_cookie cid sec] (answer 200 (JsonBody challenge))
  | Err e => api_error e
  end.
Definition FinishResponse (redirect : string) : Value :=
  object [("ok", Bool true); ("redirect", Str redirect)].
Definition finished (r : result webauthn.ApiError webauthn.Finish) : Response :=
  match r with
  | Ok f => with_cookies [session.session_cookie f.(webauthn.sid) sec; clear_ceremony_cookie sec;
                          session.clear_next_cookie sec]
              (answer 200 (JsonBody (FinishResponse f.(webauthn.redirect))))
  | Err e => api_error e
  end.
Definition logged_out (done : bool) : Response :=
  if done then with_cookies [session.clear_session_cookie sec] login_redirect
  else answer 403 (TextBody "invalid security token").
(** The sign-in pages: a cookie for the way back, and the page. *)
Definition sign_in_page (r : option session.Cookie * web.Response) : Response :=
  with_cookies (option_list r.1) (of_web r.2).

(** *** OAuth *)
(** The text of a parsed URL with pairs appended to its query is the url crate's. *)
Context `{Digest} `{SerdeJson} (with_query : string → list (string * string) → string).
Definition authorization_error (msg : string) : string := html.html
  ("<!doctype html><meta charset=utf-8><title>Authorization error</title>" +:+
   "<body style='font-family:system-ui;max-width:32rem;margin:4rem auto'>" +:+
   "<h1>Authorization error</h1><p>") +:+ html.replace html.LT "&lt;" msg +:+ "</p></body>".
Definition authorize_response (jar : gmap string string) (r : authorize.Response) : Response :=
  match r with
  | authorize.error_page msg => answer 200 (HtmlBody (authorization_error msg))
  | authorize.oauth_error e => oauth_error e
  | authorize.redirect uri params => redirect_to (with_query uri params)
  | authorize.login next => redirect_to ("/login?next=" +:+ authorize.urlencode next)
  | authorize.Consent name handle pending =>
      with_cookies [authreq_cookie (json_text (pending_json pending)) sec]
        (answer 200 (HtmlBody (consent.consent_html name pending.(authorize.p_scope) handle
           (pages.csrf_field jar c.(config.master_key)))))
  end.
Definition decision_response (jar : gmap string string) (r : bool * authorize.Response) : Response :=
  with_cookies (if r.1 then [clear_authreq_cookie sec] else []) (authorize_response jar r.2).
Definition token_json (r : token.TokenResponse) : Value := object [
  ("access_token", Str r.(token.access_token)); ("token_type", Str r.(token.token_type));
  ("expires_in", num r.(token.expires_in));
  ("refresh_token", Str r.(token.new_refresh_token)); ("scope", Str r.(token.scope))].
Definition token_response (r : result oauth.OAuthError token.TokenResponse) : Response :=
  match r with
  | Ok t => {| status := 200; headers := [("cache-control", "no-store")]; cookies := [];
               body := JsonBody (token_json t) |}
  | Err e => oauth_error e
  end.
Definition registration_json (r : register.RegistrationResponse) : Value := object ([
  ("client_id", Str r.(register.r_client_id));
  ("client_id_issued_at", num r.(register.r_issued_at));
  ("redirect_uris", strs r.(register.r_redirect_uris));
  ("token_endpoint_auth_method", Str r.(register.r_auth_method));
  ("grant_types", strs r.(register.r_grant_types));
  ("response_types", strs r.(register.r_response_types));
  ("client_name", opt Str r.(register.r_client_name)); ("scope", opt Str r.(register.r_scope))] ++
  match r.(register.r_client_secret) with
  | Some s => [("client_secret", Str s);
               ("client_secret_expires_at", opt num r.(register.r_secret_expires_at))]
  | None => []
  end).
Definition registration_response (r : result oauth.OAuthError register.RegistrationResponse)
    : Response :=
  match r with Ok b => answer 201 (JsonBody (registration_json b)) | Err e => oauth_error e end.
Definition metadata_response (doc : option Value) : Response :=
  match doc with Some v => answer 200 (JsonBody v) | None => answer 404 NoBody end.
(** The bearer check's own answers; a forwarded request is answered by rmcp's service. *)
Definition mcp_response (service : proxy.McpEndpoint → proxy.AuthedUser → Z * Body)
    (o : proxy.Outcome) : Response :=
  match o with
  | proxy.Forward ep u => answer (proxy.session_expiry_to_404 (service ep u).1) (service ep u).2
  | proxy.NotFound => answer 404 NoBody
  | proxy.Unauthorized _ challenge => {|
      status := 401; headers := [("www-authenticate", challenge)]; cookies := [];
      body := TextBody "authentication required" |}
  end.
End endpoints.

(** ** The layer around the router *)
Definition overriding (name value : string) (r : Response) : Response := {|
  status := r.(status);
  headers := filter (λ h, h.1 ≠ name) r.(headers) ++ [(name, value)];
  cookies := r.(cookies); body := r.(body) |}.
Definition CSP : string :=
  "default-src 'self'; script-src 'self'; style-src 'self' 'unsafe-inline'; " +:+
  "img-src 'self' data:; frame-ancestors 'none'; base-uri 'none'; object-src 'none'".
Definition secured (r : Response) : Response :=
  overriding "x-frame-options" "DENY" (overriding "x-content-type-options" "nosniff"
    (overriding "referrer-policy" "no-referrer"
      (overriding "content-security-policy" CSP r))).

(** ** Facts: cookies *)
Section cookies.
Context `{CookieCrate} `{!CookieLaws} (key : string).
Lemma jar_of_lookup b n :
  jar_of key b !! n = (w ← b !! n; cookie_verify key n w).
Proof. unfold jar_of. by rewrite map_lookup_imap. Qed.
(** What a browser brings back of a cookie it was given. *)
Definition kept_value (ck : session.Cookie) : option string :=
  if bool_decide (ck.(session.max_age) = Some 0%Z) then None else Some ck.(session.value).
Lemma jar_of_receive_one b ck n :
  jar_of key (receive_one key b ck) !! n =
  if eqs n ck.(session.cookie_name) then kept_value ck else jar_of key b !! n.
Proof.
  rewrite !jar_of_lookup. unfold receive_one, kept_value. destruct (bool_decide _).
  - destruct (eqs n _) eqn:E.
    + apply eqs_true in E as ->. by rewrite lookup_delete_eq.
    + apply eqs_false in E. by rewrite lookup_delete_ne.
  - destruct (eqs n _) eqn:E.
    + apply eqs_true in E as ->. rewrite lookup_insert_eq. cbn. apply cookie_verify_sign.
    + apply eqs_false in E. by rewrite lookup_insert_ne.
Qed.
(** The last cookie of a name decides. *)
Lemma jar_of_receive b cks n :
  jar_of key (receive key cks b) !! n =
  match find (λ ck, eqs n ck.(session.cookie_name)) (rev cks) with
  | Some ck => kept_value ck
  | None => jar_of key b !! n
  end.
Proof.
  unfold receive. rewrite <- fold_left_rev_right.
  induction (rev cks) as [|ck l IH]; [done|]. cbn [fold_right find].
  rewrite jar_of_receive_one. by destruct (eqs n _).
Qed.
End cookies.

(** The stashed authorization request survives its trip through the browser, and nothing
    a browser makes up is taken for one: a request that the decision acts on is the text of
    a cookie signed with the hub's key. *)
Theorem authorization_request_round_trip `{CookieCrate} `{!CookieLaws} `{SerdeJson}
    `{!SerdeJsonLaws} key b p sec :
  authreq_of (jar_of key (receive key [authreq_cookie (json_text (pending_json p)) sec] b)) =
    authorize.authreq p ∧
  (∀ q, authreq_of (jar_of key b) = authorize.authreq q →
     ∃ text, b !! authorize.AUTHREQ_COOKIE = Some (cookie_sign key authorize.AUTHREQ_COOKIE text) ∧
       (v ← json_parse text; pending_of_json v) = Some q) ∧
  authreq_of (jar_of key (receive key [clear_authreq_cookie sec] b)) = authorize.no_authreq.
Proof.
  split_and!.
  - unfold authreq_of. rewrite jar_of_receive.
    change (find _ _) with (Some (authreq_cookie (json_text (pending_json p)) sec)).
    cbv beta iota. change (kept_value _) with (Some (json_text (pending_json p))). cbv iota.
    rewrite json_parse_text. by destruct p as [cid uri sc [st|] ch [res|] uid].
  - intros q. unfold authreq_of. rewrite jar_of_lookup.
    destruct (b !! _) as [w|]; cbn [mbind option_bind]; [|done].
    destruct (cookie_verify _ _ _) as [text|] eqn:Ev; [|done]. intros Hq. exists text.
    apply cookie_verify_signed in Ev as ->. split; [done|].
    destruct (v ← json_parse text; pending_of_json v); [|done]. by injection Hq as ->.
  - unfold authreq_of. by rewrite jar_of_receive.
Qed.

(** ** Facts: answers *)
Definition sealed (c : config.Config) (ck : session.Cookie) : Prop :=
  ck.(session.http_only) = true ∧ ck.(session.secure) = config.cookie_secure c ∧
  ck.(session.path) = "/" ∧ (ck.(session.same_site_lax) = true ∨ ck.(session.max_age) = Some 0%Z).
Definition header (name : string) (r : Response) : list string :=
  snd <$> filter (λ h, h.1 = name) r.(headers).
Lemma header_overriding name value n r :
  header n (overriding name value r) = if eqs n name then [value] else header n r.
Proof.
  unfold header, overriding. cbn [headers]. rewrite filter_app, fmap_app.
  rewrite list_filter_filter. destruct (eqs n name) eqn:E.
  - apply eqs_true in E as ->. rewrite filter_cons_True by done. cbn.
    assert (filter (λ h : string * string, h.1 = name ∧ h.1 ≠ name) (headers r) = []) as ->; [|done].
    induction (headers r) as [|h l IH]; [done|]. rewrite filter_cons_False by naive_solver. done.
  - apply eqs_false in E. rewrite filter_cons_False by (cbn; congruence). cbn. rewrite app_nil_r.
    f_equal. apply list_filter_iff. naive_solver.
Qed.
End wire.
