(* ===== verification/Views.v ===== *)
(** * Every page the browser gets (lib.rs [build_router], web.rs)

    The [GET] pages of a signed-in user, the pages of a visitor and the answers to the
    forms: whatever the names, notes, addresses and errors in them, each is a properly
    nested sequence of elements.  The one exception is the title of the two server pages. *)

From S2P Require Import Prelude Strs Trim Schema External Fixtures Json Html Markup Users Invites.
From S2P Require Import Sessions Tokens Access Groups GitCreds Config Instances InstanceText OauthStore.
From S2P Require Import Status AuditLog Sandbox Backend Gitsrc Pool Hub Launch Server Management.
From S2P Require Import Web Router Pages AccountPages OauthServer Isolation Launch Discovery.
Open Scope string_scope.
Open Scope hub_scope.

Module views.
Import hub html web scanner pages account_pages.

(** The [GET] routes of the browser pages. *)
Inductive View :=
| Dashboard | ServersNew | Servers (iid : string) | ServersCapabilities (iid : string)
| Account | Invites | Users | Stats (free_slots sessions : Z).

Section views.
Context `{Machine} `{UrlCrate} `{HttpCrate} `{Shlex} `{Aead} `{Digest} `{launch.Children} `{Rmcp}.
Context (c : config.Config) (asset_ver source_url version : string).
Context (fresh : management.Drawn) (random : string) (now : Z)
  (snapshot_json : backend.CapabilitiesSnapshot → string).
Abbreviation h1 f := (f c asset_ver source_url version).

Definition get (v : View) (user : users.User) (jar : gmap string string) (h : Hub) : Response :=
  match v with
  | Dashboard => h1 dashboard user jar h
  | ServersNew => h1 new_server jar
  | Servers iid => h1 server_detail now user jar iid h
  | ServersCapabilities iid => h1 server_capabilities now user jar iid h
  | Account => h1 account_page now user jar h
  | Invites => h1 invites_page user jar h
  | Users => h1 users_page user jar h
  | Stats free_slots sessions => h1 stats_page now free_slots sessions user jar h
  end.

(** ** Facts *)
(** A path of this host. *)
Definition local (target : string) : bool :=
  starts_with "/" target && negb (starts_with "//" target).
Definition good (r : Response) : Prop :=
  match r with Page _ body => balanced body = true | Redirect target => local target = true end.
(** The title of a server's pages is its display name, as it was typed. *)
Definition plain_title (v : View) (user : users.User) (h : Hub) : Prop :=
  match v with
  | Servers iid | ServersCapabilities iid => ∀ i,
      instances.get_owned iid user.(users.id) h.(db) = Some i → inert i.(instances.display_name)
  | _ => True
  end.

Context `{!DigestLaws} (Hasset : inert asset_ver) (Hversion : inert version).
Lemma inert_b64url s : str_all is_b64url s = true → inert s.
Proof.
  unfold inert. induction s as [|ch s IH]; [done|]. cbn [str_all markup]. intros [Hc Hs]%andb_true_iff.
  rewrite (IH Hs). revert Hc. by destruct ch as [[] [] [] [] [] [] [] []].
Qed.
Lemma fragment_csrf_field jar key : fragment (csrf_field jar key).
Proof.
  intros st. unfold csrf_field, session.csrf_for, session.csrf_token.
  destruct (session.current_session_id jar) as [sid|]; cbn [fmap option_fmap option_map]; [|done].
  assert (∀ s, inert (b64url_encode s)) as Hb by (intros s; apply inert_b64url, b64url_alphabet).
  follow.
Qed.
Lemma shell title class body : inert title → inert class → fragment body →
  balanced (page_with asset_ver source_url version title body class) = true.
Proof.
  intros Ht Hc Hb. unfold balanced.
  assert (flow (page_with asset_ver source_url version title body class) (Text, []) (Text, [])) as ->;
    [|done].
  unfold page_with. follow.
Qed.

(** *** Pages *)
Lemma good_page title body :
  inert title → fragment body → good (Page 200 (page asset_ver source_url version title body)).
Proof. intros Ht Hb. by apply shell. Qed.
Lemma good_page_wide title body :
  inert title → fragment body → good (Page 200 (page_wide asset_ver source_url version title body)).
Proof. intros Ht Hb. by apply shell. Qed.
Lemma good_error_page msg : good (error_page asset_ver source_url version msg).
Proof. apply shell; [done..|]. intros st. unfold back. follow. Qed.
Lemma good_forbidden : good (forbidden asset_ver source_url version).
Proof. apply shell; [done..|]. intros st. unfold back. follow. Qed.
Lemma good_admin_forbidden : good (admin_forbidden asset_ver source_url version).
Proof. apply shell; [done..|]. intros st. unfold back. follow. Qed.
Hint Resolve fragment_csrf_field good_error_page : html.
Lemma good_dashboard user jar h : good (h1 dashboard user jar h).
Proof.
  apply good_page_wide; [done|]. intros st. pose proof fragment_server_rows.
  pose proof fragment_groups_section. follow.
Qed.
Lemma good_new_server jar : good (h1 new_server jar).
Proof. apply good_page; [done|]. intros st. pose proof fragment_server_fields. follow. Qed.
Lemma good_owned user iid h k :
  (∀ i def, instances.get_owned iid user.(users.id) h.(db) = Some i → good (k (i, def))) →
  good match owned_with_def asset_ver source_url version user iid h with
       | Err r => r | Ok p => k p end.
Proof.
  intros Hk. unfold owned_with_def.
  destruct (instances.get_owned _ _ _) as [i|]; [|apply good_error_page].
  destruct ((instances.resolve_def i (db h)).1); [by apply Hk|apply good_error_page].
Qed.
Lemma good_get v user jar h : plain_title v user h → good (get v user jar h).
Proof.
  destruct v; cbn [get plain_title]; intros Ht.
  - apply good_dashboard.
  - apply good_new_server.
  - apply (good_owned user iid h (λ p, let '(i, def) := p in Page 200 (page_wide asset_ver
      source_url version i.(instances.display_name)
      (server_body c now (csrf_field jar c.(config.master_key)) user.(users.id) i def h)))).
    intros i def Hi. apply good_page_wide; [by apply Ht|].
    apply fragment_server_body, fragment_csrf_field.
  - apply (good_owned user iid h (λ p, let '(i, def) := p in Page 200 (page_wide asset_ver
      source_url version i.(instances.display_name)
      (capabilities_body now (csrf_field jar c.(config.master_key)) i def h)))).
    intros i def Hi. apply good_page_wide; [by apply Ht|].
    apply fragment_capabilities_body, fragment_csrf_field.
  - apply good_page_wide; [done|]. apply fragment_account_body, fragment_csrf_field.
  - unfold invites_page. destruct (users.is_admin user); [|apply good_admin_forbidden].
    apply good_page_wide; [done|]. apply fragment_invites_body, fragment_csrf_field.
  - unfold users_page. destruct (users.is_admin user); [|apply good_admin_forbidden].
    apply good_page_wide; [done|]. apply fragment_users_body, fragment_csrf_field.
  - unfold stats_page. destruct (users.is_admin user); [|apply good_admin_forbidden].
    apply good_page_wide; [done|]. apply fragment_stats_body, fragment_csrf_field.
Qed.

Lemma good_redirect to : local to = true → good (Redirect to).
Proof. done. Qed.
(** *** Answers to forms *)
Create HintDb reply.
(** What a handler's run yields satisfies [P]; an early answer is a good page. *)
Definition answers {A} (P : A → Prop) (m : M Hub Response A) : Prop := ∀ h,
  match (m h).1 with Ok a => P a | Err r => good r end.
Abbreviation steps m := (answers (λ _, True) m).
Lemma answers_bind {A B} (P : B → Prop) (m : M Hub Response A) k :
  steps m → (∀ a, answers P (k a)) → answers P (bind m k).
Proof.
  intros Hm Hk h. specialize (Hm h). unfold bind.
  destruct (m h) as [[a|e] h']; [apply Hk|exact Hm].
Qed.
Lemma answers_ret {A} (P : A → Prop) a : P a → answers P (ret a).
Proof. by intros Ha h. Qed.
Lemma answers_fail {A} (P : A → Prop) r : good r → answers P (fail r).
Proof. by intros Hr h. Qed.
Lemma answers_map_err {E A} (f : E → Response) (m : M Hub E A) :
  (∀ e, good (f e)) → steps (map_err f m).
Proof. intros Hf h. unfold map_err. destruct (m h) as [[a|e] h']; [done|apply Hf]. Qed.
Lemma answers_ok_or {A} (o : option A) r : good r → steps (ok_or o r).
Proof. intros Hr. destruct o; [by apply answers_ret|by apply answers_fail]. Qed.
Lemma answers_refuse_if b r : good r → steps (refuse_if b r).
Proof. intros Hr. destruct b; [by apply answers_fail|by apply answers_ret]. Qed.
Lemma answers_ignore {F A} (m : M Hub F A) : steps (ignore m).
Proof. by intros h. Qed.
Lemma answers_catch {E A B} (P : B → Prop) (m : M Hub E A) k :
  (∀ r, answers P (k r)) → answers P (catch m k).
Proof. intros Hk h. apply Hk. Qed.
Lemma answers_read {A} (f : Db → A) : steps (read f).
Proof. by intros h. Qed.
Lemma answers_audit e : steps (audit e).
Proof. by intros h. Qed.
Lemma answers_audit_ok u i a o : steps (audit_ok u i a o).
Proof. by intros h. Qed.
Lemma answers_audit_denied u i a o r : steps (audit_denied u i a o r).
Proof. by intros h. Qed.
Lemma answers_notify uid : steps (notify_tools_changed uid).
Proof. by intros h. Qed.
Lemma answers_restart iid uid : steps (restart_backend iid uid).
Proof. by intros h. Qed.
Lemma answers_status_set iid s d t : steps (on_status (status.set iid s d t)).
Proof. by intros h. Qed.
Lemma answers_status_remove iid : steps (on_status (status.remove iid)).
Proof. by intros h. Qed.
Lemma answers_changed u : steps (servers_changed u).
Proof. by intros h. Qed.
Lemma answers_probe t uid inst : steps (launch.probe_instance c t uid inst).
Proof. by intros h. Qed.
Hint Resolve answers_ret answers_fail answers_map_err answers_ok_or answers_refuse_if answers_ignore
  answers_read answers_audit answers_audit_ok answers_audit_denied answers_notify answers_restart answers_status_set
  answers_status_remove answers_changed answers_probe good_redirect good_error_page good_forbidden
  good_admin_forbidden I : reply.
Hint Extern 1 (local _ = true) => reflexivity : reply.
Ltac reply := repeat first
  [ solve [auto with reply]
  | apply answers_bind; [|intros ?]
  | apply answers_catch; intros ?
  | match goal with |- answers _ (match ?x with _ => _ end) => destruct x end ].
Abbreviation W m := (answers good m).

Context (user : users.User) (jar : gmap string string) (info : users.RequestInfo).
Lemma answers_csrf a o s : steps (h1 check_csrf user jar info a o s).
Proof. unfold check_csrf. reply. Qed.
Lemma answers_csrf_silently s : steps (h1 check_csrf_silently jar s).
Proof. unfold check_csrf_silently. reply. Qed.
Lemma answers_admin a o : steps (check_admin asset_ver source_url version user info a o).
Proof. unfold check_admin. reply. Qed.
Lemma answers_or_error {A} (m : M Hub anyhow A) : steps (or_error asset_ver source_url version m).
Proof. unfold or_error. reply. Qed.
Lemma answers_owned iid : steps (owned_instance asset_ver source_url version user iid).
Proof. unfold owned_instance. reply. Qed.
Lemma answers_group gid : steps (owned_group asset_ver source_url version user gid).
Proof. unfold owned_group. reply. Qed.
Lemma answers_connected cid : steps (connected asset_ver source_url version now user cid).
Proof. unfold connected. reply. Qed.
Lemma answers_target a hd s : steps (h1 resolve_admin_target user jar info a hd s).
Proof. unfold resolve_admin_target. reply. all: try apply answers_csrf; try apply answers_admin. Qed.
Hint Resolve answers_csrf answers_csrf_silently answers_admin answers_or_error answers_owned
  answers_group answers_connected answers_target : reply.
Lemma answers_audited a o m :
  steps (audited asset_ver source_url version user info a o m).
Proof. unfold audited. reply. Qed.
Hint Resolve answers_audited : reply.
Lemma answers_post req :
  W (router.post c asset_ver source_url version fresh random now snapshot_json user jar info req).
Proof.
  destruct req; cbn [router.post].
  all: unfold remove_passkey, revoke_other_sessions, revoke_connection, update_connection_label,
    update_connection_access, create_token, revoke_token, update_token_access,
    save_git_credential, delete_git_credential, regenerate_metrics_key, disable_user, enable_user,
    delete_user, create_server, refresh_capabilities, save_config, test_server, enable_server,
    disable_server, set_enabled_and_redirect, restart_server, update_server, delete_server,
    create_group, update_group, delete_group, create_invite, create_recovery, revoke_invite,
    record_probe, restart_if_enabled, to_server.
  all: reply.
  all: apply answers_ret, good_page; [done|]; intros st; follow.
Qed.

Lemma good_visit next :
  good (login_page c asset_ver source_url version None next).2 ∧
  good (register_page c asset_ver source_url version None next).2 ∧
  good (recover_page asset_ver source_url version None).
Proof.
  split_and!; apply good_page; try done; intros st; unfold login_body, register_body; follow.
Qed.

(** C29: no page can be broken from inside.  Whatever stands in the hub — names, notes,
    namespaces, addresses, error texts, tool descriptions — and whatever was submitted,
    every page a signed-in user is shown, every answer to a form, the pages of a visitor
    and the consent page are a sequence of
    properly nested elements with quoted attributes: data are text or attribute values,
    never markup; and a redirect leads to a path of the hub.  The two pages of one server need a display name without delimiters,
    for they put it in their title as it is. *)
Theorem pages_well_formed v req h :
  plain_title v user h →
  good (get v user jar h) ∧
  W (router.post c asset_ver source_url version fresh random now snapshot_json user jar info req) ∧
  (∀ next, good (login_page c asset_ver source_url version None next).2 ∧
     good (register_page c asset_ver source_url version None next).2 ∧
     good (recover_page asset_ver source_url version None)) ∧
  (∀ name scope handle, balanced (consent.consent_html name scope handle
     (csrf_field jar c.(config.master_key))) = true) ∧
  (∀ status body, get v user jar h = Page status body → nested (tags body (Text, []))).
Proof.
  intros Ht. split_and!; [by apply good_get|apply answers_post|apply good_visit| |].
  { intros name scope handle. apply consent.consent_balanced, fragment_csrf_field. }
  intros status body Hb. apply balanced_nested. pose proof (good_get v user jar h Ht) as Hg.
  by rewrite Hb in Hg.
Qed.

(** The title of a server's pages repeats the display name byte for byte, between
    the shell's opening and its closing: a name with tags in it puts them in the page. *)
Theorem server_title_raw iid h i def :
  instances.get_owned iid user.(users.id) h.(db) = Some i →
  instances.custom_def i = Some def →
  ∃ before after, get (Servers iid) user jar h =
    Page 200 (before +:+ i.(instances.display_name) +:+ after) ∧
    flow before (Text, []) (Text, ["title"; "head"; "html"]).
Proof.
  intros Hi Hd. cbn [get]. unfold server_detail, owned_with_def. rewrite Hi.
  unfold instances.resolve_def. rewrite Hd. cbn. unfold page_wide, page_with. eexists _, _.
  split; [reflexivity|]. reflexivity.
Qed.
End views.
End views.

(** ** A server whose name is a script *)
Module views_witness.
Import hub web router views launch.
#[local] Existing Instances machine0 url0 backend.http0 shlex0 aead0 digest1 digest1_laws launch.children0.
#[local] Instance rmcp0 : Rmcp := {|
  server_fields_of := λ _, {| info_name := "n"; info_title := None; info_version := "1";
    protocol := "p"; instructions := None; tools_cap := None; prompts_cap := None;
    resources_cap := None; logging_cap := false; completions_cap := false;
    experimental_cap := false |};
  tool_fields := λ _, {| tool_title := None; tool_description := None; tool_input := "{}";
    tool_output := None; tool_annotations := None |};
  prompt_fields := λ _, (None, None);
  resource_fields := λ _, ("r", None);
  template_fields := λ _, ("t", None);
  parse_snapshot_json := λ _, None |}.
Definition script : string := "</title><script>alert(1)//".
Definition named (display : string) : instance.t := {|
  instance.user_id := "u"; instance.custom_def := Some stdio_def; instance.namespace := "fs";
  instance.display_name := display; instance.enabled := true; instance.config := ∅;
  instance.built_commit := None; instance.build_status := "ready";
  instance.capabilities_json := None; instance.created_at := 5 |}.
Definition hub_of (display : string) : Hub :=
  hub0 (set_user_server_instances (insert "i" (named display)) db1).
Abbreviation page_of v display :=
  (get oauth_witness.cfg0 "1" "src" "v" 50 v user1 jar0 (hub_of display)).

(** The dashboard and the server's own page are well nested; on the second a name with a
    tag in it is not. *)
Lemma pages_well_formed_witness :
  good (page_of Dashboard script) ∧ good (page_of (Servers "i") "My files") ∧
  ¬ good (page_of (Servers "i") script).
Proof.
  split_and!.
  - refine (proj1 (pages_well_formed oauth_witness.cfg0 "1" "src" "v" isolation.fresh0 "r" 50%Z
      (λ _ : backend.CapabilitiesSnapshot, "{}") eq_refl eq_refl user1 jar0 store.info0 Dashboard
      (ServersDelete "i" "") (hub_of script) I)).
  - refine (proj1 (pages_well_formed oauth_witness.cfg0 "1" "src" "v" isolation.fresh0 "r" 50%Z
      (λ _ : backend.CapabilitiesSnapshot, "{}") eq_refl eq_refl user1 jar0 store.info0 (Servers "i")
      (ServersDelete "i" "") (hub_of "My files") _)).
    intros i Hi. vm_compute in Hi. injection Hi as <-. reflexivity.
  - vm_compute. discriminate.
Defined.
End views_witness.
