(* ===== verification/Secrecy.v ===== *)
(** * What the pages of one user reveal of the others

    Two hubs that agree on a user's own rows, on the state of their own servers and on
    their own built environments show that user the same pages: nothing on them depends
    on anybody else. *)

From S2P Require Import Prelude Strs Trim Schema External Fixtures Json Util Html Users Sessions Groups.
From S2P Require Import GitCreds Config Instances InstanceText Status AuditLog Sandbox Backend Gitsrc Pool.
From S2P Require Import Tenancy Hub Launch OauthServer Web Pages Router Views.
Open Scope string_scope.
Open Scope hub_scope.

Module secrecy.
Import hub html web pages tenancy views.

(** ** Ordered queries *)
Lemma leb_trans a b c :
  String.leb a b = true → String.leb b c = true → String.leb a c = true.
Proof.
  unfold String.leb. revert b c. induction a as [|x a IH]; intros b c; [by destruct c|].
  destruct b as [|y b]; [done|]. destruct c as [|z c]; [done|]. specialize (IH b c).
  cbn. unfold Ascii.compare.
  destruct (N.compare_spec (Ascii.N_of_ascii x) (Ascii.N_of_ascii y)),
    (N.compare_spec (Ascii.N_of_ascii y) (Ascii.N_of_ascii z)),
    (N.compare_spec (Ascii.N_of_ascii x) (Ascii.N_of_ascii z)); try done; try lia; exact IH.
Qed.
#[local] Instance by_text_trans {A} (f : A → string) : Transitive (by_text f).
Proof. intros x y z. apply leb_trans. Qed.
#[local] Instance by_text_total {A} (f : A → string) : Total (by_text f).
Proof. intros x y. apply String.leb_total. Qed.
(** [ORDER BY f] is one list when [f] tells the rows apart. *)
Lemma ordered_same {A} (f : A → string) l l' :
  (∀ x y, x ∈ l → y ∈ l → f x = f y → x = y) → l ≡ₚ l' →
  merge_sort (by_text f) l = merge_sort (by_text f) l'.
Proof.
  intros Hf Hp. apply StronglySorted_unique_strong with (R := by_text f).
  - intros x y. rewrite !merge_sort_Permutation, <- Hp. intros Hx Hy Hxy Hyx.
    apply Hf; [done..|]. by apply String.leb_antisym.
  - apply StronglySorted_merge_sort; apply _.
  - apply StronglySorted_merge_sort; apply _.
  - by rewrite !merge_sort_Permutation.
Qed.
Lemma rows_same {K A} `{Countable K} (P : K → A → Prop) (Q : K * A → Prop) `{∀ x, Decision (Q x)}
    (t t' : gmap K A) :
  same_rows P t t' → (∀ k r, Q (k, r) → P k r) →
  filter Q (map_to_list t) ≡ₚ filter Q (map_to_list t').
Proof.
  intros Hs HQ. apply NoDup_Permutation; [by apply NoDup_filter, NoDup_map_to_list..|].
  intros [k r]. rewrite !list_elem_of_filter, !elem_of_map_to_list. split; intros [Hq Hr].
  - split; [done|]. by apply Hs; [apply HQ|].
  - split; [done|]. by apply (Hs k r (HQ _ _ Hq)).
Qed.

(** ** Two hubs a user cannot tell apart *)
Definition mine (uid : string) (d : Db) (iid : string) : Prop :=
  ∃ r, d.(user_server_instances) !! iid = Some r ∧ r.(instance.user_id) = uid.
Definition my_group (uid : string) (d : Db) (gid : string) : Prop :=
  ∃ r, d.(connector_groups) !! gid = Some r ∧ r.(group.user_id) = uid.
Record same_view (c : config.Config) (uid : string) (h h' : Hub) : Prop := {
  v_instances : same_rows (λ _ r, r.(instance.user_id) = uid)
    h.(db).(user_server_instances) h'.(db).(user_server_instances);
  v_secrets : same_rows (λ k _, mine uid h.(db) k.1)
    h.(db).(instance_secrets) h'.(db).(instance_secrets);
  v_config : same_rows (λ k _, mine uid h.(db) k)
    h.(db).(instance_config_files) h'.(db).(instance_config_files);
  v_groups : same_rows (λ _ r, r.(group.user_id) = uid)
    h.(db).(connector_groups) h'.(db).(connector_groups);
  v_members : same_rows (λ k _, my_group uid h.(db) k.1)
    h.(db).(connector_group_members) h'.(db).(connector_group_members);
  v_git : same_rows (λ _ r, r.(git_credential.user_id) = uid)
    h.(db).(git_credentials) h'.(db).(git_credentials);
  v_status iid : mine uid h.(db) iid →
    status.get iid h.(runtime_status) = status.get iid h'.(runtime_status);
  v_built iid : mine uid h.(db) iid →
    gitsrc.exists_ h.(files) (gitsrc.env_path c.(config.env_dir) iid) =
    gitsrc.exists_ h'.(files) (gitsrc.env_path c.(config.env_dir) iid) }.

Lemma same_lookup {A} (P : string → A → Prop) (t t' : gmap string A) k :
  same_rows P t t' → (∀ r, P k r) → t !! k = t' !! k.
Proof.
  intros Hs HP. destruct (t !! k) as [r|] eqn:E.
  - symmetry. by apply (Hs k r (HP r)).
  - destruct (t' !! k) as [r|] eqn:E'; [|done]. apply (Hs k r (HP r)) in E'. congruence.
Qed.

Section views.
Context `{UrlCrate} `{Shlex} `{Aead} `{Digest} `{Rmcp}.
Context (c : config.Config) (uid : string) (h h' : Hub).
Context (Hwf : wf h.(db)) (Hv : same_view c uid h h').

Lemma mine_lookup iid :
  mine uid h.(db) iid →
  h.(db).(user_server_instances) !! iid = h'.(db).(user_server_instances) !! iid.
Proof.
  intros (r & Hr & Hu). rewrite Hr. symmetry. by apply (v_instances _ _ _ _ Hv iid r Hu).
Qed.
Lemma same_list : instances.list_for_user uid h.(db) = instances.list_for_user uid h'.(db).
Proof.
  unfold instances.list_for_user. apply ordered_same.
  - intros x y. rewrite !list_elem_of_fmap.
    intros ([k r] & -> & [Hu Hr]%list_elem_of_filter) ([j s] & -> & [Hu' Hs]%list_elem_of_filter).
    apply elem_of_map_to_list in Hr, Hs. cbn in *. intros Hn.
    assert (k = j) as <- by (eapply (wf_inst_ns _ Hwf); [exact Hr|exact Hs|congruence]).
    congruence.
  - apply Permutation_map, (rows_same (λ _ r, r.(instance.user_id) = uid)); [apply Hv|done].
Qed.
Lemma same_groups : groups.list_for_user uid h.(db) = groups.list_for_user uid h'.(db).
Proof.
  unfold groups.list_for_user. apply ordered_same.
  - intros x y. rewrite !list_elem_of_fmap.
    intros ([k r] & -> & [Hu Hr]%list_elem_of_filter) ([j s] & -> & [Hu' Hs]%list_elem_of_filter).
    apply elem_of_map_to_list in Hr, Hs. cbn in *. intros Hn.
    assert (k = j) as <- by (eapply (wf_group_slug _ Hwf); [exact Hr|exact Hs|congruence]).
    congruence.
  - apply Permutation_map, (rows_same (λ _ r, r.(group.user_id) = uid)); [apply Hv|done].
Qed.
Lemma same_members gid :
  my_group uid h.(db) gid →
  groups.member_instance_ids gid h.(db) = groups.member_instance_ids gid h'.(db).
Proof.
  intros Hg. apply set_eq. intros i. rewrite !groups.elem_of_member_instance_ids.
  pose proof (v_members _ _ _ _ Hv) as Hm.
  split; intros [r Hr]; exists r; by apply (Hm (gid, i) r Hg).
Qed.
Lemma listed_mine i : i ∈ instances.list_for_user uid h.(db) → mine uid h.(db) i.(instances.id).
Proof.
  unfold instances.list_for_user. rewrite merge_sort_Permutation, list_elem_of_fmap.
  intros ([k r] & -> & [Hu Hr]%list_elem_of_filter). apply elem_of_map_to_list in Hr. by exists r.
Qed.
Lemma same_owned iid : instances.get_owned iid uid h.(db) = instances.get_owned iid uid h'.(db).
Proof.
  unfold instances.get_owned, instances.get. pose proof (v_instances _ _ _ _ Hv) as Hs.
  destruct (h.(db).(user_server_instances) !! iid) as [r|] eqn:E,
    (h'.(db).(user_server_instances) !! iid) as [r'|] eqn:E'; cbn; try done.
  - destruct (decide (r.(instance.user_id) = uid)) as [Hu|Hu].
    + apply (Hs iid r Hu) in E. by simplify_eq.
    + destruct (decide (r'.(instance.user_id) = uid)) as [Hu'|Hu'].
      * apply (Hs iid r' Hu') in E'. by simplify_eq.
      * by rewrite (proj2 (eqs_false _ _) Hu), (proj2 (eqs_false _ _) Hu').
  - destruct (decide (r.(instance.user_id) = uid)) as [Hu|Hu]; [|by rewrite (proj2 (eqs_false _ _) Hu)].
    apply (Hs iid r Hu) in E. congruence.
  - destruct (decide (r'.(instance.user_id) = uid)) as [Hu|Hu]; [|by rewrite (proj2 (eqs_false _ _) Hu)].
    apply (Hs iid r' Hu) in E'. congruence.
Qed.
Lemma owned_mine iid i : instances.get_owned iid uid h.(db) = Some i →
  mine uid h.(db) iid ∧ i.(instances.id) = iid.
Proof.
  unfold instances.get_owned, instances.get.
  destruct (h.(db).(user_server_instances) !! iid) as [r|] eqn:E; cbn; [|done].
  destruct (eqs _ _) eqn:Eu; [|done]. apply eqs_true in Eu. intros [= <-]. by split; [exists r|].
Qed.

(** *** Secrets *)
Lemma secrets_same iid :
  mine uid h.(db) iid → instances.secret_rows iid h.(db) ≡ₚ instances.secret_rows iid h'.(db).
Proof.
  intros Hm. unfold instances.secret_rows. apply Permutation_map.
  apply (rows_same (λ k _, mine uid h.(db) k.1)); [apply Hv|]. by intros [k1 k2] r [= ->].
Qed.
Lemma secret_keys iid d : NoDup (instances.secret_rows iid d).*1.
Proof.
  unfold instances.secret_rows. rewrite <- list_fmap_compose.
  apply NoDup_fmap_2_strong; [|by apply NoDup_filter, NoDup_map_to_list].
  intros [[a b] x] [[a' b'] x'] [Hk Hx]%list_elem_of_filter [Hk' Hx']%list_elem_of_filter.
  apply elem_of_map_to_list in Hx, Hx'. cbn in *. intros Hb. subst. congruence.
Qed.
Lemma env_rows_swap rows rows' :
  rows ≡ₚ rows' → NoDup rows.*1 → ∀ out, instances.env_rows rows out = instances.env_rows rows' out.
Proof.
  induction 1 as [|[k sl] l l' Hp IH|[k sl] [k' sl'] l|l1 l2 l3 H12 IH12 H23 IH23];
    intros Hn out; cbn -[crypto.open]; [done| | |].
  - apply NoDup_cons in Hn as [_ Hn].
    destruct (crypto.open sl) as [p|e]; [|by apply IH].
    destruct (instances.from_utf8 _ p); [|done]. by apply IH.
  - apply NoDup_cons in Hn as [Hk _]. assert (k ≠ k') as Hne by (intros ->; apply Hk; left).
    destruct (crypto.open sl) as [p|e], (crypto.open sl') as [p'|e']; cbn; try done.
    unfold instances.from_utf8. destruct (utf8_valid p), (utf8_valid p'); cbn; try done.
    by rewrite insert_insert_ne.
  - rewrite IH12 by done. apply IH23. by rewrite <- (fmap_Permutation fst _ _ H12).
Qed.
Lemma same_env iid : mine uid h.(db) iid →
  instances.env_for_edit iid h.(db) = instances.env_for_edit iid h'.(db).
Proof. intros Hm. apply env_rows_swap; [by apply secrets_same|apply secret_keys]. Qed.
Lemma scan_members n ns ns' s found :
  (∀ x, x ∈ ns ↔ x ∈ ns') → Util.scan n ns s found = Util.scan n ns' s found.
Proof.
  intros Hx. revert s found. induction n as [|n IH]; intros s found; [done|]. cbn.
  destruct (split_once "${" s) as [[a b]|]; [|done].
  destruct (split_once "}" b) as [[nm t]|]; [|done]. rewrite IH. f_equal.
  destruct (decide (nm ∈ ns)) as [Hi|Hi], (decide (nm ∈ ns')) as [Hj|Hj]; try done;
    exfalso; naive_solver.
Qed.
Lemma same_refs iid cmd args : mine uid h.(db) iid →
  secret_refs_in_argv cmd args (instances.secret_names iid h.(db)) =
  secret_refs_in_argv cmd args (instances.secret_names iid h'.(db)).
Proof.
  intros Hm. assert (∀ x, x ∈ instances.secret_names iid h.(db) ↔
    x ∈ instances.secret_names iid h'.(db)) as Hx.
  { intros x. unfold instances.secret_names. by rewrite (fmap_Permutation fst _ _ (secrets_same iid Hm)). }
  unfold secret_refs_in_argv.
  assert (∀ found t, scan_text (instances.secret_names iid h.(db)) found t =
    scan_text (instances.secret_names iid h'.(db)) found t) as Ht
    by (intros found t; by apply scan_members).
  replace (match cmd with Some x => scan_text (instances.secret_names iid h.(db)) [] x | None => [] end)
    with (match cmd with Some x => scan_text (instances.secret_names iid h'.(db)) [] x | None => [] end)
    by (destruct cmd; [by rewrite Ht|done]).
  generalize (match cmd with Some x => scan_text (instances.secret_names iid h'.(db)) [] x
    | None => [] end).
  induction args as [|a args IH]; intros found; [done|]. cbn. by rewrite Ht, IH.
Qed.
Lemma same_file iid : mine uid h.(db) iid →
  instances.config_file_for_edit iid h.(db) = instances.config_file_for_edit iid h'.(db).
Proof.
  intros Hm. unfold instances.config_file_for_edit, instances.decrypt_config_file.
  pose proof (v_config _ _ _ _ Hv) as Hc.
  assert (h.(db).(instance_config_files) !! iid = h'.(db).(instance_config_files) !! iid) as ->;
    [|done].
  destruct (h.(db).(instance_config_files) !! iid) as [r|] eqn:E.
  - symmetry. by apply (Hc iid r Hm).
  - destruct (h'.(db).(instance_config_files) !! iid) as [r|] eqn:E'; [|done].
    apply (Hc iid r Hm) in E'. congruence.
Qed.
Lemma same_git host :
  (gitcreds.find uid host h.(db)).1 = (gitcreds.find uid host h'.(db)).1.
Proof.
  unfold gitcreds.find, bind, lift. destruct (gitcreds.normalize_host host) as [hst|]; [|done].
  cbn. f_equal. f_equal. pose proof (v_git _ _ _ _ Hv) as Hg.
  destruct (find_kv (gitcreds.at_host uid hst) h.(db).(git_credentials)) as [[k r]|] eqn:E.
  - apply find_kv_Some in E as [Hk Hp]. symmetry. pose proof Hp as [Hu _]%andb_true_iff.
    apply eqs_true in Hu. apply find_kv_unique; [by apply (Hg k r Hu)|done|].
    intros j r' Hj Hp'. pose proof Hp' as [Hu' Hh']%andb_true_iff.
    apply eqs_true in Hu', Hh'. apply andb_true_iff in Hp as [_ Hh%eqs_true].
    eapply (wf_git_host _ Hwf); [by apply (Hg j r' Hu')|exact Hk|]. cbn. congruence.
  - symmetry. apply find_kv_absent. intros k r Hk.
    destruct (gitcreds.at_host uid hst k r) eqn:Ep; [|done].
    pose proof Ep as [Hu _]%andb_true_iff. apply eqs_true in Hu.
    apply (Hg k r Hu) in Hk. by rewrite (find_kv_None _ _ E _ _ Hk) in Ep.
Qed.

(** *** The pages *)
Context (asset_ver source_url version : string) (now : Z).
Lemma same_command inst def : mine uid h.(db) inst.(instances.id) →
  command_line c h inst def = command_line c h' inst def.
Proof.
  intros Hm. unfold command_line, gitsrc.resolved_command.
  by rewrite (v_built _ _ _ _ Hv _ Hm).
Qed.
Lemma same_snapshot iid : mine uid h.(db) iid →
  get_capabilities_snapshot iid h.(db) = get_capabilities_snapshot iid h'.(db).
Proof. intros Hm. unfold get_capabilities_snapshot. by rewrite mine_lookup. Qed.
Lemma same_total members l :
  (∀ i, i ∈ l → mine uid h.(db) i.(instances.id)) →
  total_tools h.(db) members l = total_tools h'.(db) members l.
Proof.
  unfold total_tools. generalize (Some 0%Z). induction l as [|i l IH]; intros t Hl; [done|].
  assert (tool_count h.(db) i.(instances.id) = tool_count h'.(db) i.(instances.id)) as Ht
    by (unfold tool_count; rewrite same_snapshot; [done|by apply Hl; left]).
  cbn [foldl]. rewrite Ht. apply IH. intros j Hj. apply Hl. by right.
Qed.
Lemma concat_map_in {A} (f g : A → string) l :
  (∀ x, x ∈ l → f x = g x) → String.concat "" (map f l) = String.concat "" (map g l).
Proof.
  intros Hfg. f_equal. apply map_ext_in. intros x Hx. by apply Hfg, list_elem_of_In.
Qed.
Lemma same_groups_section csrf l : (∀ i, i ∈ l → mine uid h.(db) i.(instances.id)) →
  groups_section c csrf uid l h.(db) = groups_section c csrf uid l h'.(db).
Proof.
  intros Hl. unfold groups_section. rewrite <- same_groups.
  destruct (groups.list_for_user uid h.(db)) as [|g gs] eqn:E; [done|].
  enough (concat_map (group_card c csrf h.(db) l) (g :: gs) =
    concat_map (group_card c csrf h'.(db) l) (g :: gs)) as -> by done.
  apply concat_map_in. intros x Hx. rewrite <- E in Hx.
  assert (my_group uid h.(db) x.(groups.id)) as Hg.
  { unfold groups.list_for_user in Hx.
    rewrite merge_sort_Permutation, list_elem_of_fmap in Hx.
    destruct Hx as ([k r] & -> & [Hu Hr]%list_elem_of_filter).
    apply elem_of_map_to_list in Hr. by exists r. }
  unfold group_card. rewrite <- (same_members _ Hg). by rewrite same_total.
Qed.

(** The pages of a user's servers. *)
Definition of_servers (v : View) : Prop :=
  match v with
  | Dashboard | ServersNew | Servers _ | ServersCapabilities _ => True
  | _ => False
  end.
End views.

(** C12: the pages of a user's servers reveal nothing of anybody else.  Take two states of
    the hub that agree on the user's own servers, secrets, configuration files, groups and
    git credentials, on the runtime status of their own servers and on which of their own
    environments are built — and on nothing else: other accounts may exist in one only,
    hold anything and run anything.  The dashboard, the form of a new server and both tabs
    of any server, the user's own or a guessed id, are the same page in both. *)
Theorem pages_confidential `{UrlCrate} `{Shlex} `{Aead} `{Digest} `{Rmcp} c asset_ver source_url
    version now v user jar h h' :
  wf h.(db) → same_view c user.(users.id) h h' → of_servers v →
  get c asset_ver source_url version now v user jar h =
  get c asset_ver source_url version now v user jar h'.
Proof.
  intros Hwf Hv Ho. destruct v as [| |iid|iid| | | |]; try done; cbn [get].
  - unfold dashboard. rewrite <- (same_list c _ h h' Hwf Hv).
    rewrite (same_groups_section c _ h h' Hwf Hv); [done|]. apply listed_mine.
  - unfold server_detail, owned_with_def. rewrite <- (same_owned c _ h h' Hv).
    destruct (instances.get_owned iid _ h.(db)) as [i|] eqn:E; [|done].
    apply owned_mine in E as [Hm Hid]. subst iid. unfold instances.resolve_def.
    destruct (instances.normalized <$> i.(instances.custom_def)) as [def|]; [|done]. cbn.
    do 2 f_equal. unfold server_body.
    rewrite (same_env c _ h h' Hv _ Hm), (same_file c _ h h' Hv _ Hm),
      (same_refs c _ h h' Hv _ _ _ Hm), (v_status _ _ _ _ Hv _ Hm),
      (same_command c _ h h' Hv _ _ Hm).
    unfold git_section, build_auth. destruct (gitsrc.is_git_source def); [|done].
    destruct (gitcreds.host_of_repo _) as [hst|]; [|done].
    by rewrite (same_git c _ h h' Hwf Hv).
  - unfold server_capabilities, owned_with_def. rewrite <- (same_owned c _ h h' Hv).
    destruct (instances.get_owned iid _ h.(db)) as [i|] eqn:E; [|done].
    apply owned_mine in E as [Hm Hid]. subst iid. unfold instances.resolve_def.
    destruct (instances.normalized <$> i.(instances.custom_def)) as [def|]; [|done]. cbn.
    do 2 f_equal. unfold capabilities_body.
    by rewrite (same_snapshot c _ h h' Hv _ Hm), (v_status _ _ _ _ Hv _ Hm).
Qed.

(** ** An administrator's server is not seen *)
Definition theirs : instance.t := {|
  instance.user_id := "root"; instance.custom_def := Some launch.stdio_def;
  instance.namespace := "secret"; instance.display_name := "secret"; instance.enabled := true;
  instance.config := ∅; instance.built_commit := None; instance.build_status := "ready";
  instance.capabilities_json := None; instance.created_at := 6 |}.
Definition alone : Hub := hub0 db2.
Definition with_theirs : Hub :=
  set_status {["j" := {| status.state := status.error; status.detail := Some "key";
                         status.checked_at := 7 |}]}
    (set_db (set_user_server_instances (insert "j" theirs) db2) alone).
#[local] Existing Instances url0 shlex0 aead0 digest0 views_witness.rmcp0.
Lemma pages_confidential_witness :
  get oauth_witness.cfg0 "1" "src" "v" 50 Dashboard router.user1 router.jar0 alone =
  get oauth_witness.cfg0 "1" "src" "v" 50 Dashboard router.user1 router.jar0 with_theirs.
Proof.
  apply (pages_confidential oauth_witness.cfg0); [exact wf_db2| |exact I].
  split; try (intros ?; reflexivity); try apply same_rows_refl.
  - apply same_rows_insert; [discriminate|]. intros r Hr. vm_compute in Hr. discriminate.
  - intros iid (r & Hr & _). destruct (decide (iid = "i")) as [->|Hn]; [reflexivity|].
    exfalso. cbn in Hr. unfold db2 in Hr. cbn in Hr.
    rewrite lookup_insert_ne in Hr by done. vm_compute in Hr. destruct iid; discriminate.
Defined.
End secrecy.
