(* ===== verification/System.v ===== *)
(** * The running hub: requests and background work

    [Sys] is what one process holds: the hub's state, the OAuth codes, the passkey
    ceremonies, the MCP sessions' bindings and the call counters.  [serve] is a request
    from its raw credentials — the session cookie, the bearer token, the ceremony
    cookie — through authentication to its handler; [step] is a request or one piece
    of background work, at any time and in any order. *)

From S2P Require Import Prelude Strs Schema External Fixtures Json Users Invites Sessions Tokens.
From S2P Require Import Groups Config Instances OauthStore OauthServer McpAuth Webauthn Status AuditLog.
From S2P Require Import Backend Pool Startup Tenancy Hub Launch ToolTable Server Management.
From S2P Require Import Isolation Web Router Views.
Open Scope string_scope.
Open Scope hub_scope.

Module system.
Import hub tenancy isolation.

(** What the handlers ask of serde, and how the world answers: the JSON of a value,
    of a snapshot and of the statistics; which backends are slow; the size of a
    response; how long a call took. *)
Class World := {
  pretty_json : json.Value → string;
  snapshot_json : backend.CapabilitiesSnapshot → string;
  parse_snapshot : string → option backend.CapabilitiesSnapshot;
  stats_json : stats.RuntimeStats → json.Value;
  slow : backend.Backend → bool;
  result_bytes : rmcp.CallToolResult → Z;
  read_bytes : list rmcp.ResourceContents → Z;
  prompt_bytes : string → Z;
  elapsed : Z;
  free_slots : Z; mcp_sessions : Z;
}.

Section system.
Context `{Machine} `{UrlCrate} `{HttpCrate} `{Shlex} `{Aead} `{Digest} `{launch.Children}.
Context `{WebauthnRs} `{UuidCrate} `{Jwt keys.AccessClaims} `{World}.
Context (c : config.Config) (signer : keys.Signer) (asset_ver source_url version : string).

Record Sys := {
  hub : Hub; codes : gmap string store.PendingCode;
  reg_states : gmap string webauthn.RegCeremony; auth_states : gmap string webauthn.AuthCeremony;
  bindings : gmap string server.Bound; counters : metrics.Metrics }.
Definition with_hub (h : Hub) (s : Sys) : Sys := {|
  hub := h; codes := s.(codes); reg_states := s.(reg_states); auth_states := s.(auth_states);
  bindings := s.(bindings); counters := s.(counters) |}.
Definition with_db (d : Db) (s : Sys) : Sys := with_hub (set_db d s.(hub)) s.
Definition the_db (s : Sys) : Db := s.(hub).(db).
(** The database and the audit log. *)
Definition logged (s : Sys) : Logged := (the_db s, s.(hub).(audit_log)).
Definition with_logged (l : Logged) (s : Sys) : Sys :=
  with_hub (set_log l.2 (set_db l.1 s.(hub))) s.

(** ** A component's operation on its part of the state; only the state is kept *)
Definition on_hub {E A} (m : M Hub E A) (s : Sys) : Sys := with_hub (m s.(hub)).2 s.
Definition on_database {E A} (m : M Db E A) (s : Sys) : Sys := with_db (m (the_db s)).2 s.
Definition on_logged {E A} (m : M Logged E A) (s : Sys) : Sys :=
  with_logged (m (logged s)).2 s.
Definition on_codes {E A} (m : M OState E A) (s : Sys) : Sys :=
  let '(_, (l, k)) := m (logged s, s.(codes)) in
  {| hub := (with_logged l s).(hub); codes := k; reg_states := s.(reg_states);
     auth_states := s.(auth_states); bindings := s.(bindings); counters := s.(counters) |}.
Definition on_registrations {E A} (m : M (Logged * gmap string webauthn.RegCeremony) E A)
    (s : Sys) : Sys :=
  let '(_, (l, r)) := m (logged s, s.(reg_states)) in
  {| hub := (with_logged l s).(hub); codes := s.(codes); reg_states := r;
     auth_states := s.(auth_states); bindings := s.(bindings); counters := s.(counters) |}.
Definition on_logins {E A} (m : M (Logged * gmap string webauthn.AuthCeremony) E A)
    (s : Sys) : Sys :=
  let '(_, (l, a)) := m (logged s, s.(auth_states)) in
  {| hub := (with_logged l s).(hub); codes := s.(codes); reg_states := s.(reg_states);
     auth_states := a; bindings := s.(bindings); counters := s.(counters) |}.

(** ** Requests *)
(** What comes with a request, and what its handler draws. *)
Record Env := {
  now : Z; jar : gmap string string; http_headers : gmap string string;
  fresh : management.Drawn; random : string; session_key : string }.
Definition info (e : Env) : users.RequestInfo := headers.from_headers e.(http_headers).

Inductive McpOp :=
| CallTool (name : string) (args : rmcp.Args)
| ListTools | ListResources | ListResourceTemplates | ListPrompts
| ReadResource (uri : string)
| GetPrompt (name : string) (args : rmcp.Args).
(** The pages of a visitor, and what needs no account at all. *)
Inductive SignIn := LoginPage (next : option string) | RegisterPage (next : option string) | RecoverPage.
Inductive Public := LogoutGet | Healthz | WellKnown (path : string) | Scrape (header : option string).
Inductive Call :=
| Form (req : router.Request)
| View (page : views.View)
| Visit (page : SignIn)
| Unguarded (page : Public)
| Logout (submitted : string)
| RegisterStart (req : webauthn.RegisterStart) (new_uid cid : string)
| RegisterFinish (cookie : option string) (cred : RegResponse) (row_id new_sid : string)
| AddPasskeyStart (cid : string)
| LoginStart (handle cid : string)
| LoginFinish (cookie : option string) (cred : AuthResponse) (new_sid : string)
| RecoverStart (handle code cid : string)
| RegisterClient (req : register.RegistrationRequest) (random_secret : string)
| Authorize (q : authorize.AuthorizeQuery) (raw : option string)
| Decision (req : authorize.AuthReq) (choice submitted : string)
| Token (form : token.TokenForm) (drawn : token.Fresh)
| Mcp (path : string) (header : option string) (op : McpOp).

(** *** Pages *)
Definition session_user (e : Env) : M Db unit users.User :=
  session.AuthUser e.(jar) c.(config.session_idle_ttl_secs) c.(config.session_absolute_ttl_secs)
    e.(now).
Definition maybe_user (e : Env) : M Db anyhow (option users.User) :=
  session.MaybeUser e.(jar) c.(config.session_idle_ttl_secs) c.(config.session_absolute_ttl_secs)
    e.(now).
Abbreviation post e := (router.post c asset_ver source_url version e.(fresh) e.(random) e.(now)
  snapshot_json).
(** The extractor, then [k] for its user; anonymous requests stop at the login page. *)
Definition as_user (e : Env) (k : users.User → Sys → Sys) (s : Sys) : Sys :=
  let '(r, d) := session_user e (the_db s) in
  match r with Ok u => k u (with_db d s) | Err _ => with_db d s end.

(** *** The MCP endpoint *)
Definition backends_of (h : Hub) (uid : string) : list backend.Backend :=
  match h.(pools) !! uid with Some i => pool.conn <$> i.(pool.backends) | None => [] end.
Definition session_of (key : string) (s : Sys) : server.Session := {|
  server.bound := s.(bindings) !! key; server.client_peers := s.(hub).(peers);
  server.counters := s.(counters); server.log := s.(hub).(audit_log) |}.
Definition put_session (key : string) (x : server.Session) (s : Sys) : Sys := {|
  hub := set_log x.(server.log) (set_peers x.(server.client_peers) s.(hub)); codes := s.(codes);
  reg_states := s.(reg_states); auth_states := s.(auth_states);
  bindings := match x.(server.bound) with
              | Some b => <[key:=b]> s.(bindings) | None => s.(bindings) end;
  counters := x.(server.counters) |}.
Abbreviation dispatch e := (management.dispatch c e.(fresh) e.(now) pretty_json parse_snapshot
  stats_json free_slots mcp_sessions).
(** The management call a tool call makes, once its session is bound. *)
Definition dispatched (ctx : server.RequestContext) (name : string) (x : server.Session)
    : option (server.Caller * string) :=
  match ctx.(server.parts_endpoint), ctx.(server.parts_user), x.(server.bound) with
  | Some proxy.Management, Some a, Some b =>
      if server.is_management_tool name
      then Some ({| server.caller_user_id := b.(server.user_id);
                    server.caller_handle := b.(server.handle);
                    server.caller_admin := b.(server.admin);
                    server.caller_client_id := a.(proxy.client_id);
                    server.caller_request := a.(proxy.request) |},
                 default "" (strip_prefix "hub__" name))
      else None
  | _, _, _ => None
  end.
Definition handle_mcp (e : Env) (ctx : server.RequestContext) (op : McpOp) (s : Sys) : Sys :=
  let key := e.(session_key) in
  let d := the_db s in
  let on_session {A} (m : M server.Session server.McpError A) : Sys :=
    put_session key (m (session_of key s)).2 s in
  let bs := backends_of s.(hub) in
  match op with
  | CallTool name args =>
      let answer who op args :=
        (dispatch e who op args
           (put_session key (server.bind key d ctx (session_of key s)).2 s).(hub)).1 in
      let x := (server.call_tool c key d bs slow answer elapsed result_bytes name args ctx
                  (session_of key s)).2 in
      let s' := put_session key x s in
      match dispatched ctx name x with
      | Some (who, op) => on_hub (dispatch e who op args) s'
      | None => s'
      end
  | ListTools => on_session (server.list_tools c key d bs slow (λ _, []) ctx)
  | ListResources => on_session (server.list_resources c key d bs slow ctx)
  | ListResourceTemplates => on_session (server.list_resource_templates c key d bs slow ctx)
  | ListPrompts => on_session (server.list_prompts c key d bs slow ctx)
  | ReadResource uri => on_session (server.read_resource c key d bs slow read_bytes uri ctx)
  | GetPrompt name args =>
      on_session (server.get_prompt c key d bs slow prompt_bytes name args ctx)
  end.
Definition mcp (e : Env) (path : string) (header : option string) (op : McpOp) (s : Sys) : Sys :=
  let '(r, l) := proxy.require_bearer c signer path header (info e) e.(now) (logged s) in
  match r with
  | Ok (proxy.Forward endpoint a) =>
      handle_mcp e {| server.parts_user := Some a; server.parts_endpoint := Some endpoint |} op
        (with_logged l s)
  | _ => with_logged l s
  end.

Definition serve (e : Env) (call : Call) : Sys → Sys :=
  match call with
  | Form req => as_user e (λ u, on_hub (post e u e.(jar) (info e) req))
  | View _ => as_user e (λ _ s, s)
  | Visit _ => on_database (maybe_user e)
  | Unguarded _ => λ s, s
  | Logout submitted => on_logged (webauthn.logout c e.(jar) (info e) submitted e.(now))
  | RegisterStart req new_uid cid =>
      on_registrations (webauthn.register_start c req new_uid cid e.(now))
  | RegisterFinish cookie cred row_id new_sid =>
      on_registrations (webauthn.register_finish c cookie e.(jar) cred (info e) row_id new_sid
        e.(now))
  | AddPasskeyStart cid =>
      as_user e (λ u, on_registrations (webauthn.add_passkey_start u cid e.(now)))
  | LoginStart handle cid => on_logins (webauthn.login_start handle cid e.(now))
  | LoginFinish cookie cred new_sid =>
      on_logins (webauthn.login_finish c cookie e.(jar) cred (info e) new_sid e.(now))
  | RecoverStart handle code cid =>
      on_registrations (webauthn.recover_start handle code cid e.(now))
  | RegisterClient req random_secret =>
      on_logged (register.register req (info e) e.(random) random_secret e.(now))
  | Authorize _ _ => on_database (maybe_user e)
  | Decision req choice submitted =>
      as_user e (λ u, on_codes (authorize.decision c u e.(jar) (info e) req choice submitted
        e.(random) e.(now)))
  | Token form drawn => on_codes (token.token c signer (info e) form drawn e.(now))
  | Mcp path header op => mcp e path header op
  end.

(** ** Background work and the life of a process *)
Definition cap : nat := Z.to_nat c.(config.limits).(config.max_backends_per_user).
Definition with_pool (uid : string) (p : pool.State) (h : Hub) : Hub :=
  set_epochs p.(pool.epochs) (set_pools (<[uid := p.(pool.pool)]> h.(pools)) h).
(** A new process over the disk of a start. *)
Definition booted (disk : startup.Disk) (key : string) : Sys := {|
  hub := {| db := disk.(startup.disk_db); pools := ∅; epochs := ∅; runtime_status := ∅;
            files := disk.(startup.disk_files); peers := ∅; notified := []; tools_run := [];
            metrics_key := key; audit_log := [] |};
  codes := ∅; reg_states := ∅; auth_states := ∅; bindings := ∅; counters := ∅ |}.

Inductive step (s : Sys) : Sys → Prop :=
| Served e call : step s (serve e call s)
| Pooled uid i n p :
    s.(hub).(pools) !! uid = Some i →
    pool.step cap {| pool.pool := i; pool.epochs := s.(hub).(epochs); pool.next_arc := n |} p →
    step s (with_hub (with_pool uid p s.(hub)) s)
| Opened uid t : step s (on_hub (on_pools (E:=anyhow) (pool.entry uid t)) s)
| Reaped t :
    step s (on_hub (on_pools (E:=anyhow)
      (pool.reap_idle t (c.(config.limits).(config.backend_idle_secs) * 1000)%Z)) s)
| Swept t : step s (on_database (session.delete_expired t) s)
| Launched inst sb t : step s (on_hub (launch.spawn_one (E:=anyhow) c t inst sb) s)
| Skipped insts reason t : step s (on_hub (launch.mark_skipped (E:=anyhow) t insts reason) s)
| Snapshot iid b t :
    step s (on_hub (launch.refresh_snapshot (E:=anyhow) c t snapshot_json iid b) s)
| Pruned :
    step s (on_hub (on_status (E:=anyhow) (status.retain
      (list_to_set (instances.id <$> instances.list_all (the_db s))))) s)
| Hung_up key : step s (on_hub (unregister_client_peer (E:=anyhow) key) s).

Inductive reachable : Sys → Prop :=
| at_start `{P256} `{Base64} catalog webauthn_build is_root drawn t disk disk' key :
    wf disk.(startup.disk_db) →
    startup.new c catalog webauthn_build is_root drawn t disk = (Ok (signer, key), disk') →
    reachable (booted disk' key)
| later s s' : reachable s → step s s' → reachable s'.

(** ** The invariant *)
Definition pools_ok (p : pool.Users) : Prop := ∀ uid i, p !! uid = Some i → pool.inv cap i.
Record inv (s : Sys) : Prop := {
  inv_db : wf (the_db s);
  inv_pools : pools_ok s.(hub).(pools);
  inv_codes : (size s.(codes) ≤ store.AUTH_CODE_CAP)%nat;
  inv_regs : (Z.of_nat (size s.(reg_states)) ≤ webauthn.CEREMONY_CAP)%Z;
  inv_logins : (Z.of_nat (size s.(auth_states)) ≤ webauthn.CEREMONY_CAP)%Z;
  inv_counters : metrics.bounded s.(counters) }.

Lemma pools_ok_dirty u p : pools_ok p → pools_ok (alter pool.mark_dirty u p).
Proof.
  intros Hp uid i Hi. apply lookup_alter_Some in Hi as [(-> & j & Hj & ->)|[_ Hi]]; [|by eapply Hp].
  by eapply pool.inv_shrink; [eapply Hp| |].
Qed.
Lemma pools_ok_insert uid i p : pool.inv cap i → pools_ok p → pools_ok (<[uid:=i]> p).
Proof. intros Hi Hp u j [[<- <-]|[_ Hj]]%lookup_insert_Some; [done|by eapply Hp]. Qed.

Definition few_codes (m : gmap string store.PendingCode) : Prop :=
  (size m ≤ store.AUTH_CODE_CAP)%nat.
Definition few_ceremonies {T} (m : gmap string T) : Prop :=
  (Z.of_nat (size m) ≤ webauthn.CEREMONY_CAP)%Z.

(** *** The parts *)
Lemma inv_with_db d s : wf d → inv s → inv (with_db d s).
Proof. intros Hd []. by split. Qed.
Lemma inv_on_database {E A} (m : M Db E A) s : preserves wf m → inv s → inv (on_database m s).
Proof. intros Hm Hs. apply inv_with_db; [|done]. apply Hm, Hs. Qed.
Lemma inv_on_hub {E A} (m : M Hub E A) s :
  (∀ h, wf h.(db) → pools_ok h.(pools) → wf (m h).2.(db) ∧ pools_ok (m h).2.(pools)) →
  inv s → inv (on_hub m s).
Proof. intros Hm []. destruct (Hm s.(hub)); [done..|]. by split. Qed.
Lemma inv_with_logged l s : wf l.1 → inv s → inv (with_logged l s).
Proof. intros Hd []. by split. Qed.
Lemma inv_on_logged {E A} (m : M Logged E A) s :
  preserves (of_db wf) m → inv s → inv (on_logged m s).
Proof. intros Hm Hs. apply inv_with_logged; [|done]. apply Hm, Hs. Qed.
Lemma inv_on_codes {E A} (m : M OState E A) s :
  preserves (both (of_db wf) few_codes) m → inv s → inv (on_codes m s).
Proof.
  intros Hm []. unfold on_codes. destruct (Hm (logged s, s.(codes))) as [Hd Hk]; [by split|].
  destruct (m _) as [r [d k]]. by split.
Qed.
Lemma inv_on_registrations {E A} (m : M (Logged * gmap string webauthn.RegCeremony) E A) s :
  preserves (both (of_db wf) few_ceremonies) m → inv s → inv (on_registrations m s).
Proof.
  intros Hm []. unfold on_registrations.
  destruct (Hm (logged s, s.(reg_states))) as [Hd Hk]; [by split|].
  destruct (m _) as [r [d k]]. by split.
Qed.
Lemma inv_on_logins {E A} (m : M (Logged * gmap string webauthn.AuthCeremony) E A) s :
  preserves (both (of_db wf) few_ceremonies) m → inv s → inv (on_logins m s).
Proof.
  intros Hm []. unfold on_logins.
  destruct (Hm (logged s, s.(auth_states))) as [Hd Hk]; [by split|].
  destruct (m _) as [r [d k]]. by split.
Qed.
Lemma inv_as_user e k s : (∀ u s, inv s → inv (k u s)) → inv s → inv (as_user e k s).
Proof.
  intros Hk Hs. unfold as_user. pose proof (session.wf_AuthUser e.(jar)
    c.(config.session_idle_ttl_secs) c.(config.session_absolute_ttl_secs) e.(now)
    (the_db s) (inv_db _ Hs)) as Hd. unfold session_user.
  destruct (session.AuthUser _ _ _ _ _) as [[u|] d]; [apply Hk|]; by apply inv_with_db.
Qed.

(** *** Sign-in and OAuth *)
Lemma few_insert {T} (created_at : T → Z) key value t :
  preserves few_ceremonies (webauthn.insert_ceremony created_at key value t).
Proof.
  intros m Hm. unfold webauthn.insert_ceremony, few_ceremonies in *.
  destruct (_ <=? _)%Z eqn:E; bool_prop; cbn.
  - etrans; [|exact Hm]. apply Nat2Z.inj_le, map_size_filter.
  - rewrite map_size_insert. destruct (_ !! key); unfold id; lia.
Qed.
Lemma few_take {T} key : preserves few_ceremonies (webauthn.take (T:=T) key).
Proof.
  intros m Hm. unfold few_ceremonies in *. cbn.
  pose proof (map_size_delete key m). destruct (m !! key); cbn in *; lia.
Qed.
Lemma few_insert_code code a ttl t : preserves few_codes (store.insert_code code a ttl t).
Proof.
  intros m Hm. unfold store.insert_code, few_codes in *. set (l := store.retain_live t m).
  assert (size l ≤ size m)%nat by apply map_size_filter.
  destruct (_ <=? _)%nat eqn:E; cbn; [lia|]. apply Nat.leb_gt in E.
  rewrite map_size_insert. destruct (_ !! code); unfold id; lia.
Qed.
Lemma few_take_code code t : preserves few_codes (store.take_code code t).
Proof.
  intros m Hm. unfold few_codes in *. cbn.
  pose proof (map_size_delete code m). destruct (m !! code); cbn in *; lia.
Qed.
Hint Resolve few_insert few_take few_insert_code few_take_code : hub.

Lemma wf_registration_policy hd invite : preserves wf (webauthn.registration_policy c hd invite).
Proof. unfold webauthn.registration_policy. parts. Qed.
Hint Resolve wf_registration_policy webauthn.wf_resolve_account webauthn.wf_advance_counter : hub.
Lemma inv_register_start req uid cid t s :
  inv s → inv (on_registrations (webauthn.register_start c req uid cid t) s).
Proof. apply inv_on_registrations. unfold webauthn.register_start, webauthn.insert_reg. parts. Qed.
Lemma few_start_add_credential u code cid t :
  preserves (both (of_db wf) few_ceremonies) (webauthn.start_add_credential u code cid t).
Proof. unfold webauthn.start_add_credential, webauthn.insert_reg. parts. Qed.
Hint Resolve few_start_add_credential : hub.
Lemma inv_recover_start hd cd cid t s :
  inv s → inv (on_registrations (webauthn.recover_start hd cd cid t) s).
Proof. apply inv_on_registrations. unfold webauthn.recover_start. parts. Qed.
Lemma inv_register_finish cookie j cred i row sid t s :
  inv s → inv (on_registrations (webauthn.register_finish c cookie j cred i row sid t) s).
Proof. apply inv_on_registrations. unfold webauthn.register_finish. parts. Qed.
Lemma inv_login_start hd cid t s : inv s → inv (on_logins (webauthn.login_start hd cid t) s).
Proof. apply inv_on_logins. unfold webauthn.login_start, webauthn.insert_auth. parts. Qed.
Lemma inv_login_finish cookie j cred i sid t s :
  inv s → inv (on_logins (webauthn.login_finish c cookie j cred i sid t) s).
Proof. apply inv_on_logins. unfold webauthn.login_finish. parts. Qed.
Lemma inv_decision u j i req choice csrf code t s :
  inv s → inv (on_codes (authorize.decision c u j i req choice csrf code t) s).
Proof. apply inv_on_codes. unfold authorize.decision. parts. Qed.
Lemma inv_token i form drawn t s : inv s → inv (on_codes (token.token c signer i form drawn t) s).
Proof.
  apply inv_on_codes. unfold token.token, token.authorization_code, token.exchange_code,
    token.refresh, token.accept_outcome, token.rotate, token.authenticate_client,
    token.issue_tokens. parts.
Qed.
Lemma wf_register req i rid secret t : preserves (of_db wf) (register.register req i rid secret t).
Proof. unfold register.register. parts. Qed.

(** *** MCP requests *)
Definition few_series (x : server.Session) : Prop := metrics.bounded x.(server.counters).
Lemma few_bind key d ctx : preserves few_series (server.bind key d ctx).
Proof.
  unfold server.bind. parts. intros x Hx. unfold few_series, modify, server.bind_session. cbn.
  destruct (server.bound x) as [b|]; [|done]. by destruct (negb _).
Qed.
Lemma few_record u v w us k :
  preserves (E:=server.McpError) few_series (modify (server.record u v w us k)).
Proof. intros x Hx. by apply metrics.record_call_bounded. Qed.
Hint Resolve few_bind few_record : hub.
Lemma few_group_backends key d bs ctx gid :
  preserves few_series (server.group_backends key d bs ctx gid).
Proof. unfold server.group_backends. parts. Qed.
Hint Resolve few_group_backends : hub.
Lemma few_list_with {A} key d bs f ctx (m : bool → list A) :
  preserves few_series (server.list_with c key d bs slow f ctx m).
Proof. unfold server.list_with. parts. Qed.
Lemma few_fetch {A} key d bs a b sp f (size : A → Z) ctx :
  preserves few_series (server.fetch c key d bs slow a b sp f size ctx).
Proof. unfold server.fetch. parts. Qed.
Lemma few_call_tool key d bs answer name args ctx :
  preserves few_series
    (server.call_tool c key d bs slow answer elapsed result_bytes name args ctx).
Proof. unfold server.call_tool, server.manage, server.read_bound. parts. Qed.

Lemma inv_put_session key x s : few_series x → inv s → inv (put_session key x s).
Proof. intros Hx []. by split. Qed.
Lemma inv_on_session {E A} (m : M server.Session E A) key s :
  preserves few_series m → inv s → inv (put_session key (m (session_of key s)).2 s).
Proof. intros Hm Hs. apply inv_put_session; [|done]. apply Hm, Hs. Qed.
Lemma inv_dispatch e who op args s : inv s → inv (on_hub (dispatch e who op args) s).
Proof.
  apply inv_on_hub. intros h Hd Hp. apply dispatch_keeps; [apply pools_ok_dirty|done..].
Qed.
Lemma inv_handle_mcp e ctx op s : inv s → inv (handle_mcp e ctx op s).
Proof.
  intros Hs. destruct op; cbn [handle_mcp];
    try (apply inv_on_session; [apply few_list_with || apply few_fetch|done]).
  assert (∀ answer, inv (put_session e.(session_key)
    (server.call_tool c e.(session_key) (the_db s) (backends_of s.(hub)) slow answer elapsed
       result_bytes name args ctx (session_of e.(session_key) s)).2 s)) as Hx
    by (intros answer; apply inv_on_session; [apply few_call_tool|done]).
  destruct (dispatched _ _ _) as [[who op]|]; [by apply inv_dispatch|apply Hx].
Qed.
Lemma inv_mcp e path header op s : inv s → inv (mcp e path header op s).
Proof.
  intros Hs. unfold mcp. pose proof (proxy.wf_require_bearer c signer path header (info e) e.(now)
    (logged s) (inv_db _ Hs)) as Hd.
  destruct (proxy.require_bearer _ _ _ _ _ _ _) as [[[endpoint a| |]|] l];
    try (by apply inv_with_logged). by apply inv_handle_mcp, inv_with_logged.
Qed.
Lemma inv_form e u req s :
  inv s → inv (on_hub (post e u e.(jar) (info e) req) s).
Proof.
  apply inv_on_hub. intros h Hd Hp. apply router.post_keeps; [apply pools_ok_dirty|done..].
Qed.
Lemma inv_serve e call s : inv s → inv (serve e call s).
Proof.
  destruct call; cbn [serve].
  - apply inv_as_user. intros u s'. apply inv_form.
  - by apply inv_as_user.
  - apply inv_on_database, session.wf_MaybeUser.
  - done.
  - apply inv_on_logged, webauthn.wf_logout.
  - apply inv_register_start.
  - apply inv_register_finish.
  - apply inv_as_user. intros u s'. apply inv_on_registrations. unfold webauthn.add_passkey_start.
    apply few_start_add_credential.
  - apply inv_login_start.
  - apply inv_login_finish.
  - apply inv_recover_start.
  - apply inv_on_logged, wf_register.
  - apply inv_on_database, session.wf_MaybeUser.
  - apply inv_as_user. intros u s'. apply inv_decision.
  - apply inv_token.
  - apply inv_mcp.
Qed.

(** *** Background work *)
Lemma pools_ok_entry uid t p : pools_ok p → pools_ok (pool.entry (E:=anyhow) uid t p).2.
Proof.
  intros Hp. cbn. destruct (p !! uid); [done|]. apply pools_ok_insert; [apply pool.inv_new|done].
Qed.
Lemma pools_ok_reap t idle p : pools_ok p → pools_ok (pool.reap_idle (E:=anyhow) t idle p).2.
Proof. intros Hp u i [Hi _]%map_lookup_filter_Some. by eapply Hp. Qed.
Lemma kept_spawn {E} inst sb t :
  preserves (kept wf pools_ok (λ _, True)) (launch.spawn_one (E:=E) c t inst sb).
Proof.
  unfold launch.spawn_one, launch.start_one, launch.mark_status, launch.check_url,
    launch.launched, launch.config_error, launch.unbuilt, launch.error_with,
    instances.resolve_def.
  parts.
Qed.
Lemma kept_snapshot {E} iid b t :
  preserves (kept wf pools_ok (λ _, True)) (launch.refresh_snapshot (E:=E) c t snapshot_json iid b).
Proof. unfold launch.refresh_snapshot. parts. Qed.
Lemma kept_skipped {E} insts reason t :
  preserves (kept wf pools_ok (λ _, True)) (launch.mark_skipped (E:=E) t insts reason).
Proof. apply preserves_for_each. intros i. apply kept_on_status. Qed.
Lemma inv_kept {E A} (m : M Hub E A) s :
  preserves (kept wf pools_ok (λ _, True)) m → inv s → inv (on_hub m s).
Proof. intros Hm. apply inv_on_hub. intros h Hd Hp. by destruct (Hm h) as (?&?&_). Qed.

Lemma sys_step s s' : step s s' → inv s → inv s'.
Proof.
  destruct 1 as [e call|uid i n p Hi Hp|uid t|t|t|inst sb t|insts reason t|iid b t| |key];
    intros Hs.
  - by apply inv_serve.
  - assert (pool.inv cap p.(pool.pool)) as Hinv.
    { eapply pool.inv_step; [exact Hp|]. by apply (inv_pools _ Hs uid). }
    destruct Hs. split; try done. cbn. apply pools_ok_insert; [exact Hinv|done].
  - apply inv_on_hub; [|done]. intros h Hd Hp. split; [done|]. by apply pools_ok_entry.
  - apply inv_on_hub; [|done]. intros h Hd Hp. split; [done|]. by apply pools_ok_reap.
  - by apply inv_on_database; [apply session.wf_delete_expired|].
  - by apply inv_kept; [apply kept_spawn|].
  - by apply inv_kept; [apply kept_skipped|].
  - by apply inv_kept; [apply kept_snapshot|].
  - by apply inv_kept; [apply kept_on_status|].
  - by apply inv_kept; [intros h Hh; exact Hh|].
Qed.

(** C2: the hub never leaves its well-formed states.  From any start on a well-formed
    database, after any requests — forms, sign-ins, OAuth exchanges, MCP calls, genuine
    or forged — and any background work, in any order: the database satisfies every
    constraint of its schema; no user's pool holds two backends of one server or more
    than the cap; at most 512 authorization codes and 4096 ceremonies of either kind
    are in progress; and the call counters stay within their bound. *)
Theorem system_invariant s : reachable s → inv s.
Proof.
  induction 1 as [? ? catalog build root drawn t disk disk' key Hd Hnew|s s' _ IH Hstep];
    [|by eapply sys_step].
  pose proof (startup.wf_new c catalog build root drawn t disk Hd) as Hd'. rewrite Hnew in Hd'.
  split; cbn.
  - exact Hd'.
  - by intros uid i ?%lookup_empty_Some.
  - rewrite map_size_empty. unfold store.AUTH_CODE_CAP. lia.
  - rewrite map_size_empty. done.
  - rewrite map_size_empty. done.
  - left. rewrite map_size_empty. lia.
Qed.

(** ** Tenancy, from the credentials on *)
(** Whom the hub serves a request as, and whether as an administrator. *)
Definition principal (e : Env) (call : Call) (s : Sys) : option (string * bool) :=
  match call with
  | Form _ | View _ | AddPasskeyStart _ | Decision _ _ _ =>
      match (session_user e (the_db s)).1 with
      | Ok u => Some (u.(users.id), u.(users.is_admin))
      | Err _ => None
      end
  | Mcp path header _ =>
      let '(r, l) := proxy.require_bearer c signer path header (info e) e.(now) (logged s) in
      match r with
      | Ok (proxy.Forward _ a) =>
          b ← (server.bind_session e.(session_key) l.1 a
                 (session_of e.(session_key) (with_logged l s))).(server.bound);
          Some (b.(server.user_id), b.(server.admin))
      | _ => None
      end
  | _ => None
  end.
Definition rewrites_denials (call : Call) : bool :=
  match call with Form req => router.writes_denials req | _ => false end.
(** Only [uid]'s rows and pool differ, but for the denials when [masked]. *)
Definition confined (uid : string) (masked : bool) (s s' : Sys) : Prop :=
  foreign uid (without_denials (the_db s)) (without_denials (the_db s')) ∧
  (masked = false → foreign uid (the_db s) (the_db s')) ∧
  ∀ u, u ≠ uid → s'.(hub).(pools) !! u = s.(hub).(pools) !! u.

Lemma confined_db uid m s s' :
  foreign uid (the_db s) (the_db s') → s'.(hub).(pools) = s.(hub).(pools) → confined uid m s s'.
Proof. intros Hf Hp. split_and!; [by apply foreign_without_denials|done|by rewrite Hp]. Qed.
Lemma confined_trans uid m s1 s2 s3 :
  confined uid m s1 s2 → confined uid m s2 s3 → confined uid m s1 s3.
Proof.
  intros (H12 & H12' & Hp) (H23 & H23' & Hp'). split_and!.
  - by eapply foreign_trans.
  - intros Hm. eapply foreign_trans; [by apply H12'|by apply H23'].
  - intros u Hu. rewrite Hp' by done. by apply Hp.
Qed.

Lemma session_user_own e d u d' :
  session_user e d = (Ok u, d') → foreign u.(users.id) d d'.
Proof.
  unfold session_user, session.AuthUser. destruct (e.(jar) !! _) as [sid|]; [|done].
  unfold catch. destruct (session.load_and_touch _ _ _ _ d) as [[[v|]|] d1] eqn:E; try done.
  intros [= <- <-]. by eapply f_session_user.
Qed.
Lemma form_confined u j i e req s :
  u.(users.is_admin) = false → wf (the_db s) →
  confined u.(users.id) (router.writes_denials req) s
    (on_hub (router.post c asset_ver source_url version e.(fresh) e.(random) e.(now)
       snapshot_json u j i req) s).
Proof.
  intros Hn Hwf. destruct (router.admin_form req) eqn:Ha.
  - destruct (router.admin_form_refused c asset_ver source_url version e.(fresh) e.(random)
      e.(now) snapshot_json u j i req s.(hub) Ha Hn) as (a & o & Hlog).
    apply confined_db; unfold on_hub, with_hub; cbn; rewrite Hlog; [apply foreign_refl|done].
  - destruct (router.post_own c asset_ver source_url version e.(fresh) e.(random) e.(now)
      snapshot_json u j i req s.(hub) Ha Hwf) as (_ & Hm & Hf & Hp & _).
    by split_and!.
Qed.
Lemma as_user_confined e k s uid m :
  (match (session_user e (the_db s)).1 with
   | Ok u => Some (u.(users.id), u.(users.is_admin)) | Err _ => None end) = Some (uid, false) →
  wf (the_db s) →
  (∀ u s1, u.(users.id) = uid → u.(users.is_admin) = false → wf (the_db s1) →
     confined uid m s1 (k u s1)) →
  confined uid m s (as_user e k s).
Proof.
  intros Hp Hwf Hk. unfold as_user. pose proof (session.wf_AuthUser e.(jar)
    c.(config.session_idle_ttl_secs) c.(config.session_absolute_ttl_secs) e.(now)
    (the_db s) Hwf) as Hd. change (session.AuthUser _ _ _ _) with (session_user e) in Hd.
  destruct (session_user e (the_db s)) as [[u|] d] eqn:E; [|done].
  injection Hp as <- Hn. eapply confined_trans; [|by apply Hk].
  apply confined_db; [by apply session_user_own in E|done].
Qed.

(** What leaves the database as it is. *)
Lemma passkey_start_confined uid m u cid t s :
  confined uid m s (on_registrations (webauthn.add_passkey_start u cid t) s).
Proof.
  assert (preserves (both (of_db (eq (the_db s))) (λ _, True))
    (webauthn.add_passkey_start u cid t)) as Hk.
  { unfold webauthn.add_passkey_start, webauthn.start_add_credential. parts. by intros k _. }
  unfold on_registrations. destruct (Hk (logged s, s.(reg_states))) as [Hd _]; [done|].
  destruct (webauthn.add_passkey_start _ _ _ _) as [r [[d l] k]]. unfold of_db in Hd. cbn in Hd. subst d.
  by apply confined_db; [apply foreign_refl|].
Qed.
Lemma decision_confined uid m u j i req choice csrf code t s :
  confined uid m s (on_codes (authorize.decision c u j i req choice csrf code t) s).
Proof.
  assert (preserves (both (of_db (eq (the_db s))) (λ _, True))
    (authorize.decision c u j i req choice csrf code t)) as Hk.
  { unfold authorize.decision. parts. by intros k _. }
  unfold on_codes. destruct (Hk (logged s, s.(codes))) as [Hd _]; [done|].
  destruct (authorize.decision _ _ _ _ _ _ _ _ _ _) as [r [[d l] k]]. unfold of_db in Hd. cbn in Hd. subst d.
  by apply confined_db; [apply foreign_refl|].
Qed.

(** The bearer token's own row is all that authentication touches. *)
Lemma bearer_own path header i t l endpoint a l' :
  wf l.1 → proxy.require_bearer c signer path header i t l = (Ok (proxy.Forward endpoint a), l') →
  foreign a.(proxy.user_id) l.1 l'.1.
Proof.
  destruct l as [d g]. intros Hwf. unfold proxy.require_bearer.
  destruct (proxy.endpoint_candidate path) as [cand|]; [|done].
  destruct (proxy.bearer header) as [tok|]; [|done].
  destruct (tokens.looks_like_pat tok).
  - unfold bind at 1, on_fst at 1, gets at 1. cbn [fst snd].
    destruct (tokens.resolve_valid _ _ _) as [[uid tid]|] eqn:Et; [|done].
    intros Hr. change (proxy.authorize c uid None None (Some tid) i cand
      ((tokens.touch tid t d).2, g) = (Ok (proxy.Forward endpoint a), l')) in Hr.
    apply proxy.authorize_forward in Hr as (-> & _ & row & _ & _ & -> & _).
    apply tokens.resolve_valid_Some in Et as (r & Hr & <- & _); [|done].
    apply (f_pat_touch r.(pat.user_id)). intros r' Hr'. congruence.
  - destruct (keys.verify_access_token _ _ _ _) as [claims|]; [|done].
    intros (-> & _)%proxy.authorize_forward. apply foreign_refl.
Qed.

(** A management call is dispatched for the binding of its session. *)
Lemma call_tool_bound key d bs answer name args ctx x a :
  ctx.(server.parts_endpoint) = Some proxy.Management → ctx.(server.parts_user) = Some a →
  server.is_management_tool name = true →
  (server.call_tool c key d bs slow answer elapsed result_bytes name args ctx x).2.(server.bound) =
  (server.bind_session key d a x).(server.bound).
Proof.
  intros He Hu Hm. unfold server.call_tool, server.endpoint, bind, lift. rewrite He, Hm. cbn.
  unfold server.bind, server.authed, bind, lift. rewrite Hu. cbn.
  destruct (server.bind_session_bound key d a x) as (b & Hb & _).
  unfold server.read_bound, bind, gets. rewrite Hb. cbn.
  by unfold server.manage, bind, modify, lift.
Qed.
Lemma dispatched_Some ctx name x who op :
  dispatched ctx name x = Some (who, op) →
  ∃ a b, ctx.(server.parts_endpoint) = Some proxy.Management ∧
    ctx.(server.parts_user) = Some a ∧ x.(server.bound) = Some b ∧
    server.is_management_tool name = true ∧
    who.(server.caller_user_id) = b.(server.user_id) ∧
    who.(server.caller_admin) = b.(server.admin).
Proof.
  unfold dispatched. destruct ctx.(server.parts_endpoint) as [[|]|]; [|done..].
  destruct ctx.(server.parts_user) as [a|]; [|done].
  destruct x.(server.bound) as [b|]; [|done].
  destruct (server.is_management_tool name); [|done]. intros [= <- <-]. by exists a, b.
Qed.
Lemma dispatch_confined e who op args s :
  who.(server.caller_admin) = false → wf (the_db s) →
  confined who.(server.caller_user_id) false s (on_hub (dispatch e who op args) s).
Proof.
  intros Hn Hwf. destruct (run_own c e.(fresh) e.(now) pretty_json parse_snapshot stats_json
    free_slots mcp_sessions who op (default [] args) s.(hub) (or_intror Hn) Hwf)
    as (_ & Hf & Hp & _).
  unfold on_hub, with_hub. rewrite dispatch_run.
  destruct (management.run _ _ _ _ _ _ _ _ who op (default [] args) s.(hub)) as [r h'].
  cbn in Hf, Hp. split_and!; destruct (tool_table.action_for op); cbn;
    first [by apply foreign_without_denials|by intros _|exact Hp].
Qed.
Lemma handle_mcp_confined e a endpoint op s b :
  (server.bind_session e.(session_key) (the_db s) a
     (session_of e.(session_key) s)).(server.bound) = Some b →
  b.(server.admin) = false → wf (the_db s) →
  confined b.(server.user_id) false s
    (handle_mcp e {| server.parts_user := Some a; server.parts_endpoint := Some endpoint |} op s).
Proof.
  intros Hb Hn Hwf. assert (∀ x, confined b.(server.user_id) false s
    (put_session e.(session_key) x s)) as Hput
    by (intros x; apply confined_db; [apply foreign_refl|done]).
  destruct op; cbn [handle_mcp]; try apply Hput.
  set (ctx := {| server.parts_user := Some a; server.parts_endpoint := Some endpoint |}).
  destruct (dispatched ctx name _) as [[who op]|] eqn:Ed; [|apply Hput].
  apply dispatched_Some in Ed as (a' & b' & He & Hu & Eb & Em & Hid & Hadm).
  rewrite (call_tool_bound _ _ _ _ _ _ _ _ a) in Eb by done. rewrite Hb in Eb. injection Eb as <-.
  eapply confined_trans; [apply Hput|]. rewrite <- Hid.
  apply dispatch_confined; [by rewrite Hadm|done].
Qed.

(** C1: tenancy, end to end.  Take any request the hub serves as a user who is not an
    administrator — by the session cookie for forms, pages, consents and passkeys, by
    the bearer token for the MCP endpoints.  Whatever it is and whatever it carries,
    afterwards every account, invite and client, every row of every other user —
    servers, secrets, files, groups, tokens, sessions, credentials — and every other
    user's pool are what they were; the three forms that rewrite per-credential denials
    may touch other users' denials too. *)
Theorem tenancy_end_to_end e call s uid :
  wf (the_db s) → principal e call s = Some (uid, false) →
  confined uid (rewrites_denials call) s (serve e call s).
Proof.
  intros Hwf Hp. destruct call; cbn [principal serve rewrites_denials] in *; try done.
  - apply as_user_confined; [done..|]. intros u s1 <- Hn Hw. by apply form_confined.
  - apply as_user_confined; [done..|]. intros u s1 _ _ _. by apply confined_db; [apply foreign_refl|].
  - apply as_user_confined; [done..|]. intros u s1 _ _ _. apply passkey_start_confined.
  - apply as_user_confined; [done..|]. intros u s1 _ _ _.
    apply decision_confined.
  - unfold mcp. destruct (proxy.require_bearer _ _ _ _ _ _ _) as [[[endpoint a| |]|] l] eqn:Er;
      try done.
    pose proof (proxy.wf_require_bearer c signer path header (info e) e.(now) (logged s) Hwf) as Hd.
    rewrite Er in Hd. apply bearer_own in Er; [|done].
    apply bind_Some in Hp as (b & Hb & [= <- Hn]).
    assert (b.(server.user_id) = a.(proxy.user_id)) as Hu.
    { destruct (server.bind_session_bound e.(session_key) l.1 a
        (session_of e.(session_key) (with_logged l s)))
        as (b' & Hb' & Hu). congruence. }
    eapply confined_trans; [|by apply (handle_mcp_confined _ _ _ _ (with_logged l s))].
    apply confined_db; [by rewrite Hu|done].
Qed.
End system.

(** ** Witnesses *)
Definition uuid0 : UuidCrate := {| uuid_parse := Some |}.
Definition world0 : World := {|
  pretty_json := λ _, "{}"; snapshot_json := λ _, "{}"; parse_snapshot := λ _, None;
  stats_json := λ _, json.Null; slow := λ _, false; result_bytes := λ _, 0%Z;
  read_bytes := λ _, 0%Z; prompt_bytes := λ _, 0%Z; elapsed := 5; free_slots := 0;
  mcp_sessions := 0 |}.
Definition cfg0 : config.Config := oauth_witness.cfg0.
Definition signer1 : keys.Signer :=
  {| keys.kid := "k1"; keys.issuer := cfg0.(config.base_url) |}.
Definition env0 : Env := {|
  now := 50; jar := router.jar0; http_headers := ∅; fresh := fresh0; random := "r";
  session_key := "m" |}.
Definition jwt1 : Jwt keys.AccessClaims := oauth_witness.jwt0 (oauth_witness.claims0 "a").
#[local] Existing Instances machine0 url0 backend.http0 shlex0 aead0 digest0 launch.children0
  webauthn.wa0 uuid0 jwt1 world0 signing.p256_0 signing.b64_0.
(** The signed-in session of the account [u], and a start on such a database. *)
Definition signed_in : Db := (session.create "s" "u" store.info0 900 10 db2).2.
Definition drawn0 : startup.Drawn := {|
  startup.kid := "k1"; startup.pem := "-----BEGIN k1"; startup.key_nonce := nonce0;
  startup.env_nonces := λ _ _, nonce0; startup.random := "r"; startup.metrics_nonce := nonce0 |}.
Definition disk0 : startup.Disk := {|
  startup.disk_db := signed_in; startup.links := ∅; startup.signing_keys := ∅;
  startup.disk_files := ∅ |}.
Definition start0 := startup.new cfg0 ∅
  (λ _ _, Ok tt) false drawn0 5 disk0.
Definition sys0 : Sys := booted start0.2 "mcphub_metrics_r".
Definition delete0 : Call := Form (router.ServersDelete "i" router.form0).
Definition after0 : Sys := serve cfg0 signer1 "1" "src" "v" env0 delete0 sys0.

Lemma wf_signed_in : wf signed_in.
Proof. apply session.wf_session_create, wf_db2. Qed.
Lemma system_invariant_witness :
  (the_db after0).(user_server_instances) = ∅ ∧ wf (the_db after0).
Proof.
  split; [vm_compute; reflexivity|].
  apply (inv_db cfg0), (system_invariant cfg0 signer1 "1" "src" "v").
  eapply later; [|apply Served].
  eapply (at_start _ _ _ _ _ ∅ (λ _ _, Ok tt) false drawn0 5 disk0); [apply wf_signed_in|].
  vm_compute. reflexivity.
Defined.
Lemma tenancy_end_to_end_witness :
  principal cfg0 signer1 env0 delete0 sys0 = Some ("u", false) ∧
  foreign "u" (the_db sys0) (the_db after0).
Proof.
  assert (principal cfg0 signer1 env0 delete0 sys0 = Some ("u", false)) as Hp
    by (vm_compute; reflexivity).
  split; [exact Hp|].
  apply (tenancy_end_to_end cfg0 signer1 "1" "src" "v" env0 delete0 sys0 "u"); [|exact Hp|reflexivity].
  change (wf start0.2.(startup.disk_db)). apply startup.wf_new, wf_signed_in.
Defined.
End system.
