(* ===== verification/Trail.v ===== *)
(** * The trail of credentials

    Every account, passkey, session, access token, refresh token and authorization code
    that appears while the hub runs is on the audit log, as a successful action of the
    user who holds it. *)

From S2P Require Import Prelude Strs Schema External Fixtures Json Users Invites Sessions Tokens.
From S2P Require Import Access Groups Config Instances OauthStore OauthServer McpAuth Webauthn Status.
From S2P Require Import AuditLog Sandbox Backend Gitsrc Pool Startup Tenancy Hub Custody Launch ToolTable.
From S2P Require Import Server Management Isolation Web Router Views System.
Open Scope string_scope.
Open Scope hub_scope.

Module trail.
Import hub custody.

(** A longer log. *)
Definition extends (g0 g : list audit.Entry) : Prop := ∃ es, g = (g0 ++ es)%list.
#[global] Instance extends_preorder : PreOrder extends.
Proof.
  split; [intros g; exists []; by rewrite app_nil_r|].
  intros g1 g2 g3 [a ->] [b ->]. exists (a ++ b)%list. by rewrite app_assoc.
Qed.
Lemma extends_snoc g0 g e : extends g0 g → extends g0 (g ++ [e])%list.
Proof. intros Hg. etrans; [exact Hg|by exists [e]]. Qed.

(** ** What issues nothing *)
Section calm.
Context `{Machine} `{UrlCrate} `{HttpCrate} `{Shlex} `{Aead} `{Digest} `{launch.Children}.
Context `{WebauthnRs} `{UuidCrate}.
Context (d0 : Db) (g0 : list audit.Entry).
(** No new credential, and the log goes on. *)
Abbreviation calm := (kept (fewer d0) (λ _, True) (extends g0)).
Abbreviation keeps := (preserves calm).

Lemma calm_audit {E} e : keeps (hub.audit (E:=E) e).
Proof. apply kept_audit. intros l. apply extends_snoc. Qed.
Ltac walk := repeat first [part | apply preserves_for_each; intros ? | apply kept_on_db].
Lemma calm_deactivate uid : keeps (accounts.deactivate_user uid).
Proof. unfold accounts.deactivate_user. apply kept_on_db. parts. Qed.
Lemma calm_purge dir uid : keeps (accounts.purge_user dir uid).
Proof. unfold accounts.purge_user. walk. Qed.
Lemma calm_regenerate random nonce : keeps (on_key (metrics.regenerate_key random nonce)).
Proof. apply kept_on_key, fewer_regenerate_key. Qed.
Lemma calm_sandbox base dir u :
  keeps (on_db_files (sandbox.sandbox_or_fail hub_uid dir_mode is_root base dir u)).
Proof. apply kept_on_db_files, sandbox.preserves_sandbox_or_fail. Qed.
Lemma calm_update_instance dir inst def sb now :
  keeps (on_build (gitsrc.update_instance hub_uid dir_mode hub_env output coreutils
    symlink_metadata canonicalize dir inst def sb now)).
Proof. apply kept_on_build, fewer_update_instance. Qed.
Lemma calm_mark_dirty {E} uid : keeps (mark_dirty (E:=E) uid).
Proof. by apply kept_mark_dirty. Qed.
Hint Resolve calm_sandbox calm_update_instance calm_mark_dirty : hub.
Lemma calm_probe {E} c now uid inst : keeps (launch.probe_instance (E:=E) c now uid inst).
Proof.
  unfold launch.probe_instance, launch.probe_one, launch.check_url, launch.launched,
    launch.config_error, launch.unbuilt, launch.error_with, instances.resolve_def. walk.
Qed.
Lemma calm_spawn {E} c now inst sb : keeps (launch.spawn_one (E:=E) c now inst sb).
Proof.
  unfold launch.spawn_one, launch.start_one, launch.mark_status, launch.check_url,
    launch.launched, launch.config_error, launch.unbuilt, launch.error_with,
    instances.resolve_def. walk.
Qed.
Lemma calm_snapshot {E} c now json iid b :
  keeps (launch.refresh_snapshot (E:=E) c now json iid b).
Proof. unfold launch.refresh_snapshot. walk. Qed.
Lemma calm_skipped {E} now insts reason : keeps (launch.mark_skipped (E:=E) now insts reason).
Proof. apply preserves_for_each. intros i. apply kept_on_status. Qed.
Hint Resolve calm_audit calm_deactivate calm_purge calm_regenerate calm_probe calm_spawn
  calm_snapshot calm_skipped : hub.

(** *** Forms *)
Section forms.
Context (c : config.Config) (asset_ver source_url version : string).
Context (fresh : management.Drawn) (random : string) (now : Z)
  (snapshot_json : backend.CapabilitiesSnapshot → string).
Context (user : users.User) (jar : gmap string string) (info : users.RequestInfo).
Import web.
Definition issues (req : router.Request) : bool :=
  match req with router.AccountTokensCreate _ _ _ => true | _ => false end.
Lemma calm_csrf a o s : keeps (check_csrf c asset_ver source_url version user jar info a o s).
Proof. unfold check_csrf, audit_denied. walk. Qed.
Lemma calm_silently s : keeps (check_csrf_silently c asset_ver source_url version jar s).
Proof. unfold check_csrf_silently. walk. Qed.
Lemma calm_admin a o : keeps (check_admin asset_ver source_url version user info a o).
Proof. unfold check_admin, audit_denied. walk. Qed.
Lemma calm_audit_ok {E} a o : keeps (audit_ok (E:=E) user info a o).
Proof. apply calm_audit. Qed.
Lemma calm_audit_denied {E} a o why : keeps (audit_denied (E:=E) user info a o why).
Proof. apply calm_audit. Qed.
Lemma calm_servers_changed {E} : keeps (servers_changed (E:=E) user).
Proof. unfold servers_changed. walk. Qed.
Lemma calm_restart_if_enabled {E} i : keeps (restart_if_enabled (E:=E) user i).
Proof. unfold restart_if_enabled. walk. Qed.
Lemma calm_config_file iid text : keeps (apply_config_file c fresh iid text).
Proof. unfold apply_config_file. walk. Qed.
Lemma calm_owned i : keeps (owned_instance asset_ver source_url version user i).
Proof. unfold owned_instance. walk. Qed.
Lemma calm_owned_group i : keeps (owned_group asset_ver source_url version user i).
Proof. unfold owned_group. walk. Qed.
Lemma calm_connected i : keeps (connected asset_ver source_url version now user i).
Proof. unfold connected. walk. Qed.
Hint Resolve calm_csrf calm_silently calm_admin calm_audit_ok calm_audit_denied
  calm_servers_changed calm_restart_if_enabled calm_config_file calm_owned calm_owned_group
  calm_connected : hub.
Lemma calm_target a h s :
  keeps (resolve_admin_target c asset_ver source_url version user jar info a h s).
Proof. unfold resolve_admin_target. walk. Qed.
Hint Resolve calm_target : hub.
Lemma calm_post req :
  issues req = false →
  keeps (router.post c asset_ver source_url version fresh random now snapshot_json user jar info
    req).
Proof.
  destruct req; try done; intros _; cbn [router.post].
  all: unfold remove_passkey, revoke_other_sessions, revoke_connection, update_connection_label,
    update_connection_access, revoke_token, update_token_access, save_git_credential,
    delete_git_credential, regenerate_metrics_key, disable_user, enable_user, delete_user,
    create_server, refresh_capabilities, save_config, test_server, enable_server, disable_server,
    set_enabled_and_redirect, restart_server, update_server, delete_server, create_group,
    update_group, delete_group, create_invite, create_recovery, revoke_invite, or_error, audited,
    record_probe, instances.resolve_def.
  all: walk.
Qed.
End forms.

(** *** Tools *)
Section tools.
Context (c : config.Config) (fresh : management.Drawn) (now : Z)
  (pretty_json : json.Value → string) (parse_snapshot : string → option backend.CapabilitiesSnapshot)
  (stats_json : stats.RuntimeStats → json.Value) (free_slots sessions : Z).
Import management.
Lemma calm_env_text fields : keeps (env_text fields).
Proof. induction fields as [|[k v] l IH]; cbn; walk. Qed.
Lemma calm_instance_ids uid l : keeps (instance_ids uid l).
Proof. induction l as [|v l IH]; cbn; unfold find_instance; walk. Qed.
Hint Resolve calm_env_text calm_instance_ids : hub.
Lemma calm_run who op args :
  keeps (run c fresh now pretty_json parse_snapshot stats_json free_slots sessions who op args).
Proof.
  unfold run. repeat (case_match; [|]).
  all: unfold whoami, get_my_client, set_my_client, list_my_servers, add_server, edit_server,
    set_env, set_config_file, update_server, set_enabled, remove, list_tokens, revoke_token,
    list_git_credentials, set_git_credential, delete_git_credential, list_groups, create_group,
    update_group, delete_group, runtime_stats, list_users, create_invite, list_invites,
    revoke_invite, create_recovery, set_user_disabled, delete_user, invalid_params.
  all: unfold servers_changed, restart_if_enabled, admin_target, by_handle, find_group, put_members,
    instance_ids_from_args, def_from_args, env_from_args, check_repo, parse_command_arg,
    find_instance, require_admin, require_client, ok_json, instances.resolve_def.
  all: unfold db_internal, db_bad_request, req_str, opt_secs.
  all: walk.
Qed.
Hint Resolve calm_run : hub.
Lemma calm_dispatch who op args :
  keeps (dispatch c fresh now pretty_json parse_snapshot stats_json free_slots sessions who op args).
Proof. unfold dispatch. walk. Qed.
End tools.
End calm.

(** ** What is on record *)
(** The actions that issue a credential of the kind. *)
Definition issuing (k : Credential) : list string :=
  match k with
  | Account _ => ["auth.register"]
  | Passkey _ => ["auth.register"; "recovery.use"; "passkey.add"]
  | Session _ => ["auth.register"; "recovery.use"; "passkey.add"; "auth.login"]
  | AccessToken _ => ["token.create"]
  | RefreshToken _ => ["oauth.token"]
  | AuthCode _ => ["oauth.consent"]
  end.
(** The entry says that [uid] was issued it. *)
Definition issued (k : Credential) (uid : string) (e : audit.Entry) : Prop :=
  e.(audit.outcome) = "ok" ∧ e.(audit.what).(audit.actor_id) = uid ∧
  e.(audit.what).(audit.action) ∈ issuing k.

Section traced.
Context {St : Type} (holder : St → Credential → option string) (log : St → list audit.Entry).
(** Between two states every new credential is recorded. *)
Definition traced (s s' : St) : Prop :=
  ∃ es, log s' = (log s ++ es)%list ∧
  ∀ k uid, holder s' k = Some uid → holder s k = Some uid ∨ Exists (issued k uid) es.
#[global] Instance traced_preorder : PreOrder traced.
Proof.
  split.
  - intros s. exists []. rewrite app_nil_r. split; [done|]. by left.
  - intros s1 s2 s3 (a & Ha & H12) (b & Hb & H23). exists (a ++ b)%list.
    split; [by rewrite Hb, Ha, app_assoc|]. intros k uid Hk. rewrite Exists_app.
    destruct (H23 k uid Hk) as [H2|]; [|tauto]. destruct (H12 k uid H2); tauto.
Qed.
Lemma traced_fewer s s' :
  extends (log s) (log s') → (∀ k uid, holder s' k = Some uid → holder s k = Some uid) →
  traced s s'.
Proof. intros [es He] Hf. exists es. split; [done|]. intros k uid Hk. left. by apply Hf. Qed.
(** One entry for whatever [P] allows. *)
Lemma traced_one (P : Credential → string → Prop) s s' e :
  log s' = (log s ++ [e])%list →
  (∀ k uid, holder s' k = Some uid → holder s k = Some uid ∨ P k uid) →
  (∀ k uid, P k uid → issued k uid e) → traced s s'.
Proof.
  intros Hl Hk HP. exists [e]. split; [done|]. intros k uid Hh.
  destruct (Hk k uid Hh) as [|Hp]; [by left|right]. by constructor; apply HP.
Qed.
End traced.

(** The database and the log; with the codes; the hub. *)
Abbreviation on_record := (traced (λ l : Logged, owner_in l.1) snd).
Definition holder_of (st : OState) (k : Credential) : option string :=
  match k with
  | AuthCode code => row_owner (λ _ p, p.(store.auth).(store.ac_user_id)) st.2 code
  | _ => owner_in st.1.1 k
  end.
Abbreviation codes_on_record := (traced holder_of (λ st, st.1.2)).
Abbreviation hub_on_record := (traced (λ h, owner_in h.(db)) audit_log).

Lemma calm_on_record {E A} (m : M Hub E A) h :
  (∀ d0 g0, preserves (kept (fewer d0) (λ _, True) (extends g0)) m) → hub_on_record h (m h).2.
Proof.
  intros Hm. destruct (Hm h.(db) h.(audit_log) h) as (Hf & _ & Hl); [by split_and!|].
  by apply traced_fewer.
Qed.

(** ** What issues a credential *)
Lemma by_steps {St E A} (R : St → St → Prop) `{!PreOrder R} (m : M St E A) :
  (∀ s, R s (m s).2) → ∀ s0, preserves (R s0) m.
Proof. intros Hm s0 s Hs. etrans; [exact Hs|apply Hm]. Qed.

(** *** An access token, by a form *)
Section token_form.
Context `{Machine} `{UrlCrate} `{HttpCrate} `{Shlex} `{Aead} `{Digest} `{launch.Children}.
Context (c : config.Config) (asset_ver source_url version : string).
Context (fresh : management.Drawn) (random : string) (now : Z)
  (snapshot_json : backend.CapabilitiesSnapshot → string).
Context (user : users.User) (jar : gmap string string) (info : users.RequestInfo).
Lemma pat_on_record nm ttl h :
  let made := on_db (tokens.create user.(users.id) nm ttl fresh.(management.new_id) random now) h in
  match made.1 with
  | Ok _ => hub_on_record h
      (hub.log (audit.ok (web.event user info "token.create" nm)) made.2)
  | Err _ => made.2 = h
  end.
Proof.
  unfold on_db, tokens.create, bind. cbn -[tokens.insert_pat].
  destruct (tokens.insert_pat _ _ _) as [[[]|e] d'] eqn:E; cbn [fst snd ret].
  - apply tokens.insert_pat_Ok in E as (-> & _).
    eapply (traced_one _ _ (λ k uid, k = AccessToken fresh.(management.new_id) ∧
      uid = user.(users.id))); [done| |].
    + intros k uid Hk. destruct k; cbn in *; try by left.
      by apply row_owner_insert in Hk as [[-> <-]|]; [right|left].
    + intros k uid [-> ->]. split_and!; [done..|]. by left.
  - apply tokens.insert_pat_Err in E as ->. by destruct h.
Qed.
Lemma create_token_on_record nm days s h :
  hub_on_record h
    (web.create_token c asset_ver source_url version fresh random now user jar info nm days s h).2.
Proof.
  unfold web.create_token, web.check_csrf, web.audit_denied. unfold bind at 1 2 3.
  destruct (web.valid_csrf c jar s); cbn [ret fail hub.audit modify bind fst snd].
  2: { by apply traced_fewer; [exists [audit.denied "csrf" (web.event user info "token.create" "")]|]. }
  unfold refuse_if. destruct (is_empty (trim nm)); cbn [ret fail bind]; [reflexivity|].
  pose proof (pat_on_record (trim nm) (web.token_days days * 86400) h) as Hp. cbv zeta in Hp.
  unfold map_err, bind. destruct (on_db _ h) as [[made|e] h']; cbn [fst snd] in *; [exact Hp|].
  by subst.
Qed.
Lemma post_on_record req h :
  hub_on_record h (router.post c asset_ver source_url version fresh random now snapshot_json user
    jar info req h).2.
Proof.
  destruct (issues req) eqn:Hi.
  - destruct req; try done. apply create_token_on_record.
  - apply calm_on_record. intros d0 g0. by apply calm_post.
Qed.
End token_form.

(** *** Accounts, passkeys and sessions, by a ceremony *)
(** New credentials are among those that [P] allows. *)
Definition gains (P : Credential → string → Prop) (d0 d : Db) : Prop :=
  ∀ k uid, owner_in d k = Some uid → owner_in d0 k = Some uid ∨ P k uid.
Lemma gains_fewer P d0 d d' : gains P d0 d → fewer d d' → gains P d0 d'.
Proof. intros Hg Hf k uid Hk. by apply Hg, Hf. Qed.
Lemma gains_keeps {E A} P d0 (m : M Db E A) :
  (∀ d1, preserves (fewer d1) m) → preserves (gains P d0) m.
Proof. intros Hm d Hd. eapply gains_fewer; [exact Hd|]. by apply Hm. Qed.
(** A row added to a table. *)
Lemma gains_add P d0 d d' k0 :
  gains P d0 d → (∀ k uid, owner_in d' k = Some uid → k = k0 ∨ owner_in d k = Some uid) →
  (∀ uid, owner_in d' k0 = Some uid → P k0 uid) → gains P d0 d'.
Proof.
  intros Hg Hk HP k uid Ho. destruct (Hk k uid Ho) as [->|]; [by right; apply HP|by apply Hg].
Qed.

Section sign_in.
Context `{WebauthnRs} `{UuidCrate} `{Digest}.
Context (P : Credential → string → Prop) (d0 : Db) (uid : string).
Context (Hp : ∀ id, P (Passkey id) uid) (Hs : ∀ sid, P (Session sid) uid).
Lemma gains_passkey row_id pk nm now :
  preserves (gains P d0) (users.insert_credential row_id uid pk nm now).
Proof.
  intros d Hd. unfold users.insert_credential. repeat case_match; try exact Hd.
  eapply (gains_add P d0 d _ (Passkey row_id)); [exact Hd| |].
  - intros cr u Hk. destruct cr; cbn in *; try by right.
    apply row_owner_insert in Hk as [[-> _]|]; [by left|by right].
  - intros u. cbn. unfold row_owner. rewrite lookup_insert_eq. intros [= <-]. apply Hp.
Qed.
Lemma gains_session sid info ttl now :
  preserves (gains P d0) (session.create sid uid info ttl now).
Proof.
  intros d Hd. unfold session.create. repeat case_match; try exact Hd.
  eapply (gains_add P d0 d _ (Session sid)); [exact Hd| |].
  - intros cr u Hk. destruct cr; cbn in *; try by right.
    apply row_owner_insert in Hk as [[-> _]|]; [by left|by right].
  - intros u. cbn. unfold row_owner. rewrite lookup_insert_eq. intros [= <-]. apply Hs.
Qed.
End sign_in.

(** What only logs: the database's credentials are fewer, the log is longer. *)
Section quiet_handlers.
Context `{UrlCrate} `{WebauthnRs} `{UuidCrate} `{Digest} `{Jwt keys.AccessClaims}.
Context (c : config.Config) (signer : keys.Signer) (d0 : Db) (g0 : list audit.Entry).
Abbreviation calm := (both (fewer d0) (extends g0)).
Abbreviation calm_too := (both calm (λ _, True)).
Lemma calm_emit {E} e : preserves (E:=E) calm (emit e).
Proof. intros l [Hd Hl]. split; [exact Hd|by apply extends_snoc]. Qed.
Lemma any_state {T E A} (m : M T E A) : preserves (λ _, True) m.
Proof. done. Qed.
Hint Resolve calm_emit any_state : hub.
Lemma calm_policy hd invite : preserves (fewer d0) (webauthn.registration_policy c hd invite).
Proof. unfold webauthn.registration_policy. parts. Qed.
Lemma calm_advance uid res : preserves (fewer d0) (webauthn.advance_counter uid res).
Proof. unfold webauthn.advance_counter. parts. Qed.
Hint Resolve calm_policy calm_advance : hub.
Lemma calm_register_start req uid cid t :
  preserves calm_too (webauthn.register_start c req uid cid t).
Proof. unfold webauthn.register_start. parts. Qed.
Lemma calm_add_credential u code cid t :
  preserves calm_too (webauthn.start_add_credential u code cid t).
Proof. unfold webauthn.start_add_credential. parts. Qed.
Hint Resolve calm_add_credential : hub.
Lemma calm_recover_start hd cd cid t :
  preserves calm_too (webauthn.recover_start hd cd cid t).
Proof. unfold webauthn.recover_start. parts. Qed.
Lemma calm_login_start hd cid t : preserves calm_too (webauthn.login_start hd cid t).
Proof. unfold webauthn.login_start. parts. Qed.
Lemma calm_logout j i s t : preserves calm (webauthn.logout c j i s t).
Proof. unfold webauthn.logout. parts. Qed.
Lemma calm_register req i rid secret t : preserves calm (register.register req i rid secret t).
Proof. unfold register.register. parts. Qed.
Lemma calm_bearer path header i t : preserves calm (proxy.require_bearer c signer path header i t).
Proof. unfold proxy.require_bearer, proxy.authorize, proxy.reject. parts. Qed.
End quiet_handlers.

Section finishes.
Context `{WebauthnRs} `{UuidCrate} `{Digest} (c : config.Config).
Context (jar : gmap string string) (info : users.RequestInfo) (now : Z).
Lemma resolved_gains ceremony d uid d' :
  webauthn.account_for ceremony now d uid d' →
  gains (λ k u, u = uid ∧ webauthn.action_of ceremony.(webauthn.purpose) ∈ issuing k) d d'.
Proof.
  intros [-> Hc]. set (u0 := webauthn.reg_user_id ceremony) in *.
  destruct (webauthn.purpose ceremony) as [adm inv|[code|]]; cbn [webauthn.action_of].
  - destruct Hc as (_ & r & _ & _ & Hd).
    eapply (gains_add _ d d _ (Account u0)); [by left| |].
    + intros cr u Hk. destruct inv as [code|]; [destruct Hd as (i & _ & _ & ->)|subst d'];
        destruct cr; cbn in *; try (by right);
        apply row_owner_insert in Hk as [[-> _]|]; first [by left|by right].
    + intros u Hk. assert (u = u0) as ->; [|split; [done|by left]].
      destruct inv as [code|]; [destruct Hd as (i & _ & _ & ->)|subst d']; cbn in Hk;
        unfold row_owner in Hk; rewrite lookup_insert_eq in Hk; by injection Hk as <-.
  - destruct Hc as (_ & i & _ & _ & ->). intros k u Hk. by left.
  - subst d'. intros k u Hk. by left.
Qed.
Lemma action_passkey p id : webauthn.action_of p ∈ issuing (Passkey id).
Proof. destruct p as [? ?|[?|]]; cbn; set_solver. Qed.
Lemma action_session p sid : webauthn.action_of p ∈ issuing (Session sid).
Proof. destruct p as [? ?|[?|]]; cbn; set_solver. Qed.

Lemma register_finish_on_record cookie cred row_id sid l m :
  wf l.1 →
  on_record l (webauthn.register_finish c cookie jar cred info row_id sid now (l, m)).2.1.
Proof.
  intros Hwf. unfold webauthn.register_finish.
  destruct cookie as [cid|]; [|reflexivity]. unfold bind at 1, ok_or at 1, ret at 1.
  unfold bind at 1, on_snd at 1, webauthn.take at 1. cbn [fst snd].
  destruct (m !! cid) as [ceremony|]; [|reflexivity]. unfold bind at 1, ok_or at 1, ret at 1.
  destruct (finish_passkey_registration _ _) as [pk|]; [|reflexivity].
  unfold bind at 1, ok_or at 1, ret at 1. unfold bind at 1, on_fst at 1. cbn [fst snd].
  pose proof (webauthn.resolve_account_cases ceremony info now l Hwf) as Hc.
  destruct (webauthn.resolve_account ceremony info now l) as [[uid|e] [d1 g1]]; cbn [fst snd].
  2: { rewrite Hc. reflexivity. }
  destruct Hc as [Ha (en & Hg & Hok & Hact & Hactor)]. cbn [fst snd] in *.
  set (P := λ k u, u = uid ∧ webauthn.action_of ceremony.(webauthn.purpose) ∈ issuing k).
  assert (preserves (both (both (gains P l.1) (eq g1)) (λ _ : gmap string webauthn.RegCeremony, True))
    (on_fst (on_fst (map_err webauthn.internal
        (users.insert_credential row_id uid pk "passkey" now))) ;;;
     let* s := on_fst (on_fst (map_err webauthn.internal
       (session.create sid uid info c.(config.session_idle_ttl_secs) now))) in
     ret {| webauthn.sid := s; webauthn.redirect := session.take_next jar |})) as Hrest.
  { apply preserves_bind.
    - apply both_on_fst, both_on_fst, preserves_map_err, gains_passkey.
      intros id. split; [done|apply action_passkey].
    - intros _. apply preserves_bind; [|intros s; apply preserves_ret].
      apply both_on_fst, both_on_fst, preserves_map_err, gains_session.
      intros s. split; [done|apply action_session]. }
  destruct (Hrest (d1, g1, delete cid m)) as [[Hd Hl] _].
  { split; [split; [by apply resolved_gains|done]|done]. }
  eapply (traced_one _ _ P _ _ en); [exact (eq_trans (eq_sym Hl) Hg)|exact Hd|].
  intros k u [-> Hk]. split_and!; [done|done|]. by rewrite Hact.
Qed.

Lemma on_record_db {E A} (m : M Db E A) l0 :
  (∀ d0, preserves (fewer d0) m) →
  preserves (λ st : Logged * gmap string webauthn.AuthCeremony, on_record l0 st.1)
    (on_fst (on_fst m)).
Proof.
  intros Hm [[d g] k] Hl. etrans; [exact Hl|]. apply traced_fewer; [by exists []; rewrite app_nil_r|].
  by apply (Hm d d).
Qed.
Lemma login_finish_on_record cookie cred sid l m :
  on_record l (webauthn.login_finish c cookie jar cred info sid now (l, m)).2.1.
Proof.
  unfold webauthn.login_finish.
  enough (preserves (λ st, on_record l st.1)
    (webauthn.login_finish c cookie jar cred info sid now)) as Hf by by apply (Hf (l, m)).
  unfold webauthn.login_finish. apply preserves_bind; [apply preserves_ok_or|intros cid].
  apply preserves_bind; [by intros [? ?]|intros taken].
  apply preserves_bind; [apply preserves_ok_or|intros ceremony].
  destruct (finish_passkey_authentication _ _) as [res|].
  2: { apply preserves_bind; [|intros _; apply preserves_fail]. intros [[d g] k] Hl.
       etrans; [exact Hl|]. apply traced_fewer; [by eexists [_]|done]. }
  apply preserves_bind; [apply on_record_db; intros d0; apply calm_advance|intros _].
  apply preserves_bind; [apply on_record_db; auto with hub|intros _].
  intros [[d g] k] Hl. etrans; [exact Hl|]. set (uid := webauthn.auth_user_id ceremony).
  unfold bind at 1, on_fst at 1 2, map_err. cbn [fst snd].
  set (P := λ k u, u = uid ∧ "auth.login" ∈ issuing k).
  assert (gains P d (session.create sid uid info c.(config.session_idle_ttl_secs) now d).2) as Hg.
  { apply gains_session; [intros s; split; [done|cbn; set_solver]|by left]. }
  destruct (session.create _ _ _ _ _ d) as [[s|e] d'] eqn:E; cbn [fst snd] in *.
  - eapply (traced_one _ _ P); [done|exact Hg|]. intros k0 u [-> Hk]. by split_and!.
  - apply traced_fewer; [by exists []; rewrite app_nil_r|]. unfold session.create in E.
    repeat case_match; by simplify_eq.
Qed.
End finishes.

(** *** Codes and refresh tokens *)
Section oauth.
Context `{UrlCrate} `{Digest} `{Jwt keys.AccessClaims}.
Context (c : config.Config) (signer : keys.Signer) (info : users.RequestInfo).

(** The codes and the credentials of the database at most those of [st0]. *)
Definition fewer_state (st0 st : OState) : Prop :=
  fewer st0.1.1 st.1.1 ∧
  fewer_rows (λ _ p, p.(store.auth).(store.ac_user_id)) st0.2 st.2.
Lemma fewer_state_on_record st st' :
  fewer_state st st' → extends st.1.2 st'.1.2 → codes_on_record st st'.
Proof.
  intros [Hf Hc] Hl. apply traced_fewer; [exact Hl|]. intros k uid Hk.
  destruct k; cbn -[owner_in] in *; first [by apply Hc|by apply Hf].
Qed.
Abbreviation keeps st0 := (preserves (codes_on_record st0)).
Lemma codes_db {E A} (m : M Db E A) st0 :
  (∀ d0, preserves (fewer d0) m) → keeps st0 (on_fst (on_fst m)).
Proof.
  intros Hm [[d g] k] Hl. etrans; [exact Hl|]. apply fewer_state_on_record.
  - split; [by apply (Hm d d)|apply fewer_rows_refl].
  - by exists []; rewrite app_nil_r.
Qed.
Lemma codes_emit {E} e st0 : keeps st0 (on_fst (emit (E:=E) e)).
Proof.
  intros [[d g] k] Hl. etrans; [exact Hl|]. apply fewer_state_on_record; [|by exists [e]].
  split; [reflexivity|apply fewer_rows_refl].
Qed.
Lemma codes_take {F} (f : anyhow → F) code t st0 :
  keeps st0 (on_snd (map_err f (store.take_code code t))).
Proof.
  intros [[d g] k] Hl. etrans; [exact Hl|]. apply fewer_state_on_record.
  - split; [reflexivity|apply fewer_rows_delete].
  - by exists []; rewrite app_nil_r.
Qed.
(** A computation on the database and the log, in the presence of the codes. *)
Lemma codes_logged {E A} (m : M Logged E A) st0 :
  (∀ l, on_record l (m l).2) → keeps st0 (on_fst m).
Proof.
  intros Hm [l k] Hl. etrans; [exact Hl|]. destruct (Hm l) as (es & He & Hk).
  exists es. split; [exact He|]. intros cr uid. destruct cr; cbn -[owner_in]; [apply Hk..|by left].
Qed.

Lemma issue_on_record user cid aud sc res fam fresh t l :
  on_record l (token.issue_tokens signer info user cid aud sc res fam fresh t l).2.
Proof.
  destruct (token.issue_tokens _ _ _ _ _ _ _ _ _ _ l) as [[resp|e] l'] eqn:E; cbn [snd].
  - apply token.issue_tokens_Ok in E as (_ & _ & r & -> & _ & Hu & _).
    eapply (traced_one _ _ (λ k uid, uid = user.(users.id) ∧ "oauth.token" ∈ issuing k));
      [done| |].
    + intros cr uid Hk. destruct cr; cbn in *; try by left.
      apply row_owner_insert in Hk as [[_ <-]|]; [right|by left]. rewrite Hu. set_solver.
    + intros cr uid [-> Hk]. by split_and!.
  - by apply token.atomic_issue_tokens in E as ->.
Qed.
Lemma logged_db {E A} (m : M Db E A) l0 :
  (∀ d0, preserves (fewer d0) m) → preserves (on_record l0) (on_fst m).
Proof.
  intros Hm [d g] Hl. etrans; [exact Hl|].
  apply traced_fewer; [by exists []; rewrite app_nil_r|by apply (Hm d d)].
Qed.
Lemma logged_emit {E} e l0 : preserves (on_record l0) (emit (E:=E) e).
Proof. intros [d g] Hl. etrans; [exact Hl|]. by apply traced_fewer; [exists [e]|]. Qed.
Hint Resolve codes_db codes_emit codes_take codes_logged logged_db logged_emit : hub.
Lemma fewer_client cid secret d0 : preserves (fewer d0) (token.authenticate_client cid secret).
Proof. intros d Hd. by rewrite token.authenticate_client_state. Qed.
Lemma fewer_find_by_id {E} uid d0 : preserves (E:=E) (fewer d0) (users.find_by_id uid).
Proof. by intros d. Qed.
Lemma issues_tokens user cid aud sc res fam fresh t l0 :
  preserves (on_record l0) (token.issue_tokens signer info user cid aud sc res fam fresh t).
Proof. apply by_steps; [apply _|]. intros l. apply issue_on_record. Qed.
Hint Resolve fewer_client fewer_find_by_id issues_tokens issue_on_record : hub.
Lemma rotate_on_record cid row fresh t l0 :
  preserves (on_record l0) (token.rotate c signer info cid row fresh t).
Proof. unfold token.rotate. parts. Qed.
Lemma accept_on_record cid o l0 : preserves (on_record l0) (token.accept_outcome info cid o).
Proof. unfold token.accept_outcome. parts. Qed.
Hint Resolve rotate_on_record accept_on_record : hub.
Lemma refresh_on_record form fresh t l :
  on_record l (token.refresh c signer info form fresh t l).2.
Proof.
  enough (preserves (on_record l) (token.refresh c signer info form fresh t)) as Hr by by apply Hr.
  unfold token.refresh. parts.
Qed.
Hint Resolve refresh_on_record : hub.
Lemma token_on_record form drawn t st :
  codes_on_record st (token.token c signer info form drawn t st).2.
Proof.
  enough (keeps st (token.token c signer info form drawn t)) as Ht by by apply Ht.
  unfold token.token, token.authorization_code, token.exchange_code. parts.
Qed.
Lemma decision_on_record user jar req choice csrf code t st :
  codes_on_record st (authorize.decision c user jar info req choice csrf code t st).2.
Proof.
  enough (keeps st (authorize.decision c user jar info req choice csrf code t)) as Hd by by apply Hd.
  unfold authorize.decision. destruct (negb _); [parts|]. destruct req as [| |p]; [parts..|].
  destruct (negb _); [parts|]. destruct (negb _); [parts|].
  intros [[d g] k] Hl. etrans; [exact Hl|]. unfold catch, on_snd, store.insert_code. cbn [fst snd].
  set (live := store.retain_live t k).
  assert (fewer_rows (λ _ p, p.(store.auth).(store.ac_user_id)) k live) as Hlive
    by apply fewer_rows_filter.
  destruct (_ <=? _)%nat; cbn [fst snd].
  - apply fewer_state_on_record; [by split|]. by exists []; rewrite app_nil_r.
  - eapply (traced_one _ _ (λ cr uid, cr = AuthCode code ∧ uid = user.(users.id))); [done| |].
    + intros cr uid Hk. destruct cr; cbn -[owner_in] in *; try by left.
      apply row_owner_insert in Hk as [[-> <-]|Hk]; [by right|left]. by apply Hlive.
    + intros cr uid [-> ->]. split_and!; [done..|]. by left.
Qed.
End oauth.

(** ** The running hub *)
Section system.
Import system.
Context `{Machine} `{UrlCrate} `{HttpCrate} `{Shlex} `{Aead} `{Digest} `{launch.Children}.
Context `{WebauthnRs} `{UuidCrate} `{Jwt keys.AccessClaims} `{World}.
Context (c : config.Config) (signer : keys.Signer) (asset_ver source_url version : string).
Abbreviation step := (step c signer asset_ver source_url version).
Abbreviation serve := (serve c signer asset_ver source_url version).

(** Who holds a credential. *)
Definition holder (s : Sys) (k : Credential) : option string :=
  holder_of (logged s, s.(codes)) k.
Abbreviation recorded := (traced holder (λ s : Sys, s.(hub).(audit_log))).

Lemma recorded_hub h s : hub_on_record s.(hub) h → recorded s (with_hub h s).
Proof.
  intros (es & He & Hk). exists es. split; [exact He|]. intros k uid.
  destruct k; cbn -[owner_in]; [apply Hk..|by left].
Qed.
Lemma recorded_logged l s : on_record (logged s) l → recorded s (with_logged l s).
Proof. intros Hl. by apply recorded_hub. Qed.
Lemma recorded_on_hub {E A} (m : M Hub E A) s :
  (∀ d0 g0, preserves (kept (fewer d0) (λ _, True) (extends g0)) m) → recorded s (on_hub m s).
Proof. intros Hm. by apply recorded_hub, calm_on_record. Qed.
Lemma recorded_db {E A} (m : M Db E A) s :
  (∀ d0, preserves (fewer d0) m) → recorded s (on_database m s).
Proof.
  intros Hm. apply recorded_hub, traced_fewer; [by exists []; rewrite app_nil_r|].
  by apply (Hm (the_db s) (the_db s)).
Qed.
Lemma recorded_on_logged {E A} (m : M Logged E A) s :
  (∀ d0 g0, preserves (both (fewer d0) (extends g0)) m) → recorded s (on_logged m s).
Proof.
  intros Hm. destruct (Hm (the_db s) s.(hub).(audit_log) (logged s)) as [Hf Hl]; [by split|].
  by apply recorded_logged, traced_fewer.
Qed.
Lemma recorded_codes {E A} (m : M OState E A) s :
  codes_on_record (logged s, s.(codes)) (m (logged s, s.(codes))).2 → recorded s (on_codes m s).
Proof.
  unfold on_codes. destruct (m _) as [r [[d g] k]]. intros (es & He & Hk). by exists es.
Qed.
Lemma recorded_registrations {E A} (m : M (Logged * gmap string webauthn.RegCeremony) E A) s :
  on_record (logged s) (m (logged s, s.(reg_states))).2.1 → recorded s (on_registrations m s).
Proof.
  unfold on_registrations. destruct (m _) as [r [[d g] k]]. intros Hl.
  by apply (recorded_logged _ s) in Hl.
Qed.
Lemma recorded_logins {E A} (m : M (Logged * gmap string webauthn.AuthCeremony) E A) s :
  on_record (logged s) (m (logged s, s.(auth_states))).2.1 → recorded s (on_logins m s).
Proof.
  unfold on_logins. destruct (m _) as [r [[d g] k]]. intros Hl.
  by apply (recorded_logged _ s) in Hl.
Qed.
Lemma calm_state {T E A} (m : M (Logged * T) E A) l k :
  (∀ d0 g0, preserves (both (both (fewer d0) (extends g0)) (λ _, True)) m) →
  on_record l (m (l, k)).2.1.
Proof.
  intros Hm. destruct (Hm l.1 l.2 (l, k)) as [[Hf Hl] _]; [by split|]. by apply traced_fewer.
Qed.
Lemma recorded_as_user e k s : (∀ u s1, recorded s1 (k u s1)) → recorded s (as_user c e k s).
Proof.
  intros Hk. unfold as_user.
  assert (recorded s (on_database (session_user c e) s)) as Hd.
  { apply recorded_db. intros d0. apply fewer_AuthUser. }
  unfold on_database in Hd. destruct (session_user c e (the_db s)) as [[u|] d]; [|exact Hd].
  etrans; [exact Hd|apply Hk].
Qed.

(** *** MCP requests *)
Section mcp.
Context (g0 : list audit.Entry).
Abbreviation logs := (λ x : server.Session, extends g0 x.(server.log)).
Lemma logs_bind key d ctx : preserves logs (server.bind key d ctx).
Proof.
  unfold server.bind. parts. intros x Hx. unfold modify, server.bind_session. cbn.
  case_match; [by apply extends_snoc|done].
Qed.
Lemma logs_record u v w us k :
  preserves (E:=server.McpError) logs (modify (server.record u v w us k)).
Proof. by intros x Hx. Qed.
Hint Resolve logs_bind logs_record : hub.
Lemma logs_group_backends key d bs ctx gid :
  preserves logs (server.group_backends key d bs ctx gid).
Proof. unfold server.group_backends. parts. Qed.
Hint Resolve logs_group_backends : hub.
Lemma logs_list_with {A} key d bs f ctx (m : bool → list A) :
  preserves logs (server.list_with c key d bs slow f ctx m).
Proof. unfold server.list_with. parts. Qed.
Lemma logs_fetch {A} key d bs a b sp f (size : A → Z) ctx :
  preserves logs (server.fetch c key d bs slow a b sp f size ctx).
Proof. unfold server.fetch. parts. Qed.
Lemma logs_call_tool key d bs answer name args ctx :
  preserves logs
    (server.call_tool c key d bs slow answer elapsed result_bytes name args ctx).
Proof. unfold server.call_tool, server.manage, server.read_bound. parts. Qed.
End mcp.
Lemma recorded_session {E A} (m : M server.Session E A) key s :
  (∀ g0, preserves (λ x, extends g0 x.(server.log)) m) →
  recorded s (put_session key (m (session_of key s)).2 s).
Proof. intros Hm. apply traced_fewer; [by apply Hm|intros k uid; by destruct k]. Qed.
Lemma recorded_handle_mcp e ctx op s : recorded s (handle_mcp c e ctx op s).
Proof.
  destruct op; cbn [handle_mcp];
    try (apply recorded_session; intros g0; first [apply logs_list_with|apply logs_fetch]).
  destruct (dispatched _ _ _) as [[who op]|].
  - etrans; [|apply recorded_on_hub; intros d0 g0; apply calm_dispatch].
    apply recorded_session. intros g0. apply logs_call_tool.
  - apply recorded_session. intros g0. apply logs_call_tool.
Qed.
Lemma recorded_mcp e path header op s : recorded s (mcp c signer e path header op s).
Proof.
  unfold mcp.
  assert (recorded s (on_logged (proxy.require_bearer c signer path header (info e) e.(now)) s))
    as Hb by (apply recorded_on_logged; intros d0 g0; apply calm_bearer).
  unfold on_logged in Hb.
  destruct (proxy.require_bearer _ _ _ _ _ _ _) as [[[endpoint a| |]|] l]; try exact Hb.
  etrans; [exact Hb|apply recorded_handle_mcp].
Qed.

(** *** Every request, and the rest *)
Lemma recorded_serve e call s : wf (the_db s) → recorded s (serve e call s).
Proof.
  intros Hwf. destruct call; cbn [system.serve].
  - apply recorded_as_user. intros u s1. apply recorded_hub, post_on_record.
  - by apply recorded_as_user.
  - apply recorded_db. intros d0. apply fewer_MaybeUser.
  - reflexivity.
  - apply recorded_on_logged. intros d0 g0. apply calm_logout.
  - apply recorded_registrations, calm_state. intros d0 g0. apply calm_register_start.
  - by apply recorded_registrations, register_finish_on_record.
  - apply recorded_as_user. intros u s1. apply recorded_registrations, calm_state. intros d0 g0.
    apply calm_add_credential.
  - apply recorded_logins, calm_state. intros d0 g0. apply calm_login_start.
  - apply recorded_logins, login_finish_on_record.
  - apply recorded_registrations, calm_state. intros d0 g0. apply calm_recover_start.
  - apply recorded_on_logged. intros d0 g0. apply calm_register.
  - apply recorded_db. intros d0. apply fewer_MaybeUser.
  - apply recorded_as_user. intros u s1. apply recorded_codes, decision_on_record.
  - apply recorded_codes, token_on_record.
  - apply recorded_mcp.
Qed.
Lemma recorded_same h s :
  owner_in h.(db) = owner_in (the_db s) → h.(audit_log) = s.(hub).(audit_log) →
  recorded s (with_hub h s).
Proof.
  intros Ho Hl. apply recorded_hub, traced_fewer; [by rewrite Hl|]. intros k uid. by rewrite Ho.
Qed.
Lemma recorded_step s s' : wf (the_db s) → step s s' → recorded s s'.
Proof.
  intros Hwf. destruct 1 as [e call|uid i n p _ _|uid t|t|t|inst sb t|insts reason t|iid b t| |key].
  - by apply recorded_serve.
  - by apply recorded_same.
  - by apply recorded_same.
  - by apply recorded_same.
  - apply recorded_db. intros d0. apply fewer_delete_expired.
  - apply recorded_on_hub. intros d0 g0. apply calm_spawn.
  - apply recorded_on_hub. intros d0 g0. apply calm_skipped.
  - apply recorded_on_hub. intros d0 g0. apply calm_snapshot.
  - by apply recorded_same.
  - by apply recorded_same.
Qed.

(** C3: No credential appears unrecorded.  However long the hub runs from a state of
    good standing, whatever requests it serves and whatever happens in between: its audit
    log only grows, and whoever holds an account, a passkey, a session, an access token, a
    refresh token or an authorization code at the end held the very same at the start, or
    the log has since gained the entry of a successful action, of that user, that issues
    credentials of its kind. *)
Theorem credentials_leave_a_trace s s' :
  inv c s → rtc step s s' →
  ∃ es, s'.(hub).(audit_log) = (s.(hub).(audit_log) ++ es)%list ∧
  ∀ k uid, holder s' k = Some uid →
    holder s k = Some uid ∨
    ∃ e, e ∈ es ∧ e.(audit.outcome) = "ok" ∧ e.(audit.what).(audit.actor_id) = uid ∧
      e.(audit.what).(audit.action) ∈ issuing k.
Proof.
  intros Hs Hrun. assert (recorded s s') as (es & He & Hk).
  { induction Hrun as [s|s s1 s' Hstep _ IH]; [reflexivity|].
    etrans; [apply recorded_step; [apply Hs|exact Hstep]|]. apply IH. by eapply sys_step. }
  exists es. split; [exact He|]. intros k uid Hh. destruct (Hk k uid Hh) as [|Hx]; [by left|right].
  apply Exists_exists in Hx as (e & Hin & ? & ? & ?). by exists e.
Qed.
End system.

End trail.

(** ** Witness *)
Module trail_witness.
Import hub system custody trail.
#[local] Existing Instances machine0 url0 backend.http0 shlex0 aead0 digest0 launch.children0
  webauthn.wa0 uuid0 jwt1 world0.
(** The account [u] has a login in progress, and finishes it. *)
Definition half_signed_in : Sys := {|
  hub := (with_db db2 sys0).(hub); codes := ∅; reg_states := ∅;
  auth_states := {["c" := {| webauthn.auth_state := tt : @AuthState webauthn.wa0;
    webauthn.auth_user_id := "u"; webauthn.auth_created_at := 40 |}]};
  bindings := ∅; counters := ∅ |}.
Definition finish : Call := LoginFinish (Some "c") ("pk" : @AuthResponse webauthn.wa0) "sid1".
Definition in_session : Sys := serve cfg0 signer1 "1" "src" "v" env0 finish half_signed_in.
Lemma inv_half : inv cfg0 half_signed_in.
Proof.
  split; cbn.
  - apply wf_db2.
  - intros uid i. vm_compute. done.
  - rewrite map_size_empty. unfold store.AUTH_CODE_CAP. lia.
  - by rewrite map_size_empty.
  - by rewrite map_size_singleton.
  - left. rewrite map_size_empty. lia.
Qed.
Lemma credentials_leave_a_trace_witness :
  holder half_signed_in (Session "sid1") = None ∧
  ∃ e, e ∈ in_session.(hub).(audit_log) ∧ e.(audit.outcome) = "ok" ∧
    e.(audit.what).(audit.actor_id) = "u" ∧ e.(audit.what).(audit.action) ∈ issuing (Session "sid1").
Proof.
  assert (holder half_signed_in (Session "sid1") = None) as Hn by (vm_compute; reflexivity).
  split; [exact Hn|].
  destruct (credentials_leave_a_trace cfg0 signer1 "1" "src" "v" half_signed_in in_session)
    as (es & Hl & Hk); [apply inv_half|eapply rtc_l; [apply Served|apply rtc_refl]|].
  destruct (Hk (Session "sid1") "u") as [Ho|(e & Hin & Hrest)];
    [vm_compute; reflexivity|by rewrite Hn in Ho|].
  exists e. split; [|exact Hrest]. rewrite Hl. apply elem_of_app. by right.
Defined.
End trail_witness.
