(* ===== verification/Http.v ===== *)
(** * Requests and their answers (lib.rs [build_router])

    [respond] is what the browser or client gets for a call, from the state [serve] finds;
    [secured] is the layer every answer passes.  The theorems follow a browser: what its
    cookies are worth, and where an answer can send it. *)

From S2P Require Import Prelude Strs Schema External Fixtures Json Html Markup Users Invites Sessions.
From S2P Require Import Tokens Groups Config Instances Oauth OauthStore OauthServer McpAuth Webauthn.
From S2P Require Import Status AuditLog Backend Pool Startup Discovery Tenancy Hub Launch ToolTable.
From S2P Require Import Server Management Isolation Web Pages AccountPages Router Wire Views System.
Open Scope string_scope.
Open Scope hub_scope.

Module http.
Import hub system wire.

(** What other code puts into an answer: the text of a URL with pairs appended to its
    query, the challenge of a ceremony, rmcp's own answers, the public key, the
    process-wide counters of the exposition and SQLite's count of the tools in a snapshot. *)
Class Answers := {
  with_query : string → list (string * string) → string;
  challenge : json.Value;
  service : proxy.McpEndpoint → proxy.AuthedUser → Z * Body;
  public_jwk : json.Value;
  oauth_internal_errors : Z; db_busy_retries : Z;
  json_tools : string → Z;
}.

Section http.
Context `{Machine} `{UrlCrate} `{HttpCrate} `{Shlex} `{Aead} `{Digest} `{launch.Children}.
Context `{WebauthnRs} `{UuidCrate} `{Jwt keys.AccessClaims} `{World} `{Rmcp} `{SerdeJson} `{Answers}.
Context (c : config.Config) (signer : keys.Signer) (asset_ver source_url version : string).
Abbreviation h1 f := (f c asset_ver source_url version).
Abbreviation post e := (router.post c asset_ver source_url version e.(fresh) e.(random) e.(now)
  snapshot_json).

(** The extractor [AuthUser] in front of a handler. *)
Definition signed_in (e : Env) (s : Sys) (k : users.User → Sys → Response) : Response :=
  let '(r, d) := session_user c e (the_db s) in
  match r with Ok u => k u (with_db d s) | Err _ => login_redirect end.
Definition of_post (r : result web.Response web.Response) : Response :=
  of_web match r with Ok a | Err a => a end.
(** [MaybeUser]. *)
Definition visitor (e : Env) (s : Sys) : option users.User :=
  match (maybe_user c e (the_db s)).1 with Ok u => u | Err _ => None end.
Definition scrape (header : option string) (s : Sys) : Response :=
  let h := s.(hub) in
  let n := pool.counts h.(pools) in
  match exposition.endpoint json_tools header h.(metrics_key) s.(counters)
    (stats.gather c.(config.limits) free_slots mcp_sessions (Z.of_nat n.1, Z.of_nat n.2)
       h.(runtime_status) h.(db)) oauth_internal_errors db_busy_retries h.(db) with
  | Some text => {| status := 200; headers := [("content-type", "text/plain; version=0.0.4; charset=utf-8")];
                    cookies := []; body := TextBody text |}
  | None => answer 401 (TextBody ("unauthorized" +:+ html.LFs))
  end.

Definition respond (e : Env) (call : Call) (s : Sys) : Response :=
  match call with
  | Form req => signed_in e s (λ u s, of_post (post e u e.(jar) (info e) req s.(hub)).1)
  | View v => signed_in e s (λ u s, of_web (views.get c asset_ver source_url version e.(now) v u
      e.(jar) s.(hub)))
  | Visit (LoginPage next) => sign_in_page (h1 web.login_page (visitor e s) next)
  | Visit (RegisterPage next) => sign_in_page (h1 web.register_page (visitor e s) next)
  | Visit RecoverPage =>
      of_web (account_pages.recover_page asset_ver source_url version (visitor e s))
  | Unguarded LogoutGet => login_redirect
  | Unguarded Healthz => answer 200 (TextBody "ok")
  | Unguarded (WellKnown path) => metadata_response (metadata.well_known c public_jwk path)
  | Unguarded (Scrape header) => scrape header s
  | Logout submitted =>
      logged_out c match (webauthn.logout c e.(jar) (info e) submitted e.(now) (logged s)).1 with
                   | Ok done => done | Err _ => false end
  | RegisterStart req new_uid cid =>
      started c challenge
        (webauthn.register_start c req new_uid cid e.(now) (logged s, s.(reg_states))).1
  | RegisterFinish cookie cred row_id new_sid =>
      finished c (webauthn.register_finish c cookie e.(jar) cred (info e) row_id new_sid e.(now)
        (logged s, s.(reg_states))).1
  | AddPasskeyStart cid => signed_in e s (λ u s, started c challenge
      (webauthn.add_passkey_start u cid e.(now) (logged s, s.(reg_states))).1)
  | LoginStart handle cid =>
      started c challenge
        (webauthn.login_start handle cid e.(now) (logged s, s.(auth_states))).1
  | LoginFinish cookie cred new_sid =>
      finished c (webauthn.login_finish c cookie e.(jar) cred (info e) new_sid e.(now)
        (logged s, s.(auth_states))).1
  | RecoverStart handle code cid =>
      started c challenge
        (webauthn.recover_start handle code cid e.(now) (logged s, s.(reg_states))).1
  | RegisterClient req random_secret =>
      registration_response
        (register.register req (info e) e.(random) random_secret e.(now) (logged s)).1
  | Authorize q raw =>
      authorize_response c with_query e.(jar)
        (authorize.authorize c (visitor e s) q raw (maybe_user c e (the_db s)).2)
  | Decision req choice submitted => signed_in e s (λ u s,
      match (authorize.decision c u e.(jar) (info e) req choice submitted e.(random) e.(now)
               (logged s, s.(codes))).1 with
      | Ok r => decision_response c with_query e.(jar) r
      | Err _ => login_redirect
      end)
  | Token form drawn =>
      token_response (token.token c signer (info e) form drawn e.(now) (logged s, s.(codes))).1
  | Mcp path header _ =>
      match (proxy.require_bearer c signer path header (info e) e.(now) (logged s)).1 with
      | Ok o => mcp_response service o
      | Err _ => answer 404 NoBody
      end
  end.

(** ** Facts *)
Ltac sealed := cbn; repeat (apply List.Forall_cons;
    [repeat split; solve [done|by left|by right]|]); try apply List.Forall_nil.
(** A cookie no script, no other site's form and, behind TLS, no plain connection gets. *)
Lemma sealed_started ch r : Forall (sealed c) (started c ch r).(cookies).
Proof. destruct r; sealed. Qed.
Lemma sealed_finished r : Forall (sealed c) (finished c r).(cookies).
Proof. destruct r; sealed. Qed.
Lemma sealed_of_web r : Forall (sealed c) (of_web r).(cookies).
Proof. destruct r; sealed. Qed.
Lemma sealed_with_cookies cks r :
  Forall (sealed c) cks → Forall (sealed c) r.(cookies) →
  Forall (sealed c) (with_cookies cks r).(cookies).
Proof. intros. by apply Forall_app. Qed.
Lemma sealed_authorize jar r : Forall (sealed c) (authorize_response c with_query jar r).(cookies).
Proof. destruct r; sealed. Qed.
Lemma sealed_decision jar r : Forall (sealed c) (decision_response c with_query jar r).(cookies).
Proof.
  destruct r as [cleared r]. apply sealed_with_cookies; [destruct cleared; sealed|].
  apply sealed_authorize.
Qed.
Lemma sealed_next next : Forall (sealed c) (option_list (web.with_next c next)).
Proof.
  unfold web.with_next. destruct next as [n|]; [|sealed]. cbn.
  destruct (session.safe_next n); sealed.
Qed.
Lemma sealed_sign_in u next page :
  Forall (sealed c) (sign_in_page match u : option users.User with
    | Some _ => (None, web.Redirect "/")
    | None => (web.with_next c next, page)
    end).(cookies).
Proof.
  apply sealed_with_cookies; [|apply sealed_of_web]. destruct u; [sealed|]. apply sealed_next.
Qed.
Lemma sealed_signed_in e s k :
  (∀ u s, Forall (sealed c) (k u s).(cookies)) → Forall (sealed c) (signed_in e s k).(cookies).
Proof.
  intros Hk. unfold signed_in. destruct (session_user _ _ _) as [[u|] d]; [apply Hk|sealed].
Qed.
Lemma sealed_respond e call s : Forall (sealed c) (respond e call s).(cookies).
Proof.
  destruct call as [req|v|[next|next|]|[| |path|header]|?|?|?|?|?|?|?|?|?|?|?|path header op];
    cbn [respond].
  all: try (apply sealed_signed_in; intros).
  all: try first [apply sealed_started|apply sealed_finished|apply sealed_of_web|
                  apply sealed_authorize|apply sealed_sign_in].
  all: try solve [sealed].
  - destruct (metadata.well_known _ _ _); sealed.
  - unfold scrape. destruct (exposition.endpoint _ _ _ _ _ _ _ _); sealed.
  - destruct (webauthn.logout _ _ _ _ _ _).1 as [[]|]; sealed.
  - destruct (register.register _ _ _ _ _ _).1; sealed.
  - destruct (authorize.decision _ _ _ _ _ _ _ _ _ _).1; [apply sealed_decision|sealed].
  - destruct (token.token _ _ _ _ _ _ _).1; sealed.
  - destruct (proxy.require_bearer _ _ _ _ _ _ _).1 as [[]|]; sealed.
Qed.

(** Where an answer may send the browser, and on what grounds. *)
Definition destination (e : Env) (call : Call) (s : Sys) (target : string) : Prop :=
  views.local target = true ∨
  ∃ uri params, target = with_query uri params ∧
    match call with
    | Authorize q _ => uri = q.(authorize.redirect_uri) ∧
        ∃ client, store.get_client q.(authorize.client_id) (the_db s) = Some client ∧
          uri ∈ client.(store.redirect_uris)
    | Decision (authorize.authreq p) _ _ => uri = p.(authorize.p_redirect_uri)
    | _ => False
    end.
Lemma header_answer st b : header "location" (answer st b) = [].
Proof. done. Qed.
Lemma location_of_web r : views.good r → ∀ t, t ∈ header "location" (of_web r) → views.local t = true.
Proof.
  destruct r as [to|st text]; cbn.
  - intros Hl t Ht. apply list_elem_of_singleton in Ht as ->. exact Hl.
  - intros _ t Ht. by apply elem_of_nil in Ht.
Qed.

Ltac no_location := let t := fresh in let Ht := fresh in
  intros t Ht; cbn in Ht; first [by apply elem_of_nil in Ht
  | apply list_elem_of_singleton in Ht as ->; by left].
Lemma authorize_redirect user q raw d uri params :
  authorize.authorize c user q raw d = authorize.redirect uri params →
  uri = q.(authorize.redirect_uri) ∧
  ∃ client, store.get_client q.(authorize.client_id) d = Some client ∧
    uri ∈ client.(store.redirect_uris).
Proof.
  unfold authorize.authorize.
  destruct (store.get_client _ d) as [client|]; [|done]. destruct (existsb _ _) eqn:Ee; [|done].
  assert (∀ ps, authorize.redirect_with q.(authorize.redirect_uri) ps = authorize.redirect uri params →
    uri = q.(authorize.redirect_uri)) as Hr.
  { intros ps. unfold authorize.redirect_with. by destruct (url_parse _); [intros [= -> _]|]. }
  intros Hq. assert (uri = q.(authorize.redirect_uri)) as ->.
  { cbn [negb] in Hq. repeat case_match; by eauto. }
  split; [done|]. exists client. split; [done|].
  apply existsb_exists in Ee as (x & Hx & ->%String.eqb_eq). by apply list_elem_of_In.
Qed.
Lemma decision_redirect u jar i req choice csrf code t st b uri params :
  (authorize.decision c u jar i req choice csrf code t st).1 =
    Ok (b, authorize.redirect uri params) →
  ∃ p, req = authorize.authreq p ∧ uri = p.(authorize.p_redirect_uri).
Proof.
  unfold authorize.decision. destruct (negb _); [done|]. destruct req as [| |p]; [done..|].
  intros Hr. exists p. split; [done|]. revert Hr.
  assert (∀ ps, authorize.redirect_with p.(authorize.p_redirect_uri) ps = authorize.redirect uri params →
    uri = p.(authorize.p_redirect_uri)) as Hu.
  { intros ps. unfold authorize.redirect_with. by destruct (url_parse _); [intros [= -> _]|]. }
  destruct (negb _); [done|]. destruct (negb _).
  - intros [= _ Hr]. by eapply Hu.
  - unfold catch, on_snd, store.insert_code. destruct (_ <=? _)%nat; [done|].
    intros [= _ Hr]. by eapply Hu.
Qed.
Lemma maybe_user_clients e d : (maybe_user c e d).2.(oauth_clients) = d.(oauth_clients).
Proof.
  assert (preserves (λ d', d'.(oauth_clients) = d.(oauth_clients)) (maybe_user c e)) as Hp; [|by apply Hp].
  unfold maybe_user, session.MaybeUser. destruct (e.(jar) !! _); [|auto with hub].
  apply preserves_catch; [|intros [|]; auto with hub].
  unfold session.load_and_touch. apply preserves_bind; [auto with hub|]. intros [r|]; [|auto with hub].
  destruct (_ || _).
  - apply preserves_bind; [|auto with hub]. apply preserves_ignore. by intros d' Hd.
  - apply preserves_bind; [|intros _ d' Hd; exact Hd]. destruct (_ || _); [|auto with hub].
    apply preserves_ignore. by intros d' Hd.
Qed.

Context `{!DigestLaws} (Hasset : scanner.inert asset_ver) (Hversion : scanner.inert version).
Lemma destination_signed_in e call s k t :
  (∀ u s1, t ∈ header "location" (k u s1) → destination e call s t) →
  t ∈ header "location" (signed_in e s k) → destination e call s t.
Proof.
  intros Hk. unfold signed_in. destruct (session_user _ _ _) as [[u|] d]; [apply Hk|].
  revert t Hk. intros t _. revert t. no_location.
Qed.
Lemma answered_locally e call s r t :
  views.good r → t ∈ header "location" (of_web r) → destination e call s t.
Proof. intros Hg Ht. left. by eapply location_of_web. Qed.
Lemma get_page v u jar h now :
  header "location" (of_web (views.get c asset_ver source_url version now v u jar h)) = [].
Proof.
  assert (∀ k iid, (∀ p, header "location" (of_web (k p)) = []) →
    header "location" (of_web match pages.owned_with_def asset_ver source_url version u iid h with
                              | Err r => r | Ok p => k p end) = []) as Ho.
  { intros k iid Hk. unfold pages.owned_with_def. destruct (instances.get_owned _ _ _); [|done].
    destruct (instances.resolve_def _ _).1; [apply Hk|done]. }
  destruct v; cbn [views.get]; try done.
  - by apply (Ho (λ '(i, def), web.Page 200 (html.page_wide asset_ver source_url version
      i.(instances.display_name) (pages.server_body c now (pages.csrf_field jar c.(config.master_key))
        u.(users.id) i def h)))); intros [i def].
  - by apply (Ho (λ '(i, def), web.Page 200 (html.page_wide asset_ver source_url version
      i.(instances.display_name) (pages.capabilities_body now
        (pages.csrf_field jar c.(config.master_key)) i def h)))); intros [i def].
  - unfold account_pages.invites_page. by destruct (users.is_admin u).
  - unfold account_pages.users_page. by destruct (users.is_admin u).
  - unfold account_pages.stats_page. by destruct (users.is_admin u).
Qed.
Lemma destination_respond e call s t :
  t ∈ header "location" (respond e call s) → destination e call s t.
Proof.
  destruct call as [req|v|[next|next|]|[| |path|hd]|?|?|?|?|?|?|?|?|q raw|req choice submitted|?|path hd op];
    cbn [respond].
  all: try apply destination_signed_in; intros.
  all: try match goal with Ht : _ ∈ header _ (of_web (views.get _ _ _ _ _ _ _ _ _)) |- _ =>
    rewrite get_page in Ht; by apply elem_of_nil in Ht end.
  all: try solve [match goal with Ht : _ ∈ _ |- _ =>
    unfold started, finished, logged_out, metadata_response, scrape, registration_response,
      token_response, mcp_response, sign_in_page, web.login_page, web.register_page,
      account_pages.recover_page in Ht;
    repeat case_match; cbn in Ht;
    first [by apply elem_of_nil in Ht | apply list_elem_of_singleton in Ht as ->; by left] end].
  - pose proof (views.answers_post c asset_ver source_url version e.(fresh) e.(random) e.(now)
      snapshot_json Hasset Hversion u e.(jar) (info e) req s1.(hub)) as Hg. cbv beta in Hg.
    unfold of_post in *. destruct (post _ _ _ _ _ _).1; by eapply answered_locally.
  - match goal with Ht : _ ∈ header _ (authorize_response _ _ _ ?r) |- _ =>
      destruct r as [msg|err|uri params|next|nm hd p] eqn:Er; cbn in Ht;
      first [by apply elem_of_nil in Ht|apply list_elem_of_singleton in Ht as ->] end.
    + right. exists uri, params. split; [done|]. apply authorize_redirect in Er.
      unfold store.get_client in *. by rewrite maybe_user_clients in Er.
    + by left.
  - destruct (authorize.decision _ _ _ _ _ _ _ _ _ _).1 as [[b r]|] eqn:Ed.
    + destruct r as [msg|err|uri params|next|nm hd p];
        match goal with Ht : _ ∈ _ |- _ => cbn in Ht;
          first [by apply elem_of_nil in Ht|apply list_elem_of_singleton in Ht as ->] end.
      * right. exists uri, params. split; [done|].
        by apply decision_redirect in Ed as (p & -> & Hu).
      * by left.
    + match goal with Ht : _ ∈ _ |- _ => cbn in Ht; apply list_elem_of_singleton in Ht as -> end.
      by left.
Qed.

(** C30: Every answer, to whatever request, leaves the hub with the four
    headers that keep a page from being framed, sniffed, leaked by referrers or made to run
    inline scripts, each exactly once and whatever the handler set; every cookie it sets
    is kept from scripts, from other sites' requests and, behind TLS, from plain
    connections; it sends the browser to a path of the hub itself, or else to the
    redirect URI its client registered (or the one of the consent at hand); and an answer
    of the token endpoint that grants tokens is marked [no-store].  (Only that endpoint's:
    the page that shows a new personal access token and the registration that answers a
    client secret carry no such mark.) *)
Theorem responses_hardened e call s :
  let r := secured (respond e call s) in
  (∀ name value, (name, value) ∈ [("content-security-policy", CSP); ("referrer-policy", "no-referrer");
      ("x-content-type-options", "nosniff"); ("x-frame-options", "DENY")] →
     header name r = [value]) ∧
  Forall (sealed c) r.(cookies) ∧
  (∀ target, target ∈ header "location" r → destination e call s target) ∧
  ∀ form drawn t, call = Token form drawn → r.(body) = JsonBody (token_json t) →
    header "cache-control" r = ["no-store"].
Proof.
  cbv zeta. split_and!.
  - intros name value Hin. unfold secured. rewrite !header_overriding.
    repeat (apply elem_of_cons in Hin as [[= -> ->]|Hin]; [done|]). by apply elem_of_nil in Hin.
  - apply sealed_respond.
  - intros target. unfold secured. rewrite !header_overriding. apply destination_respond.
  - intros form drawn t -> Hb. unfold secured. rewrite !header_overriding. revert Hb.
    cbn [respond secured overriding body].
    by destruct (token.token _ _ _ _ _ _ _).1.
Qed.
End http.

(** ** A browser signs in and out *)
Section browser.
Context `{Machine} `{UrlCrate} `{HttpCrate} `{Shlex} `{Aead} `{Digest} `{launch.Children}.
Context `{WebauthnRs} `{UuidCrate} `{Jwt keys.AccessClaims} `{World} `{Rmcp} `{SerdeJson} `{Answers}.
Context `{CookieCrate} `{!CookieLaws}.
Context (c : config.Config) (signer : keys.Signer) (asset_ver source_url version : string).
Abbreviation respond := (respond c signer asset_ver source_url version).
Abbreviation serve := (serve c signer asset_ver source_url version).
Abbreviation cookie_key := (derive_cookie_key c.(config.master_key)).
Abbreviation idle := c.(config.session_idle_ttl_secs).
Abbreviation absolute := c.(config.session_absolute_ttl_secs).

(** A finished ceremony: a registration, a recovery, an added passkey or a login. *)
Definition finished_as (e : Env) (call : Call) (s : Sys) (f : webauthn.Finish) : Prop :=
  match call with
  | RegisterFinish cookie cred row_id new_sid =>
      (webauthn.register_finish c cookie e.(jar) cred (info e) row_id new_sid e.(now)
         (logged s, s.(reg_states))).1 = Ok f
  | LoginFinish cookie cred new_sid =>
      (webauthn.login_finish c cookie e.(jar) cred (info e) new_sid e.(now)
         (logged s, s.(auth_states))).1 = Ok f
  | _ => False
  end.
(** The row of a session begun now. *)
Definition begun (e : Env) (uid : string) (r : web_session.t) : Prop :=
  r.(web_session.user_id) = uid ∧ r.(web_session.created_at) = e.(now) ∧
  r.(web_session.expires_at) = i64_wrap (e.(now) + idle).

Lemma session_create_Ok id uid i ttl t d sid d' :
  session.create id uid i ttl t d = (Ok sid, d') →
  ∃ r, sid = id ∧ d' = set_web_sessions (insert id r) d ∧
    r.(web_session.user_id) = uid ∧ r.(web_session.created_at) = t ∧
    r.(web_session.expires_at) = i64_wrap (t + ttl).
Proof.
  unfold session.create. destruct (decide _); [done|]. destruct (decide _); [|done].
  intros [= <- <-]. by eexists.
Qed.
Lemma finished_session e call s f :
  finished_as e call s f →
  ∃ uid r, (the_db (serve e call s)).(web_sessions) !! f.(webauthn.sid) = Some r ∧ begun e uid r ∧
    f.(webauthn.redirect) = session.take_next e.(jar) ∧
    respond e call s = finished c (Ok f).
Proof.
  destruct call as [| | | | | |cookie cred row_id new_sid| | |cookie cred new_sid| | | | | |];
    cbn [finished_as]; try done; intros Hf; cbn [http.respond system.serve]; rewrite Hf;
    unfold on_registrations, on_logins;
    match goal with |- context [let '(_, _) := ?m in _] => destruct m as [r [l k]] eqn:Er end;
    cbn in Hf; subst r.
  - unfold webauthn.register_finish in Er. m_inv.
    match goal with Hc : session.create _ ?u _ _ _ _ = _ |- _ =>
      apply session_create_Ok in Hc as (r & -> & Hd & Hu & Hcr & Hex); exists u, r end.
    split_and!; [|done..]. unfold the_db. cbn. rewrite Hd. apply lookup_insert_eq.
  - unfold webauthn.login_finish in Er. m_inv.
    destruct (finish_passkey_authentication _ _) as [res|]; m_inv.
    match goal with Hc : session.create _ ?u _ _ _ _ = _ |- _ =>
      apply session_create_Ok in Hc as (r & -> & Hd & Hu & Hcr & Hex); exists u, r end.
    match goal with Hf : users.find_by_id _ _ = _ |- _ => apply users.find_by_id_Ok in Hf as [_ Hsame] end.
    match goal with He : emit _ _ = _ |- _ => apply emit_Ok in He; subst l end.
    split_and!; [|done..]. unfold the_db. cbn. rewrite Hsame, Hd. apply lookup_insert_eq.
Qed.
Lemma take_next_local j : views.local (session.take_next j) = true.
Proof.
  unfold session.take_next. destruct (j !! _) as [v|]; [|done]. unfold session.safe_next.
  destruct (starts_with "/" v && negb (starts_with "//" v)) eqn:E; [|done].
  cbn [andb]. destruct (negb (contains _ v)), (negb (contains_control v)); done.
Qed.
Lemma logout_run j i csrf t sid l :
  j !! session.SESSION_COOKIE = Some sid →
  session.check_csrf j c.(config.master_key) csrf = true →
  (webauthn.logout c j i csrf t l).1 = Ok true ∧
  (webauthn.logout c j i csrf t l).2.1.(web_sessions) !! sid = None.
Proof.
  intros Hj Hc. destruct l as [d g]. unfold webauthn.logout. rewrite Hc, Hj. cbn [negb].
  unfold bind at 1, catch, on_fst at 1. cbn [fst snd].
  unfold bind, on_fst, ignore. cbn [fst snd].
  destruct (session.user_for_session sid t d) as [[[u|]|] d1]; cbn;
    (split; [done|apply lookup_delete_eq]).
Qed.

(** C20: Signing in is what it promises, until signing out.  When a ceremony
    finishes — a registration, a recovery, an added passkey or a login — a session of its
    account begins, and the browser that takes the answer's cookies has that session and
    neither the ceremony nor the way back any more; it is sent to a path of the hub.  From
    then on, in whatever state the program is, its requests are those of that account,
    while the account is there and the session's deadlines lie ahead — the configured idle
    time at first; its pages carry a token that its forms are accepted with; and signing
    out with that token ends the session for every copy of the cookie and takes it from the
    browser. *)
Theorem sign_in_round_trip e call s f b :
  finished_as e call s f →
  let s1 := serve e call s in
  let b1 := receive cookie_key (respond e call s).(cookies) b in
  let sid := f.(webauthn.sid) in
  ∃ uid row,
    (the_db s1).(web_sessions) !! sid = Some row ∧ begun e uid row ∧
    (in_i64 (e.(now) + idle) → in_i64 (e.(now) + absolute) → ∀ t,
       (t < e.(now) + idle)%Z → (t < e.(now) + absolute)%Z → session.live row absolute t) ∧
    views.local f.(webauthn.redirect) = true ∧
    session_id_from_parts cookie_key b1 = Some sid ∧
    ceremony_id (jar_of cookie_key b1) = None ∧ session.take_next (jar_of cookie_key b1) = "/" ∧
    ∀ e2 s2 row2 account,
      e2.(jar) = jar_of cookie_key b1 → (the_db s2).(web_sessions) !! sid = Some row2 →
      row2.(web_session.user_id) = uid → session.live row2 absolute e2.(now) →
      (the_db s2).(users) !! uid = Some account →
      (session_user c e2 (the_db s2)).1 = Ok (users.of_row uid account) ∧
      ∃ csrf, session.csrf_for e2.(jar) c.(config.master_key) = Some csrf ∧
        let s3 := serve e2 (Logout csrf) s2 in
        let b3 := receive cookie_key (respond e2 (Logout csrf) s2).(cookies) b1 in
        (the_db s3).(web_sessions) !! sid = None ∧
        session_id_from_parts cookie_key b3 = None ∧
        ∀ e4 s4, e4.(jar) = jar_of cookie_key b1 → (the_db s4).(web_sessions) !! sid = None →
          (session_user c e4 (the_db s4)).1 = Err tt.
Proof.
  intros Hf. cbv zeta.
  destruct (finished_session e call s f Hf) as (uid & row & Hrow & Hb & Hnext & ->).
  assert (∀ n, jar_of cookie_key (receive cookie_key (finished c (Ok f)).(cookies) b) !! n =
    if eqs n session.NEXT_COOKIE then None
    else if eqs n webauthn.CEREMONY_COOKIE then None
    else if eqs n session.SESSION_COOKIE then Some f.(webauthn.sid)
    else jar_of cookie_key b !! n) as Hj.
  { intros n. rewrite jar_of_receive.
    change (rev _) with [session.clear_next_cookie (config.cookie_secure c);
      clear_ceremony_cookie (config.cookie_secure c);
      session.session_cookie f.(webauthn.sid) (config.cookie_secure c)]. cbn [find].
    change (session.cookie_name _) with session.NEXT_COOKIE at 1.
    change (session.cookie_name (clear_ceremony_cookie _)) with webauthn.CEREMONY_COOKIE.
    change (session.cookie_name (session.session_cookie _ _)) with session.SESSION_COOKIE.
    by repeat destruct (eqs n _). }
  set (b1 := receive _ _ _) in *. exists uid, row. split_and!; [done..| | | | | |].
  - destruct Hb as (_ & Hc & He). intros Hi Ha t Ht1 Ht2.
    unfold session.live, session.absolute_deadline. rewrite Hc, He, !i64_wrap_id by done. lia.
  - rewrite Hnext. apply take_next_local.
  - unfold session_id_from_parts. by rewrite Hj.
  - unfold ceremony_id. by rewrite Hj.
  - unfold session.take_next. by rewrite Hj.
  - assert (jar_of cookie_key b1 !! session.SESSION_COOKIE = Some f.(webauthn.sid)) as Hsid
      by (by rewrite Hj).
    intros e2 s2 row2 account Hjar Hr2 Huid Hlive Hacc. split.
    { unfold session_user, session.AuthUser. rewrite Hjar, Hsid. unfold catch.
      rewrite (session.load_and_touch_live _ _ _ _ _ _ Hr2 Hlive). cbn. by rewrite Huid, Hacc. }
    exists (session.csrf_token c.(config.master_key) f.(webauthn.sid)).
    assert (session.csrf_for e2.(jar) c.(config.master_key) =
      Some (session.csrf_token c.(config.master_key) f.(webauthn.sid))) as Hcsrf.
    { unfold session.csrf_for, session.current_session_id. by rewrite Hjar, Hsid. }
    assert (session.check_csrf e2.(jar) c.(config.master_key)
      (session.csrf_token c.(config.master_key) f.(webauthn.sid)) = true) as Hchk.
    { unfold session.check_csrf. rewrite Hcsrf. apply oauth.ct_eq_refl. }
    pose proof (logout_run e2.(jar) (info e2)
      (session.csrf_token c.(config.master_key) f.(webauthn.sid)) e2.(now) f.(webauthn.sid)
      (logged s2)) as [Ho Hd]; [by rewrite Hjar|done|].
    split_and!; [done|exact Hd| |].
    + cbn [http.respond]. rewrite Ho. unfold session_id_from_parts. by rewrite jar_of_receive.
    + intros e4 s4 Hj4 Hn. unfold session_user, session.AuthUser. rewrite Hj4, Hsid. unfold catch.
      by rewrite session.load_and_touch_missing.
Qed.
End browser.
End http.

(** ** Witnesses *)
Module http_witness.
Import hub system wire http.
(** A signature that is the name, the key and the value. *)
Definition cookies0 : CookieCrate := {|
  cookie_sign := λ k n v, (n +:+ "=" +:+ k +:+ ".") +:+ v;
  cookie_verify := λ k n w, strip_prefix (n +:+ "=" +:+ k +:+ ".") w |}.
Lemma cookies0_laws : @CookieLaws cookies0.
Proof.
  split; cbn; intros.
  - apply strip_prefix_app.
  - by apply strip_prefix_Some.
Qed.
Definition serde0 : SerdeJson := {| json_text := λ _, "{}"; json_parse := λ _, None |}.
Definition answers0 : Answers := {|
  with_query := λ u _, u; challenge := json.Null; service := λ _ _, (200%Z, NoBody);
  public_jwk := json.Null; oauth_internal_errors := 0; db_busy_retries := 0;
  json_tools := λ _, 0%Z |}.
#[local] Existing Instances machine0 url0 backend.http0 shlex0 aead0 digest1 digest1_laws
  launch.children0 webauthn.wa0 uuid0 jwt1 world0 views_witness.rmcp0 cookies0 cookies0_laws
  serde0 answers0.

(** The account [u] has a passkey and a login in progress. *)
Definition login0 : webauthn.AuthCeremony := {|
  webauthn.auth_state := tt : @AuthState webauthn.wa0; webauthn.auth_user_id := "u";
  webauthn.auth_created_at := 40 |}.
Definition waiting : Sys := {|
  hub := (with_db db2 sys0).(hub); codes := ∅; reg_states := ∅; auth_states := {["c" := login0]};
  bindings := ∅; counters := ∅ |}.
Definition env1 : Env := {|
  now := 50; jar := ∅; http_headers := ∅; fresh := isolation.fresh0; random := "r";
  session_key := "m" |}.
Definition login_call : Call := LoginFinish (Some "c") ("pk" : @AuthResponse webauthn.wa0) "sid1".
Definition finish1 : webauthn.Finish := {| webauthn.sid := "sid1"; webauthn.redirect := "/" |}.
Abbreviation serve0 := (serve cfg0 signer1 "1" "src" "v").
Abbreviation respond0 := (respond cfg0 signer1 "1" "src" "v").
Abbreviation key0 := (derive_cookie_key cfg0.(config.master_key)).
Definition browser1 : gmap string string :=
  receive key0 (respond0 env1 login_call waiting).(cookies) ∅.
Definition env2 : Env := {|
  now := 60; jar := jar_of key0 browser1; http_headers := ∅; fresh := isolation.fresh0; random := "r";
  session_key := "m" |}.

Lemma sign_in_round_trip_witness :
  (session_user cfg0 env2 (the_db (serve0 env1 login_call waiting))).1 =
    Ok (users.of_row "u" user0).
Proof.
  destruct (sign_in_round_trip cfg0 signer1 "1" "src" "v" env1 login_call waiting finish1 ∅)
    as (uid & row & Hrow & (Hu & Hc & He) & Hlive & _ & _ & _ & _ & Hnext).
  { vm_compute. reflexivity. }
  vm_compute in Hrow. injection Hrow as <-. vm_compute in Hu. subst uid.
  edestruct (Hnext env2 (serve0 env1 login_call waiting)) as [Hok _]; [| | | | |exact Hok].
  - vm_compute. reflexivity.
  - vm_compute. reflexivity.
  - reflexivity.
  - apply Hlive; vm_compute; repeat split; discriminate.
  - vm_compute. reflexivity.
Defined.
Lemma responses_hardened_witness :
  header "x-frame-options" (secured (respond0 env2 delete0 waiting)) = ["DENY"].
Proof.
  refine (proj1 (responses_hardened cfg0 signer1 "1" "src" "v" eq_refl eq_refl env2 delete0 waiting)
    "x-frame-options" "DENY" _).
  by repeat (first [left|right]).
Defined.
End http_witness.
